(* ===== verification/_CoqProject ===== *)
-Q . S2P
Prelude.v
Bytes.v
JsText.v
Interfaces.v
Utils.v
Consts.v
EventScan.v
SvmSpoke.v
SvmUtils.v
SvmLeaves.v
SvmFills.v
SvmFillTokens.v
MerkleTrees.v
SampleTree.v
SvmState.v
SvmClient.v
CloseRelays.v
SvmBundle.v
SvmScripts.v
SvmFillScripts.v
ExternalTypes.v
SvmMessages.v
FakeRepayment.v
Cctp.v
RemotePause.v
FinalizeCctp.v
ClaimLinea.v
ClaimPolygonZkEvm.v
ScrollTasks.v
ZkSyncScript.v
Airdrop.v
TokenMetadata.v
DeploymentUtils.v
VerifySpokePool.v
AbiSpec.v
Hre.v
DeploySpec.v
DeployAdapters.v
DeploySpokes.v
HardhatConfig.v
HubPoolAdmin.v
EnableToken.v
AdminScripts.v
ChainAdapterTask.v
Solidity.v
HubWorld.v
HubPool.v
HubPoolLiquidity.v
HubPoolBundles.v
HubPoolHistory.v
HubPoolSample.v
HubPoolViews.v
OtherScripts.v
SpokePool.v
SpokePoolCalls.v
SpokePoolSafety.v
SpokePoolLeaves.v
SpokePoolFunds.v
SpokePoolRoutes.v
SpokePoolSample.v
SpokePoolViews.v
