(* ===== verification/Prelude.v ===== *)
(** * Across V3: the off-chain tooling and what it drives

    The repository holds the Across V3 bridge: Solidity contracts (a hub pool
    on Ethereum, a spoke pool and an adapter per chain), a Solana spoke pool in
    Rust, and the TypeScript that deploys, configures and operates them.  This
    library models the TypeScript, the hub pool, the spoke pool contract, the
    Solana program, and of the other contracts the parts the TypeScript has to
    agree with or that its effect is stated on.

    ** How programs are modelled

    Pure functions are Coq functions; a function that may throw returns a
    [result] ([TypeError] for a property of [undefined], [JsError] for an
    [Error], [ProcessExit]).  An asynchronous script is a value of [prog E A]:
    a tree of calls to the services listed in [E] (chains, wallets, hardhat,
    APIs, the user), whose continuation receives the answer or the error.
    [run] executes it in an environment that sees all earlier calls, so a
    theorem over all environments covers every behaviour of the services;
    [run_state] executes it against a stateful service (a contract, a Solana
    program).  [wp] is the program logic the safety theorems use: every call
    satisfies one predicate, the outcome another.  Console output is left out.
    JavaScript objects are lists of properties in creation order ([js_lookup],
    [js_set]); numbers that are only chain ids, indices or amounts are [Z],
    with the bounds of their encodings written out; [NaN] and [undefined] are
    [None] or [JUndef].

    ** The files

    - [Prelude]: results, programs, program logic, JavaScript objects, slices.
    - [Bytes], [JsText]: bytes, words and Node buffers; text, hexadecimal,
      [parseInt] and [Number].
    - [Interfaces]: the packages and crates the source calls and does not
      contain (keccak, bn.js, Borsh, web3.js, ethers, anchor, MultiCaller), as
      classes with their documented laws and concrete instances for witnesses;
      the limits of the Solana runtime.
    - [Consts]: [deploy/consts.ts], [utils/constants.ts].  The npm package of
      chain ids and token addresses is the class [AcrossConstants].
    - [Utils]: [utils/utils.ts], with file trees for the artifact search,
      balances for the seeding helpers, and text as hexadecimal.
    - [EventScan]: [getSrcEvents], the block scan of both claim scripts.
    - [FinalizeCctp], [ClaimLinea], [ClaimPolygonZkEvm]:
      [scripts/finalizeCCTPMessages.ts], [claimLineaMessages.ts] and
      [claimPolygonZkEvmMessages.ts]; [ScrollTasks]:
      [tasks/finalizeScrollClaims.ts] and [rescueStuckScrollTxn.ts].
    - [Cctp]: the message codec of [test/svm/cctpHelpers.ts]; [RemotePause]:
      its attestation polling and [scripts/svm/remotePauseDeposits.ts].
    - The Solana program [programs/svm-spoke]: [SvmSpoke], the hashes, the
      Merkle proof check, the claimed bitmap and the parameters account;
      [SvmFills], [fill.rs] and [slow_fill.rs] as a state machine over time,
      and [SvmFillTokens], with the tokens they move;
      [SvmState], [admin.rs], [deposit.rs] and the state account; [SvmBundle],
      [bundle.rs], [refund_claims.rs] and [token_bridge.rs] over an abstract
      token program, with the specification they refine; [SvmMessages],
      [handle_receive_message.rs] and [cctp_utils.rs].
    - The Solana scripts: [SvmUtils], [src/SvmUtils.ts]; [SvmLeaves], the leaf
      hashing and parameter loading of [test/svm/utils.ts]; [MerkleTrees] and
      [SampleTree], the tree class of [utils/MerkleTree.ts] and
      [scripts/buildSampleTree.ts]; [SvmClient], addresses and account objects
      the scripts share, with the constraints of the instructions;
      [SvmScripts], [initialize.ts], [enableRoute.ts], [simpleDeposit.ts],
      [queryRoute.ts] and [queryState.ts]; [SvmFillScripts], [simpleFill.ts],
      [queryFills.ts], [queryDeposits.ts] and
      [closeDataWorkerLookUpTables.ts]; [FakeRepayment],
      [simpleFakeRelayerRepayment.ts]; [CloseRelays], [closeRelayerPdas.ts];
      [ExternalTypes], [generateExternalTypes.ts].  Each is run against the
      model of the program as a stateful service, Anchor's encoding of the
      arguments and the account checks included.
    - [Airdrop], [TokenMetadata]: [scripts/mintERC1155.ts] with
      [MintableERC1155.sol], and [scripts/setERC1155Metadata.ts];
      [ZkSyncScript]: [scripts/zkSync.ts].
    - [DeploymentUtils]: [src/DeploymentUtils.ts] and
      [scripts/processHardhatExport.ts]; [VerifySpokePool]:
      [tasks/verifySpokePool.ts].
    - [AbiSpec]: the constructors and initializers of the deployed contracts,
      read off the Solidity sources, and when arguments fit them.
    - [Hre]: [utils/utils.hre.ts]; [DeploySpec]: what a deployment script
      promises ([conforms]) and under which answers ([row]); [DeployAdapters]
      and [DeploySpokes]: the 51 scripts of [deploy/], one definition each.
    - [HardhatConfig]: networks, companions, explorers, compiler and other
      settings of [hardhat.config.ts].
    - [HubPoolAdmin]: the administrative functions of [HubPool.sol] and
      [setEnableRoute] of [SpokePool.sol]; [EnableToken]:
      [tasks/enableL1TokenAcrossEcosystem.ts] and the question of
      [tasks/utils.ts]; [AdminScripts]: [scripts/setupArbitrumSpokePool.ts],
      [setupOptimismSpokePool.ts] and [deployZkSyncSpokePoolProxy.ts];
      [ChainAdapterTask]: [tasks/testChainAdapter.ts].
    - The hub pool: [Solidity], checked arithmetic, casts and ABI words of
      Solidity 0.8; [HubWorld], the contracts the hub pool calls (tokens, UMA,
      adapters) as classes over the state of everything outside it, with a
      concrete world; [HubPool], the whole of [contracts/HubPool.sol] with the
      one-dimensional claims of [MerkleLib.sol]: storage as the record
      [hub_pool], a definition per function, [pool_exec] for a transaction,
      [pool_step] and [pool_steps] for histories; [HubPoolLiquidity], the
      accounting invariant [sound] and what each call does to it;
      [HubPoolBundles], the abstract life cycle of root bundles and its
      refinement; [HubPoolHistory], the theorems on histories and on the
      exchange rate; [HubPoolSample], a history executed; [HubPoolViews], that
      [HubPool] implements [HubPoolAdmin].
    - The EVM spoke pool: [SpokePool], the whole of [contracts/SpokePool.sol]
      with the multicalls and claims it inherits: storage as the record
      [spoke_pool], what the contracts of the chains override as the class
      [SpokeChild] ([Ethereum_SpokePool.sol] is an instance), a definition per
      function, [exec] for a call with the re-entrance of the contracts it
      reaches, [spoke_steps] for histories; [SpokePoolCalls], how a relation
      between states is shown to hold around every call; [SpokePoolSafety],
      fills, [SpokePoolLeaves], refund leaves, [SpokePoolFunds], balances,
      [SpokePoolRoutes], pools behind a proxy and ERC-7683 orders;
      [SpokePoolSample], a history executed; [SpokePoolViews], that the pools
      implement the delivery of messages in [HubPoolAdmin].
    - [OtherScripts]: [scripts/upgradeTo.ts], [arbitrumRescueAdapter.ts] with
      [Arbitrum_RescueAdapter.sol], [byteCodeCalculator.ts], and the ABI
      literals of [utils/abis.ts] and [tasks/utils.ts].

    ** What is proved

    - The Solana program: no relay is filled twice in any reachable state,
      and its account stays until the deadline; recipients are paid once and
      the balances of the token accounts are explained exactly; every leaf
      is executed at most once and payouts plus open claims are the refunds
      of the executed leaves; the detailed instructions refine a
      specification of credits and withdrawals; a leaf within the limits of
      the runtime pays; a message of the cross domain admin runs exactly the
      call it encodes,
      and nobody else but the owner administers the program; Merkle proofs
      are complete and sound.
    - The hub pool, in every reachable state and for every behaviour of the
      contracts it calls: its proposal follows the life cycle of root bundles,
      no leaf is executed twice or before the challenge period is over; what it
      holds for liquidity providers is exactly deposits plus their share of the
      fees less withdrawals and haircuts; liquid reserves and the bond of an
      active proposal are covered by its balance, up to the protocol fees it
      paid out; undistributed fees stay within the reserves unless the owner
      makes a haircut; the exchange rate is exact, and depositing and
      withdrawing in one block gains nothing but rounding; the small model the
      token task is verified against is implemented by the whole contract.
    - The EVM spoke pool, in every reachable state, for every behaviour of the
      contracts it calls and every re-entrance: each relay is filled at most
      once, in time and by whom it is reserved for; slow fills and refund
      leaves need a published root, and each leaf is executed at most once;
      its balances cover what its events say; the pools of all chains
      implement the small model of their routes.  And what the contract cannot
      do: behind a proxy it takes no deposit, on Ethereum it cannot even be
      administered, and its ERC-7683 entry reverts on the orders that the
      depositor contract writes.
    - The Solana scripts: their hashes are those of the program and identify
      what they hash up to keccak collisions; parameters are loaded whole, up
      to the 10240 bytes an account is created with; the repayment script pays
      each relayer its refund and no one else, when the transaction it does not
      wait for is included before it closes the parameters, and nobody
      otherwise; set-up, deposit and query scripts compose on a new pool; the
      deposit is accepted in an exact window of clock differences, the fill
      exactly when the program allows it (and never without exclusivity);
      events are listed completely; expired fill accounts of the pool's seed
      and lookup tables are closed.
    - Messages and claims: the codec round-trips; the receiving and claiming
      loops submit only what is open, in order, and survive failures, the CCTP
      one against a contract whose nonces become used; the scan covers every
      block once, except the latest one for some lookbacks; polling returns
      the first complete answer.
    - Deployment and administration: every script passes arguments its
      contract accepts on each network it serves (and is shown not to on the
      configured networks it does not serve); proxies are never replaced; the
      verification task accepts exactly the right pools; the exact effect of
      the enable-token and set-up calldata, and when it is sent; the exact
      effect of the airdrop and of the metadata script; the look-ups of
      deployments.json and of artifacts; what the small scripts print, against
      the contracts that receive it.

    Where the code falls short of what it says, the theorem states what it
    does: the remote pause script always fails at its chain check, the zkEVM
    script has no bridge on L1, the zkSync proxy script has no address table,
    the CCTP script receives nothing on a mainnet L2, and so on.

    ** Fuel and bounds

    [scan_loop] gets one more than the lookback, and each window advances by
    at least one block; [slices] and [chunk_loop] the indices left.  Polling
    ([requestAttestation], [getMessages], [wait_known], [askYesNoQuestion]) has
    no bound in the source: fuel is the number of answers, theorems hold for
    every fuel, and [requestAttestation_polls] and [getMessages_first_ready] say
    which fuel is enough.  The fuel of [SpokePool.exec] is the depth of the call
    stack, which the EVM bounds by 1024; its theorems hold for every depth.

    Addresses derived from seeds need not exist: [findProgramAddressSync]
    throws for a seed of more than 32 bytes, and the theorems ask for the
    addresses a run derives ([has_pda], [has_state], [has_route]).  The limits
    of the Solana runtime are constants where they are documented (10240 bytes
    for the growth of an account in an instruction, 1232 for a transaction, 64
    account locks, 30 and 256 addresses for lookup tables); how many refunds
    fit the heap and the nested instruction of an event, and the compute units
    asked for, is the class [SolanaRuntime], with the numbers the tests of the
    program report (28 refunds run, more than 31 do not).

    ** What is not modelled

    Gas, lamports and rent, console output that is not a script's result, and
    the timing of concurrent requests ([Promise.all] and [Promise.allSettled]
    are taken in order).  The token program is a class with its documented
    laws; the CCTP programs, the address lookup table program and the Anchor
    command are services.  That addresses added to a lookup table can be used
    from the next slot on is not modelled (the script that adds them confirms
    further transactions first).  What the remote pause script would do on
    chain after its failing check is not claimed.  Of the Solidity contracts, what the spoke pools of
    the L2 chains override and the adapters are not modelled, apart from the
    functions named above, nor is what the hub pool inherits from the
    OpenZeppelin library (the transfer of its ownership), nor the replacement
    of a spoke pool's implementation behind its proxy; ether sent to a pool is
    a change of the outside world.  Timestamps are those of 32 bits.  The imports, command line
    wrappers and re-exports of the scripts carry no behaviour, and the tests
    and their fakes are outside the library. *)

From stdpp Require Import base gmap strings list fin_maps.
From Stdlib Require Import ZArith Lia.

#[global] Open Scope Z_scope.

(** ** Results of JavaScript computations *)

(** What a TypeScript function can do besides returning: throw a [TypeError]
    (reading a property of [undefined]), throw an [Error] with a message, or
    leave the process ([process.exit]). *)
Inductive js_error :=
| TypeError
| JsError (msg : string)
| ProcessExit (code : Z).

#[global] Instance js_error_eq_dec : EqDecision js_error.
Proof. solve_decision. Defined.

Inductive result (A : Type) :=
| Ok (a : A)
| Err (e : js_error).
Arguments Ok {A} a.
Arguments Err {A} e.

#[global] Instance result_eq_dec {A} `{EqDecision A} : EqDecision (result A).
Proof. solve_decision. Defined.

Lemma Ok_inj {A} (a b : A) : Ok a = Ok b → a = b.
Proof. congruence. Qed.

Definition result_bind {A B} (r : result A) (k : A → result B) : result B :=
  match r with Ok a => k a | Err e => Err e end.

Definition from_option_err {A} (e : js_error) (o : option A) : result A :=
  match o with Some a => Ok a | None => Err e end.

Lemma bind_ok {A B} (a : A) (k : A → result B) : result_bind (Ok a) k = k a.
Proof. done. Qed.

Lemma from_some {A} e (a : A) : from_option_err e (Some a) = Ok a.
Proof. done. Qed.

Definition result_default {A} (d : A) (r : result A) : A :=
  match r with Ok a => a | Err _ => d end.

(** [require!], and the [if (...) return err!(...)] of the Rust program. *)
Definition require (b : bool) (e : js_error) : result unit := if b then Ok tt else Err e.

Definition is_ok {A} (r : result A) : bool :=
  match r with Ok _ => true | Err _ => false end.

(** ** Effectful programs

    An asynchronous script is a tree of calls to services outside the
    repository ([E] lists them with the type of their answers).  A call may
    fail, in which case the continuation receives the error. *)
Inductive prog (E : Type → Type) (A : Type) : Type :=
| Ret (a : A)
| Throw (e : js_error)
| Vis {X : Type} (c : E X) (k : result X → prog E A).
Arguments Ret {E A} a.
Arguments Throw {E A} e.
Arguments Vis {E A X} c k.

Fixpoint bind {E A B} (p : prog E A) (f : A → prog E B) : prog E B :=
  match p with
  | Ret a => f a
  | Throw e => Throw e
  | Vis c k => Vis c (λ r, bind (k r) f)
  end.

Definition lift {E A} (r : result A) : prog E A :=
  match r with Ok a => Ret a | Err e => Throw e end.

(** [await service(...)]: an error of the service is thrown in the script. *)
Definition call {E X} (c : E X) : prog E X := Vis c lift.

(** [try { p } catch (e) { h }].  Leaving the process is not an exception. *)
Fixpoint try_catch {E A} (p : prog E A) (h : js_error → prog E A) : prog E A :=
  match p with
  | Ret a => Ret a
  | Throw (ProcessExit n) => Throw (ProcessExit n)
  | Throw e => h e
  | Vis c k => Vis c (λ r, try_catch (k r) h)
  end.

(** A program over one family of services, among others. *)
Fixpoint translate {E F : Type → Type} {A} (f : ∀ X, E X → F X) (p : prog E A) : prog F A :=
  match p with
  | Ret a => Ret a
  | Throw e => Throw e
  | Vis c k => Vis (f _ c) (λ r, translate f (k r))
  end.

Declare Scope prog_scope.
Delimit Scope prog_scope with prog.
Notation "'let!' x ':=' m 'in' k" := (bind m (λ x, k))
  (at level 10, x pattern, m at level 100, k at level 200,
   format "'[v' 'let!'  x  ':='  m  'in' '/' k ']'") : prog_scope.
Notation "m ';;' k" := (bind m (λ _, k))
  (at level 100, right associativity,
   format "'[v' m  ';;' '/' k ']'") : prog_scope.
Notation "'let?' x ':=' m 'in' k" := (result_bind m (λ x, k))
  (at level 10, x pattern, m at level 100, k at level 200,
   format "'[v' 'let?'  x  ':='  m  'in' '/' k ']'") : prog_scope.
#[global] Open Scope prog_scope.

(** [for (const x of xs) body(x)] *)
Fixpoint for_each {E A} (xs : list A) (body : A → prog E unit) : prog E unit :=
  match xs with
  | [] => Ret tt
  | x :: xs' => body x ;; for_each xs' body
  end.

(** The loop that pushes the answer for every element on an array. *)
Fixpoint for_collect {E A B} (xs : list A) (body : A → prog E B) : prog E (list B) :=
  match xs with
  | [] => Ret []
  | x :: xs' => let! y := body x in let! ys := for_collect xs' body in Ret (y :: ys)
  end.

(** ** Running a program

    An environment answers a call knowing everything called before, so one
    theorem over all environments covers every behaviour of the services. *)
Inductive event (E : Type → Type) : Type := | Event {X : Type} (c : E X).
Arguments Event {E X} c.
Definition ev_type {E} (e : event E) : Type := match e with @Event _ X _ => X end.
Definition ev_cmd {E} (e : event E) : E (ev_type e) := match e with Event c => c end.
Definition env (E : Type → Type) : Type := list (event E) → ∀ X, E X → result X.

Fixpoint run {E A} (ev : env E) (h : list (event E)) (p : prog E A)
  : result A * list (event E) :=
  match p with
  | Ret a => (Ok a, h)
  | Throw e => (Err e, h)
  | Vis c k => run ev (h ++ [Event c]) (k (ev h _ c))
  end.

Definition outcome {E A} (ev : env E) (p : prog E A) : result A := fst (run ev [] p).
Definition trace {E A} (ev : env E) (p : prog E A) : list (event E) := snd (run ev [] p).

Section Run.
Context {E : Type → Type}.
Implicit Types ev : env E.

Lemma run_bind {A B} ev h (p : prog E A) (f : A → prog E B) :
  run ev h (bind p f) =
    match run ev h p with
    | (Ok a, h') => run ev h' (f a)
    | (Err e, h') => (Err e, h')
    end.
Proof. revert h; induction p; intros h; cbn; auto. Qed.

Lemma run_call {X} ev h (c : E X) :
  run ev h (call c) = (ev h X c, h ++ [Event c]).
Proof. cbn. destruct (ev h X c); reflexivity. Qed.

Lemma run_lift {A} ev h (r : result A) : run ev h (lift r) = (r, h).
Proof. by destruct r. Qed.
End Run.

(** ** Running against a stateful service

    A handler gives each call its answer and its effect on the state of the
    service (a contract, a Solana program, a file). *)
Definition handler (S : Type) (E : Type → Type) : Type := ∀ X, S → E X → result X * S.

Fixpoint run_state {S E A} (hd : handler S E) (s : S) (p : prog E A) : result A * S :=
  match p with
  | Ret a => (Ok a, s)
  | Throw e => (Err e, s)
  | Vis c k => let '(r, s') := hd _ s c in run_state hd s' (k r)
  end.

Section RunState.
Context {S : Type} {E : Type → Type} (hd : handler S E).

Lemma run_state_bind {A B} s (p : prog E A) (f : A → prog E B) :
  run_state hd s (bind p f) =
    match run_state hd s p with
    | (Ok a, s') => run_state hd s' (f a)
    | (Err e, s') => (Err e, s')
    end.
Proof.
  revert s; induction p as [| |X c k IH]; intros s; cbn; auto.
  destruct (hd X s c). apply IH.
Qed.

Lemma run_state_call {X} s (c : E X) : run_state hd s (call c) = hd X s c.
Proof. cbn. destruct (hd X s c) as [[]]; reflexivity. Qed.

Lemma run_state_lift {A} s (r : result A) : run_state hd s (lift r) = (r, s).
Proof. by destruct r. Qed.

(** A service that answers the translated calls without changing its state
    runs a program like the environment giving those answers. *)
Lemma run_state_translate {E'} (f : ∀ X, E' X → E X) (ans : ∀ X, E' X → result X) :
  (∀ X s (c : E' X), hd X s (f X c) = (ans X c, s)) →
  ∀ A s (p : prog E' A) h, run_state hd s (translate f p) = (fst (run (λ _, ans) h p), s).
Proof.
  intros Hf A s p. induction p as [| |X c k IH]; intros h; cbn; [done..|].
  rewrite Hf. apply IH.
Qed.

(** An exception handler matters only when the body throws. *)
Lemma run_state_try_ok {A} s (p : prog E A) g a s' :
  run_state hd s p = (Ok a, s') → run_state hd s (try_catch p g) = (Ok a, s').
Proof.
  revert s. induction p as [b|e|X c k IH]; intros s; cbn; [done|done|].
  destruct (hd X s c). apply IH.
Qed.

Lemma run_state_try_err {A} s (p : prog E A) g m s' :
  run_state hd s p = (Err (JsError m), s') → run_state hd s (try_catch p g) = run_state hd s' (g (JsError m)).
Proof.
  revert s. induction p as [b|e|X c k IH]; intros s; cbn; [done|by intros [= -> ->]|].
  destruct (hd X s c). apply IH.
Qed.

(** A loop preserves an invariant its body preserves. *)
Lemma run_state_for_each {A} (I : list A → S → Prop) (body : A → prog E unit) xs s :
  (∀ x ys s, I (x :: ys) s → ∃ s', run_state hd s (body x) = (Ok tt, s') ∧ I ys s') →
  I xs s → ∃ s', run_state hd s (for_each xs body) = (Ok tt, s') ∧ I [] s'.
Proof.
  intros Hb. revert s. induction xs as [|x xs IH]; intros s Hs; cbn [for_each].
  - by exists s.
  - rewrite run_state_bind. destruct (Hb x xs s Hs) as (s1 & -> & H1). by apply IH.
Qed.
End RunState.

(** ** A small program logic

    [wp R P Q h p]: started after the calls [h], as long as every service
    answers within [R], each call the program makes satisfies [P] (which sees
    the calls before it) and the outcome satisfies [Q] (which sees them all). *)
Fixpoint wp {E A} (R : ∀ X, E X → result X → Prop) (P : list (event E) → ∀ X, E X → Prop)
    (Q : list (event E) → result A → Prop) (h : list (event E)) (p : prog E A) : Prop :=
  match p with
  | Ret a => Q h (Ok a)
  | Throw e => Q h (Err e)
  | @Vis _ _ X c k => P h X c ∧ ∀ r, R X c r → wp R P Q (h ++ [Event c]) (k r)
  end.

Definition respects {E} (R : ∀ X, E X → result X → Prop) (ev : env E) : Prop :=
  ∀ h X (c : E X), R X c (ev h X c).

(** Every call of a trace satisfies [P], given the calls before it. *)
Definition trace_ok {E} (P : list (event E) → ∀ X, E X → Prop) (t : list (event E)) : Prop :=
  ∀ i e, t !! i = Some e → P (take i t) (ev_type e) (ev_cmd e).

Section Wp.
Context {E : Type → Type} (R : ∀ X, E X → result X → Prop).
Implicit Types P : list (event E) → ∀ X, E X → Prop.

Lemma trace_ok_snoc P t X (c : E X) :
  trace_ok P t → P t X c → trace_ok P (t ++ [Event c]).
Proof.
  intros Ht Hc i e [[Hlt Hi]|[-> <-]]%lookup_snoc_Some.
  - rewrite take_app_le by (apply Nat.lt_le_incl, Hlt). by apply Ht.
  - by rewrite take_app_length.
Qed.

Implicit Types ev : env E.

Lemma wp_run {A} P (Q : list (event E) → result A → Prop) ev h (p : prog E A) :
  respects R ev → trace_ok P h → wp R P Q h p →
  trace_ok P (snd (run ev h p)) ∧ Q (snd (run ev h p)) (fst (run ev h p)).
Proof.
  intros Hev. revert h. induction p as [| |X c k IH]; intros h Hh Hp; cbn in *; auto.
  destruct Hp as [Hc Hk]. apply IH; [by apply trace_ok_snoc|]. by apply Hk, Hev.
Qed.

Lemma wp_trace {A} P (Q : list (event E) → result A → Prop) ev (p : prog E A) :
  respects R ev → wp R P Q [] p → trace_ok P (trace ev p) ∧ Q (trace ev p) (outcome ev p).
Proof. intros Hev. apply wp_run; [done|]. intros i e. by rewrite lookup_nil. Qed.

Lemma wp_mono {A} P P' (Q Q' : list (event E) → result A → Prop) h (p : prog E A) :
  (∀ h X (c : E X), P h X c → P' h X c) → (∀ h r, Q h r → Q' h r) →
  wp R P Q h p → wp R P' Q' h p.
Proof.
  intros HP HQ. revert h. induction p as [| |X c k IH]; intros h; cbn; auto.
  intros [Hc Hk]. split; [auto|]. intros r Hr. by apply IH, Hk.
Qed.

Lemma wp_bind {A B} P (Q : list (event E) → result B → Prop) h (p : prog E A) (f : A → prog E B) :
  wp R P (λ h' r, match r with Ok a => wp R P Q h' (f a) | Err e => Q h' (Err e) end) h p →
  wp R P Q h (bind p f).
Proof.
  revert h. induction p as [a|e|X c k IH]; intros h; cbn; [done..|].
  intros [Hc Hk]. split; [done|]. intros r Hr. by apply IH, Hk.
Qed.
End Wp.

Lemma elem_of_concat_map {A B} (f : A → list B) (l : list A) (y : B) :
  y ∈ concat (map f l) ↔ ∃ x, x ∈ l ∧ y ∈ f x.
Proof.
  induction l as [|x l IH]; cbn.
  - split; [by intros ?%not_elem_of_nil|]. intros (x & Hx & _). by apply not_elem_of_nil in Hx.
  - rewrite elem_of_app, IH. setoid_rewrite elem_of_cons. split.
    + intros [?|(z & ? & ?)]; eauto.
    + intros (z & [->|?] & ?); eauto.
Qed.

(** [xs.map(f)] when [f] may throw. *)
Fixpoint map_result {A B} (f : A → result B) (l : list A) : result (list B) :=
  match l with
  | [] => Ok []
  | x :: l' => let? y := f x in let? ys := map_result f l' in Ok (y :: ys)
  end.

Lemma map_result_ok {A B} (f : A → result B) (g : A → B) l :
  Forall (λ x, f x = Ok (g x)) l → map_result f l = Ok (map g l).
Proof. induction 1 as [|x l Hx _ IH]; cbn; [done|]. by rewrite Hx, IH. Qed.

(** What was computed comes from the elements, one by one. *)
Lemma map_result_Forall2 {A B} (f : A → result B) l l' :
  map_result f l = Ok l' → Forall2 (λ x y, f x = Ok y) l l'.
Proof.
  revert l'. induction l as [|x l IH]; cbn; intros l'; [by intros [= <-]|].
  destruct (f x) as [y|] eqn:Hy; [|done]. cbn. destruct (map_result f l) as [ys|]; [|done].
  cbn. intros [= <-]. constructor; auto.
Qed.

(** ** JavaScript objects used as maps

    An object is the list of its properties in creation order.  In a literal
    with a repeated key the last binding wins; assignment replaces the value of
    an existing key and appends a new one. *)
Section JsObjects.
Context {K V : Type} `{EqDecision K}.

Fixpoint js_lookup (l : list (K * V)) (k : K) : option V :=
  match l with
  | [] => None
  | (k', v) :: l' =>
      match js_lookup l' k with
      | Some w => Some w
      | None => if decide (k' = k) then Some v else None
      end
  end.

Fixpoint js_set (l : list (K * V)) (k : K) (v : V) : list (K * V) :=
  match l with
  | [] => [(k, v)]
  | (k', w) :: l' => if decide (k' = k) then (k, v) :: l' else (k', w) :: js_set l' k v
  end.

Definition js_keys (l : list (K * V)) : list K := map fst l.

Lemma js_lookup_None l k : js_lookup l k = None ↔ k ∉ js_keys l.
Proof.
  induction l as [|[k' v] l IH]; cbn; [split; [by intros _ ?%not_elem_of_nil|done]|].
  rewrite not_elem_of_cons, <- IH. destruct (js_lookup l k).
  - split; [done|]. by intros [_ ?].
  - case_decide as Hk; split.
    + done.
    + intros [Hne _]. by destruct Hne.
    + intros _. split; [|done]. intros ->. by apply Hk.
    + done.
Qed.

Lemma js_lookup_Some_in l k v : js_lookup l k = Some v → (k, v) ∈ l.
Proof.
  induction l as [|[k' w] l IH]; cbn; [done|]. destruct (js_lookup l k) eqn:Hl.
  - intros [= ->]. right. by apply IH.
  - case_decide; [|done]. intros [= ->]. subst. by left.
Qed.

Lemma js_lookup_in l k v : NoDup (js_keys l) → (k, v) ∈ l → js_lookup l k = Some v.
Proof.
  induction l as [|[k' w] l IH]; cbn; [by intros _ ?%not_elem_of_nil|].
  intros [Hk' Hl]%NoDup_cons [[= -> ->]|Hin]%elem_of_cons.
  - assert (js_lookup l k' = None) as -> by (by apply js_lookup_None). by rewrite decide_True.
  - by rewrite (IH Hl Hin).
Qed.

Lemma elem_of_js_keys l k : k ∈ js_keys l ↔ is_Some (js_lookup l k).
Proof.
  destruct (js_lookup l k) eqn:Hl.
  - split; [eauto|]. intros _. apply dec_stable. intros Hn%js_lookup_None. congruence.
  - apply js_lookup_None in Hl. split; [done|]. by intros [? [=]].
Qed.

Lemma js_keys_cons x l : js_keys (x :: l) = x.1 :: js_keys l.
Proof. done. Qed.

Lemma js_keys_set l k v :
  js_keys (js_set l k v) = if decide (k ∈ js_keys l) then js_keys l else js_keys l ++ [k].
Proof.
  induction l as [|[k' w] l IH]; cbn [js_set].
  - rewrite decide_False by apply not_elem_of_nil. done.
  - rewrite (js_keys_cons (k', w)). destruct (decide (k' = k)) as [->|Hne].
    + rewrite decide_True by (by left). done.
    + rewrite js_keys_cons, IH. cbn [fst]. destruct (decide (k ∈ js_keys l)).
      * by rewrite decide_True by (by right).
      * rewrite decide_False; [done|]. intros [?|?]%elem_of_cons; congruence.
Qed.

Lemma js_lookup_set l k v k' : NoDup (js_keys l) →
  js_lookup (js_set l k v) k' = if decide (k = k') then Some v else js_lookup l k'.
Proof.
  induction l as [|[k0 w] l IH]; cbn; intros Hnd; [done|].
  apply NoDup_cons in Hnd as [Hk0 Hnd].
  destruct (decide (k0 = k)) as [->|Hne]; cbn.
  - destruct (decide (k = k')) as [->|].
    + by rewrite (proj2 (js_lookup_None l k') Hk0).
    + by destruct (js_lookup l k').
  - rewrite (IH Hnd). destruct (decide (k = k')) as [->|]; [done|].
    by destruct (js_lookup l k').
Qed.

Lemma js_set_NoDup l k v : NoDup (js_keys l) → NoDup (js_keys (js_set l k v)).
Proof.
  intros Hnd. rewrite js_keys_set. case_decide as Hin; [done|].
  apply NoDup_app. split_and!; [done| |apply NoDup_singleton].
  intros x Hx ->%list_elem_of_singleton. done.
Qed.
End JsObjects.

(** ** Splitting a list in slices, the idiom [for (i += n) xs.slice(i, i + n)] *)
Section Chunks.
Context {A : Type}.

Definition slice (l : list A) (i j : nat) : list A := take (j - i) (drop i l).

(** [fuel] bounds the number of iterations; [length l] is enough when [n > 0]. *)
Fixpoint slices_from (fuel : nat) (n : nat) (l : list A) (i : nat) : list (nat * list A) :=
  match fuel with
  | O => []
  | S fuel' =>
      if (i <? length l)%nat
      then (i, slice l i (i + n)) :: slices_from fuel' n l (i + n)
      else []
  end.

Definition slices (n : nat) (l : list A) (i : nat) : list (nat * list A) :=
  slices_from (length l) n l i.

Lemma slices_from_concat fuel n l i :
  (0 < n)%nat → (length l - i ≤ fuel)%nat →
  concat (map snd (slices_from fuel n l i)) = drop i l.
Proof.
  intros Hn. revert i. induction fuel as [|fuel IH]; intros i Hf; cbn [slices_from].
  - cbn. rewrite drop_ge; [done|lia].
  - destruct (Nat.ltb_spec i (length l)) as [Hi|Hi]; cbn [map concat fst snd].
    + rewrite (IH (i + n)%nat) by lia. unfold slice.
      replace (i + n - i)%nat with n by lia.
      rewrite <- (take_drop n (drop i l)) at 2. by rewrite drop_drop.
    + by rewrite drop_ge by lia.
Qed.

Lemma slices_concat n l i :
  (0 < n)%nat → concat (map snd (slices n l i)) = drop i l.
Proof. intros. apply slices_from_concat; lia. Qed.

Lemma slices_from_small fuel n l i j s :
  (0 < n)%nat → (j, s) ∈ slices_from fuel n l i → (0 < length s ≤ n)%nat.
Proof.
  intros Hn. revert i. induction fuel as [|fuel IH]; intros i; cbn [slices_from].
  - by intros ?%not_elem_of_nil.
  - destruct (Nat.ltb_spec i (length l)); [|by intros ?%not_elem_of_nil].
    intros [[= -> ->]|Hin]%elem_of_cons; [|by eapply IH].
    unfold slice. rewrite length_take, length_drop. lia.
Qed.
End Chunks.

(** ** Automation shared by the components *)
Create HintDb across.
Create Rewrite HintDb across.
#[export] Hint Resolve wp_bind : across.
#[export] Hint Rewrite @run_bind @run_call @run_lift @run_state_bind @run_state_call @run_state_lift : across.

(** Goes through the checks a computation passed. *)
Ltac passes Hx :=
  repeat (match type of Hx with
  | result_bind (require ?b _) _ = Ok _ => destruct b eqn:?; [|discriminate Hx]
  | result_bind (from_option_err _ ?o) _ = Ok _ => destruct o eqn:?; [|discriminate Hx]
  | result_bind ?r _ = Ok _ => destruct r eqn:?; [|discriminate Hx]
  end; cbn [require result_bind from_option_err] in Hx).

(** Case analysis on the first [match]/[if] of the goal or of a hypothesis. *)
Ltac case_match_goal :=
  match goal with
  | |- context [match ?x with _ => _ end] => destruct x eqn:?
  end.

(** Splits boolean conjunctions and turns integer tests into inequalities. *)
Ltac bool_to_prop :=
  repeat match goal with
  | H : _ && _ = true |- _ => apply andb_prop in H as [? ?]
  | H : (_ <=? _)%Z = true |- _ => apply Z.leb_le in H
  | H : (_ <=? _)%Z = false |- _ => apply Z.leb_gt in H
  | H : (_ <? _)%Z = true |- _ => apply Z.ltb_lt in H
  | H : (_ <? _)%Z = false |- _ => apply Z.ltb_ge in H
  | H : (_ =? _)%Z = true |- _ => apply Z.eqb_eq in H
  | H : (_ =? _)%Z = false |- _ => apply Z.eqb_neq in H
  end.
