(* ===== verification/Bytes.v ===== *)
(** * Bytes, words and Node buffers

    Bytes are the 256 constructors of [Byte.byte].  Little- and big-endian
    words of [n] bytes, their inverses, and the [Buffer] methods of the Node
    runtime the scripts use: allocation, bounded reads and writes, [slice]
    and [copy].  Out of range reads and writes throw, as Node's do. *)

From stdpp Require Import base strings list countable.
From Stdlib Require Import ZArith NArith Strings.Byte Lia.
From S2P Require Import Prelude.

Abbreviation bytes := (list byte) (only parsing).

#[global] Instance byte_eq_dec : EqDecision byte.
Proof. intros x y. destruct (Byte.byte_eq_dec x y); [by left|by right]. Defined.

#[global] Instance byte_countable : Countable byte.
Proof.
  refine (inj_countable' Byte.to_N (λ n, default x00 (Byte.of_N n)) _).
  intros b. by rewrite Byte.of_to_N.
Defined.


Definition byte_val (b : byte) : Z := Z.of_N (Byte.to_N b).

Definition byte_of (z : Z) : byte :=
  match Byte.of_N (Z.to_N (z mod 256)) with Some b => b | None => x00 end.

Lemma byte_val_bound b : 0 ≤ byte_val b < 256.
Proof. unfold byte_val. pose proof (Byte.to_N_bounded b). lia. Qed.

Lemma byte_val_of z : byte_val (byte_of z) = z mod 256.
Proof.
  unfold byte_val, byte_of. pose proof (Z.mod_pos_bound z 256 ltac:(lia)).
  destruct (Byte.of_N (Z.to_N (z mod 256))) as [b|] eqn:Hb.
  - apply Byte.to_of_N in Hb. rewrite Hb. lia.
  - apply Byte.of_N_None_iff in Hb. lia.
Qed.

Lemma byte_of_val b : byte_of (byte_val b) = b.
Proof.
  unfold byte_of. rewrite Z.mod_small by apply byte_val_bound.
  unfold byte_val. by rewrite N2Z.id, Byte.of_to_N.
Qed.

(** ** Words *)
Fixpoint le_bytes (n : nat) (v : Z) : bytes :=
  match n with
  | O => []
  | S n' => byte_of v :: le_bytes n' (v / 256)
  end.

Fixpoint le_val (bs : bytes) : Z :=
  match bs with
  | [] => 0
  | b :: bs' => byte_val b + 256 * le_val bs'
  end.

Definition be_bytes (n : nat) (v : Z) : bytes := rev (le_bytes n v).
Definition be_val (bs : bytes) : Z := le_val (rev bs).

Lemma length_le_bytes n v : length (le_bytes n v) = n.
Proof. revert v; induction n; intros; cbn; auto. Qed.

Lemma length_be_bytes n v : length (be_bytes n v) = n.
Proof. unfold be_bytes. by rewrite length_rev, length_le_bytes. Qed.

Lemma pow256_S n : 256 ^ Z.of_nat (S n) = 256 * 256 ^ Z.of_nat n.
Proof. rewrite Nat2Z.inj_succ, Z.pow_succ_r; lia. Qed.

Lemma le_val_le_bytes n v : 0 ≤ v < 256 ^ Z.of_nat n → le_val (le_bytes n v) = v.
Proof.
  revert v. induction n as [|n IH]; intros v Hv; cbn [le_bytes le_val].
  - change (256 ^ Z.of_nat 0) with 1 in Hv. lia.
  - rewrite pow256_S in Hv. rewrite byte_val_of, IH.
    + pose proof (Z.div_mod v 256 ltac:(lia)). lia.
    + split; [apply Z.div_pos; lia|apply Z.div_lt_upper_bound; lia].
Qed.

Lemma le_bytes_le_val bs : le_bytes (length bs) (le_val bs) = bs.
Proof.
  induction bs as [|b bs IH]; cbn [le_bytes le_val length]; [done|].
  pose proof (byte_val_bound b).
  replace ((byte_val b + 256 * le_val bs) / 256) with (le_val bs).
  2: { symmetry. rewrite Z.mul_comm, Z.div_add, Z.div_small; lia. }
  rewrite IH. f_equal. rewrite <- (byte_of_val b) at 2.
  unfold byte_of at 1. rewrite (Z.mul_comm 256), Z.mod_add by lia. done.
Qed.

Lemma le_val_bound bs : 0 ≤ le_val bs < 256 ^ Z.of_nat (length bs).
Proof.
  induction bs as [|b bs IH]; cbn [le_val length]; [cbn; lia|].
  rewrite pow256_S. pose proof (byte_val_bound b). lia.
Qed.

Lemma be_val_bound bs : 0 ≤ be_val bs < 256 ^ Z.of_nat (length bs).
Proof. unfold be_val. rewrite <- (length_rev bs). apply le_val_bound. Qed.

Lemma be_val_be_bytes n v : 0 ≤ v < 256 ^ Z.of_nat n → be_val (be_bytes n v) = v.
Proof. intros. unfold be_val, be_bytes. rewrite rev_involutive. by apply le_val_le_bytes. Qed.

Lemma be_bytes_be_val bs : be_bytes (length bs) (be_val bs) = bs.
Proof.
  unfold be_bytes, be_val. rewrite <- (length_rev bs), le_bytes_le_val.
  apply rev_involutive.
Qed.

Lemma le_bytes_inj n v w :
  0 ≤ v < 256 ^ Z.of_nat n → 0 ≤ w < 256 ^ Z.of_nat n →
  le_bytes n v = le_bytes n w → v = w.
Proof. intros Hv Hw Heq. rewrite <- (le_val_le_bytes n v), Heq by done. by apply le_val_le_bytes. Qed.

Lemma le_val_app bs cs :
  le_val (bs ++ cs) = le_val bs + 256 ^ Z.of_nat (length bs) * le_val cs.
Proof.
  induction bs as [|b bs IH]; cbn [le_val length app].
  - change (Z.of_nat 0) with 0. rewrite Z.pow_0_r. lia.
  - rewrite pow256_S, IH. lia.
Qed.

Lemma be_val_cons b bs : be_val (b :: bs) = byte_val b * 256 ^ Z.of_nat (length bs) + be_val bs.
Proof.
  unfold be_val. cbn [rev]. rewrite le_val_app, length_rev. cbn [le_val]. lia.
Qed.

Lemma be_val_snoc bs b : be_val (bs ++ [b]) = 256 * be_val bs + byte_val b.
Proof. unfold be_val. rewrite rev_app_distr. cbn. lia. Qed.

(** Two concatenations whose first parts have the same length. *)
Lemma app_eq_length {A} (a b c d : list A) :
  a ++ b = c ++ d → length a = length c → a = c ∧ b = d.
Proof. intros. by apply app_inj_1. Qed.

(** ** Node buffers *)
Definition RangeError : js_error := JsError "ERR_OUT_OF_RANGE".

Definition buffer_alloc (n : nat) : bytes := replicate n x00.

Definition fits (n : nat) (v : Z) : bool := (0 <=? v) && (v <? 256 ^ Z.of_nat n).

(** Overwrites [length src] bytes of [dst] from [off]; used when in range. *)
Definition splice (dst : bytes) (off : nat) (src : bytes) : bytes :=
  take off dst ++ src ++ drop (off + length src) dst.

Definition write_uint (enc : nat → Z → bytes) (n : nat) (dst : bytes) (v : Z) (off : nat)
  : result bytes :=
  if fits n v && (off + n <=? length dst)%nat
  then Ok (splice dst off (enc n v))
  else Err RangeError.

Definition writeUInt32LE := write_uint le_bytes 4.
Definition writeUInt32BE := write_uint be_bytes 4.
Definition writeBigUInt64BE := write_uint be_bytes 8.

Definition read_uint_be (n : nat) (src : bytes) (off : nat) : result Z :=
  if (off + n <=? length src)%nat
  then Ok (be_val (slice src off (off + n)))
  else Err RangeError.

Definition readUInt32BE := read_uint_be 4.
Definition readBigUInt64BE := read_uint_be 8.

(** [src.copy(dst, off)]: copies as much as fits. *)
Definition buffer_copy (src dst : bytes) (off : nat) : bytes :=
  if (off <=? length dst)%nat
  then splice dst off (take (length dst - off) src)
  else dst.

(** [buf.slice(off)] *)
Definition slice_from (src : bytes) (off : nat) : bytes := drop off src.

Lemma fits_spec n v : fits n v = true ↔ 0 ≤ v < 256 ^ Z.of_nat n.
Proof. unfold fits. rewrite andb_true_iff, Z.leb_le, Z.ltb_lt. done. Qed.

Lemma length_slice {A} (l : list A) i j :
  (i ≤ j)%nat → (j ≤ length l)%nat → length (slice l i j) = (j - i)%nat.
Proof. intros. unfold slice. rewrite length_take, length_drop. lia. Qed.

Lemma length_splice dst off src :
  (off + length src ≤ length dst)%nat → length (splice dst off src) = length dst.
Proof. intros. unfold splice. rewrite !length_app, length_take, length_drop. lia. Qed.

Lemma slice_splice_same dst off src :
  (off + length src ≤ length dst)%nat →
  slice (splice dst off src) off (off + length src) = src.
Proof.
  intros H. unfold slice, splice.
  rewrite drop_app_ge; rewrite length_take_le by lia; [|lia].
  replace (off - off)%nat with 0%nat by lia. rewrite drop_0.
  replace (off + length src - off)%nat with (length src) by lia.
  by rewrite take_app_length.
Qed.

Lemma slice_splice_before dst off src i j :
  (i ≤ j)%nat → (j ≤ off)%nat → (off ≤ length dst)%nat →
  slice (splice dst off src) i j = slice dst i j.
Proof.
  intros. unfold slice, splice.
  rewrite drop_app_le by (rewrite length_take; lia).
  rewrite take_app_le by (rewrite length_drop, length_take; lia).
  rewrite skipn_firstn_comm, take_take. f_equal. lia.
Qed.
