(* ===== verification/JsText.v ===== *)
(** * Text: hexadecimal, decimal numbers, string tests

    The string functions of the JavaScript runtime the scripts use on
    addresses, chain ids and environment variables: hexadecimal text of a
    buffer and back ([Buffer.from(s, "hex")]), [parseInt], [Number] on chain
    ids, [replace("0x", "")], [includes], [startsWith], [endsWith]. *)

From stdpp Require Import base strings list.
From Stdlib Require Import ZArith Ascii Strings.Byte Lia.
From S2P Require Import Prelude Bytes.

#[local] Open Scope string_scope.
#[local] Open Scope list_scope.
#[local] Open Scope Z_scope.

Definition chars (s : string) : list ascii := String.list_ascii_of_string s.
Definition text (l : list ascii) : string := String.string_of_list_ascii l.

Lemma chars_text l : chars (text l) = l.
Proof. apply String.list_ascii_of_string_of_list_ascii. Qed.
Lemma text_chars s : text (chars s) = s.
Proof. apply String.string_of_list_ascii_of_string. Qed.
Lemma chars_app s t : chars (s +:+ t) = chars s ++ chars t.
Proof. unfold chars. induction s as [|a s IH]; [done|].
  change (a :: String.list_ascii_of_string (s +:+ t) = (a :: String.list_ascii_of_string s) ++ String.list_ascii_of_string t).
  by rewrite IH.
Qed.

Definition code (a : ascii) : Z := Z.of_N (N_of_ascii a).

(** ** Hexadecimal *)
Definition hex_digit (n : Z) : ascii :=
  if n <? 10 then ascii_of_N (Z.to_N (48 + n)) else ascii_of_N (Z.to_N (87 + n)).

Definition hex_value (a : ascii) : option Z :=
  let c := code a in
  if (48 <=? c) && (c <=? 57) then Some (c - 48)
  else if (97 <=? c) && (c <=? 102) then Some (c - 87)
  else if (65 <=? c) && (c <=? 70) then Some (c - 55)
  else None.

Definition is_hex_char (a : ascii) : bool := bool_decide (is_Some (hex_value a)).

Fixpoint to_hex_chars (bs : bytes) : list ascii :=
  match bs with
  | [] => []
  | b :: bs' =>
      hex_digit (byte_val b / 16) :: hex_digit (byte_val b mod 16) :: to_hex_chars bs'
  end.

(** [buf.toString("hex")] *)
Definition to_hex (bs : bytes) : string := text (to_hex_chars bs).

(** Decodes pairs of digits and stops at the first invalid one, as Node does. *)
Fixpoint of_hex_chars (l : list ascii) : bytes :=
  match l with
  | h :: l' :: rest =>
      match hex_value h, hex_value l' with
      | Some x, Some y => byte_of (16 * x + y) :: of_hex_chars rest
      | _, _ => []
      end
  | _ => []
  end.

(** [Buffer.from(s, "hex")] *)
Definition buffer_from_hex (s : string) : bytes := of_hex_chars (chars s).

(** [Buffer.from(s)] / [utf8.encode(s)]; strings are held as their UTF-8 bytes. *)
Definition utf8_encode (s : string) : bytes := String.list_byte_of_string s.

Lemma hex_value_digit n : 0 ≤ n < 16 → hex_value (hex_digit n) = Some n.
Proof.
  intros H. assert (n = 0 ∨ n = 1 ∨ n = 2 ∨ n = 3 ∨ n = 4 ∨ n = 5 ∨ n = 6 ∨ n = 7 ∨ n = 8
    ∨ n = 9 ∨ n = 10 ∨ n = 11 ∨ n = 12 ∨ n = 13 ∨ n = 14 ∨ n = 15) as Hn by lia.
  by repeat destruct Hn as [->|Hn]; subst; vm_compute.
Qed.

Lemma of_to_hex_chars bs : of_hex_chars (to_hex_chars bs) = bs.
Proof.
  induction bs as [|b bs IH]; [done|]. cbn [to_hex_chars of_hex_chars].
  pose proof (byte_val_bound b).
  pose proof (Z.mod_pos_bound (byte_val b) 16 ltac:(lia)).
  pose proof (Z.div_mod (byte_val b) 16 ltac:(lia)).
  rewrite !hex_value_digit; [|lia|split; [apply Z.div_pos|apply Z.div_lt_upper_bound]; lia].
  rewrite IH. f_equal. rewrite <- (byte_of_val b) at 3. f_equal. lia.
Qed.

Lemma buffer_from_to_hex bs : buffer_from_hex (to_hex bs) = bs.
Proof. unfold buffer_from_hex, to_hex. rewrite chars_text. apply of_to_hex_chars. Qed.

(** [s.slice(n)] *)
Definition str_slice_from (s : string) (n : nat) : string := text (drop n (chars s)).

(** [s.slice(i, j)] with [i <= j] *)
Definition str_slice (s : string) (i j : nat) : string := text (slice (chars s) i j).

(** [s.slice(-n)] *)
Definition str_slice_last (s : string) (n : nat) : string :=
  text (drop (String.length s - n) (chars s)).

Fixpoint prefix_of (p l : list ascii) : bool :=
  match p, l with
  | [], _ => true
  | a :: p', b :: l' => (a =? b)%char && prefix_of p' l'
  | _, [] => false
  end.

Definition starts_with (s p : string) : bool := prefix_of (chars p) (chars s).
Definition ends_with (s p : string) : bool := prefix_of (rev (chars p)) (rev (chars s)).

Fixpoint includes_chars (l p : list ascii) : bool :=
  prefix_of p l || match l with [] => false | _ :: l' => includes_chars l' p end.

Definition includes (s p : string) : bool := includes_chars (chars s) (chars p).

(** [s.replace(p, "")]: removes the first occurrence. *)
Fixpoint remove_first_chars (l p : list ascii) : list ascii :=
  if prefix_of p l then drop (length p) l
  else match l with [] => [] | a :: l' => a :: remove_first_chars l' p end.

Definition replace_empty (s p : string) : string :=
  text (remove_first_chars (chars s) (chars p)).

Lemma replace_0x s : replace_empty ("0x" +:+ s) "0x" = s.
Proof. change (text (chars s) = s). apply text_chars. Qed.

Definition lower_char (a : ascii) : ascii :=
  let c := code a in
  if (65 <=? c) && (c <=? 90) then ascii_of_N (Z.to_N (c + 32)) else a.

(** [s.toLowerCase()] on ASCII text *)
Definition to_lower (s : string) : string := text (map lower_char (chars s)).

(** ["0x"] followed by 40 hexadecimal digits: the shape of an address.  (The
    checksum in the letter case needs keccak and is left to the library.) *)
Definition is_address (s : string) : bool :=
  match chars s with
  | "0"%char :: "x"%char :: ds => (length ds =? 40)%nat && forallb is_hex_char ds
  | _ => false
  end.

(** ** Numbers.  [None] is [NaN]. *)
Definition is_digit (a : ascii) : bool := (48 <=? code a) && (code a <=? 57).
Definition is_space (a : ascii) : bool :=
  (code a =? 32) || ((9 <=? code a) && (code a <=? 13)).

Fixpoint drop_spaces (l : list ascii) : list ascii :=
  match l with
  | a :: l' => if is_space a then drop_spaces l' else l
  | [] => []
  end.

Fixpoint take_digits (acc : Z) (seen : bool) (l : list ascii) : option Z * list ascii :=
  match l with
  | a :: l' =>
      if is_digit a then take_digits (10 * acc + (code a - 48)) true l'
      else (if seen then Some acc else None, l)
  | [] => (if seen then Some acc else None, [])
  end.

Fixpoint take_hex_digits (acc : Z) (seen : bool) (l : list ascii) : option Z * list ascii :=
  match l with
  | a :: l' =>
      match hex_value a with
      | Some d => take_hex_digits (16 * acc + d) true l'
      | None => (if seen then Some acc else None, l)
      end
  | [] => (if seen then Some acc else None, [])
  end.

Lemma hex_pair b l acc s :
  take_hex_digits acc s (hex_digit (byte_val b / 16) :: hex_digit (byte_val b mod 16) :: l) =
    take_hex_digits (256 * acc + byte_val b) true l.
Proof.
  pose proof (byte_val_bound b) as Hb.
  pose proof (Z.div_mod (byte_val b) 16 ltac:(lia)). pose proof (Z.mod_pos_bound (byte_val b) 16 ltac:(lia)).
  assert (0 ≤ byte_val b / 16 < 16)
    by (split; [apply Z.div_pos; lia|apply Z.div_lt_upper_bound; lia]).
  cbn [take_hex_digits]. rewrite !hex_value_digit by lia. f_equal. lia.
Qed.

Lemma take_hex_digits_bytes bs acc :
  take_hex_digits acc true (to_hex_chars bs) =
    (Some (acc * 256 ^ Z.of_nat (length bs) + be_val bs), []).
Proof.
  revert acc. induction bs as [|b bs IH]; intros acc.
  - cbn. by rewrite Z.mul_1_r, Z.add_0_r.
  - cbn [to_hex_chars]. rewrite hex_pair, IH, be_val_cons. cbn [length].
    rewrite pow256_S. do 2 f_equal. lia.
Qed.

Definition parse_unsigned (l : list ascii) : option Z * list ascii :=
  match l with
  | "0"%char :: "x"%char :: l' => take_hex_digits 0 false l'
  | "0"%char :: "X"%char :: l' => take_hex_digits 0 false l'
  | _ => take_digits 0 false l
  end.

(** [parseInt(s)]: optional blanks and sign, then the longest run of digits. *)
Definition parseInt (s : string) : option Z :=
  match drop_spaces (chars s) with
  | "-"%char :: l => Z.opp <$> fst (parse_unsigned l)
  | "+"%char :: l => fst (parse_unsigned l)
  | l => fst (parse_unsigned l)
  end.

(** [Number(s)] on integer literals: blanks are trimmed, the empty text is 0
    and any other character makes it [NaN].  (Fractions and exponents, which no
    chain id has, are not modelled.) *)
Definition trim (l : list ascii) : list ascii := rev (drop_spaces (rev (drop_spaces l))).

Definition whole (r : option Z * list ascii) : option Z :=
  match r with (Some n, []) => Some n | _ => None end.

Definition js_Number (s : string) : option Z :=
  match trim (chars s) with
  | [] => Some 0
  | "-"%char :: l => Z.opp <$> whole (take_digits 0 false l)
  | "+"%char :: l => whole (take_digits 0 false l)
  | l => whole (parse_unsigned l)
  end.

(** [Array.from(new Set(xs))]: the first occurrence of each text. *)
Fixpoint unique_from (seen l : list string) : list string :=
  match l with
  | [] => []
  | x :: l' => if decide (x ∈ seen) then unique_from seen l' else x :: unique_from (x :: seen) l'
  end.
Definition unique (l : list string) : list string := unique_from [] l.

(** [process.env.X || dflt] *)
Definition env_or (v : option string) (dflt : string) : string :=
  match v with Some s => if bool_decide (s = ""%string) then dflt else s | None => dflt end.

(** Decimal text of a natural number ([n.toString()]). *)
Definition digit_char (d : Z) : ascii := ascii_of_N (Z.to_N (48 + d)).

Fixpoint decimal_chars (fuel : nat) (n : Z) (acc : list ascii) : list ascii :=
  match fuel with
  | O => acc
  | S fuel' =>
      let acc' := digit_char (n mod 10) :: acc in
      if n / 10 =? 0 then acc' else decimal_chars fuel' (n / 10) acc'
  end.

(** A number below [10 ^ 30] has at most 30 digits. *)
Definition decimal (n : Z) : string := text (decimal_chars 30 n []).

Example parseInt_chain : parseInt "42161" = Some 42161.
Proof. reflexivity. Qed.
Example parseInt_underscore : parseInt "200_000" = Some 200.
Proof. reflexivity. Qed.
Example parseInt_nan : parseInt "mainnet" = None.
Proof. reflexivity. Qed.
Example decimal_chain : decimal 11155111 = "11155111".
Proof. reflexivity. Qed.
Example js_Number_chain : js_Number " 42161 " = Some 42161.
Proof. reflexivity. Qed.
Example js_Number_nan : js_Number "1442x" = None.
Proof. reflexivity. Qed.

Lemma unique_from_spec seen l x : x ∈ unique_from seen l ↔ x ∈ l ∧ x ∉ seen.
Proof.
  revert seen. induction l as [|y l IH]; intros seen; cbn.
  - split; [by intros ?%not_elem_of_nil|]. by intros [?%not_elem_of_nil _].
  - case_decide as Hy; rewrite ?elem_of_cons, IH, ?not_elem_of_cons.
    + split; [tauto|]. intros [[->|?] ?]; [done|tauto].
    + destruct (decide (x = y)) as [->|Hne]; tauto.
Qed.

Lemma unique_NoDup l : NoDup (unique l).
Proof.
  unfold unique. generalize (@nil string). induction l as [|y l IH]; intros seen; cbn; [constructor|].
  case_decide; [done|]. constructor; [|done]. rewrite unique_from_spec, not_elem_of_cons. by intros [_ [? _]].
Qed.

Lemma elem_of_unique l x : x ∈ unique l ↔ x ∈ l.
Proof. unfold unique. rewrite unique_from_spec. split; [by intros [? _]|]. by split; [|apply not_elem_of_nil]. Qed.
