(* ===== verification/Interfaces.v ===== *)
(** * Libraries the program calls

    The npm packages and Rust crates whose source is not in the repository,
    as type classes: the operations the scripts use and the documented
    behaviour they rely on.  A theorem that needs one of them takes the class
    as an argument; its witness uses the instances at the end of this file. *)

From stdpp Require Import base gmap strings list.
From Stdlib Require Import ZArith Ascii Strings.Byte Lia.
From S2P Require Import Prelude Bytes JsText.

(** A public key of [@solana/web3.js] / [anchor_lang] as its raw bytes. *)
Abbreviation pubkey := (list byte) (only parsing).
Definition pubkey_wf (k : pubkey) : Prop := length k = 32%nat.

(** keccak-256 ([ethers.utils.keccak256], [solana_program::keccak]), as the
    32-byte digest. *)
Class Keccak := {
  keccak : bytes → bytes;
  keccak_length : ∀ m, length (keccak m) = 32%nat
}.

(** [bn.js]: [v.toArrayLike(Buffer, "le", n)] writes exactly [n] bytes and
    fails when the number does not fit. *)
Class BNjs := {
  toArrayLike_le : Z → nat → result bytes;
  toArrayLike_le_fits : ∀ v n,
    0 ≤ v < 256 ^ Z.of_nat n → toArrayLike_le v n = Ok (le_bytes n v);
  toArrayLike_le_overflow : ∀ v n,
    256 ^ Z.of_nat n ≤ v → is_ok (toArrayLike_le v n) = false
}.

(** Borsh ([AnchorSerialize]): integers little endian, vectors prefixed with
    their length as a [u32]. *)
Class Borsh := {
  borsh_u32 : Z → bytes;
  borsh_u64 : Z → bytes;
  borsh_vec_u8 : bytes → bytes;
  borsh_u32_spec : ∀ v, 0 ≤ v < 2 ^ 32 → borsh_u32 v = le_bytes 4 v;
  borsh_u64_spec : ∀ v, 0 ≤ v < 2 ^ 64 → borsh_u64 v = le_bytes 8 v;
  borsh_vec_u8_spec : ∀ bs, Z.of_nat (length bs) < 2 ^ 32 →
    borsh_vec_u8 bs = le_bytes 4 (Z.of_nat (length bs)) ++ bs
}.

(** [@solana/web3.js]: construction of public keys, their base58 text and
    program derived addresses (those of [Pubkey] on the program's side), which
    do not exist for seeds of more than 32 bytes ([MAX_SEED_LENGTH]: a
    [TypeError]); the address found is the one of the seeds with its bump. *)
Class Web3 := {
  PublicKey_new : bytes → result pubkey;
  toBase58 : pubkey → string;
  createProgramAddressSync : list bytes → pubkey → result pubkey;
  findProgramAddressSync : list bytes → pubkey → result (pubkey * Z);
  PublicKey_new_32 : ∀ k, length k = 32%nat → PublicKey_new k = Ok k;
  findProgramAddressSync_long : ∀ seeds programId, Exists (λ s, 32 < length s)%nat seeds →
    findProgramAddressSync seeds programId = Err TypeError;
  findProgramAddressSync_bump : ∀ seeds programId k bump, findProgramAddressSync seeds programId = Ok (k, bump) →
    0 ≤ bump < 256 ∧ createProgramAddressSync (seeds ++ [le_bytes 1 bump]) programId = Ok k;
  toBase58_inj : ∀ k k', toBase58 k = toBase58 k' → k = k'
}.

(** [ethers.utils.arrayify] on hexadecimal text. *)
Class Ethers := {
  arrayify : string → result bytes;
  arrayify_hex : ∀ bs, arrayify (String.append "0x" (to_hex bs)) = Ok bs
}.

(** A token account: its mint, the authority that signs for it, the program
    that owns it. *)
Record TokenInfo := { tk_mint : pubkey; tk_authority : pubkey; tk_program : pubkey }.

(** The SPL Token and Associated Token programs, over the states [L] of their
    accounts: the program of a mint, the token account and its balance at an
    address (zero when there is none), [TransferChecked] signed by an
    authority, and the creation of the associated token account of a mint, an
    owner and a token program, whose address is [associated_token]. *)
Class TokenProgram (L : Type) := {
  associated_token : pubkey → pubkey → pubkey → pubkey;
  mint_program : L → pubkey → option pubkey;
  token_account : L → pubkey → option TokenInfo;
  frozen : L → pubkey → bool;
  balance : L → pubkey → Z;
  token_transfer : L → pubkey → pubkey → pubkey → pubkey → Z → result L;
  create_associated_token : L → pubkey → pubkey → pubkey → result L;
  balance_u64 : ∀ l k, 0 ≤ balance l k < 2 ^ 64;
  token_transfer_spec : ∀ l from to mint authority amount l',
    token_transfer l from to mint authority amount = Ok l' →
    amount ≤ balance l from ∧
    (∀ k, token_account l' k = token_account l k ∧ frozen l' k = frozen l k ∧
          mint_program l' k = mint_program l k) ∧
    (∀ k, balance l' k = balance l k - (if decide (k = from) then amount else 0)
                                     + (if decide (k = to) then amount else 0));
  token_transfer_ok : ∀ l from to mint authority amount prog authority',
    token_account l from = Some {| tk_mint := mint; tk_authority := authority; tk_program := prog |} →
    token_account l to = Some {| tk_mint := mint; tk_authority := authority'; tk_program := prog |} →
    frozen l from = false → frozen l to = false →
    0 ≤ amount ≤ balance l from → from ≠ to → balance l to + amount < 2 ^ 64 →
    is_ok (token_transfer l from to mint authority amount) = true;
  create_associated_token_spec : ∀ l mint owner prog l',
    create_associated_token l mint owner prog = Ok l' →
    let a := associated_token mint owner prog in
    token_account l a = None ∧
    token_account l' a = Some {| tk_mint := mint; tk_authority := owner; tk_program := prog |} ∧
    balance l' a = 0 ∧ frozen l' a = false ∧
    (∀ k, mint_program l' k = mint_program l k) ∧
    (∀ k, k ≠ a → token_account l' k = token_account l k ∧ balance l' k = balance l k ∧
                  frozen l' k = frozen l k);
  create_associated_token_ok : ∀ l mint owner prog,
    mint_program l mint = Some prog → token_account l (associated_token mint owner prog) = None →
    is_ok (create_associated_token l mint owner prog) = true
}.

(** The Solana runtime.  An account grows by at most 10 KiB in an instruction
    and to at most 10 MiB, and a transaction is at most 1232 bytes. *)
Definition MAX_PERMITTED_DATA_INCREASE : Z := 10240.
Definition MAX_PERMITTED_DATA_LENGTH : Z := 10485760.
Definition PACKET_DATA_SIZE : Z := 1232.
Definition InvalidRealloc : js_error := JsError "Failed to reallocate account data".
Definition OutOfMemory : js_error := JsError "memory allocation failed, out of memory".
Definition TransactionTooLarge : js_error := JsError "Transaction too large".
Definition ComputeBudgetExceeded : js_error := JsError "exceeded CUs meter".

(** What else it lets the execution of a refund leaf do: the refunds, the proof
    elements and the bytes of the claimed bitmap must fit the heap, and the
    refunds the nested instruction of [emit_cpi!]; the refunds and the proof
    must fit the compute units asked for.  The numbers known are those of
    the program's tests (SvmSpoke.Bundle.ts, "Execute Max Refunds"): 28 refunds
    with 7 proof elements run with 1400000 units, more than 31 never do. *)
Class SolanaRuntime := {
  refunds_fit : nat → nat → nat → bool;
  compute_fits : Z → nat → nat → bool;
  refunds_fit_tested : ∀ n m k, (n ≤ 28)%nat → (m ≤ 7)%nat → (k ≤ 1)%nat → refunds_fit n m k = true;
  refunds_fit_limit : ∀ n m k, (31 < n)%nat → refunds_fit n m k = false;
  compute_fits_tested : ∀ n m, (n ≤ 28)%nat → (m ≤ 7)%nat → compute_fits 1400000 n m = true
}.

(** The codecs of [@coral-xyz/anchor]: base58 and base64 text, and the event
    coder of the program with a given id. *)
Class AnchorCodec (D : Type) := {
  bs58_decode : string → result bytes;
  base64_encode : bytes → string;
  events_decode : pubkey → string → option (string * D)
}.

(** A function of an ABI written in a script: its name, and its inputs as
    (name, type). *)
Record abi_function := { fn_name : string; fn_inputs : list (string * string) }.

(** ** Concrete instances, for evaluating the model *)

(** [MultiCaller] of [@uma/core], which the hub pool inherits: the calls run
    in order on the contract's state, and all are undone when one reverts. *)
Fixpoint exec_in_order {S C : Type} (exec : S → C → result S) (s : S) (data : list C) : result S :=
  match data with
  | [] => Ok s
  | c :: data' => let? s' := exec s c in exec_in_order exec s' data'
  end.

Class MultiCaller := {
  multicall_of {S C : Type} : (S → C → result S) → S → list C → result S;
  multicall_in_order {S C : Type} (exec : S → C → result S) s data :
    multicall_of exec s data = exec_in_order exec s data
}.

#[export] Instance toy_multicaller : MultiCaller :=
  {| multicall_of _ _ := exec_in_order; multicall_in_order _ _ _ _ _ := eq_refl |}.

(** A runtime that runs what the tests run, with a bitmap of up to 1000 bytes,
    at 40000 units for each refund and proof element. *)
#[export] Instance toy_runtime : SolanaRuntime.
Proof.
  refine {| refunds_fit n m k := ((n <=? 28) && (m <=? 7) && (k <=? 1000))%nat;
            compute_fits units n m := 40000 * (Z.of_nat n + Z.of_nat m) <=? units |}.
  - intros n m k. rewrite <- !Nat.leb_le. intros -> -> Hk. apply Nat.leb_le in Hk. apply Nat.leb_le. lia.
  - intros n m k Hn. by rewrite (proj2 (Nat.leb_gt n 28)) by lia.
  - intros n m Hn Hm. apply Z.leb_le. lia.
Defined.

(** A stand-in digest: a 64-bit fold of the message, as 32 bytes. *)
Definition toy_digest (m : bytes) : bytes :=
  le_bytes 32 (foldl (λ acc b, Z.land (257 * acc + byte_val b + 1) 18446744073709551615) 7 m).

#[export] Instance toy_keccak : Keccak :=
  {| keccak := toy_digest; keccak_length m := length_le_bytes 32 _ |}.

Definition checked_le (v : Z) (n : nat) : result bytes :=
  if fits n v then Ok (le_bytes n v) else Err (JsError "byte array longer than desired length").

#[export] Instance checked_bn : BNjs.
Proof.
  refine {| toArrayLike_le := checked_le |}; intros v n H; unfold checked_le.
  - apply fits_spec in H. by rewrite H.
  - destruct (fits n v) eqn:Hf; [|done]. apply fits_spec in Hf. lia.
Defined.

#[export] Instance le_borsh : Borsh :=
  {| borsh_u32 := le_bytes 4; borsh_u64 := le_bytes 8;
     borsh_vec_u8 bs := le_bytes 4 (Z.of_nat (length bs)) ++ bs;
     borsh_u32_spec _ _ := eq_refl; borsh_u64_spec _ _ := eq_refl;
     borsh_vec_u8_spec _ _ := eq_refl |}.

(** Text of a key: one character per byte. *)
Definition bytes_text (bs : bytes) : string :=
  String.string_of_list_byte bs.

Lemma bytes_text_inj k k' : bytes_text k = bytes_text k' → k = k'.
Proof.
  intros H. apply (f_equal String.list_byte_of_string) in H.
  unfold bytes_text in H. by rewrite !String.list_byte_of_string_of_list_byte in H.
Qed.

Definition pad_key (bs : bytes) : result pubkey :=
  if (length bs <=? 32)%nat then Ok (replicate (32 - length bs) x00 ++ bs)
  else Err (JsError "Invalid public key input").

Definition toy_program_address (seeds : list bytes) (program : pubkey) : result pubkey :=
  if forallb (λ s, length s <=? 32)%nat seeds then Ok (toy_digest (concat seeds ++ program)) else Err TypeError.

#[export] Instance toy_web3 : Web3.
Proof.
  refine {| PublicKey_new := pad_key; toBase58 := bytes_text;
            createProgramAddressSync := toy_program_address;
            findProgramAddressSync seeds program :=
              let? k := toy_program_address (seeds ++ [le_bytes 1 255]) program in Ok (k, 255) |}.
  - intros k Hk. unfold pad_key. rewrite Hk. done.
  - intros seeds programId Hl. unfold toy_program_address. destruct (forallb _ _) eqn:Hb; [|done]. exfalso.
    rewrite forallb_forall in Hb. apply Exists_exists in Hl as (s & Hs & Hl).
    specialize (Hb s (proj1 (list_elem_of_In _ _) (proj2 (elem_of_app _ _ _) (or_introl Hs)))).
    cbn in Hb. apply Nat.leb_le in Hb. lia.
  - intros seeds programId k bump. destruct (toy_program_address _ _) eqn:Hk; [|done].
    intros [= <- <-]. split; [lia|exact Hk].
  - apply bytes_text_inj.
Defined.

#[export] Instance toy_ethers : Ethers.
Proof.
  refine {| arrayify s := Ok (buffer_from_hex (str_slice_from s 2)) |}.
  intros bs. change (Ok (buffer_from_hex (text (chars (to_hex bs)))) = Ok bs).
  by rewrite text_chars, buffer_from_to_hex.
Defined.

#[export] Instance toy_codec : AnchorCodec bytes :=
  {| bs58_decode s := Ok (utf8_encode s); base64_encode := bytes_text;
     events_decode _ s := Some ("Event"%string, utf8_encode s) |}.

(** A token ledger: the mints with their programs, the accounts with their
    amounts (a [u64]). *)
Record toy_ledger := {
  toy_mints : gmap bytes pubkey;
  toy_accounts : gmap bytes (TokenInfo * Z)
}.

#[export] Instance TokenInfo_eq_dec : EqDecision TokenInfo.
Proof. solve_decision. Defined.

Definition toy_balance (l : toy_ledger) (k : pubkey) : Z :=
  match toy_accounts l !! k with Some a => snd a mod 2 ^ 64 | None => 0 end.

Definition toy_set (l : toy_ledger) (k : pubkey) (v : Z) : toy_ledger :=
  {| toy_mints := toy_mints l; toy_accounts := alter (λ a, (fst a, v)) k (toy_accounts l) |}.

Definition toy_info (l : toy_ledger) (k : pubkey) : option TokenInfo := fst <$> toy_accounts l !! k.

Definition toy_transfer (l : toy_ledger) (from to mint authority : pubkey) (amount : Z) : result toy_ledger :=
  match toy_info l from, toy_info l to with
  | Some a, Some b =>
      if bool_decide (tk_mint a = mint ∧ tk_mint b = mint ∧ tk_authority a = authority ∧
                      tk_program a = tk_program b) &&
         (0 <=? amount) && (amount <=? toy_balance l from)
      then if decide (from = to) then Ok l
           else if toy_balance l to + amount <? 2 ^ 64
                then Ok (toy_set (toy_set l from (toy_balance l from - amount)) to (toy_balance l to + amount))
                else Err (JsError "overflow")
      else Err (JsError "insufficient funds")
  | _, _ => Err (JsError "invalid account")
  end.

Definition toy_ata (mint owner prog : pubkey) : pubkey := toy_digest (mint ++ owner ++ prog).

Definition toy_create (l : toy_ledger) (mint owner prog : pubkey) : result toy_ledger :=
  match toy_info l (toy_ata mint owner prog) with
  | Some _ => Err (JsError "account already in use")
  | None =>
      if bool_decide (toy_mints l !! mint = Some prog)
      then Ok {| toy_mints := toy_mints l;
                 toy_accounts := <[toy_ata mint owner prog :=
                   ({| tk_mint := mint; tk_authority := owner; tk_program := prog |}, 0)]> (toy_accounts l) |}
      else Err (JsError "invalid mint")
  end.

Lemma toy_balance_u64 l k : 0 ≤ toy_balance l k < 2 ^ 64.
Proof. unfold toy_balance. destruct (toy_accounts l !! k); [apply Z.mod_pos_bound|]; lia. Qed.

Lemma toy_info_set l k v k' : toy_info (toy_set l k v) k' = toy_info l k'.
Proof.
  unfold toy_info, toy_set. cbn. destruct (decide (k = k')) as [->|].
  - rewrite lookup_alter_eq. by destruct (toy_accounts l !! k').
  - by rewrite lookup_alter_ne.
Qed.

Lemma toy_balance_set l k v k' : is_Some (toy_info l k) → 0 ≤ v < 2 ^ 64 →
  toy_balance (toy_set l k v) k' = if decide (k' = k) then v else toy_balance l k'.
Proof.
  unfold toy_info. intros [a Ha] Hv. unfold toy_balance, toy_set. cbn. case_decide as Hk.
  - subst. rewrite lookup_alter_eq. destruct (toy_accounts l !! k); [|done]. by apply Z.mod_small.
  - by rewrite lookup_alter_ne by done.
Qed.

Lemma toy_transfer_spec l from to mint authority amount l' :
  toy_transfer l from to mint authority amount = Ok l' →
  amount ≤ toy_balance l from ∧
  (∀ k, toy_info l' k = toy_info l k ∧ false = false ∧ toy_mints l' !! k = toy_mints l !! k) ∧
  (∀ k, toy_balance l' k = toy_balance l k - (if decide (k = from) then amount else 0)
                                          + (if decide (k = to) then amount else 0)).
Proof.
  unfold toy_transfer.
  destruct (toy_info l from) as [a|] eqn:Ha; [|done]. destruct (toy_info l to) as [b|] eqn:Hb; [|done].
  destruct (bool_decide _ && _ && _) eqn:Hc; [|done]. bool_to_prop.
  pose proof (toy_balance_u64 l from). pose proof (toy_balance_u64 l to).
  destruct (decide (from = to)) as [->|Hne].
  - intros [= <-]. split_and!; [done|done|]. intros k. destruct (decide (k = to)); lia.
  - destruct (Z.ltb_spec (toy_balance l to + amount) (2 ^ 64)); [|done]. intros [= <-].
    split_and!; [done|intros k; by rewrite !toy_info_set|]. intros k.
    rewrite !toy_balance_set by (rewrite ?toy_info_set; eauto; lia).
    repeat case_decide; subst; try done; lia.
Qed.

Lemma toy_create_spec l mint owner prog l' :
  toy_create l mint owner prog = Ok l' →
  let a := toy_ata mint owner prog in
  toy_info l a = None ∧
  toy_info l' a = Some {| tk_mint := mint; tk_authority := owner; tk_program := prog |} ∧
  toy_balance l' a = 0 ∧ false = false ∧ (∀ k, toy_mints l' !! k = toy_mints l !! k) ∧
  (∀ k, k ≠ a → toy_info l' k = toy_info l k ∧ toy_balance l' k = toy_balance l k ∧ false = false).
Proof.
  unfold toy_create. cbv zeta. destruct (toy_info _ _) eqn:Hi; [done|].
  case_bool_decide; [|done]. intros [= <-]. unfold toy_info, toy_balance. cbn.
  rewrite lookup_insert_eq. split_and!; try done. intros k Hk. by rewrite lookup_insert_ne.
Qed.

#[export] Instance toy_token_program : TokenProgram toy_ledger.
Proof.
  refine {| associated_token := toy_ata; mint_program l k := toy_mints l !! k;
            token_account := toy_info; frozen _ _ := false; balance := toy_balance;
            token_transfer := toy_transfer; create_associated_token := toy_create;
            balance_u64 := toy_balance_u64; token_transfer_spec := toy_transfer_spec;
            create_associated_token_spec := toy_create_spec |}.
  - intros l from to mint authority amount prog authority' Hf Ht _ _ [??] Hne Hlt.
    unfold toy_transfer. rewrite Hf, Ht. cbn [tk_mint tk_authority tk_program].
    rewrite bool_decide_eq_true_2 by done.
    rewrite (proj2 (Z.leb_le 0 amount)), (proj2 (Z.leb_le amount _)), decide_False by done. cbn [andb].
    by rewrite (proj2 (Z.ltb_lt _ _)).
  - intros l mint owner prog Hm Ha. unfold toy_create. rewrite Ha.
    by rewrite bool_decide_eq_true_2.
Defined.
