(* ===== verification/Utils.v ===== *)
(** * utils/utils.ts: helpers of scripts and tests

    Contract factories and artifact files, numbers, seeding of wallets, the
    parameter types of functions and the aliasing of L1 addresses on
    rollups.  ethers, hardhat and the packages that publish artifacts are
    parameters; a directory is a tree. *)

From stdpp Require Import base gmap strings list.
From Stdlib Require Import ZArith Ascii Strings.Byte Lia.
From S2P Require Import Prelude Bytes JsText Interfaces.

(** ethers' big numbers: parsing, hexadecimal text without leading zero bytes,
    and fixed-point text ([parseUnits], [formatUnits]). *)
Class EthersNumbers := {
  BigNumber_from : string → result Z;
  BigNumber_from_number : option Z → result Z;
  hexlify_number : Z → string;
  parseUnits : string → Z → result Z;
  formatUnits : string → result string;
  BigNumber_from_decimal : ∀ n, 0 ≤ n < 10 ^ 30 → BigNumber_from (decimal n) = Ok n;
  BigNumber_from_hex : ∀ bs, bs ≠ [] → BigNumber_from ("0x" +:+ to_hex bs) = Ok (be_val bs);
  BigNumber_from_safe : ∀ n, Z.abs n < 2 ^ 53 - 1 → BigNumber_from_number (Some n) = Ok n;
  hexlify_number_min : ∀ v n, 256 ^ Z.of_nat n ≤ v < 256 ^ Z.of_nat (S n) →
    hexlify_number v = "0x" +:+ to_hex (be_bytes (S n) v);
  hexlify_zero : hexlify_number 0 = "0x00"%string
}.

(** ** Artifacts *)
Inductive fs_node :=
| File (content : string)
| Dir (entries : list (string * fs_node)).

(** Node's [path]: [join(d, "/", f)] normalizes; a plain name stays as it is. *)
Definition plain (name : string) : bool :=
  negb (includes name "/") && negb (bool_decide (name ∈ [""; "."; ".."]%string)).

Class NodePath := {
  normalize : string → string;
  normalize_plain : ∀ d f, plain f = true → normalize (d +:+ "/" +:+ f) = normalize d +:+ "/" +:+ f
}.

Section Artifacts.
Context `{NodePath}.

Definition path_join (d f : string) : string := normalize (d +:+ "/" +:+ f).

(** [getAllFilesInPath]: one array is passed down and grows; [node] is what
    [readdirSync] and [statSync] see at [dirPath]. *)
Fixpoint getAllFilesInPath (dirPath : string) (node : fs_node) (arrayOfFiles : list string) : list string :=
  match node with
  | File _ => arrayOfFiles
  | Dir files =>
      (fix forEach (files : list (string * fs_node)) (arrayOfFiles : list string) :=
         match files with
         | [] => arrayOfFiles
         | (file, entry) :: files' =>
             forEach files'
               match entry with
               | Dir _ => getAllFilesInPath (dirPath +:+ "/" +:+ file) entry arrayOfFiles
               | File _ => arrayOfFiles ++ [path_join dirPath file]
               end
         end) files arrayOfFiles
  end.

(** The files under a path with their contents. *)
Fixpoint tree_files (p : string) (node : fs_node) : list (string * string) :=
  match node with
  | File c => [(p, c)]
  | Dir entries => concat (map (λ '(f, entry), tree_files (p +:+ "/" +:+ f) entry) entries)
  end.

Definition readFileSync (root : string) (tree : fs_node) (p : string) : result string :=
  from_option_err (JsError "ENOENT") (js_lookup (tree_files (normalize root) tree) p).

(** [tree] is the directory at [artifactsPath]; [parse] is [JSON.parse]. *)
Definition findArtifactFromPath {A} (parse : string → result A) (tree : fs_node)
    (contractName artifactsPath : string) : result A :=
  match tree with
  | File _ => Err (JsError "ENOTDIR")
  | Dir _ =>
      let allArtifactsPaths := getAllFilesInPath artifactsPath tree [] in
      match List.filter (λ a, ends_with a ("/" +:+ contractName +:+ ".json")) allArtifactsPaths with
      | [p] => let? text := readFileSync artifactsPath tree p in parse text
      | _ => Err (JsError ("Couldn't find desired artifact or found too many for " +:+ contractName))
      end
  end.
End Artifacts.

(** ** Contract factories *)
Inductive factory_arg (S : Type) := IsSigner (s : S) | IsFactoryOptions (s : S).
Arguments IsSigner {S} s. Arguments IsFactoryOptions {S} s.

Section Factories.
(** A factory, a signer, and the sources: hardhat's artifacts, the ABI and the
    bytecode of the UMA package, the Optimism package, the published
    artifacts; [newFactory] is ethers' constructor. *)
Context {F S ABI : Type}
  (hardhat : string → factory_arg S → result F)
  (getAbi : string → result ABI) (getBytecode : string → result string)
  (optimism : string → factory_arg S → result F)
  (localArtifact : string → result (ABI * string))
  (newFactory : ABI → string → factory_arg S → result F).

Definition or_else {A} (r : result A) (k : result A) : result A :=
  match r with Ok a => Ok a | Err _ => k end.

Definition isFactoryOptions (a : factory_arg S) : bool :=
  match a with IsFactoryOptions _ => true | IsSigner _ => false end.

Definition from_uma (name : string) (arg : factory_arg S) : result F :=
  if isFactoryOptions arg
  then Err (JsError "Cannot pass FactoryOptions to a contract imported from UMA")
  else let? abi := getAbi name in
       let? bytecode := getBytecode name in
       newFactory abi bytecode arg.

Definition from_local (name : string) (arg : factory_arg S) : result F :=
  let? a := localArtifact name in newFactory (fst a) (snd a) arg.

Definition getContractFactory (name : string) (arg : factory_arg S) : result F :=
  or_else (hardhat name arg)
    (or_else (from_uma name arg)
      (or_else (optimism name arg)
        (or_else (from_local name arg)
          (Err (JsError ("Could not find the artifact for " +:+ name +:+ "!")))))).

(** A fragment of a factory's interface: its name and its inputs, by name. *)
Context {P : Type} (fragments : F → list (string * list (string * P))) (void_signer : S).

(** [getParamType]: [None] is the empty string the code falls back to. *)
Definition getParamType (contractName functionName paramName : string) : result (option P) :=
  let? factory := getContractFactory contractName (IsSigner void_signer) in
  let? fragment := from_option_err TypeError
    (List.find (λ f, bool_decide (fst f = functionName)) (fragments factory)) in
  Ok (snd <$> List.find (λ i, bool_decide (fst i = paramName)) (snd fragment)).

(** [createFake] and [createFakeFromABI]: what smock is asked for. *)
Definition createFake (contractName targetAddress : string) : result (list (string * list (string * P)) * option string) :=
  let? factory := getContractFactory contractName (IsSigner void_signer) in
  Ok (fragments factory, if bool_decide (targetAddress = ""%string) then None else Some targetAddress).

Definition createFakeFromABI (abi : ABI) (targetAddress : string) : ABI * option string :=
  (abi, if bool_decide (targetAddress = ""%string) then None else Some targetAddress).
End Factories.

(** ** Numbers; a number is given by its text *)
Section Numbers.
Context `{EthersNumbers}.

Definition toWei (num : string) : result Z := parseUnits num 18.
Definition toWeiWithDecimals (num : string) (decimals : Z) : result Z := parseUnits num decimals.
Definition toBNWei (num : string) : result Z := toWei num.
Definition toBNWeiWithDecimals (num : string) (decimals : Z) : result Z := toWeiWithDecimals num decimals.
Definition fromWei (num : string) : result string := formatUnits num.

Definition toBN (num : string) : result Z :=
  if includes num "." then BigNumber_from_number (parseInt num) else BigNumber_from num.

(** [randomBytes] and [Math.random() < 0.5] are arguments. *)
Definition randomBigNumber (nbytes : nat) (signed : bool) (randomBytes : nat → bytes) (coin : bool) : result Z :=
  let sign := signed && coin in
  let? v := BigNumber_from ("0x" +:+ to_hex (randomBytes (if signed then nbytes - 1 else nbytes)%nat)) in
  Ok (if sign then - v else v).

Definition createRandomBytes32 (randomBytes : nat → bytes) : string := "0x" +:+ to_hex (randomBytes 32%nat).

(** [checksum] is ethers' [getAddress]. *)
Definition randomAddress (checksum : string → string) (randomBytes : nat → bytes) : string :=
  checksum ("0x" +:+ to_hex (randomBytes 20%nat)).

Definition avmL1ToL2Alias (l1Address : string) : result string :=
  let? offset := toBN "0x1111000000000000000000000000000000001111" in
  let? l1AddressAsNumber := toBN l1Address in
  let l2AddressAsNumber := l1AddressAsNumber + offset in
  let? base := toBN "2" in
  let? exponent := toBN "160" in
  let mask := base ^ exponent in
  Ok (hexlify_number (l2AddressAsNumber mod mask)).
End Numbers.

(** ** Seeding *)
Inductive tokenE : Type → Type :=
| Mint (token to : string) (amount : Z) : tokenE unit
| DepositEth (weth from : string) (value : Z) : tokenE unit
| Transfer (token from to : string) (amount : Z) : tokenE unit.

Definition optional {E A} (o : option A) (body : A → prog E unit) : prog E unit :=
  match o with Some a => body a | None => Ret tt end.

Definition seedWallet (walletToFund : string) (tokens : list string) (weth : option string)
    (amountToSeedWith : Z) : prog tokenE unit :=
  for_each tokens (λ token, call (Mint token walletToFund amountToSeedWith)) ;;
  optional weth (λ weth, call (DepositEth weth walletToFund amountToSeedWith)).

Definition seedContract (contract walletToFund : string) (tokens : list string) (weth : option string)
    (amountToSeedWith : Z) : prog tokenE unit :=
  seedWallet walletToFund tokens weth amountToSeedWith ;;
  for_each tokens (λ token, call (Transfer token walletToFund contract amountToSeedWith)) ;;
  optional weth (λ weth, call (Transfer weth walletToFund contract amountToSeedWith)).

(** [CrossDomainAddressUtils.sol], on addresses as 160-bit words. *)
Definition applyL1ToL2Alias (l1Address : Z) : Z :=
  (l1Address + 0x1111000000000000000000000000000000001111) mod 2 ^ 160.

(** * Properties *)

(** ** Files *)
Lemma fs_node_induction (P : fs_node → Prop) :
  (∀ c, P (File c)) → (∀ es, Forall (λ e, P (snd e)) es → P (Dir es)) → ∀ n, P n.
Proof.
  intros Hf Hd. fix IH 1. intros [c|es]; [apply Hf|apply Hd].
  induction es as [|[f e] es IHes]; constructor; [apply IH|apply IHes].
Qed.

(** Names of directory entries are plain. *)
Fixpoint plain_tree (node : fs_node) : Prop :=
  match node with
  | File _ => True
  | Dir entries => fold_right (λ '(f, entry) P, (plain f = true ∧ plain_tree entry) ∧ P) True entries
  end.

Section Files.
Context `{NodePath}.

Lemma getAllFilesInPath_tree node : ∀ d acc, plain_tree node → (∀ c, node ≠ File c) →
  getAllFilesInPath d node acc = acc ++ map fst (tree_files (normalize d) node).
Proof.
  induction node as [c|es IH] using fs_node_induction; intros d acc Hp Hd; [by destruct (Hd c)|].
  cbn [getAllFilesInPath tree_files]. clear Hd. revert acc.
  induction IH as [|[f e] es He Hes IHes]; intros acc; [cbn; by rewrite app_nil_r|].
  destruct Hp as [[Hf Hpe] Hp]. cbn [snd] in He. rewrite IHes by done. cbn [map concat].
  rewrite map_app, app_assoc. f_equal. destruct e as [c|es'].
  - cbn. unfold path_join. by rewrite normalize_plain.
  - by rewrite He, normalize_plain by done.
Qed.

(** The files under [root] called [contractName.json], with their contents. *)
Definition artifacts_named (root : string) (tree : fs_node) (contractName : string) : list (string * string) :=
  List.filter (λ f, ends_with (fst f) ("/" +:+ contractName +:+ ".json")) (tree_files (normalize root) tree).

Lemma filter_map_fst {B} (g : string → bool) (l : list (string * B)) :
  List.filter g (map fst l) = map fst (List.filter (λ f, g (fst f)) l).
Proof. induction l as [|[a b] l IH]; [done|]. cbn. rewrite IH. by destruct (g a). Qed.

(** A path that passes a test only one pair passes is looked up there. *)
Lemma lookup_only {B} (g : string → bool) (l : list (string * B)) p b :
  List.filter (λ f, g (fst f)) l = [(p, b)] → js_lookup l p = Some b.
Proof.
  intros Hf. assert (∀ b', (p, b') ∈ l → b' = b) as Honly.
  { intros b' Hin. assert ((p, b') ∈ [(p, b)]) as Hin'; [|by apply list_elem_of_singleton in Hin'; injection Hin'].
    rewrite <- Hf. apply list_elem_of_In, filter_In. split; [by apply list_elem_of_In|].
    assert (In (p, b) (List.filter (λ f, g (fst f)) l)) as [_ Hg]%filter_In by (rewrite Hf; by left). done. }
  assert (In (p, b) (List.filter (λ f, g (fst f)) l)) as [Hin _]%filter_In by (rewrite Hf; by left).
  apply list_elem_of_In in Hin.
  destruct (js_lookup l p) as [b'|] eqn:Hl.
  - apply js_lookup_Some_in in Hl. by rewrite (Honly b' Hl).
  - apply js_lookup_None in Hl. destruct Hl. apply list_elem_of_fmap. by exists (p, b).
Qed.
End Files.

(** [findArtifactFromPath] parses the one file called
    [contractName.json] anywhere under the directory, however deep, and throws
    when there is none or more than one: the recursion that grows one shared
    array lists every file exactly once, with its normalized path. *)
Theorem findArtifactFromPath_exact `{NodePath} {A} (parse : string → result A) (entries : list (string * fs_node))
    (contractName root : string) (Hplain : plain_tree (Dir entries)) :
  findArtifactFromPath parse (Dir entries) contractName root =
    match artifacts_named root (Dir entries) contractName with
    | [(_, text)] => parse text
    | _ => Err (JsError ("Couldn't find desired artifact or found too many for " +:+ contractName))
    end.
Proof.
  unfold findArtifactFromPath. rewrite getAllFilesInPath_tree by done. cbn [app].
  rewrite filter_map_fst. fold (artifacts_named root (Dir entries) contractName).
  destruct (artifacts_named root (Dir entries) contractName) as [|[p text] [|[q u] rest]] eqn:Ha; [done| |done].
  cbn [map fst]. unfold readFileSync. by rewrite (lookup_only (λ a, ends_with a ("/" +:+ contractName +:+ ".json")) _ _ _ Ha).
Qed.

(** ** Aliases *)
Lemma applyL1ToL2Alias_inj a b : 0 ≤ a < 2 ^ 160 → 0 ≤ b < 2 ^ 160 →
  applyL1ToL2Alias a = applyL1ToL2Alias b → a = b.
Proof.
  unfold applyL1ToL2Alias. set (k := 0x1111000000000000000000000000000000001111). intros Ha Hb Heq.
  assert ((a - b) mod 2 ^ 160 = 0) as Hz.
  { replace (a - b) with (a + k - (b + k)) by lia. rewrite Zminus_mod, Heq, Z.sub_diag. done. }
  apply Z.mod_divide in Hz as [q Hq]; [|lia]. nia.
Qed.

Lemma includes_hex_dot bs : includes ("0x" +:+ to_hex bs) "." = false.
Proof.
  unfold includes, to_hex. rewrite chars_app, chars_text.
  change (chars "0x") with ["0"; "x"]%char. cbn [app]. change (chars ".") with ["."]%char.
  assert (∀ z, 0 ≤ z < 16 → ("." =? hex_digit z)%char = false) as Hd.
  { intros z Hz. assert (z = 0 ∨ z = 1 ∨ z = 2 ∨ z = 3 ∨ z = 4 ∨ z = 5 ∨ z = 6 ∨ z = 7 ∨ z = 8
      ∨ z = 9 ∨ z = 10 ∨ z = 11 ∨ z = 12 ∨ z = 13 ∨ z = 14 ∨ z = 15) as Hz' by lia.
    by repeat destruct Hz' as [->|Hz']; subst; vm_compute. }
  cbn [includes_chars prefix_of]. change ("." =? "0")%char with false. change ("." =? "x")%char with false.
  cbn [andb orb]. induction bs as [|b bs IH]; [done|].
  cbn [to_hex_chars includes_chars prefix_of]. pose proof (byte_val_bound b).
  rewrite (Hd (byte_val b / 16)) by (split; [apply Z.div_pos|apply Z.div_lt_upper_bound]; lia).
  rewrite (Hd (byte_val b mod 16)) by (apply Z.mod_pos_bound; lia).
  cbn [andb orb]. exact IH.
Qed.

Lemma toBN_hex `{EthersNumbers} bs : bs ≠ [] → toBN ("0x" +:+ to_hex bs) = Ok (be_val bs).
Proof. intros Hbs. unfold toBN. by rewrite includes_hex_dot, BigNumber_from_hex. Qed.

Lemma length_to_hex bs : length (chars (to_hex bs)) = (2 * length bs)%nat.
Proof.
  unfold to_hex. rewrite chars_text. induction bs as [|b bs IH]; [done|]. cbn [to_hex_chars length]. lia.
Qed.

(** The number of bytes of a positive number. *)
Lemma byte_length v m : 0 < v < 256 ^ Z.of_nat m →
  ∃ n, (n < m)%nat ∧ 256 ^ Z.of_nat n ≤ v < 256 ^ Z.of_nat (S n).
Proof.
  induction m as [|m IH]; intros Hv; [change (256 ^ Z.of_nat 0) with 1 in Hv; lia|].
  destruct (Z_lt_le_dec v (256 ^ Z.of_nat m)) as [Hlt|Hge].
  - destruct IH as (n & Hn & Hb); [lia|]. exists n. split; [lia|done].
  - exists m. split; [lia|]. lia.
Qed.

(** The alias of an L1 address is the one the contracts compute
    ([CrossDomainAddressUtils.applyL1ToL2Alias]), wrapping around at 160 bits;
    different addresses have different aliases.  As text it is a 20-byte
    address exactly when its first byte is not zero: ethers' [hexlify] drops
    leading zero bytes of a number. *)
Theorem avm_alias_exact `{EthersNumbers} (addr : bytes) (Hlen : length addr = 20%nat) :
  let v := applyL1ToL2Alias (be_val addr) in
  avmL1ToL2Alias ("0x" +:+ to_hex addr) = Ok (hexlify_number v) ∧
  (2 ^ 152 ≤ v → hexlify_number v = "0x" +:+ to_hex (be_bytes 20 v)) ∧
  (v < 2 ^ 152 → is_address (hexlify_number v) = false) ∧
  (∀ addr', length addr' = 20%nat → applyL1ToL2Alias (be_val addr') = v → addr' = addr).
Proof.
  intros v. assert (∀ a, length a = 20%nat → 0 ≤ be_val a < 2 ^ 160) as Hb.
  { intros a Ha. pose proof (be_val_bound a) as Hv. rewrite Ha in Hv. exact Hv. }
  assert (0 ≤ v < 2 ^ 160) as Hv by (apply Z.mod_pos_bound; lia).
  split_and!.
  - unfold avmL1ToL2Alias.
    change "0x1111000000000000000000000000000000001111" with
      ("0x" +:+ to_hex ([x11; x11] ++ replicate 16 x00 ++ [x11; x11])).
    rewrite !toBN_hex by (try done; by destruct addr). rewrite !bind_ok. unfold toBN.
    change "2"%string with (decimal 2). change "160"%string with (decimal 160).
    change (includes (decimal 2) ".") with false. change (includes (decimal 160) ".") with false. cbv iota.
    rewrite !BigNumber_from_decimal, !bind_ok by lia. reflexivity.
  - intros Hge. apply (hexlify_number_min v 19). change (256 ^ Z.of_nat 19) with (2 ^ 152).
    change (256 ^ Z.of_nat 20) with (2 ^ 160). lia.
  - intros Hlt. destruct (Z.eq_dec v 0) as [->|Hne]; [by rewrite hexlify_zero|].
    destruct (byte_length v 19) as (n & Hn & Hbytes); [change (256 ^ Z.of_nat 19) with (2 ^ 152); lia|].
    rewrite (hexlify_number_min v n Hbytes). unfold is_address. rewrite chars_app.
    change (chars "0x") with ["0"; "x"]%char. cbn [app]. rewrite length_to_hex, length_be_bytes.
    destruct (Nat.eqb_spec (2 * S n) 40); [lia|done].
  - intros addr' Ha Heq. apply applyL1ToL2Alias_inj in Heq; [|by apply Hb..].
    rewrite <- (be_bytes_be_val addr'), <- (be_bytes_be_val addr). by rewrite Heq, Ha, Hlen.
Qed.

(** ** Seeding *)

(** Balances, by token and account; ERC-20 transfers need the balance. *)
Abbreviation balances := (gmap (string * string) Z).
Definition balance_at (b : balances) (token account : string) : Z := default 0 (b !! (token, account)).
Definition credit (b : balances) (token account : string) (amount : Z) : balances :=
  <[(token, account) := balance_at b token account + amount]> b.

Definition tokens_handler : handler balances tokenE := λ X b c,
  match c in tokenE Y return result Y * balances with
  | Mint token to amount => (Ok tt, credit b token to amount)
  | DepositEth weth from value => (Ok tt, credit b weth from value)
  | Transfer token from to amount =>
      if balance_at b token from <? amount then (Err (JsError "ERC20: transfer amount exceeds balance"), b)
      else (Ok tt, credit (credit b token from (- amount)) token to amount)
  end.

Definition times (token : string) (tokens : list string) : Z :=
  Z.of_nat (length (filter (λ t, t = token) tokens)).

Lemma balance_credit b t a v t' a' :
  balance_at (credit b t a v) t' a' =
    balance_at b t' a' + (if decide (t = t' ∧ a = a') then v else 0).
Proof.
  unfold credit, balance_at. destruct (decide (t = t' ∧ a = a')) as [[-> ->]|Hne].
  - by rewrite lookup_insert_eq.
  - rewrite lookup_insert_ne by (intros [= -> ->]; by destruct Hne). by rewrite Z.add_0_r.
Qed.

Lemma times_cons t t' ts : times t (t' :: ts) = (if decide (t' = t) then 1 else 0) + times t ts.
Proof. unfold times. rewrite filter_cons. destruct (decide (t' = t)); cbn [length]; lia. Qed.

Lemma times_nonneg t ts : 0 ≤ times t ts.
Proof. unfold times. lia. Qed.

(** A loop that gives the wallet [v] of each token. *)
Lemma give_run (c : string → tokenE unit) wallet v tokens : ∀ b,
  (∀ b t, tokens_handler unit b (c t) = (Ok tt, credit b t wallet v)) →
  ∃ b', run_state tokens_handler b (for_each tokens (λ t, call (c t))) = (Ok tt, b') ∧
    ∀ t a, balance_at b' t a = balance_at b t a + (if decide (a = wallet) then times t tokens * v else 0).
Proof.
  induction tokens as [|t0 tokens IH]; intros b Hc; cbn [for_each].
  - exists b. split; [done|]. intros t a. change (times t []) with 0. destruct (decide _); lia.
  - destruct (IH (credit b t0 wallet v) Hc) as (b' & Hrun & Hb'). exists b'.
    rewrite run_state_bind, run_state_call, Hc. split; [exact Hrun|]. intros t a.
    rewrite Hb', balance_credit, times_cons.
    destruct (decide (a = wallet)) as [->|Ha], (decide (t0 = t)) as [->|Ht];
      repeat case_decide; try tauto; try lia; intuition congruence.
Qed.

Lemma move_run contract wallet v tokens : ∀ b, contract ≠ wallet → 0 ≤ v →
  (∀ t, times t tokens * v ≤ balance_at b t wallet) →
  ∃ b', run_state tokens_handler b (for_each tokens (λ t, call (Transfer t wallet contract v))) = (Ok tt, b') ∧
    ∀ t a, balance_at b' t a = balance_at b t a - (if decide (a = wallet) then times t tokens * v else 0)
                                                + (if decide (a = contract) then times t tokens * v else 0).
Proof.
  induction tokens as [|t0 tokens IH]; intros b Hne Hv Henough; cbn [for_each].
  - exists b. split; [done|]. intros t a. change (times t []) with 0. repeat case_decide; lia.
  - set (b1 := credit (credit b t0 wallet (- v)) t0 contract v).
    assert (∀ t a, balance_at b1 t a = balance_at b t a - (if decide (t0 = t ∧ a = wallet) then v else 0)
              + (if decide (t0 = t ∧ a = contract) then v else 0)) as Hb1.
    { intros t a. unfold b1. rewrite !balance_credit. repeat case_decide; try lia; intuition congruence. }
    destruct (IH b1 Hne Hv) as (b' & Hrun & Hb').
    { intros t. rewrite Hb1. specialize (Henough t). rewrite times_cons in Henough.
      pose proof (times_nonneg t tokens).
      repeat case_decide; try nia; intuition (congruence || nia). }
    exists b'. split.
    + rewrite run_state_bind, run_state_call. cbn [tokens_handler].
      destruct (Z.ltb_spec (balance_at b t0 wallet) v) as [Hlt|]; [|exact Hrun].
      specialize (Henough t0). rewrite times_cons, decide_True in Henough by done.
      pose proof (times_nonneg t0 tokens). nia.
    + intros t a. rewrite Hb', Hb1, times_cons.
      destruct (decide (t0 = t)) as [->|]; repeat case_decide; try lia; intuition congruence.
Qed.

Definition seeded (tokens : list string) (weth : option string) : list string :=
  tokens ++ match weth with Some w => [w] | None => [] end.

Lemma optional_for_each {E} (o : option string) (body : string → prog E unit) b (h : handler b E) s :
  run_state h s (optional o body) = run_state h s (for_each (match o with Some w => [w] | None => [] end) body).
Proof.
  destruct o as [w|]; [|done]. cbn [optional for_each]. rewrite run_state_bind.
  by destruct (run_state h s (body w)) as [[[]|] ?].
Qed.

(** [seedContract] against ERC-20 balances always completes: the
    contract receives the amount once for each occurrence of a token (and once
    of the wrapped ether), the wallet is left with what it had, and no other
    balance changes. *)
Theorem seedContract_funds (contract wallet : string) (tokens : list string) (weth : option string)
    (amount : Z) (b : balances)
    (Hne : contract ≠ wallet) (Hamount : 0 ≤ amount) (Hb : ∀ t, 0 ≤ balance_at b t wallet) :
  ∃ b', run_state tokens_handler b (seedContract contract wallet tokens weth amount) = (Ok tt, b') ∧
    ∀ t a, balance_at b' t a =
      balance_at b t a + (if decide (a = contract) then times t (seeded tokens weth) * amount else 0).
Proof.
  set (wl := match weth with Some w => [w] | None => [] end).
  assert (∀ t, times t (seeded tokens weth) = times t tokens + times t wl) as Htimes.
  { intros t. unfold seeded, times. fold wl. rewrite filter_app, length_app. lia. }
  unfold seedContract, seedWallet. rewrite !run_state_bind.
  destruct (give_run (λ t, Mint t wallet amount) wallet amount tokens b) as (b1 & -> & H1); [done|].
  rewrite optional_for_each. fold wl.
  destruct (give_run (λ t, DepositEth t wallet amount) wallet amount wl b1) as (b2 & -> & H2); [done|].
  assert (∀ t, balance_at b2 t wallet = balance_at b t wallet + times t (seeded tokens weth) * amount) as Hw.
  { intros t. rewrite H2, H1, Htimes, !decide_True by done. lia. }
  rewrite run_state_bind.
  destruct (move_run contract wallet amount tokens b2) as (b3 & -> & H3); [done..| |].
  { intros t. rewrite Hw, Htimes. pose proof (times_nonneg t wl). specialize (Hb t). nia. }
  rewrite optional_for_each. fold wl.
  destruct (move_run contract wallet amount wl b3) as (b4 & -> & H4); [done..| |].
  { intros t. rewrite H3, Hw, Htimes, decide_True, decide_False by done. specialize (Hb t). lia. }
  exists b4. split; [done|]. intros t a. rewrite H4, H3, H2, H1, Htimes.
  repeat case_decide; subst; try done; lia.
Qed.

(** ** Concrete instances *)
#[export] Instance posix_path : NodePath :=
  {| normalize d := d; normalize_plain _ _ _ := eq_refl |}.

(** Text of a decimal number, read back. *)
Definition digits_value (l : list ascii) : Z := foldl (λ acc a, acc * 10 + (code a - 48)) 0 l.

Lemma foldl_digits l : ∀ x, foldl (λ acc a, acc * 10 + (code a - 48)) x l =
  x * 10 ^ Z.of_nat (length l) + digits_value l.
Proof.
  unfold digits_value. induction l as [|a l IH]; intros x; [cbn; lia|]. cbn [foldl length].
  rewrite IH, (IH (0 * 10 + _)). rewrite Nat2Z.inj_succ, Z.pow_succ_r by lia. lia.
Qed.

Lemma code_digit d : 0 ≤ d < 10 → code (digit_char d) = 48 + d.
Proof.
  intros Hd. assert (d = 0 ∨ d = 1 ∨ d = 2 ∨ d = 3 ∨ d = 4 ∨ d = 5 ∨ d = 6 ∨ d = 7 ∨ d = 8 ∨ d = 9)
    as Hd' by lia. by repeat destruct Hd' as [->|Hd']; subst; vm_compute.
Qed.

Lemma decimal_chars_value fuel : ∀ n acc, 0 ≤ n < 10 ^ Z.of_nat fuel →
  digits_value (decimal_chars fuel n acc) = n * 10 ^ Z.of_nat (length acc) + digits_value acc.
Proof.
  induction fuel as [|fuel IH]; intros n acc Hn; [change (10 ^ Z.of_nat 0) with 1 in Hn; assert (n = 0) as -> by lia; done|].
  cbn [decimal_chars]. pose proof (Z.mod_pos_bound n 10 ltac:(lia)) as Hm.
  pose proof (Z.div_mod n 10 ltac:(lia)) as Hdm.
  assert (digits_value (digit_char (n mod 10) :: acc) =
          (n mod 10) * 10 ^ Z.of_nat (length acc) + digits_value acc) as Hcons.
  { unfold digits_value. cbn [foldl]. rewrite foldl_digits, code_digit by done. unfold digits_value. lia. }
  destruct (Z.eqb_spec (n / 10) 0) as [H0|H0].
  - rewrite Hcons. rewrite H0 in Hdm. by replace (n mod 10) with n by lia.
  - rewrite IH.
    + rewrite Hcons. cbn [length]. rewrite Nat2Z.inj_succ, Z.pow_succ_r by lia. nia.
    + rewrite Nat2Z.inj_succ, Z.pow_succ_r in Hn by lia. split; [apply Z.div_pos; lia|].
      apply Z.div_lt_upper_bound; lia.
Qed.

Lemma decimal_chars_digits fuel : ∀ n acc,
  Forall (λ a, ∃ d, 0 ≤ d < 10 ∧ a = digit_char d) acc →
  Forall (λ a, ∃ d, 0 ≤ d < 10 ∧ a = digit_char d) (decimal_chars fuel n acc).
Proof.
  induction fuel as [|fuel IH]; intros n acc Hacc; [done|]. cbn [decimal_chars].
  assert (Forall (λ a, ∃ d, 0 ≤ d < 10 ∧ a = digit_char d) (digit_char (n mod 10) :: acc)).
  { constructor; [|done]. exists (n mod 10). split; [apply Z.mod_pos_bound; lia|done]. }
  destruct (n / 10 =? 0); [done|]. by apply IH.
Qed.

Lemma toBN_decimal `{EthersNumbers} n : 0 ≤ n < 10 ^ 30 → toBN (decimal n) = Ok n.
Proof.
  intros Hn. unfold toBN. replace (includes (decimal n) ".") with false; [by apply BigNumber_from_decimal|].
  unfold includes, decimal. rewrite chars_text. change (chars ".") with ["."]%char.
  pose proof (decimal_chars_digits 30 n [] (Forall_nil_2 _)) as Hd.
  induction Hd as [|a l (d & Hb & ->) _ IH]; [done|]. cbn [includes_chars prefix_of].
  replace ("." =? digit_char d)%char with false; [exact IH|].
  assert (d = 0 ∨ d = 1 ∨ d = 2 ∨ d = 3 ∨ d = 4 ∨ d = 5 ∨ d = 6 ∨ d = 7 ∨ d = 8 ∨ d = 9) as Hd' by lia.
  by repeat destruct Hd' as [->|Hd']; subst; vm_compute.
Qed.

Definition read_number (s : string) : result Z :=
  match chars s with
  | "0"%char :: "x"%char :: ds => Ok (be_val (of_hex_chars ds))
  | ds => Ok (digits_value ds)
  end.

(** Fixed-point text: the digits before and after the point. *)
Fixpoint split_point (l : list ascii) : list ascii * list ascii :=
  match l with
  | [] => ([], [])
  | "."%char :: l' => ([], l')
  | a :: l' => let '(i, f) := split_point l' in (a :: i, f)
  end.

Definition read_fixed (s : string) (decimals : Z) : result Z :=
  let '(i, f) := split_point (chars s) in
  if Z.of_nat (length f) <=? decimals
  then Ok (digits_value (i ++ f) * 10 ^ (decimals - Z.of_nat (length f)))
  else Err (JsError "fractional component exceeds decimals").

Definition minimal_hex (v : Z) : string :=
  if v =? 0 then "0x00" else "0x" +:+ to_hex (be_bytes (S (Z.to_nat (Z.log2 v / 8))) v).

#[export] Instance toy_numbers : EthersNumbers.
Proof.
  refine {| BigNumber_from := read_number;
            BigNumber_from_number o := from_option_err (JsError "invalid BigNumber value") o;
            hexlify_number := minimal_hex;
            parseUnits := read_fixed;
            formatUnits s := Ok s |}.
  - intros n Hn. unfold read_number, decimal. rewrite chars_text.
    pose proof (decimal_chars_digits 30 n [] (Forall_nil_2 _)) as Hd.
    assert (digits_value (decimal_chars 30 n []) = n) as Hv.
    { rewrite decimal_chars_value by exact Hn. cbn. lia. }
    revert Hd Hv. generalize (decimal_chars 30 n []). intros [|a [|c l]] Hd <-; [done| |].
    { by destruct a as [[] [] [] [] [] [] [] []]. }
    assert (c ≠ "x"%char) as Hx.
    { apply Forall_cons in Hd as [_ Hd]. apply Forall_cons in Hd as [(d & Hb & ->) _]. intros Heq.
      apply (f_equal code) in Heq. rewrite code_digit in Heq by done. change (code "x") with 120 in Heq. lia. }
    destruct a as [[] [] [] [] [] [] [] []]; try done.
    by destruct c as [[] [] [] [] [] [] [] []].
  - intros bs _. unfold read_number. rewrite chars_app. unfold to_hex. rewrite chars_text.
    change (chars "0x") with ["0"; "x"]%char. cbn [app]. by rewrite of_to_hex_chars.
  - done.
  - intros v n Hv. unfold minimal_hex.
    assert (∀ k, 256 ^ Z.of_nat k = 2 ^ (8 * Z.of_nat k)) as Hpow by (intros k; by rewrite Z.pow_mul_r by lia).
    rewrite !Hpow in Hv. assert (0 < 2 ^ (8 * Z.of_nat n)) by (apply Z.pow_pos_nonneg; lia).
    destruct (Z.eqb_spec v 0); [lia|].
    assert (8 * Z.of_nat n ≤ Z.log2 v) by (apply Z.log2_le_pow2; lia).
    assert (Z.log2 v < 8 * Z.of_nat (S n)) by (apply Z.log2_lt_pow2; lia).
    replace (Z.to_nat (Z.log2 v / 8)) with n; [done|].
    assert (Z.log2 v / 8 = Z.of_nat n) as ->; [|lia]. symmetry.
    apply (Z.div_unique _ _ _ (Z.log2 v - 8 * Z.of_nat n)); lia.
  - done.
Defined.

(** ** Witnesses *)
Definition sample_dir : list (string * fs_node) :=
  [("a", Dir [("Token.json", File "{1}"); ("Pool.json", File "{2}")]); ("Token.sol", Dir []);
   ("MyToken.json", File "{3}")]%string.

Lemma findArtifactFromPath_exact_witness :
  findArtifactFromPath (λ s, Ok s) (Dir sample_dir) "Token" "/artifacts" = Ok "{1}"%string ∧
  is_ok (findArtifactFromPath (λ s, Ok s) (Dir sample_dir) "Missing" "/artifacts") = false.
Proof.
  assert (plain_tree (Dir sample_dir)) as Hp by (cbn; repeat split).
  split.
  - rewrite (findArtifactFromPath_exact (λ s, Ok s) sample_dir "Token" "/artifacts" Hp). vm_compute. reflexivity.
  - vm_compute. reflexivity.
Defined.

Lemma avm_alias_exact_witness :
  avmL1ToL2Alias ("0x" +:+ to_hex (replicate 20 x01)) =
    Ok (hexlify_number (applyL1ToL2Alias (be_val (replicate 20 x01)))) ∧
  hexlify_number (applyL1ToL2Alias (be_val (replicate 20 x01))) = "0x1212010101010101010101010101010101011212"%string.
Proof.
  split; [|vm_compute; reflexivity].
  destruct (avm_alias_exact (replicate 20 x01) eq_refl) as [Ha _]. exact Ha.
Defined.

Lemma seedContract_funds_witness :
  ∃ b', run_state tokens_handler ∅ (seedContract "pool" "wallet" ["usdc"; "dai"] (Some "weth") 7) = (Ok tt, b') ∧
    balance_at b' "dai" "pool" = 7 ∧ balance_at b' "weth" "wallet" = 0.
Proof.
  destruct (seedContract_funds "pool" "wallet" ["usdc"; "dai"] (Some "weth") 7 ∅) as (b' & Hrun & Hb).
  - done.
  - lia.
  - intros t. unfold balance_at. rewrite lookup_empty. cbn. lia.
  - exists b'. split; [exact Hrun|]. rewrite !Hb. split; reflexivity.
Defined.

(** ** Text as hexadecimal *)

(** Text of ASCII characters only. *)
Definition is_ascii (s : string) : bool := forallb (λ b, byte_val b <? 128) (utf8_encode s).

(** [ethers.utils.formatBytes32String] (32 bytes, zeros after the text, at
    most 31 bytes of it) and [toUtf8String] of hexadecimal text, of ASCII
    characters here. *)
Class EthersStrings := {
  formatBytes32String : string → result string;
  toUtf8String : string → result string;
  formatBytes32String_fits : ∀ s, (length (utf8_encode s) ≤ 31)%nat →
    formatBytes32String s =
      Ok ("0x" +:+ to_hex (utf8_encode s ++ replicate (32 - length (utf8_encode s)) x00));
  formatBytes32String_long : ∀ s, (31 < length (utf8_encode s))%nat → is_ok (formatBytes32String s) = false;
  toUtf8String_ascii : ∀ s, is_ascii s = true → toUtf8String ("0x" +:+ to_hex (utf8_encode s)) = Ok s
}.

Section Text.
Context `{EthersStrings}.

Definition utf8ToHex (input : string) : result string := formatBytes32String input.
Definition hexToUtf8 (input : string) : result string := toUtf8String input.
End Text.

(** Text of [n] NUL characters. *)
Definition nuls (n : nat) : string := String.string_of_list_byte (replicate n x00).

Lemma utf8_encode_app s t : utf8_encode (s +:+ t) = utf8_encode s ++ utf8_encode t.
Proof. unfold utf8_encode. induction s as [|a s IH]; [done|]. exact (f_equal (cons (byte_of_ascii a)) IH). Qed.

Lemma utf8_encode_nuls n : utf8_encode (nuls n) = replicate n x00.
Proof. apply String.list_byte_of_string_of_list_byte. Qed.

Lemma ascii_nuls s n : is_ascii s = true → is_ascii (s +:+ nuls n) = true.
Proof.
  unfold is_ascii. intros Hs. rewrite utf8_encode_app, utf8_encode_nuls, forallb_app, Hs.
  induction n; done.
Qed.

(** [hexToUtf8] undoes [utf8ToHex] up to the padding: ASCII texts of at most
    31 characters come back followed by NUL characters, 32 characters in all
    (so never unchanged), and longer texts are refused. *)
Theorem utf8_hex_roundtrip `{EthersStrings} (s : string) :
  let n := length (utf8_encode s) in
  (is_ascii s = true → (n ≤ 31)%nat → (let? h := utf8ToHex s in hexToUtf8 h) = Ok (s +:+ nuls (32 - n))) ∧
  ((31 < n)%nat → is_ok (utf8ToHex s) = false).
Proof.
  cbn zeta. unfold utf8ToHex, hexToUtf8. split; [intros Ha Hn|intros Hn; by apply formatBytes32String_long].
  rewrite formatBytes32String_fits by done. cbn [result_bind].
  rewrite <- utf8_encode_nuls, <- utf8_encode_app. by apply toUtf8String_ascii, ascii_nuls.
Qed.

(** Those functions on byte strings. *)
Definition format32 (s : string) : result string :=
  if (length (utf8_encode s) <=? 31)%nat
  then Ok ("0x" +:+ to_hex (utf8_encode s ++ replicate (32 - length (utf8_encode s)) x00))
  else Err (JsError "bytes32 string must be less than 32 bytes").

#[export] Instance toy_strings : EthersStrings.
Proof.
  refine {| formatBytes32String := format32;
            toUtf8String h := Ok (String.string_of_list_byte (buffer_from_hex (str_slice_from h 2))) |}.
  - intros s Hs. unfold format32. by rewrite (proj2 (Nat.leb_le _ _) Hs).
  - intros s Hs. unfold format32. by rewrite (proj2 (Nat.leb_gt _ _) Hs).
  - intros s _. change (str_slice_from ("0x" +:+ to_hex (utf8_encode s)) 2) with (text (chars (to_hex (utf8_encode s)))).
    rewrite text_chars, buffer_from_to_hex. unfold utf8_encode.
    by rewrite String.string_of_list_byte_of_string.
Defined.

Lemma utf8_hex_roundtrip_witness :
  is_ascii "ACROSS-V2" = true ∧
  (let? h := utf8ToHex "ACROSS-V2" in hexToUtf8 h) = Ok ("ACROSS-V2" +:+ nuls 23).
Proof.
  split; [reflexivity|].
  apply (utf8_hex_roundtrip "ACROSS-V2"%string); [reflexivity|vm_compute; lia].
Defined.
