(* ===== verification/Consts.v ===== *)
(** * Constants of the deployment scripts

    [deploy/consts.ts] and [utils/constants.ts]: the address tables, the
    buffers of the spoke pools and Circle's domain numbers.  Chain ids and
    token addresses come from the npm package [@across-protocol/constants],
    which is a class here. *)

From stdpp Require Import base gmap strings list.
From Stdlib Require Import ZArith Lia.
From S2P Require Import Prelude JsText.

(** ** [@across-protocol/constants] *)

(** The chain ids of the public EIP-155 registry, under the package's names. *)
Definition eip155_ids : list (string * Z) :=
  [("MAINNET", 1); ("SEPOLIA", 11155111); ("OPTIMISM", 10); ("OPTIMISM_SEPOLIA", 11155420);
   ("ARBITRUM", 42161); ("ARBITRUM_SEPOLIA", 421614); ("BASE", 8453); ("BASE_SEPOLIA", 84532);
   ("POLYGON", 137); ("POLYGON_AMOY", 80002); ("BOBA", 288); ("ZK_SYNC", 324); ("LINEA", 59144);
   ("SCROLL", 534352); ("SCROLL_SEPOLIA", 534351); ("MODE", 34443); ("MODE_SEPOLIA", 919);
   ("LISK", 1135); ("LISK_SEPOLIA", 4202); ("REDSTONE", 690); ("BLAST", 81457);
   ("BLAST_SEPOLIA", 168587773); ("WORLD_CHAIN", 480); ("ZORA", 7777777)]%string.

(** [CHAIN_IDs.X], and [TOKEN_SYMBOLS_MAP.S.addresses[c]] ([None] is
    [undefined]); every symbol the scripts name is one of the package's. *)
Class AcrossConstants := {
  CHAIN_IDs : string → Z;
  TOKEN_SYMBOLS_MAP : string → Z → option string;
  CHAIN_IDs_eip155 : ∀ name n, js_lookup eip155_ids name = Some n → CHAIN_IDs name = n;
  TOKEN_SYMBOLS_MAP_address : ∀ s c a, TOKEN_SYMBOLS_MAP s c = Some a → is_address a = true
}.

Definition ZERO_ADDRESS : string := "0x0000000000000000000000000000000000000000".

(** The values scripts pass to contracts. *)
Inductive jsval :=
| JUndef
| JNum (n : Z)
| JStr (s : string)
| JArr (l : list string).

#[export] Instance jsval_eq_dec : EqDecision jsval.
Proof. solve_decision. Defined.

(** A chain id as [parseInt] gives it: [None] is [NaN]. *)
Definition chain_key : Type := option Z.

Definition address_table : Type := list (Z * list (string * string)).

Definition or_undefined (o : option string) : jsval :=
  match o with Some s => JStr s | None => JUndef end.

(** [table[chain]] and [table[chain].name] *)
Definition row_of (table : address_table) (chain : chain_key) : option (list (string * string)) :=
  match chain with Some c => js_lookup table c | None => None end.

Definition entry (table : address_table) (chain : chain_key) (name : string) : result jsval :=
  match row_of table chain with
  | None => Err TypeError
  | Some row => Ok (or_undefined (js_lookup row name))
  end.

Definition QUOTE_TIME_BUFFER : Z := 3600.
Definition FILL_DEADLINE_BUFFER : Z := 6 * 3600.

Section Tables.
Context `{AcrossConstants}.

Definition token (symbol : string) (chain : chain_key) : jsval :=
  match chain with Some c => or_undefined (TOKEN_SYMBOLS_MAP symbol c) | None => JUndef end.

Definition USDC (chain : chain_key) : jsval := token "USDC" chain.
Definition WETH (chain : chain_key) : jsval := token "WETH" chain.
Definition WMATIC (chain : chain_key) : jsval := token "WMATIC" chain.

Definition L1_ADDRESS_MAP : address_table :=
  [
    (CHAIN_IDs "MAINNET", [
       ("optimismCrossDomainMessenger", "0x25ace71c97B33Cc4729CF772ae268934F7ab5fA1");
       ("optimismStandardBridge", "0x99C9fc46f92E8a1c0deC1b1747d010903E884bE1");
       ("bobaCrossDomainMessenger", "0x6D4528d192dB72E282265D6092F4B872f9Dff69e");
       ("bobaStandardBridge", "0xdc1664458d2f0B6090bEa60A8793A4E66c2F1c00");
       ("finder", "0x40f941E48A552bF496B154Af6bf55725f18D77c3");
       ("l1ArbitrumInbox", "0x4Dbd4fc535Ac27206064B68FfCf827b0A60BAB3f");
       ("l1ERC20GatewayRouter", "0x72Ce9c846789fdB6fC1f34aC4AD25Dd9ef7031ef");
       ("polygonRootChainManager", "0xA0c68C638235ee32657e8f720a23ceC1bFc77C77");
       ("polygonFxRoot", "0xfe5e5D361b2ad62c541bAb87C45a0B9B018389a2");
       ("polygonERC20Predicate", "0x40ec5B33f54e0E8A33A975908C5BA1c14e5BbbDf");
       ("polygonRegistry", "0x33a02E6cC863D393d6Bf231B697b82F6e499cA71");
       ("polygonDepositManager", "0x401F6c983eA34274ec46f84D70b31C151321188b");
       ("baseCrossDomainMessenger", "0x866E82a600A1414e583f7F13623F1aC5d58b0Afa");
       ("baseStandardBridge", "0x3154Cf16ccdb4C6d922629664174b904d80F2C35");
       ("l1BlastBridge", "0x3a05E5d33d7Ab3864D53aaEc93c8301C1Fa49115");
       ("blastCrossDomainMessenger", "0x5D4472f31Bd9385709ec61305AFc749F0fA8e9d0");
       ("blastStandardBridge", "0x697402166Fbf2F22E970df8a6486Ef171dbfc524");
       ("cctpTokenMessenger", "0xBd3fa81B58Ba92a82136038B25aDec7066af3155");
       ("cctpMessageTransmitter", "0x0a992d191deec32afe36203ad87d7d289a738f81");
       ("lineaMessageService", "0xd19d4B5d358258f05D7B411E21A1460D11B0876F");
       ("lineaTokenBridge", "0x051F1D88f0aF5763fB888eC4378b4D8B29ea3319");
       ("lineaUsdcBridge", "0x504a330327a089d8364c4ab3811ee26976d388ce");
       ("scrollERC20GatewayRouter", "0xF8B1378579659D8F7EE5f3C929c2f3E332E41Fd6");
       ("scrollMessengerRelay", "0x6774Bcbd5ceCeF1336b5300fb5186a12DDD8b367");
       ("scrollGasPriceOracle", "0x0d7E906BD9cAFa154b048cFa766Cc1E54E39AF9B");
       ("modeCrossDomainMessenger", "0x95bDCA6c8EdEB69C98Bd5bd17660BaCef1298A6f");
       ("modeStandardBridge", "0x735aDBbE72226BD52e818E7181953f42E3b0FF21");
       ("liskCrossDomainMessenger", "0x31B72D76FB666844C41EdF08dF0254875Dbb7edB");
       ("liskStandardBridge", "0x2658723Bf70c7667De6B25F99fcce13A16D25d08");
       ("blastYieldManager", "0xa230285d5683C74935aD14c446e137c8c8828438");
       ("blastDaiRetriever", "0x98Dd57048d7d5337e92D9102743528ea4Fea64aB");
       ("redstoneCrossDomainMessenger", "0x592C1299e0F8331D81A28C0FC7352Da24eDB444a");
       ("redstoneStandardBridge", "0xc473ca7E02af24c129c2eEf51F2aDf0411c1Df69");
       ("zoraCrossDomainMessenger", "0xdC40a14d9abd6F410226f1E6de71aE03441ca506");
       ("zoraStandardBridge", "0x3e2Ea9B92B7E48A52296fD261dc26fd995284631");
       ("worldChainCrossDomainMessenger", "0xf931a81D18B1766d15695ffc7c1920a62b7e710a");
       ("worldChainStandardBridge", "0x470458C91978D2d929704489Ad730DC3E3001113")]);
    (CHAIN_IDs "SEPOLIA", [
       ("optimismCrossDomainMessenger", "0x58Cc85b8D04EA49cC6DBd3CbFFd00B4B8D6cb3ef");
       ("optimismStandardBridge", "0xFBb0621E0B23b5478B630BD55a5f21f67730B0F1");
       ("bobaCrossDomainMessenger", "0x6D4528d192dB72E282265D6092F4B872f9Dff69e");
       ("bobaStandardBridge", "0xdc1664458d2f0B6090bEa60A8793A4E66c2F1c00");
       ("finder", "0xeF684C38F94F48775959ECf2012D7E864ffb9dd4");
       ("l1ArbitrumInbox", "0xaAe29B0366299461418F5324a79Afc425BE5ae21");
       ("l1ERC20GatewayRouter", "0xcE18836b233C83325Cc8848CA4487e94C6288264");
       ("baseCrossDomainMessenger", "0xC34855F4De64F1840e5686e64278da901e261f20");
       ("baseStandardBridge", "0xfd0Bf71F60660E2f608ed56e1659C450eB113120");
       ("cctpTokenMessenger", "0x9f3B8679c73C2Fef8b59B4f3444d4e156fb70AA5");
       ("cctpMessageTransmitter", "0x7865fAfC2db2093669d92c0F33AeEF291086BEFD");
       ("usdc", "0x1c7D4B196Cb0C7B01d743Fbc6116a902379C7238");
       ("lineaMessageService", "0xd19d4B5d358258f05D7B411E21A1460D11B0876F");
       ("lineaTokenBridge", "0x051F1D88f0aF5763fB888eC4378b4D8B29ea3319");
       ("lineaUsdcBridge", "0x504a330327a089d8364c4ab3811ee26976d388ce");
       ("scrollERC20GatewayRouter", "0x13FBE0D0e5552b8c9c4AE9e2435F38f37355998a");
       ("scrollMessengerRelay", "0x50c7d3e7f7c656493D1D76aaa1a836CedfCBB16A");
       ("scrollGasPriceOracle", "0x247969F4fad93a33d4826046bc3eAE0D36BdE548");
       ("modeCrossDomainMessenger", "0xc19a60d9E8C27B9A43527c3283B4dd8eDC8bE15C");
       ("modeStandardBridge", "0xbC5C679879B2965296756CD959C3C739769995E2");
       ("polygonRootChainManager", "0x34F5A25B627f50Bb3f5cAb72807c4D4F405a9232");
       ("polygonFxRoot", "0x0E13EBEdDb8cf9f5987512d5E081FdC2F5b0991e");
       ("polygonERC20Predicate", "0x4258C75b752c812B7Fa586bdeb259f2d4bd17f4F");
       ("polygonRegistry", "0xfE92F7c3a701e43d8479738c8844bCc555b9e5CD");
       ("polygonDepositManager", "0x44Ad17990F9128C6d823Ee10dB7F0A5d40a731A4");
       ("liskCrossDomainMessenger", "0x857824E6234f7733ecA4e9A76804fd1afa1A3A2C");
       ("liskStandardBridge", "0x1Fb30e446eA791cd1f011675E5F3f5311b70faF5");
       ("l1BlastBridge", "0xc644cc19d2A9388b71dd1dEde07cFFC73237Dca8");
       ("blastCrossDomainMessenger", "0x9338F298F29D3918D5D1Feb209aeB9915CC96333");
       ("blastStandardBridge", "0xDeDa8D3CCf044fE2A16217846B6e1f1cfD8e122f")])]%string.

Definition L2_ADDRESS_MAP : address_table :=
  [
    (CHAIN_IDs "ARBITRUM_SEPOLIA", [
       ("l2GatewayRouter", "0x9fDD1C4E4AA24EEc1d913FABea925594a20d43C7");
       ("cctpTokenMessenger", "0x9f3B8679c73C2Fef8b59B4f3444d4e156fb70AA5");
       ("cctpMessageTransmitter", "0xaCF1ceeF35caAc005e15888dDb8A3515C41B4872")]);
    (CHAIN_IDs "ARBITRUM", [
       ("l2GatewayRouter", "0x5288c571Fd7aD117beA99bF60FE0846C4E84F933");
       ("cctpTokenMessenger", "0x19330d10D9Cc8751218eaf51E8885D058642E08A");
       ("cctpMessageTransmitter", "0xC30362313FBBA5cf9163F0bb16a0e01f01A896ca");
       ("uniswapV3SwapRouter", "0xE592427A0AEce92De3Edee1F18E0157C05861564");
       ("1inchV6Router", "0x111111125421cA6dc452d289314280a0f8842A65")]);
    (CHAIN_IDs "POLYGON", [
       ("fxChild", "0x8397259c983751DAf40400790063935a11afa28a");
       ("cctpTokenMessenger", "0x9daF8c91AEFAE50b9c0E69629D3F6Ca40cA3B3FE");
       ("cctpMessageTransmitter", "0xF3be9355363857F3e001be68856A2f96b4C39Ba9");
       ("uniswapV3SwapRouter", "0xE592427A0AEce92De3Edee1F18E0157C05861564");
       ("1inchV6Router", "0x111111125421cA6dc452d289314280a0f8842A65")]);
    (CHAIN_IDs "POLYGON_AMOY", [
       ("fxChild", "0xE5930336866d0388f0f745A2d9207C7781047C0f");
       ("cctpTokenMessenger", "0x9f3B8679c73C2Fef8b59B4f3444d4e156fb70AA5");
       ("cctpMessageTransmitter", "0x7865fAfC2db2093669d92c0F33AeEF291086BEFD")]);
    (CHAIN_IDs "ZK_SYNC", [
       ("zkErc20Bridge", "0x11f943b2c77b743AB90f4A0Ae7d5A4e7FCA3E102");
       ("1inchV6Router", "0x6fd4383cB451173D5f9304F041C7BCBf27d561fF")]);
    (CHAIN_IDs "OPTIMISM", [
       ("cctpTokenMessenger", "0x2B4069517957735bE00ceE0fadAE88a26365528f");
       ("cctpMessageTransmitter", "0x4d41f22c5a0e5c74090899e5a8fb597a8842b3e8");
       ("uniswapV3SwapRouter", "0xE592427A0AEce92De3Edee1F18E0157C05861564");
       ("1inchV6Router", "0x111111125421cA6dc452d289314280a0f8842A65")]);
    (CHAIN_IDs "OPTIMISM_SEPOLIA", [
       ("cctpTokenMessenger", "0x9f3B8679c73C2Fef8b59B4f3444d4e156fb70AA5");
       ("cctpMessageTransmitter", "0x7865fAfC2db2093669d92c0F33AeEF291086BEFD");
       ("uniswapV3SwapRouter", "0xd8866E76441df243fc98B892362Fc6264dC3ca80")]);
    (CHAIN_IDs "BASE", [
       ("cctpTokenMessenger", "0x1682Ae6375C4E4A97e4B583BC394c861A46D8962");
       ("cctpMessageTransmitter", "0xAD09780d193884d503182aD4588450C416D6F9D4");
       ("uniswapV3SwapRouter", "0x2626664c2603336E57B271c5C0b26F421741e481");
       ("1inchV6Router", "0x111111125421cA6dc452d289314280a0f8842A65")]);
    (CHAIN_IDs "BASE_SEPOLIA", [
       ("cctpTokenMessenger", "0x9f3B8679c73C2Fef8b59B4f3444d4e156fb70AA5");
       ("cctpMessageTransmitter", "0x7865fAfC2db2093669d92c0F33AeEF291086BEFD");
       ("uniswapV3SwapRouter", "0x7945814de23d76dfff0cfc6ecb76456b9f7ac648")]);
    (CHAIN_IDs "LINEA", [
       ("lineaMessageService", "0x508Ca82Df566dCD1B0DE8296e70a96332cD644ec");
       ("lineaUsdcBridge", "0xA2Ee6Fce4ACB62D95448729cDb781e3BEb62504A");
       ("lineaTokenBridge", "0x353012dc4a9A6cF55c941bADC267f82004A8ceB9")]);
    (CHAIN_IDs "SCROLL_SEPOLIA", [
       ("scrollERC20GatewayRouter", "0x9aD3c5617eCAa556d6E166787A97081907171230");
       ("scrollGasPriceOracle", "0x5300000000000000000000000000000000000002");
       ("scrollMessenger", "0xba50f5340fb9f3bd074bd638c9be13ecb36e603d")]);
    (CHAIN_IDs "SCROLL", [
       ("scrollERC20GatewayRouter", "0x4C0926FF5252A435FD19e10ED15e5a249Ba19d79");
       ("scrollGasPriceOracle", "0x5300000000000000000000000000000000000002");
       ("scrollMessenger", "0x781e90f1c8Fc4611c9b7497C3B47F99Ef6969CbC")]);
    (1442, [
       ("l2Weth", "0x3ab6C7AEb93A1CFC64AEEa8BF0f00c176EE42A2C");
       ("polygonZkEvmBridge", "0xF6BEEeBB578e214CA9E23B0e9683454Ff88Ed2A7")])]%string.

Definition POLYGON_CHAIN_IDS : list (Z * Z) :=
  [(CHAIN_IDs "MAINNET", CHAIN_IDs "POLYGON"); (CHAIN_IDs "SEPOLIA", CHAIN_IDs "POLYGON_AMOY")].

Definition CIRCLE_DOMAIN_IDs : list (Z * Z) :=
  [(CHAIN_IDs "MAINNET", 0); (CHAIN_IDs "OPTIMISM", 2); (CHAIN_IDs "ARBITRUM", 3);
   (CHAIN_IDs "BASE", 6); (CHAIN_IDs "POLYGON", 7);
   (CHAIN_IDs "SEPOLIA", 0); (CHAIN_IDs "OPTIMISM_SEPOLIA", 2);
   (CHAIN_IDs "ARBITRUM_SEPOLIA", 3); (CHAIN_IDs "BASE_SEPOLIA", 6);
   (CHAIN_IDs "POLYGON_AMOY", 7)].

Definition l1 (chain : chain_key) (name : string) : result jsval := entry L1_ADDRESS_MAP chain name.
Definition l2 (chain : chain_key) (name : string) : result jsval := entry L2_ADDRESS_MAP chain name.
End Tables.

(** [utils/constants.ts] *)
Inductive FillStatus := Unfilled | RequestedSlowFill | Filled.
Definition FillStatus_value (s : FillStatus) : Z :=
  match s with Unfilled => 0 | RequestedSlowFill => 1 | Filled => 2 end.

(** * Properties *)

(** A concrete package, for evaluation: the registry's ids, and one address
    for every token on every chain. *)
#[export] Instance sample_constants : AcrossConstants.
Proof.
  refine {| CHAIN_IDs name := default 0 (js_lookup eip155_ids name);
            TOKEN_SYMBOLS_MAP _ _ := Some "0xC02aaA39b223FE8D0A0e5C4F27eAD9083C756Cc2"%string |}.
  - intros name n Hn. by rewrite Hn.
  - intros _ _ a [= <-]. reflexivity.
Defined.

(** ** Evaluating the tables

    Chain ids are registry numbers, so the tables of any package are those of
    the sample package. *)
Ltac chain_ids :=
  repeat match goal with
  | |- context [@CHAIN_IDs ?C ?name] =>
      rewrite (@CHAIN_IDs_eip155 C name _ eq_refl)
  end.

Section Evaluation.
Context (C : AcrossConstants).

Lemma L1_ADDRESS_MAP_eval : @L1_ADDRESS_MAP C = @L1_ADDRESS_MAP sample_constants.
Proof. unfold L1_ADDRESS_MAP. chain_ids. reflexivity. Qed.

Lemma L2_ADDRESS_MAP_eval : @L2_ADDRESS_MAP C = @L2_ADDRESS_MAP sample_constants.
Proof. unfold L2_ADDRESS_MAP. chain_ids. reflexivity. Qed.

Lemma POLYGON_CHAIN_IDS_eval : @POLYGON_CHAIN_IDS C = @POLYGON_CHAIN_IDS sample_constants.
Proof. unfold POLYGON_CHAIN_IDS. chain_ids. reflexivity. Qed.

Lemma CIRCLE_DOMAIN_IDs_eval : @CIRCLE_DOMAIN_IDs C = @CIRCLE_DOMAIN_IDs sample_constants.
Proof. unfold CIRCLE_DOMAIN_IDs. chain_ids. reflexivity. Qed.
End Evaluation.

Lemma token_address `{AcrossConstants} s c :
  is_Some (TOKEN_SYMBOLS_MAP s c) →
  ∃ a, token s (Some c) = JStr a ∧ is_address a = true.
Proof.
  intros [a Ha]. exists a. unfold token. rewrite Ha. split; [done|].
  by eapply TOKEN_SYMBOLS_MAP_address.
Qed.

Definition table_addresses (t : address_table) : list string :=
  concat (map (λ '(_, row), map snd row) t).

(** The constants are well formed for every release of the package that
    keeps the registry's chain ids: no chain and no contract name is listed
    twice in the L1 and L2 address tables (so no entry silently replaces
    another), every entry is a 20-byte hex address, and the two chains of each
    CCTP pair of testnet and mainnet share Circle's domain. *)
Theorem address_tables_wf `{AcrossConstants} :
  NoDup (map fst L1_ADDRESS_MAP) ∧ NoDup (map fst L2_ADDRESS_MAP) ∧
  Forall (λ r, NoDup (map fst (snd r))) (L1_ADDRESS_MAP ++ L2_ADDRESS_MAP) ∧
  Forall (λ a, is_address a = true) (table_addresses L1_ADDRESS_MAP ++ table_addresses L2_ADDRESS_MAP) ∧
  Forall (λ '(main, test), js_lookup CIRCLE_DOMAIN_IDs (CHAIN_IDs main) =
                           js_lookup CIRCLE_DOMAIN_IDs (CHAIN_IDs test))
    [("MAINNET", "SEPOLIA"); ("OPTIMISM", "OPTIMISM_SEPOLIA"); ("ARBITRUM", "ARBITRUM_SEPOLIA");
     ("BASE", "BASE_SEPOLIA"); ("POLYGON", "POLYGON_AMOY")]%string.
Proof.
  rewrite L1_ADDRESS_MAP_eval, L2_ADDRESS_MAP_eval, CIRCLE_DOMAIN_IDs_eval.
  split_and!; try (apply (bool_decide_unpack _); vm_compute; reflexivity).
  repeat constructor; chain_ids; vm_compute; reflexivity.
Qed.

(** What the mainnet row of the L1 table does not hold although scripts
    read it: the Polygon zkEVM bridge, DAI and USDC are [undefined] there. *)
Theorem missing_mainnet_entries `{AcrossConstants} :
  Forall (λ name, l1 (Some (CHAIN_IDs "MAINNET")) name = Ok JUndef)
    ["polygonZkEvmBridge"; "dai"; "usdc"]%string.
Proof.
  unfold l1. rewrite L1_ADDRESS_MAP_eval. repeat constructor; chain_ids; vm_compute; reflexivity.
Qed.

