(* ===== verification/EventScan.v ===== *)
(** * getSrcEvents: scanning a range of blocks in bounded windows

    The loop shared by [scripts/finalizeCCTPMessages.ts] and
    [scripts/claimLineaMessages.ts].  Fuel bounds the number of windows; the
    number of blocks to scan is always enough, because every window moves the
    start of the next one forward. *)

From stdpp Require Import base strings list.
From Stdlib Require Import ZArith Lia.
From S2P Require Import Prelude.

Definition MAX_L1_BLOCK_LOOKBACK : Z := 1000.
Definition MAX_L2_BLOCK_LOOKBACK : Z := 1000.
Definition DEFAULT_L1_BLOCK_LOOKBACK : Z := 8640.
Definition DEFAULT_L2_BLOCK_LOOKBACK : Z := 17380.

(** The two chains a claim script connects. *)
Inductive layer := L1 | L2.
#[export] Instance layer_eq_dec : EqDecision layer.
Proof. solve_decision. Defined.

(** An event as [queryFilter] returns it ([ev_l1Token] is [event.args?.l1Token]). *)
Record chain_event := { transactionHash : string; ev_l1Token : option string }.

(** The end of the window that starts at [fromBlock]. *)
Definition window_end (latestBlock maxBlockLookback fromBlock : Z) : Z :=
  let numBlocks := Z.max (latestBlock - fromBlock) 0 in
  if maxBlockLookback <? numBlocks then fromBlock + maxBlockLookback
  else fromBlock + numBlocks.

Section Scan.
Context {E : Type → Type} {Event : Type} (queryFn : Z → Z → prog E (list Event)).
Context (latestBlock maxBlockLookback : Z).

(** [while (fromBlock < latestBlock) { ... }] *)
Fixpoint scan_loop (fuel : nat) (fromBlock : Z) (relevantSrcEvents : list Event)
  : prog E (list Event) :=
  match fuel with
  | O => Throw (JsError "out of fuel")
  | S fuel' =>
      if fromBlock <? latestBlock then
        let numBlocks := Z.max (latestBlock - fromBlock) 0 in
        if numBlocks =? 0 then Ret relevantSrcEvents
        else
          let toBlock := window_end latestBlock maxBlockLookback fromBlock in
          let! events := queryFn fromBlock toBlock in
          scan_loop fuel' (toBlock + 1) (relevantSrcEvents ++ events)
      else Ret relevantSrcEvents
  end.

Definition scan_fuel (blockLookback : Z) : nat := S (Z.to_nat blockLookback).

Definition getSrcEvents (blockLookback : Z) : prog E (list Event) :=
  scan_loop (scan_fuel blockLookback) (latestBlock - blockLookback) [].
End Scan.

(** The block lookback given as text; [NaN] makes the scan return nothing. *)
Definition scan {E : Type → Type} {Event : Type} (queryFn : Z → Z → prog E (list Event))
    (latestBlock maxBlockLookback : Z) (blockLookback : option Z) : prog E (list Event) :=
  match blockLookback with
  | Some n => getSrcEvents queryFn latestBlock maxBlockLookback n
  | None => Ret []
  end.

(** ** The windows queried *)
Fixpoint windows (fuel : nat) (latestBlock maxBlockLookback fromBlock : Z) : list (Z * Z) :=
  match fuel with
  | O => []
  | S fuel' =>
      if fromBlock <? latestBlock
      then
        let toBlock := window_end latestBlock maxBlockLookback fromBlock in
        (fromBlock, toBlock) :: windows fuel' latestBlock maxBlockLookback (toBlock + 1)
      else []
  end.

Definition scan_windows (latestBlock blockLookback maxBlockLookback : Z) : list (Z * Z) :=
  windows (scan_fuel blockLookback) latestBlock maxBlockLookback (latestBlock - blockLookback).

(** How many windows contain a block. *)
Definition times_scanned (ws : list (Z * Z)) (b : Z) : nat :=
  length (filter (λ w, fst w ≤ b ∧ b ≤ snd w) ws).

(** * Properties *)

Lemma window_end_bounds l m f :
  0 ≤ m → f < l → f ≤ window_end l m f ≤ l ∧
  (window_end l m f = l ∧ l - f ≤ m ∨ window_end l m f = f + m ∧ m < l - f).
Proof.
  intros. unfold window_end. rewrite Z.max_l by lia.
  destruct (Z.ltb_spec m (l - f)); lia.
Qed.

Lemma scan_loop_windows {E Event} (q : Z → Z → prog E (list Event)) l m :
  0 ≤ m → ∀ fuel f acc ev h, (Z.to_nat (l - f) < fuel)%nat →
  run ev h (scan_loop q l m fuel f acc) =
  run ev h (let! es := for_collect (windows fuel l m f) (λ w, q (fst w) (snd w)) in
            Ret (acc ++ concat es)).
Proof.
  intros Hm fuel. induction fuel as [|fuel IH]; intros f acc ev h Hf; [lia|].
  cbn [scan_loop windows]. destruct (Z.ltb_spec f l) as [Hfl|Hfl].
  - pose proof (window_end_bounds l m f Hm Hfl) as [Hb _].
    rewrite Z.max_l by lia. destruct (Z.eqb_spec (l - f) 0); [lia|].
    cbn [for_collect fst snd]. rewrite !run_bind.
    destruct (run ev h (q f (window_end l m f))) as [[es|e] h']; [|done].
    rewrite IH by lia. rewrite !run_bind.
    destruct (run ev h' (for_collect _ _)) as [[ess|e] h'']; [|done].
    cbn. by rewrite <- app_assoc.
  - cbn. by rewrite app_nil_r.
Qed.

Lemma windows_from l m : 0 ≤ m → ∀ fuel f w, w ∈ windows fuel l m f → f ≤ fst w ∧ snd w ≤ l.
Proof.
  intros Hm fuel. induction fuel as [|fuel IH]; intros f w; cbn [windows];
    [by intros ?%not_elem_of_nil|].
  destruct (Z.ltb_spec f l) as [Hfl|]; [|by intros ?%not_elem_of_nil].
  pose proof (window_end_bounds l m f Hm Hfl) as [Hb _].
  intros [->|Hw]%elem_of_cons; cbn; [lia|]. apply IH in Hw. lia.
Qed.

Lemma times_scanned_outside ws b :
  (∀ w, w ∈ ws → b < fst w ∨ snd w < b) → times_scanned ws b = 0%nat.
Proof.
  unfold times_scanned. induction ws as [|w ws IH]; intros H; [done|].
  rewrite filter_cons_False.
  - apply IH. intros w' Hw'. apply H. by right.
  - destruct (H w); [by left|lia|lia].
Qed.

(** [Z.rem]-free form of the exceptional case. *)
Definition last_block_missed (lookback maxBlockLookback : Z) : bool :=
  (lookback mod (maxBlockLookback + 1) =? 0).

Lemma times_scanned_cons w ws b :
  times_scanned (w :: ws) b =
    ((if decide (fst w ≤ b ∧ b ≤ snd w)%Z then 1 else 0) + times_scanned ws b)%nat.
Proof. unfold times_scanned. rewrite filter_cons. by destruct (decide _). Qed.

Lemma windows_times l m : 0 ≤ m → ∀ fuel f b, (Z.to_nat (l - f) < fuel)%nat →
  f ≤ b ≤ l → f < l →
  times_scanned (windows fuel l m f) b =
    if decide (b = l ∧ (l - f) mod (m + 1) = 0) then 0%nat else 1%nat.
Proof.
  intros Hm fuel. induction fuel as [|fuel IH]; intros f b Hf Hb Hfl; [lia|].
  cbn [windows]. destruct (Z.ltb_spec f l); [|lia].
  pose proof (window_end_bounds l m f Hm Hfl) as [He Hcase]. set (e := window_end l m f) in *.
  rewrite times_scanned_cons. cbn [fst snd]. destruct (decide (b ≤ e)) as [Hbe|Hbe].
  - rewrite decide_True by lia. rewrite times_scanned_outside.
    2: { intros w Hw. apply windows_from in Hw; [|done]. lia. }
    destruct Hcase as [[Hel Hm']|[Hel Hm']].
    + rewrite decide_False; [done|]. intros [-> Hmod].
      rewrite Z.mod_small in Hmod by lia. lia.
    + rewrite decide_False; [done|]. lia.
  - rewrite decide_False by lia. destruct Hcase as [[Hel Hm']|[Hel Hm']]; [lia|].
    assert (Hmod : (l - (e + 1)) mod (m + 1) = (l - f) mod (m + 1)).
    { replace (l - f) with (l - (e + 1) + 1 * (m + 1)) by lia. by rewrite Z.mod_add by lia. }
    cbn [Nat.add]. destruct (decide (e + 1 = l)) as [Hlast|Hlast].
    + rewrite Hlast, Z.sub_diag, Z.mod_0_l in Hmod by lia.
      rewrite times_scanned_outside.
      2: { intros w Hw. destruct fuel; cbn in Hw; [by apply not_elem_of_nil in Hw|].
           rewrite Hlast, Z.ltb_irrefl in Hw. by apply not_elem_of_nil in Hw. }
      rewrite decide_True; [done|lia].
    + rewrite (IH (e + 1) b) by lia. by rewrite Hmod.
Qed.

(** C21. [getSrcEvents] terminates with the events of its windows in order
    (the fuel never runs out), and those windows scan every block from
    [latestBlock - blockLookback] to [latestBlock] exactly once, with one
    exception: the latest block itself is never queried when [blockLookback]
    is a multiple of [maxBlockLookback + 1]. *)
Theorem getSrcEvents_exact {E Event} (queryFn : Z → Z → prog E (list Event))
    (latestBlock blockLookback maxBlockLookback : Z) :
  0 ≤ maxBlockLookback → 0 < blockLookback →
  (∀ ev h,
    run ev h (getSrcEvents queryFn latestBlock maxBlockLookback blockLookback) =
    run ev h (let! es := for_collect (scan_windows latestBlock blockLookback maxBlockLookback)
                           (λ w, queryFn (fst w) (snd w)) in
              Ret (concat es))) ∧
  (∀ b, latestBlock - blockLookback ≤ b ≤ latestBlock →
    times_scanned (scan_windows latestBlock blockLookback maxBlockLookback) b =
      if decide (b = latestBlock ∧ blockLookback mod (maxBlockLookback + 1) = 0)
      then 0%nat else 1%nat).
Proof.
  intros Hm Hl. split.
  - intros ev h. unfold getSrcEvents. rewrite scan_loop_windows by (unfold scan_fuel; lia). done.
  - intros b Hb. unfold scan_windows.
    rewrite windows_times by (unfold scan_fuel; lia).
    by replace (latestBlock - (latestBlock - blockLookback)) with blockLookback by lia.
Qed.

Lemma getSrcEvents_exact_witness :
  0 ≤ 1000 ∧ 0 < 1001 ∧ times_scanned (scan_windows 20000 1001 1000) 20000 = 0%nat.
Proof.
  split_and!; [lia|lia|].
  destruct (getSrcEvents_exact (E := λ _, Empty_set) (λ _ _, Ret (@nil Z)) 20000 1001 1000)
    as [_ H]; [lia|lia|].
  rewrite (H 20000) by lia. reflexivity.
Defined.

(** With the defaults of both scripts (8640 L1 blocks, 17380 L2 blocks,
    windows of 1000) every block of the lookback, the latest included, is
    scanned exactly once. *)
Theorem default_lookbacks_complete (latestBlock b : Z) :
  (latestBlock - DEFAULT_L1_BLOCK_LOOKBACK ≤ b ≤ latestBlock →
   times_scanned (scan_windows latestBlock DEFAULT_L1_BLOCK_LOOKBACK MAX_L1_BLOCK_LOOKBACK) b = 1%nat) ∧
  (latestBlock - DEFAULT_L2_BLOCK_LOOKBACK ≤ b ≤ latestBlock →
   times_scanned (scan_windows latestBlock DEFAULT_L2_BLOCK_LOOKBACK MAX_L2_BLOCK_LOOKBACK) b = 1%nat).
Proof.
  unfold scan_windows, DEFAULT_L1_BLOCK_LOOKBACK, DEFAULT_L2_BLOCK_LOOKBACK,
    MAX_L1_BLOCK_LOOKBACK, MAX_L2_BLOCK_LOOKBACK.
  split; intros Hb; rewrite windows_times by (unfold scan_fuel; lia);
    (rewrite decide_False; [done|]); intros [_ Hmod]; revert Hmod;
    match goal with |- (?x) mod _ = 0 → _ => ring_simplify x end; vm_compute; discriminate.
Qed.

Lemma default_lookbacks_complete_witness :
  times_scanned (scan_windows 20000 8640 1000) 20000 = 1%nat.
Proof. destruct (default_lookbacks_complete 20000 20000) as [H _]. apply H. unfold DEFAULT_L1_BLOCK_LOOKBACK. lia. Defined.
