(* ===== verification/SvmSpoke.v ===== *)
(** * The Solana spoke pool: what is hashed, proved and claimed

    Part of [programs/svm-spoke/src]: the data whose hashes address fill
    accounts and Merkle leaves ([common/v3_relay_data.rs],
    [utils/merkle_proof_utils.rs], [instructions/slow_fill.rs],
    [instructions/bundle.rs]), the claimed bitmap ([utils/bitmap_utils.rs])
    and the instruction-parameters account ([instructions/instruction_params.rs]). *)

From stdpp Require Import base strings list.
From Stdlib Require Import ZArith Strings.Byte Lia.
From S2P Require Import Prelude Bytes Interfaces.

(** [common::V3RelayData]; the TypeScript scripts build the same record. *)
Record V3RelayData := {
  depositor : pubkey;
  recipient : pubkey;
  exclusive_relayer : pubkey;
  input_token : pubkey;
  output_token : pubkey;
  input_amount : Z;
  output_amount : Z;
  origin_chain_id : Z;
  deposit_id : Z;
  fill_deadline : Z;
  exclusivity_deadline : Z;
  message : bytes
}.

(** The values the Rust types admit. *)
Definition relay_data_wf (d : V3RelayData) : Prop :=
  pubkey_wf (depositor d) ∧ pubkey_wf (recipient d) ∧ pubkey_wf (exclusive_relayer d) ∧
  pubkey_wf (input_token d) ∧ pubkey_wf (output_token d) ∧
  0 ≤ input_amount d < 2 ^ 64 ∧ 0 ≤ output_amount d < 2 ^ 64 ∧
  0 ≤ origin_chain_id d < 2 ^ 64 ∧
  0 ≤ deposit_id d < 2 ^ 32 ∧ 0 ≤ fill_deadline d < 2 ^ 32 ∧
  0 ≤ exclusivity_deadline d < 2 ^ 32 ∧
  Z.of_nat (length (message d)) < 2 ^ 32.

Record V3SlowFill := {
  relay_data : V3RelayData;
  slow_chain_id : Z;
  updated_output_amount : Z
}.

Definition slow_fill_wf (s : V3SlowFill) : Prop :=
  relay_data_wf (relay_data s) ∧ 0 ≤ slow_chain_id s < 2 ^ 64 ∧
  0 ≤ updated_output_amount s < 2 ^ 64.

Record RelayerRefundLeaf := {
  amount_to_return : Z;
  chain_id : Z;
  refund_amounts : list Z;
  leaf_id : Z;
  mint_public_key : pubkey;
  refund_accounts : list pubkey
}.

Definition u64 (v : Z) : Prop := 0 ≤ v < 2 ^ 64.
Definition u32 (v : Z) : Prop := 0 ≤ v < 2 ^ 32.

Definition refund_leaf_wf (l : RelayerRefundLeaf) : Prop :=
  u64 (amount_to_return l) ∧ u64 (chain_id l) ∧ Forall u64 (refund_amounts l) ∧
  u32 (leaf_id l) ∧ pubkey_wf (mint_public_key l) ∧ Forall pubkey_wf (refund_accounts l).

Section Hashes.
Context `{Keccak} `{Borsh}.

(** [relay_data.try_to_vec()]: the fields in declaration order. *)
Definition borsh_relay_data (d : V3RelayData) : bytes :=
  depositor d ++ recipient d ++ exclusive_relayer d ++ input_token d ++ output_token d ++
  borsh_u64 (input_amount d) ++ borsh_u64 (output_amount d) ++
  borsh_u64 (origin_chain_id d) ++ borsh_u32 (deposit_id d) ++
  borsh_u32 (fill_deadline d) ++ borsh_u32 (exclusivity_deadline d) ++
  borsh_vec_u8 (message d).

Definition get_v3_relay_hash (d : V3RelayData) (chain : Z) : bytes :=
  keccak (borsh_relay_data d ++ le_bytes 8 chain).

Definition V3SlowFill_to_bytes (s : V3SlowFill) : bytes :=
  let d := relay_data s in
  depositor d ++ recipient d ++ exclusive_relayer d ++ input_token d ++ output_token d ++
  le_bytes 8 (input_amount d) ++ le_bytes 8 (output_amount d) ++
  le_bytes 8 (origin_chain_id d) ++ le_bytes 4 (deposit_id d) ++
  le_bytes 4 (fill_deadline d) ++ le_bytes 4 (exclusivity_deadline d) ++
  message d ++ le_bytes 8 (slow_chain_id s) ++ le_bytes 8 (updated_output_amount s).

Definition V3SlowFill_to_keccak_hash (s : V3SlowFill) : bytes :=
  keccak (V3SlowFill_to_bytes s).

Definition RelayerRefundLeaf_to_bytes (l : RelayerRefundLeaf) : bytes :=
  le_bytes 8 (amount_to_return l) ++ le_bytes 8 (chain_id l) ++
  concat (map (le_bytes 8) (refund_amounts l)) ++
  le_bytes 4 (leaf_id l) ++ mint_public_key l ++ concat (refund_accounts l).

Definition RelayerRefundLeaf_to_keccak_hash (l : RelayerRefundLeaf) : bytes :=
  keccak (RelayerRefundLeaf_to_bytes l).

(** [a < b] on [[u8; 32]]: lexicographic, that is big-endian order. *)
Definition hash_lt (a b : bytes) : bool := be_val a <? be_val b.

Definition efficient_keccak256 (a b : bytes) : bytes := keccak (a ++ b).

Definition commutative_keccak256 (a b : bytes) : bytes :=
  if hash_lt a b then efficient_keccak256 a b else efficient_keccak256 b a.

Definition process_proof (proof : list bytes) (leaf : bytes) : bytes :=
  foldl commutative_keccak256 leaf proof.

Definition InvalidMerkleProof : js_error := JsError "InvalidMerkleProof".

Definition verify_merkle_proof (root leaf : bytes) (proof : list bytes) : result unit :=
  if decide (process_proof proof leaf = root) then Ok tt else Err InvalidMerkleProof.

End Hashes.

(** ** The claimed bitmap *)

(** [(claimed_byte & mask) == mask] with [mask = 1 << bit] on a [u8]. *)
Definition is_claimed (bitmap : list Z) (index : Z) : bool :=
  match bitmap !! Z.to_nat (index / 8) with
  | None => false
  | Some claimed_byte =>
      let mask := Z.shiftl 1 (index mod 8) in
      Z.land claimed_byte mask =? mask
  end.

Definition set_claimed (bitmap : list Z) (index : Z) : list Z :=
  let byte_index := Z.to_nat (index / 8) in
  let bitmap' :=
    if (length bitmap <=? byte_index)%nat
    then bitmap ++ replicate (byte_index + 1 - length bitmap) 0
    else bitmap in
  <[byte_index := Z.lor (nth byte_index bitmap' 0) (Z.shiftl 1 (index mod 8))]> bitmap'.

(** ** The instruction-parameters account *)
Definition ParamsWriteOverflow : js_error := JsError "ParamsWriteOverflow".

Definition write_instruction_params_fragment (data : bytes) (offset : nat) (fragment : bytes)
  : result bytes :=
  if (offset + length fragment <=? length data)%nat
  then Ok (splice data offset fragment)
  else Err ParamsWriteOverflow.

(** * Properties *)

(** ** Encodings are injective *)

(** Peels one field of known length off both sides of [a ++ b = c ++ d]. *)
Ltac peel H :=
  let H' := fresh H in
  apply app_eq_length in H as [H' H];
  [|unfold pubkey_wf in *; rewrite ?length_le_bytes, ?length_be_bytes; congruence].

(** Turns [le_bytes n v = le_bytes n w] into [v = w] in range. *)
Ltac le_inj :=
  repeat match goal with
  | H : le_bytes ?n ?v = le_bytes ?n ?w |- _ =>
      apply le_bytes_inj in H; [| cbn; lia | cbn; lia]
  end.

Lemma V3RelayData_eq (d d' : V3RelayData) :
  depositor d = depositor d' → recipient d = recipient d' →
  exclusive_relayer d = exclusive_relayer d' → input_token d = input_token d' →
  output_token d = output_token d' → input_amount d = input_amount d' →
  output_amount d = output_amount d' → origin_chain_id d = origin_chain_id d' →
  deposit_id d = deposit_id d' → fill_deadline d = fill_deadline d' →
  exclusivity_deadline d = exclusivity_deadline d' → message d = message d' → d = d'.
Proof. destruct d, d'; cbn; congruence. Qed.

Definition relay_preimage `{Borsh} (d : V3RelayData) (chain : Z) : bytes :=
  borsh_relay_data d ++ le_bytes 8 chain.

Section Encodings.
Context `{Borsh}.

(** The Borsh integers of a well-formed record are plain little-endian words. *)
Lemma borsh_relay_data_wf d : relay_data_wf d →
  borsh_relay_data d =
    depositor d ++ recipient d ++ exclusive_relayer d ++ input_token d ++ output_token d ++
    le_bytes 8 (input_amount d) ++ le_bytes 8 (output_amount d) ++
    le_bytes 8 (origin_chain_id d) ++ le_bytes 4 (deposit_id d) ++
    le_bytes 4 (fill_deadline d) ++ le_bytes 4 (exclusivity_deadline d) ++
    le_bytes 4 (Z.of_nat (length (message d))) ++ message d.
Proof.
  intros (_ & _ & _ & _ & _ & ? & ? & ? & ? & ? & ? & ?). unfold borsh_relay_data.
  rewrite !borsh_u64_spec, !borsh_u32_spec, borsh_vec_u8_spec by done. done.
Qed.

Lemma relay_preimage_inj d d' c c' :
  relay_data_wf d → relay_data_wf d' → u64 c → u64 c' →
  relay_preimage d c = relay_preimage d' c' → d = d' ∧ c = c'.
Proof.
  intros Hd Hd' Hc Hc'. unfold relay_preimage.
  rewrite !borsh_relay_data_wf by done. rewrite <- !app_assoc. intros Heq.
  destruct Hd as (? & ? & ? & ? & ? & ? & ? & ? & ? & ? & ? & ?).
  destruct Hd' as (? & ? & ? & ? & ? & ? & ? & ? & ? & ? & ? & ?).
  unfold u64 in *. do 12 peel Heq.
  assert (length (message d) = length (message d')) by (le_inj; lia).
  peel Heq. le_inj. split; [|done]. by apply V3RelayData_eq.
Qed.

Lemma slow_fill_bytes_inj s s' :
  slow_fill_wf s → slow_fill_wf s' →
  V3SlowFill_to_bytes s = V3SlowFill_to_bytes s' → s = s'.
Proof.
  intros (Hd & ? & ?) (Hd' & ? & ?). unfold V3SlowFill_to_bytes. intros Heq.
  destruct Hd as (? & ? & ? & ? & ? & ? & ? & ? & ? & ? & ? & ?).
  destruct Hd' as (? & ? & ? & ? & ? & ? & ? & ? & ? & ? & ? & ?).
  do 11 peel Heq.
  apply app_inj_2 in Heq as [Hm Heq]; [|by rewrite !length_app, !length_le_bytes].
  peel Heq. le_inj.
  assert (relay_data s = relay_data s') by (by apply V3RelayData_eq).
  destruct s, s'; cbn in *; congruence.
Qed.
End Encodings.

Lemma length_concat_const {A} (n : nat) (ls : list (list A)) :
  Forall (λ l, length l = n) ls → length (concat ls) = (n * length ls)%nat.
Proof. induction 1; cbn; [lia|]. rewrite length_app. lia. Qed.

Lemma concat_inj {A} (n : nat) (ls ls' : list (list A)) :
  Forall (λ l, length l = n) ls → Forall (λ l, length l = n) ls' →
  length ls = length ls' → concat ls = concat ls' → ls = ls'.
Proof.
  intros Hl. revert ls'. induction Hl as [|l ls Hn Hl IH]; intros [|l' ls'] Hl' Hlen Heq;
    cbn in *; try done.
  apply Forall_cons in Hl' as [Hn' Hl']. apply app_eq_length in Heq as [-> Heq]; [|congruence].
  f_equal. apply IH; auto; lia.
Qed.

Lemma le_words_length n vs : Forall (λ l, length l = n) (map (le_bytes n) vs).
Proof. induction vs; cbn; constructor; auto. apply length_le_bytes. Qed.

Lemma le_words_inj vs ws :
  Forall u64 vs → Forall u64 ws → map (le_bytes 8) vs = map (le_bytes 8) ws → vs = ws.
Proof.
  unfold u64. intros Hv. revert ws. induction Hv; intros [|w ws] Hw Heq; cbn in *; try done.
  apply Forall_cons in Hw as [? Hw]. injection Heq as Heq Htl.
  assert (Hxw : le_bytes 8 x = le_bytes 8 w) by (cbn; congruence). le_inj.
  f_equal; auto.
Qed.

Lemma length_refund_leaf_bytes l :
  refund_leaf_wf l →
  length (RelayerRefundLeaf_to_bytes l) =
    (52 + 8 * length (refund_amounts l) + 32 * length (refund_accounts l))%nat.
Proof.
  intros (_ & _ & _ & _ & Hm & Ha). unfold RelayerRefundLeaf_to_bytes, pubkey_wf in *.
  rewrite !length_app, !length_le_bytes, Hm, (length_concat_const 32 (refund_accounts l)) by done.
  rewrite (length_concat_const 8), length_map by apply le_words_length. lia.
Qed.

(** With as many accounts as amounts, as [execute_relayer_refund_leaf]
    requires, the unprefixed encoding determines the leaf. *)
Lemma refund_leaf_bytes_inj l l' :
  refund_leaf_wf l → refund_leaf_wf l' →
  length (refund_accounts l) = length (refund_amounts l) →
  length (refund_accounts l') = length (refund_amounts l') →
  RelayerRefundLeaf_to_bytes l = RelayerRefundLeaf_to_bytes l' → l = l'.
Proof.
  intros Hl Hl' Hn Hn' Heq.
  assert (Hlen : length (refund_amounts l) = length (refund_amounts l')).
  { pose proof (length_refund_leaf_bytes l Hl) as H1.
    pose proof (length_refund_leaf_bytes l' Hl') as H2. rewrite Heq in H1. lia. }
  destruct Hl as (? & ? & ? & ? & Hm & Ha), Hl' as (? & ? & ? & ? & Hm' & Ha').
  unfold RelayerRefundLeaf_to_bytes, u64, u32, pubkey_wf in *.
  do 2 peel Heq.
  apply app_eq_length in Heq as [Hams Heq].
  2: { rewrite !(length_concat_const 8), !length_map by apply le_words_length. lia. }
  do 2 peel Heq. le_inj.
  apply (concat_inj 8) in Hams; [|apply le_words_length..|by rewrite !length_map].
  apply le_words_inj in Hams; [|done..].
  apply (concat_inj 32) in Heq; [|done..|lia].
  destruct l, l'; cbn in *; congruence.
Qed.

(** ** Merkle proofs *)
Section Merkle.
Context `{Keccak}.

(** Two different messages with the same digest. *)
Definition keccak_collision : Prop := ∃ x y : bytes, x ≠ y ∧ keccak x = keccak y.

Lemma length_commutative a b : length (commutative_keccak256 a b) = 32%nat.
Proof. unfold commutative_keccak256. case_match; apply keccak_length. Qed.

Lemma commutative_keccak256_comm a b :
  length a = 32%nat → length b = 32%nat →
  commutative_keccak256 a b = commutative_keccak256 b a.
Proof.
  intros Ha Hb. unfold commutative_keccak256, hash_lt.
  destruct (Z.ltb_spec (be_val a) (be_val b)), (Z.ltb_spec (be_val b) (be_val a)); try lia; try done.
  assert (be_val a = be_val b) as Heq by lia.
  assert (a = b) as ->; [|done].
  rewrite <- (be_bytes_be_val a), <- (be_bytes_be_val b). congruence.
Qed.

Lemma commutative_keccak256_binding a b a' b' :
  length a = 32%nat → length b = 32%nat → length a' = 32%nat → length b' = 32%nat →
  commutative_keccak256 a b = commutative_keccak256 a' b' →
  (a = a' ∧ b = b') ∨ (a = b' ∧ b = a') ∨ keccak_collision.
Proof.
  intros Ha Hb Ha' Hb'.
  assert (Hcase : ∀ x y x' y' : bytes, length x = 32%nat → length x' = 32%nat →
    keccak (x ++ y) = keccak (x' ++ y') → (x = x' ∧ y = y') ∨ keccak_collision).
  { intros x y x' y' Hx Hx' Hk. destruct (decide (x ++ y = x' ++ y')) as [He|Hne].
    - left. apply app_eq_length in He; [done|congruence].
    - right. by exists (x ++ y), (x' ++ y'). }
  unfold commutative_keccak256, efficient_keccak256. intros Heq.
  repeat case_match; apply Hcase in Heq; auto; intuition auto.
Qed.
End Merkle.

(** ** The bitmap *)
Definition bitmap_wf (bm : list Z) : Prop := Forall (λ b, 0 ≤ b < 256) bm.

Lemma land_bit_eqb b k : 0 ≤ k → (Z.land b (Z.shiftl 1 k) =? Z.shiftl 1 k) = Z.testbit b k.
Proof.
  intros Hk. rewrite Z.shiftl_1_l.
  destruct (Z.testbit b k) eqn:Hb.
  - apply Z.eqb_eq, Z.bits_inj'. intros n Hn. rewrite Z.land_spec, !Z.pow2_bits_eqb by lia.
    destruct (Z.eqb_spec k n); subst; [by rewrite Hb|by rewrite andb_false_r].
  - apply Z.eqb_neq. intros He. apply (f_equal (λ z, Z.testbit z k)) in He.
    rewrite Z.land_spec, !Z.pow2_bits_eqb, Z.eqb_refl in He by lia. by rewrite Hb in He.
Qed.

Lemma is_claimed_testbit bm i :
  0 ≤ i → is_claimed bm i = Z.testbit (nth (Z.to_nat (i / 8)) bm 0) (i mod 8).
Proof.
  intros Hi. unfold is_claimed. pose proof (Z.mod_pos_bound i 8 ltac:(lia)).
  destruct (bm !! Z.to_nat (i / 8)) as [b|] eqn:Hl.
  - rewrite (nth_lookup_Some _ _ _ _ Hl). apply land_bit_eqb. lia.
  - rewrite nth_overflow by (by apply lookup_ge_None). by rewrite Z.bits_0.
Qed.

Definition grow (bm : list Z) (n : nat) : list Z :=
  if (length bm <=? n)%nat then bm ++ replicate (n + 1 - length bm) 0 else bm.

Lemma nth_grow bm n k : nth k (grow bm n) 0 = nth k bm 0.
Proof.
  unfold grow. destruct (Nat.leb_spec (length bm) n); [|done].
  destruct (decide (k < length bm)%nat).
  - by rewrite app_nth1.
  - rewrite app_nth2, (nth_overflow bm) by lia.
    rewrite nth_lookup. destruct (replicate _ _ !! _) eqn:Hr; [|done].
    by apply lookup_replicate in Hr as [-> _].
Qed.

Lemma length_grow bm n : (n < length (grow bm n))%nat.
Proof.
  unfold grow. destruct (Nat.leb_spec (length bm) n); [|lia].
  rewrite length_app, length_replicate. lia.
Qed.

Lemma nth_insert (l : list Z) n k x :
  (n < length l)%nat → nth k (<[n := x]> l) 0 = if decide (k = n) then x else nth k l 0.
Proof.
  intros Hn. rewrite !nth_lookup. case_decide as Hk.
  - subst. by rewrite list_lookup_insert_eq.
  - by rewrite list_lookup_insert_ne by done.
Qed.

Lemma set_claimed_spec bm i j :
  0 ≤ i → 0 ≤ j → is_claimed (set_claimed bm i) j = (i =? j) || is_claimed bm j.
Proof.
  intros Hi Hj. rewrite !is_claimed_testbit by done. unfold set_claimed.
  fold (grow bm (Z.to_nat (i / 8))).
  rewrite nth_insert by apply length_grow. rewrite !nth_grow.
  pose proof (Z.mod_pos_bound i 8 ltac:(lia)). pose proof (Z.mod_pos_bound j 8 ltac:(lia)).
  pose proof (Z.div_mod i 8 ltac:(lia)). pose proof (Z.div_mod j 8 ltac:(lia)).
  pose proof (Z.div_pos i 8 Hi ltac:(lia)). pose proof (Z.div_pos j 8 Hj ltac:(lia)).
  case_decide as Hq.
  - assert (j / 8 = i / 8) as Hq' by lia. rewrite Hq'.
    rewrite Z.lor_spec, Z.shiftl_1_l, Z.pow2_bits_eqb, orb_comm by lia.
    f_equal. destruct (Z.eqb_spec (i mod 8) (j mod 8)), (Z.eqb_spec i j); lia || done.
  - destruct (Z.eqb_spec i j); [subst; lia|done].
Qed.

(** ** Merkle trees *)

(** The tree the proofs are about: a binary tree over leaf hashes, whose
    inner nodes hash their children in sorted order. *)
Inductive mtree :=
| MLeaf (h : bytes)
| MNode (l r : mtree).

Section Trees.
Context `{Keccak}.

Fixpoint mroot (t : mtree) : bytes :=
  match t with
  | MLeaf h => h
  | MNode l r => commutative_keccak256 (mroot l) (mroot r)
  end.

(** The leaves with their proofs, nearest sibling first. *)
Fixpoint mproofs (t : mtree) : list (bytes * list bytes) :=
  match t with
  | MLeaf h => [(h, [])]
  | MNode l r =>
      map (λ '(h, p), (h, p ++ [mroot r])) (mproofs l) ++
      map (λ '(h, p), (h, p ++ [mroot l])) (mproofs r)
  end.

Fixpoint mwf (t : mtree) : Prop :=
  match t with
  | MLeaf h => length h = 32%nat
  | MNode l r => mwf l ∧ mwf r
  end.

(** Every leaf at depth [n]. *)
Fixpoint perfect (n : nat) (t : mtree) : Prop :=
  match n, t with
  | O, MLeaf _ => True
  | S n', MNode l r => perfect n' l ∧ perfect n' r
  | _, _ => False
  end.

Lemma length_mroot t : mwf t → length (mroot t) = 32%nat.
Proof. destruct t; cbn; [done|]. intros _. apply length_commutative. Qed.

Lemma process_proof_snoc p s leaf :
  process_proof (p ++ [s]) leaf = commutative_keccak256 (process_proof p leaf) s.
Proof. unfold process_proof. by rewrite foldl_app. Qed.

Lemma length_process_proof p leaf :
  length leaf = 32%nat → length (process_proof p leaf) = 32%nat.
Proof.
  intros Hl. induction p as [|s p _] using rev_ind; [done|].
  rewrite process_proof_snoc. apply length_commutative.
Qed.

Lemma mproofs_complete t leaf p :
  mwf t → (leaf, p) ∈ mproofs t → process_proof p leaf = mroot t.
Proof.
  revert p. induction t as [h|l IHl r IHr]; intros p Hwf Hin; cbn in *.
  - apply list_elem_of_singleton in Hin as [= -> ->]. done.
  - destruct Hwf as [Hl Hr].
    apply elem_of_app in Hin as [Hin|Hin];
      apply list_elem_of_fmap in Hin as ([h q] & [= -> ->] & Hin); rewrite process_proof_snoc.
    + by rewrite (IHl q).
    + rewrite (IHr q) by done. apply commutative_keccak256_comm; by apply length_mroot.
Qed.

Lemma mproofs_sound n t leaf p :
  mwf t → perfect n t → length leaf = 32%nat → Forall (λ s, length s = 32%nat) p →
  length p = n → process_proof p leaf = mroot t →
  (leaf, p) ∈ mproofs t ∨ keccak_collision.
Proof.
  revert n p. induction t as [h|l IHl r IHr]; intros n p Hwf Hn Hleaf Hp Hlen Heq; cbn in *.
  - destruct n; [|done]. apply nil_length_inv in Hlen as ->.
    left. rewrite <- Heq. by apply list_elem_of_singleton.
  - destruct n as [|n]; [done|]. destruct Hwf as [Hl Hr], Hn as [Hnl Hnr].
    destruct p as [|s p _] using rev_ind; [done|].
    rewrite process_proof_snoc in Heq. rewrite length_app in Hlen. cbn in Hlen.
    apply Forall_app in Hp as [Hp Hs].
    pose proof (Forall_inv Hs) as Hs1.
    destruct (commutative_keccak256_binding _ _ _ _ (length_process_proof p leaf Hleaf) Hs1
      (length_mroot l Hl) (length_mroot r Hr) Heq) as [[Hq ->]|[[Hq ->]|?]]; [| |by right].
    + destruct (IHl n p Hl Hnl Hleaf Hp ltac:(lia) Hq) as [Hin|?]; [|by right].
      left. apply elem_of_app. left. apply list_elem_of_fmap. by exists (leaf, p).
    + destruct (IHr n p Hr Hnr Hleaf Hp ltac:(lia) Hq) as [Hin|?]; [|by right].
      left. apply elem_of_app. right. apply list_elem_of_fmap. by exists (leaf, p).
Qed.
End Trees.

(** ** Claims *)

(** The claims of a root bundle, one [set_claimed] after another. *)
Definition claim_all (bitmap : list Z) (leaf_ids : list Z) : list Z :=
  foldl set_claimed bitmap leaf_ids.

Lemma lor_byte_bound a b : 0 ≤ a < 256 → 0 ≤ b < 256 → 0 ≤ Z.lor a b < 256.
Proof.
  intros Ha Hb. split; [apply Z.lor_nonneg; lia|].
  destruct (decide (Z.lor a b = 0)) as [->|Hne]; [lia|].
  change 256 with (2 ^ 8). apply Z.log2_lt_pow2.
  - assert (0 ≤ Z.lor a b) by (apply Z.lor_nonneg; lia). lia.
  - assert (Hlog : ∀ x, 0 ≤ x < 256 → Z.log2 x < 8).
    { intros x Hx. destruct (decide (x = 0)) as [->|]; [done|].
      apply Z.log2_lt_pow2; change (2 ^ 8) with 256; lia. }
    rewrite Z.log2_lor by lia. apply Z.max_lub_lt; auto.
Qed.

Lemma shiftl_byte_bound k : 0 ≤ k < 8 → 0 ≤ Z.shiftl 1 k < 256.
Proof.
  intros Hk. rewrite Z.shiftl_1_l. split; [lia|].
  change 256 with (2 ^ 8). apply Z.pow_lt_mono_r; lia.
Qed.

Lemma set_claimed_wf bm i : 0 ≤ i → bitmap_wf bm → bitmap_wf (set_claimed bm i).
Proof.
  intros Hi Hbm. unfold set_claimed, bitmap_wf.
  fold (grow bm (Z.to_nat (i / 8))).
  assert (Hg : bitmap_wf (grow bm (Z.to_nat (i / 8)))).
  { unfold grow. case_match; [|done]. apply Forall_app. split; [done|].
    by apply Forall_replicate. }
  apply Forall_insert; [exact Hg|]. rewrite nth_grow. apply lor_byte_bound.
  - rewrite nth_lookup. destruct (bm !! _) eqn:He; cbn; [|lia].
    by eapply (proj1 (Forall_lookup _ _) Hbm).
  - apply shiftl_byte_bound, Z.mod_pos_bound. lia.
Qed.

Lemma claim_all_spec bm ids j :
  Forall (λ i, 0 ≤ i) ids → 0 ≤ j →
  is_claimed (claim_all bm ids) j = bool_decide (j ∈ ids) || is_claimed bm j.
Proof.
  unfold claim_all. intros Hids Hj. revert bm. induction Hids as [|i ids Hi _ IH]; intros bm.
  - rewrite bool_decide_eq_false_2 by apply not_elem_of_nil. done.
  - cbn [foldl]. rewrite IH, set_claimed_spec by done.
    destruct (Z.eqb_spec i j) as [->|Hne].
    + rewrite (bool_decide_eq_true_2 (j ∈ j :: ids)) by by left. by rewrite orb_true_r.
    + f_equal. apply bool_decide_ext. rewrite elem_of_cons. split; [by right|]. by intros [?|?].
Qed.

(** ** The properties of the program's hashing and claims *)

(** C33. Merkle proofs are complete and sound: in any tree of 32-byte leaf
    hashes each leaf verifies with its own proof, and in a tree of uniform
    depth a leaf that verifies with a proof of that length is one of the
    tree's leaves with exactly that proof, unless two messages with the same
    keccak digest are exhibited. *)
Theorem merkle_proofs_exact `{Keccak} (n : nat) (t : mtree) (leaf : bytes) (proof : list bytes) :
  mwf t → perfect n t → length leaf = 32%nat → Forall (λ s, length s = 32%nat) proof →
  length proof = n →
  ((leaf, proof) ∈ mproofs t → verify_merkle_proof (mroot t) leaf proof = Ok tt) ∧
  (verify_merkle_proof (mroot t) leaf proof = Ok tt →
   (leaf, proof) ∈ mproofs t ∨ keccak_collision).
Proof.
  intros Hwf Hn Hleaf Hp Hlen. unfold verify_merkle_proof. split.
  - intros Hin. by rewrite decide_True by by apply mproofs_complete.
  - case_decide as Heq; [|done]. intros _. by eapply mproofs_sound.
Qed.

Lemma merkle_proofs_exact_witness :
  let a := replicate 32 x01 in let b := replicate 32 x02 in
  verify_merkle_proof (mroot (MNode (MLeaf a) (MLeaf b))) b [a] = Ok tt.
Proof.
  intros a b.
  apply (merkle_proofs_exact 1 (MNode (MLeaf a) (MLeaf b)) b [a]);
    [vm_compute; auto|vm_compute; auto|reflexivity|repeat constructor|reflexivity|].
  vm_compute. right. left.
Defined.

(** Claiming leaves of a root bundle marks exactly those leaves: after
    any sequence of [set_claimed], a leaf id reads as claimed when it was
    claimed before or is in the sequence, whatever the size of the bitmap was,
    and every entry of the bitmap is still a byte. *)
Theorem claims_exact (bitmap : list Z) (leaf_ids : list Z) (j : Z) :
  Forall (λ i, 0 ≤ i) leaf_ids → 0 ≤ j → bitmap_wf bitmap →
  is_claimed (claim_all bitmap leaf_ids) j = bool_decide (j ∈ leaf_ids) || is_claimed bitmap j ∧
  bitmap_wf (claim_all bitmap leaf_ids).
Proof.
  intros Hids Hj Hbm. split; [by apply claim_all_spec|].
  revert bitmap Hbm. unfold claim_all.
  induction Hids; intros bm Hbm; cbn [foldl]; [done|]. by apply IHHids, set_claimed_wf.
Qed.

Lemma claims_exact_witness :
  is_claimed (claim_all [] [3; 17]) 17 = true ∧ is_claimed (claim_all [] [3; 17]) 16 = false.
Proof.
  split.
  - destruct (claims_exact [] [3; 17] 17) as [-> _]; [repeat constructor; lia|lia|constructor|reflexivity].
  - destruct (claims_exact [] [3; 17] 16) as [-> _]; [repeat constructor; lia|lia|constructor|reflexivity].
Defined.
