(* ===== verification/SvmUtils.v ===== *)
(** * src/SvmUtils.ts: hashes, addresses and events of the Solana spoke pool

    The off-chain side of the Solana program: derivation of addresses, the
    relay hash that names a fill account, reading the events of a
    transaction, 256-bit words and the account coder for large parameters. *)

From stdpp Require Import base gmap strings list.
From Stdlib Require Import ZArith Ascii Strings.Byte Lia.
From S2P Require Import Prelude Bytes JsText Interfaces SvmSpoke.

(** ** Program derived addresses *)
Inductive seed :=
| SeedString (s : string)     (* utf8 text *)
| SeedArray (ns : bytes)      (* an array of byte values *)
| SeedBuffer (b : bytes)
| SeedObject (b : bytes).     (* anything else: its toBuffer() *)

Definition seed_bytes (s : seed) : bytes :=
  match s with
  | SeedString t => utf8_encode t
  | SeedArray b | SeedBuffer b | SeedObject b => b
  end.

Definition findProgramAddress `{Web3} (label : string) (program : pubkey)
    (extraSeeds : option (list seed)) : result (pubkey * Z) :=
  let seeds := utf8_encode label ::
    match extraSeeds with Some l => map seed_bytes l | None => [] end in
  findProgramAddressSync seeds program.

(** ** Events of a transaction *)
Record instruction := {
  programIdIndex : nat;
  accounts : list nat;
  data : string
}.

Inductive tx_version := Legacy | Version0.

Record tx_result := {
  version : tx_version;
  accountKeys : list pubkey;
  innerInstructions : option (list (list instruction))
}.

Record program_event (D : Type) := {
  program : pubkey;
  event_data : option D;
  event_name : option string
}.
Arguments program {D}. Arguments event_data {D}. Arguments event_name {D}.
Arguments Build_program_event {D}.

(** The Solana RPC node. *)
Inductive rpcE : Type → Type :=
| GetTransaction (txSignature : string) : rpcE (option tx_result)
| GetSignaturesForAddress (address : pubkey) : rpcE (list string).

Section Events.
Context `{Web3} {D : Type} `{AnchorCodec D}.

Definition event_authority (p : pubkey) : result pubkey :=
  let? a := findProgramAddress "__event_authority" p None in Ok (fst a).

Fixpoint event_authorities (programs : list pubkey) (m : gmap string string)
  : result (gmap string string) :=
  match programs with
  | [] => Ok m
  | p :: ps =>
      let? a := event_authority p in
      event_authorities ps (<[toBase58 p := toBase58 a]> m)
  end.

(** [accountKeys[i].toString()] *)
Definition key_text (tx : tx_result) (i : nat) : result string :=
  from_option_err TypeError (toBase58 <$> accountKeys tx !! i).

(** The three conditions of the innermost [if], evaluated left to right. *)
Definition is_event_cpi (auth : gmap string string) (tx : tx_result) (ix : instruction)
    (p : pubkey) : result bool :=
  match accounts ix with
  | [a] =>
      let? prog_text := key_text tx (programIdIndex ix) in
      if bool_decide (prog_text = toBase58 p)
      then let? acc_text := key_text tx a in
           Ok (bool_decide (Some acc_text = auth !! toBase58 p))
      else Ok false
  | _ => Ok false
  end.

Definition decode_event (ix : instruction) (p : pubkey) : result (program_event D) :=
  let? ixData := bs58_decode (data ix) in
  let event := events_decode p (base64_encode (drop 8 ixData)) in
  Ok {| program := p; event_data := snd <$> event; event_name := fst <$> event |}.

Fixpoint events_of_programs (auth : gmap string string) (tx : tx_result) (ix : instruction)
    (programs : list pubkey) : result (list (program_event D)) :=
  match programs with
  | [] => Ok []
  | p :: ps =>
      let? hit := is_event_cpi auth tx ix p in
      let? here := (if hit then let? e := decode_event ix p in Ok [e] else Ok []) in
      let? rest := events_of_programs auth tx ix ps in
      Ok (here ++ rest)
  end.

Fixpoint events_of_instructions (auth : gmap string string) (tx : tx_result)
    (ixs : list instruction) (programs : list pubkey) : result (list (program_event D)) :=
  match ixs with
  | [] => Ok []
  | ix :: ixs' =>
      let? here := events_of_programs auth tx ix programs in
      let? rest := events_of_instructions auth tx ixs' programs in
      Ok (here ++ rest)
  end.

Definition inner_instructions (tx : tx_result) : list instruction :=
  concat (default [] (innerInstructions tx)).

Definition events_of_tx (txResult : option tx_result) (programs : list pubkey)
  : result (list (program_event D)) :=
  let? auth := event_authorities programs ∅ in
  match txResult with
  | None => Ok []
  | Some tx =>
      match version tx with
      | Legacy => events_of_instructions auth tx (inner_instructions tx) programs
      | Version0 => Ok []
      end
  end.

Definition readEvents (txSignature : string) (programs : list pubkey)
  : prog rpcE (list (program_event D)) :=
  let! txResult := call (GetTransaction txSignature) in
  lift (events_of_tx txResult programs).

Definition getEvent (events : list (program_event D)) (p : pubkey) (eventName : string)
  : result (option D) :=
  match list_find (λ e, event_name e = Some eventName ∧ toBase58 p = toBase58 (program e)) events with
  | Some (_, e) => Ok (event_data e)
  | None => Err (JsError ("Event " +:+ eventName +:+ " not found"))
  end.

Definition readProgramEvents (p : pubkey) : prog rpcE (list (program_event D)) :=
  let! pastSignatures := call (GetSignaturesForAddress p) in
  let! events := for_collect pastSignatures (λ signature, readEvents signature [p]) in
  Ret (concat events).

(** [connection.onLogs(account, onLogs, "confirmed")]: the account listened to
    and what the callback receives for the transaction of the logs. *)
Record subscription := {
  sub_account : pubkey;
  sub_on_logs : string → prog rpcE (list (program_event D))
}.

Definition subscribeToCpiEventsForProgram (p : pubkey) : result subscription :=
  let? a := findProgramAddress "__event_authority" p None in
  Ok {| sub_account := fst a; sub_on_logs := λ signature, readEvents signature [p] |}.
End Events.

(** ** Words, addresses and hashes *)

(** [result = (result << 8) + buffer[i]] for every byte, from zero. *)
Definition readUInt256BE (buffer : bytes) : Z :=
  foldl (λ result b, Z.shiftl result 8 + byte_val b) 0 buffer.

Definition evmAddressToPublicKey `{Ethers} `{Web3} (address : string) : result pubkey :=
  let bytes32Address := "0x000000000000000000000000" +:+ replace_empty address "0x" in
  let? bs := arrayify bytes32Address in
  PublicKey_new bs.

(** The bytes [calculateRelayHashUint8Array] hashes. *)
Definition relay_content `{BNjs} (relayData : V3RelayData) (chainId : Z) : result bytes :=
  let? messageBuffer := writeUInt32LE (buffer_alloc 4) (Z.of_nat (length (message relayData))) 0 in
  let? inputAmount := toArrayLike_le (input_amount relayData) 8 in
  let? outputAmount := toArrayLike_le (output_amount relayData) 8 in
  let? originChainId := toArrayLike_le (origin_chain_id relayData) 8 in
  let? depositId := toArrayLike_le (deposit_id relayData) 4 in
  let? fillDeadline := toArrayLike_le (fill_deadline relayData) 4 in
  let? exclusivityDeadline := toArrayLike_le (exclusivity_deadline relayData) 4 in
  let? chain := toArrayLike_le chainId 8 in
  Ok (concat [depositor relayData; recipient relayData; exclusive_relayer relayData;
              input_token relayData; output_token relayData; inputAmount; outputAmount;
              originChainId; depositId; fillDeadline; exclusivityDeadline;
              messageBuffer; message relayData; chain]).

(** [ethers.utils.keccak256]: the digest as [0x]-prefixed text. *)
Definition keccak256_hex `{Keccak} (m : bytes) : string := "0x" +:+ to_hex (keccak m).

Definition calculateRelayHashUint8Array `{Keccak} `{BNjs} (relayData : V3RelayData)
    (chainId : Z) : result bytes :=
  let? contentToHash := relay_content relayData chainId in
  let relayHash := keccak256_hex contentToHash in
  Ok (buffer_from_hex (str_slice_from relayHash 2)).

(** ** [LargeAccountsCoder.encode] *)
Section Coder.
(** The layouts of the base class, by account name, and the discriminator. *)
Context {T : Type} (accountLayouts : string → option (T → bytes))
  (accountDiscriminator : string → bytes).

Definition LARGE_ACCOUNT_BUFFER : nat := Z.to_nat 10240.

(** [layout.encode(account, buffer)] writes in the 10240-byte buffer and
    returns the number of bytes written. *)
Definition LargeAccountsCoder_encode (accountName : string) (account : T) : result bytes :=
  match accountLayouts accountName with
  | None => Err (JsError ("Unknown account: " +:+ accountName))
  | Some encode =>
      let written := encode account in
      if (length written <=? LARGE_ACCOUNT_BUFFER)%nat
      then
        let buffer := splice (buffer_alloc LARGE_ACCOUNT_BUFFER) 0 written in
        Ok (accountDiscriminator accountName ++ slice buffer 0 (length written))
      else Err RangeError
  end.
End Coder.

(** * Properties *)

Lemma keccak256_hex_digest `{Keccak} m :
  buffer_from_hex (str_slice_from (keccak256_hex m) 2) = keccak m.
Proof.
  unfold keccak256_hex, str_slice_from. rewrite chars_app.
  change (drop 2 (chars "0x" ++ chars (to_hex (keccak m)))) with (chars (to_hex (keccak m))).
  by rewrite text_chars, buffer_from_to_hex.
Qed.

Lemma pow_256_8 n : 256 ^ Z.of_nat n = 2 ^ (8 * Z.of_nat n).
Proof. change 256 with (2 ^ 8). by rewrite <- Z.pow_mul_r by lia. Qed.

Lemma writeUInt32LE_alloc v : 0 ≤ v < 2 ^ 32 → writeUInt32LE (buffer_alloc 4) v 0 = Ok (le_bytes 4 v).
Proof.
  intros Hv. unfold writeUInt32LE, write_uint.
  assert (fits 4 v = true) as -> by (apply fits_spec; exact Hv). done.
Qed.

(** Anchor's coder: a [u64] argument goes through [toArrayLike], a [u32] is
    written with a range check. *)
Definition anchor_u64 `{BNjs} (v : Z) : result Z := let? b := toArrayLike_le v 8 in Ok (le_val b).
Definition anchor_u32 (v : Z) : result Z := let? b := writeUInt32LE (buffer_alloc 4) v 0 in Ok (le_val b).

Lemma anchor_u64_ok `{BNjs} v : u64 v → anchor_u64 v = Ok v.
Proof.
  intros Hv. unfold anchor_u64. rewrite toArrayLike_le_fits by exact Hv. cbn [result_bind].
  by rewrite le_val_le_bytes.
Qed.

Lemma anchor_u32_ok v : u32 v → anchor_u32 v = Ok v.
Proof.
  intros Hv. unfold anchor_u32. rewrite writeUInt32LE_alloc by exact Hv. cbn [result_bind].
  by rewrite le_val_le_bytes.
Qed.

(** The hashed bytes are the Borsh form of the record followed by the chain id. *)
Lemma relay_content_wf `{BNjs} `{Borsh} d c :
  relay_data_wf d → u64 c → relay_content d c = Ok (relay_preimage d c).
Proof.
  intros Hd Hc. unfold relay_content, relay_preimage. rewrite borsh_relay_data_wf by done.
  destruct Hd as (_ & _ & _ & _ & _ & ? & ? & ? & ? & ? & ? & ?).
  unfold u64 in *. rewrite writeUInt32LE_alloc by lia. cbn [result_bind].
  rewrite !toArrayLike_le_fits by (cbn; lia). cbn [result_bind concat].
  by rewrite <- !app_assoc, app_nil_r.
Qed.

Lemma readUInt256BE_be_val buffer : readUInt256BE buffer = be_val buffer.
Proof.
  unfold readUInt256BE. induction buffer as [|b buffer IH] using rev_ind; [done|].
  rewrite foldl_app, IH. cbn [foldl]. rewrite be_val_snoc, Z.shiftl_mul_pow2 by lia. lia.
Qed.

(** A number that [toArrayLike] accepts is below the bound of its field. *)
Lemma toArrayLike_le_bound `{BNjs} v n b : toArrayLike_le v n = Ok b → v < 256 ^ Z.of_nat n.
Proof.
  intros Hv. destruct (decide (v < 256 ^ Z.of_nat n)); [done|].
  pose proof (toArrayLike_le_overflow v n ltac:(lia)) as Ho. by rewrite Hv in Ho.
Qed.

Ltac fields_fit H :=
  repeat match type of H with
  | context [toArrayLike_le ?v ?n] =>
      let b := fresh "b" in let E := fresh "E" in
      destruct (toArrayLike_le v n) as [b|] eqn:E; [|discriminate H];
      apply toArrayLike_le_bound in E; cbn [result_bind] in H
  end.

(** [readEvents] as a specification: the inner instructions that are event
    calls, with what they decode to. *)
Section EventSpec.
Context `{Web3} {D : Type} `{AnchorCodec D}.

Definition emitted_by (tx : tx_result) (ix : instruction) (p : pubkey) : Prop :=
  ix ∈ inner_instructions tx ∧
  ∃ i auth, accounts ix = [i] ∧ accountKeys tx !! programIdIndex ix = Some p ∧
    accountKeys tx !! i = Some auth ∧ event_authority p = Ok auth.

(** The map binds each program to its event authority. *)
Definition authorities_ok (m : gmap string string) (ps : list pubkey) : Prop :=
  ∀ p, p ∈ ps → ∃ a, event_authority p = Ok a ∧ m !! toBase58 p = Some (toBase58 a).

Lemma event_authorities_keep ps m m' p a :
  event_authorities ps m = Ok m' → event_authority p = Ok a →
  m !! toBase58 p = Some (toBase58 a) → m' !! toBase58 p = Some (toBase58 a).
Proof.
  revert m. induction ps as [|q ps IH]; cbn; intros m Hm Ha Hl; [congruence|].
  destruct (event_authority q) as [b|] eqn:Hq; [|done]. cbn in Hm.
  eapply IH; [exact Hm|done|].
  destruct (decide (toBase58 q = toBase58 p)) as [Heq|Hne].
  - rewrite Heq, lookup_insert_eq. apply toBase58_inj in Heq. congruence.
  - by rewrite lookup_insert_ne.
Qed.

Lemma event_authorities_ok ps m m' :
  event_authorities ps m = Ok m' → authorities_ok m' ps.
Proof.
  revert m. induction ps as [|q ps IH]; cbn; intros m Hm p Hp.
  - by apply not_elem_of_nil in Hp.
  - destruct (event_authority q) as [b|] eqn:Hq; [|done]. cbn in Hm.
    apply elem_of_cons in Hp as [->|Hp]; [|by eapply IH].
    exists b. split; [done|]. eapply event_authorities_keep; [exact Hm|done|].
    by rewrite lookup_insert_eq.
Qed.

Lemma is_event_cpi_true m tx ix p a :
  event_authority p = Ok a → m !! toBase58 p = Some (toBase58 a) →
  is_event_cpi m tx ix p = Ok true ↔
    ∃ i, accounts ix = [i] ∧ accountKeys tx !! programIdIndex ix = Some p ∧
         accountKeys tx !! i = Some a.
Proof.
  intros Ha Hm. unfold is_event_cpi, key_text. rewrite Hm. split.
  - destruct (accounts ix) as [|i [|]]; [done| |done].
    destruct (accountKeys tx !! programIdIndex ix) as [q|]; cbn; [|done].
    case_bool_decide as Hq; [|done]. apply toBase58_inj in Hq as ->.
    destruct (accountKeys tx !! i) as [k|] eqn:Hk; cbn; [|done].
    intros [= Hd]. apply bool_decide_eq_true in Hd. injection Hd as Hd.
    apply toBase58_inj in Hd as ->. eauto.
  - intros (i & -> & -> & ->). cbn. by rewrite !bool_decide_eq_true_2.
Qed.

Lemma events_of_programs_spec m tx ix ps es :
  authorities_ok m ps → events_of_programs (D:=D) m tx ix ps = Ok es →
  ∀ e, e ∈ es ↔ ∃ p, p ∈ ps ∧ is_event_cpi m tx ix p = Ok true ∧ decode_event ix p = Ok e.
Proof.
  revert es. induction ps as [|p ps IH]; cbn; intros es Hm Hes e.
  - injection Hes as <-. split; [by intros ?%not_elem_of_nil|].
    intros (p & Hp & _). by apply not_elem_of_nil in Hp.
  - destruct (is_event_cpi m tx ix p) as [[]|] eqn:Hhit; cbn in Hes; [| |done].
    + destruct (decode_event ix p) as [e0|] eqn:Hd; cbn in Hes; [|done].
      destruct (events_of_programs m tx ix ps) as [rest|]; cbn in Hes; [|done].
      injection Hes as <-. specialize (IH rest (λ q Hq, Hm q (list_elem_of_further _ _ _ Hq)) eq_refl e).
      rewrite elem_of_cons, IH. setoid_rewrite elem_of_cons. split.
      * intros [->|(q & ? & ? & ?)]; [exists p|exists q]; auto.
      * intros (q & [->|?] & ? & ?); [left; congruence|right; eauto].
    + destruct (events_of_programs m tx ix ps) as [rest|]; cbn in Hes; [|done].
      injection Hes as <-. specialize (IH rest (λ q Hq, Hm q (list_elem_of_further _ _ _ Hq)) eq_refl e).
      rewrite IH. setoid_rewrite elem_of_cons. split.
      * intros (q & ? & ? & ?); exists q; auto.
      * intros (q & [->|?] & ? & ?); [congruence|eauto].
Qed.

Lemma events_of_instructions_spec m tx ixs ps es :
  authorities_ok m ps → events_of_instructions (D:=D) m tx ixs ps = Ok es →
  ∀ e, e ∈ es ↔ ∃ ix p, ix ∈ ixs ∧ p ∈ ps ∧ is_event_cpi m tx ix p = Ok true ∧
                        decode_event ix p = Ok e.
Proof.
  intros Hm. revert es. induction ixs as [|ix ixs IH]; cbn; intros es Hes e.
  - injection Hes as <-. split; [by intros ?%not_elem_of_nil|].
    intros (ix & p & Hi & _). by apply not_elem_of_nil in Hi.
  - destruct (events_of_programs m tx ix ps) as [here|] eqn:Hh; cbn in Hes; [|done].
    destruct (events_of_instructions m tx ixs ps) as [rest|]; cbn in Hes; [|done].
    injection Hes as <-. rewrite elem_of_app, (IH rest eq_refl).
    rewrite (events_of_programs_spec m tx ix ps here Hm Hh).
    setoid_rewrite elem_of_cons. split.
    + intros [(p & ? & ? & ?)|(i & p & ? & ? & ? & ?)]; [exists ix, p|exists i, p]; auto.
    + intros (i & p & [->|?] & ? & ? & ?); [left; eauto|right; eauto 8].
Qed.
End EventSpec.

(** ** The properties *)

(** C32. [calculateRelayHashUint8Array] computes the hash the Solana program
    computes: on every relay data the Rust types admit, the bytes returned are
    [get_v3_relay_hash] of the Borsh-serialized record, so the scripts address
    the fill account the program uses. *)
Theorem relay_hash_agrees `{Keccak} `{BNjs} `{Borsh} (d : V3RelayData) (c : Z) :
  relay_data_wf d → u64 c →
  calculateRelayHashUint8Array d c = Ok (get_v3_relay_hash d c).
Proof.
  intros Hd Hc. unfold calculateRelayHashUint8Array.
  rewrite relay_content_wf by done. cbn [result_bind]. by rewrite keccak256_hex_digest.
Qed.

Definition sample_relay : V3RelayData :=
  {| depositor := replicate 32 x01; recipient := replicate 32 x02;
     exclusive_relayer := replicate 32 x00; input_token := replicate 32 x03;
     output_token := replicate 32 x04; input_amount := 1000; output_amount := 990;
     origin_chain_id := 1; deposit_id := 7; fill_deadline := 1700000000;
     exclusivity_deadline := 0; message := [x05; x06] |}.

Lemma sample_relay_wf : relay_data_wf sample_relay.
Proof. unfold relay_data_wf, pubkey_wf; cbn; lia. Qed.

Lemma relay_hash_agrees_witness :
  relay_data_wf sample_relay ∧ u64 5 ∧
  calculateRelayHashUint8Array sample_relay 5 = Ok (get_v3_relay_hash sample_relay 5).
Proof.
  assert (Hw := sample_relay_wf). assert (H5 : u64 5) by (unfold u64; lia).
  split_and!; [exact Hw|exact H5|]. apply relay_hash_agrees; [exact Hw|exact H5].
Defined.

(** Two different relays (or the same relay for two chains) never share a
    relay hash, hence a fill account, unless two messages with the same keccak
    digest are exhibited: the hashed encoding is injective, the variable-length
    message included. *)
Theorem relay_hash_identifies `{Keccak} `{BNjs} (d d' : V3RelayData) (c c' : Z) :
  relay_data_wf d → relay_data_wf d' → u64 c → u64 c' →
  calculateRelayHashUint8Array d c = calculateRelayHashUint8Array d' c' →
  (d = d' ∧ c = c') ∨ keccak_collision.
Proof.
  intros Hd Hd' Hc Hc'. unfold calculateRelayHashUint8Array.
  rewrite !relay_content_wf by done. cbn [result_bind].
  rewrite !keccak256_hex_digest. intros Hk%Ok_inj.
  destruct (decide (relay_preimage d c = relay_preimage d' c')) as [Heq|Hne].
  - left. by apply relay_preimage_inj.
  - right. by eexists _, _.
Qed.

Lemma relay_hash_identifies_witness :
  (sample_relay = sample_relay ∧ 5 = 5) ∨ keccak_collision.
Proof.
  assert (Hw := sample_relay_wf). assert (H5 : u64 5) by (unfold u64; lia).
  apply relay_hash_identifies; [exact Hw|exact Hw|exact H5|exact H5|reflexivity].
Defined.

(** No silent truncation: when [calculateRelayHashUint8Array] returns at
    all, every amount, identifier and deadline is below the bound of the
    program's field (u64 for the amounts and chain ids, u32 for the rest). *)
Theorem relay_hash_bounds `{Keccak} `{BNjs} (d : V3RelayData) (c : Z) (h : bytes) :
  calculateRelayHashUint8Array d c = Ok h →
  Z.of_nat (length (message d)) < 2 ^ 32 ∧
  input_amount d < 2 ^ 64 ∧ output_amount d < 2 ^ 64 ∧ origin_chain_id d < 2 ^ 64 ∧
  deposit_id d < 2 ^ 32 ∧ fill_deadline d < 2 ^ 32 ∧ exclusivity_deadline d < 2 ^ 32 ∧
  c < 2 ^ 64.
Proof.
  unfold calculateRelayHashUint8Array, relay_content. intros Hr.
  destruct (writeUInt32LE (buffer_alloc 4) (Z.of_nat (length (message d))) 0) eqn:Hw;
    [|discriminate Hr]. cbn [result_bind] in Hr.
  fields_fit Hr. unfold writeUInt32LE, write_uint in Hw.
  destruct (fits 4 _) eqn:Hf; [|discriminate Hw]. apply fits_spec in Hf.
  change (256 ^ Z.of_nat 4) with (2 ^ 32) in *. change (256 ^ Z.of_nat 8) with (2 ^ 64) in *.
  split_and!; [lia|assumption..].
Qed.

Lemma relay_hash_bounds_witness : input_amount sample_relay < 2 ^ 64.
Proof.
  apply (relay_hash_bounds sample_relay 5 (get_v3_relay_hash sample_relay 5)).
  vm_compute. reflexivity.
Defined.

(** [readUInt256BE] reads a big-endian word exactly: on a 32-byte buffer
    the result is a 256-bit value whose big-endian encoding is the buffer, and
    it inverts the encoding of every 256-bit value. *)
Theorem readUInt256BE_exact (buffer : bytes) (v : Z) :
  length buffer = 32%nat → 0 ≤ v < 2 ^ 256 →
  0 ≤ readUInt256BE buffer < 2 ^ 256 ∧ be_bytes 32 (readUInt256BE buffer) = buffer ∧
  readUInt256BE (be_bytes 32 v) = v.
Proof.
  intros Hl Hv. rewrite !readUInt256BE_be_val. split_and!.
  - apply be_val_bound.
  - pose proof (be_val_bound buffer) as Hb. rewrite Hl in Hb.
    change (256 ^ Z.of_nat 32) with (2 ^ 256) in Hb. lia.
  - pose proof (be_bytes_be_val buffer) as Hb. by rewrite Hl in Hb.
  - by apply be_val_be_bytes.
Qed.

Lemma readUInt256BE_exact_witness :
  readUInt256BE (be_bytes 32 (2 ^ 255 + 1)) = 2 ^ 255 + 1.
Proof. apply (readUInt256BE_exact (replicate 32 x00)); [reflexivity|lia]. Defined.

Lemma to_hex_zero n bs :
  to_hex (replicate n x00 ++ bs) = text (replicate (2 * n) ("0"%char : Ascii.ascii)) +:+ to_hex bs.
Proof.
  unfold to_hex. rewrite <- (text_chars (_ +:+ _)), chars_app, !chars_text. f_equal.
  induction n as [|n IH]; [done|]. cbn [replicate app to_hex_chars]. rewrite IH.
  by replace (2 * S n)%nat with (S (S (2 * n))) by lia.
Qed.

(** [evmAddressToPublicKey] left-pads an address to 32 bytes: the
    [0x]-prefixed text of 20 bytes becomes the key made of 12 zero bytes
    followed by those 20 bytes, so different addresses get different keys. *)
Theorem evmAddressToPublicKey_pads `{Ethers} `{Web3} (addr : bytes) :
  length addr = 20%nat →
  evmAddressToPublicKey ("0x" +:+ to_hex addr) = Ok (replicate 12 x00 ++ addr).
Proof.
  intros Hl. unfold evmAddressToPublicKey.
  rewrite replace_0x.
  assert (Hz : "0x000000000000000000000000" +:+ to_hex addr =
    "0x" +:+ to_hex (replicate 12 x00 ++ addr)).
  { rewrite to_hex_zero. reflexivity. }
  rewrite Hz, arrayify_hex. cbn [result_bind].
  apply PublicKey_new_32. rewrite length_app, length_replicate, Hl. done.
Qed.

Lemma evmAddressToPublicKey_pads_witness :
  evmAddressToPublicKey ("0x" +:+ to_hex (replicate 20 xff)) = Ok (replicate 12 x00 ++ replicate 20 xff).
Proof. apply evmAddressToPublicKey_pads. reflexivity. Defined.

(** C37. The events read from a legacy transaction are exactly the inner
    instructions that call one of the programs with its event authority as the
    only account, decoded: nothing another program emits is reported, and no
    event of the programs is lost. *)
Theorem readEvents_exact `{Web3} {D : Type} `{AnchorCodec D} (ev : env rpcE)
    (sig : string) (programs : list pubkey) (tx : tx_result) (es : list (program_event D)) :
  ev [] _ (GetTransaction sig) = Ok (Some tx) → version tx = Legacy →
  outcome ev (readEvents sig programs) = Ok es →
  ∀ e, e ∈ es ↔ ∃ ix p, p ∈ programs ∧ emitted_by tx ix p ∧ decode_event ix p = Ok e.
Proof.
  intros Hev Hver. unfold outcome, readEvents. rewrite run_bind, run_call, Hev.
  cbv beta iota. rewrite run_lift. unfold events_of_tx. rewrite Hver. cbn [fst].
  destruct (event_authorities programs ∅) as [m|] eqn:Hm; cbn [result_bind]; [|done].
  apply event_authorities_ok in Hm. intros Hes e.
  rewrite (events_of_instructions_spec m tx _ programs es Hm Hes e). split.
  - intros (ix & p & Hin & Hp & Hhit & Hd). destruct (Hm p Hp) as (a & Ha & Hl).
    apply (is_event_cpi_true m tx ix p a Ha Hl) in Hhit as (i & ? & ? & ?).
    exists ix, p. split_and!; [done| |done]. split; [done|]. by exists i, a.
  - intros (ix & p & Hp & (Hin & i & a & ? & ? & ? & Ha) & Hd).
    destruct (Hm p Hp) as (a' & Ha' & Hl). assert (a' = a) as -> by congruence.
    exists ix, p. split_and!; [done..| |done].
    apply (is_event_cpi_true m tx ix p a Ha Hl). by exists i.
Qed.

(** A subscription listens to the event authority of the program, and what its
    callback receives for the logs of some transactions is, put together, what
    [readProgramEvents] reads when these are the program's transactions. *)
Theorem subscription_reads_events `{Web3} {D : Type} `{AnchorCodec D} (p : pubkey) (sub : subscription (D := D))
    (ev : env rpcE) (signatures : list string) :
  subscribeToCpiEventsForProgram p = Ok sub → ev [] _ (GetSignaturesForAddress p) = Ok signatures →
  event_authority p = Ok (sub_account sub) ∧
  outcome ev (readProgramEvents p) =
    (let? received := fst (run ev [Event (GetSignaturesForAddress p)] (for_collect signatures (sub_on_logs sub))) in
     Ok (concat received)).
Proof.
  unfold subscribeToCpiEventsForProgram, event_authority. intros Hs Hsigs.
  destruct (findProgramAddress _ p None) as [a|]; [|done]. cbn [result_bind] in Hs |- *. injection Hs as <-.
  split; [done|]. unfold outcome, readProgramEvents. rewrite run_bind, run_call, Hsigs. cbn [app].
  rewrite run_bind. cbn [sub_on_logs]. by destruct (run _ _ (for_collect _ _)) as [[es|e] h].
Qed.

Definition sample_program : pubkey := replicate 32 x0a.
Definition sample_authority : pubkey :=
  match event_authority sample_program with Ok a => a | Err _ => [] end.
Definition sample_tx : tx_result :=
  {| version := Legacy; accountKeys := [sample_program; sample_authority; replicate 32 x0b];
     innerInstructions := Some [[{| programIdIndex := 0; accounts := [1%nat]; data := "abcdefghij" |};
                                 {| programIdIndex := 2; accounts := [1%nat]; data := "abcdefghij" |}]] |}.
Definition sample_env : env rpcE := λ _ X c,
  match c in rpcE Y return result Y with
  | GetTransaction _ => Ok (Some sample_tx)
  | GetSignaturesForAddress _ => Ok []
  end.

Definition sample_event : program_event bytes :=
  {| program := sample_program; event_data := Some (utf8_encode "ij"); event_name := Some "Event"%string |}.

Lemma readEvents_exact_witness :
  sample_event ∈ [sample_event] ↔
    ∃ ix p, p ∈ [sample_program] ∧ emitted_by sample_tx ix p ∧ decode_event ix p = Ok sample_event.
Proof.
  apply (readEvents_exact sample_env "sig"); [reflexivity|reflexivity|].
  vm_compute. reflexivity.
Defined.

(** [getEvent] returns the data of the first event of the program with
    that name, and throws exactly when there is none. *)
Theorem getEvent_first `{Web3} {D : Type} (before after : list (program_event D))
    (e : program_event D) (p : pubkey) (eventName : string) :
  (∀ x, x ∈ before → ¬ (event_name x = Some eventName ∧ program x = p)) →
  (event_name e = Some eventName → program e = p →
   getEvent (before ++ e :: after) p eventName = Ok (event_data e)) ∧
  getEvent before p eventName = Err (JsError ("Event " +:+ eventName +:+ " not found")).
Proof.
  intros Hb.
  assert (Hnone : list_find (λ e, event_name e = Some eventName ∧
    toBase58 p = toBase58 (program e)) before = None).
  { apply list_find_None, Forall_forall. intros x Hx [Hn Hp].
    apply (Hb x Hx). split; [done|]. symmetry. by apply toBase58_inj. }
  unfold getEvent. split; [|by rewrite Hnone].
  intros Hn Hp. rewrite (list_find_app_r _ _ _ Hnone).
  cbn [list_find]. rewrite decide_True by by subst. done.
Qed.

Lemma getEvent_first_witness :
  let e := Build_program_event sample_program (Some [x01]) (Some "FilledV3Relay"%string) in
  getEvent (D:=bytes) [e] sample_program "FilledV3Relay" = Ok (Some [x01]).
Proof.
  intros e. apply (getEvent_first [] [] e sample_program "FilledV3Relay");
    [|reflexivity|reflexivity].
  intros x Hx. exfalso. by apply not_elem_of_nil in Hx.
Defined.

(** [LargeAccountsCoder.encode] never truncates: an account of a known
    layout whose encoding fits the 10240-byte buffer is returned whole after
    its discriminator, a longer one is an error, and so is an unknown name. *)
Theorem LargeAccountsCoder_encode_exact {T : Type} (layouts : string → option (T → bytes))
    (disc : string → bytes) (name : string) (account : T) :
  LargeAccountsCoder_encode layouts disc name account =
    match layouts name with
    | None => Err (JsError ("Unknown account: " +:+ name))
    | Some f =>
        if decide (Z.of_nat (length (f account)) ≤ 10240)
        then Ok (disc name ++ f account) else Err RangeError
    end.
Proof.
  unfold LargeAccountsCoder_encode. destruct (layouts name) as [f|]; [|done].
  assert (Hb : Z.of_nat LARGE_ACCOUNT_BUFFER = 10240) by (vm_compute; reflexivity).
  destruct (Nat.leb_spec (length (f account)) LARGE_ACCOUNT_BUFFER).
  - rewrite decide_True by lia. do 2 f_equal.
    apply (slice_splice_same _ 0). unfold buffer_alloc. rewrite length_replicate. lia.
  - by rewrite decide_False by lia.
Qed.
