(* ===== verification/SvmLeaves.v ===== *)
(** * Merkle leaves and instruction parameters of the Solana scripts

    [test/svm/utils.ts] (used by [scripts/svm/simpleFakeRelayerRepayment.ts]):
    the hashes of relayer-refund and slow-fill leaves, and the upload of the
    parameters of [executeRelayerRefundLeaf] in fragments, together with the
    on-chain account they are written to. *)

From stdpp Require Import base strings list.
From Stdlib Require Import ZArith Strings.Byte Lia.
From S2P Require Import Prelude Bytes JsText Interfaces SvmSpoke SvmUtils.

(** An EVM leaf keeps ethers values; its ABI encoding is the library's. *)
Record RelayerRefundLeafEvm := {
  evm_amountToReturn : Z;
  evm_chainId : Z;
  evm_refundAmounts : list Z;
  evm_leafId : Z;
  evm_l2TokenAddress : string;
  evm_refundAddresses : list string
}.

Inductive RelayerRefundLeafType :=
| SolanaLeaf (l : RelayerRefundLeaf)
| EvmLeaf (l : RelayerRefundLeafEvm).

Section Hashing.
Context `{Keccak} `{BNjs} (abi_encode_leaf : RelayerRefundLeafEvm → bytes).

(** [amount.toArrayLike(Buffer, "le", 8).copy(Buffer.alloc(8))] *)
Definition amount_buffer (amount : Z) : result bytes :=
  let? a := toArrayLike_le amount 8 in Ok (buffer_copy a (buffer_alloc 8) 0).

Definition refund_leaf_content (relayData : RelayerRefundLeaf) : result bytes :=
  let? amounts := map_result amount_buffer (refund_amounts relayData) in
  let refundAmountsBuffer := concat amounts in
  let refundAccountsBuffer := concat (refund_accounts relayData) in
  let? amountToReturn := toArrayLike_le (amount_to_return relayData) 8 in
  let? chainId := toArrayLike_le (chain_id relayData) 8 in
  let? leafId := toArrayLike_le (leaf_id relayData) 4 in
  Ok (concat [amountToReturn; chainId; refundAmountsBuffer; leafId;
              mint_public_key relayData; refundAccountsBuffer]).

Definition calculateRelayerRefundLeafHashUint8Array (relayData : RelayerRefundLeaf)
  : result string :=
  let? contentToHash := refund_leaf_content relayData in
  Ok (keccak256_hex contentToHash).

Definition relayerRefundHashFn (input : RelayerRefundLeafType) : result string :=
  match input with
  | EvmLeaf l => Ok (keccak256_hex (abi_encode_leaf l))
  | SolanaLeaf l => calculateRelayerRefundLeafHashUint8Array l
  end.

Definition slow_fill_content (slowFillLeaf : V3SlowFill) : result bytes :=
  let d := relay_data slowFillLeaf in
  let? inputAmount := toArrayLike_le (input_amount d) 8 in
  let? outputAmount := toArrayLike_le (output_amount d) 8 in
  let? originChainId := toArrayLike_le (origin_chain_id d) 8 in
  let? depositId := toArrayLike_le (deposit_id d) 4 in
  let? fillDeadline := toArrayLike_le (fill_deadline d) 4 in
  let? exclusivityDeadline := toArrayLike_le (exclusivity_deadline d) 4 in
  let? chainId := toArrayLike_le (slow_chain_id slowFillLeaf) 8 in
  let? updatedOutputAmount := toArrayLike_le (updated_output_amount slowFillLeaf) 8 in
  Ok (concat [depositor d; recipient d; exclusive_relayer d; input_token d; output_token d;
              inputAmount; outputAmount; originChainId; depositId; fillDeadline;
              exclusivityDeadline; message d; chainId; updatedOutputAmount]).

Definition slowFillHashFn (slowFillLeaf : V3SlowFill) : result string :=
  let? contentToHash := slow_fill_content slowFillLeaf in
  Ok (keccak256_hex contentToHash).

End Hashing.

(** ** Loading the parameters account *)

(** The calls of the script on the caller's [instruction_params] account. *)
Inductive paramsE : Type → Type :=
| GetAccountInfo : paramsE bool            (* [accountInfo !== null] *)
| CloseInstructionParams : paramsE unit
| InitializeInstructionParams (total_size : Z) : paramsE unit
| WriteInstructionParamsFragment (offset : Z) (fragment : bytes) : paramsE unit.

Definition maxInstructionParamsFragment : nat := Z.to_nat 900.

(** [instructionParamsBytes] is what the account coder returned. *)
Definition loadExecuteRelayerRefundLeafParams (instructionParamsBytes : result bytes)
  : prog paramsE unit :=
  let! exists_ := call GetAccountInfo in
  (if exists_ : bool then call CloseInstructionParams else Ret tt) ;;
  let! params := lift instructionParamsBytes in
  call (InitializeInstructionParams (Z.of_nat (length params))) ;;
  for_each (slices maxInstructionParamsFragment params 0)
    (λ '(i, fragment), call (WriteInstructionParamsFragment (Z.of_nat i) fragment)).

(** What the program does with the account: [None] when it does not exist
    (its data is then empty).  Sizes and offsets are [u32] arguments.  [init]
    refuses an account in use, and more than the 10240 bytes that a nested
    instruction can allocate ([MAX_PERMITTED_DATA_INCREASE]); closing an absent
    account changes nothing.  A transaction is at most 1232 bytes: the one of a
    fragment has 253 bytes besides it (a signature, the header, four keys, a
    block hash, the instruction's indices, discriminator, offset and vector
    length).  Lamports are not modelled. *)
Definition AccountInUse : js_error := JsError "account already in use".

Definition initialize_instruction_params (acc : option bytes) (total_size : Z) : result (option bytes) :=
  match acc with
  | Some _ => Err AccountInUse
  | None =>
      let? _ := require (total_size <=? MAX_PERMITTED_DATA_INCREASE) InvalidRealloc in
      Ok (Some (replicate (Z.to_nat total_size) x00))
  end.

Definition write_fragment (acc : option bytes) (offset : Z) (fragment : bytes) : result (option bytes) :=
  let? data' := write_instruction_params_fragment (default [] acc) (Z.to_nat offset) fragment in
  Ok ((λ _, data') <$> acc).

(** The answer of the program, with the account it leaves. *)
Definition params_answer (acc : option bytes) (r : result (option bytes)) : result unit * option bytes :=
  match r with Ok acc' => (Ok tt, acc') | Err e => (Err e, acc) end.

Definition params_program : handler (option bytes) paramsE := λ X acc c,
  match c in paramsE Y return result Y * option bytes with
  | GetAccountInfo => (Ok (bool_decide (is_Some acc)), acc)
  | CloseInstructionParams => (Ok tt, None)
  | InitializeInstructionParams total_size =>
      params_answer acc (let? n := anchor_u32 total_size in initialize_instruction_params acc n)
  | WriteInstructionParamsFragment offset fragment =>
      params_answer acc (let? off := anchor_u32 offset in
                         let? _ := require (253 + Z.of_nat (length fragment) <=? PACKET_DATA_SIZE) TransactionTooLarge in
                         write_fragment acc off fragment)
  end.

(** * Properties *)

Section Agreement.
Context `{Keccak} `{BNjs}.

Lemma amount_buffer_wf v : u64 v → amount_buffer v = Ok (le_bytes 8 v).
Proof.
  intros Hv. unfold amount_buffer. rewrite toArrayLike_le_fits by exact Hv. done.
Qed.

Lemma refund_leaf_content_wf l :
  refund_leaf_wf l → refund_leaf_content l = Ok (RelayerRefundLeaf_to_bytes l).
Proof.
  intros (Hr & Hc & Ha & Hl & _). unfold refund_leaf_content, u64, u32 in *.
  rewrite (map_result_ok _ (le_bytes 8)).
  2: { eapply Forall_impl; [exact Ha|]. apply amount_buffer_wf. }
  rewrite !toArrayLike_le_fits by (cbn; lia). cbn [result_bind concat].
  by rewrite app_nil_r.
Qed.

Lemma slow_fill_content_wf s :
  slow_fill_wf s → slow_fill_content s = Ok (V3SlowFill_to_bytes s).
Proof.
  intros (Hd & ? & ?). destruct Hd as (_ & _ & _ & _ & _ & ? & ? & ? & ? & ? & ? & ?).
  unfold slow_fill_content.
  rewrite !toArrayLike_le_fits by (cbn; lia). cbn [result_bind concat].
  by rewrite app_nil_r.
Qed.
End Agreement.

(** Writing at [i] the next fragment of [bs] extends the written prefix. *)
Lemma splice_prefix (bs data : bytes) i n :
  length data = length bs → (i < length bs)%nat → (0 < n)%nat →
  take i data = take i bs →
  let fragment := slice bs i (i + n) in
  (i + length fragment ≤ length bs)%nat ∧
  length (splice data i fragment) = length bs ∧
  take (i + n) (splice data i fragment) = take (i + n) bs.
Proof.
  intros Hlen Hi Hn Hpre fragment.
  assert (Hf : length fragment = Nat.min n (length bs - i)).
  { unfold fragment, slice. rewrite length_take, length_drop. lia. }
  split_and!; [lia|rewrite length_splice; lia|].
  unfold splice. rewrite Hpre, app_assoc.
  assert (Hcat : take i bs ++ fragment = take (i + n) bs).
  { unfold fragment, slice. replace (i + n - i)%nat with n by lia.
    by rewrite take_take_drop. }
  rewrite Hcat. destruct (decide (i + n ≤ length bs)%nat).
  - by rewrite take_app_le, take_take, Nat.min_id by (rewrite length_take; lia).
  - rewrite (take_ge bs (i + n)) by lia. rewrite drop_ge by lia. rewrite app_nil_r.
    by rewrite take_ge by lia.
Qed.

Lemma length_slice_le {A} (l : list A) i j : (length (slice l i j) ≤ j - i)%nat.
Proof. unfold slice. rewrite length_take. lia. Qed.

Lemma write_slices fuel n (bs data : bytes) i :
  (0 < n)%nat → 253 + Z.of_nat n ≤ PACKET_DATA_SIZE → Z.of_nat (length bs) < 2 ^ 32 → (length bs - i ≤ fuel)%nat →
  length data = length bs → take i data = take i bs →
  run_state params_program (Some data)
    (for_each (slices_from fuel n bs i)
       (λ '(i, fragment), call (WriteInstructionParamsFragment (Z.of_nat i) fragment)))
  = (Ok tt, Some bs).
Proof.
  intros Hn Hsize H32. revert data i. induction fuel as [|fuel IH]; intros data i Hf Hlen Hpre;
    cbn [slices_from].
  - cbn. rewrite !take_ge in Hpre by lia. by subst.
  - destruct (Nat.ltb_spec i (length bs)) as [Hi|Hi]; cbn [for_each].
    + destruct (splice_prefix bs data i n) as (Hfit & Hlen' & Hpre'); [done..|].
      rewrite run_state_bind, run_state_call. cbn [params_program].
      rewrite anchor_u32_ok, bind_ok by (unfold u32; lia).
      pose proof (length_slice_le bs i (i + n)). rewrite (proj2 (Z.leb_le _ _)) by lia. cbn [require result_bind].
      unfold write_fragment, write_instruction_params_fragment. rewrite Nat2Z.id.
      change (default [] (Some data)) with data. rewrite Hlen.
      apply Nat.leb_le in Hfit. rewrite Hfit. apply IH; [lia|done|done].
    + cbn. rewrite !take_ge in Hpre by lia. by subst.
Qed.

Lemma close_before_load (before : option bytes) : run_state params_program before
  (if bool_decide (is_Some before) then call CloseInstructionParams else Ret tt) = (Ok tt, None).
Proof.
  destruct before as [old|]; cbn [bool_decide]; [by rewrite bool_decide_eq_true_2|].
  rewrite bool_decide_eq_false_2; [done|]. by intros [? [=]].
Qed.

(** Whatever the account was, the run closes it, and then fails at the
    initialization or writes everything. *)
Lemma load_params_run (params : bytes) (before : option bytes) :
  Z.of_nat (length params) ≤ MAX_PERMITTED_DATA_INCREASE →
  run_state params_program before (loadExecuteRelayerRefundLeafParams (Ok params)) = (Ok tt, Some params).
Proof.
  intros Hmax. unfold MAX_PERMITTED_DATA_INCREASE in Hmax. unfold loadExecuteRelayerRefundLeafParams.
  rewrite run_state_bind, run_state_call. cbn [params_program].
  rewrite run_state_bind, close_before_load. rewrite run_state_bind, run_state_lift.
  rewrite run_state_bind, run_state_call. cbn [params_program].
  rewrite anchor_u32_ok, bind_ok by (unfold u32; lia). unfold initialize_instruction_params.
  rewrite (proj2 (Z.leb_le _ _)) by exact Hmax. cbn [require result_bind params_answer].
  rewrite Nat2Z.id. apply write_slices; [|done|lia|lia|by rewrite length_replicate|done].
  unfold maxInstructionParamsFragment. lia.
Qed.

Lemma load_params_refused (params : bytes) (before : option bytes) :
  MAX_PERMITTED_DATA_INCREASE < Z.of_nat (length params) →
  ∃ e, run_state params_program before (loadExecuteRelayerRefundLeafParams (Ok params)) = (Err e, None).
Proof.
  intros Hmax. unfold loadExecuteRelayerRefundLeafParams.
  rewrite run_state_bind, run_state_call. cbn [params_program].
  rewrite run_state_bind, close_before_load. rewrite run_state_bind, run_state_lift.
  rewrite run_state_bind, run_state_call. cbn [params_program].
  destruct (decide (Z.of_nat (length params) < 2 ^ 32)) as [H32|H32].
  - rewrite anchor_u32_ok, bind_ok by (unfold u32; lia). unfold initialize_instruction_params.
    rewrite (proj2 (Z.leb_gt _ _)) by exact Hmax. cbn [require result_bind params_answer]. by eexists.
  - unfold anchor_u32, writeUInt32LE, write_uint.
    destruct (fits 4 (Z.of_nat (length params))) eqn:Hf; [|by eexists]. apply fits_spec in Hf. lia.
Qed.

(** ** The properties *)

(** [relayerRefundHashFn] on a Solana leaf is the hash the program checks
    the Merkle proof against, as 0x-prefixed text, for every leaf the Rust
    types admit. *)
Theorem relayerRefundHashFn_agrees `{Keccak} `{BNjs} (abi_encode_leaf : RelayerRefundLeafEvm → bytes)
    (l : RelayerRefundLeaf) :
  refund_leaf_wf l →
  relayerRefundHashFn abi_encode_leaf (SolanaLeaf l) =
    Ok ("0x" +:+ to_hex (RelayerRefundLeaf_to_keccak_hash l)).
Proof.
  intros Hl. unfold relayerRefundHashFn, calculateRelayerRefundLeafHashUint8Array.
  by rewrite refund_leaf_content_wf.
Qed.

Definition sample_leaf : RelayerRefundLeaf :=
  {| amount_to_return := 5; chain_id := 133268194659241; refund_amounts := [10; 20];
     leaf_id := 3; mint_public_key := replicate 32 x01;
     refund_accounts := [replicate 32 x02; replicate 32 x03] |}.

Lemma sample_leaf_wf : refund_leaf_wf sample_leaf.
Proof. unfold refund_leaf_wf, u64, u32, pubkey_wf; cbn. split_and!; repeat constructor; lia. Qed.

Lemma relayerRefundHashFn_agrees_witness :
  relayerRefundHashFn (λ _, []) (SolanaLeaf sample_leaf) =
    Ok ("0x" +:+ to_hex (RelayerRefundLeaf_to_keccak_hash sample_leaf)).
Proof. apply relayerRefundHashFn_agrees. exact sample_leaf_wf. Defined.

(** A refund leaf hash commits to the whole leaf: two leaves with as many
    accounts as amounts (which [execute_relayer_refund_leaf] requires) and the
    same hash are equal, or two messages with the same keccak digest are
    exhibited. *)
Theorem refund_leaf_hash_binding `{Keccak} `{BNjs} (l l' : RelayerRefundLeaf) :
  refund_leaf_wf l → refund_leaf_wf l' →
  length (refund_accounts l) = length (refund_amounts l) →
  length (refund_accounts l') = length (refund_amounts l') →
  calculateRelayerRefundLeafHashUint8Array l = calculateRelayerRefundLeafHashUint8Array l' →
  l = l' ∨ keccak_collision.
Proof.
  intros Hl Hl' Hn Hn'. unfold calculateRelayerRefundLeafHashUint8Array.
  rewrite !refund_leaf_content_wf by done. cbn [result_bind]. intros Hk%Ok_inj.
  apply (f_equal (λ s, buffer_from_hex (str_slice_from s 2))) in Hk.
  rewrite !keccak256_hex_digest in Hk.
  destruct (decide (RelayerRefundLeaf_to_bytes l = RelayerRefundLeaf_to_bytes l')).
  - left. by apply refund_leaf_bytes_inj.
  - right. by eexists _, _.
Qed.

Lemma refund_leaf_hash_binding_witness : sample_leaf = sample_leaf ∨ keccak_collision.
Proof.
  apply refund_leaf_hash_binding; [exact sample_leaf_wf|exact sample_leaf_wf|reflexivity..].
Defined.

(** Two leaves whose encodings coincide: four amounts and no account against
    an account made of those amounts. *)
Definition amounts_leaf : RelayerRefundLeaf :=
  {| amount_to_return := 0; chain_id := 1; refund_amounts := [0; 0; 0; 0];
     leaf_id := 0; mint_public_key := replicate 32 x00; refund_accounts := [] |}.
Definition account_leaf : RelayerRefundLeaf :=
  {| amount_to_return := 0; chain_id := 1; refund_amounts := [];
     leaf_id := 0; mint_public_key := replicate 32 x00; refund_accounts := [replicate 32 x00] |}.

(** The condition on the lengths is needed: without it the unprefixed
    encoding is ambiguous, and two different well-formed leaves hash to the
    same value whatever the hash function is. *)
Theorem refund_leaf_hash_ambiguous :
  amounts_leaf ≠ account_leaf ∧ refund_leaf_wf amounts_leaf ∧ refund_leaf_wf account_leaf ∧
  ∀ (K : Keccak) (B : BNjs),
    calculateRelayerRefundLeafHashUint8Array amounts_leaf =
    calculateRelayerRefundLeafHashUint8Array account_leaf.
Proof.
  assert (Ha : refund_leaf_wf amounts_leaf)
    by (unfold refund_leaf_wf, u64, u32, pubkey_wf; cbn; split_and!; repeat constructor; lia).
  assert (Hb : refund_leaf_wf account_leaf)
    by (unfold refund_leaf_wf, u64, u32, pubkey_wf; cbn; split_and!; repeat constructor; lia).
  split_and!; [discriminate|exact Ha|exact Hb|].
  intros K B. unfold calculateRelayerRefundLeafHashUint8Array.
  rewrite !refund_leaf_content_wf by done. cbn [result_bind].
  by replace (RelayerRefundLeaf_to_bytes amounts_leaf) with (RelayerRefundLeaf_to_bytes account_leaf)
    by (vm_compute; reflexivity).
Qed.

(** [slowFillHashFn] agrees with the program's [V3SlowFill::to_keccak_hash]
    and commits to the whole slow fill: equal hashes mean equal leaves or a
    keccak collision, although the message has no length prefix. *)
Theorem slowFillHashFn_exact `{Keccak} `{BNjs} (s s' : V3SlowFill) :
  slow_fill_wf s → slow_fill_wf s' →
  slowFillHashFn s = Ok ("0x" +:+ to_hex (V3SlowFill_to_keccak_hash s)) ∧
  (slowFillHashFn s = slowFillHashFn s' → s = s' ∨ keccak_collision).
Proof.
  intros Hs Hs'. unfold slowFillHashFn. rewrite !slow_fill_content_wf by done.
  cbn [result_bind]. split; [done|]. intros Hk%Ok_inj.
  apply (f_equal (λ s, buffer_from_hex (str_slice_from s 2))) in Hk.
  rewrite !keccak256_hex_digest in Hk.
  destruct (decide (V3SlowFill_to_bytes s = V3SlowFill_to_bytes s')).
  - left. by apply slow_fill_bytes_inj.
  - right. by eexists _, _.
Qed.

Definition sample_slow_fill : V3SlowFill :=
  {| relay_data := sample_relay; slow_chain_id := 9; updated_output_amount := 980 |}.

Lemma slowFillHashFn_exact_witness :
  slowFillHashFn sample_slow_fill =
    Ok ("0x" +:+ to_hex (V3SlowFill_to_keccak_hash sample_slow_fill)).
Proof.
  assert (Hw : slow_fill_wf sample_slow_fill)
    by (split; [exact sample_relay_wf|cbn; lia]).
  apply (slowFillHashFn_exact sample_slow_fill sample_slow_fill); exact Hw.
Defined.

(** C35. Whatever the state of the caller's parameters account (absent, or
    left from an earlier run with other contents), running
    [loadExecuteRelayerRefundLeafParams] against the program succeeds and
    leaves exactly the encoded parameters in the account, no transaction being
    too large and no write overflowing it, when they are at most the 10240
    bytes the program can allocate; longer ones are refused, and the account of
    the earlier run is gone. *)
Theorem loadParams_exact (params : bytes) (before : option bytes) :
  let run := run_state params_program before (loadExecuteRelayerRefundLeafParams (Ok params)) in
  (Z.of_nat (length params) ≤ MAX_PERMITTED_DATA_INCREASE → run = (Ok tt, Some params)) ∧
  (MAX_PERMITTED_DATA_INCREASE < Z.of_nat (length params) → ∃ e, run = (Err e, None)).
Proof. split; [apply load_params_run|apply load_params_refused]. Qed.

(** Two fragments over an account of an earlier run; one byte too many. *)
Lemma loadParams_exact_witness :
  run_state params_program (Some [x01]) (loadExecuteRelayerRefundLeafParams (Ok (replicate 1000 x02))) =
    (Ok tt, Some (replicate 1000 x02)) ∧
  ∃ e, run_state params_program (Some [x01]) (loadExecuteRelayerRefundLeafParams (Ok (replicate (Z.to_nat 10241) x02))) =
    (Err e, None).
Proof.
  split.
  - apply (loadParams_exact (replicate 1000 x02) (Some [x01])). rewrite length_replicate. done.
  - apply (loadParams_exact (replicate (Z.to_nat 10241) x02) (Some [x01])). rewrite length_replicate. done.
Defined.
