(* ===== verification/SvmFills.v ===== *)
(** * Fills on the Solana spoke pool

    The life of a relay on [programs/svm-spoke]: [instructions/fill.rs] and
    [instructions/slow_fill.rs] as functions on the fill accounts, and the
    states the program can reach as time passes.  An account is named by its
    relay hash (the seeds of its address); token transfers are the [result]
    of the token program's call; lamports are not modelled. *)

From stdpp Require Import base gmap strings list.
From Stdlib Require Import ZArith Strings.Byte Lia.
From S2P Require Import Prelude Bytes Interfaces Consts SvmSpoke SvmUtils.

Record FillStatusAccount := { status : FillStatus; relayer : pubkey }.

Inductive FillType := FastFill | ReplacedSlowFill | SlowFill.

(** The fields of a [FilledV3Relay] event the accounts depend on. *)
Record FilledV3Relay := {
  fe_relay : V3RelayData;
  fe_relayer : pubkey;
  fe_updated_output_amount : Z;
  fe_fill_type : FillType
}.

Record fills_state := {
  paused_fills : bool;
  spoke_chain_id : Z;
  slow_relay_roots : gmap Z bytes;               (* by root bundle id *)
  fills : gmap bytes FillStatusAccount;          (* by relay hash *)
  filled_log : list FilledV3Relay                (* events, oldest first *)
}.

Definition FillsArePaused : js_error := JsError "FillsArePaused".
Definition InvalidRelayHash : js_error := JsError "InvalidRelayHash".
Definition NotExclusiveRelayer : js_error := JsError "NotExclusiveRelayer".
Definition ExpiredFillDeadline : js_error := JsError "ExpiredFillDeadline".
Definition RelayFilled : js_error := JsError "RelayFilled".
Definition NoSlowFillsInExclusivityWindow : js_error := JsError "NoSlowFillsInExclusivityWindow".
Definition InvalidSlowFillRequest : js_error := JsError "InvalidSlowFillRequest".
Definition AccountNotInitialized : js_error := JsError "AccountNotInitialized".
Definition NotRelayer : js_error := JsError "NotRelayer".
Definition CanOnlyCloseFillStatusPdaIfFillDeadlinePassed : js_error :=
  JsError "CanOnlyCloseFillStatusPdaIfFillDeadlinePassed".

#[export] Instance FillStatus_eq_dec : EqDecision FillStatus.
Proof. solve_decision. Defined.
#[export] Instance V3RelayData_eq_dec : EqDecision V3RelayData.
Proof. solve_decision. Defined.

Definition default_pubkey : pubkey := replicate 32 x00.

(** A fresh account ([init_if_needed]). *)
Definition empty_account : FillStatusAccount := {| status := Unfilled; relayer := default_pubkey |}.

Definition with_account (st : fills_state) (h : bytes) (a : FillStatusAccount) : fills_state :=
  {| paused_fills := paused_fills st; spoke_chain_id := spoke_chain_id st;
     slow_relay_roots := slow_relay_roots st; fills := <[h := a]> (fills st);
     filled_log := filled_log st |}.

Definition without_account (st : fills_state) (h : bytes) : fills_state :=
  {| paused_fills := paused_fills st; spoke_chain_id := spoke_chain_id st;
     slow_relay_roots := slow_relay_roots st; fills := delete h (fills st);
     filled_log := filled_log st |}.

Definition with_event (st : fills_state) (e : FilledV3Relay) : fills_state :=
  {| paused_fills := paused_fills st; spoke_chain_id := spoke_chain_id st;
     slow_relay_roots := slow_relay_roots st; fills := fills st;
     filled_log := filled_log st ++ [e] |}.

Section Instructions.
Context `{Keccak} `{Borsh}.

Definition is_relay_hash_valid (relay_hash : bytes) (relay_data : V3RelayData) (st : fills_state) : bool :=
  bool_decide (relay_hash = get_v3_relay_hash relay_data (spoke_chain_id st)).

(** [same_account]: the relayer and the recipient share their token account,
    then no transfer is made; [transfer] is the outcome of the transfer. *)
Definition fill_v3_relay (current_time : Z) (st : fills_state) (signer : pubkey) (relay_hash : bytes)
    (relay_data : V3RelayData) (repayment_address : pubkey) (same_account : bool)
    (transfer : result unit) : result fills_state :=
  let? _ := require (negb (paused_fills st)) FillsArePaused in
  let? _ := require (is_relay_hash_valid relay_hash relay_data st) InvalidRelayHash in
  let account := default empty_account (fills st !! relay_hash) in
  let? _ := require (negb (negb (bool_decide (exclusive_relayer relay_data = signer)) &&
                           (current_time <=? exclusivity_deadline relay_data) &&
                           negb (bool_decide (exclusive_relayer relay_data = default_pubkey))))
                    NotExclusiveRelayer in
  let? _ := require (current_time <=? fill_deadline relay_data) ExpiredFillDeadline in
  let? fill_type := match status account with
                    | Filled => Err RelayFilled
                    | RequestedSlowFill => Ok ReplacedSlowFill
                    | Unfilled => Ok FastFill
                    end in
  let? _ := (if same_account then Ok tt else transfer) in
  Ok (with_event (with_account st relay_hash {| status := Filled; relayer := signer |})
        {| fe_relay := relay_data; fe_relayer := repayment_address;
           fe_updated_output_amount := output_amount relay_data; fe_fill_type := fill_type |}).

Definition request_v3_slow_fill (current_time : Z) (st : fills_state) (signer : pubkey)
    (relay_hash : bytes) (relay_data : V3RelayData) : result fills_state :=
  let? _ := require (negb (paused_fills st)) FillsArePaused in
  let? _ := require (is_relay_hash_valid relay_hash relay_data st) InvalidRelayHash in
  let account := default empty_account (fills st !! relay_hash) in
  let? _ := require (exclusivity_deadline relay_data <? current_time) NoSlowFillsInExclusivityWindow in
  let? _ := require (current_time <=? fill_deadline relay_data) ExpiredFillDeadline in
  let? _ := require (bool_decide (status account = Unfilled)) InvalidSlowFillRequest in
  Ok (with_account st relay_hash {| status := RequestedSlowFill; relayer := signer |}).

(** The chain id of the leaf is overridden by the program's. *)
Definition execute_v3_slow_relay_leaf (current_time : Z) (st : fills_state) (relay_hash : bytes)
    (slow_fill_leaf : V3SlowFill) (root_bundle_id : Z) (proof : list bytes) (transfer : result unit)
  : result fills_state :=
  let d := relay_data slow_fill_leaf in
  let? root := from_option_err AccountNotInitialized (slow_relay_roots st !! root_bundle_id) in
  let? account := from_option_err AccountNotInitialized (fills st !! relay_hash) in
  let? _ := require (is_relay_hash_valid relay_hash d st) InvalidRelayHash in
  let slow_fill := {| relay_data := d; slow_chain_id := spoke_chain_id st;
                      updated_output_amount := updated_output_amount slow_fill_leaf |} in
  let? _ := verify_merkle_proof root (V3SlowFill_to_keccak_hash slow_fill) proof in
  let? _ := require (current_time <=? fill_deadline d) ExpiredFillDeadline in
  let? _ := require (negb (bool_decide (status account = Filled))) RelayFilled in
  let? _ := transfer in
  Ok (with_event (with_account st relay_hash {| status := Filled; relayer := relayer account |})
        {| fe_relay := d; fe_relayer := default_pubkey;
           fe_updated_output_amount := updated_output_amount slow_fill_leaf; fe_fill_type := SlowFill |}).

Definition close_fill_pda (current_time : Z) (st : fills_state) (signer : pubkey) (relay_hash : bytes)
    (relay_data : V3RelayData) : result fills_state :=
  let? account := from_option_err AccountNotInitialized (fills st !! relay_hash) in
  let? _ := require (bool_decide (signer = relayer account)) NotRelayer in
  let? _ := require (is_relay_hash_valid relay_hash relay_data st) InvalidRelayHash in
  let? _ := require (fill_deadline relay_data <? current_time)
                    CanOnlyCloseFillStatusPdaIfFillDeadlinePassed in
  Ok (without_account st relay_hash).

(** ** What can happen *)
Inductive fill_instruction :=
| FillV3Relay (signer : pubkey) (relay_hash : bytes) (d : V3RelayData) (repayment_address : pubkey)
    (same_account : bool) (transfer : result unit)
| RequestV3SlowFill (signer : pubkey) (relay_hash : bytes) (d : V3RelayData)
| ExecuteV3SlowRelayLeaf (relay_hash : bytes) (leaf : V3SlowFill) (root_bundle_id : Z)
    (proof : list bytes) (transfer : result unit)
| CloseFillPda (signer : pubkey) (relay_hash : bytes) (d : V3RelayData).

Definition instruction_relay (i : fill_instruction) : V3RelayData :=
  match i with
  | FillV3Relay _ _ d _ _ _ | RequestV3SlowFill _ _ d | CloseFillPda _ _ d => d
  | ExecuteV3SlowRelayLeaf _ leaf _ _ _ => relay_data leaf
  end.

Definition execute (current_time : Z) (st : fills_state) (i : fill_instruction) : result fills_state :=
  match i with
  | FillV3Relay signer h d addr same transfer => fill_v3_relay current_time st signer h d addr same transfer
  | RequestV3SlowFill signer h d => request_v3_slow_fill current_time st signer h d
  | ExecuteV3SlowRelayLeaf h leaf id proof transfer =>
      execute_v3_slow_relay_leaf current_time st h leaf id proof transfer
  | CloseFillPda signer h d => close_fill_pda current_time st signer h d
  end.

(** The administrator pauses fills and relays root bundles. *)
Definition administered (st st' : fills_state) : Prop :=
  spoke_chain_id st' = spoke_chain_id st ∧ fills st' = fills st ∧ filled_log st' = filled_log st.

(** States reached at a time, from a program without fills: time passes, an
    instruction succeeds, or the administrator acts.  A failed instruction
    changes nothing. *)
Inductive reachable (chain : Z) : Z → fills_state → Prop :=
| reach_start t paused roots :
    reachable chain t {| paused_fills := paused; spoke_chain_id := chain; slow_relay_roots := roots;
                         fills := ∅; filled_log := [] |}
| reach_time t t' st : reachable chain t st → t ≤ t' → reachable chain t' st
| reach_execute t st i st' :
    reachable chain t st → relay_data_wf (instruction_relay i) → execute t st i = Ok st' →
    reachable chain t st'
| reach_admin t st st' : reachable chain t st → administered st st' → reachable chain t st'.

(** ** Lemmas *)

(** The hash given is the relay's. *)
Ltac hash_valid :=
  match goal with Hh : is_relay_hash_valid _ _ _ = true |- _ =>
    apply bool_decide_eq_true in Hh; subst end.

(** Each successful instruction in one of three shapes. *)
Lemma execute_ok t st i st' : execute t st i = Ok st' →
  let d := instruction_relay i in
  let h := get_v3_relay_hash d (spoke_chain_id st) in
  let account := default empty_account (fills st !! h) in
  (t ≤ fill_deadline d ∧ status account ≠ Filled ∧
   ∃ r addr amount ty,
     st' = with_event (with_account st h {| status := Filled; relayer := r |})
             {| fe_relay := d; fe_relayer := addr; fe_updated_output_amount := amount; fe_fill_type := ty |}) ∨
  (t ≤ fill_deadline d ∧ status account = Unfilled ∧
   ∃ r, st' = with_account st h {| status := RequestedSlowFill; relayer := r |}) ∨
  (fill_deadline d < t ∧ st' = without_account st h).
Proof.
  destruct i as [signer h d addr same transfer|signer h d|h leaf id proof transfer|signer h d];
    cbn [execute instruction_relay]; intros Hx.
  - left. unfold fill_v3_relay in Hx. passes Hx. hash_valid.
    destruct (status _) eqn:Hs; simplify_eq;
      (split; [lia|]; split; [congruence|]; by eexists _, _, _, _).
  - right; left. unfold request_v3_slow_fill in Hx. passes Hx. hash_valid.
    injection Hx as <-. split; [lia|]. split; [by eapply bool_decide_eq_true_1|by eexists].
  - left. unfold execute_v3_slow_relay_leaf in Hx. passes Hx. hash_valid.
    injection Hx as <-. split; [lia|].
    match goal with Ha : fills st !! _ = Some _ |- _ => rewrite Ha end.
    match goal with Hn : negb (bool_decide _) = true |- _ =>
      apply negb_true_iff, bool_decide_eq_false in Hn end.
    split; [done|by eexists _, _, _, _].
  - right; right. unfold close_fill_pda in Hx. passes Hx. hash_valid.
    injection Hx as <-. split; [lia|done].
Qed.

(** ** The invariant *)

(** Two relays with one hash on a chain are the same, or give a collision. *)
Lemma same_hash_same_relay d d' chain :
  relay_data_wf d → relay_data_wf d' → u64 chain →
  get_v3_relay_hash d chain = get_v3_relay_hash d' chain → d = d' ∨ keccak_collision.
Proof.
  intros Hd Hd' Hc Hh. destruct (decide (d = d')) as [|Hne]; [by left|]. right.
  exists (relay_preimage d chain), (relay_preimage d' chain). split; [|exact Hh].
  by intros [? _]%relay_preimage_inj.
Qed.

(** A filled relay is recorded as filled until its deadline passed. *)
Definition accounted (chain t : Z) (m : gmap bytes FillStatusAccount) (d : V3RelayData) : Prop :=
  (∃ a, m !! get_v3_relay_hash d chain = Some a ∧ status a = Filled) ∨ fill_deadline d < t.

Definition fills_inv (t : Z) (st : fills_state) : Prop :=
  Forall relay_data_wf (map fe_relay (filled_log st)) ∧
  NoDup (map fe_relay (filled_log st)) ∧
  Forall (accounted (spoke_chain_id st) t (fills st)) (map fe_relay (filled_log st)).

(** Changing the account of [d] keeps the other relays accounted for. *)
Lemma accounted_others chain t m m' d l :
  u64 chain → relay_data_wf d → Forall relay_data_wf l →
  (∀ h, h ≠ get_v3_relay_hash d chain → m' !! h = m !! h) →
  (d ∈ l → accounted chain t m' d) →
  Forall (accounted chain t m) l → Forall (accounted chain t m') l ∨ keccak_collision.
Proof.
  intros Hc Hd Hwf Hm Hdl Hl. induction Hl as [|e l He Hl IH]; [left; constructor|].
  apply Forall_cons in Hwf as [Hewf Hwf].
  destruct IH as [IH|?]; [done|intros; apply Hdl; by right| |by right].
  assert (accounted chain t m' e ∨ keccak_collision) as [?|?]; [|by left; constructor|by right].
  destruct (decide (get_v3_relay_hash e chain = get_v3_relay_hash d chain)) as [Hh|Hh].
  - destruct (same_hash_same_relay e d chain) as [->|?]; [done..| |by right].
    left. apply Hdl. by left.
  - left. destruct He as [(a & Ha & Hs)|?]; [|by right]. left. exists a. by rewrite Hm.
Qed.

(** A relay still open and not filled has no event. *)
Lemma not_accounted chain t m d l :
  t ≤ fill_deadline d → status (default empty_account (m !! get_v3_relay_hash d chain)) ≠ Filled →
  Forall (accounted chain t m) l → d ∉ l.
Proof.
  intros Ht Hs Hl Hin. destruct (proj1 (Forall_forall _ _) Hl d Hin) as [(a & Ha & Hf)|?]; [|lia].
  by rewrite Ha in Hs.
Qed.

Lemma execute_inv t st i st' :
  u64 (spoke_chain_id st) → relay_data_wf (instruction_relay i) → fills_inv t st →
  execute t st i = Ok st' → fills_inv t st' ∨ keccak_collision.
Proof.
  intros Hc Hd (Hwf & Hnd & Hacc) Hx. apply execute_ok in Hx. cbv zeta in Hx.
  set (d := instruction_relay i) in *.
  destruct Hx as [(Ht & Hs & r & addr & amount & ty & ->)|[(Ht & Hs & r & ->)|(Ht & ->)]].
  - pose proof (not_accounted _ _ _ _ _ Ht Hs Hacc) as Hnew.
    destruct (accounted_others _ t _
      (<[get_v3_relay_hash d (spoke_chain_id st) := {| status := Filled; relayer := r |}]> (fills st))
      _ _ Hc Hd Hwf (λ h Hne, lookup_insert_ne _ _ _ _ (not_eq_sym Hne)) ltac:(done) Hacc) as [Hall|?]; [|by right].
    left. unfold fills_inv. cbn. rewrite map_app. cbn [map fe_relay]. split_and!.
    + apply Forall_app. split; [done|]. by constructor.
    + apply NoDup_app. split_and!; [done| |apply NoDup_singleton].
      by intros x Hx ->%list_elem_of_singleton.
    + apply Forall_app. split; [done|]. constructor; [|done]. left.
      eexists. rewrite lookup_insert_eq. done.
  - assert (status (default empty_account (fills st !! get_v3_relay_hash d (spoke_chain_id st))) ≠ Filled) as Hs'
      by (by rewrite Hs).
    pose proof (not_accounted _ _ _ _ _ Ht Hs' Hacc) as Hnew.
    destruct (accounted_others _ t _
      (<[get_v3_relay_hash d (spoke_chain_id st) := {| status := RequestedSlowFill; relayer := r |}]> (fills st))
      _ _ Hc Hd Hwf (λ h Hne, lookup_insert_ne _ _ _ _ (not_eq_sym Hne)) ltac:(done) Hacc) as [Hall|?]; [|by right].
    by left.
  - destruct (accounted_others _ t _ (delete (get_v3_relay_hash d (spoke_chain_id st)) (fills st))
      _ _ Hc Hd Hwf (λ h Hne, lookup_delete_ne _ _ _ (not_eq_sym Hne)) (λ _, or_intror Ht) Hacc) as [Hall|?];
      [|by right]. by left.
Qed.

Lemma execute_chain t st i st' : execute t st i = Ok st' → spoke_chain_id st' = spoke_chain_id st.
Proof.
  intros Hx. apply execute_ok in Hx. cbv zeta in Hx.
  destruct Hx as [(_ & _ & ? & ? & ? & ? & ->)|[(_ & _ & ? & ->)|(_ & ->)]]; done.
Qed.

Lemma reachable_inv chain t st :
  u64 chain → reachable chain t st → (spoke_chain_id st = chain ∧ fills_inv t st) ∨ keccak_collision.
Proof.
  intros Hc. induction 1 as [t paused roots|t t' st _ IH Ht|t st i st' _ IH Hd Hx|t st st' _ IH Ha].
  - left. split; [done|]. split_and!; cbn; constructor.
  - destruct IH as [[Hch (Hwf & Hnd & Hacc)]|?]; [left|by right]. split; [done|]. split_and!; [done..|].
    eapply Forall_impl; [exact Hacc|]. intros d [?|?]; [by left|right; lia].
  - destruct IH as [[Hch Hi]|?]; [|by right]. rewrite <- Hch in Hc.
    destruct (execute_inv t st i st' Hc Hd Hi Hx) as [?|?]; [left|by right].
    split; [|done]. by rewrite (execute_chain _ _ _ _ Hx).
  - destruct IH as [[Hch Hi]|?]; [left|by right]. destruct Ha as (Hc' & Hf & Hl).
    split; [congruence|]. unfold fills_inv. by rewrite Hc', Hf, Hl.
Qed.
End Instructions.

(** ** Properties *)

(** C1. A relay is filled at most once.  In every state the program can
    reach, whatever instructions succeeded in whatever order (fast fills, slow
    fill requests, slow fills with any root bundle, and the closing of
    accounts, which makes room for a new one), no relay data has two
    [FilledV3Relay] events, unless two messages with the same keccak digest
    are exhibited. *)
Theorem relay_filled_once `{Keccak} `{Borsh} (chain t : Z) (st : fills_state) :
  u64 chain → reachable chain t st →
  NoDup (map fe_relay (filled_log st)) ∨ keccak_collision.
Proof. intros Hc Hr. destruct (reachable_inv chain t st Hc Hr) as [[_ (_ & ? & _)]|?]; [by left|by right]. Qed.

(** The account of a filled relay stays until its deadline passed: in a
    reachable state at a time up to the deadline of a relay with an event, its
    account says [Filled], so a second fill, a slow fill or a request fails
    (or two messages with the same keccak digest are exhibited). *)
Theorem filled_until_deadline `{Keccak} `{Borsh} (chain t : Z) (st : fills_state) (e : FilledV3Relay)
    (i : fill_instruction) :
  u64 chain → reachable chain t st → e ∈ filled_log st → t ≤ fill_deadline (fe_relay e) →
  instruction_relay i = fe_relay e →
  is_ok (execute t st i) = false ∨ keccak_collision.
Proof.
  intros Hc Hr He Ht Hi. destruct (reachable_inv chain t st Hc Hr) as [[_ (_ & _ & Hacc)]|?]; [left|by right].
  assert (fe_relay e ∈ map fe_relay (filled_log st)) as Hin.
  { apply list_elem_of_In, in_map. by apply list_elem_of_In. }
  destruct (execute t st i) as [st'|] eqn:Hx; [|done]. exfalso.
  apply execute_ok in Hx. cbv zeta in Hx. rewrite Hi in Hx.
  destruct Hx as [(_ & Hs & _)|[(_ & Hs & _)|(? & _)]]; [| |lia].
  - by apply (not_accounted _ _ _ _ _ Ht Hs Hacc).
  - apply (not_accounted _ _ _ _ _ Ht) in Hacc; [done|by rewrite Hs].
Qed.

(** ** Witnesses: a fill, and a state with the filled relay closed again *)

Definition no_fills : fills_state :=
  {| paused_fills := false; spoke_chain_id := 5; slow_relay_roots := ∅; fills := ∅; filled_log := [] |}.

Definition sample_signer : pubkey := replicate 32 x09.
Definition sample_hash : bytes := get_v3_relay_hash sample_relay 5.
Definition sample_fill : fill_instruction :=
  FillV3Relay sample_signer sample_hash sample_relay sample_signer false (Ok tt).
Definition sample_close : fill_instruction := CloseFillPda sample_signer sample_hash sample_relay.

Definition state_after (t : Z) (st : fills_state) (i : fill_instruction) : fills_state :=
  match execute t st i with Ok st' => st' | Err _ => st end.

Definition filled_state : fills_state := state_after 1699999999 no_fills sample_fill.
Definition closed_state : fills_state := state_after 1700000001 filled_state sample_close.

Lemma filled_reachable : reachable 5 1699999999 filled_state.
Proof.
  apply (reach_execute 5 1699999999 no_fills sample_fill).
  - apply (reach_start 5 1699999999 false ∅).
  - exact sample_relay_wf.
  - vm_compute. reflexivity.
Qed.

Lemma relay_filled_once_witness :
  length (filled_log closed_state) = 1%nat ∧ fills closed_state = ∅ ∧
  (NoDup (map fe_relay (filled_log closed_state)) ∨ keccak_collision).
Proof.
  split_and!; [vm_compute; reflexivity|vm_compute; reflexivity|].
  apply (relay_filled_once 5 1700000001 closed_state).
  - unfold u64. lia.
  - apply (reach_execute 5 1700000001 filled_state sample_close).
    + apply (reach_time 5 1699999999); [exact filled_reachable|lia].
    + exact sample_relay_wf.
    + vm_compute. reflexivity.
Defined.

Lemma filled_until_deadline_witness :
  is_ok (execute 1699999999 filled_state sample_fill) = false ∨ keccak_collision.
Proof.
  apply (filled_until_deadline 5 1699999999 filled_state
           {| fe_relay := sample_relay; fe_relayer := sample_signer; fe_updated_output_amount := 990;
              fe_fill_type := FastFill |}).
  - unfold u64. lia.
  - exact filled_reachable.
  - apply list_elem_of_In. vm_compute. left. reflexivity.
  - cbn. lia.
  - reflexivity.
Defined.
