(* ===== verification/SvmFillTokens.v ===== *)
(** * The Solana spoke pool: the tokens of a fill

    [instructions/fill.rs] and [instructions/slow_fill.rs] with their token
    accounts: the constraints on them, the transfer to the recipient and the
    state machine of [SvmFills] run as one transaction over the ledger of the
    token program. *)

From stdpp Require Import base gmap strings list.
From Stdlib Require Import ZArith Strings.Byte Lia.
From S2P Require Import Prelude Bytes Interfaces Consts SvmSpoke SvmUtils SvmFills.

(** What a fill moved: from an account to the one of the recipient, which is
    the same account when a relayer fills its own relay. *)
Record settlement := {
  se_event : FilledV3Relay;
  se_from : pubkey;
  se_to : pubkey
}.

Definition se_relay (s : settlement) : V3RelayData := fe_relay (se_event s).
Definition se_amount (s : settlement) : Z := fe_updated_output_amount (se_event s).

(** The fill accounts, the ledger, and the settlements so far, oldest first. *)
Record fill_pool (L : Type) := {
  fp_fills : fills_state;
  fp_ledger : L;
  settled : list settlement
}.
Arguments fp_fills {L}. Arguments fp_ledger {L}. Arguments settled {L}. Arguments Build_fill_pool {L}.

Definition InvalidMint : js_error := JsError "InvalidMint".
Definition ConstraintToken : js_error := JsError "ConstraintToken".

Inductive pool_instruction :=
| PoolFill (signer : pubkey) (relay_hash : bytes) (d : V3RelayData) (repayment_address : pubkey)
    (mint relayer_token_account recipient_token_account token_program : pubkey)
| PoolRequestSlowFill (signer : pubkey) (relay_hash : bytes) (d : V3RelayData)
| PoolExecuteSlow (relay_hash : bytes) (leaf : V3SlowFill) (root_bundle_id : Z) (proof : list bytes)
    (mint recipient_token_account vault token_program : pubkey)
| PoolClose (signer : pubkey) (relay_hash : bytes) (d : V3RelayData).

Section Instructions.
Context {L : Type} `{HK : Keccak} `{HB : Borsh} `{HT : TokenProgram L}.
(** The state account, which owns the vaults. *)
Context (state_account : pubkey).
Implicit Types (p : fill_pool L) (l : L).

(** [mint::token_program] and [address = relay_data.output_token]. *)
Definition check_mint l (mint token_program : pubkey) (d : V3RelayData) : result unit :=
  let? _ := require (bool_decide (mint_program l mint = Some token_program)) ConstraintToken in
  require (bool_decide (mint = output_token d)) InvalidMint.

(** [token::mint], [token::authority] and [token::token_program]. *)
Definition check_token_account l (account mint authority token_program : pubkey) : result unit :=
  require (bool_decide (token_account l account =
    Some {| tk_mint := mint; tk_authority := authority; tk_program := token_program |})) ConstraintToken.

(** The associated token account of an owner. *)
Definition check_associated l (account mint owner token_program : pubkey) : result unit :=
  let? _ := check_token_account l account mint owner token_program in
  require (bool_decide (account = associated_token mint owner token_program)) ConstraintToken.

(** A transaction of the state machine and the token program: all or nothing. *)
Definition settle (st' : result fills_state) (l' : result L) p (from to : pubkey) : result (fill_pool L) :=
  let? st := st' in
  let? l := l' in
  Ok {| fp_fills := st; fp_ledger := l;
        settled := settled p ++ map (λ e, {| se_event := e; se_from := from; se_to := to |})
                                  (drop (length (filled_log (fp_fills p))) (filled_log st)) |}.

Definition outcome_of {A} (r : result A) : result unit := let? _ := r in Ok tt.

Definition pool_fill (t : Z) p (signer : pubkey) (relay_hash : bytes) (d : V3RelayData) (repayment_address : pubkey)
    (mint relayer_token_account recipient_token_account token_program : pubkey) : result (fill_pool L) :=
  let l := fp_ledger p in
  let? _ := require (negb (paused_fills (fp_fills p))) FillsArePaused in
  let? _ := check_mint l mint token_program d in
  let? _ := check_token_account l relayer_token_account mint signer token_program in
  let? _ := check_associated l recipient_token_account mint (recipient d) token_program in
  let same := bool_decide (relayer_token_account = recipient_token_account) in
  let l' := if same then Ok l
            else token_transfer l relayer_token_account recipient_token_account mint signer (output_amount d) in
  settle (fill_v3_relay t (fp_fills p) signer relay_hash d repayment_address same (outcome_of l')) l' p
    relayer_token_account recipient_token_account.

Definition pool_execute_slow (t : Z) p (relay_hash : bytes) (leaf : V3SlowFill) (root_bundle_id : Z) (proof : list bytes)
    (mint recipient_token_account vault token_program : pubkey) : result (fill_pool L) :=
  let l := fp_ledger p in
  let d := relay_data leaf in
  let? _ := from_option_err AccountNotInitialized (slow_relay_roots (fp_fills p) !! root_bundle_id) in
  let? _ := from_option_err AccountNotInitialized (fills (fp_fills p) !! relay_hash) in
  let? _ := require (is_relay_hash_valid relay_hash d (fp_fills p)) InvalidRelayHash in
  let? _ := check_mint l mint token_program d in
  let? _ := check_associated l recipient_token_account mint (recipient d) token_program in
  let? _ := check_associated l vault mint state_account token_program in
  let l' := token_transfer l vault recipient_token_account mint state_account (updated_output_amount leaf) in
  settle (execute_v3_slow_relay_leaf t (fp_fills p) relay_hash leaf root_bundle_id proof (outcome_of l')) l' p
    vault recipient_token_account.

(** An instruction without tokens. *)
Definition without_tokens p (st' : result fills_state) : result (fill_pool L) :=
  let? st := st' in Ok {| fp_fills := st; fp_ledger := fp_ledger p; settled := settled p |}.

Definition pool_execute (t : Z) p (i : pool_instruction) : result (fill_pool L) :=
  match i with
  | PoolFill signer h d addr mint relayer_account recipient_account tp =>
      pool_fill t p signer h d addr mint relayer_account recipient_account tp
  | PoolRequestSlowFill signer h d => without_tokens p (request_v3_slow_fill t (fp_fills p) signer h d)
  | PoolExecuteSlow h leaf id proof mint recipient_account vault tp =>
      pool_execute_slow t p h leaf id proof mint recipient_account vault tp
  | PoolClose signer h d => without_tokens p (close_fill_pda t (fp_fills p) signer h d)
  end.

Definition pool_relay (i : pool_instruction) : V3RelayData :=
  match i with
  | PoolFill _ _ d _ _ _ _ _ | PoolRequestSlowFill _ _ d | PoolClose _ _ d => d
  | PoolExecuteSlow _ leaf _ _ _ _ _ _ => relay_data leaf
  end.

(** States reached at a time from a ledger [l0] and no fills; [x] is what each
    token account gained outside the fills (deposits, refunds, mints and
    transfers of anybody). *)
Inductive pool_reachable (chain : Z) (l0 : L) : Z → (pubkey → Z) → fill_pool L → Prop :=
| pr_start t paused roots :
    pool_reachable chain l0 t (λ _, 0)
      {| fp_fills := {| paused_fills := paused; spoke_chain_id := chain; slow_relay_roots := roots;
                        fills := ∅; filled_log := [] |}; fp_ledger := l0; settled := [] |}
| pr_time t t' x p : pool_reachable chain l0 t x p → t ≤ t' → pool_reachable chain l0 t' x p
| pr_execute t x p i p' :
    pool_reachable chain l0 t x p → relay_data_wf (pool_relay i) → pool_execute t p i = Ok p' →
    pool_reachable chain l0 t x p'
| pr_admin t x p st :
    pool_reachable chain l0 t x p → administered (fp_fills p) st →
    pool_reachable chain l0 t x {| fp_fills := st; fp_ledger := fp_ledger p; settled := settled p |}
| pr_tokens t x x' p l :
    pool_reachable chain l0 t x p → (∀ k, x' k = x k + (balance l k - balance (fp_ledger p) k)) →
    pool_reachable chain l0 t x' {| fp_fills := fp_fills p; fp_ledger := l; settled := settled p |}.

(** ** What the ledger says *)
Definition moved (k : pubkey) (s : settlement) : Z :=
  (if decide (se_to s = k) then se_amount s else 0) - (if decide (se_from s = k) then se_amount s else 0).

Definition net (k : pubkey) (ss : list settlement) : Z := foldr (λ s acc, moved k s + acc) 0 ss.

(** A settlement as promised: to the recipient's own account of the output
    token; the output amount from an account of the relayer, or from the vault
    for a slow fill. *)
Definition pays_recipient (s : settlement) : Prop :=
  ∃ tp, se_to s = associated_token (output_token (se_relay s)) (recipient (se_relay s)) tp ∧
    match fe_fill_type (se_event s) with
    | SlowFill => se_from s = associated_token (output_token (se_relay s)) state_account tp
    | FastFill | ReplacedSlowFill => se_amount s = output_amount (se_relay s)
    end.
End Instructions.

(** ** Lemmas *)
Section Lemmas.
Context {L : Type} `{HK : Keccak} `{HB : Borsh} `{HT : TokenProgram L} (state_account : pubkey).
Implicit Types (p : fill_pool L) (l : L).

Lemma net_app k ss ss' : net k (ss ++ ss') = net k ss + net k ss'.
Proof. induction ss as [|s ss IH]; cbn; [done|]. unfold net in *. cbn. lia. Qed.

Lemma settle_ok (r : result fills_state) (r' : result L) p from to p' : settle r r' p from to = Ok p' →
  r = Ok (fp_fills p') ∧ r' = Ok (fp_ledger p') ∧
  settled p' = settled p ++ map (λ e, {| se_event := e; se_from := from; se_to := to |})
                              (drop (length (filled_log (fp_fills p))) (filled_log (fp_fills p'))).
Proof.
  unfold settle. destruct r as [st|]; [|done]. destruct r' as [l|]; [|done]. cbn. by intros [= <-].
Qed.

Lemma check_associated_ok l account mint owner tp : check_associated l account mint owner tp = Ok tt →
  account = associated_token mint owner tp.
Proof.
  unfold check_associated. destruct (check_token_account _ _ _ _ _); [|done]. cbn [result_bind].
  destruct (bool_decide _) eqn:Hb; [|done]. by apply bool_decide_eq_true in Hb.
Qed.

Lemma check_mint_ok l mint tp d : check_mint l mint tp d = Ok tt → mint = output_token d.
Proof.
  unfold check_mint. destruct (bool_decide (mint_program _ _ = _)); [|done]. cbn [result_bind require].
  destruct (bool_decide _) eqn:Hb; [|done]. by apply bool_decide_eq_true in Hb.
Qed.

(** The event of a fill. *)
Lemma fill_event t st signer h d addr same tr st' : fill_v3_relay t st signer h d addr same tr = Ok st' →
  ∃ a ty, ty ≠ SlowFill ∧ st' = with_event (with_account st h a)
    {| fe_relay := d; fe_relayer := addr; fe_updated_output_amount := output_amount d; fe_fill_type := ty |}.
Proof.
  intros Hx. unfold fill_v3_relay in Hx. passes Hx.
  match goal with Hty : _ = Ok ?ty |- _ => exists {| status := Filled; relayer := signer |}, ty end.
  split; [|congruence]. destruct (status _); congruence.
Qed.

Lemma slow_event t st h leaf id proof tr st' : execute_v3_slow_relay_leaf t st h leaf id proof tr = Ok st' →
  ∃ a, st' = with_event (with_account st h a)
    {| fe_relay := relay_data leaf; fe_relayer := default_pubkey;
       fe_updated_output_amount := updated_output_amount leaf; fe_fill_type := SlowFill |}.
Proof. intros Hx. unfold execute_v3_slow_relay_leaf in Hx. passes Hx. injection Hx as <-. by eexists. Qed.

(** A transfer between the accounts of a settlement moves its amount. *)
Lemma transfer_moves l from to mint authority amount l1 s k :
  token_transfer l from to mint authority amount = Ok l1 → se_from s = from → se_to s = to → se_amount s = amount →
  balance l1 k = balance l k + moved k s.
Proof.
  intros (_ & _ & Hb)%token_transfer_spec <- <- <-. rewrite Hb. unfold moved.
  destruct (decide (k = se_from s)), (decide (se_from s = k)), (decide (k = se_to s)), (decide (se_to s = k));
    congruence || lia.
Qed.

(** An instruction is one of the state machine, and moves what it settles. *)
Lemma pool_execute_ok t p i p' : pool_execute state_account t p i = Ok p' →
  (∃ fi, instruction_relay fi = pool_relay i ∧ execute t (fp_fills p) fi = Ok (fp_fills p')) ∧
  ((filled_log (fp_fills p') = filled_log (fp_fills p) ∧ settled p' = settled p ∧ fp_ledger p' = fp_ledger p) ∨
   ∃ s, filled_log (fp_fills p') = filled_log (fp_fills p) ++ [se_event s] ∧ settled p' = settled p ++ [s] ∧
     pays_recipient state_account s ∧ ∀ k, balance (fp_ledger p') k = balance (fp_ledger p) k + moved k s).
Proof.
  destruct i as [signer h d addr mint ra rt tp|signer h d|h leaf id proof mint rt vault tp|signer h d];
    cbn [pool_execute pool_relay]; intros Hx.
  - unfold pool_fill in Hx. passes Hx. apply settle_ok in Hx as (Hf & Hl & Hs). split.
    { by exists (FillV3Relay signer h d addr (bool_decide (ra = rt)) (outcome_of (if bool_decide (ra = rt) then Ok (fp_ledger p)
        else token_transfer (fp_ledger p) ra rt mint signer (output_amount d)))). }
    right. apply fill_event in Hf as (acct & ty & Hty & Hf).
    match goal with Hm : check_mint _ _ _ _ = Ok ?u |- _ => destruct u; apply check_mint_ok in Hm; subst mint end.
    match goal with Hm : check_associated _ _ _ _ _ = Ok ?u |- _ => destruct u; apply check_associated_ok in Hm end.
    rewrite Hf in Hs |- *. cbn [filled_log with_event with_account] in Hs |- *.
    rewrite drop_app_length in Hs. cbn [map] in Hs.
    eexists. split; [|split; [exact Hs|]]; [done|]. split.
    + exists tp. split; [done|]. by destruct ty.
    + intros k. case_bool_decide as Hsame.
      * injection Hl as <-. unfold moved. cbn. rewrite Hsame. destruct (decide _); lia.
      * by eapply transfer_moves.
  - unfold without_tokens in Hx. destruct (request_v3_slow_fill _ _ _ _ _) as [st|] eqn:Hr; [|done]. injection Hx as <-.
    split; [by exists (RequestV3SlowFill signer h d)|]. left. cbn. split; [|done].
    unfold request_v3_slow_fill in Hr. passes Hr. by injection Hr as <-.
  - unfold pool_execute_slow in Hx. passes Hx. apply settle_ok in Hx as (Hf & Hl & Hs). split.
    { by exists (ExecuteV3SlowRelayLeaf h leaf id proof
        (outcome_of (token_transfer (fp_ledger p) vault rt mint state_account (updated_output_amount leaf)))). }
    right. apply slow_event in Hf as (acct & Hf).
    match goal with Hm : check_mint _ _ _ _ = Ok ?u |- _ => destruct u; apply check_mint_ok in Hm; subst mint end.
    repeat match goal with Hm : check_associated _ _ _ _ _ = Ok ?u |- _ => destruct u; apply check_associated_ok in Hm end.
    rewrite Hf in Hs |- *. cbn [filled_log with_event with_account] in Hs |- *.
    rewrite drop_app_length in Hs. cbn [map] in Hs.
    eexists. split; [|split; [exact Hs|]]; [done|]. split; [by exists tp|].
    intros k. by eapply transfer_moves.
  - unfold without_tokens in Hx. destruct (close_fill_pda _ _ _ _ _) as [st|] eqn:Hr; [|done]. injection Hx as <-.
    split; [by exists (CloseFillPda signer h d)|]. left. cbn. split; [|done].
    unfold close_fill_pda in Hr. passes Hr. by injection Hr as <-.
Qed.

(** Everything the reachable states have in common. *)
Lemma pool_invariant chain l0 t x p : pool_reachable state_account chain l0 t x p →
  reachable chain t (fp_fills p) ∧ map se_event (settled p) = filled_log (fp_fills p) ∧
  Forall (pays_recipient state_account) (settled p) ∧
  ∀ k, balance (fp_ledger p) k = balance l0 k + x k + net k (settled p).
Proof.
  induction 1 as [t paused roots|t t' x p _ (Hr & Hm & Hp & Hb) Ht|t x p i p' _ (Hr & Hm & Hp & Hb) Hwf Hx
                 |t x p st _ (Hr & Hm & Hp & Hb) Ha|t x x' p l _ (Hr & Hm & Hp & Hb) Hx].
  - split_and!; [constructor|done|constructor|]. intros k. cbn. lia.
  - split_and!; [by eapply reach_time|done..].
  - apply pool_execute_ok in Hx as ((fi & Hfi & Hex) & Hcase).
    split; [eapply reach_execute; [exact Hr|by rewrite Hfi|exact Hex]|].
    destruct Hcase as [(-> & -> & ->)|(s & -> & -> & Hs & Hmove)]; [done|]. split_and!.
    + by rewrite map_app, Hm.
    + apply Forall_app. by split; [|constructor].
    + intros k. rewrite Hmove, net_app, Hb. cbn. lia.
  - cbn. destruct Ha as (Hc & Hf & Hlog). split_and!; [by eapply reach_admin|congruence|done..].
  - cbn [fp_fills fp_ledger settled]. split_and!; [done..|]. intros k. rewrite Hx. specialize (Hb k). lia.
Qed.
End Lemmas.

(** ** Property *)

(** C5. Recipients are paid once, and nothing else moves.  In every state the
    pool can reach, whatever instructions, administration and other token
    transfers happened in between: there is one settlement per [FilledV3Relay]
    event, in order; no relay has two of them (or two messages with one keccak
    digest are exhibited); each goes to the recipient's associated account of
    the output token, with the output amount for a fast fill and from the
    pool's vault for a slow fill; and every token account holds what it held
    at first, plus what it got outside the fills, plus the settlements to it
    less the settlements from it. *)
Theorem recipients_paid_once {L : Type} `{Keccak} `{Borsh} `{TokenProgram L} (state_account : pubkey)
    (chain t : Z) (l0 : L) (x : pubkey → Z) (p : fill_pool L) :
  u64 chain → pool_reachable state_account chain l0 t x p →
  map se_event (settled p) = filled_log (fp_fills p) ∧
  (NoDup (map se_relay (settled p)) ∨ keccak_collision) ∧
  Forall (pays_recipient state_account) (settled p) ∧
  ∀ k, balance (fp_ledger p) k = balance l0 k + x k + net k (settled p).
Proof.
  intros Hc Hr. destruct (pool_invariant _ _ _ _ _ _ Hr) as (Hreach & Hm & Hp & Hb). split_and!; [done| |done..].
  destruct (reachable_inv chain t _ Hc Hreach) as [[_ (_ & Hnd & _)]|?]; [left|by right].
  rewrite <- Hm, map_map in Hnd. exact Hnd.
Qed.

(** A fill of the sample relay from a funded account. *)
Definition ft_program : pubkey := replicate 32 x0c.
Definition ft_relayer : pubkey := replicate 32 x0d.
Definition ft_state : pubkey := replicate 32 x0e.
Definition ft_recipient : pubkey := toy_ata (output_token sample_relay) (recipient sample_relay) ft_program.

Definition ft_ledger : toy_ledger :=
  {| toy_mints := {[output_token sample_relay := ft_program]};
     toy_accounts :=
       <[ft_relayer := ({| tk_mint := output_token sample_relay; tk_authority := sample_signer; tk_program := ft_program |}, 5000)]>
       (<[ft_recipient := ({| tk_mint := output_token sample_relay; tk_authority := recipient sample_relay;
                              tk_program := ft_program |}, 1)]> ∅) |}.

Definition ft_start : fill_pool toy_ledger := {| fp_fills := no_fills; fp_ledger := ft_ledger; settled := [] |}.

Definition ft_fill : pool_instruction :=
  PoolFill sample_signer sample_hash sample_relay sample_signer (output_token sample_relay) ft_relayer ft_recipient ft_program.

Definition ft_filled : fill_pool toy_ledger := result_default ft_start (pool_execute ft_state 1699999999 ft_start ft_fill).

Lemma recipients_paid_once_witness :
  balance (fp_ledger ft_filled) ft_recipient = 991 ∧ balance (fp_ledger ft_filled) ft_relayer = 4010 ∧
  (NoDup (map se_relay (settled ft_filled)) ∨ keccak_collision).
Proof.
  destruct (recipients_paid_once ft_state 5 1699999999 ft_ledger (λ _, 0) ft_filled) as (_ & Hnd & _ & Hb).
  - unfold u64. lia.
  - apply (pr_execute _ 5 ft_ledger 1699999999 (λ _, 0) ft_start ft_fill).
    + apply (pr_start _ 5 ft_ledger 1699999999 false ∅).
    + exact sample_relay_wf.
    + vm_compute. reflexivity.
  - split_and!; [rewrite Hb; vm_compute; reflexivity..|exact Hnd].
Defined.
