(* ===== verification/MerkleTrees.v ===== *)
(** * The Merkle tree of the scripts

    [utils/MerkleTree.ts] re-exports the [MerkleTree] of [@uma/common], which
    hashes the leaves with a function of the caller and builds proofs for
    sorted-pair hashing: the proofs are those [process_proof] checks.  The
    instance below builds a tree with one leaf per level. *)

From stdpp Require Import base strings list.
From Stdlib Require Import ZArith Strings.Byte Lia.
From S2P Require Import Prelude Bytes JsText Interfaces SvmSpoke.

(** [hashFn] gives the 0x-prefixed text of the 32 bytes [h]. *)
Definition hashes_to {T} (hashFn : T → result string) (leaf : T) (h : bytes) : Prop :=
  hashFn leaf = Ok ("0x" +:+ to_hex h) ∧ length h = 32%nat.

(** [new MerkleTree(leaves, hashFn)] with [getRoot()] and [getProof(leaf)]. *)
Class UmaMerkleTree `{Keccak} := {
  getRoot {T : Type} : list T → (T → result string) → result bytes;
  getProof {T : Type} : list T → (T → result string) → T → result (list bytes);
  getProof_verifies {T : Type} (leaves : list T) hashFn leaf h :
    Forall (λ l, ∃ h', hashes_to hashFn l h') leaves → leaf ∈ leaves → hashes_to hashFn leaf h →
    ∃ root proof, getRoot leaves hashFn = Ok root ∧ getProof leaves hashFn leaf = Ok proof ∧
      length root = 32%nat ∧ process_proof proof h = root;
  (* the proof of the only leaf is empty *)
  getProof_single {T : Type} (leaf : T) hashFn proof :
    getProof [leaf] hashFn leaf = Ok proof → proof = []
}.

(** ** A concrete tree *)
Section Comb.
Context `{HK : Keccak}.

Fixpoint comb (h : bytes) (hs : list bytes) : mtree :=
  match hs with
  | [] => MLeaf h
  | h' :: hs' => MNode (MLeaf h) (comb h' hs')
  end.

Definition leaf_digest {T} (hashFn : T → result string) (leaf : T) : result bytes :=
  let? h := hashFn leaf in Ok (buffer_from_hex (str_slice_from h 2)).

Definition comb_of {T} (leaves : list T) (hashFn : T → result string) : result mtree :=
  let? hs := map_result (leaf_digest hashFn) leaves in
  match hs with [] => Err (JsError "no leaves") | h :: hs' => Ok (comb h hs') end.

Definition comb_root {T} (leaves : list T) (hashFn : T → result string) : result bytes :=
  let? t := comb_of leaves hashFn in Ok (mroot t).

Definition comb_proof {T} (leaves : list T) (hashFn : T → result string) (leaf : T) : result (list bytes) :=
  let? t := comb_of leaves hashFn in
  let? h := leaf_digest hashFn leaf in
  from_option_err (JsError "leaf not found")
    (snd <$> head (filter (λ p, fst p = h) (mproofs t))).

Lemma comb_wf h hs : Forall (λ h, length h = 32%nat) (h :: hs) → mwf (comb h hs).
Proof.
  revert h. induction hs as [|h' hs IH]; intros h Hh; apply Forall_cons in Hh as [Hh Hhs]; cbn; auto.
Qed.

Lemma comb_complete h hs x : x ∈ h :: hs → ∃ p, (x, p) ∈ mproofs (comb h hs).
Proof.
  revert h. induction hs as [|h' hs IH]; intros h Hx; cbn.
  - apply list_elem_of_singleton in Hx as ->. exists []. by left.
  - apply elem_of_cons in Hx as [->|Hx].
    + exists [mroot (comb h' hs)]. by left.
    + destruct (IH h' Hx) as [p Hp]. exists (p ++ [h]). right.
      apply list_elem_of_fmap. by exists (x, p).
Qed.

Lemma leaf_digest_ok {T} (hashFn : T → result string) leaf h :
  hashes_to hashFn leaf h → leaf_digest hashFn leaf = Ok h.
Proof.
  intros [Hh _]. unfold leaf_digest. rewrite Hh. cbn [result_bind]. f_equal.
  change (str_slice_from ("0x" +:+ to_hex h) 2) with (text (chars (to_hex h))).
  by rewrite text_chars, buffer_from_to_hex.
Qed.

Lemma comb_verifies {T} (leaves : list T) hashFn leaf h :
  Forall (λ l, ∃ h', hashes_to hashFn l h') leaves → leaf ∈ leaves → hashes_to hashFn leaf h →
  ∃ root proof, comb_root leaves hashFn = Ok root ∧ comb_proof leaves hashFn leaf = Ok proof ∧
    length root = 32%nat ∧ process_proof proof h = root.
Proof.
  intros Hall Hin Hh.
  assert (∃ hs, map_result (leaf_digest hashFn) leaves = Ok hs ∧ Forall (λ h, length h = 32%nat) hs ∧ h ∈ hs)
    as (hs & Hmap & Hlen & Hhs).
  { induction Hall as [|l ls [h' Hl] Hall IH]; [by apply not_elem_of_nil in Hin|].
    cbn. rewrite (leaf_digest_ok _ _ _ Hl). cbn [result_bind].
    assert (∃ hs, map_result (leaf_digest hashFn) ls = Ok hs ∧ Forall (λ h, length h = 32%nat) hs) as (hs & Hmap & Hls).
    { clear -Hall. induction Hall as [|l ls [h' Hl] Hall (hs & Hhs & Hf)]; [by exists []|].
      exists (h' :: hs). cbn. rewrite (leaf_digest_ok _ _ _ Hl), Hhs. split; [done|]. constructor; [apply Hl|done]. }
    rewrite Hmap in *. cbn. exists (h' :: hs). split_and!; [done|constructor; [apply Hl|done]|].
    apply elem_of_cons in Hin as [->|Hin].
    - apply leaf_digest_ok in Hl, Hh. rewrite Hl in Hh. injection Hh as <-. by left.
    - right. by destruct (IH Hin) as (hs' & [= <-] & _ & Hin'). }
  destruct hs as [|h0 hs]; [by apply not_elem_of_nil in Hhs|].
  pose proof (comb_wf h0 hs Hlen) as Hwf. destruct (comb_complete h0 hs h Hhs) as [p Hp].
  unfold comb_root, comb_proof, comb_of. rewrite Hmap. cbn [result_bind].
  rewrite (leaf_digest_ok _ _ _ Hh). cbn [result_bind].
  destruct (filter (λ p, fst p = h) (mproofs (comb h0 hs))) as [|[h1 q] qs] eqn:Hf.
  - exfalso. eapply (not_elem_of_nil (h, p)). rewrite <- Hf. by apply list_elem_of_filter.
  - assert ((h1, q) ∈ filter (λ p, fst p = h) (mproofs (comb h0 hs))) as Hq by (rewrite Hf; by left).
    apply list_elem_of_filter in Hq as [Heq Hq]. cbn in Heq. subst h1.
    exists (mroot (comb h0 hs)), q. split_and!; try done; [by apply length_mroot|].
    by apply mproofs_complete.
Qed.

Lemma comb_single {T} (leaf : T) hashFn proof : comb_proof [leaf] hashFn leaf = Ok proof → proof = [].
Proof.
  unfold comb_proof, comb_of. cbn. destruct (leaf_digest hashFn leaf) as [h|]; [|done].
  cbn. destruct (decide (h = h)); [|done]. cbn. congruence.
Qed.

#[export] Instance comb_tree : UmaMerkleTree :=
  {| getRoot _ := comb_root; getProof _ := comb_proof; getProof_verifies _ := comb_verifies;
     getProof_single _ := comb_single |}.
End Comb.
