(* ===== verification/SampleTree.v ===== *)
(** * scripts/buildSampleTree.ts

    The script prints, for pool rebalance, relayer refund and slow relay
    leaves, the leaves as tuples, the Merkle root and a proof per leaf, to test
    the hub and spoke pools.  The ABI encoder of ethers and the parameter types
    it takes from the contracts are parameters; the tree is the class of
    [MerkleTrees]. *)

From stdpp Require Import base strings list.
From Stdlib Require Import ZArith Ascii Strings.Byte Lia.
From S2P Require Import Prelude Bytes JsText Interfaces SvmSpoke MerkleTrees Utils.

(** The constants at the head of the script; amounts are numbers, as text. *)
Record sample_config := {
  POOL_REBALANCE_LEAF_COUNT : nat;
  RELAYER_REFUND_LEAF_COUNT : nat;
  SLOW_RELAY_LEAF_COUNT : nat;
  POOL_REBALANCE_NET_SEND_AMOUNT : string;
  RELAYER_REFUND_AMOUNT_TO_RETURN : string;
  L1_TOKEN : string;
  L2_TOKEN : string;
  DECIMALS : Z;
  RELAYER_REFUND_ADDRESS_TO_REFUND : string;
  RELAYER_REFUND_AMOUNT_TO_REFUND : string;
  SLOW_RELAY_RECIPIENT_ADDRESS : string;
  SLOW_RELAY_AMOUNT : string;
  SPOKE_POOL_CHAIN_ID : Z
}.

Definition script_config : sample_config :=
  {| POOL_REBALANCE_LEAF_COUNT := 1;
     RELAYER_REFUND_LEAF_COUNT := 1;
     SLOW_RELAY_LEAF_COUNT := 1;
     POOL_REBALANCE_NET_SEND_AMOUNT := "0.1";
     RELAYER_REFUND_AMOUNT_TO_RETURN := "0.1";
     L1_TOKEN := "0x40153ddfad90c49dbe3f5c9f96f2a5b25ec67461";
     L2_TOKEN := "0x40153ddfad90c49dbe3f5c9f96f2a5b25ec67461";
     DECIMALS := 18;
     RELAYER_REFUND_ADDRESS_TO_REFUND := "0x9a8f92a830a5cb89a3816e3d267cb7791c16b04d";
     RELAYER_REFUND_AMOUNT_TO_REFUND := "0.1";
     SLOW_RELAY_RECIPIENT_ADDRESS := "0x9a8f92a830a5cb89a3816e3d267cb7791c16b04d";
     SLOW_RELAY_AMOUNT := "0.1";
     SPOKE_POOL_CHAIN_ID := 5 |}.

(** ** Leaves: objects, as the list of their properties in creation order *)
Inductive leaf_value :=
| VNum (n : Z)                    (* a number or a big number *)
| VText (s : string)
| VNums (l : list Z)
| VTexts (l : list string)
| VObject (fields : list (string * leaf_value)).

Abbreviation leaf_object := (list (string * leaf_value)).

Definition quote : string := String (ascii_of_nat 34) EmptyString.
Definition quoted (s : string) : string := quote +:+ s +:+ quote.
Definition json_array (l : list string) : string := "[" +:+ String.concat "," l +:+ "]".

(** [x.toString()], or the array of its elements' texts, as JSON; the texts
    are numbers and addresses, so nothing is escaped. *)
Definition tuple_entry (v : leaf_value) : string :=
  match v with
  | VNum n => quoted (decimal n)
  | VText s => quoted s
  | VNums l => json_array (map (λ n, quoted (decimal n)) l)
  | VTexts l => json_array (map quoted l)
  | VObject _ => quoted "[object Object]"
  end.

Definition tuplelifyLeaf (leaf : leaf_object) : string := json_array (map (λ f, tuple_entry (snd f)) leaf).

(** What the script prints about one tree. *)
Record tree_report := { tuples : list string; hex_root : string; hex_proofs : list (list string) }.

Section Script.
Context `{HK : Keccak} `{HM : !UmaMerkleTree} `{HN : EthersNumbers}.
(** [defaultAbiCoder.encode([paramType], [leaf])] and
    [getParamType("MerkleLibTest", function, parameter)]. *)
Context {P : Type} (abi_encode : option P → leaf_object → result bytes)
  (param_type : string → string → result (option P)).
Context (cfg : sample_config).

Definition hashFn (paramType : option P) (input : leaf_object) : result string :=
  let? data := abi_encode paramType input in Ok ("0x" +:+ to_hex (keccak data)).

Definition hex_of (b : bytes) : string := "0x" +:+ to_hex b.

(** The tree of the leaves, its root and the proof of every leaf. *)
Definition report_tree (leaves : list leaf_object) (tuple_of : leaf_object → string)
    (functionName paramName : string) : result tree_report :=
  let? paramType := param_type functionName paramName in
  let? root := getRoot leaves (hashFn paramType) in
  let? proofs := map_result (getProof leaves (hashFn paramType)) leaves in
  Ok {| tuples := map tuple_of leaves; hex_root := hex_of root; hex_proofs := map (map hex_of) proofs |}.

Definition amount_of (num : string) : result Z := toBNWeiWithDecimals num (DECIMALS cfg).

Definition pool_rebalance_leaf (i : nat) : result leaf_object :=
  let? chainId := toBN (decimal (SPOKE_POOL_CHAIN_ID cfg)) in
  let? zero := toBN "0" in
  let? net := amount_of (POOL_REBALANCE_NET_SEND_AMOUNT cfg) in
  let? leafId := toBN (decimal (Z.of_nat i)) in
  Ok [("chainId", VNum chainId); ("bundleLpFees", VNums [zero]); ("netSendAmounts", VNums [net]);
      ("runningBalances", VNums [zero]); ("groupIndex", VNum zero); ("leafId", VNum leafId);
      ("l1Tokens", VTexts [L1_TOKEN cfg])]%string.

Definition relayer_refund_leaf (i : nat) : result leaf_object :=
  let? amountToReturn := amount_of (RELAYER_REFUND_AMOUNT_TO_RETURN cfg) in
  let? chainId := toBN (decimal (SPOKE_POOL_CHAIN_ID cfg)) in
  let? refund := amount_of (RELAYER_REFUND_AMOUNT_TO_REFUND cfg) in
  let? leafId := toBN (decimal (Z.of_nat i)) in
  Ok [("amountToReturn", VNum amountToReturn); ("chainId", VNum chainId); ("refundAmounts", VNums [refund]);
      ("leafId", VNum leafId); ("l2TokenAddress", VText (L2_TOKEN cfg));
      ("refundAddresses", VTexts [RELAYER_REFUND_ADDRESS_TO_REFUND cfg])]%string.

Definition zeroAddress : string := "0x0000000000000000000000000000000000000000".

(** [now] is [Date.now()], in milliseconds. *)
Definition slow_relay_leaf (now : Z) (i : nat) : result leaf_object :=
  let? inputAmount := amount_of (SLOW_RELAY_AMOUNT cfg) in
  let? outputAmount := amount_of (SLOW_RELAY_AMOUNT cfg) in
  let? updatedOutputAmount := amount_of (SLOW_RELAY_AMOUNT cfg) in
  Ok [("relayData", VObject
        [("depositor", VText (SLOW_RELAY_RECIPIENT_ADDRESS cfg));
         ("recipient", VText (SLOW_RELAY_RECIPIENT_ADDRESS cfg));
         ("exclusiveRelayer", VText zeroAddress); ("inputToken", VText (L1_TOKEN cfg));
         ("outputToken", VText (L2_TOKEN cfg)); ("inputAmount", VNum inputAmount);
         ("outputAmount", VNum outputAmount); ("originChainId", VNum (SPOKE_POOL_CHAIN_ID cfg));
         ("fillDeadline", VNum (now / 1000 + 14400)); ("exclusivityDeadline", VNum 0);
         ("depositId", VNum (Z.of_nat i)); ("message", VText "0x")]);
      ("updatedOutputAmount", VNum updatedOutputAmount); ("chainId", VNum (SPOKE_POOL_CHAIN_ID cfg))]%string.

Definition relay_data_of (leaf : leaf_object) : leaf_object :=
  match js_lookup leaf "relayData"%string with Some (VObject d) => d | _ => [] end.

(** The leaves of one kind; none are built when the count is zero. *)
Definition sample_tree (count : nat) (leaf : nat → result leaf_object) (tuple_of : leaf_object → string)
    (functionName paramName : string) : result (option tree_report) :=
  if (0 <? count)%nat then
    let? leaves := map_result leaf (seq 0 count) in
    let? r := report_tree leaves tuple_of functionName paramName in
    Ok (Some r)
  else Ok None.

(** [now i] is the clock when the slow relay leaf [i] is built. *)
Definition main (now : nat → Z) : result (list (option tree_report)) :=
  let? pool := sample_tree (POOL_REBALANCE_LEAF_COUNT cfg) pool_rebalance_leaf tuplelifyLeaf
                 "verifyPoolRebalance" "rebalance" in
  let? refund := sample_tree (RELAYER_REFUND_LEAF_COUNT cfg) relayer_refund_leaf tuplelifyLeaf
                   "verifyRelayerRefund" "refund" in
  let? slow := sample_tree (SLOW_RELAY_LEAF_COUNT cfg) (λ i, slow_relay_leaf (now i) i)
                 (λ l, tuplelifyLeaf (relay_data_of l)) "verifyV3SlowRelayFulfillment" "slowFill" in
  Ok [pool; refund; slow].
End Script.

(** * Properties *)
Section Verifies.
Context `{HK : Keccak} `{HM : !UmaMerkleTree} `{HN : EthersNumbers}.
Context {P : Type} (abi_encode : option P → leaf_object → result bytes).

(** A report whose every proof leads from its leaf's hash to its root. *)
Definition report_verifies (ty : option P) (leaves : list leaf_object) (tuple_of : leaf_object → string)
    (r : tree_report) : Prop :=
  tuples r = map tuple_of leaves ∧
  ∃ root proofs, hex_root r = hex_of root ∧ hex_proofs r = map (map hex_of) proofs ∧
    Forall2 (λ leaf proof, ∃ data, abi_encode ty leaf = Ok data ∧ process_proof proof (keccak data) = root)
      leaves proofs.

Lemma report_tree_verifies param_type ty leaves tuple_of f p :
  leaves ≠ [] → param_type f p = Ok ty → Forall (λ l, is_ok (abi_encode ty l) = true) leaves →
  ∃ r, report_tree abi_encode param_type leaves tuple_of f p = Ok r ∧ report_verifies ty leaves tuple_of r.
Proof.
  intros Hne Hty Hok. unfold report_tree. rewrite Hty, bind_ok.
  set (hf := hashFn abi_encode ty).
  assert (Forall (λ l, ∃ data, abi_encode ty l = Ok data ∧ hashes_to hf l (keccak data)) leaves) as Hdata.
  { eapply Forall_impl; [exact Hok|]. cbn. intros l Hl. destruct (abi_encode ty l) as [data|] eqn:Hd; [|done].
    exists data. split; [done|]. split; [|apply keccak_length]. subst hf. unfold hashFn. by rewrite Hd. }
  assert (Forall (λ l, ∃ h', hashes_to hf l h') leaves) as Hall.
  { eapply Forall_impl; [exact Hdata|]. intros l (d & _ & Hd). eauto. }
  assert (∃ root, getRoot leaves hf = Ok root) as [root Hroot].
  { destruct leaves as [|l ls]; [done|]. apply Forall_cons in Hdata as [(d & _ & Hd) _].
    destruct (getProof_verifies (l :: ls) hf l _ Hall ltac:(by left) Hd) as (root & _ & Hr & _). eauto. }
  rewrite Hroot, bind_ok.
  assert (∀ ls, (∀ l, l ∈ ls → l ∈ leaves) → ∃ proofs, map_result (getProof leaves hf) ls = Ok proofs ∧
    Forall2 (λ leaf proof, ∃ data, abi_encode ty leaf = Ok data ∧ process_proof proof (keccak data) = root)
      ls proofs) as Hproofs.
  { induction ls as [|l ls IH]; intros Hsub; [exists []; by split|].
    destruct IH as (proofs & Hm & Hf); [intros; apply Hsub; by right|].
    assert (l ∈ leaves) as Hl by (apply Hsub; by left).
    destruct (proj1 (Forall_forall _ _) Hdata l Hl) as (d & Hd & Hh).
    destruct (getProof_verifies leaves hf l _ Hall Hl Hh) as (root' & proof & Hr & Hp & _ & Hv).
    rewrite Hroot in Hr. injection Hr as <-. exists (proof :: proofs). cbn. rewrite Hp, Hm.
    split; [done|]. constructor; [by exists d|done]. }
  destruct (Hproofs leaves (λ l Hl, Hl)) as (proofs & -> & Hf). rewrite bind_ok.
  eexists. split; [reflexivity|]. split; [done|]. exists root, proofs. by split_and!.
Qed.

Lemma sample_tree_verifies param_type ty count leaf leaves tuple_of f p :
  (0 < count)%nat → map_result leaf (seq 0 count) = Ok leaves → param_type f p = Ok ty →
  Forall (λ l, is_ok (abi_encode ty l) = true) leaves →
  ∃ r, sample_tree abi_encode param_type count leaf tuple_of f p = Ok (Some r) ∧
       length leaves = count ∧ report_verifies ty leaves tuple_of r.
Proof.
  intros Hc Hl Hty Hok. unfold sample_tree. destruct (Nat.ltb_spec 0 count); [|lia].
  assert (length leaves = count) as Hlen.
  { apply map_result_Forall2, Forall2_length in Hl. by rewrite <- Hl, length_seq. }
  rewrite Hl, bind_ok. destruct (report_tree_verifies param_type ty leaves tuple_of f p) as (r & -> & Hr); try done.
  - intros ->. cbn in Hlen. lia.
  - exists r. rewrite bind_ok. done.
Qed.
End Verifies.

Section SampleTrees.
Context `{HK : Keccak} `{HM : !UmaMerkleTree} `{HN : EthersNumbers}.
Context {P : Type} (abi_encode : option P → leaf_object → result bytes)
  (param_type : string → string → result (option P)).

(** The report on leaves built by [leaf]: absent for a count of zero, else
    every printed proof verifies. *)
Definition tree_ok (ty : option P) (count : nat) (leaf : nat → result leaf_object)
    (tuple_of : leaf_object → string) (r : option tree_report) : Prop :=
  match count with
  | O => r = None
  | _ => ∃ leaves rep, map_result leaf (seq 0 count) = Ok leaves ∧ r = Some rep ∧
           report_verifies abi_encode ty leaves tuple_of rep
  end.

Lemma tree_ok_run ty count leaf tuple_of f p :
  (∀ i, (i < count)%nat → is_ok (leaf i) = true) → param_type f p = Ok ty →
  (∀ i l, leaf i = Ok l → is_ok (abi_encode ty l) = true) →
  ∃ r, sample_tree abi_encode param_type count leaf tuple_of f p = Ok r ∧ tree_ok ty count leaf tuple_of r.
Proof.
  intros Hleaf Hty Henc. destruct count as [|count]; [by exists None|].
  assert (∀ n k, (∀ i, (i < n + k)%nat → is_ok (leaf i) = true) →
    ∃ leaves, map_result leaf (seq k n) = Ok leaves ∧ Forall (λ l, is_ok (abi_encode ty l) = true) leaves)
    as Hleaves.
  { induction n as [|n IH]; intros k Hk; [by exists []|]. cbn.
    destruct (leaf k) as [l|] eqn:Hl; [|specialize (Hk k ltac:(lia)); by rewrite Hl in Hk].
    destruct (IH (S k)) as (ls & -> & Hls); [intros i Hi; apply Hk; lia|].
    exists (l :: ls). split; [done|]. constructor; [by eapply Henc|done]. }
  destruct (Hleaves (S count) 0%nat) as (leaves & Hm & Hok); [intros i Hi; apply Hleaf; lia|].
  destruct (sample_tree_verifies abi_encode param_type ty (S count) leaf leaves tuple_of f p)
    as (r & -> & _ & Hr); [lia|done..|].
  exists (Some r). split; [done|]. by exists leaves, r.
Qed.

(** For every setting of the constants whose amounts ethers can parse and
    whose leaves it can encode, the script completes, and for each of the three
    kinds of leaves it prints a root that every leaf's printed proof leads to,
    starting from the hash the contracts compute; for a count of zero it
    prints nothing. *)
Theorem sample_trees_verify (cfg : sample_config) (now : nat → Z) (pool_ty refund_ty slow_ty : option P)
    (Hchain : 0 ≤ SPOKE_POOL_CHAIN_ID cfg < 10 ^ 30)
    (Hcounts : Z.of_nat (POOL_REBALANCE_LEAF_COUNT cfg) < 10 ^ 30 ∧ Z.of_nat (RELAYER_REFUND_LEAF_COUNT cfg) < 10 ^ 30)
    (Hamounts : Forall (λ num, is_ok (parseUnits num (DECIMALS cfg)) = true)
      [POOL_REBALANCE_NET_SEND_AMOUNT cfg; RELAYER_REFUND_AMOUNT_TO_RETURN cfg;
       RELAYER_REFUND_AMOUNT_TO_REFUND cfg; SLOW_RELAY_AMOUNT cfg])
    (Hpool : param_type "verifyPoolRebalance" "rebalance" = Ok pool_ty)
    (Hrefund : param_type "verifyRelayerRefund" "refund" = Ok refund_ty)
    (Hslow : param_type "verifyV3SlowRelayFulfillment" "slowFill" = Ok slow_ty)
    (Hencode : ∀ i l, (pool_rebalance_leaf cfg i = Ok l → is_ok (abi_encode pool_ty l) = true) ∧
      (relayer_refund_leaf cfg i = Ok l → is_ok (abi_encode refund_ty l) = true) ∧
      (∀ t, slow_relay_leaf cfg t i = Ok l → is_ok (abi_encode slow_ty l) = true)) :
  ∃ pool refund slow, main abi_encode param_type cfg now = Ok [pool; refund; slow] ∧
    tree_ok pool_ty (POOL_REBALANCE_LEAF_COUNT cfg) (pool_rebalance_leaf cfg) tuplelifyLeaf pool ∧
    tree_ok refund_ty (RELAYER_REFUND_LEAF_COUNT cfg) (relayer_refund_leaf cfg) tuplelifyLeaf refund ∧
    tree_ok slow_ty (SLOW_RELAY_LEAF_COUNT cfg) (λ i, slow_relay_leaf cfg (now i) i)
      (λ l, tuplelifyLeaf (relay_data_of l)) slow.
Proof.
  destruct Hcounts as [Hc1 Hc2]. assert (∀ num, is_ok (parseUnits num (DECIMALS cfg)) = true →
    ∃ v, amount_of cfg num = Ok v) as Hamt.
  { intros num Hnum. unfold amount_of, toBNWeiWithDecimals, toWeiWithDecimals.
    destruct (parseUnits num _); [eauto|done]. }
  repeat (apply Forall_cons in Hamounts as [?%Hamt Hamounts]).
  destruct_and?. destruct H as [v1 Hv1], H0 as [v2 Hv2], H1 as [v3 Hv3], H2 as [v4 Hv4].
  unfold main.
  destruct (tree_ok_run pool_ty (POOL_REBALANCE_LEAF_COUNT cfg) (pool_rebalance_leaf cfg) tuplelifyLeaf
    "verifyPoolRebalance" "rebalance") as (pool & -> & Hp).
  { intros i Hi. unfold pool_rebalance_leaf. change "0"%string with (decimal 0).
    by rewrite !toBN_decimal, !bind_ok, Hv1, bind_ok by lia. }
  { done. }
  { intros i l. apply Hencode. }
  destruct (tree_ok_run refund_ty (RELAYER_REFUND_LEAF_COUNT cfg) (relayer_refund_leaf cfg) tuplelifyLeaf
    "verifyRelayerRefund" "refund") as (refund & -> & Hr).
  { intros i Hi. unfold relayer_refund_leaf.
    by rewrite Hv2, bind_ok, toBN_decimal, bind_ok, Hv3, bind_ok, toBN_decimal, bind_ok by lia. }
  { done. }
  { intros i l. apply Hencode. }
  destruct (tree_ok_run slow_ty (SLOW_RELAY_LEAF_COUNT cfg) (λ i, slow_relay_leaf cfg (now i) i)
    (λ l, tuplelifyLeaf (relay_data_of l)) "verifyV3SlowRelayFulfillment" "slowFill") as (slow & -> & Hs).
  { intros i Hi. unfold slow_relay_leaf. by rewrite Hv4, !bind_ok. }
  { done. }
  { intros i l. apply Hencode. }
  exists pool, refund, slow. by rewrite !bind_ok.
Qed.
End SampleTrees.

(** The script's own constants, with the tuple as a stand-in encoding. *)
Definition tuple_encode (ty : option string) (l : leaf_object) : result bytes := Ok (utf8_encode (tuplelifyLeaf l)).

Lemma sample_trees_verify_witness :
  ∃ pool refund slow,
    main tuple_encode (λ _ p, Ok (Some p)) script_config (λ _, 1700000000000) = Ok [pool; refund; slow] ∧
    pool ≠ None ∧ refund ≠ None ∧ slow ≠ None.
Proof.
  destruct (sample_trees_verify tuple_encode (λ _ p, Ok (Some p)) script_config (λ _, 1700000000000)
    (Some "rebalance"%string) (Some "refund"%string) (Some "slowFill"%string))
    as (pool & refund & slow & Hm & (lp & rp & _ & -> & _) & (lr & rr & _ & -> & _) & (ls & rs & _ & -> & _)).
  - cbn. lia.
  - cbn. lia.
  - repeat constructor.
  - reflexivity.
  - reflexivity.
  - reflexivity.
  - intros i l. repeat split.
  - exists (Some rp), (Some rr), (Some rs). split; [exact Hm|]. repeat split; intros Heq; discriminate Heq.
Defined.

(** The refund leaf the script prints with its own constants. *)
Example sample_refund_leaf :
  relayer_refund_leaf script_config 0 =
    Ok [("amountToReturn", VNum (10 ^ 17)); ("chainId", VNum 5); ("refundAmounts", VNums [10 ^ 17]);
        ("leafId", VNum 0); ("l2TokenAddress", VText "0x40153ddfad90c49dbe3f5c9f96f2a5b25ec67461");
        ("refundAddresses", VTexts ["0x9a8f92a830a5cb89a3816e3d267cb7791c16b04d"])]%string.
Proof. vm_compute. reflexivity. Qed.
