(* ===== verification/SvmState.v ===== *)
(** * The Solana spoke pool: its accounts, administration and deposits

    The state account of [programs/svm-spoke] ([state/state.rs]) with the
    accounts that belong to it, [instructions/admin.rs],
    [instructions/deposit.rs] and the production branches of
    [instructions/testable.rs].  A program derived account is a map entry
    under its seeds; an account of the token program is an address of the
    token ledger.  The build checks integer overflow ([Cargo.toml]), so an
    overflow is an error.  A failed instruction changes nothing. *)

From stdpp Require Import base gmap strings list.
From Stdlib Require Import ZArith Strings.Byte Lia.
From S2P Require Import Prelude Bytes JsText Interfaces SvmSpoke SvmUtils.

Definition AccountNotInitialized : js_error := JsError "AccountNotInitialized".
Definition AlreadyInUse : js_error := JsError "account already in use".
Definition Overflow : js_error := JsError "arithmetic overflow".
Definition ConstraintToken : js_error := JsError "ConstraintToken".
Definition InvalidProductionSeed : js_error := JsError "InvalidProductionSeed".
Definition CannotSetCurrentTime : js_error := JsError "CannotSetCurrentTime".
Definition NotOwner : js_error := JsError "NotOwner".
Definition DepositsArePaused : js_error := JsError "DepositsArePaused".
Definition DisabledRoute : js_error := JsError "DisabledRoute".
Definition InvalidQuoteTimestamp : js_error := JsError "InvalidQuoteTimestamp".
Definition InvalidFillDeadline : js_error := JsError "InvalidFillDeadline".
Definition InvalidMint : js_error := JsError "InvalidMint".

(** [overflow-checks = true]: additions and subtractions of unsigned words. *)
Definition checked_add (bits a b : Z) : result Z :=
  if a + b <? 2 ^ bits then Ok (a + b) else Err Overflow.
Definition checked_sub (a b : Z) : result Z :=
  if b <=? a then Ok (a - b) else Err Overflow.

(** ** Data *)
Record State := {
  s_paused_deposits : bool;
  s_paused_fills : bool;
  s_owner : pubkey;
  s_seed : Z;
  s_number_of_deposits : Z;
  s_chain_id : Z;
  s_current_time : Z;
  s_remote_domain : Z;
  s_cross_domain_admin : pubkey;
  s_root_bundle_id : Z;
  s_deposit_quote_time_buffer : Z;
  s_fill_deadline_buffer : Z
}.

Record RootBundle := {
  relayer_refund_root : bytes;
  slow_relay_root : bytes;
  claimed_bitmap : list Z
}.

Record ClaimAccount := { claim_amount : Z; initializer : pubkey }.

Record DepositParams := {
  dp_depositor : pubkey;
  dp_recipient : pubkey;
  dp_input_token : pubkey;
  dp_output_token : pubkey;
  dp_input_amount : Z;
  dp_output_amount : Z;
  dp_destination_chain_id : Z;
  dp_exclusive_relayer : pubkey;
  dp_quote_timestamp : Z;
  dp_fill_deadline : Z;
  dp_exclusivity_deadline : Z;
  dp_message : bytes
}.

(** The events of [event.rs] these instructions emit. *)
Inductive spoke_event :=
| PausedDeposits (is_paused : bool)
| PausedFills (is_paused : bool)
| SetXDomainAdmin (new_admin : pubkey)
| EnabledDepositRoute (origin_token : pubkey) (destination_chain_id : Z) (enabled : bool)
| RelayedRootBundle (id : Z) (refund_root slow_root : bytes)
| EmergencyDeleteRootBundle (id : Z)
| V3FundsDeposited (deposit_id : Z) (p : DepositParams)
| ExecutedRelayerRefundRoot (id : Z) (leaf : RelayerRefundLeaf) (deferred_refunds : bool) (caller : pubkey)
| ClaimedRelayerRefund (l2_token_address : pubkey) (amount : Z) (refund_address : pubkey)
| BridgedToHubPool (amount : Z) (mint : pubkey).

(** A transfer out of a vault made by the program. *)
Record payout := { po_mint : pubkey; po_to : pubkey; po_amount : Z }.

Record spoke_state (L : Type) := {
  state : option State;
  routes : gmap (pubkey * Z) bool;                  (* by origin token and destination chain *)
  root_bundles : gmap Z RootBundle;                 (* by root bundle id *)
  claim_accounts : gmap (pubkey * pubkey) ClaimAccount;   (* by mint and token account *)
  transfer_liability : gmap pubkey Z;               (* pending_to_hub_pool, by mint *)
  ledger : L;
  payouts : list payout;
  events : list spoke_event
}.
Arguments state {L}. Arguments routes {L}. Arguments root_bundles {L}.
Arguments claim_accounts {L}. Arguments transfer_liability {L}. Arguments ledger {L}.
Arguments payouts {L}. Arguments events {L}. Arguments Build_spoke_state {L}.

Section Updates.
Context {L : Type}.
Implicit Types st : spoke_state L.

Definition with_state st (s : State) : spoke_state L :=
  {| state := Some s; routes := routes st; root_bundles := root_bundles st;
     claim_accounts := claim_accounts st; transfer_liability := transfer_liability st;
     ledger := ledger st; payouts := payouts st; events := events st |}.
Definition with_route st (k : pubkey * Z) (b : bool) : spoke_state L :=
  {| state := state st; routes := <[k := b]> (routes st); root_bundles := root_bundles st;
     claim_accounts := claim_accounts st; transfer_liability := transfer_liability st;
     ledger := ledger st; payouts := payouts st; events := events st |}.
Definition with_root_bundles st (m : gmap Z RootBundle) : spoke_state L :=
  {| state := state st; routes := routes st; root_bundles := m;
     claim_accounts := claim_accounts st; transfer_liability := transfer_liability st;
     ledger := ledger st; payouts := payouts st; events := events st |}.
Definition with_claim_accounts st (m : gmap (pubkey * pubkey) ClaimAccount) : spoke_state L :=
  {| state := state st; routes := routes st; root_bundles := root_bundles st;
     claim_accounts := m; transfer_liability := transfer_liability st;
     ledger := ledger st; payouts := payouts st; events := events st |}.
Definition with_liability st (mint : pubkey) (v : Z) : spoke_state L :=
  {| state := state st; routes := routes st; root_bundles := root_bundles st;
     claim_accounts := claim_accounts st; transfer_liability := <[mint := v]> (transfer_liability st);
     ledger := ledger st; payouts := payouts st; events := events st |}.
Definition with_ledger st (l : L) : spoke_state L :=
  {| state := state st; routes := routes st; root_bundles := root_bundles st;
     claim_accounts := claim_accounts st; transfer_liability := transfer_liability st;
     ledger := l; payouts := payouts st; events := events st |}.
Definition with_payout st (p : payout) : spoke_state L :=
  {| state := state st; routes := routes st; root_bundles := root_bundles st;
     claim_accounts := claim_accounts st; transfer_liability := transfer_liability st;
     ledger := ledger st; payouts := payouts st ++ [p]; events := events st |}.
Definition emit st (e : spoke_event) : spoke_state L :=
  {| state := state st; routes := routes st; root_bundles := root_bundles st;
     claim_accounts := claim_accounts st; transfer_liability := transfer_liability st;
     ledger := ledger st; payouts := payouts st; events := events st ++ [e] |}.
End Updates.

(** Updates of the state account. *)
Definition set_paused_deposits (s : State) (b : bool) : State :=
  {| s_paused_deposits := b; s_paused_fills := s_paused_fills s; s_owner := s_owner s; s_seed := s_seed s;
     s_number_of_deposits := s_number_of_deposits s; s_chain_id := s_chain_id s;
     s_current_time := s_current_time s; s_remote_domain := s_remote_domain s;
     s_cross_domain_admin := s_cross_domain_admin s; s_root_bundle_id := s_root_bundle_id s;
     s_deposit_quote_time_buffer := s_deposit_quote_time_buffer s;
     s_fill_deadline_buffer := s_fill_deadline_buffer s |}.
Definition set_paused_fills (s : State) (b : bool) : State :=
  {| s_paused_deposits := s_paused_deposits s; s_paused_fills := b; s_owner := s_owner s; s_seed := s_seed s;
     s_number_of_deposits := s_number_of_deposits s; s_chain_id := s_chain_id s;
     s_current_time := s_current_time s; s_remote_domain := s_remote_domain s;
     s_cross_domain_admin := s_cross_domain_admin s; s_root_bundle_id := s_root_bundle_id s;
     s_deposit_quote_time_buffer := s_deposit_quote_time_buffer s;
     s_fill_deadline_buffer := s_fill_deadline_buffer s |}.
Definition set_owner (s : State) (k : pubkey) : State :=
  {| s_paused_deposits := s_paused_deposits s; s_paused_fills := s_paused_fills s; s_owner := k; s_seed := s_seed s;
     s_number_of_deposits := s_number_of_deposits s; s_chain_id := s_chain_id s;
     s_current_time := s_current_time s; s_remote_domain := s_remote_domain s;
     s_cross_domain_admin := s_cross_domain_admin s; s_root_bundle_id := s_root_bundle_id s;
     s_deposit_quote_time_buffer := s_deposit_quote_time_buffer s;
     s_fill_deadline_buffer := s_fill_deadline_buffer s |}.
Definition set_number_of_deposits (s : State) (n : Z) : State :=
  {| s_paused_deposits := s_paused_deposits s; s_paused_fills := s_paused_fills s; s_owner := s_owner s; s_seed := s_seed s;
     s_number_of_deposits := n; s_chain_id := s_chain_id s;
     s_current_time := s_current_time s; s_remote_domain := s_remote_domain s;
     s_cross_domain_admin := s_cross_domain_admin s; s_root_bundle_id := s_root_bundle_id s;
     s_deposit_quote_time_buffer := s_deposit_quote_time_buffer s;
     s_fill_deadline_buffer := s_fill_deadline_buffer s |}.
Definition set_admin (s : State) (k : pubkey) : State :=
  {| s_paused_deposits := s_paused_deposits s; s_paused_fills := s_paused_fills s; s_owner := s_owner s; s_seed := s_seed s;
     s_number_of_deposits := s_number_of_deposits s; s_chain_id := s_chain_id s;
     s_current_time := s_current_time s; s_remote_domain := s_remote_domain s;
     s_cross_domain_admin := k; s_root_bundle_id := s_root_bundle_id s;
     s_deposit_quote_time_buffer := s_deposit_quote_time_buffer s;
     s_fill_deadline_buffer := s_fill_deadline_buffer s |}.
Definition set_root_bundle_id (s : State) (n : Z) : State :=
  {| s_paused_deposits := s_paused_deposits s; s_paused_fills := s_paused_fills s; s_owner := s_owner s; s_seed := s_seed s;
     s_number_of_deposits := s_number_of_deposits s; s_chain_id := s_chain_id s;
     s_current_time := s_current_time s; s_remote_domain := s_remote_domain s;
     s_cross_domain_admin := s_cross_domain_admin s; s_root_bundle_id := n;
     s_deposit_quote_time_buffer := s_deposit_quote_time_buffer s;
     s_fill_deadline_buffer := s_fill_deadline_buffer s |}.

(** ** Instructions *)
Section Instructions.
Context {L : Type} `{Web3} `{TokenProgram L} (program_id : pubkey).
Implicit Types st : spoke_state L.

(** [Pubkey::find_program_address]; it panics when there is no address. *)
Definition pda (label : string) (extra : list bytes) : result pubkey :=
  let? a := findProgramAddressSync (utf8_encode label :: extra) program_id in Ok (fst a).

Definition get_self_authority_pda : result pubkey := pda "self_authority" [].

Definition state_pda (seed : Z) : result pubkey := pda "state" [le_bytes 8 seed].

Definition the_state st : result State := from_option_err AccountNotInitialized (state st).

Definition is_local_or_remote_owner (signer : pubkey) (s : State) : result bool :=
  if bool_decide (signer = s_owner s) then Ok true
  else let? self_authority := get_self_authority_pda in Ok (bool_decide (signer = self_authority)).

Definition only_owner (signer : pubkey) (s : State) : result unit :=
  let? b := is_local_or_remote_owner signer s in require b NotOwner.

(** Anchor's [token::mint], [token::authority] and [token::token_program]. *)
Definition check_token_account st (k mint authority token_program : pubkey) : result unit :=
  require (bool_decide (token_account (ledger st) k =
             Some {| tk_mint := mint; tk_authority := authority; tk_program := token_program |}))
          ConstraintToken.

(** Anchor's [mint::token_program]. *)
Definition check_mint st (mint token_program : pubkey) : result unit :=
  require (bool_decide (mint_program (ledger st) mint = Some token_program)) ConstraintToken.

(** *** testable.rs, as built for production *)
Definition set_current_time (new_time : Z) : result unit := Err CannotSetCurrentTime.

Definition set_seed (s : State) (seed : Z) : result State :=
  if negb (seed =? 0) then Err InvalidProductionSeed
  else Ok {| s_paused_deposits := s_paused_deposits s; s_paused_fills := s_paused_fills s;
             s_owner := s_owner s; s_seed := seed; s_number_of_deposits := s_number_of_deposits s;
             s_chain_id := s_chain_id s; s_current_time := s_current_time s;
             s_remote_domain := s_remote_domain s; s_cross_domain_admin := s_cross_domain_admin s;
             s_root_bundle_id := s_root_bundle_id s;
             s_deposit_quote_time_buffer := s_deposit_quote_time_buffer s;
             s_fill_deadline_buffer := s_fill_deadline_buffer s |}.

(** *** admin.rs *)
Definition initialize st (signer : pubkey) (seed initial_number_of_deposits chain_id remote_domain : Z)
    (cross_domain_admin : pubkey) (deposit_quote_time_buffer fill_deadline_buffer : Z)
  : result (spoke_state L) :=
  let? _ := require (bool_decide (s_seed <$> state st ≠ Some seed)) AlreadyInUse in
  let? s := set_seed
    {| s_paused_deposits := false; s_paused_fills := false; s_owner := signer; s_seed := 0;
       s_number_of_deposits := initial_number_of_deposits; s_chain_id := chain_id;
       s_current_time := 0; s_remote_domain := remote_domain;
       s_cross_domain_admin := cross_domain_admin; s_root_bundle_id := 0;
       s_deposit_quote_time_buffer := deposit_quote_time_buffer;
       s_fill_deadline_buffer := fill_deadline_buffer |} seed in
  Ok (with_state st s).

Definition pause_deposits st (signer : pubkey) (pause : bool) : result (spoke_state L) :=
  let? s := the_state st in
  let? _ := only_owner signer s in
  Ok (emit (with_state st (set_paused_deposits s pause)) (PausedDeposits pause)).

Definition pause_fills st (signer : pubkey) (pause : bool) : result (spoke_state L) :=
  let? s := the_state st in
  let? _ := only_owner signer s in
  Ok (emit (with_state st (set_paused_fills s pause)) (PausedFills pause)).

Definition transfer_ownership st (signer new_owner : pubkey) : result (spoke_state L) :=
  let? s := the_state st in
  let? _ := require (bool_decide (signer = s_owner s)) NotOwner in
  Ok (with_state st (set_owner s new_owner)).

Definition set_cross_domain_admin st (signer cross_domain_admin : pubkey) : result (spoke_state L) :=
  let? s := the_state st in
  let? _ := only_owner signer s in
  Ok (emit (with_state st (set_admin s cross_domain_admin)) (SetXDomainAdmin cross_domain_admin)).

(** [init_if_needed] on the vault. *)
Definition init_vault st (s : State) (mint token_program : pubkey) : result (spoke_state L) :=
  let? authority := state_pda (s_seed s) in
  let vault := associated_token mint authority token_program in
  match token_account (ledger st) vault with
  | Some _ => let? _ := check_token_account st vault mint authority token_program in Ok st
  | None => let? l := create_associated_token (ledger st) mint authority token_program in
            Ok (with_ledger st l)
  end.

Definition set_enable_route st (signer origin_token : pubkey) (destination_chain_id : Z) (enabled : bool)
    (origin_token_mint token_program : pubkey) : result (spoke_state L) :=
  let? s := the_state st in
  let? _ := only_owner signer s in
  let? st1 := init_vault st s origin_token_mint token_program in
  let? _ := check_mint st origin_token_mint token_program in
  let? _ := require (bool_decide (origin_token_mint = origin_token)) InvalidMint in
  Ok (emit (with_route st1 (origin_token, destination_chain_id) enabled)
        (EnabledDepositRoute origin_token destination_chain_id enabled)).

Definition relay_root_bundle st (signer : pubkey) (refund_root slow_root : bytes) : result (spoke_state L) :=
  let? s := the_state st in
  let? _ := only_owner signer s in
  let id := s_root_bundle_id s in
  let? _ := require (bool_decide (root_bundles st !! id = None)) AlreadyInUse in
  let b := {| relayer_refund_root := refund_root; slow_relay_root := slow_root; claimed_bitmap := [] |} in
  let st1 := emit (with_root_bundles st (<[id := b]> (root_bundles st))) (RelayedRootBundle id refund_root slow_root) in
  let? next := checked_add 32 id 1 in
  Ok (with_state st1 (set_root_bundle_id s next)).

Definition emergency_delete_root_bundle st (signer : pubkey) (root_bundle_id : Z) : result (spoke_state L) :=
  let? s := the_state st in
  let? _ := only_owner signer s in
  let? _ := from_option_err AccountNotInitialized (root_bundles st !! root_bundle_id) in
  Ok (emit (with_root_bundles st (delete root_bundle_id (root_bundles st)))
        (EmergencyDeleteRootBundle root_bundle_id)).

(** *** deposit.rs *)
Definition deposit_v3 (current_time : Z) st (signer user_token_account mint token_program : pubkey)
    (p : DepositParams) : result (spoke_state L) :=
  let? s := the_state st in
  let? _ := require (negb (s_paused_deposits s)) DepositsArePaused in
  let? enabled := from_option_err AccountNotInitialized
                    (routes st !! (dp_input_token p, dp_destination_chain_id p)) in
  let? _ := check_token_account st user_token_account mint signer token_program in
  let? authority := state_pda (s_seed s) in
  let vault := associated_token mint authority token_program in
  let? _ := check_token_account st vault mint authority token_program in
  let? _ := check_mint st mint token_program in
  let? _ := require (bool_decide (mint = dp_input_token p)) InvalidMint in
  let? _ := require enabled DisabledRoute in
  let? age := checked_sub current_time (dp_quote_timestamp p) in
  let? _ := require (age <=? s_deposit_quote_time_buffer s) InvalidQuoteTimestamp in
  let? _ := require (current_time <=? dp_fill_deadline p) InvalidFillDeadline in
  let? latest := checked_add 32 current_time (s_fill_deadline_buffer s) in
  let? _ := require (dp_fill_deadline p <=? latest) InvalidFillDeadline in
  let? l := token_transfer (ledger st) user_token_account vault mint signer (dp_input_amount p) in
  let? n := checked_add 32 (s_number_of_deposits s) 1 in
  Ok (emit (with_state (with_ledger st l) (set_number_of_deposits s n)) (V3FundsDeposited n p)).
End Instructions.
