(* ===== verification/SvmClient.v ===== *)
(** * The client side of the Solana scripts

    What the scripts of scripts/svm share: derived addresses, the account
    objects of an instruction with the constraints the program puts on them,
    and the instructions of the pool as the node runs them for a wallet. *)

From stdpp Require Import base gmap strings list.
From Stdlib Require Import ZArith Strings.Byte Lia.
From S2P Require Import Prelude Bytes JsText Interfaces SvmSpoke SvmUtils SvmState.

(** Names of the accounts of an instruction with their keys. *)
Abbreviation accounts_map := (list (string * pubkey)) (only parsing).

Definition ConstraintSeeds : js_error := JsError "ConstraintSeeds".

(** [PublicKey.findProgramAddressSync(seeds, programId)[0]] *)
Definition find_pda `{Web3} (programId : pubkey) (seeds : list bytes) : result pubkey :=
  let? a := findProgramAddressSync seeds programId in Ok (fst a).

(** The account constraints of an instruction: names with the keys they must
    have. *)
Definition check_accounts (given expected : accounts_map) : result unit :=
  require (forallb (λ '(name, k), bool_decide (js_lookup given name = Some k)) expected) ConstraintSeeds.

(** The answer of a service that changes its state only when it succeeds. *)
Definition answer {S A} (w : S) (r : result (A * S)) : result A * S :=
  match r with Ok (a, w') => (Ok a, w') | Err e => (Err e, w) end.

Definition done_in {S} (w : S) (r : result S) : result unit * S :=
  answer w (let? w' := r in Ok (tt, w')).

(** The error of [fetch] on an account that is not there. *)
Definition no_account_text : string := "Account does not exist or has no data".
Definition NoAccount `{Web3} (k : pubkey) : js_error := JsError (no_account_text +:+ (" " +:+ toBase58 k)).

Section Pool.
Context {L : Type} `{HW : Web3} `{HT : TokenProgram L}.
Context (programId wallet : pubkey).
Implicit Types st : spoke_state L.

(** [program.account.state.fetch(key)] *)
Definition fetch_state st (k : pubkey) : result State :=
  let? s := from_option_err (NoAccount k) (state st) in
  let? state_key := state_pda programId (s_seed s) in
  let? _ := require (bool_decide (k = state_key)) (NoAccount k) in Ok s.

(** [DepositV3]: state, route and vault are derived. *)
Definition run_deposit (now : Z) st (p : DepositParams) (accounts : accounts_map) : result (spoke_state L) :=
  let? s := the_state st in
  let? state_key := state_pda programId (s_seed s) in
  let? route := pda programId "route" [dp_input_token p; state_key; le_bytes 8 (dp_destination_chain_id p)] in
  let? user := from_option_err ConstraintSeeds (js_lookup accounts "userTokenAccount"%string) in
  let? mint := from_option_err ConstraintSeeds (js_lookup accounts "mint"%string) in
  let? tp := from_option_err ConstraintSeeds (js_lookup accounts "tokenProgram"%string) in
  let? _ := check_accounts accounts
    [("state", state_key); ("route", route); ("signer", wallet);
     ("vault", associated_token mint state_key tp)]%string in
  deposit_v3 programId now st wallet user mint tp p.
End Pool.

(** ** Lemmas *)
Section Addresses.
Context `{HW : Web3} (programId : pubkey).

Definition key_of (seeds : list bytes) : pubkey := result_default [] (find_pda programId seeds).
Definition state_key (seed : Z) : pubkey := key_of [utf8_encode "state"; le_bytes 8 seed].

(** These seeds have an address.  Not every list does: a seed has at most 32
    bytes. *)
Definition has_pda (seeds : list bytes) : Prop := is_ok (findProgramAddressSync seeds programId) = true.
Definition has_state (seed : Z) : Prop := has_pda [utf8_encode "state"; le_bytes 8 seed].
Definition has_route (token : pubkey) (seed chain : Z) : Prop :=
  has_pda [utf8_encode "route"; token; state_key seed; le_bytes 8 chain].

Lemma find_pda_ok seeds : has_pda seeds → find_pda programId seeds = Ok (key_of seeds).
Proof.
  unfold has_pda, key_of, find_pda. by destruct (findProgramAddressSync seeds programId) as [[k b]|].
Qed.

Lemma find_pda_key seeds k : find_pda programId seeds = Ok k → k = key_of seeds.
Proof. unfold key_of. by intros ->. Qed.

Lemma pda_ok label extra : has_pda (utf8_encode label :: extra) →
  pda programId label extra = Ok (key_of (utf8_encode label :: extra)).
Proof. apply find_pda_ok. Qed.

Lemma state_pda_ok seed : has_state seed → state_pda programId seed = Ok (state_key seed).
Proof. apply pda_ok. Qed.
End Addresses.

Lemma check_accounts_ok given expected :
  Forall (λ '(name, k), js_lookup given name = Some k) expected → check_accounts given expected = Ok tt.
Proof.
  intros Hall. unfold check_accounts.
  assert (forallb (λ '(name, k), bool_decide (js_lookup given name = Some k)) expected = true) as ->; [|done].
  induction Hall as [|[n k] l Hk _ IH]; cbn; [done|]. by rewrite bool_decide_eq_true_2.
Qed.

Ltac accounts_found :=
  apply check_accounts_ok; repeat (apply Forall_cons; split; [vm_compute; reflexivity|]); by apply Forall_nil.

(** The account object of a deposit. *)
Definition deposit_accounts (st_key route signer user vault tp mint : pubkey) : accounts_map :=
  [("state", st_key); ("route", route); ("signer", signer); ("userTokenAccount", user); ("vault", vault);
   ("tokenProgram", tp); ("mint", mint)]%string.

Lemma deposit_accounts_checked (st_key route signer user vault tp mint : pubkey) :
  let accounts := deposit_accounts st_key route signer user vault tp mint in
  js_lookup accounts "userTokenAccount"%string = Some user ∧ js_lookup accounts "mint"%string = Some mint ∧
  js_lookup accounts "tokenProgram"%string = Some tp ∧
  check_accounts accounts [("state", st_key); ("route", route); ("signer", signer); ("vault", vault)]%string = Ok tt.
Proof. split_and!; [vm_compute; reflexivity..|accounts_found]. Qed.

(** A deposit with the accounts derived by the script runs the instruction. *)
Lemma run_deposit_accounts {L} `{HW : Web3} `{HT : TokenProgram L} programId wallet now (st : spoke_state L) s p user tp :
  has_state programId (s_seed s) → has_route programId (dp_input_token p) (s_seed s) (dp_destination_chain_id p) →
  state st = Some s →
  run_deposit programId wallet now st p
    (deposit_accounts (state_key programId (s_seed s))
       (key_of programId [utf8_encode "route"; dp_input_token p; state_key programId (s_seed s);
          le_bytes 8 (dp_destination_chain_id p)])
       wallet user (associated_token (dp_input_token p) (state_key programId (s_seed s)) tp) tp (dp_input_token p))
  = deposit_v3 programId now st wallet user (dp_input_token p) tp p.
Proof.
  intros Hp Hr Hs. edestruct deposit_accounts_checked as (Hu & Hm & Htp & Hc). unfold run_deposit, the_state.
  rewrite Hs, from_some, bind_ok, state_pda_ok, bind_ok, pda_ok, bind_ok by done.
  by rewrite Hu, from_some, bind_ok, Hm, from_some, bind_ok, Htp, from_some, bind_ok, Hc, bind_ok.
Qed.

(** What an accepted deposit does. *)
Lemma deposit_v3_ok {L} `{HW : Web3} `{HT : TokenProgram L} programId now (st : spoke_state L) signer user mint tp p st' :
  deposit_v3 programId now st signer user mint tp p = Ok st' →
  ∃ s au l n, state st = Some s ∧ state_pda programId (s_seed s) = Ok au ∧
    mint_program (ledger st) mint = Some tp ∧
    token_account (ledger st) (associated_token mint au tp) =
      Some {| tk_mint := mint; tk_authority := au; tk_program := tp |} ∧
    token_transfer (ledger st) user (associated_token mint au tp) mint signer (dp_input_amount p) = Ok l ∧
    st' = emit (with_state (with_ledger st l) (set_number_of_deposits s n)) (V3FundsDeposited n p).
Proof.
  intros Hx. unfold deposit_v3, the_state, check_token_account, check_mint in Hx. passes Hx. injection Hx as <-.
  do 4 eexists. split_and!; try done.
  all: match goal with Hb : bool_decide ?P = true |- ?P => by apply bool_decide_eq_true in Hb end.
Qed.
