(* ===== verification/CloseRelays.v ===== *)
(** * scripts/svm/closeRelayerPdas.ts: closing the accounts of expired fills

    The script reads the program's events and closes the fill account of every
    expired fill of a relayer.  Its effect is stated on the program of
    [SvmFills]. *)

From stdpp Require Import base gmap strings list.
From Stdlib Require Import ZArith Strings.Byte Lia.
From S2P Require Import Prelude Bytes JsText Interfaces Consts SvmSpoke SvmUtils SvmFills SvmState SvmClient.

(** What the event coder of the program decodes to. *)
Inductive spoke_event :=
| FilledData (e : FilledV3Relay)
| OtherData.

(** The calls of the script, those of [readProgramEvents] included. *)
Inductive closeE : Type → Type :=
| Rpc {X : Type} (c : rpcE X) : closeE X
| Now : closeE Z                                     (* [Math.floor(Date.now() / 1000)] *)
| FetchChainId (statePda : pubkey) : closeE Z        (* [program.account.state.fetch] *)
| GetAccountInfo (account : pubkey) : closeE bool    (* whether the account exists *)
| SendCloseFillPda (relay_hash : bytes) (relayData : V3RelayData) (state fillStatus : pubkey)
    : closeE string.

Section Script.
Context `{Keccak} `{BNjs} `{Web3} `{AnchorCodec spoke_event} (programId : pubkey).

(** [event.name === "filledV3Relay" && new PublicKey(event.data.relayer).equals(relayer)] *)
Fixpoint fill_events (relayer : pubkey) (events : list (program_event spoke_event))
  : result (list FilledV3Relay) :=
  match events with
  | [] => Ok []
  | event :: events' =>
      if bool_decide (event_name event = Some "filledV3Relay"%string) then
        match event_data event with
        | Some (FilledData e) =>
            let? rest := fill_events relayer events' in
            Ok (if bool_decide (fe_relayer e = relayer) then e :: rest else rest)
        | _ => Err TypeError
        end
      else fill_events relayer events'
  end.

(** The decoded fields are rebuilt as they are. *)
Definition closeFillPda (eventData : FilledV3Relay) (seed : Z) : prog closeE unit :=
  let relayData := fe_relay eventData in
  let! seedBytes := lift (toArrayLike_le seed 8) in
  let! statePda := lift (find_pda programId [utf8_encode "state"; seedBytes]) in
  let! chainId := call (FetchChainId statePda) in
  let! relayHashUint8Array := lift (calculateRelayHashUint8Array relayData chainId) in
  let! fillStatusPda :=
    lift (find_pda programId [utf8_encode "fills"; relayHashUint8Array]) in
  try_catch
    (let! accountInfo := call (GetAccountInfo fillStatusPda) in
     if negb accountInfo then Ret tt
     else
       let! tx := call (SendCloseFillPda relayHashUint8Array relayData statePda fillStatusPda) in
       Ret tt)
    (λ _, Ret tt).

Definition closeIfExpired (seed : Z) (event : FilledV3Relay) : prog closeE unit :=
  let! currentTime := call Now in
  if fill_deadline (fe_relay event) <? currentTime then closeFillPda event seed else Ret tt.

Definition closeExpiredRelays (relayer : pubkey) (seed : Z) : prog closeE unit :=
  try_catch
    (let! events := translate (@Rpc) (readProgramEvents programId) in
     let! fillEvents := lift (fill_events relayer events) in
     for_each fillEvents (closeIfExpired seed))
    (λ _, Ret tt).
End Script.

(** ** The program and the cluster as a service *)

Section Service.
Context `{Keccak} `{Borsh} `{Web3} (programId : pubkey).
(** The node's answers, the wallet of the script, the cluster's time and the
    seed the pool was initialized with: its state account is the one at the
    address of that seed, and there is no other. *)
Context (rpc : ∀ X, rpcE X → result X) (wallet : pubkey) (now pool_seed : Z).

Definition fill_address (h : bytes) : result pubkey := pda programId "fills" [h].

Definition fetch_chain_id (st : fills_state) (k : pubkey) : result Z :=
  let? state_key := state_pda programId pool_seed in
  let? _ := require (bool_decide (k = state_key)) (NoAccount k) in Ok (spoke_chain_id st).

(** [CloseFillPda]: the state and the fill account are at their derived
    addresses. *)
Definition run_close (st : fills_state) (h : bytes) (d : V3RelayData) (state account : pubkey) : result fills_state :=
  let? state_key := state_pda programId pool_seed in
  let? _ := require (bool_decide (state = state_key)) ConstraintSeeds in
  let? fill_key := fill_address h in
  let? _ := require (bool_decide (account = fill_key)) ConstraintSeeds in
  close_fill_pda now st wallet h d.

Definition fills_service : handler fills_state closeE := λ X st c,
  match c in closeE Y return result Y * fills_state with
  | Rpc c => (rpc _ c, st)
  | Now => (Ok now, st)
  | FetchChainId k => (fetch_chain_id st k, st)
  | GetAccountInfo account =>
      (Ok (existsb (λ h, bool_decide (fill_address h = Ok account)) (map fst (map_to_list (fills st)))), st)
  | SendCloseFillPda h d state account =>
      answer st (let? st' := run_close st h d state account in Ok ("signature"%string, st'))
  end.
End Service.

(** ** The effect of a run *)

Section Effect.
Context `{Keccak} `{BNjs} `{Borsh} `{Web3} `{AnchorCodec spoke_event} (programId : pubkey).
Context (rpc : ∀ X, rpcE X → result X) (wallet : pubkey) (now pool_seed seed : Z).
(** The pool and the seed of the command line have state addresses. *)
Context (Hpool : has_state programId pool_seed) (Hstate : has_state programId seed) (Hseed : u64 seed).
Local Abbreviation service := (fills_service programId rpc wallet now pool_seed).
Local Abbreviation state_key := (state_key programId).
Definition has_fill (h : bytes) : Prop := has_pda programId [utf8_encode "fills"; h].

(** The account of [d] is the wallet's and may be closed. *)
Definition closable (st : fills_state) (d : V3RelayData) : Prop :=
  fill_deadline d < now ∧
  ∃ a, fills st !! get_v3_relay_hash d (spoke_chain_id st) = Some a ∧ relayer a = wallet.

#[export] Instance closable_dec st d : Decision (closable st d).
Proof.
  unfold closable. apply and_dec; [apply _|].
  destruct (fills st !! _) as [a|]; [destruct (decide (relayer a = wallet)) as [Ha|Ha]|].
  - left. by exists a.
  - right. by intros (? & [= <-] & ?).
  - right. by intros (? & [=] & _).
Defined.

(** The program's own checks on an expired fill. *)
Lemma close_fill_pda_closable st d :
  fill_deadline d < now →
  let h := get_v3_relay_hash d (spoke_chain_id st) in
  close_fill_pda now st wallet h d =
    if decide (closable st d) then Ok (without_account st h)
    else Err (if fills st !! h is Some _ then NotRelayer else AccountNotInitialized).
Proof.
  intros Ht h. unfold close_fill_pda, is_relay_hash_valid. fold h.
  destruct (decide (closable st d)) as [(_ & a & Ha & Hw)|Hn].
  - fold h in Ha. rewrite Ha. cbn [from_option_err result_bind].
    rewrite !bool_decide_eq_true_2 by done. cbn [require result_bind].
    apply Z.ltb_lt in Ht. by rewrite Ht.
  - destruct (fills st !! h) as [a|] eqn:Ha; [|done]. cbn [from_option_err result_bind].
    rewrite bool_decide_eq_false_2; [done|]. intros Hw. apply Hn. split; [done|]. by exists a.
Qed.

(** The script's own derivations succeed and agree with the program's, when
    the seed is the pool's. *)
Lemma closeFillPda_run st e :
  state_key seed = state_key pool_seed →
  u64 (spoke_chain_id st) → relay_data_wf (fe_relay e) →
  has_fill (get_v3_relay_hash (fe_relay e) (spoke_chain_id st)) → fill_deadline (fe_relay e) < now →
  run_state service st (closeFillPda programId e seed) =
    (Ok tt, if decide (closable st (fe_relay e))
            then without_account st (get_v3_relay_hash (fe_relay e) (spoke_chain_id st)) else st).
Proof using Hpool Hstate Hseed.
  intros Hkey Hc Hd Hf Ht. unfold closeFillPda. set (d := fe_relay e) in *.
  set (h := get_v3_relay_hash d (spoke_chain_id st)) in *.
  rewrite run_state_bind, run_state_lift, toArrayLike_le_fits by exact Hseed.
  rewrite run_state_bind, run_state_lift, find_pda_ok by exact Hstate. fold (state_key seed). rewrite Hkey.
  rewrite run_state_bind, run_state_call. cbn [fills_service]. unfold fetch_chain_id.
  rewrite state_pda_ok, bind_ok, bool_decide_eq_true_2 by done. cbn [require result_bind].
  rewrite run_state_bind, run_state_lift.
  assert (calculateRelayHashUint8Array d (spoke_chain_id st) = Ok h) as ->.
  { unfold calculateRelayHashUint8Array. rewrite relay_content_wf by done. cbn [result_bind].
    by rewrite keccak256_hex_digest. }
  rewrite run_state_bind, run_state_lift, find_pda_ok by exact Hf. set (account := key_of _ _).
  assert (fill_address programId h = Ok account) as Haddr by (by apply pda_ok).
  cbn [bind call try_catch run_state fills_service lift]. set (exists_ := existsb _ _).
  assert (is_Some (fills st !! h) → exists_ = true) as Hex.
  { intros [a Hl]. apply existsb_exists. exists h. split.
    - apply list_elem_of_In, list_elem_of_fmap. exists (h, a). split; [done|]. by apply elem_of_map_to_list.
    - by apply bool_decide_eq_true_2. }
  destruct exists_; cbn [negb try_catch bind lift run_state fills_service].
  - unfold run_close. rewrite state_pda_ok, bind_ok, bool_decide_eq_true_2 by done. cbn [require result_bind].
    rewrite Haddr, bind_ok, bool_decide_eq_true_2 by done. cbn [require result_bind].
    pose proof (close_fill_pda_closable st d Ht) as Hclose. cbv zeta in Hclose. fold h in Hclose. rewrite Hclose.
    destruct (decide (closable st d)) as [Hcl|Hcl]; [done|]. by destruct (fills st !! h).
  - rewrite decide_False; [done|]. intros (_ & a & Hl & _). fold h in Hl.
    by discriminate (Hex (mk_is_Some _ _ Hl)).
Qed.

(** With another seed the state is not found, and the error ends the loop. *)
Lemma closeFillPda_wrong_seed st e : state_key seed ≠ state_key pool_seed →
  run_state service st (closeFillPda programId e seed) = (Err (NoAccount (state_key seed)), st).
Proof using Hpool Hstate Hseed.
  intros Hkey. unfold closeFillPda.
  rewrite run_state_bind, run_state_lift, toArrayLike_le_fits by exact Hseed.
  rewrite run_state_bind, run_state_lift, find_pda_ok by exact Hstate. fold (state_key seed).
  rewrite run_state_bind, run_state_call. cbn [fills_service]. unfold fetch_chain_id.
  by rewrite state_pda_ok, bind_ok, bool_decide_eq_false_2 by done.
Qed.

Lemma close_loop_wrong_seed es st : state_key seed ≠ state_key pool_seed →
  ∃ r, run_state service st (for_each es (closeIfExpired programId seed)) = (r, st) ∧
       (r = Ok tt ∨ ∃ m, r = Err (JsError m)).
Proof using Hpool Hstate Hseed.
  intros Hkey. induction es as [|e es IH]; cbn [for_each]; [exists (Ok tt); auto|].
  unfold closeIfExpired at 1. rewrite run_state_bind, run_state_bind, run_state_call. cbn [fills_service].
  destruct (fill_deadline (fe_relay e) <? now); [|exact IH].
  rewrite closeFillPda_wrong_seed by done. eexists. split; [done|]. right. by eexists.
Qed.

Lemma closeIfExpired_run st e :
  state_key seed = state_key pool_seed →
  u64 (spoke_chain_id st) → relay_data_wf (fe_relay e) →
  has_fill (get_v3_relay_hash (fe_relay e) (spoke_chain_id st)) →
  run_state service st (closeIfExpired programId seed e) =
    (Ok tt, if decide (closable st (fe_relay e))
            then without_account st (get_v3_relay_hash (fe_relay e) (spoke_chain_id st)) else st).
Proof using Hpool Hstate Hseed.
  intros. unfold closeIfExpired. rewrite run_state_bind, run_state_call. cbn [fills_service].
  destruct (fill_deadline (fe_relay e) <? now) eqn:Ht.
  - apply closeFillPda_run; [done..|lia].
  - rewrite decide_False; [done|]. intros [? _]. lia.
Qed.

(** Everything but the accounts is kept. *)
Definition same_but_fills (st st' : fills_state) : Prop :=
  paused_fills st' = paused_fills st ∧ spoke_chain_id st' = spoke_chain_id st ∧
  slow_relay_roots st' = slow_relay_roots st ∧ filled_log st' = filled_log st.

Lemma close_loop_run es st :
  state_key seed = state_key pool_seed → u64 (spoke_chain_id st) →
  Forall (λ e, relay_data_wf (fe_relay e) ∧ has_fill (get_v3_relay_hash (fe_relay e) (spoke_chain_id st))) es →
  ∃ st', run_state service st (for_each es (closeIfExpired programId seed)) = (Ok tt, st') ∧
    same_but_fills st st' ∧
    ∀ h, fills st' !! h =
      if decide (Exists (λ e, h = get_v3_relay_hash (fe_relay e) (spoke_chain_id st) ∧
                              closable st (fe_relay e)) es)
      then None else fills st !! h.
Proof using Hpool Hstate Hseed.
  intros Hkey. revert st. induction es as [|e es IH]; intros st Hc Hwf; cbn [for_each].
  - exists st. split_and!; [done..|]. intros h. rewrite decide_False; [done|]. by intros ?%Exists_nil.
  - apply Forall_cons in Hwf as [[Hd Hf] Hwf].
    rewrite run_state_bind, closeIfExpired_run by done. set (k := get_v3_relay_hash _ _).
    destruct (decide (closable st (fe_relay e))) as [Hcl|Hcl].
    + destruct (IH (without_account st k)) as (st' & Hrun & Hsame & Hst'); [done..|].
      exists st'. split_and!; [done..|]. intros h. rewrite Hst'. cbn [fills spoke_chain_id without_account].
      destruct (decide (h = k)) as [->|Hne].
      * rewrite lookup_delete_eq. rewrite (decide_True (P := Exists _ (e :: es))); [by case_decide|].
        by left.
      * rewrite lookup_delete_ne by done. apply decide_ext. rewrite Exists_cons, !Exists_exists.
        unfold closable. cbn [fills spoke_chain_id without_account]. split.
        -- intros (x & Hx & -> & Ht & a & Ha & ?). right. exists x. split_and!; [done..|].
           exists a. split; [|done]. by rewrite lookup_delete_ne in Ha.
        -- intros [[-> _]|(x & Hx & -> & Ht & a & Ha & ?)]; [done|].
           exists x. split_and!; [done..|]. exists a. by rewrite lookup_delete_ne.
    + destruct (IH st) as (st' & Hrun & Hsame & Hst'); [done..|].
      exists st'. split_and!; [done..|]. intros h. rewrite Hst'. apply decide_ext.
      rewrite Exists_cons. split; [by right|]. by intros [[_ ?]|?].
Qed.
End Effect.

(** ** Property *)

(** A fill of [repaid], the address to be repaid, among the program's events. *)
Definition reported (events : list (program_event spoke_event)) (repaid : pubkey) (e : FilledV3Relay) : Prop :=
  ∃ x, x ∈ events ∧ event_name x = Some "filledV3Relay"%string ∧
       event_data x = Some (FilledData e) ∧ fe_relayer e = repaid.

Lemma fill_events_reported repaid events es :
  fill_events repaid events = Ok es → ∀ e, e ∈ es ↔ reported events repaid e.
Proof.
  unfold reported. revert es. induction events as [|x events IH]; cbn; intros es.
  - intros [= <-] e. split; [by intros ?%not_elem_of_nil|]. by intros (? & ?%not_elem_of_nil & _).
  - case_bool_decide as Hn.
    + destruct (event_data x) as [[d|]|] eqn:Hd; [|done..].
      destruct (fill_events repaid events) as [rest|]; [|done]. cbn. intros [= <-] e.
      specialize (IH rest eq_refl e). setoid_rewrite elem_of_cons. case_bool_decide as Hr.
      * rewrite elem_of_cons, IH. split.
        -- intros [->|(y & ? & ? & ? & ?)]; [by exists x; auto|exists y; auto].
        -- intros (y & [->|?] & ? & Hy & ?); [left; congruence|right; by exists y].
      * rewrite IH. split; [intros (y & ? & ? & ? & ?); exists y; auto|].
        intros (y & [->|?] & ? & Hy & ?); [congruence|by exists y].
    + intros Hes e. rewrite (IH es Hes e). setoid_rewrite elem_of_cons. split.
      * intros (y & ? & ? & ? & ?). exists y. auto.
      * intros (y & [->|?] & ? & ? & ?); [done|by exists y].
Qed.

(** C14. A run of the script with the pool's seed closes exactly the accounts
    it is meant to: the fill accounts, under the hash the program computes, of
    the reported fills with the given repayment address that expired and
    belong to the wallet; every other account, and the rest of the program's
    state, is as before.  With a seed of another address nothing is closed: the
    state is not found there, and the error ends the loop.  The run always ends
    well, whatever accounts exist already or are gone.  (The events name the
    repayment address while the program checks the filler of the account: a
    fill repaid to another address is never closed.) *)
Theorem close_expired_exact `{Keccak} `{BNjs} `{Borsh} `{Web3} `{AnchorCodec spoke_event}
    (programId wallet repaid : pubkey) (rpc : ∀ X, rpcE X → result X) (now pool_seed seed : Z)
    (events : list (program_event spoke_event)) (es : list FilledV3Relay) (st : fills_state)
    (Hpool : has_state programId pool_seed) (Hstate : has_state programId seed)
    (Hseed : u64 seed) (Hchain : u64 (spoke_chain_id st))
    (Hevents : outcome (λ _, rpc) (readProgramEvents programId) = Ok events)
    (Hes : fill_events repaid events = Ok es)
    (Hwf : Forall (λ e, relay_data_wf (fe_relay e) ∧
                        has_fill programId (get_v3_relay_hash (fe_relay e) (spoke_chain_id st))) es) :
  let closes (h : bytes) := state_key programId seed = state_key programId pool_seed ∧
    ∃ e, reported events repaid e ∧
    h = get_v3_relay_hash (fe_relay e) (spoke_chain_id st) ∧ closable wallet now st (fe_relay e) in
  ∃ st', run_state (fills_service programId rpc wallet now pool_seed) st (closeExpiredRelays programId repaid seed)
           = (Ok tt, st') ∧
    same_but_fills st st' ∧
    (∀ h, closes h → fills st' !! h = None) ∧
    (∀ h, ¬ closes h → fills st' !! h = fills st !! h).
Proof.
  intros closes.
  assert (∀ r st', run_state (fills_service programId rpc wallet now pool_seed) st
            (for_each es (closeIfExpired programId seed)) = (r, st') →
          run_state (fills_service programId rpc wallet now pool_seed) st
            (let! events := translate (@Rpc) (readProgramEvents programId) in
             let! fillEvents := lift (fill_events repaid events) in
             for_each fillEvents (closeIfExpired programId seed)) = (r, st')) as Hbody.
  { intros r st' Hl. rewrite run_state_bind.
    rewrite (run_state_translate (fills_service programId rpc wallet now pool_seed) (@Rpc) rpc) with (h := []) by done.
    unfold outcome in Hevents. rewrite Hevents. by rewrite run_state_bind, run_state_lift, Hes. }
  destruct (decide (state_key programId seed = state_key programId pool_seed)) as [Hkey|Hkey].
  - destruct (close_loop_run programId rpc wallet now pool_seed seed Hpool Hstate Hseed es st)
      as (st' & Hrun & Hsame & Hst'); [done..|].
    assert (∀ h, closes h ↔ Exists (λ e, h = get_v3_relay_hash (fe_relay e) (spoke_chain_id st) ∧
                                        closable wallet now st (fe_relay e)) es) as Hiff.
    { intros h. rewrite Exists_exists. unfold closes.
      setoid_rewrite (fill_events_reported repaid events es Hes). split; [by intros [_ ?]|done]. }
    exists st'. split_and!; [by apply run_state_try_ok, Hbody|done| |].
    + intros h Hh%Hiff. by rewrite Hst', decide_True.
    + intros h Hh. rewrite Hst', decide_False; [done|]. by rewrite <- Hiff.
  - destruct (close_loop_wrong_seed programId rpc wallet now pool_seed seed Hpool Hstate Hseed es st Hkey)
      as (r & Hl & Hr).
    exists st. split_and!; [|done|by intros h [? _]|done]. unfold closeExpiredRelays.
    destruct Hr as [->|[m ->]]; [by apply run_state_try_ok, Hbody|].
    by rewrite (run_state_try_err _ _ _ _ _ _ (Hbody _ _ Hl)).
Qed.

(** The fill of [SvmFills], reported with its filler as repayment address. *)
Definition sample_fill_event : FilledV3Relay :=
  {| fe_relay := sample_relay; fe_relayer := sample_signer; fe_updated_output_amount := 990;
     fe_fill_type := FastFill |}.
#[export] Instance fill_codec : AnchorCodec spoke_event :=
  {| bs58_decode s := Ok (utf8_encode s); base64_encode := bytes_text;
     events_decode _ _ := Some ("filledV3Relay"%string, FilledData sample_fill_event) |}.
Definition sample_rpc : ∀ X, rpcE X → result X := λ X c,
  match c in rpcE Y return result Y with
  | GetTransaction _ => Ok (Some sample_tx)
  | GetSignaturesForAddress _ => Ok ["sig"%string]
  end.

(** With the pool's seed zero the account is closed; with seed one it stays. *)
Definition sample_event : program_event spoke_event :=
  {| program := sample_program; event_data := Some (FilledData sample_fill_event);
     event_name := Some "filledV3Relay"%string |}.

Lemma sample_events_read : outcome (λ _, sample_rpc) (readProgramEvents sample_program) = Ok [sample_event].
Proof. vm_compute. reflexivity. Qed.

Lemma sample_state_pdas : has_state sample_program 0 ∧ has_state sample_program 1.
Proof. split; vm_compute; reflexivity. Qed.

Lemma sample_events_wf : Forall (λ e, relay_data_wf (fe_relay e) ∧
  has_fill sample_program (get_v3_relay_hash (fe_relay e) (spoke_chain_id filled_state))) [sample_fill_event].
Proof. constructor; [|constructor]. split; [exact sample_relay_wf|vm_compute; reflexivity]. Qed.

Lemma sample_closable : closable sample_signer 1700000001 filled_state sample_relay.
Proof.
  split; [cbn; lia|]. exists {| status := Filled; relayer := sample_signer |}. split; [vm_compute|]; reflexivity.
Qed.

Lemma close_expired_exact_witness :
  is_Some (fills filled_state !! sample_hash) ∧
  (∃ st', run_state (fills_service sample_program sample_rpc sample_signer 1700000001 0) filled_state
            (closeExpiredRelays sample_program sample_signer 0) = (Ok tt, st') ∧
          fills st' !! sample_hash = None ∧ filled_log st' = filled_log filled_state) ∧
  ∃ st', run_state (fills_service sample_program sample_rpc sample_signer 1700000001 0) filled_state
           (closeExpiredRelays sample_program sample_signer 1) = (Ok tt, st') ∧
         fills st' !! sample_hash = fills filled_state !! sample_hash.
Proof.
  assert (Hc : u64 (spoke_chain_id filled_state)) by (split; vm_compute; [discriminate|reflexivity]).
  destruct sample_state_pdas as [H0 H1]. split; [vm_compute; by eexists|]. split.
  - destruct (close_expired_exact sample_program sample_signer sample_signer sample_rpc 1700000001 0 0
      [sample_event] [sample_fill_event] filled_state H0 H0 ltac:(unfold u64; lia) Hc sample_events_read
      eq_refl sample_events_wf) as (st' & Hrun & (_ & _ & _ & Hlog) & Hclosed & _).
    exists st'. split_and!; [exact Hrun| |exact Hlog]. apply Hclosed. split; [reflexivity|].
    exists sample_fill_event. split_and!; [|reflexivity|exact sample_closable].
    eexists. split_and!; [left|reflexivity..].
  - destruct (close_expired_exact sample_program sample_signer sample_signer sample_rpc 1700000001 0 1
      [sample_event] [sample_fill_event] filled_state H0 H1 ltac:(unfold u64; lia) Hc sample_events_read
      eq_refl sample_events_wf) as (st' & Hrun & _ & _ & Hkept).
    exists st'. split; [exact Hrun|]. apply Hkept. intros [Hk _]. revert Hk. vm_compute. discriminate.
Defined.
