(* ===== verification/SvmBundle.v ===== *)
(** * The Solana spoke pool: refund leaves, claims and the hub pool liability

    [instructions/bundle.rs], [state/refund_account.rs],
    [instructions/refund_claims.rs] and [instructions/token_bridge.rs] of
    [programs/svm-spoke], on the state of [SvmState].  An abstract
    specification ([spec_step]) says what relayers rely on; the program
    refines it. *)

From stdpp Require Import base gmap strings list fin_maps.
From Stdlib Require Import ZArith Strings.Byte Lia.
From S2P Require Import Prelude Bytes JsText Interfaces SvmSpoke SvmUtils SvmState.

Definition AccountNotEnoughKeys : js_error := JsError "AccountNotEnoughKeys".
Definition InvalidRefund : js_error := JsError "InvalidRefund".
Definition InvalidChainId : js_error := JsError "InvalidChainId".
Definition ClaimedMerkleLeaf : js_error := JsError "ClaimedMerkleLeaf".
Definition InvalidMerkleLeaf : js_error := JsError "InvalidMerkleLeaf".
Definition ZeroRefundClaim : js_error := JsError "ZeroRefundClaim".
Definition NonZeroRefundClaim : js_error := JsError "NonZeroRefundClaim".
Definition InvalidClaimInitializer : js_error := JsError "InvalidClaimInitializer".
Definition ExceededPendingBridgeAmount : js_error := JsError "ExceededPendingBridgeAmount".

(** ** Accounts passed to the instruction *)

(** The address of a passed account: a plain key, or the claim account derived
    from a mint and a token account. *)
Inductive address :=
| Key (k : pubkey)
| ClaimPda (mint token_account : pubkey).

#[export] Instance address_eq_dec : EqDecision address.
Proof. solve_decision. Defined.

Record AccountInfo := { key : address; is_writable : bool }.

Inductive RefundAccount :=
| TokenAccount (k : pubkey)
| ClaimAccountAt (k : pubkey * pubkey) (a : ClaimAccount).

(** The parameters account, as deserialised by Anchor. *)
Record ExecuteRelayerRefundLeafParams := {
  root_bundle_id : Z;
  relayer_refund_leaf : RelayerRefundLeaf;
  proof : list bytes
}.

Section Bundle.
Context {L : Type} `{Keccak} `{Web3} `{TokenProgram L} `{SolanaRuntime} (program_id : pubkey).
Implicit Types st : spoke_state L.

Definition try_token_account_from_account_info st (account_info : AccountInfo)
    (expected_token_account expected_mint token_program : pubkey) : option pubkey :=
  match key account_info with
  | ClaimPda _ _ => None
  | Key k =>
      match token_account (ledger st) k with
      | None => None
      | Some info =>
          if negb (is_writable account_info) then None
          else if negb (bool_decide (k = expected_token_account)) then None
          else if negb (bool_decide (tk_mint info = expected_mint)) then None
          else if negb (bool_decide (tk_program info = token_program)) then None
          else Some k
      end
  end.

Definition try_claim_account_from_account_info st (account_info : AccountInfo)
    (mint token_account : pubkey) : option ((pubkey * pubkey) * ClaimAccount) :=
  match key account_info with
  | Key _ => None
  | ClaimPda m t =>
      match claim_accounts st !! (m, t) with
      | None => None
      | Some a =>
          if negb (bool_decide (ClaimPda m t = ClaimPda mint token_account)) then None
          else if negb (is_writable account_info) then None
          else Some ((m, t), a)
      end
  end.

Definition try_from_remaining_account st (remaining_accounts : list AccountInfo) (index : nat)
    (expected_token_account expected_mint token_program : pubkey) : result RefundAccount :=
  let? info := from_option_err AccountNotEnoughKeys (remaining_accounts !! index) in
  match try_token_account_from_account_info st info expected_token_account expected_mint token_program with
  | Some k => Ok (TokenAccount k)
  | None =>
      match try_claim_account_from_account_info st info expected_mint expected_token_account with
      | Some (k, a) => Ok (ClaimAccountAt k a)
      | None => Err InvalidRefund
      end
  end.

(** One round of the loop: the new state, and whether the refund is deferred. *)
Definition pay_refund st (vault authority mint token_program : pubkey)
    (remaining_accounts : list AccountInfo) (i : nat) (refund_account : pubkey) (amount : Z)
  : result (spoke_state L * bool) :=
  let? a := try_from_remaining_account st remaining_accounts i refund_account mint token_program in
  match a with
  | TokenAccount k =>
      let? l := token_transfer (ledger st) vault k mint authority amount in
      Ok (with_payout (with_ledger st l) {| po_mint := mint; po_to := k; po_amount := amount |}, false)
  | ClaimAccountAt k a =>
      let? v := checked_add 64 (claim_amount a) amount in
      Ok (with_claim_accounts st
            (<[k := {| claim_amount := v; initializer := initializer a |}]> (claim_accounts st)), true)
  end.

Fixpoint pay_refunds st (vault authority mint token_program : pubkey)
    (remaining_accounts : list AccountInfo) (i : nat) (refunds : list (pubkey * Z))
    (deferred_refunds : bool) : result (spoke_state L * bool) :=
  match refunds with
  | [] => Ok (st, deferred_refunds)
  | (refund_account, amount) :: refunds' =>
      let? (st1, deferred) := pay_refund st vault authority mint token_program remaining_accounts i
                                refund_account amount in
      pay_refunds st1 vault authority mint token_program remaining_accounts (S i) refunds'
        (deferred_refunds || deferred)
  end.

Definition with_claimed st (id : Z) (b : RootBundle) (leaf_id : Z) : spoke_state L :=
  with_root_bundles st
    (<[id := {| relayer_refund_root := relayer_refund_root b; slow_relay_root := slow_relay_root b;
                claimed_bitmap := set_claimed (claimed_bitmap b) leaf_id |}]> (root_bundles st)).

(** The account of a bundle has room for the discriminator, the two roots and a
    bitmap of one byte when it is created ([RootBundle::INIT_SPACE]), and grows
    with its bitmap. *)
Definition bundle_space : Z := 8 + (32 + 32 + (4 + 1)).
Definition bundle_data_len (b : RootBundle) : Z := bundle_space + Z.max 0 (Z.of_nat (length (claimed_bitmap b)) - 1).

(** The [realloc] constraint: room for the bit of the leaf. *)
Definition can_realloc (b : RootBundle) (leaf_id : Z) : bool :=
  let data_len := bundle_data_len b in
  let new_len := Z.max (bundle_space + leaf_id / 8) data_len in
  (new_len - data_len <=? MAX_PERMITTED_DATA_INCREASE) && (new_len <=? MAX_PERMITTED_DATA_LENGTH).

(** The heap and the nested instruction of [emit_cpi!] hold the leaf. *)
Definition leaf_fits (b : RootBundle) (params : ExecuteRelayerRefundLeafParams) : bool :=
  let leaf := relayer_refund_leaf params in
  refunds_fit (length (refund_amounts leaf)) (length (proof params))
    (length (set_claimed (claimed_bitmap b) (leaf_id leaf))).

(** [instruction_params] is the signer's parameters account. *)
Definition execute_relayer_refund_leaf st (signer mint token_program : pubkey)
    (instruction_params : option ExecuteRelayerRefundLeafParams)
    (remaining_accounts : list AccountInfo) : result (spoke_state L) :=
  let? params := from_option_err AccountNotInitialized instruction_params in
  let leaf := relayer_refund_leaf params in
  let id := root_bundle_id params in
  let? s := the_state st in
  let? bundle := from_option_err AccountNotInitialized (root_bundles st !! id) in
  let? _ := require (can_realloc bundle (leaf_id leaf)) InvalidRealloc in
  let? authority := state_pda program_id (s_seed s) in
  let vault := associated_token mint authority token_program in
  let? _ := check_token_account st vault mint authority token_program in
  let? _ := check_mint st mint token_program in
  let? _ := require (bool_decide (mint = mint_public_key leaf)) InvalidMint in
  let? _ := verify_merkle_proof (relayer_refund_root bundle) (RelayerRefundLeaf_to_keccak_hash leaf)
              (proof params) in
  let? _ := require (chain_id leaf =? s_chain_id s) InvalidChainId in
  let? _ := require (negb (is_claimed (claimed_bitmap bundle) (leaf_id leaf))) ClaimedMerkleLeaf in
  let st1 := with_claimed st id bundle (leaf_id leaf) in
  let? _ := require (length (refund_accounts leaf) =? length (refund_amounts leaf))%nat InvalidMerkleLeaf in
  let? (st2, deferred_refunds) :=
    pay_refunds st1 vault authority mint token_program remaining_accounts 0
      (zip (refund_accounts leaf) (refund_amounts leaf)) false in
  let pending := default 0 (transfer_liability st2 !! mint) in
  let? pending' := (if 0 <? amount_to_return leaf
                    then checked_add 64 pending (amount_to_return leaf) else Ok pending) in
  let? _ := require (leaf_fits bundle params) OutOfMemory in
  Ok (emit (with_liability st2 mint pending')
        (ExecutedRelayerRefundRoot id leaf deferred_refunds signer)).

(** *** refund_claims.rs *)
Definition initialize_claim_account st (signer mint token_account : pubkey) : result (spoke_state L) :=
  let? _ := require (bool_decide (claim_accounts st !! (mint, token_account) = None)) AlreadyInUse in
  Ok (with_claim_accounts st
        (<[(mint, token_account) := {| claim_amount := 0; initializer := signer |}]> (claim_accounts st))).

Definition claim_relayer_refund st (initializer_account mint token_account token_program : pubkey)
  : result (spoke_state L) :=
  let? s := the_state st in
  let? a := from_option_err AccountNotInitialized (claim_accounts st !! (mint, token_account)) in
  let? _ := require (bool_decide (initializer_account = initializer a)) InvalidClaimInitializer in
  let? authority := state_pda program_id (s_seed s) in
  let vault := associated_token mint authority token_program in
  let? _ := check_token_account st vault mint authority token_program in
  let? _ := check_mint st mint token_program in
  let? info := from_option_err AccountNotInitialized (Interfaces.token_account (ledger st) token_account) in
  let? _ := require (bool_decide (tk_mint info = mint ∧ tk_program info = token_program)) ConstraintToken in
  let? _ := require (negb (claim_amount a =? 0)) ZeroRefundClaim in
  let? l := token_transfer (ledger st) vault token_account mint authority (claim_amount a) in
  let st1 := with_payout (with_ledger st l)
               {| po_mint := mint; po_to := token_account; po_amount := claim_amount a |} in
  Ok (emit (with_claim_accounts st1 (delete (mint, token_account) (claim_accounts st1)))
        (ClaimedRelayerRefund mint (claim_amount a) token_account)).

Definition close_claim_account st (signer mint token_account : pubkey) : result (spoke_state L) :=
  let? a := from_option_err AccountNotInitialized (claim_accounts st !! (mint, token_account)) in
  let? _ := require (bool_decide (signer = initializer a)) InvalidClaimInitializer in
  let? _ := require (negb (0 <? claim_amount a)) NonZeroRefundClaim in
  Ok (with_claim_accounts st (delete (mint, token_account) (claim_accounts st))).

(** *** token_bridge.rs: [deposit_for_burn] is the outcome of the CCTP call,
    the token ledger after it. *)
Definition bridge_tokens_to_hub_pool st (mint token_program : pubkey) (amount : Z)
    (deposit_for_burn : result L) : result (spoke_state L) :=
  let? s := the_state st in
  let? _ := check_mint st mint token_program in
  let? pending := from_option_err AccountNotInitialized (transfer_liability st !! mint) in
  let? authority := state_pda program_id (s_seed s) in
  let? _ := check_token_account st (associated_token mint authority token_program) mint authority token_program in
  let? _ := require (amount <=? pending) ExceededPendingBridgeAmount in
  let? pending' := checked_sub pending amount in
  let? l := deposit_for_burn in
  Ok (emit (with_ledger (with_liability st mint pending') l) (BridgedToHubPool amount mint)).

(** ** The instructions of the program *)
Inductive spoke_instruction :=
| Initialize (signer : pubkey) (seed n chain domain : Z) (admin : pubkey) (quote_buffer fill_buffer : Z)
| PauseDeposits (signer : pubkey) (pause : bool)
| PauseFills (signer : pubkey) (pause : bool)
| TransferOwnership (signer new_owner : pubkey)
| SetCrossDomainAdmin (signer admin : pubkey)
| SetEnableRoute (signer origin_token : pubkey) (chain : Z) (enabled : bool) (mint token_program : pubkey)
| RelayRootBundle (signer : pubkey) (refund_root slow_root : bytes)
| EmergencyDelete (signer : pubkey) (id : Z)
| DepositV3 (current_time : Z) (signer user_token_account mint token_program : pubkey) (p : DepositParams)
| ExecuteRelayerRefundLeaf (signer mint token_program : pubkey)
    (params : option ExecuteRelayerRefundLeafParams) (remaining_accounts : list AccountInfo)
| InitializeClaimAccount (signer mint token_account : pubkey)
| ClaimRelayerRefund (initializer_account mint token_account token_program : pubkey)
| CloseClaimAccount (signer mint token_account : pubkey)
| BridgeTokensToHubPool (mint token_program : pubkey) (amount : Z) (deposit_for_burn : result L).

Definition execute st (i : spoke_instruction) : result (spoke_state L) :=
  match i with
  | Initialize signer seed n chain domain admin qb fb => initialize st signer seed n chain domain admin qb fb
  | PauseDeposits signer pause => pause_deposits program_id st signer pause
  | PauseFills signer pause => pause_fills program_id st signer pause
  | TransferOwnership signer new_owner => transfer_ownership st signer new_owner
  | SetCrossDomainAdmin signer admin => set_cross_domain_admin program_id st signer admin
  | SetEnableRoute signer t chain enabled mint tp => set_enable_route program_id st signer t chain enabled mint tp
  | RelayRootBundle signer r s => relay_root_bundle program_id st signer r s
  | EmergencyDelete signer id => emergency_delete_root_bundle program_id st signer id
  | DepositV3 now signer user mint tp p => deposit_v3 program_id now st signer user mint tp p
  | ExecuteRelayerRefundLeaf signer mint tp params remaining =>
      execute_relayer_refund_leaf st signer mint tp params remaining
  | InitializeClaimAccount signer mint t => initialize_claim_account st signer mint t
  | ClaimRelayerRefund i mint t tp => claim_relayer_refund st i mint t tp
  | CloseClaimAccount signer mint t => close_claim_account st signer mint t
  | BridgeTokensToHubPool mint tp amount burn => bridge_tokens_to_hub_pool st mint tp amount burn
  end.

(** The program before its state account is initialised, on any ledger. *)
Definition fresh (l : L) : spoke_state L :=
  {| state := None; routes := ∅; root_bundles := ∅; claim_accounts := ∅; transfer_liability := ∅;
     ledger := l; payouts := []; events := [] |}.

(** The values the Rust types admit. *)
Definition instruction_wf (i : spoke_instruction) : Prop :=
  match i with
  | ExecuteRelayerRefundLeaf _ _ _ (Some params) _ => refund_leaf_wf (relayer_refund_leaf params)
  | _ => True
  end.

(** The states reached: an instruction succeeds, or others use the token
    program. *)
Inductive reachable : spoke_state L → Prop :=
| reach_fresh l : reachable (fresh l)
| reach_execute st i st' : reachable st → instruction_wf i → execute st i = Ok st' → reachable st'
| reach_ledger st l : reachable st → reachable (with_ledger st l).
End Bundle.

(** ** The abstract specification

    What relayers rely on: roots are published under fresh ids, a leaf proved
    under a root in force is executed at most once per id, each of its
    refunds is either transferred or credited, and what is credited to a token
    account and not yet withdrawn can be withdrawn. *)
Record spec_state := {
  sp_roots : gmap Z bytes;                          (* in force *)
  sp_published : list (Z * bytes);
  sp_executed : list (Z * RelayerRefundLeaf);
  sp_transfers : list payout;
  sp_credits : list payout;
  sp_withdrawals : list payout
}.

Definition spec_start : spec_state :=
  {| sp_roots := ∅; sp_published := []; sp_executed := []; sp_transfers := []; sp_credits := [];
     sp_withdrawals := [] |}.

(** What a list of payouts gives to a token account of a mint. *)
Fixpoint total (ps : list payout) (mint to : pubkey) : Z :=
  match ps with
  | [] => 0
  | p :: ps' => (if decide (po_mint p = mint ∧ po_to p = to) then po_amount p else 0) + total ps' mint to
  end.

Definition owed (sp : spec_state) (mint to : pubkey) : Z :=
  total (sp_credits sp) mint to - total (sp_withdrawals sp) mint to.

Definition refunds_of (leaf : RelayerRefundLeaf) : list payout :=
  zip_with (λ a v, {| po_mint := mint_public_key leaf; po_to := a; po_amount := v |})
    (refund_accounts leaf) (refund_amounts leaf).

(** The elements marked [b]. *)
Fixpoint select {A} (b : bool) (marks : list bool) (l : list A) : list A :=
  match marks, l with
  | m :: marks', x :: l' => if Bool.eqb m b then x :: select b marks' l' else select b marks' l'
  | _, _ => []
  end.

Definition not_executed (sp : spec_state) (id n : Z) : Prop :=
  ∀ leaf, (id, leaf) ∈ sp_executed sp → leaf_id leaf ≠ n.

Inductive spec_step `{Keccak} (sp : spec_state) : spec_state → Prop :=
| spec_publish id root :
    Forall (λ p, fst p < id) (sp_published sp) →
    spec_step sp {| sp_roots := <[id := root]> (sp_roots sp);
      sp_published := sp_published sp ++ [(id, root)]; sp_executed := sp_executed sp;
      sp_transfers := sp_transfers sp; sp_credits := sp_credits sp; sp_withdrawals := sp_withdrawals sp |}
| spec_withdraw_root id :
    spec_step sp {| sp_roots := delete id (sp_roots sp); sp_published := sp_published sp;
      sp_executed := sp_executed sp; sp_transfers := sp_transfers sp; sp_credits := sp_credits sp;
      sp_withdrawals := sp_withdrawals sp |}
| spec_execute id leaf root proof deferred :
    sp_roots sp !! id = Some root →
    verify_merkle_proof root (RelayerRefundLeaf_to_keccak_hash leaf) proof = Ok tt →
    not_executed sp id (leaf_id leaf) →
    length (refund_accounts leaf) = length (refund_amounts leaf) →
    length deferred = length (refunds_of leaf) →
    spec_step sp {| sp_roots := sp_roots sp; sp_published := sp_published sp;
      sp_executed := sp_executed sp ++ [(id, leaf)];
      sp_transfers := sp_transfers sp ++ select false deferred (refunds_of leaf);
      sp_credits := sp_credits sp ++ select true deferred (refunds_of leaf);
      sp_withdrawals := sp_withdrawals sp |}
| spec_withdraw mint to :
    0 < owed sp mint to →
    let p := {| po_mint := mint; po_to := to; po_amount := owed sp mint to |} in
    spec_step sp {| sp_roots := sp_roots sp; sp_published := sp_published sp;
      sp_executed := sp_executed sp; sp_transfers := sp_transfers sp ++ [p];
      sp_credits := sp_credits sp; sp_withdrawals := sp_withdrawals sp ++ [p] |}.

Inductive spec_reachable `{Keccak} : spec_state → Prop :=
| spec_reach_start : spec_reachable spec_start
| spec_reach_step sp sp' : spec_reachable sp → spec_step sp sp' → spec_reachable sp'.

(** What the events say. *)
Definition executed_leaves (es : list spoke_event) : list (Z * RelayerRefundLeaf) :=
  omap (λ e, match e with ExecutedRelayerRefundRoot id leaf _ _ => Some (id, leaf) | _ => None end) es.

Definition published_roots (es : list spoke_event) : list (Z * bytes) :=
  omap (λ e, match e with RelayedRootBundle id root _ => Some (id, root) | _ => None end) es.

Definition claim_of {L} (st : spoke_state L) (mint to : pubkey) : Z :=
  default 0 (claim_amount <$> claim_accounts st !! (mint, to)).

(** The refinement relation. *)
Record represents {L} (st : spoke_state L) (sp : spec_state) : Prop := {
  rep_seed : ∀ s, state st = Some s → s_seed s = 0;
  rep_roots : ∀ id, relayer_refund_root <$> root_bundles st !! id = sp_roots sp !! id;
  rep_fresh : Forall (λ p, fst p < default 0 (s_root_bundle_id <$> state st)) (sp_published sp);
  rep_live : ∀ id root, sp_roots sp !! id = Some root → (id, root) ∈ sp_published sp;
  rep_published : sp_published sp = published_roots (events st);
  rep_executed : sp_executed sp = executed_leaves (events st);
  rep_bitmap : ∀ id b n, root_bundles st !! id = Some b → 0 ≤ n →
    is_claimed (claimed_bitmap b) n = false ↔ not_executed sp id n;
  rep_old : Forall (λ e, fst e < default 0 (s_root_bundle_id <$> state st)) (sp_executed sp);
  rep_transfers : sp_transfers sp = payouts st;
  rep_claims : ∀ mint to, claim_of st mint to = owed sp mint to;
  rep_nonneg : ∀ k a, claim_accounts st !! k = Some a → 0 ≤ claim_amount a
}.

(** ** Lemmas *)
Lemma total_app l l' mint to : total (l ++ l') mint to = total l mint to + total l' mint to.
Proof. induction l as [|p l IH]; cbn; [lia|]. rewrite IH. lia. Qed.

Lemma total_select d l mint to : length d = length l →
  total (select false d l) mint to + total (select true d l) mint to = total l mint to.
Proof.
  revert l. induction d as [|b d IH]; intros [|p l] Hl; cbn in *; try done.
  injection Hl as Hl. specialize (IH l Hl). destruct b; cbn; lia.
Qed.

Lemma total_nonneg l mint to : Forall (λ p, 0 ≤ po_amount p) l → 0 ≤ total l mint to.
Proof. induction 1; cbn; [lia|]. destruct (decide _); lia. Qed.

Lemma executed_leaves_snoc es e :
  executed_leaves (es ++ [e]) = executed_leaves es ++ executed_leaves [e].
Proof. apply omap_app. Qed.

Lemma published_roots_snoc es e :
  published_roots (es ++ [e]) = published_roots es ++ published_roots [e].
Proof. apply omap_app. Qed.

(** What the payment of refunds leaves alone. *)
Definition same_bundles {L} (st st' : spoke_state L) : Prop :=
  state st' = state st ∧ routes st' = routes st ∧ root_bundles st' = root_bundles st ∧
  transfer_liability st' = transfer_liability st ∧ events st' = events st.

Section Lemmas.
Context {L : Type} `{HK : Keccak} `{HW : Web3} `{HT : TokenProgram L} (program_id : pubkey).
Implicit Types st : spoke_state L.

Lemma claim_of_insert st k a mint to :
  claim_of (with_claim_accounts st (<[k := a]> (claim_accounts st))) mint to =
  if decide (k = (mint, to)) then claim_amount a else claim_of st mint to.
Proof.
  unfold claim_of. cbn. case_decide as Hk.
  - subst. by rewrite lookup_insert_eq.
  - by rewrite lookup_insert_ne.
Qed.

Lemma claim_of_delete st k mint to :
  claim_of (with_claim_accounts st (delete k (claim_accounts st))) mint to =
  if decide (k = (mint, to)) then 0 else claim_of st mint to.
Proof.
  unfold claim_of. cbn. case_decide as Hk.
  - subst. by rewrite lookup_delete_eq.
  - by rewrite lookup_delete_ne.
Qed.

(** A refund goes to the account the leaf names, or to its claim account. *)
Lemma try_from_remaining_account_ok st rem i expected mint tp a :
  try_from_remaining_account st rem i expected mint tp = Ok a →
  match a with
  | TokenAccount k => k = expected
  | ClaimAccountAt k c => k = (mint, expected) ∧ claim_accounts st !! k = Some c
  end.
Proof.
  unfold try_from_remaining_account, try_token_account_from_account_info,
    try_claim_account_from_account_info.
  destruct (rem !! i) as [[[k|m t] w]|]; [| |done]; cbn [from_option_err result_bind key].
  - repeat case_match; intros Hx; try done; simplify_eq.
    match goal with Hb : negb (bool_decide (_ = expected)) = false |- _ =>
      by apply negb_false_iff, bool_decide_eq_true in Hb end.
  - repeat case_match; intros Hx; try done; simplify_eq.
    match goal with Hb : negb (bool_decide (ClaimPda _ _ = _)) = false |- _ =>
      apply negb_false_iff, bool_decide_eq_true in Hb; by simplify_eq end.
Qed.

Lemma pay_refund_ok st v au mint tp rem i account amount st' d :
  0 ≤ amount → (∀ k a, claim_accounts st !! k = Some a → 0 ≤ claim_amount a) →
  pay_refund st v au mint tp rem i account amount = Ok (st', d) →
  let p := {| po_mint := mint; po_to := account; po_amount := amount |} in
  same_bundles st st' ∧
  payouts st' = payouts st ++ select false [d] [p] ∧
  (∀ m t, claim_of st' m t = claim_of st m t + total (select true [d] [p]) m t) ∧
  (∀ k a, claim_accounts st' !! k = Some a → 0 ≤ claim_amount a).
Proof.
  intros Ha Hn. unfold pay_refund.
  destruct (try_from_remaining_account _ _ _ _ _ _) as [[k|k c]|] eqn:Ht; [| |done];
    apply try_from_remaining_account_ok in Ht; cbn [result_bind].
  - destruct (token_transfer _ _ _ _ _ _) as [l|]; [|done]. cbn [result_bind].
    intros [= <- <-]. subst k. split_and!; try done; cbn.
    intros m t. unfold claim_of. cbn. lia.
  - destruct Ht as [-> Hc]. unfold checked_add. destruct (_ <? _) eqn:Hlt; [|done]. bool_to_prop.
    cbn [result_bind]. intros [= <- <-]. split_and!; [done|by rewrite app_nil_r| |].
    + intros m t. rewrite claim_of_insert. cbn [select Bool.eqb total po_mint po_to po_amount claim_amount].
      destruct (decide ((mint, account) = (m, t))) as [[= <- <-]|Hne].
      * rewrite decide_True by done. unfold claim_of. rewrite Hc. cbn. lia.
      * rewrite decide_False by (intros [-> ->]; done). lia.
    + intros k a. cbn. destruct (decide (k = (mint, account))) as [->|].
      * rewrite lookup_insert_eq. intros [= <-]. cbn. specialize (Hn _ _ Hc). lia.
      * rewrite lookup_insert_ne by done. apply Hn.
Qed.

Definition refund_payouts (mint : pubkey) (refunds : list (pubkey * Z)) : list payout :=
  map (λ r, {| po_mint := mint; po_to := fst r; po_amount := snd r |}) refunds.

Lemma refund_payouts_cons mint a v refunds :
  refund_payouts mint ((a, v) :: refunds) =
    {| po_mint := mint; po_to := a; po_amount := v |} :: refund_payouts mint refunds.
Proof. done. Qed.

Lemma pay_refunds_ok st v au mint tp rem i refunds b st' b' :
  Forall (λ r, 0 ≤ snd r) refunds → (∀ k a, claim_accounts st !! k = Some a → 0 ≤ claim_amount a) →
  pay_refunds st v au mint tp rem i refunds b = Ok (st', b') →
  ∃ d, length d = length refunds ∧
    same_bundles st st' ∧
    payouts st' = payouts st ++ select false d (refund_payouts mint refunds) ∧
    (∀ m t, claim_of st' m t = claim_of st m t + total (select true d (refund_payouts mint refunds)) m t) ∧
    (∀ k a, claim_accounts st' !! k = Some a → 0 ≤ claim_amount a).
Proof.
  intros Hr. revert st i b. induction Hr as [|[account amount] refunds Ha Hr IH]; intros st i b Hn;
    cbn [pay_refunds].
  - intros [= <- <-]. exists []. split_and!; try done; cbn; [by rewrite app_nil_r|lia].
  - destruct (pay_refund _ _ _ _ _ _ _ _ _) as [[st1 d1]|] eqn:H1; [|done]. cbn [result_bind].
    apply pay_refund_ok in H1 as (Hs1 & Hp1 & Hc1 & Hn1); [|done..]. intros Hrest.
    destruct (IH _ _ _ Hn1 Hrest) as (d & Hd & Hs & Hp & Hc & Hn').
    exists (d1 :: d). rewrite refund_payouts_cons.
    split_and!; [cbn; lia| |rewrite Hp, Hp1, <- app_assoc; by destruct d1| |done].
    + unfold same_bundles in *. destruct Hs as (-> & -> & -> & -> & ->). done.
    + intros m t. rewrite Hc, Hc1. destruct d1; cbn; lia.
Qed.
End Lemmas.

Section Refinement.
Context {L : Type} `{HK : Keccak} `{HW : Web3} `{HT : TokenProgram L} `{HR : SolanaRuntime} (program_id : pubkey).
Implicit Types (st : spoke_state L) (sp : spec_state).

Lemma represents_fresh (l : L) : represents (fresh l) spec_start.
Proof.
  split; cbn; try done; intros; try constructor.
  all: try (by rewrite ?lookup_empty); try (by rewrite lookup_empty in *).
Qed.

(** Instructions that touch neither bundles nor claims. *)
Lemma represents_frame st st' sp :
  represents st sp →
  (∀ s, state st' = Some s → s_seed s = 0) →
  default 0 (s_root_bundle_id <$> state st') = default 0 (s_root_bundle_id <$> state st) →
  root_bundles st' = root_bundles st → claim_accounts st' = claim_accounts st →
  payouts st' = payouts st →
  executed_leaves (events st') = executed_leaves (events st) →
  published_roots (events st') = published_roots (events st) →
  represents st' sp.
Proof.
  intros [] Hs Hid Hb Hc Hp He Hpub. split; unfold claim_of in *.
  all: rewrite ?Hid, ?Hb, ?Hc, ?Hp, ?He, ?Hpub; assumption.
Qed.

Lemma set_seed_ok s seed s' : set_seed s seed = Ok s' →
  seed = 0 ∧ s_seed s' = 0 ∧ s_root_bundle_id s' = s_root_bundle_id s.
Proof.
  unfold set_seed. destruct (Z.eqb_spec seed 0); [|done]. cbn. intros [= <-]. done.
Qed.

(** An instruction that only touches what [represents_frame] ignores. *)
Ltac frame st Hseed :=
  apply (represents_frame st); cbn;
  rewrite ?executed_leaves_snoc, ?published_roots_snoc, ?app_nil_r; try done;
  repeat match goal with
  | |- ∀ s, Some _ = Some s → _ => intros ? [= <-]; cbn; by apply Hseed
  | Hs : state _ = Some _ |- _ => rewrite Hs
  end; try done.

(** The administrative instructions that keep the bundles, and deposits. *)
Lemma frame_step st i st' sp :
  represents st sp → execute program_id st i = Ok st' →
  match i with
  | RelayRootBundle _ _ _ | EmergencyDelete _ _ | ExecuteRelayerRefundLeaf _ _ _ _ _
  | InitializeClaimAccount _ _ _ | ClaimRelayerRefund _ _ _ _ | CloseClaimAccount _ _ _ => True
  | _ => represents st' sp
  end.
Proof.
  intros Hr. pose proof (rep_seed _ _ Hr) as Hseed.
  destruct i; cbn [execute]; intros Hx; try exact I.
  - unfold initialize in Hx. passes Hx.
    match goal with Hs : set_seed _ _ = Ok _ |- _ => apply set_seed_ok in Hs as (-> & Hz & Hi) end.
    injection Hx as <-. cbn in Hi.
    match goal with Hb : bool_decide _ = true |- _ => apply bool_decide_eq_true in Hb as Hne end.
    assert (state st = None) as Hn.
    { destruct (state st) as [s0|]; [|done]. cbn in Hne. by rewrite (Hseed s0) in Hne. }
    apply (represents_frame st); try done; cbn; [by intros ? [= <-]|by rewrite Hn, Hi].
  - unfold pause_deposits, the_state in Hx. passes Hx. injection Hx as <-. frame st Hseed.
  - unfold pause_fills, the_state in Hx. passes Hx. injection Hx as <-. frame st Hseed.
  - unfold transfer_ownership, the_state in Hx. passes Hx. injection Hx as <-. frame st Hseed.
  - unfold set_cross_domain_admin, the_state in Hx. passes Hx. injection Hx as <-. frame st Hseed.
  - unfold set_enable_route, the_state in Hx. passes Hx. injection Hx as <-.
    match goal with Hv : init_vault _ _ _ _ _ = Ok _ |- _ => unfold init_vault in Hv; passes Hv;
      destruct (token_account _ _) in Hv; passes Hv; injection Hv as <- end; frame st Hseed.
  - unfold deposit_v3, the_state in Hx. passes Hx. injection Hx as <-. frame st Hseed.
  - unfold bridge_tokens_to_hub_pool, the_state in Hx. passes Hx. injection Hx as <-. frame st Hseed.
Qed.

(** Claim accounts are opened empty and closed empty. *)
Lemma claim_account_step (st st' : spoke_state L) (sp : spec_state) (k : pubkey * pubkey) (m : gmap (pubkey * pubkey) ClaimAccount) :
  represents st sp → st' = with_claim_accounts st m →
  (∀ mint to, claim_of st' mint to = claim_of st mint to) →
  (∀ k' a, m !! k' = Some a → k' = k ∧ claim_amount a = 0 ∨ claim_accounts st !! k' = Some a) →
  represents st' sp.
Proof.
  intros [] -> Hc Hm. split; try assumption.
  - intros mint to. by rewrite Hc.
  - intros k' a [[_ ->]|?]%Hm; [done|eauto].
Qed.

Lemma relay_step st signer r s st' sp :
  represents st sp → relay_root_bundle program_id st signer r s = Ok st' →
  ∃ sp', spec_step sp sp' ∧ represents st' sp'.
Proof.
  intros Hr. unfold relay_root_bundle, the_state. intros Hx. passes Hx. injection Hx as <-.
  match goal with Hs : state st = Some ?s, Hadd : checked_add 32 _ _ = Ok ?n |- _ =>
    rename Hs into Hst, Hadd into Hn; rename s into cfg end.
  unfold checked_add in Hn. destruct (_ <? _); [|done]. injection Hn as <-.
  destruct Hr as [Hseed Hroots Hfresh Hlive Hpub Hex Hbm Hold Htr Hcl Hnn].
  rewrite Hst in Hfresh, Hold. cbn in Hfresh, Hold.
  eexists. split; [apply (spec_publish _ (s_root_bundle_id cfg) r); exact Hfresh|].
  split; cbn; rewrite ?executed_leaves_snoc, ?published_roots_snoc, ?app_nil_r; try done.
  - intros ? [= <-]. by apply (Hseed cfg).
  - intros id. destruct (decide (id = s_root_bundle_id cfg)) as [->|].
    + by rewrite !lookup_insert_eq.
    + by rewrite !lookup_insert_ne.
  - apply Forall_app. split; [|by constructor; cbn; [lia|]].
    eapply Forall_impl; [exact Hfresh|]. cbn. lia.
  - intros id root. destruct (decide (id = s_root_bundle_id cfg)) as [->|].
    + rewrite lookup_insert_eq. intros [= <-]. apply elem_of_app. right. by left.
    + rewrite lookup_insert_ne by done. intros ?. apply elem_of_app. left. by apply Hlive.
  - cbn. by rewrite Hpub.
  - intros id b n. destruct (decide (id = s_root_bundle_id cfg)) as [->|].
    + rewrite lookup_insert_eq. intros [= <-] Hn. cbn. split; [|done].
      intros _ leaf Hin. apply (proj1 (Forall_forall _ _) Hold) in Hin. cbn in Hin. lia.
    + rewrite lookup_insert_ne by done. apply Hbm.
  - eapply Forall_impl; [exact Hold|]. cbn. lia.
Qed.

Lemma delete_step st signer id st' sp :
  represents st sp → emergency_delete_root_bundle program_id st signer id = Ok st' →
  ∃ sp', spec_step sp sp' ∧ represents st' sp'.
Proof.
  intros Hr Hx. unfold emergency_delete_root_bundle, the_state in Hx. passes Hx. injection Hx as <-.
  destruct Hr.
  eexists. split; [apply (spec_withdraw_root _ id)|].
  split; cbn; rewrite ?executed_leaves_snoc, ?published_roots_snoc, ?app_nil_r; try done.
  - intros id'. destruct (decide (id' = id)) as [->|].
    + by rewrite !lookup_delete_eq.
    + by rewrite !lookup_delete_ne.
  - intros id' root. destruct (decide (id' = id)) as [->|].
    + by rewrite lookup_delete_eq.
    + rewrite lookup_delete_ne by done. eauto.
  - intros id' b n. destruct (decide (id' = id)) as [->|].
    + by rewrite lookup_delete_eq.
    + rewrite lookup_delete_ne by done. eauto.
Qed.

Lemma refund_payouts_zip leaf :
  refunds_of leaf = refund_payouts (mint_public_key leaf) (zip (refund_accounts leaf) (refund_amounts leaf)).
Proof.
  unfold refunds_of, refund_payouts. generalize (refund_amounts leaf) as vs.
  induction (refund_accounts leaf) as [|a l IH]; intros [|v vs]; cbn; try done. by rewrite IH.
Qed.

Lemma zip_amounts_nonneg leaf : refund_leaf_wf leaf →
  Forall (λ r, 0 ≤ snd r) (zip (refund_accounts leaf) (refund_amounts leaf)).
Proof.
  intros (_ & _ & Ha & _). generalize (refund_accounts leaf) as l.
  induction Ha as [|v vs Hv Hvs IH]; intros [|a l]; cbn; constructor; auto.
  cbn. unfold u64 in Hv. lia.
Qed.

Lemma not_executed_snoc sp id leaf n ex :
  ex = sp_executed sp ++ [(id, leaf)] →
  (∀ l, (id, l) ∈ ex → leaf_id l ≠ n) ↔ leaf_id leaf ≠ n ∧ not_executed sp id n.
Proof.
  intros ->. unfold not_executed. split.
  - intros Hl. split; [apply Hl|intros l ?; apply Hl]; rewrite elem_of_app; [right|by left].
    by apply list_elem_of_singleton.
  - intros [Hl Hs] l [Hin|[= ->]%list_elem_of_singleton]%elem_of_app; auto.
Qed.

(** What a successful execution checked and paid. *)
Lemma execute_leaf_ok st signer mint tp params rem st' :
  execute_relayer_refund_leaf program_id st signer mint tp (Some params) rem = Ok st' →
  let leaf := relayer_refund_leaf params in
  let id := root_bundle_id params in
  ∃ s b au st2 d pending,
    state st = Some s ∧ root_bundles st !! id = Some b ∧ mint = mint_public_key leaf ∧
    verify_merkle_proof (relayer_refund_root b) (RelayerRefundLeaf_to_keccak_hash leaf) (proof params) = Ok tt ∧
    chain_id leaf = s_chain_id s ∧
    is_claimed (claimed_bitmap b) (leaf_id leaf) = false ∧
    length (refund_accounts leaf) = length (refund_amounts leaf) ∧
    pay_refunds (with_claimed st id b (leaf_id leaf)) (associated_token mint au tp) au mint tp rem 0
      (zip (refund_accounts leaf) (refund_amounts leaf)) false = Ok (st2, d) ∧
    st' = emit (with_liability st2 mint pending) (ExecutedRelayerRefundRoot id leaf d signer).
Proof.
  intros Hx. unfold execute_relayer_refund_leaf, the_state in Hx. cbn [from_option_err result_bind] in Hx.
  passes Hx.
  match goal with u : spoke_state L * bool |- _ => destruct u as [st2 d] end. passes Hx.
  injection Hx as <-. bool_to_prop. cbv zeta. do 6 eexists. split_and!; try done.
  - match goal with Hm : bool_decide (mint = _) = true |- _ => by apply bool_decide_eq_true in Hm end.
  - match goal with Hv : verify_merkle_proof _ _ _ = Ok ?u |- _ => by destruct u end.
  - match goal with Hc : negb (is_claimed _ _) = true |- _ => by apply negb_true_iff in Hc end.
  - match goal with Hl : (_ =? _)%nat = true |- _ => by apply Nat.eqb_eq in Hl end.
Qed.

Lemma execute_leaf_step st signer mint tp params rem st' sp :
  represents st sp → refund_leaf_wf (relayer_refund_leaf params) →
  execute_relayer_refund_leaf program_id st signer mint tp (Some params) rem = Ok st' →
  ∃ sp', spec_step sp sp' ∧ represents st' sp'.
Proof.
  intros Hr Hwf Hx. apply execute_leaf_ok in Hx. cbv zeta in Hx.
  destruct params as [id leaf pf]. cbn [root_bundle_id relayer_refund_leaf proof] in *.
  destruct Hx as (s & b & au & st2 & d & pending & Hst & Hb & -> & Hv & _ & Hc & Hlen & Hpay & ->).
  destruct Hr as [Hseed Hroots Hfresh Hlive Hpub Hex Hbm Hold Htr Hcl Hnn].
  assert (0 ≤ leaf_id leaf) as Hid by (destruct Hwf as (_ & _ & _ & Hi & _); unfold u32 in Hi; lia).
  apply pay_refunds_ok in Hpay as (marks & Hmarks & (Hs1 & _ & Hs3 & _ & Hs5) & Hp & Hc' & Hn');
    [|by apply zip_amounts_nonneg|done].
  cbn in Hs1, Hs3, Hs5. rewrite <- refund_payouts_zip in *.
  assert (Hexec : not_executed sp id (leaf_id leaf)) by (by apply (Hbm id b)).
  eexists. split.
  { apply (spec_execute _ id leaf (relayer_refund_root b) pf marks); try done.
    - by rewrite <- Hroots, Hb.
    - by rewrite refund_payouts_zip, Hmarks; unfold refund_payouts; rewrite length_map. }
  rewrite Hst in Hfresh, Hold. cbn in Hfresh, Hold.
  split; cbn; rewrite ?executed_leaves_snoc, ?published_roots_snoc, ?app_nil_r, ?Hs1, ?Hs3, ?Hs5, ?Hst; cbn;
    rewrite ?app_nil_r; try done.
  - intros ? [= <-]. by apply Hseed.
  - intros id'. rewrite <- Hroots. destruct (decide (id' = id)) as [->|].
    + by rewrite lookup_insert_eq, Hb.
    + by rewrite lookup_insert_ne.
  - by rewrite Hex.
  - intros id' b' n. destruct (decide (id' = id)) as [->|].
    + rewrite lookup_insert_eq. intros [= <-] Hn0. cbn.
      rewrite set_claimed_spec by done. unfold not_executed. cbn.
      rewrite (not_executed_snoc sp id leaf n _ eq_refl), orb_false_iff, Z.eqb_neq.
      by rewrite (Hbm id b n Hb Hn0).
    + rewrite lookup_insert_ne by done. intros Hb' Hn0. rewrite (Hbm id' b' n Hb' Hn0).
      unfold not_executed. cbn. split; intros Hall l Hin; apply Hall; rewrite elem_of_app in *; [|by left].
      destruct Hin as [?|[= ]%list_elem_of_singleton]; [done|congruence].
  - apply Forall_app. split; [done|]. constructor; [|done].
    apply (proj1 (Forall_forall _ _) Hfresh (id, relayer_refund_root b)), Hlive.
    by rewrite <- Hroots, Hb.
  - by rewrite Hp, Htr.
  - intros m t. unfold owed. cbn. rewrite total_app. unfold claim_of in *. cbn in *.
    rewrite Hc', Hcl. unfold owed. lia.
Qed.
Lemma claim_step st who mint to tp st' sp :
  represents st sp → claim_relayer_refund program_id st who mint to tp = Ok st' →
  ∃ sp', spec_step sp sp' ∧ represents st' sp'.
Proof.
  intros Hr Hx. unfold claim_relayer_refund, the_state in Hx. passes Hx. injection Hx as <-.
  match goal with Ha : claim_accounts st !! _ = Some ?c, Hz : negb (claim_amount _ =? 0) = true |- _ =>
    rename Ha into Hac, Hz into Hnz; rename c into acc end.
  destruct Hr as [Hseed Hroots Hfresh Hlive Hpub Hex Hbm Hold Htr Hcl Hnn].
  assert (Hamt : owed sp mint to = claim_amount acc).
  { rewrite <- Hcl. unfold claim_of. by rewrite Hac. }
  apply negb_true_iff, Z.eqb_neq in Hnz. pose proof (Hnn _ _ Hac) as Hpos.
  eexists. split; [apply (spec_withdraw _ mint to); lia|].
  split; cbn; rewrite ?executed_leaves_snoc, ?published_roots_snoc; cbn; rewrite ?app_nil_r; try done.
  - by rewrite Hamt, Htr.
  - intros m' t'. unfold owed. cbn. rewrite total_app. cbn.
    transitivity (if decide ((mint, to) = (m', t')) then 0 else claim_of st m' t');
      [exact (claim_of_delete st (mint, to) m' t')|].
    rewrite Hcl. unfold owed in *. destruct (decide ((mint, to) = (m', t'))) as [[= <- <-]|Hne].
    + rewrite decide_True by done. lia.
    + rewrite decide_False by (intros [-> ->]; done). lia.
  - intros k c. destruct (decide (k = (mint, to))) as [->|].
    + by rewrite lookup_delete_eq.
    + rewrite lookup_delete_ne by done. eauto.
Qed.

Lemma initialize_claim_step st signer mint to st' sp :
  represents st sp → initialize_claim_account st signer mint to = Ok st' → represents st' sp.
Proof.
  intros Hr Hx. unfold initialize_claim_account in Hx. passes Hx. injection Hx as <-.
  match goal with Hb : bool_decide _ = true |- _ => apply bool_decide_eq_true in Hb as Hnone end.
  eapply (claim_account_step st _ sp (mint, to)); [done|reflexivity| |].
  - intros m t. rewrite claim_of_insert. case_decide as Hk; [|done].
    simplify_eq. unfold claim_of. by rewrite Hnone.
  - intros k a. destruct (decide (k = (mint, to))) as [->|].
    + rewrite lookup_insert_eq. intros [= <-]. by left.
    + rewrite lookup_insert_ne by done. by right.
Qed.

Lemma close_claim_step st signer mint to st' sp :
  represents st sp → close_claim_account st signer mint to = Ok st' → represents st' sp.
Proof.
  intros Hr Hx. unfold close_claim_account in Hx. passes Hx. injection Hx as <-.
  match goal with Ha : claim_accounts st !! _ = Some ?c, Hz : negb (0 <? _) = true |- _ =>
    rename Ha into Hac, Hz into Hz0; rename c into acc end.
  apply negb_true_iff, Z.ltb_ge in Hz0.
  eapply (claim_account_step st _ sp (mint, to)); [done|reflexivity| |].
  - intros m t. rewrite claim_of_delete.
    destruct (decide ((mint, to) = (m, t))) as [[= <- <-]|]; [|done].
    unfold claim_of. rewrite Hac. cbn. pose proof (rep_nonneg _ _ Hr _ _ Hac). lia.
  - intros k a. destruct (decide (k = (mint, to))) as [->|].
    + by rewrite lookup_delete_eq.
    + rewrite lookup_delete_ne by done. by right.
Qed.

(** Every instruction is a step of the specification, or none. *)
Lemma execute_simulates st i st' sp :
  represents st sp → instruction_wf i → execute program_id st i = Ok st' →
  ∃ sp', (sp' = sp ∨ spec_step sp sp') ∧ represents st' sp'.
Proof.
  intros Hr Hwf Hx. pose proof (frame_step st i st' sp Hr Hx) as Hframe.
  destruct i as [| | | | | |signer r s|signer id| |signer mint tp params rem|signer mint to
                |who mint to tp|signer mint to|]; cbn [execute] in Hx;
    try (exists sp; split; [by left|exact Hframe]).
  - destruct (relay_step _ _ _ _ _ _ Hr Hx) as (sp' & ? & ?). eauto.
  - destruct (delete_step _ _ _ _ _ Hr Hx) as (sp' & ? & ?). eauto.
  - destruct params as [params|]; [|done].
    destruct (execute_leaf_step _ _ _ _ _ _ _ _ Hr Hwf Hx) as (sp' & ? & ?). eauto.
  - exists sp. split; [by left|]. by eapply initialize_claim_step.
  - destruct (claim_step _ _ _ _ _ _ _ Hr Hx) as (sp' & ? & ?). eauto.
  - exists sp. split; [by left|]. by eapply close_claim_step.
Qed.

Lemma reachable_represents st :
  reachable program_id st → ∃ sp, spec_reachable sp ∧ represents st sp.
Proof.
  induction 1 as [l|st i st' _ (sp & Hsp & Hr) Hwf Hx|st l _ (sp & Hsp & Hr)].
  - exists spec_start. split; [constructor|apply represents_fresh].
  - destruct (execute_simulates st i st' sp Hr Hwf Hx) as (sp' & [->|Hs] & Hr'); [eauto|].
    exists sp'. split; [by econstructor|done].
  - exists sp. split; [done|]. apply (represents_frame st); try done. apply Hr.
Qed.
End Refinement.

(** ** What the specification promises *)
Section Specification.
Context `{HK : Keccak}.
Implicit Types sp : spec_state.

Definition leaf_key (e : Z * RelayerRefundLeaf) : Z * Z := (fst e, leaf_id (snd e)).

Definition spec_inv sp : Prop :=
  NoDup (map leaf_key (sp_executed sp)) ∧
  NoDup (map fst (sp_published sp)) ∧
  (∀ id root, sp_roots sp !! id = Some root → (id, root) ∈ sp_published sp) ∧
  (∀ id leaf, (id, leaf) ∈ sp_executed sp → ∃ root proof, (id, root) ∈ sp_published sp ∧
     length (refund_accounts leaf) = length (refund_amounts leaf) ∧
     verify_merkle_proof root (RelayerRefundLeaf_to_keccak_hash leaf) proof = Ok tt) ∧
  (∀ mint to, total (sp_transfers sp) mint to + owed sp mint to =
              total (concat (map (λ e, refunds_of (snd e)) (sp_executed sp))) mint to).

Lemma spec_step_inv sp sp' : spec_inv sp → spec_step sp sp' → spec_inv sp'.
Proof.
  intros (Hnd & Hids & Hlive & Hex & Htot) Hs.
  destruct Hs as [id root Hfresh|id|id leaf root pf d Hroot Hv Hnew Hlen Hd|mint to Hpos p];
    split_and!; cbn; try done.
  - rewrite map_app. apply NoDup_app. split_and!; [done| |apply NoDup_singleton].
    intros x Hx Hid%list_elem_of_singleton. apply list_elem_of_fmap in Hx as (y & -> & Hy).
    apply (proj1 (Forall_forall _ _) Hfresh) in Hy. cbn in *. lia.
  - intros id' root'. destruct (decide (id' = id)) as [->|].
    + rewrite lookup_insert_eq. intros [= <-]. apply elem_of_app. right. by left.
    + rewrite lookup_insert_ne by done. intros ?. apply elem_of_app. left. by apply Hlive.
  - intros id' leaf Hin. destruct (Hex _ _ Hin) as (r & pf & ? & ? & ?).
    exists r, pf. split_and!; [|done..]. apply elem_of_app. by left.
  - intros id' root'. destruct (decide (id' = id)) as [->|].
    + by rewrite lookup_delete_eq.
    + rewrite lookup_delete_ne by done. apply Hlive.
  - rewrite map_app. apply NoDup_app. split_and!; [done| |apply NoDup_singleton].
    intros x Hx ->%list_elem_of_singleton. apply list_elem_of_fmap in Hx as ([id' l] & Heq & Hy).
    injection Heq as -> Heq. by eapply Hnew.
  - intros id' l [Hin|[= -> ->]%list_elem_of_singleton]%elem_of_app; [by apply Hex|].
    exists root, pf. split_and!; [by apply Hlive|done|done].
  - intros mint to. unfold owed in *. cbn. rewrite !map_app, concat_app, !total_app. cbn.
    rewrite app_nil_r, <- (total_select d (refunds_of leaf) mint to Hd).
    specialize (Htot mint to). lia.
  - intros m t. unfold owed in *. cbn. rewrite !total_app. specialize (Htot m t). lia.
Qed.

Lemma spec_reachable_inv sp : spec_reachable sp → spec_inv sp.
Proof.
  induction 1; [|by eapply spec_step_inv].
  split_and!; cbn; try constructor; intros; try done.
  all: by match goal with Hin : _ ∈ [] |- _ => apply not_elem_of_nil in Hin | Hl : ∅ !! _ = Some _ |- _ => rewrite lookup_empty in Hl end.
Qed.
End Specification.

(** ** Progress: refunds to token accounts are paid *)
Fixpoint refund_sum (refunds : list (pubkey * Z)) : Z :=
  match refunds with [] => 0 | r :: refunds' => snd r + refund_sum refunds' end.

(** The token accounts the refunds go to, and a vault that can pay them. *)
Record payable {L : Type} `{TokenProgram L} (l : L) (vault authority mint tp : pubkey)
    (refunds : list (pubkey * Z)) : Prop := {
  pay_vault : token_account l vault = Some {| tk_mint := mint; tk_authority := authority; tk_program := tp |};
  pay_vault_open : frozen l vault = false;
  pay_funds : refund_sum refunds ≤ balance l vault;
  pay_amounts : Forall (λ r, 0 ≤ snd r) refunds;
  pay_accounts : Forall (λ r, fst r ≠ vault ∧ frozen l (fst r) = false ∧
    (∃ a, token_account l (fst r) = Some {| tk_mint := mint; tk_authority := a; tk_program := tp |}) ∧
    balance l (fst r) + total (refund_payouts mint refunds) mint (fst r) < 2 ^ 64) refunds
}.

Definition as_token_accounts (refunds : list (pubkey * Z)) : list AccountInfo :=
  map (λ r, {| key := Key (fst r); is_writable := true |}) refunds.

Section Progress.
Context {L : Type} `{HK : Keccak} `{HW : Web3} `{HT : TokenProgram L} `{HR : SolanaRuntime} (program_id : pubkey).
Implicit Types (st : spoke_state L).

Lemma refund_sum_nonneg refunds : Forall (λ r : pubkey * Z, 0 ≤ snd r) refunds → 0 ≤ refund_sum refunds.
Proof. induction 1; cbn; lia. Qed.

Lemma refund_payouts_nonneg mint refunds :
  Forall (λ r : pubkey * Z, 0 ≤ snd r) refunds → Forall (λ p, 0 ≤ po_amount p) (refund_payouts mint refunds).
Proof. unfold refund_payouts. induction 1; cbn; constructor; auto. Qed.

(** The first refund is transferred, and the rest stay payable. *)
Lemma payable_head st vault au mint tp rem i k v refunds :
  payable (ledger st) vault au mint tp ((k, v) :: refunds) →
  rem !! i = Some {| key := Key k; is_writable := true |} →
  ∃ l, pay_refund st vault au mint tp rem i k v =
       Ok (with_payout (with_ledger st l) {| po_mint := mint; po_to := k; po_amount := v |}, false) ∧
    (∀ k', token_account l k' = token_account (ledger st) k' ∧ frozen l k' = frozen (ledger st) k' ∧
           mint_program l k' = mint_program (ledger st) k') ∧
    (∀ k', balance l k' = balance (ledger st) k' - (if decide (k' = vault) then v else 0)
                                                  + (if decide (k' = k) then v else 0)) ∧
    payable l vault au mint tp refunds.
Proof.
  intros [Hv Hvo Hf Ha Hacc] Hrem.
  apply Forall_cons in Ha as [Hpos Ha]. apply Forall_cons in Hacc as [(Hne & Hfr & (a & Hk) & Hbal) Hacc].
  rewrite refund_payouts_cons in Hbal. cbn in Hne, Hfr, Hk, Hbal, Hf, Hpos. pose proof (refund_sum_nonneg _ Ha).
  pose proof (total_nonneg _ mint k (refund_payouts_nonneg mint _ Ha)).
  rewrite decide_True in Hbal by done.
  pose proof (token_transfer_ok (ledger st) vault k mint au v tp a Hv Hk Hvo Hfr ltac:(lia) (not_eq_sym Hne)
                ltac:(lia)) as Hok.
  destruct (token_transfer (ledger st) vault k mint au v) as [l|] eqn:Ht; [|done].
  pose proof (token_transfer_spec _ _ _ _ _ _ _ Ht) as (_ & Hinfo & Hbals).
  exists l. split_and!; [|done|done|].
  - unfold pay_refund, try_from_remaining_account, try_token_account_from_account_info.
    rewrite Hrem. cbn [from_option_err result_bind key is_writable negb]. rewrite Hk. cbn [tk_mint tk_program].
    rewrite !bool_decide_eq_true_2 by done. cbn [negb result_bind]. by rewrite Ht.
  - split; [by rewrite (proj1 (Hinfo vault))|by rewrite (proj1 (proj2 (Hinfo vault)))| |done|].
    + rewrite Hbals, decide_True, decide_False by congruence. lia.
    + eapply Forall_impl; [exact Hacc|]. intros [k' v'] (Hne' & Hfr' & (a' & Hk') & Hbal').
      rewrite refund_payouts_cons in Hbal'. cbn [fst snd total po_mint po_to po_amount] in *.
      split_and!; [done|by rewrite (proj1 (proj2 (Hinfo k')))|exists a'; by rewrite (proj1 (Hinfo k'))|].
      rewrite Hbals, decide_False by done.
      destruct (decide (k' = k)) as [->|Hkk].
      * rewrite decide_True in Hbal' by done. lia.
      * rewrite decide_False in Hbal' by (intros [_ ?]; by apply Hkk). lia.
Qed.

Lemma pay_refunds_paid st vault au mint tp rem i refunds b :
  payable (ledger st) vault au mint tp refunds →
  (∀ j r, refunds !! j = Some r → rem !! (i + j)%nat = Some {| key := Key (fst r); is_writable := true |}) →
  ∃ st', pay_refunds st vault au mint tp rem i refunds b = Ok (st', b) ∧
    same_bundles st st' ∧ claim_accounts st' = claim_accounts st ∧
    payouts st' = payouts st ++ refund_payouts mint refunds ∧
    ∀ k, balance (ledger st') k = balance (ledger st) k + total (refund_payouts mint refunds) mint k
                                  - (if decide (k = vault) then refund_sum refunds else 0).
Proof.
  revert st i. induction refunds as [|[k v] refunds IH]; intros st i Hpay Hrem; cbn [pay_refunds].
  - exists st. split_and!; [done|done|done|by rewrite app_nil_r|]. intros k. cbn. destruct (decide _); lia.
  - pose proof (Hrem 0%nat (k, v) eq_refl) as H0. rewrite Nat.add_0_r in H0.
    destruct (payable_head st vault au mint tp rem i k v refunds Hpay H0) as (l & -> & _ & Hbal & Hpay').
    cbn [result_bind]. rewrite orb_false_r.
    set (st1 := with_payout (with_ledger st l) _).
    destruct (IH st1 (S i) Hpay') as (st' & -> & Hsame & Hcl & Hpo & Hb).
    { intros j r Hj. replace (S i + j)%nat with (i + S j)%nat by lia. by apply Hrem. }
    exists st'. split_and!; [done|exact Hsame|exact Hcl| |].
    + rewrite Hpo, refund_payouts_cons. unfold st1. cbn. by rewrite <- app_assoc.
    + intros k'. rewrite Hb, refund_payouts_cons. unfold st1. cbn. rewrite Hbal.
      pose proof (pay_accounts _ _ _ _ _ _ Hpay) as Hacc. apply Forall_cons in Hacc as [[Hne _] _]. cbn in Hne.
      destruct (decide (k' = k)) as [->|Hk].
      * rewrite (decide_True (P := mint = mint ∧ k = k)) by done.
        repeat case_decide; try done; lia.
      * rewrite (decide_False (P := mint = mint ∧ k = k')) by (intros [_ ?]; by apply Hk).
        repeat case_decide; try done; lia.
Qed.
(** When a leaf can be executed with token accounts. *)
Record executable st (mint tp : pubkey) (params : ExecuteRelayerRefundLeafParams) : Prop := {
  ex_config : ∃ s b au, state st = Some s ∧ root_bundles st !! root_bundle_id params = Some b ∧
    state_pda program_id (s_seed s) = Ok au ∧
    chain_id (relayer_refund_leaf params) = s_chain_id s ∧
    verify_merkle_proof (relayer_refund_root b)
      (RelayerRefundLeaf_to_keccak_hash (relayer_refund_leaf params)) (proof params) = Ok tt ∧
    is_claimed (claimed_bitmap b) (leaf_id (relayer_refund_leaf params)) = false ∧
    can_realloc b (leaf_id (relayer_refund_leaf params)) = true ∧ leaf_fits b params = true ∧
    payable (ledger st) (associated_token mint au tp) au mint tp
      (zip (refund_accounts (relayer_refund_leaf params)) (refund_amounts (relayer_refund_leaf params)));
  ex_is_mint : mint_program (ledger st) mint = Some tp;
  ex_leaf_mint : mint = mint_public_key (relayer_refund_leaf params);
  ex_lengths : length (refund_accounts (relayer_refund_leaf params)) =
               length (refund_amounts (relayer_refund_leaf params));
  ex_liability : default 0 (transfer_liability st !! mint) + amount_to_return (relayer_refund_leaf params) < 2 ^ 64
}.

Lemma execute_leaf_progress st signer mint tp params au s :
  executable st mint tp params → state st = Some s → state_pda program_id (s_seed s) = Ok au →
  let leaf := relayer_refund_leaf params in
  let refunds := zip (refund_accounts leaf) (refund_amounts leaf) in
  ∃ st', execute_relayer_refund_leaf program_id st signer mint tp (Some params) (as_token_accounts refunds) = Ok st' ∧
    state st' = state st ∧ claim_accounts st' = claim_accounts st ∧
    executed_leaves (events st') = executed_leaves (events st) ++ [(root_bundle_id params, leaf)] ∧
    payouts st' = payouts st ++ refunds_of leaf ∧
    (∃ b, root_bundles st !! root_bundle_id params = Some b ∧
          root_bundles st' = root_bundles (with_claimed st (root_bundle_id params) b (leaf_id leaf))) ∧
    ∀ k, balance (ledger st') k = balance (ledger st) k + total (refunds_of leaf) mint k
           - (if decide (k = associated_token mint au tp) then refund_sum refunds else 0).
Proof.
  intros [(s' & b & au' & Hs & Hb & Hau & Hch & Hv & Hc & Hgrow & Hfit & Hpay) Hm Hlm Hlen Hli] Hs' Hau'.
  rewrite Hs in Hs'. injection Hs' as ->. rewrite Hau in Hau'. injection Hau' as ->. cbv zeta.
  destruct params as [id leaf pf]. cbn [root_bundle_id relayer_refund_leaf proof] in *.
  set (refunds := zip _ _) in *.
  destruct (pay_refunds_paid (with_claimed st id b (leaf_id leaf)) (associated_token mint au tp) au mint tp
    (as_token_accounts refunds) 0 refunds false Hpay) as (st2 & Hp & Hsame & Hcl & Hpo & Hbal).
  { intros j r Hj. unfold as_token_accounts. rewrite list_lookup_fmap. cbn. by rewrite Hj. }
  destruct Hsame as (Hs1 & _ & Hs3 & Hs4 & Hs5).
  assert (Hpend : ∃ v, (if 0 <? amount_to_return leaf
      then checked_add 64 (default 0 (transfer_liability st2 !! mint)) (amount_to_return leaf)
      else Ok (default 0 (transfer_liability st2 !! mint))) = Ok v).
  { rewrite Hs4. unfold checked_add. destruct (0 <? amount_to_return leaf); [|by eexists].
    apply Z.ltb_lt in Hli. cbn [with_claimed with_root_bundles transfer_liability]. rewrite Hli. by eexists. }
  destruct Hpend as [pending Hpend].
  eexists. split.
  { unfold execute_relayer_refund_leaf, the_state, check_token_account, check_mint.
    cbn [root_bundle_id relayer_refund_leaf proof].
    rewrite from_some, bind_ok. cbn [root_bundle_id relayer_refund_leaf proof].
    rewrite Hs, from_some, bind_ok, Hb, from_some, bind_ok, Hgrow, Hau. unfold require. rewrite !bind_ok, (pay_vault _ _ _ _ _ _ Hpay), Hm.
    rewrite !bool_decide_eq_true_2, Hch, Z.eqb_refl, Hc, Hlen, Nat.eqb_refl by done.
    cbn [negb]. rewrite ?bind_ok, Hv, ?bind_ok. fold refunds.
    rewrite Hp, ?bind_ok, Hpend, Hfit, ?bind_ok. reflexivity. }
  cbn. rewrite Hs1, Hs3, Hcl, Hs5, Hpo, executed_leaves_snoc. cbn.
  rewrite refund_payouts_zip. fold refunds. rewrite <- Hlm. split_and!; try done. by exists b.
Qed.
End Progress.

(** ** Runs *)
Section Runs.
Context {L : Type} `{HK : Keccak} `{HW : Web3} `{HT : TokenProgram L} `{HR : SolanaRuntime} (program_id : pubkey).

(** Instructions one after another, all successful. *)
Definition execute_all (st : spoke_state L) (ixs : list spoke_instruction) : result (spoke_state L) :=
  exec_in_order (execute program_id) st ixs.

Lemma execute_all_reachable (st : spoke_state L) ixs st' :
  reachable program_id st → Forall instruction_wf ixs → execute_all st ixs = Ok st' →
  reachable program_id st'.
Proof.
  intros Hr Hwf. revert st Hr. unfold execute_all.
  induction Hwf as [|i ixs Hi Hwf IH]; intros st Hr; cbn [exec_in_order].
  - intros [= <-]. done.
  - destruct (execute program_id st i) as [st1|] eqn:Hx; [|done]. cbn [result_bind].
    apply IH. by eapply reach_execute.
Qed.
End Runs.

(** A pool with one bundle of one leaf: two refunds, the second of which goes
    to a claim account and is withdrawn from it. *)
Definition ex_key (b : byte) : pubkey := replicate 32 b.
Definition ex_program : pubkey := ex_key x09.
Definition ex_owner : pubkey := ex_key x05.
Definition ex_tokens : pubkey := ex_key x06.
Definition ex_mint : pubkey := ex_key x01.

Definition ex_leaf : RelayerRefundLeaf :=
  {| amount_to_return := 5; chain_id := 34268394551451; refund_amounts := [10; 20];
     leaf_id := 3; mint_public_key := ex_mint; refund_accounts := [ex_key x02; ex_key x03] |}.

Definition ex_vault : pubkey :=
  match state_pda ex_program 0 with
  | Ok authority => associated_token ex_mint authority ex_tokens
  | Err _ => []
  end.

Definition ex_info (authority : pubkey) : TokenInfo :=
  {| tk_mint := ex_mint; tk_authority := authority; tk_program := ex_tokens |}.

Definition ex_ledger : toy_ledger :=
  {| toy_mints := {[ex_mint := ex_tokens]};
     toy_accounts :=
       {[ex_vault := (ex_info (match state_pda ex_program 0 with Ok a => a | Err _ => [] end), 1000);
         ex_key x02 := (ex_info (ex_key x12), 0); ex_key x03 := (ex_info (ex_key x13), 7)]} |}.

Definition ex_params : ExecuteRelayerRefundLeafParams :=
  {| root_bundle_id := 0; relayer_refund_leaf := ex_leaf; proof := [] |}.

Definition ex_instructions : list (spoke_instruction (L := toy_ledger)) :=
  [Initialize ex_owner 0 0 34268394551451 0 ex_owner 3600 14400;
   RelayRootBundle ex_owner (RelayerRefundLeaf_to_keccak_hash ex_leaf) (ex_key x00);
   InitializeClaimAccount ex_owner ex_mint (ex_key x03);
   ExecuteRelayerRefundLeaf ex_owner ex_mint ex_tokens (Some ex_params)
     [{| key := Key (ex_key x02); is_writable := true |};
      {| key := ClaimPda ex_mint (ex_key x03); is_writable := true |}]].

Definition ex_run : result (spoke_state toy_ledger) :=
  execute_all ex_program (fresh ex_ledger) ex_instructions.

Definition ex_state : spoke_state toy_ledger :=
  result_default (fresh ex_ledger) ex_run.

Lemma ex_run_ok : ex_run = Ok ex_state.
Proof. unfold ex_state. assert (is_ok ex_run = true) by (vm_compute; reflexivity). by destruct ex_run. Qed.

Lemma ex_wf : Forall instruction_wf ex_instructions.
Proof.
  unfold ex_instructions. do 4 (constructor; [cbn; try exact I|]); [|constructor].
  unfold refund_leaf_wf, u64, u32, pubkey_wf; cbn. split_and!; repeat constructor; lia.
Qed.

Lemma ex_reachable : reachable ex_program ex_state.
Proof. exact (execute_all_reachable _ _ _ _ (reach_fresh _ _) ex_wf ex_run_ok). Qed.

(** ** Properties *)

(** C12. The Solana program implements the abstract specification.  In every
    state it can reach there is a specification state, reachable by the
    specification's own steps, that agrees with it on the roots in force, the
    published roots, the executed leaves, every transfer out of a vault and
    the amount each claim account holds; and each further successful
    instruction is matched by one step of the specification or by none. *)
Theorem program_refines_spec {L : Type} `{Keccak} `{Web3} `{TokenProgram L} `{SolanaRuntime} (program_id : pubkey)
    (st : spoke_state L) :
  reachable program_id st →
  ∃ sp : spec_state, spec_reachable sp ∧ represents st sp ∧
    ∀ i st', instruction_wf i → execute program_id st i = Ok st' →
      ∃ sp' : spec_state, (sp' = sp ∨ spec_step sp sp') ∧ represents st' sp'.
Proof.
  intros Hr. destruct (reachable_represents _ _ Hr) as (sp & Hsp & Hrep).
  exists sp. split_and!; [done..|]. intros i st' Hwf Hx. by eapply execute_simulates.
Qed.

Lemma program_refines_spec_witness :
  ∃ sp : spec_state, spec_reachable sp ∧ represents ex_state sp ∧
    ∀ i st', instruction_wf i → execute ex_program ex_state i = Ok st' →
      ∃ sp' : spec_state, (sp' = sp ∨ spec_step sp sp') ∧ represents st' sp'.
Proof. exact (program_refines_spec ex_program ex_state ex_reachable). Defined.

(** C7. Refunds are paid exactly once.  In every state the Solana program can
    reach: no leaf id of a root bundle was executed twice, even when bundles
    are deleted and relayed again; every executed leaf was proved under the
    root published with its bundle id, which no other root shares; and for
    every mint and token account, what left the vaults for the account plus
    what its claim account still holds is the sum of its refunds in the
    executed leaves. *)
Theorem refunds_accounted {L : Type} `{Keccak} `{Web3} `{TokenProgram L} `{SolanaRuntime} (program_id : pubkey)
    (st : spoke_state L) :
  reachable program_id st →
  let leaves := executed_leaves (events st) in
  NoDup (map leaf_key leaves) ∧ NoDup (map fst (published_roots (events st))) ∧
  (∀ id leaf, (id, leaf) ∈ leaves → ∃ root pf, (id, root) ∈ published_roots (events st) ∧
     length (refund_accounts leaf) = length (refund_amounts leaf) ∧
     verify_merkle_proof root (RelayerRefundLeaf_to_keccak_hash leaf) pf = Ok tt) ∧
  ∀ mint to, total (payouts st) mint to + claim_of st mint to =
             total (concat (map (λ e, refunds_of (snd e)) leaves)) mint to.
Proof.
  intros Hr. destruct (reachable_represents _ _ Hr) as (sp & Hsp & Hrep).
  destruct (spec_reachable_inv sp Hsp) as (Hnd & Hids & _ & Hex & Htot).
  cbv zeta. rewrite <- (rep_executed _ _ Hrep), <- (rep_published _ _ Hrep), <- (rep_transfers _ _ Hrep).
  split_and!; try done. intros mint to. by rewrite (rep_claims _ _ Hrep).
Qed.

Lemma refunds_accounted_witness :
  executed_leaves (events ex_state) = [(0, ex_leaf)] ∧
  total (payouts ex_state) ex_mint (ex_key x02) + claim_of ex_state ex_mint (ex_key x02) = 10 ∧
  total (payouts ex_state) ex_mint (ex_key x03) + claim_of ex_state ex_mint (ex_key x03) = 20.
Proof.
  destruct (refunds_accounted ex_program ex_state ex_reachable) as (_ & _ & _ & Htot).
  split_and!; [vm_compute; reflexivity|rewrite Htot; vm_compute; reflexivity..].
Defined.


(** The example pool before its leaf is executed, with a vault of 1000. *)
Definition ex_ready : spoke_state toy_ledger :=
  result_default (fresh ex_ledger) (execute_all ex_program (fresh ex_ledger) (take 2 ex_instructions)).

Lemma ex_executable : executable ex_program ex_ready ex_mint ex_tokens ex_params.
Proof.
  assert (Hau : state_pda ex_program 0 = Ok (match state_pda ex_program 0 with Ok a => a | Err _ => [] end)) by done.
  split; [|vm_compute; reflexivity|reflexivity|reflexivity|vm_compute; reflexivity].
  destruct (state ex_ready) as [s|] eqn:Hs; [|by vm_compute in Hs].
  destruct (root_bundles ex_ready !! 0) as [b|] eqn:Hb; [|by vm_compute in Hb].
  exists s, b, (match state_pda ex_program 0 with Ok a => a | Err _ => [] end).
  vm_compute in Hs, Hb. injection Hs as <-. injection Hb as <-.
  do 8 (split; [vm_compute; reflexivity|]).
  split; [vm_compute; reflexivity|reflexivity|vm_compute; discriminate| |].
  - do 2 (apply Forall_cons; split; [vm_compute; discriminate|]). apply Forall_nil; done.
  - do 2 (apply Forall_cons; split; [split; [vm_compute; discriminate|split; [reflexivity|
      split; [eexists; vm_compute; reflexivity|vm_compute; reflexivity]]]|]). by apply Forall_nil.
Qed.

