(* ===== verification/SvmScripts.v ===== *)
(** * scripts/svm: initialize, enableRoute, simpleDeposit, queryRoute, queryState

    The scripts that set up the Solana spoke pool, deposit into it and read it
    back, over the services they call; the services as a handler on the pool
    of [SvmState], Anchor's encoding of the arguments included.  The command
    line is the record of options each script resolves: [new BN(text)] and
    [new PublicKey(text)] of an option are the number and the key it denotes.
    Console output is the value a query returns. *)

From stdpp Require Import base gmap strings list.
From Stdlib Require Import ZArith Strings.Byte Lia.
From S2P Require Import Prelude Bytes JsText Interfaces SvmSpoke SvmUtils SvmState SvmClient SvmBundle.

Record initialize_args := {
  ia_seed : Z;
  ia_initNumbDeposits : Z;
  ia_chainId : Z;
  ia_remoteDomain : Z;
  ia_crossDomainAdmin : string;
  ia_depositQuoteTimeBuffer : option Z;
  ia_fillDeadlineBuffer : option Z
}.

Record route_args := {
  ta_seed : Z;
  ta_originToken : pubkey;
  ta_chainId : Z
}.

Record deposit_args := {
  da_seed : Z;
  da_recipient : pubkey;
  da_inputToken : pubkey;
  da_outputToken : pubkey;
  da_inputAmount : Z;
  da_outputAmount : Z;
  da_destinationChainId : Z
}.

(** A cell of [console.table]. *)
Inductive cell := CText (s : string) | CBool (b : bool).

Inductive route_report :=
| RouteFetched (enabled : bool) (vaultBalance : Z)
| NoRoute
| RouteError (e : js_error).

Inductive state_report :=
| StateFetched (rows : list (string * cell))
| StateError (e : js_error).

Inductive scriptE : Type → Type :=
| DateNow : scriptE Z
| RpcInitialize (seed initialNumberOfDeposits chainId remoteDomain : Z) (crossDomainAdmin : pubkey)
    (depositQuoteTimeBuffer fillDeadlineBuffer : Z) (accounts : accounts_map) : scriptE unit
| RpcSetEnableRoute (originToken : pubkey) (chainId : Z) (enabled : bool) (accounts : accounts_map) : scriptE unit
| RpcDepositV3 (p : DepositParams) (accounts : accounts_map) : scriptE unit
| FetchState (k : pubkey) : scriptE State
| FetchRoute (k : pubkey) : scriptE bool
| GetAccount (k : pubkey) : scriptE Z.

(** [new BN(n)] of a JavaScript number asserts that it has at most 53 bits,
    and so does [bn.toNumber()]. *)
Definition BN_number (n : Z) : result Z :=
  let? _ := require (Z.abs n <? 2 ^ 53) (JsError "Assertion failed") in Ok n.

Definition error_message (e : js_error) : string :=
  match e with JsError m => m | TypeError | ProcessExit _ => "" end.

Section Scripts.
Context {L : Type} `{HB : BNjs} `{HW : Web3} `{HE : Ethers} `{HT : TokenProgram L}.
Context (programId TOKEN_PROGRAM_ID ASSOCIATED_TOKEN_PROGRAM_ID SystemProgram_programId wallet : pubkey).
Local Abbreviation find_pda := (find_pda programId).

(** The seeds of the state and route accounts, the same in every script. *)
Definition state_address (seed : Z) : result pubkey :=
  let? b := toArrayLike_le seed 8 in find_pda [utf8_encode "state"; b].

Definition route_address (token statePda : pubkey) (chainId : Z) : result pubkey :=
  let? b := toArrayLike_le chainId 8 in find_pda [utf8_encode "route"; token; statePda; b].

(** scripts/svm/initialize.ts; the buffers default to one and four hours. *)
Definition initialize (argv : initialize_args) : prog scriptE unit :=
  let seed := ia_seed argv in
  let initialNumberOfDeposits := ia_initNumbDeposits argv in
  let chainId := ia_chainId argv in
  let remoteDomain := ia_remoteDomain argv in
  let! crossDomainAdmin := lift (evmAddressToPublicKey (ia_crossDomainAdmin argv)) in
  let depositQuoteTimeBuffer := default 3600 (ia_depositQuoteTimeBuffer argv) in
  let fillDeadlineBuffer := default (3600 * 4) (ia_fillDeadlineBuffer argv) in
  let! statePda := lift (state_address seed) in
  let signer := wallet in
  let! n := lift (BN_number initialNumberOfDeposits) in
  call (RpcInitialize seed n chainId remoteDomain crossDomainAdmin depositQuoteTimeBuffer fillDeadlineBuffer
    [("state", statePda); ("signer", signer); ("systemProgram", SystemProgram_programId)]%string).

(** scripts/svm/enableRoute.ts *)
Definition enableRoute (argv : route_args) (enabled : bool) : prog scriptE unit :=
  let originToken := ta_originToken argv in
  let chainId := ta_chainId argv in
  let! statePda := lift (state_address (ta_seed argv)) in
  let! routePda := lift (route_address originToken statePda chainId) in
  let signer := wallet in
  let vault := associated_token originToken statePda TOKEN_PROGRAM_ID in
  call (RpcSetEnableRoute originToken chainId enabled
    [("signer", signer); ("payer", signer); ("state", statePda); ("route", routePda); ("vault", vault);
     ("originTokenMint", originToken); ("tokenProgram", TOKEN_PROGRAM_ID);
     ("associatedTokenProgram", ASSOCIATED_TOKEN_PROGRAM_ID);
     ("systemProgram", SystemProgram_programId)]%string).

(** The parameters of the deposit made at [now] milliseconds. *)
Definition simple_deposit (argv : deposit_args) (inputAmount outputAmount now : Z) : DepositParams :=
  let quoteTimestamp := now / 1000 - 1 in
  {| dp_depositor := wallet; dp_recipient := da_recipient argv; dp_input_token := da_inputToken argv;
     dp_output_token := da_outputToken argv; dp_input_amount := inputAmount; dp_output_amount := outputAmount;
     dp_destination_chain_id := da_destinationChainId argv; dp_exclusive_relayer := replicate 32 x00;
     dp_quote_timestamp := quoteTimestamp; dp_fill_deadline := quoteTimestamp + 3600;
     dp_exclusivity_deadline := 0; dp_message := [] |}.

(** scripts/svm/simpleDeposit.ts *)
Definition depositV3 (argv : deposit_args) : prog scriptE unit :=
  let inputToken := da_inputToken argv in
  let! inputAmount := lift (BN_number (da_inputAmount argv)) in
  let! outputAmount := lift (BN_number (da_outputAmount argv)) in
  let! now := call DateNow in
  let! statePda := lift (state_address (da_seed argv)) in
  let! routePda := lift (route_address inputToken statePda (da_destinationChainId argv)) in
  let signer := wallet in
  let vault := associated_token inputToken statePda TOKEN_PROGRAM_ID in
  call (RpcDepositV3 (simple_deposit argv inputAmount outputAmount now)
    (deposit_accounts statePda routePda signer (associated_token inputToken signer TOKEN_PROGRAM_ID) vault
       TOKEN_PROGRAM_ID inputToken)).

(** scripts/svm/queryRoute.ts *)
Definition queryRoute (argv : route_args) : prog scriptE route_report :=
  let originToken := ta_originToken argv in
  let! statePda := lift (state_address (ta_seed argv)) in
  let! routePda := lift (route_address originToken statePda (ta_chainId argv)) in
  let vault := associated_token originToken statePda TOKEN_PROGRAM_ID in
  try_catch
    (let! enabled := call (FetchRoute routePda) in
     let! amount := call (GetAccount vault) in
     Ret (RouteFetched enabled amount))
    (λ error, if includes (error_message error) no_account_text then Ret NoRoute
              else Ret (RouteError error)).

(** The table of a fetched state. *)
Definition state_rows (s : State) : list (string * cell) :=
  [("Owner", CText (toBase58 (s_owner s)));
   ("Deposits Paused", CBool (s_paused_deposits s));
   ("Fills Paused", CBool (s_paused_fills s));
   ("Number of Deposits", CText (decimal (s_number_of_deposits s)));
   ("Chain ID", CText (decimal (s_chain_id s)));
   ("Current Time", CText (decimal (s_current_time s)));
   ("Remote Domain", CText (decimal (s_remote_domain s)));
   ("Cross Domain Admin", CText (toBase58 (s_cross_domain_admin s)));
   ("Root Bundle ID", CText (decimal (s_root_bundle_id s)));
   ("Deposit Quote Time Buffer", CText (decimal (s_deposit_quote_time_buffer s)));
   ("Fill Deadline Buffer", CText (decimal (s_fill_deadline_buffer s)))]%string.

(** scripts/svm/queryState.ts *)
Definition queryState (seed : Z) : prog scriptE state_report :=
  let! statePda := lift (state_address seed) in
  try_catch
    (let! state := call (FetchState statePda) in Ret (StateFetched (state_rows state)))
    (λ error, Ret (StateError error)).

(** ** The services *)

Definition encode_deposit (p : DepositParams) : result DepositParams :=
  let? input := anchor_u64 (dp_input_amount p) in
  let? output := anchor_u64 (dp_output_amount p) in
  let? chain := anchor_u64 (dp_destination_chain_id p) in
  let? quote := anchor_u32 (dp_quote_timestamp p) in
  let? fill := anchor_u32 (dp_fill_deadline p) in
  let? exclusivity := anchor_u32 (dp_exclusivity_deadline p) in
  Ok {| dp_depositor := dp_depositor p; dp_recipient := dp_recipient p; dp_input_token := dp_input_token p;
        dp_output_token := dp_output_token p; dp_input_amount := input; dp_output_amount := output;
        dp_destination_chain_id := chain; dp_exclusive_relayer := dp_exclusive_relayer p;
        dp_quote_timestamp := quote; dp_fill_deadline := fill; dp_exclusivity_deadline := exclusivity;
        dp_message := dp_message p |}.

(** The machine's clock in milliseconds and the cluster's in seconds. *)
Context (local_clock cluster_time : Z).
Implicit Types st : spoke_state L.

Definition run_initialize st (seed n chain domain : Z) (admin : pubkey) (quote_buffer fill_buffer : Z)
    (accounts : accounts_map) : result (spoke_state L) :=
  let? seed := anchor_u64 seed in
  let? n := anchor_u32 n in
  let? chain := anchor_u64 chain in
  let? domain := anchor_u32 domain in
  let? quote_buffer := anchor_u32 quote_buffer in
  let? fill_buffer := anchor_u32 fill_buffer in
  let? state_key := state_pda programId seed in
  let? _ := check_accounts accounts
    [("state", state_key); ("signer", wallet); ("systemProgram", SystemProgram_programId)]%string in
  SvmState.initialize st wallet seed n chain domain admin quote_buffer fill_buffer.

Definition run_enable st (token : pubkey) (chain : Z) (enabled : bool) (accounts : accounts_map)
  : result (spoke_state L) :=
  let? chain := anchor_u64 chain in
  let? s := the_state st in
  let? state_key := state_pda programId (s_seed s) in
  let? route := pda programId "route" [token; state_key; le_bytes 8 chain] in
  let? mint := from_option_err ConstraintSeeds (js_lookup accounts "originTokenMint"%string) in
  let? tp := from_option_err ConstraintSeeds (js_lookup accounts "tokenProgram"%string) in
  let? _ := check_accounts accounts
    [("signer", wallet); ("payer", wallet); ("state", state_key); ("route", route);
     ("vault", associated_token mint state_key tp);
     ("associatedTokenProgram", ASSOCIATED_TOKEN_PROGRAM_ID);
     ("systemProgram", SystemProgram_programId)]%string in
  set_enable_route programId st wallet token chain enabled mint tp.

(** [program.account.route.fetch(key)]: the route whose address it is. *)
Definition fetch_route st (k : pubkey) : result bool :=
  let? s := from_option_err (NoAccount k) (state st) in
  let? state_key := state_pda programId (s_seed s) in
  match list_find (λ r, pda programId "route" [r.1.1; state_key; le_bytes 8 r.1.2] = Ok k)
          (map_to_list (routes st)) with
  | Some (_, r) => Ok r.2
  | None => Err (NoAccount k)
  end.

(** [getAccount]; its error has no message. *)
Definition get_account st (k : pubkey) : result Z :=
  match token_account (ledger st) k with
  | Some _ => Ok (balance (ledger st) k)
  | None => Err (JsError "")
  end.

Definition script_services : handler (spoke_state L) scriptE := λ X st c,
  match c in scriptE Y return result Y * spoke_state L with
  | DateNow => (Ok local_clock, st)
  | RpcInitialize seed n chain domain admin qb fb accounts =>
      done_in st (run_initialize st seed n chain domain admin qb fb accounts)
  | RpcSetEnableRoute token chain enabled accounts => done_in st (run_enable st token chain enabled accounts)
  | RpcDepositV3 p accounts =>
      done_in st (let? p' := encode_deposit p in run_deposit programId wallet cluster_time st p' accounts)
  | FetchState k => (fetch_state programId st k, st)
  | FetchRoute k => (fetch_route st k, st)
  | GetAccount k => (get_account st k, st)
  end.
End Scripts.

(** ** Lemmas *)
Lemma prefix_of_app p l : prefix_of p (p ++ l) = true.
Proof. induction p as [|a p IH]; [done|]. cbn. by rewrite Ascii.eqb_refl. Qed.

Lemma includes_prefix p s : includes (p +:+ s) p = true.
Proof.
  unfold includes. rewrite chars_app.
  destruct (chars p ++ chars s) eqn:Hl; cbn [includes_chars]; rewrite <- Hl, prefix_of_app; done.
Qed.

Lemma BN_number_ok n : 0 ≤ n < 2 ^ 53 → BN_number n = Ok n.
Proof. intros Hn. unfold BN_number. rewrite (proj2 (Z.ltb_lt _ _)) by lia. done. Qed.

Section Runs.
Context {L : Type} `{HB : BNjs} `{HW : Web3} `{HE : Ethers} `{HT : TokenProgram L}.
Context (programId TOKEN_PROGRAM_ID ASSOCIATED_TOKEN_PROGRAM_ID SystemProgram_programId wallet : pubkey)
  (local_clock cluster_time : Z).
Implicit Types (st : spoke_state L) (s : State).
Local Abbreviation serve := (script_services programId ASSOCIATED_TOKEN_PROGRAM_ID SystemProgram_programId wallet
  local_clock cluster_time).
Local Abbreviation key_of := (key_of programId).
Local Abbreviation state_key := (state_key programId).
Local Abbreviation ata := (λ mint owner, associated_token mint owner TOKEN_PROGRAM_ID).

Lemma state_address_ok seed : has_state programId seed → u64 seed →
  state_address programId seed = Ok (state_key seed).
Proof. intros Hp Hs. unfold state_address. rewrite toArrayLike_le_fits, bind_ok by exact Hs. by apply find_pda_ok. Qed.

Definition route_key (token : pubkey) (seed chain : Z) : pubkey :=
  key_of [utf8_encode "route"; token; state_key seed; le_bytes 8 chain].

Lemma route_address_ok token seed chain : has_route programId token seed chain → u64 chain →
  route_address programId token (state_key seed) chain = Ok (route_key token seed chain).
Proof. intros Hp Hc. unfold route_address. rewrite toArrayLike_le_fits, bind_ok by exact Hc. by apply find_pda_ok. Qed.

Lemma run_done {X} st (c : scriptE X) r : serve X st c = r → run_state serve st (call c) = r.
Proof. intros <-. apply run_state_call. Qed.

(** What fits the arguments of [initialize]. *)
Definition initialize_fits (argv : initialize_args) (addr : bytes) : Prop :=
  u64 (ia_seed argv) ∧ u32 (ia_initNumbDeposits argv) ∧ u64 (ia_chainId argv) ∧ u32 (ia_remoteDomain argv) ∧
  ia_crossDomainAdmin argv = "0x" +:+ to_hex addr ∧ length addr = 20%nat ∧
  u32 (default 3600 (ia_depositQuoteTimeBuffer argv)) ∧ u32 (default (3600 * 4) (ia_fillDeadlineBuffer argv)).

Definition init_instruction st (argv : initialize_args) (addr : bytes) : result (spoke_state L) :=
  SvmState.initialize st wallet (ia_seed argv) (ia_initNumbDeposits argv) (ia_chainId argv)
    (ia_remoteDomain argv) (replicate 12 x00 ++ addr) (default 3600 (ia_depositQuoteTimeBuffer argv))
    (default (3600 * 4) (ia_fillDeadlineBuffer argv)).

Lemma initialize_accounts_checked (st_key : pubkey) :
  let accounts := [("state", st_key); ("signer", wallet); ("systemProgram", SystemProgram_programId)]%string in
  check_accounts accounts accounts = Ok tt.
Proof. accounts_found. Qed.

Lemma enable_accounts_checked (st_key route vault mint : pubkey) :
  let accounts := [("signer", wallet); ("payer", wallet); ("state", st_key); ("route", route); ("vault", vault);
     ("originTokenMint", mint); ("tokenProgram", TOKEN_PROGRAM_ID);
     ("associatedTokenProgram", ASSOCIATED_TOKEN_PROGRAM_ID);
     ("systemProgram", SystemProgram_programId)]%string in
  js_lookup accounts "originTokenMint"%string = Some mint ∧
  js_lookup accounts "tokenProgram"%string = Some TOKEN_PROGRAM_ID ∧
  check_accounts accounts
    [("signer", wallet); ("payer", wallet); ("state", st_key); ("route", route); ("vault", vault);
     ("associatedTokenProgram", ASSOCIATED_TOKEN_PROGRAM_ID);
     ("systemProgram", SystemProgram_programId)]%string = Ok tt.
Proof. split_and!; [vm_compute; reflexivity..|accounts_found]. Qed.

Lemma initialize_run st argv addr : has_state programId (ia_seed argv) → initialize_fits argv addr →
  run_state serve st (initialize programId SystemProgram_programId wallet argv) =
    done_in st (init_instruction st argv addr).
Proof.
  intros Hp (Hs & Hn & Hc & Hd & Ha & Hl & Hq & Hf). unfold initialize.
  rewrite Ha, evmAddressToPublicKey_pads by done. cbn [lift bind].
  rewrite state_address_ok by done. cbn [lift bind].
  rewrite BN_number_ok by (unfold u32 in Hn; lia). cbn [lift bind].
  apply run_done. cbn [script_services]. unfold run_initialize.
  rewrite !anchor_u64_ok, !anchor_u32_ok, !bind_ok by done.
  rewrite state_pda_ok, bind_ok by done. by rewrite initialize_accounts_checked.
Qed.

Lemma enable_run st s argv enabled :
  has_state programId (ta_seed argv) → has_route programId (ta_originToken argv) (ta_seed argv) (ta_chainId argv) →
  state st = Some s → s_seed s = ta_seed argv → u64 (ta_seed argv) → u64 (ta_chainId argv) →
  run_state serve st (enableRoute programId TOKEN_PROGRAM_ID ASSOCIATED_TOKEN_PROGRAM_ID
    SystemProgram_programId wallet argv enabled) =
  done_in st (set_enable_route programId st wallet (ta_originToken argv) (ta_chainId argv) enabled
                (ta_originToken argv) TOKEN_PROGRAM_ID).
Proof.
  intros Hps Hpr Hs Hseed Hu Hc. unfold enableRoute.
  rewrite state_address_ok by done. cbn [lift bind]. rewrite route_address_ok by done. cbn [lift bind].
  apply run_done. cbn [script_services]. unfold run_enable, the_state.
  rewrite anchor_u64_ok, bind_ok by done. rewrite Hs, from_some, bind_ok, Hseed, state_pda_ok, bind_ok by done.
  rewrite pda_ok, bind_ok by done. fold (route_key (ta_originToken argv) (ta_seed argv) (ta_chainId argv)).
  edestruct enable_accounts_checked as (Hm & Ht & Ha).
  by rewrite Hm, from_some, bind_ok, Ht, from_some, bind_ok, Ha, bind_ok.
Qed.

Definition deposit_fits (argv : deposit_args) : Prop :=
  u64 (da_seed argv) ∧ u64 (da_destinationChainId argv) ∧
  0 ≤ da_inputAmount argv < 2 ^ 53 ∧ 0 ≤ da_outputAmount argv < 2 ^ 53 ∧
  u32 (local_clock / 1000 - 1) ∧ u32 (local_clock / 1000 - 1 + 3600).

Definition the_deposit (argv : deposit_args) : DepositParams :=
  simple_deposit wallet argv (da_inputAmount argv) (da_outputAmount argv) local_clock.

Lemma encode_deposit_ok argv : deposit_fits argv → encode_deposit (the_deposit argv) = Ok (the_deposit argv).
Proof.
  intros (_ & Hc & Hi & Ho & Hq & Hf). unfold encode_deposit, the_deposit.
  cbn [dp_input_amount dp_output_amount dp_destination_chain_id dp_quote_timestamp dp_fill_deadline
    dp_exclusivity_deadline simple_deposit].
  by rewrite !anchor_u64_ok, !anchor_u32_ok, !bind_ok by (first [done|unfold u64, u32; lia]).
Qed.

Lemma deposit_run st s argv :
  has_state programId (da_seed argv) →
  has_route programId (da_inputToken argv) (da_seed argv) (da_destinationChainId argv) →
  state st = Some s → s_seed s = da_seed argv → deposit_fits argv →
  run_state serve st (depositV3 programId TOKEN_PROGRAM_ID wallet argv) =
  done_in st (deposit_v3 programId cluster_time st wallet (ata (da_inputToken argv) wallet)
                (da_inputToken argv) TOKEN_PROGRAM_ID (the_deposit argv)).
Proof.
  intros Hps Hpr Hs Hseed Hfit. pose proof (encode_deposit_ok argv Hfit) as Henc.
  destruct Hfit as (Hu & Hc & Hi & Ho & _). unfold depositV3.
  rewrite !BN_number_ok by done. cbn [lift bind].
  rewrite run_state_bind, run_state_call. cbn [script_services].
  rewrite state_address_ok by done. cbn [lift bind]. rewrite route_address_ok by done. cbn [lift bind].
  apply run_done. cbn [script_services]. fold (the_deposit argv). rewrite Henc, bind_ok.
  pose proof (run_deposit_accounts programId wallet cluster_time st s (the_deposit argv)
    (ata (da_inputToken argv) wallet) TOKEN_PROGRAM_ID) as Hrun.
  cbn [dp_input_token dp_destination_chain_id the_deposit simple_deposit] in Hrun.
  unfold route_key. rewrite <- Hseed in *. by rewrite Hrun.
Qed.

(** Everything a deposit needs but the clocks. *)
Record deposit_ready st s (argv : deposit_args) : Prop := {
  dr_state : state st = Some s;
  dr_seed : s_seed s = da_seed argv;
  dr_fits : deposit_fits argv;
  dr_state_pda : has_state programId (da_seed argv);
  dr_route_pda : has_route programId (da_inputToken argv) (da_seed argv) (da_destinationChainId argv);
  dr_unpaused : s_paused_deposits s = false;
  dr_route : routes st !! (da_inputToken argv, da_destinationChainId argv) = Some true;
  dr_mint : mint_program (ledger st) (da_inputToken argv) = Some TOKEN_PROGRAM_ID;
  dr_user : token_account (ledger st) (ata (da_inputToken argv) wallet) =
    Some {| tk_mint := da_inputToken argv; tk_authority := wallet; tk_program := TOKEN_PROGRAM_ID |};
  dr_vault : token_account (ledger st) (ata (da_inputToken argv) (state_key (da_seed argv))) =
    Some {| tk_mint := da_inputToken argv; tk_authority := state_key (da_seed argv); tk_program := TOKEN_PROGRAM_ID |};
  dr_frozen : frozen (ledger st) (ata (da_inputToken argv) wallet) = false ∧
              frozen (ledger st) (ata (da_inputToken argv) (state_key (da_seed argv))) = false;
  dr_wallet : wallet ≠ state_key (da_seed argv);
  dr_funds : da_inputAmount argv ≤ balance (ledger st) (ata (da_inputToken argv) wallet);
  dr_room : balance (ledger st) (ata (da_inputToken argv) (state_key (da_seed argv))) + da_inputAmount argv < 2 ^ 64;
  dr_count : s_number_of_deposits s + 1 < 2 ^ 32;
  dr_time : cluster_time + s_fill_deadline_buffer s < 2 ^ 32
}.

(** The clocks the program accepts for a deposit of the script. *)
Definition in_window s : Prop :=
  let seconds := local_clock / 1000 in
  seconds - 1 ≤ cluster_time ≤ seconds - 1 + s_deposit_quote_time_buffer s ∧
  cluster_time ≤ seconds + 3599 ≤ cluster_time + s_fill_deadline_buffer s.

(** The pool after a deposit. *)
Definition deposited st s (l : L) (argv : deposit_args) : spoke_state L :=
  emit (with_state (with_ledger st l) (set_number_of_deposits s (s_number_of_deposits s + 1)))
    (V3FundsDeposited (s_number_of_deposits s + 1) (the_deposit argv)).

Definition deposit_transfer st (argv : deposit_args) : result L :=
  token_transfer (ledger st) (ata (da_inputToken argv) wallet)
    (ata (da_inputToken argv) (state_key (da_seed argv))) (da_inputToken argv) wallet (da_inputAmount argv).

(** With everything ready, the instruction is its checks of the clocks. *)
Lemma ready_deposit st s argv : deposit_ready st s argv →
  ∃ l, deposit_transfer st argv = Ok l ∧
    deposit_v3 programId cluster_time st wallet (ata (da_inputToken argv) wallet) (da_inputToken argv)
      TOKEN_PROGRAM_ID (the_deposit argv) =
    (let? age := checked_sub cluster_time (local_clock / 1000 - 1) in
     let? _ := require (age <=? s_deposit_quote_time_buffer s) InvalidQuoteTimestamp in
     let? _ := require (cluster_time <=? local_clock / 1000 - 1 + 3600) InvalidFillDeadline in
     let? _ := require (local_clock / 1000 - 1 + 3600 <=? cluster_time + s_fill_deadline_buffer s)
                 InvalidFillDeadline in
     Ok (deposited st s l argv)).
Proof.
  intros [Hs Hseed (_ & _ & Hi & _) Hps Hpr Hp Hr Hm Hu Hv [Hf1 Hf2] Hw Hfunds Hroom Hn Ht].
  assert (Hx : is_ok (deposit_transfer st argv) = true).
  { eapply token_transfer_ok; try done; [lia|]. intros Heq. rewrite Heq in Hu. congruence. }
  unfold deposit_transfer in *.
  match type of Hx with is_ok ?r = true => destruct r as [l|] eqn:Hl; [|done] end.
  exists l. split; [done|].
  unfold deposit_v3, the_state, check_token_account, check_mint, the_deposit. cbn [simple_deposit dp_input_token
    dp_destination_chain_id dp_quote_timestamp dp_fill_deadline dp_input_amount].
  rewrite Hs, from_some, bind_ok, Hp, Hr, from_some, Hseed, state_pda_ok by done. cbn [negb require result_bind].
  rewrite Hu, Hv, Hm, !bool_decide_eq_true_2 by done. cbn [require result_bind].
  unfold checked_add. rewrite (proj2 (Z.ltb_lt _ _) Ht). cbn [result_bind].
  rewrite Hl. cbn [result_bind]. rewrite (proj2 (Z.ltb_lt _ _) Hn). done.
Qed.

Lemma deposit_in_window st s argv l : deposit_ready st s argv → in_window s → deposit_transfer st argv = Ok l →
  run_state serve st (depositV3 programId TOKEN_PROGRAM_ID wallet argv) = (Ok tt, deposited st s l argv).
Proof.
  intros Hd [[Hw1 Hw2] [Hw3 Hw4]] Hl.
  rewrite (deposit_run st s argv) by apply Hd. destruct (ready_deposit st s argv Hd) as (l' & Hl' & ->).
  rewrite Hl in Hl'. injection Hl' as <-. unfold checked_sub.
  rewrite (proj2 (Z.leb_le _ _) Hw1). cbn [result_bind].
  rewrite !(proj2 (Z.leb_le _ _)) by lia. done.
Qed.

Lemma fetch_route_ok st s token chain b :
  has_state programId (s_seed s) → has_route programId token (s_seed s) chain →
  state st = Some s → routes st !! (token, chain) = Some b →
  (∀ t c, is_Some (routes st !! (t, c)) →
     route_key t (s_seed s) c = route_key token (s_seed s) chain → (t, c) = (token, chain)) →
  fetch_route programId st (route_key token (s_seed s) chain) = Ok b.
Proof.
  intros Hps Hpr Hs Hr Hinj. unfold fetch_route. rewrite Hs, from_some, bind_ok, state_pda_ok, bind_ok by done.
  destruct (list_find _ _) as [[i [[t c] b']]|] eqn:Hf.
  - apply list_find_Some in Hf as (Hi & Hk & _). apply list_elem_of_lookup_2, elem_of_map_to_list in Hi.
    cbn [fst snd] in Hk. apply find_pda_key in Hk. symmetry in Hk.
    specialize (Hinj t c (ex_intro _ b' Hi) Hk). simplify_eq. cbn. congruence.
  - apply list_find_None in Hf. rewrite Forall_forall in Hf. exfalso.
    apply (Hf ((token, chain), b)); [by apply elem_of_map_to_list|]. cbn [fst snd]. by apply pda_ok.
Qed.

(** Reading a route back: its flag and the vault's balance. *)
Lemma query_route_run st s argv b :
  has_state programId (ta_seed argv) → has_route programId (ta_originToken argv) (ta_seed argv) (ta_chainId argv) →
  state st = Some s → s_seed s = ta_seed argv → u64 (ta_seed argv) → u64 (ta_chainId argv) →
  fetch_route programId st (route_key (ta_originToken argv) (s_seed s) (ta_chainId argv)) = Ok b →
  is_Some (token_account (ledger st) (ata (ta_originToken argv) (state_key (s_seed s)))) →
  run_state serve st (queryRoute programId TOKEN_PROGRAM_ID argv) =
    (Ok (RouteFetched b (balance (ledger st) (ata (ta_originToken argv) (state_key (s_seed s))))), st).
Proof.
  intros Hps Hpr Hs Hseed Hu Hc Hf [a Ha]. unfold queryRoute. rewrite <- Hseed in *.
  rewrite state_address_ok by done. cbn [lift bind]. rewrite route_address_ok by done. cbn [lift bind].
  apply run_state_try_ok. rewrite run_state_bind, run_state_call. cbn [script_services]. rewrite Hf.
  rewrite run_state_bind, run_state_call. cbn [script_services]. unfold get_account. by rewrite Ha.
Qed.

(** A pool not initialized yet, options that agree and a funded user. *)
Record setup_ready st (ia : initialize_args) (addr : bytes) (ra : route_args) (da : deposit_args) : Prop := {
  sr_state : state st = None ∧ routes st = ∅;
  sr_init : initialize_fits ia addr ∧ ia_initNumbDeposits ia + 1 < 2 ^ 32;
  sr_seeds : ia_seed ia = 0 ∧ ta_seed ra = 0 ∧ da_seed da = 0;
  sr_route : da_inputToken da = ta_originToken ra ∧ da_destinationChainId da = ta_chainId ra;
  sr_fits : deposit_fits da;
  sr_pdas : has_state programId 0 ∧ has_route programId (da_inputToken da) 0 (da_destinationChainId da);
  sr_mint : mint_program (ledger st) (da_inputToken da) = Some TOKEN_PROGRAM_ID;
  sr_user : token_account (ledger st) (ata (da_inputToken da) wallet) =
    Some {| tk_mint := da_inputToken da; tk_authority := wallet; tk_program := TOKEN_PROGRAM_ID |} ∧
    frozen (ledger st) (ata (da_inputToken da) wallet) = false;
  sr_vault : token_account (ledger st) (ata (da_inputToken da) (state_key 0)) = None;
  sr_wallet : wallet ≠ state_key 0;
  sr_funds : da_inputAmount da ≤ balance (ledger st) (ata (da_inputToken da) wallet);
  sr_time : cluster_time + default (3600 * 4) (ia_fillDeadlineBuffer ia) < 2 ^ 32;
  sr_quote : local_clock / 1000 - 1 ≤ cluster_time ≤
             local_clock / 1000 - 1 + default 3600 (ia_depositQuoteTimeBuffer ia);
  sr_fill : cluster_time ≤ local_clock / 1000 + 3599 ≤
            cluster_time + default (3600 * 4) (ia_fillDeadlineBuffer ia)
}.

Definition initial_state (ia : initialize_args) (addr : bytes) : State :=
  {| s_paused_deposits := false; s_paused_fills := false; s_owner := wallet; s_seed := 0;
     s_number_of_deposits := ia_initNumbDeposits ia; s_chain_id := ia_chainId ia; s_current_time := 0;
     s_remote_domain := ia_remoteDomain ia; s_cross_domain_admin := replicate 12 x00 ++ addr;
     s_root_bundle_id := 0; s_deposit_quote_time_buffer := default 3600 (ia_depositQuoteTimeBuffer ia);
     s_fill_deadline_buffer := default (3600 * 4) (ia_fillDeadlineBuffer ia) |}.

Lemma init_instruction_ok st ia addr : state st = None → ia_seed ia = 0 →
  init_instruction st ia addr = Ok (with_state st (initial_state ia addr)).
Proof. intros Hs Hz. unfold init_instruction, SvmState.initialize, set_seed. by rewrite Hs, Hz. Qed.

(** Enabling a route for the first time creates the vault. *)
Lemma set_enable_route_creates st s token chain enabled :
  has_state programId (s_seed s) → state st = Some s → s_owner s = wallet → mint_program (ledger st) token = Some TOKEN_PROGRAM_ID →
  token_account (ledger st) (ata token (state_key (s_seed s))) = None →
  ∃ l, create_associated_token (ledger st) token (state_key (s_seed s)) TOKEN_PROGRAM_ID = Ok l ∧
    set_enable_route programId st wallet token chain enabled token TOKEN_PROGRAM_ID =
      Ok (emit (with_route (with_ledger st l) (token, chain) enabled) (EnabledDepositRoute token chain enabled)).
Proof.
  intros Hp Hs Ho Hm Hv. pose proof (create_associated_token_ok _ _ (state_key (s_seed s)) _ Hm Hv) as Hx.
  destruct (create_associated_token _ _ _ _) as [l|] eqn:Hl; [|done]. exists l. split; [done|].
  unfold set_enable_route, the_state, only_owner, is_local_or_remote_owner, init_vault, check_mint.
  rewrite Hs, from_some, bind_ok, (bool_decide_eq_true_2 (wallet = s_owner s)) by done. cbn [result_bind require].
  rewrite state_pda_ok, bind_ok by done. rewrite Hv, Hl. cbn [result_bind ledger with_ledger].
  by rewrite !bool_decide_eq_true_2 by done.
Qed.

Lemma setup_run st ia addr ra da : setup_ready st ia addr ra da →
  ∃ st', run_state serve st
      (initialize programId SystemProgram_programId wallet ia ;;
       enableRoute programId TOKEN_PROGRAM_ID ASSOCIATED_TOKEN_PROGRAM_ID SystemProgram_programId wallet ra true)
    = (Ok tt, st') ∧
    deposit_ready st' (initial_state ia addr) da ∧ in_window (initial_state ia addr) ∧
    balance (ledger st') (ata (da_inputToken da) (state_key 0)) = 0 ∧
    (∀ k, k ≠ ata (da_inputToken da) (state_key 0) → balance (ledger st') k = balance (ledger st) k) ∧
    routes st' = {[(ta_originToken ra, ta_chainId ra) := true]} ∧
    events st' = events st ++ [EnabledDepositRoute (ta_originToken ra) (ta_chainId ra) true].
Proof.
  intros [[Hs Hro] [Hif Hn] (Hz & Hz1 & Hz2) [Ht Hc] Hfit [Hps Hpr] Hm [Hu Huf] Hv Hw Hfunds Htime Hq Hfl].
  pose proof Hfit as (_ & Hcu & Hi & _).
  rewrite run_state_bind, (initialize_run st ia addr), init_instruction_ok by (rewrite ?Hz; done). cbn [done_in answer result_bind].
  set (s := initial_state ia addr). set (st1 := with_state st s).
  rewrite (enable_run st1 s) by (rewrite ?Hz1, <- ?Ht, <- ?Hc; done).
  rewrite Ht in *. rewrite Hc in *.
  destruct (set_enable_route_creates st1 s (ta_originToken ra) (ta_chainId ra) true) as (l & Hl & ->); [done..|].
  cbn [s_seed s initial_state ledger st1 with_state] in Hl.
  destruct (create_associated_token_spec _ _ _ _ _ Hl) as (_ & Hinfo & Hbal & Hfr & Hmints & Hothers).
  assert (Hne : ata (ta_originToken ra) wallet ≠ ata (ta_originToken ra) (state_key 0)).
  { intros Heq. rewrite Heq in Hu. congruence. }
  destruct (Hothers _ Hne) as (Hu1 & Hb1 & Hf1).
  eexists. split; [reflexivity|]. cbn. split_and!; try done.
  - split; rewrite ?Ht, ?Hc, ?Hz2; cbn [ledger emit with_route with_ledger st1 with_state state routes s_seed
      s_paused_deposits s_number_of_deposits s_fill_deadline_buffer initial_state s]; try done.
    + by rewrite lookup_insert_eq.
    + by rewrite Hmints.
    + by rewrite Hu1.
    + by rewrite Hf1.
    + by rewrite Hb1.
    + rewrite Hbal. lia.
  - intros k Hk. apply Hothers, Hk.
  - rewrite Hro. done.
Qed.
End Runs.

(** ** Properties *)
Section Properties.
Context {L : Type} `{HB : BNjs} `{HW : Web3} `{HE : Ethers} `{HT : TokenProgram L}.
Context (programId TOKEN_PROGRAM_ID ASSOCIATED_TOKEN_PROGRAM_ID SystemProgram_programId wallet : pubkey)
  (local_clock cluster_time : Z).
Implicit Types (st : spoke_state L) (s : State).
Local Abbreviation serve := (script_services programId ASSOCIATED_TOKEN_PROGRAM_ID SystemProgram_programId wallet
  local_clock cluster_time).

(** initialize.ts followed by queryState.ts, on a pool not initialized:
    with seed zero the state printed is the one given on the command line,
    the wallet being the owner, the address of the hub pool padded to 32
    bytes and the buffers one and four hours unless given; with any other
    seed the production build of the program refuses and nothing changes. *)
Theorem initialize_reported st (argv : initialize_args) (addr : bytes) :
  has_state programId (ia_seed argv) → state st = None → initialize_fits argv addr →
  run_state serve st
    (initialize programId SystemProgram_programId wallet argv ;; queryState programId (ia_seed argv)) =
  if ia_seed argv =? 0
  then (Ok (StateFetched (state_rows (initial_state wallet argv addr))), with_state st (initial_state wallet argv addr))
  else (Err InvalidProductionSeed, st).
Proof.
  intros Hp Hs Hf. pose proof Hf as (Hu & _).
  rewrite run_state_bind, (initialize_run _ _ _ _ _ _ st argv addr Hp Hf).
  destruct (Z.eqb_spec (ia_seed argv) 0) as [Hz|Hz].
  - rewrite init_instruction_ok by done. cbn [done_in answer result_bind]. unfold queryState.
    rewrite state_address_ok by done. cbn [lift bind]. apply run_state_try_ok.
    rewrite run_state_bind, run_state_call. cbn [script_services]. unfold fetch_state. cbn [state with_state].
    rewrite Hz in *. rewrite from_some, bind_ok, state_pda_ok, bind_ok by done. by rewrite bool_decide_eq_true_2.
  - unfold init_instruction, SvmState.initialize, set_seed. rewrite Hs, bool_decide_eq_true_2 by done.
    cbn [require result_bind]. by rewrite (proj2 (Z.eqb_neq _ _) Hz).
Qed.

(** simpleDeposit.ts and the clocks.  When nothing else is in the way, the
    deposit is accepted exactly when the cluster's clock is at least the
    machine's less one second, at most the quote time buffer after that, at
    most 3599 seconds ahead, and the fill deadline buffer covers the hour; it
    then moves the amount to the vault and emits the deposit with the next
    number, and otherwise fails and leaves the pool as it was. *)
Theorem simpleDeposit_window st s (argv : deposit_args) :
  deposit_ready programId TOKEN_PROGRAM_ID wallet local_clock cluster_time st s argv →
  let outcome := run_state serve st (depositV3 programId TOKEN_PROGRAM_ID wallet argv) in
  (in_window local_clock cluster_time s ∧
   ∃ l, deposit_transfer programId TOKEN_PROGRAM_ID wallet st argv = Ok l ∧
        outcome = (Ok tt, deposited wallet local_clock st s l argv)) ∨
  (¬ in_window local_clock cluster_time s ∧ ∃ e, outcome = (Err e, st)).
Proof.
  intros Hd. cbv zeta. destruct (ready_deposit _ _ _ _ _ st s argv Hd) as (l & Hl & Hx).
  rewrite (deposit_run _ _ _ _ _ _ _ st s argv) by apply Hd. rewrite Hx. unfold checked_sub, in_window.
  repeat (match goal with |- context [?a <=? ?b] => destruct (Z.leb_spec a b) end;
    cbn [require result_bind done_in answer]); try (right; split; [lia|by eexists]).
  left. split; [lia|]. by exists l.
Qed.

(** C15. The scripts together: initialize.ts, enableRoute.ts, simpleDeposit.ts
    and queryRoute.ts, run one after another on a new pool for a funded
    wallet, all succeed; the route and the deposit they emit are those of the
    command lines, the deposit carries the first number after the initial one,
    the user pays the amount, and the route printed last is enabled with
    exactly the amount in its vault. *)
Theorem setup_and_deposit st (ia : initialize_args) (addr : bytes) (ra : route_args) (da : deposit_args) :
  setup_ready programId TOKEN_PROGRAM_ID wallet local_clock cluster_time st ia addr ra da →
  ∃ st', run_state serve st
      (initialize programId SystemProgram_programId wallet ia ;;
       enableRoute programId TOKEN_PROGRAM_ID ASSOCIATED_TOKEN_PROGRAM_ID SystemProgram_programId wallet ra true ;;
       depositV3 programId TOKEN_PROGRAM_ID wallet da ;;
       queryRoute programId TOKEN_PROGRAM_ID ra)
    = (Ok (RouteFetched true (da_inputAmount da)), st') ∧
    events st' = events st ++
      [EnabledDepositRoute (ta_originToken ra) (ta_chainId ra) true;
       V3FundsDeposited (ia_initNumbDeposits ia + 1) (the_deposit wallet local_clock da)] ∧
    balance (ledger st') (associated_token (da_inputToken da) wallet TOKEN_PROGRAM_ID) =
      balance (ledger st) (associated_token (da_inputToken da) wallet TOKEN_PROGRAM_ID) - da_inputAmount da.
Proof.
  intros Hr.
  destruct (setup_run programId TOKEN_PROGRAM_ID ASSOCIATED_TOKEN_PROGRAM_ID SystemProgram_programId wallet
    local_clock cluster_time st ia addr ra da Hr) as (st1 & Hrun & Hd & Hw & Hv0 & Hb & Hroutes & Hev).
  destruct Hr as [_ _ (_ & Hz1 & Hz2) [Ht Hc] Hfit [Hps Hpr] _ _ _ _ _ _ _ _].
  rewrite run_state_bind in Hrun.
  rewrite run_state_bind. destruct (run_state _ st (initialize _ _ _ _)) as [[[]|] st0]; [|done].
  rewrite run_state_bind, Hrun.
  destruct (ready_deposit _ _ _ _ _ st1 _ da Hd) as (l & Hl & _).
  rewrite run_state_bind, (deposit_in_window _ _ _ _ _ _ _ st1 _ da l Hd Hw Hl).
  destruct (token_transfer_spec _ _ _ _ _ _ _ Hl) as (_ & Hinfo & Hbal).
  pose proof (dr_vault _ _ _ _ _ _ _ _ Hd) as Hvault. pose proof (dr_user _ _ _ _ _ _ _ _ Hd) as Huser.
  pose proof (dr_wallet _ _ _ _ _ _ _ _ Hd) as Hwal.
  cbv beta in *. rewrite Hz2 in *.
  assert (Hne : associated_token (da_inputToken da) wallet TOKEN_PROGRAM_ID ≠
    associated_token (da_inputToken da) (state_key programId 0) TOKEN_PROGRAM_ID).
  { intros Heq. rewrite Heq in Huser. congruence. }
  set (st2 := deposited _ _ st1 _ l da).
  assert (Hu : u64 (ta_chainId ra)) by (rewrite <- Hc; apply Hfit).
  assert (Hpr' : has_route programId (ta_originToken ra) 0 (ta_chainId ra)) by (by rewrite <- Ht, <- Hc).
  pose proof (query_route_run programId TOKEN_PROGRAM_ID ASSOCIATED_TOKEN_PROGRAM_ID SystemProgram_programId wallet
    local_clock cluster_time st2 (set_number_of_deposits (initial_state wallet ia addr) (ia_initNumbDeposits ia + 1)) ra true) as Hq.
  cbn [s_seed set_number_of_deposits initial_state] in Hq. rewrite Hz1 in Hq.
  assert (Hvk : balance (ledger st2) (associated_token (da_inputToken da) (state_key programId 0) TOKEN_PROGRAM_ID)
    = da_inputAmount da).
  { cbn. rewrite Hbal, Hv0. rewrite decide_False by done. rewrite decide_True by done. lia. }
  exists st2. split_and!.
  - rewrite Hq; [by rewrite <- Ht, Hvk|done|done|done|done|unfold u64; lia|done| |].
    + pose proof (fetch_route_ok programId st2 (set_number_of_deposits (initial_state wallet ia addr) (ia_initNumbDeposits ia + 1))
        (ta_originToken ra) (ta_chainId ra) true) as Hf.
      cbn [s_seed set_number_of_deposits initial_state] in Hf. apply Hf; [done|done|done|..].
      * cbn. rewrite Hroutes. apply lookup_insert_eq.
      * cbn. rewrite Hroutes. intros t c Hin _.
        destruct Hin as [b Hin%lookup_singleton_Some]. by destruct Hin as [? _].
    + cbn. rewrite <- Ht, (proj1 (Hinfo _)), Hvault. by eexists.
  - cbn. by rewrite Hev, <- app_assoc.
  - cbn. rewrite Hbal, decide_True, decide_False, Hb by done. lia.
Qed.
End Properties.

(** A wallet with 100 tokens, a new pool, and clocks two seconds apart. *)
Definition st_wallet : pubkey := ex_key x05.
Definition st_user : pubkey := toy_ata ex_mint st_wallet ex_tokens.
Definition st_pool : spoke_state toy_ledger :=
  fresh {| toy_mints := {[ex_mint := ex_tokens]}; toy_accounts := {[st_user := (ex_info st_wallet, 100)]} |}.
Definition st_addr : bytes := replicate 20 xaa.
Definition st_init : initialize_args :=
  {| ia_seed := 0; ia_initNumbDeposits := 4; ia_chainId := 34268394551451; ia_remoteDomain := 0;
     ia_crossDomainAdmin := "0x" +:+ to_hex st_addr; ia_depositQuoteTimeBuffer := None;
     ia_fillDeadlineBuffer := None |}.
Definition st_route : route_args := {| ta_seed := 0; ta_originToken := ex_mint; ta_chainId := 11155111 |}.
Definition st_deposit : deposit_args :=
  {| da_seed := 0; da_recipient := st_wallet; da_inputToken := ex_mint; da_outputToken := ex_mint;
     da_inputAmount := 60; da_outputAmount := 59; da_destinationChainId := 11155111 |}.

Lemma st_init_fits : initialize_fits st_init st_addr.
Proof. unfold initialize_fits, u64, u32. cbn. repeat split; lia. Qed.

Lemma st_setup_ready :
  setup_ready ex_program ex_tokens st_wallet 1700000000000 1700000002 st_pool st_init st_addr st_route st_deposit.
Proof.
  split.
  - split; reflexivity.
  - split; [apply st_init_fits|cbn; lia].
  - split_and!; reflexivity.
  - split; reflexivity.
  - vm_compute. split_and!; done.
  - split; vm_compute; reflexivity.
  - vm_compute. reflexivity.
  - split; vm_compute; reflexivity.
  - vm_compute. reflexivity.
  - vm_compute. discriminate.
  - vm_compute. discriminate.
  - cbn. lia.
  - vm_compute. split; discriminate.
  - vm_compute. split; discriminate.
Qed.

Lemma initialize_reported_witness :
  run_state (script_services ex_program ex_tokens (ex_key x00) st_wallet 0 0) st_pool
    (initialize ex_program (ex_key x00) st_wallet st_init ;; queryState ex_program 0) =
  (Ok (StateFetched (state_rows (initial_state st_wallet st_init st_addr))),
   with_state st_pool (initial_state st_wallet st_init st_addr)).
Proof.
  exact (initialize_reported (HE := toy_ethers) ex_program ex_tokens (ex_key x00) st_wallet 0 0 st_pool st_init
    st_addr eq_refl eq_refl st_init_fits).
Defined.

(** The pool the set-up leaves. *)
Lemma simpleDeposit_window_witness :
  ∃ st l, run_state (script_services ex_program ex_tokens (ex_key x00) st_wallet 1700000000000 1700000002) st
            (depositV3 ex_program ex_tokens st_wallet st_deposit) =
          (Ok tt, deposited st_wallet 1700000000000 st (initial_state st_wallet st_init st_addr) l st_deposit).
Proof.
  destruct (setup_run (HE := toy_ethers) ex_program ex_tokens ex_tokens (ex_key x00) st_wallet 1700000000000 1700000002 st_pool
    st_init st_addr st_route st_deposit st_setup_ready) as (st & _ & Hd & Hw & _).
  destruct (simpleDeposit_window ex_program ex_tokens ex_tokens (ex_key x00) st_wallet 1700000000000 1700000002
    st (initial_state st_wallet st_init st_addr) st_deposit Hd) as [[_ (l & _ & Hl)]|[Hn _]].
  - exists st, l. exact Hl.
  - exfalso. exact (Hn Hw).
Defined.

Lemma setup_and_deposit_witness :
  ∃ st', run_state (script_services ex_program ex_tokens (ex_key x00) st_wallet 1700000000000 1700000002) st_pool
      (initialize ex_program (ex_key x00) st_wallet st_init ;;
       enableRoute ex_program ex_tokens ex_tokens (ex_key x00) st_wallet st_route true ;;
       depositV3 ex_program ex_tokens st_wallet st_deposit ;; queryRoute ex_program ex_tokens st_route)
    = (Ok (RouteFetched true 60), st') ∧ balance (ledger st') st_user = 40.
Proof.
  destruct (setup_and_deposit (HE := toy_ethers) ex_program ex_tokens ex_tokens (ex_key x00) st_wallet 1700000000000 1700000002 st_pool
    st_init st_addr st_route st_deposit st_setup_ready) as (st' & Hrun & _ & Hb).
  exists st'. split; [exact Hrun|]. exact Hb.
Defined.
