(* ===== verification/SvmFillScripts.v ===== *)
(** * scripts/svm: simpleFill, queryFills, queryDeposits, closeDataWorkerLookUpTables

    Filling a relay from the command line, on the fill accounts and the token
    ledger of [SvmFillTokens]; listing the events of the program; and the
    maintenance script that closes the wallet's address lookup tables, on a
    model of the tables. *)

From stdpp Require Import base gmap strings list.
From Stdlib Require Import ZArith Strings.Byte Lia.
From S2P Require Import Prelude Bytes JsText Interfaces Consts SvmSpoke SvmUtils SvmFills SvmFillTokens SvmState SvmClient SvmScripts.

(** ** simpleFill.ts *)
Record fill_args := {
  fa_seed : Z;
  fa_depositor : pubkey;
  fa_recipient : pubkey;
  fa_exclusiveRelayer : option pubkey;
  fa_inputToken : pubkey;
  fa_outputToken : pubkey;
  fa_inputAmount : Z;
  fa_outputAmount : Z;
  fa_originChainId : Z;
  fa_depositId : Z;
  fa_fillDeadline : option Z;
  fa_exclusivityDeadline : option Z;
  fa_message : option string
}.

(** The calls of the script; [Date.now()] is made only for a missing option. *)
Inductive fillE : Type → Type :=
| FillDateNow : fillE Z
| FillFetchChainId (statePda : pubkey) : fillE Z
| RpcFillV3Relay (relayHash : bytes) (relayData : V3RelayData) (repaymentChainId : Z)
    (repaymentAddress : pubkey) (accounts : accounts_map) : fillE unit.

Section Script.
Context `{HK : Keccak} `{HB : BNjs} `{HW : Web3}.
Context (associated_token : pubkey → pubkey → pubkey → pubkey).
Context (programId TOKEN_PROGRAM_ID ASSOCIATED_TOKEN_PROGRAM_ID SystemProgram_programId wallet : pubkey).

(** [value || Math.floor(Date.now() / 1000) + delay] *)
Definition deadline_or (value : option Z) (delay : Z) : prog fillE Z :=
  match value with
  | Some v => if v =? 0 then let! now := call FillDateNow in Ret (now / 1000 + delay) else Ret v
  | None => let! now := call FillDateNow in Ret (now / 1000 + delay)
  end.

Definition fill_relay_data (argv : fill_args) (inputAmount outputAmount fillDeadline exclusivityDeadline : Z)
  : V3RelayData :=
  {| depositor := fa_depositor argv; recipient := fa_recipient argv;
     exclusive_relayer := default default_pubkey (fa_exclusiveRelayer argv);
     input_token := fa_inputToken argv; output_token := fa_outputToken argv;
     input_amount := inputAmount; output_amount := outputAmount;
     origin_chain_id := fa_originChainId argv; deposit_id := fa_depositId argv;
     fill_deadline := fillDeadline; exclusivity_deadline := exclusivityDeadline;
     message := utf8_encode (default ""%string (fa_message argv)) |}.

(** The account object of the fill. *)
Definition fill_accounts (argv : fill_args) (statePda fillStatusPda : pubkey) : accounts_map :=
  [("state", statePda); ("signer", wallet); ("mintAccount", fa_outputToken argv);
   ("relayerTokenAccount", associated_token (fa_outputToken argv) wallet TOKEN_PROGRAM_ID);
   ("recipientTokenAccount", associated_token (fa_outputToken argv) (fa_recipient argv) TOKEN_PROGRAM_ID);
   ("fillStatus", fillStatusPda); ("tokenProgram", TOKEN_PROGRAM_ID);
   ("associatedTokenProgram", ASSOCIATED_TOKEN_PROGRAM_ID);
   ("systemProgram", SystemProgram_programId); ("programId", programId)]%string.

Definition fillV3Relay (argv : fill_args) : prog fillE unit :=
  let! inputAmount := lift (BN_number (fa_inputAmount argv)) in
  let! outputAmount := lift (BN_number (fa_outputAmount argv)) in
  let! fillDeadline := deadline_or (fa_fillDeadline argv) 60 in
  let! exclusivityDeadline := deadline_or (fa_exclusivityDeadline argv) 30 in
  let relayData := fill_relay_data argv inputAmount outputAmount fillDeadline exclusivityDeadline in
  let signer := wallet in
  let! statePda := lift (state_address programId (fa_seed argv)) in
  let! chainId := call (FillFetchChainId statePda) in
  let! relayHashUint8Array := lift (calculateRelayHashUint8Array relayData chainId) in
  let! fillStatusPda := lift (find_pda programId [utf8_encode "fills"; relayHashUint8Array]) in
  call (RpcFillV3Relay relayHashUint8Array relayData chainId signer
          (fill_accounts argv statePda fillStatusPda)).
End Script.

(** ** The program as a service *)
Section FillService.
Context {L : Type} `{HK : Keccak} `{HB : BNjs} `{HR : Borsh} `{HW : Web3} `{HT : TokenProgram L}.
Context (programId SystemProgram_programId ASSOCIATED_TOKEN_PROGRAM_ID wallet : pubkey).
(** The pool's seed, the machine's clock in milliseconds and the cluster's in
    seconds. *)
Context (seed local_clock cluster_time : Z).
Implicit Types p : fill_pool L.

(** Anchor's encoding of the relay data. *)
Definition encode_relay (d : V3RelayData) : result V3RelayData :=
  let? input := anchor_u64 (input_amount d) in
  let? output := anchor_u64 (output_amount d) in
  let? chain := anchor_u64 (origin_chain_id d) in
  let? id := anchor_u32 (deposit_id d) in
  let? fill := anchor_u32 (fill_deadline d) in
  let? exclusivity := anchor_u32 (exclusivity_deadline d) in
  Ok {| depositor := depositor d; recipient := recipient d; exclusive_relayer := exclusive_relayer d;
        input_token := input_token d; output_token := output_token d; input_amount := input;
        output_amount := output; origin_chain_id := chain; deposit_id := id; fill_deadline := fill;
        exclusivity_deadline := exclusivity; message := message d |}.

(** [FillV3Relay]: the state and the fill account are at their derived
    addresses and the programs are the right ones; the mint and the two token
    accounts are checked by the handler. *)
Definition run_fill p (h : bytes) (relayData : V3RelayData) (repaymentAddress : pubkey)
    (accounts : accounts_map) : result (fill_pool L) :=
  let? d := encode_relay relayData in
  let? state_key := state_pda programId seed in
  let? fill_status := pda programId "fills" [h] in
  let? mint := from_option_err ConstraintSeeds (js_lookup accounts "mintAccount"%string) in
  let? relayer_account := from_option_err ConstraintSeeds (js_lookup accounts "relayerTokenAccount"%string) in
  let? recipient_account := from_option_err ConstraintSeeds (js_lookup accounts "recipientTokenAccount"%string) in
  let? tp := from_option_err ConstraintSeeds (js_lookup accounts "tokenProgram"%string) in
  let? _ := check_accounts accounts
    [("state", state_key); ("signer", wallet); ("fillStatus", fill_status);
     ("associatedTokenProgram", ASSOCIATED_TOKEN_PROGRAM_ID);
     ("systemProgram", SystemProgram_programId)]%string in
  pool_fill cluster_time p wallet h d repaymentAddress mint relayer_account recipient_account tp.

Definition fill_services : handler (fill_pool L) fillE := λ X p c,
  match c in fillE Y return result Y * fill_pool L with
  | FillDateNow => (Ok local_clock, p)
  | FillFetchChainId k =>
      (let? state_key := state_pda programId seed in
       let? _ := require (bool_decide (k = state_key)) (NoAccount k) in Ok (spoke_chain_id (fp_fills p)), p)
  | RpcFillV3Relay h d _ address accounts => done_in p (run_fill p h d address accounts)
  end.
End FillService.

(** ** queryFills.ts and queryDeposits.ts *)
Record filled_event := {
  fv_relay : V3RelayData;
  fv_repaymentChainId : Z;
  fv_relayer : pubkey;
  fv_updatedRecipient : pubkey;
  fv_updatedMessage : bytes;
  fv_updatedOutputAmount : Z;
  fv_fillType : FillType
}.

Record deposited_event := { dv_depositId : Z; dv_params : DepositParams }.

Inductive decoded_event :=
| FilledEvent (e : filled_event)
| DepositedEvent (e : deposited_event)
| OtherEvent.

(** The tables printed, one per event. *)
Inductive value := VText (s : string) | VFillType (t : FillType).
Abbreviation table := (list (string * value)) (only parsing).

Inductive events_report :=
| NoEvents
| EventsFetched (tables : list (list (string * value)))
| EventsError (e : js_error).

Section Queries.
Context `{HB : BNjs} `{HW : Web3} `{HC : AnchorCodec decoded_event}.
(** The program, and [buffer.toString()] of a message. *)
Context (programId : pubkey) (utf8_decode : bytes → string).

Definition fill_table (e : filled_event) : table :=
  let d := fv_relay e in
  [("inputToken", VText (toBase58 (input_token d))); ("outputToken", VText (toBase58 (output_token d)));
   ("inputAmount", VText (decimal (input_amount d))); ("outputAmount", VText (decimal (output_amount d)));
   ("repaymentChainId", VText (decimal (fv_repaymentChainId e)));
   ("originChainId", VText (decimal (origin_chain_id d))); ("depositId", VText (decimal (deposit_id d)));
   ("fillDeadline", VText (decimal (fill_deadline d)));
   ("exclusivityDeadline", VText (decimal (exclusivity_deadline d)));
   ("exclusiveRelayer", VText (toBase58 (exclusive_relayer d))); ("relayer", VText (toBase58 (fv_relayer e)));
   ("depositor", VText (toBase58 (depositor d))); ("recipient", VText (toBase58 (recipient d)));
   ("message", VText (utf8_decode (message d)));
   ("updatedRecipient", VText (toBase58 (fv_updatedRecipient e)));
   ("updatedMessage", VText (utf8_decode (fv_updatedMessage e)));
   ("updatedOutputAmount", VText (decimal (fv_updatedOutputAmount e)));
   ("fillType", VFillType (fv_fillType e))]%string.

Definition deposit_table (e : deposited_event) : table :=
  let p := dv_params e in
  [("inputToken", VText (toBase58 (dp_input_token p))); ("outputToken", VText (toBase58 (dp_output_token p)));
   ("inputAmount", VText (decimal (dp_input_amount p))); ("outputAmount", VText (decimal (dp_output_amount p)));
   ("destinationChainId", VText (decimal (dp_destination_chain_id p)));
   ("depositId", VText (decimal (dv_depositId e)));
   ("quoteTimestamp", VText (decimal (dp_quote_timestamp p)));
   ("fillDeadline", VText (decimal (dp_fill_deadline p)));
   ("exclusivityDeadline", VText (decimal (dp_exclusivity_deadline p)));
   ("depositor", VText (toBase58 (dp_depositor p))); ("recipient", VText (toBase58 (dp_recipient p)));
   ("exclusiveRelayer", VText (toBase58 (dp_exclusive_relayer p)));
   ("message", VText (utf8_decode (dp_message p)))]%string.

(** Reading a field the data does not have throws. *)
Definition fill_row (event : program_event decoded_event) : result table :=
  match event_data event with Some (FilledEvent e) => Ok (fill_table e) | _ => Err TypeError end.
Definition deposit_row (event : program_event decoded_event) : result table :=
  match event_data event with Some (DepositedEvent e) => Ok (deposit_table e) | _ => Err TypeError end.

Definition named (name : string) (event : program_event decoded_event) : Prop := event_name event = Some name.
#[export] Instance named_dec name event : Decision (named name event) := decide (event_name event = Some name).

Definition queryFills (seed : Z) : prog rpcE events_report :=
  let! statePda := lift (state_address programId seed) in
  try_catch
    (let! events := readProgramEvents programId in
     let fillEvents := filter (named "filledV3Relay") events in
     if bool_decide (length fillEvents = 0%nat) then Ret NoEvents
     else let! tables := lift (map_result fill_row fillEvents) in Ret (EventsFetched tables))
    (λ error, Ret (EventsError error)).

Definition queryDeposits (seed : Z) : prog rpcE events_report :=
  let! statePda := lift (state_address programId seed) in
  try_catch
    (let! events := readProgramEvents programId in
     let depositEvents := filter (named "v3FundsDeposited") events in
     if bool_decide (length depositEvents = 0%nat) then Ret NoEvents
     else let! tables := lift (map_result deposit_row depositEvents) in Ret (EventsFetched tables))
    (λ error, Ret (EventsError error)).
End Queries.

(** ** closeDataWorkerLookUpTables.ts *)
Inductive lookupE : Type → Type :=
| GetProgramAccounts (offset : nat) (authority : pubkey) : lookupE (list pubkey)
| SendDeactivate (table authority : pubkey) : lookupE unit
| SendClose (table authority recipient : pubkey) : lookupE unit.

Section Lookup.
Context (wallet : pubkey).

Definition close_table (lookupTableAddress : pubkey) : prog lookupE unit :=
  try_catch (call (SendDeactivate lookupTableAddress wallet)) (λ _, Ret tt) ;;
  try_catch (call (SendClose lookupTableAddress wallet wallet)) (λ _, Ret tt).

Definition closeDataWorkerLookUpTables : prog lookupE unit :=
  try_catch
    (let! accounts := call (GetProgramAccounts 22 wallet) in for_each accounts close_table)
    (λ _, Ret tt).

(** The address lookup table program: a table's authority and the slot of its
    deactivation; a table may be closed [cooldown] slots after that.  The
    authority is at byte 22 of the account. *)
Record lookup_table := { lt_authority : pubkey; lt_deactivated : option Z }.

Context (cooldown slot : Z).
Abbreviation lookup_tables := (gmap pubkey lookup_table) (only parsing).

Definition InvalidTable : js_error := JsError "invalid lookup table".

Definition deactivate (m : lookup_tables) (k authority : pubkey) : result lookup_tables :=
  let? t := from_option_err InvalidTable (m !! k) in
  let? _ := require (bool_decide (lt_authority t = authority)) InvalidTable in
  let? _ := require (bool_decide (lt_deactivated t = None)) InvalidTable in
  Ok (<[k := {| lt_authority := authority; lt_deactivated := Some slot |}]> m).

Definition closable (t : lookup_table) : bool :=
  match lt_deactivated t with Some d => d + cooldown <? slot | None => false end.

Definition close (m : lookup_tables) (k authority : pubkey) : result lookup_tables :=
  let? t := from_option_err InvalidTable (m !! k) in
  let? _ := require (bool_decide (lt_authority t = authority)) InvalidTable in
  let? _ := require (closable t) InvalidTable in
  Ok (delete k m).

Definition owned (authority : pubkey) (r : pubkey * lookup_table) : Prop := lt_authority r.2 = authority.
#[export] Instance owned_dec authority r : Decision (owned authority r) := decide (lt_authority r.2 = authority).

Definition lookup_services : handler lookup_tables lookupE := λ X m c,
  match c in lookupE Y return result Y * lookup_tables with
  | GetProgramAccounts offset authority =>
      (Ok (if bool_decide (offset = 22%nat) then map fst (filter (owned authority) (map_to_list m)) else []), m)
  | SendDeactivate k authority => done_in m (deactivate m k authority)
  | SendClose k authority _ => done_in m (close m k authority)
  end.
End Lookup.

(** ** Lemmas *)
Section LookupRuns.
Context (wallet : pubkey) (cooldown slot : Z).
Context (Hcool : 0 ≤ cooldown).
Implicit Types (m : gmap pubkey lookup_table).
Local Abbreviation serve := (lookup_services cooldown slot).

(** What happens to one table of the wallet. *)
Definition processed (t : lookup_table) : option lookup_table :=
  match lt_deactivated t with
  | None => Some {| lt_authority := lt_authority t; lt_deactivated := Some slot |}
  | Some d => if d + cooldown <? slot then None else Some t
  end.

Lemma run_ignored m (c : lookupE unit) r m' : serve unit m c = (r, m') → (∀ n, r ≠ Err (ProcessExit n)) →
  run_state serve m (try_catch (call c) (λ _, Ret tt)) = (Ok tt, m').
Proof.
  intros Hc Hr. cbn [call try_catch run_state]. rewrite Hc. destruct r as [[]|[]]; try done.
  by destruct (Hr code).
Qed.

Lemma close_table_run m k t : m !! k = Some t → lt_authority t = wallet →
  run_state serve m (close_table wallet k) = (Ok tt, partial_alter (λ _, processed t) k m).
Proof.
  intros Hk Ha. unfold close_table. rewrite run_state_bind.
  assert (∃ r, serve unit m (SendDeactivate k wallet) =
    (r, match lt_deactivated t with None => <[k := {| lt_authority := wallet; lt_deactivated := Some slot |}]> m
        | Some _ => m end) ∧ ∀ n, r ≠ Err (ProcessExit n)) as (r & Hr & Hne).
  { cbn [lookup_services]. unfold deactivate. rewrite Hk. cbn [from_option_err result_bind].
    rewrite bool_decide_eq_true_2 by done. cbn [require result_bind].
    destruct (lt_deactivated t); cbn; eexists; (split; [reflexivity|done]). }
  rewrite (run_ignored _ _ _ _ Hr Hne). destruct (lt_deactivated t) as [d|] eqn:Hd.
  - assert (∃ r, serve unit m (SendClose k wallet wallet) = (r, partial_alter (λ _, processed t) k m)
      ∧ ∀ n, r ≠ Err (ProcessExit n)) as (r' & Hr' & Hne').
    { cbn [lookup_services]. unfold close, closable, processed. rewrite Hk. cbn [from_option_err result_bind]. rewrite Hd.
      rewrite bool_decide_eq_true_2 by done. cbn [require result_bind].
      destruct (d + cooldown <? slot); cbn [require result_bind done_in answer];
        [|rewrite <- Hk, partial_alter_self]; eexists; (split; [reflexivity|done]). }
    by rewrite (run_ignored _ _ _ _ Hr' Hne').
  - assert (∃ r, serve unit (<[k := {| lt_authority := wallet; lt_deactivated := Some slot |}]> m)
        (SendClose k wallet wallet) = (r, partial_alter (λ _, processed t) k m)
      ∧ ∀ n, r ≠ Err (ProcessExit n)) as (r' & Hr' & Hne').
    { cbn [lookup_services]. unfold close, closable, processed. rewrite lookup_insert_eq, Hd, Ha.
      cbn [from_option_err result_bind lt_authority lt_deactivated].
      rewrite bool_decide_eq_true_2 by done. cbn [require result_bind].
      rewrite (proj2 (Z.ltb_ge _ _)) by lia. cbn. eexists; (split; [reflexivity|done]). }
    by rewrite (run_ignored _ _ _ _ Hr' Hne').
Qed.

(** What a run does to a table, the wallet's or not. *)
Definition table_step (t : lookup_table) : option lookup_table :=
  if decide (lt_authority t = wallet) then processed t else Some t.

Lemma close_all_run ks m : NoDup ks → (∀ k, k ∈ ks → ∃ t, m !! k = Some t ∧ lt_authority t = wallet) →
  ∃ m', run_state serve m (for_each ks (close_table wallet)) = (Ok tt, m') ∧
    ∀ k, m' !! k = if decide (k ∈ ks) then m !! k ≫= table_step else m !! k.
Proof.
  revert m. induction ks as [|k ks IH]; intros m Hnd Hks; cbn [for_each].
  - exists m. split; [done|]. intros k. by rewrite decide_False by apply not_elem_of_nil.
  - apply NoDup_cons in Hnd as [Hk Hnd]. destruct (Hks k) as (t & Ht & Ha); [by left|].
    rewrite run_state_bind, (close_table_run m k t Ht Ha).
    destruct (IH (partial_alter (λ _, processed t) k m) Hnd) as (m' & -> & Hm').
    { intros k' Hk'. rewrite lookup_partial_alter_ne by (by intros ->). apply Hks. by right. }
    exists m'. split; [done|]. intros k'. rewrite Hm'. destruct (decide (k' = k)) as [->|Hne].
    + rewrite decide_False, decide_True by (done || by left). rewrite lookup_partial_alter_eq, Ht. cbn.
      unfold table_step. by rewrite decide_True.
    + rewrite lookup_partial_alter_ne by done. destruct (decide (k' ∈ ks)).
      * by rewrite decide_True by (by right).
      * by rewrite decide_False by (by intros [?|?]%elem_of_cons).
Qed.

Lemma run_tables m :
  run_state serve m (closeDataWorkerLookUpTables wallet) = (Ok tt, omap table_step m).
Proof.
  unfold closeDataWorkerLookUpTables. apply run_state_try_ok.
  rewrite run_state_bind, run_state_call. cbn [lookup_services]. rewrite bool_decide_eq_true_2 by done.
  set (ks := map fst (filter (owned wallet) (map_to_list m))).
  assert (Hin : ∀ k, k ∈ ks ↔ ∃ t, m !! k = Some t ∧ lt_authority t = wallet).
  { intros k. unfold ks. rewrite list_elem_of_fmap. split.
    - intros ([k' t] & -> & [Ho Hin]%list_elem_of_filter). apply elem_of_map_to_list in Hin. by exists t.
    - intros (t & Ht & Ha). exists (k, t). split; [done|]. apply list_elem_of_filter.
      split; [done|]. by apply elem_of_map_to_list. }
  destruct (close_all_run ks m) as (m' & Hrun & Hm').
  - unfold ks. eapply sublist_NoDup; [apply (NoDup_fst_map_to_list m)|]. apply (fmap_sublist fst), sublist_filter.
  - intros k. apply Hin.
  - rewrite Hrun. f_equal. apply map_eq. intros k. rewrite Hm', lookup_omap. case_decide as Hk; [done|].
    destruct (m !! k) as [t|] eqn:Ht; [|done]. cbn. unfold table_step. rewrite decide_False; [done|].
    intros Ha. apply Hk, Hin. by exists t.
Qed.
End LookupRuns.

(** closeDataWorkerLookUpTables.ts, run again after the cooldown, has
    closed every lookup table of the wallet and left the tables of others as
    they were: the first run deactivates the tables still active, closing fails
    for them and is ignored, and the second run closes them all. *)
Theorem lookup_tables_closed (wallet : pubkey) (cooldown slot later : Z) (m : gmap pubkey lookup_table) :
  0 ≤ cooldown → slot + cooldown < later →
  (∀ k t d, m !! k = Some t → lt_deactivated t = Some d → d ≤ slot) →
  let '(first, m1) := run_state (lookup_services cooldown slot) m (closeDataWorkerLookUpTables wallet) in
  let '(second, m2) := run_state (lookup_services cooldown later) m1 (closeDataWorkerLookUpTables wallet) in
  first = Ok tt ∧ second = Ok tt ∧ m2 = filter (λ r, lt_authority r.2 ≠ wallet) m.
Proof.
  intros Hc Hl Hd. rewrite !run_tables by done. split_and!; [done|done|].
  apply map_eq. intros k. rewrite !lookup_omap, map_lookup_filter.
  destruct (m !! k) as [t|] eqn:Hk; cbn; [|done]. specialize (Hd k t). unfold table_step, processed.
  destruct (decide (lt_authority t = wallet)) as [Ha|Ha].
  - destruct (lt_deactivated t) as [d|] eqn:Ht; cbn.
    + specialize (Hd d Hk eq_refl). destruct (Z.ltb_spec (d + cooldown) slot); cbn.
      * by rewrite option_guard_False by (intros ?; done).
      * rewrite Ht, decide_True by done. rewrite (proj2 (Z.ltb_lt _ _)) by lia.
        by rewrite option_guard_False by (intros ?; done).
    + rewrite decide_True by done. rewrite (proj2 (Z.ltb_lt _ _)) by lia.
      by rewrite option_guard_False by (intros ?; done).
  - cbn. rewrite decide_False by done. by rewrite option_guard_True.
Qed.

Definition lt_sample : gmap pubkey lookup_table :=
  {[ [x01] := {| lt_authority := [x0a]; lt_deactivated := None |};
     [x02] := {| lt_authority := [x0a]; lt_deactivated := Some 10 |};
     [x03] := {| lt_authority := [x0b]; lt_deactivated := None |} ]}.

Lemma lookup_tables_closed_witness :
  snd (run_state (lookup_services 512 2000)
         (snd (run_state (lookup_services 512 1000) lt_sample (closeDataWorkerLookUpTables [x0a])))
         (closeDataWorkerLookUpTables [x0a])) = {[ [x03] := {| lt_authority := [x0b]; lt_deactivated := None |} ]}.
Proof.
  pose proof (lookup_tables_closed [x0a] 512 1000 2000 lt_sample ltac:(lia) ltac:(lia)) as H.
  assert (Hd : ∀ k t d, lt_sample !! k = Some t → lt_deactivated t = Some d → d ≤ 1000).
  { assert (Hall : map_Forall (λ _ t, default 0 (lt_deactivated t) ≤ 1000) lt_sample)
      by (apply (bool_decide_unpack _); vm_compute; exact I).
    intros k t d Hk Ht. specialize (Hall k t Hk). cbn in Hall. by rewrite Ht in Hall. }
  specialize (H Hd).
  destruct (run_state (lookup_services 512 1000) lt_sample (closeDataWorkerLookUpTables [x0a])) as [r1 m1].
  cbn [snd]. destruct (run_state (lookup_services 512 2000) m1 (closeDataWorkerLookUpTables [x0a])) as [r2 m2].
  destruct H as (_ & _ & ->). vm_compute. reflexivity.
Defined.

Section FillConditions.
Context {L : Type} `{HK : Keccak} `{HR : Borsh} `{HT : TokenProgram L}.
Context (TOKEN_PROGRAM_ID wallet : pubkey) (cluster_time : Z).
Implicit Types (st : fills_state) (p : fill_pool L) (d : V3RelayData).

(** When the state of the fills lets the wallet fill a relay. *)
Definition fill_open st d : Prop :=
  paused_fills st = false ∧
  (exclusive_relayer d = wallet ∨ exclusivity_deadline d < cluster_time ∨ exclusive_relayer d = default_pubkey) ∧
  cluster_time ≤ fill_deadline d ∧
  status (default empty_account (fills st !! get_v3_relay_hash d (spoke_chain_id st))) ≠ Filled.

(** The fills after the wallet filled a relay. *)
Definition fill_event_of st d : FilledV3Relay :=
  {| fe_relay := d; fe_relayer := wallet; fe_updated_output_amount := output_amount d;
     fe_fill_type := match status (default empty_account (fills st !! get_v3_relay_hash d (spoke_chain_id st))) with
                     | RequestedSlowFill => ReplacedSlowFill
                     | Unfilled | Filled => FastFill
                     end |}.
Definition fills_after st d : fills_state :=
  with_event (with_account st (get_v3_relay_hash d (spoke_chain_id st)) {| status := Filled; relayer := wallet |})
    (fill_event_of st d).

Lemma fill_v3_relay_iff st d own transfer :
  let x := fill_v3_relay cluster_time st wallet (get_v3_relay_hash d (spoke_chain_id st)) d wallet own transfer in
  (fill_open st d ∧ (own = true ∨ transfer = Ok tt) ∧ x = Ok (fills_after st d)) ∨
  (¬ (fill_open st d ∧ (own = true ∨ transfer = Ok tt)) ∧ ∃ e, x = Err e).
Proof.
  unfold fill_v3_relay, is_relay_hash_valid, fill_open, fills_after, fill_event_of.
  rewrite (bool_decide_eq_true_2 (get_v3_relay_hash _ _ = _)) by done.
  destruct (paused_fills st); cbn [negb require result_bind]; [right; split; [by intros [[]]|by eexists]|].
  set (blocked := negb (bool_decide (exclusive_relayer d = wallet)) && (cluster_time <=? exclusivity_deadline d) &&
    negb (bool_decide (exclusive_relayer d = default_pubkey))).
  assert (Hb : blocked = false ↔ (exclusive_relayer d = wallet ∨ exclusivity_deadline d < cluster_time ∨
    exclusive_relayer d = default_pubkey)).
  { unfold blocked. rewrite !andb_false_iff, !negb_false_iff, !bool_decide_eq_true, Z.leb_gt. tauto. }
  destruct blocked; cbn [negb require result_bind].
  { right. split; [|by eexists]. intros [(_ & Hx & _) _]. by apply Hb in Hx. }
  destruct (Z.leb_spec cluster_time (fill_deadline d)); cbn [require result_bind];
    [|right; split; [intros [(_ & _ & ? & _) _]; lia|by eexists]].
  destruct (status _); cbn [result_bind]; [| |right; split; [by intros [(_ & _ & _ & ?) _]|by eexists]].
  all: destruct own; cbn [result_bind]; [|destruct transfer as [[]|]; cbn [result_bind]].
  all: try (right; split; [by intros [_ [?|?]]|by eexists]).
  all: left; split_and!; try done; try (by apply Hb); auto.
Qed.

(** The associated account of an owner, and whether it is one for the relay's
    output token. *)
Definition ata_of d (owner : pubkey) : pubkey := associated_token (output_token d) owner TOKEN_PROGRAM_ID.
Definition holds_output p d (owner : pubkey) : Prop :=
  token_account (fp_ledger p) (ata_of d owner) =
    Some {| tk_mint := output_token d; tk_authority := owner; tk_program := TOKEN_PROGRAM_ID |}.

(** The output amount goes from the wallet's account to the recipient's; a
    relay to the wallet itself moves nothing. *)
Definition fill_payment p d : result L :=
  if bool_decide (ata_of d wallet = ata_of d (recipient d)) then Ok (fp_ledger p)
  else token_transfer (fp_ledger p) (ata_of d wallet) (ata_of d (recipient d)) (output_token d) wallet (output_amount d).

(** When the program fills a relay for the wallet, the constraints on the mint
    and on the token accounts included. *)
Definition can_fill p d : Prop :=
  fill_open (fp_fills p) d ∧ mint_program (fp_ledger p) (output_token d) = Some TOKEN_PROGRAM_ID ∧
  holds_output p d wallet ∧ holds_output p d (recipient d) ∧ is_ok (fill_payment p d) = true.

(** The pool after the wallet filled a relay and the ledger became [l]. *)
Definition after_fill p d (l : L) : fill_pool L :=
  {| fp_fills := fills_after (fp_fills p) d; fp_ledger := l;
     settled := settled p ++ [{| se_event := fill_event_of (fp_fills p) d; se_from := ata_of d wallet;
                                 se_to := ata_of d (recipient d) |}] |}.

Lemma pool_fill_iff p d :
  let x := pool_fill cluster_time p wallet (get_v3_relay_hash d (spoke_chain_id (fp_fills p))) d wallet (output_token d)
             (ata_of d wallet) (ata_of d (recipient d)) TOKEN_PROGRAM_ID in
  (can_fill p d ∧ ∃ l, fill_payment p d = Ok l ∧ x = Ok (after_fill p d l)) ∨ (¬ can_fill p d ∧ ∃ e, x = Err e).
Proof.
  cbv zeta. unfold pool_fill, can_fill, holds_output. destruct (paused_fills (fp_fills p)) eqn:Hpause.
  { right. split; [|by eexists]. intros [[Hx _] _]. congruence. }
  cbn [negb require result_bind]. unfold SvmFillTokens.check_associated, SvmFillTokens.check_token_account, SvmFillTokens.check_mint.
  rewrite (bool_decide_eq_true_2 (output_token d = output_token d)) by done.
  rewrite (bool_decide_eq_true_2 (ata_of d (recipient d) = associated_token _ _ _)) by done. cbn [result_bind require].
  case_bool_decide as Hm; cbn [require result_bind]; [|right; split; [tauto|by eexists]].
  case_bool_decide as Hw; cbn [require result_bind]; [|right; split; [tauto|by eexists]].
  case_bool_decide as Hr; cbn [require result_bind]; [|right; split; [tauto|by eexists]].
  fold (fill_payment p d).
  destruct (fill_v3_relay_iff (fp_fills p) d (bool_decide (ata_of d wallet = ata_of d (recipient d)))
    (outcome_of (fill_payment p d))) as [(Ho & Ht & ->)|[Hn [e ->]]].
  - assert (is_ok (fill_payment p d) = true) as Hok.
    { destruct Ht as [Ht|Ht]; unfold outcome_of, fill_payment in *; [by rewrite Ht|].
      by destruct (if bool_decide _ then _ else _). }
    left. split; [done|]. destruct (fill_payment p d) as [l|]; [|done]. exists l. split; [done|].
    unfold settle, after_fill, fills_after. cbn [result_bind filled_log with_event with_account].
    by rewrite drop_app_length.
  - right. split; [|by eexists]. intros (Ho & _ & _ & _ & Hok). apply Hn. split; [done|]. right.
    by destruct (fill_payment p d).
Qed.
End FillConditions.

Section FillRuns.
Context {L : Type} `{HK : Keccak} `{HB : BNjs} `{HR : Borsh} `{HW : Web3} `{HT : TokenProgram L}.
Context (programId TOKEN_PROGRAM_ID ASSOCIATED_TOKEN_PROGRAM_ID SystemProgram_programId wallet : pubkey).
Context (local_clock cluster_time : Z).
Implicit Types p : fill_pool L.
Local Abbreviation serve := (fill_services (L := L) programId SystemProgram_programId
  ASSOCIATED_TOKEN_PROGRAM_ID wallet).

(** The deadline a missing or zero option gives. *)
Definition deadline_of (value : option Z) (delay : Z) : Z :=
  let d := default 0 value in if d =? 0 then local_clock / 1000 + delay else d.

Definition filled_relay (argv : fill_args) : V3RelayData :=
  fill_relay_data argv (fa_inputAmount argv) (fa_outputAmount argv) (deadline_of (fa_fillDeadline argv) 60)
    (deadline_of (fa_exclusivityDeadline argv) 30).

Lemma deadline_or_run seed p value delay :
  run_state (serve seed local_clock cluster_time) p (deadline_or value delay) =
    (Ok (deadline_of value delay), p).
Proof. unfold deadline_or, deadline_of. destruct value as [v|]; [|done]. cbn. by destruct (v =? 0). Qed.

(** The options are in range, and the addresses the script derives exist. *)
Record fill_fits (chain : Z) (argv : fill_args) : Prop := {
  ff_seed : u64 (fa_seed argv);
  ff_input : 0 ≤ fa_inputAmount argv < 2 ^ 53;
  ff_output : 0 ≤ fa_outputAmount argv < 2 ^ 53;
  ff_relay : relay_data_wf (filled_relay argv);
  ff_chain : u64 chain;
  ff_state_pda : has_state programId (fa_seed argv);
  ff_fill_pda : has_pda programId [utf8_encode "fills"; get_v3_relay_hash (filled_relay argv) chain]
}.

Lemma encode_relay_wf d : relay_data_wf d → encode_relay d = Ok d.
Proof.
  intros (_ & _ & _ & _ & _ & ? & ? & ? & ? & ? & ? & _). unfold encode_relay.
  rewrite !anchor_u64_ok, !anchor_u32_ok, !bind_ok by done. by destruct d.
Qed.

Lemma fill_accounts_checked argv (st_key fill_status : pubkey) :
  let accounts := fill_accounts associated_token programId TOKEN_PROGRAM_ID ASSOCIATED_TOKEN_PROGRAM_ID
    SystemProgram_programId wallet argv st_key fill_status in
  js_lookup accounts "mintAccount"%string = Some (fa_outputToken argv) ∧
  js_lookup accounts "relayerTokenAccount"%string =
    Some (associated_token (fa_outputToken argv) wallet TOKEN_PROGRAM_ID) ∧
  js_lookup accounts "recipientTokenAccount"%string =
    Some (associated_token (fa_outputToken argv) (fa_recipient argv) TOKEN_PROGRAM_ID) ∧
  js_lookup accounts "tokenProgram"%string = Some TOKEN_PROGRAM_ID ∧
  check_accounts accounts
    [("state", st_key); ("signer", wallet); ("fillStatus", fill_status);
     ("associatedTokenProgram", ASSOCIATED_TOKEN_PROGRAM_ID);
     ("systemProgram", SystemProgram_programId)]%string = Ok tt.
Proof. split_and!; [vm_compute; reflexivity..|accounts_found]. Qed.

Lemma fill_run p argv : fill_fits (spoke_chain_id (fp_fills p)) argv →
  let d := filled_relay argv in
  run_state (serve (fa_seed argv) local_clock cluster_time) p
    (fillV3Relay associated_token programId TOKEN_PROGRAM_ID ASSOCIATED_TOKEN_PROGRAM_ID SystemProgram_programId
       wallet argv) =
  done_in p (pool_fill cluster_time p wallet (get_v3_relay_hash d (spoke_chain_id (fp_fills p))) d wallet
    (output_token d) (ata_of TOKEN_PROGRAM_ID d wallet) (ata_of TOKEN_PROGRAM_ID d (recipient d)) TOKEN_PROGRAM_ID).
Proof.
  intros [Hs Hi Ho Hwf Hc Hps Hpf]. cbv zeta. unfold fillV3Relay. rewrite !BN_number_ok by done. cbn [lift bind].
  rewrite run_state_bind, deadline_or_run, run_state_bind, deadline_or_run.
  fold (filled_relay argv). unfold state_address. rewrite toArrayLike_le_fits, bind_ok by exact Hs.
  rewrite find_pda_ok by done. cbn [lift bind]. rewrite run_state_bind, run_state_call. cbn [fill_services].
  rewrite state_pda_ok, bind_ok by done. unfold state_key. rewrite bool_decide_eq_true_2 by done.
  cbn [require result_bind]. unfold calculateRelayHashUint8Array. rewrite relay_content_wf by done.
  cbn [result_bind]. rewrite keccak256_hex_digest.
  fold (get_v3_relay_hash (filled_relay argv) (spoke_chain_id (fp_fills p))).
  cbn [lift bind]. rewrite find_pda_ok by done. cbn [lift bind].
  rewrite run_state_call. cbn [fill_services]. unfold run_fill. rewrite encode_relay_wf, bind_ok by done.
  rewrite state_pda_ok, bind_ok, pda_ok, bind_ok by done.
  edestruct fill_accounts_checked as (Hm & Hr & Hrt & Ht & Ha).
  rewrite Hm, from_some, bind_ok, Hr, from_some, bind_ok, Hrt, from_some, bind_ok, Ht, from_some, bind_ok.
  unfold state_key. by rewrite Ha, bind_ok.
Qed.
End FillRuns.


(** simpleFill.ts cannot fill a relay without exclusivity.  Its
    exclusivity deadline is [option || now + 30], so a relay whose deadline is
    zero (every deposit of simpleDeposit.ts, and every deposit made without an
    exclusive relayer) is never the one it fills, [--exclusivityDeadline 0]
    included: after any run the relay has no new event and its fill account is
    the one before, unless two messages with the same keccak digest are
    exhibited. *)
Theorem simpleFill_misses_open_relays {L : Type} `{Keccak} `{BNjs} `{Borsh} `{Web3} `{TokenProgram L}
    (programId TOKEN_PROGRAM_ID ASSOCIATED_TOKEN_PROGRAM_ID SystemProgram_programId wallet : pubkey)
    (local_clock cluster_time : Z) (p : fill_pool L) (argv : fill_args) (d : V3RelayData) :
  fill_fits programId local_clock (spoke_chain_id (fp_fills p)) argv → 0 ≤ local_clock →
  relay_data_wf d → exclusivity_deadline d = 0 →
  let p' := snd (run_state (fill_services programId SystemProgram_programId
               ASSOCIATED_TOKEN_PROGRAM_ID wallet (fa_seed argv) local_clock cluster_time) p
               (fillV3Relay associated_token programId TOKEN_PROGRAM_ID ASSOCIATED_TOKEN_PROGRAM_ID
                  SystemProgram_programId wallet argv)) in
  let st := fp_fills p in
  let st' := fp_fills p' in
  let h := get_v3_relay_hash d (spoke_chain_id st) in
  (fills st' !! h = fills st !! h ∧ (d ∈ map fe_relay (filled_log st') → d ∈ map fe_relay (filled_log st))) ∨
  keccak_collision.
Proof.
  intros Hf Hclock Hd Hz. cbv zeta. rewrite fill_run by done.
  destruct (pool_fill_iff TOKEN_PROGRAM_ID wallet cluster_time p (filled_relay local_clock argv))
    as [[_ (l & _ & ->)]|[_ [e ->]]]; [|by left].
  set (d' := filled_relay local_clock argv). set (chain := spoke_chain_id (fp_fills p)) in *.
  assert (Hne : d' ≠ d).
  { intros Heq. apply (f_equal exclusivity_deadline) in Heq. rewrite Hz in Heq.
    cbn [d' filled_relay fill_relay_data exclusivity_deadline] in Heq. revert Heq. unfold deadline_of.
    destruct (Z.eqb_spec (default 0 (fa_exclusivityDeadline argv)) 0) as [|Hn]; [|done].
    assert (0 ≤ local_clock / 1000) by (apply Z.div_pos; lia). lia. }
  destruct (decide (get_v3_relay_hash d' chain = get_v3_relay_hash d chain)) as [Hh|Hh].
  - destruct (same_hash_same_relay d' d chain) as [?|?]; [apply Hf|done|apply Hf|done|done|by right].
  - left. cbn. split; [by rewrite lookup_insert_ne|]. rewrite map_app, elem_of_app. cbn.
    intros [?|Hin]; [done|]. apply list_elem_of_singleton in Hin. by destruct Hne.
Qed.

(** ** The lists of events *)
Section QueryRuns.
Context `{HB : BNjs} `{HW : Web3} `{HC : AnchorCodec decoded_event} (programId : pubkey) (utf8_decode : bytes → string).

(** The events with a name, with the data they decode to. *)
Definition data_of {A} (name : string) (pick : decoded_event → option A) (events : list (program_event decoded_event))
  : list A := omap (λ e, event_data e ≫= pick) (filter (named name) events).

Definition as_filled (d : decoded_event) : option filled_event := match d with FilledEvent e => Some e | _ => None end.
Definition as_deposited (d : decoded_event) : option deposited_event :=
  match d with DepositedEvent e => Some e | _ => None end.

(** The coder gives every event of the program its own data. *)
Definition well_decoded (events : list (program_event decoded_event)) : Prop :=
  Forall (λ e, (named "filledV3Relay" e → is_Some (event_data e ≫= as_filled)) ∧
               (named "v3FundsDeposited" e → is_Some (event_data e ≫= as_deposited))) events.

Lemma rows_of_data {A} name (pick : decoded_event → option A) (show : A → table)
    (row : program_event decoded_event → result table) events :
  (∀ e a, event_data e ≫= pick = Some a → row e = Ok (show a)) →
  Forall (λ e, named name e → is_Some (event_data e ≫= pick)) events →
  length (data_of name pick events) = length (filter (named name) events) ∧
  map_result row (filter (named name) events) = Ok (map show (data_of name pick events)).
Proof.
  intros Hrow. unfold data_of. induction 1 as [|e events He _ IH]; [done|].
  rewrite filter_cons. case_decide as Hn; [|done]. destruct (He Hn) as [a Ha].
  destruct IH as [IHl IHr]. cbn [omap list_omap]. rewrite Ha. cbn [map_result length map].
  by rewrite IHl, IHr, (Hrow e a Ha).
Qed.

Lemma run_try_ok {E A} (ev : env E) h (p : prog E A) g a h' :
  run ev h p = (Ok a, h') → run ev h (try_catch p g) = (Ok a, h').
Proof.
  revert h. induction p as [b|e|X c k IH]; intros h; cbn; [done|done|]. apply IH.
Qed.

(** The report of a list of tables. *)
Definition report (tables : list table) : events_report :=
  match tables with [] => NoEvents | _ => EventsFetched tables end.

Lemma query_run {A} name (pick : decoded_event → option A) show row (ev : env rpcE) seed events :
  has_state programId seed → u64 seed → outcome ev (readProgramEvents programId) = Ok events →
  (∀ e a, event_data e ≫= pick = Some a → row e = Ok (show a)) →
  Forall (λ e, named name e → is_Some (event_data e ≫= pick)) events →
  outcome ev (let! statePda := lift (state_address programId seed) in
    try_catch
      (let! events := readProgramEvents programId in
       let chosen := filter (named name) events in
       if bool_decide (length chosen = 0%nat) then Ret NoEvents
       else let! tables := lift (map_result row chosen) in Ret (EventsFetched tables))
      (λ error, Ret (EventsError error))) = Ok (report (map show (data_of name pick events))).
Proof.
  intros Hp Hs Hev Hrow Hdec. unfold state_address. rewrite toArrayLike_le_fits, bind_ok by exact Hs.
  rewrite find_pda_ok by done. cbn [lift bind]. unfold outcome in *.
  destruct (run ev [] (readProgramEvents programId)) as [r h] eqn:Hr. cbn [fst] in Hev. subst r.
  destruct (rows_of_data name pick show row events Hrow Hdec) as [Hl Hrows].
  erewrite run_try_ok; [reflexivity|]. rewrite run_bind, Hr. cbv beta iota zeta.
  rewrite <- Hl, Hrows. destruct (data_of name pick events) as [|a rest]; reflexivity.
Qed.
End QueryRuns.

(** queryFills.ts and queryDeposits.ts print every fill and every deposit
    event the program ever emitted, in the order the events are read, one
    table each with the event's own values, and say that there is none
    otherwise.  The seed plays no part: the list is that of all pools, not of
    the pool of the seed as the messages say. *)
Theorem queries_list_all `{BNjs} `{Web3} `{AnchorCodec decoded_event} (programId : pubkey)
    (utf8_decode : bytes → string) (ev : env rpcE) (seed : Z) (events : list (program_event decoded_event)) :
  has_state programId seed → u64 seed → outcome ev (readProgramEvents programId) = Ok events → well_decoded events →
  outcome ev (queryFills programId utf8_decode seed) =
    Ok (report (map (fill_table utf8_decode) (data_of "filledV3Relay" as_filled events))) ∧
  outcome ev (queryDeposits programId utf8_decode seed) =
    Ok (report (map (deposit_table utf8_decode) (data_of "v3FundsDeposited" as_deposited events))).
Proof.
  intros Hp Hs Hev Hwd. split; apply query_run; try done.
  - intros e a. unfold fill_row. destruct (event_data e) as [[]|]; cbn; by intros [= ->].
  - eapply Forall_impl; [exact Hwd|]. by intros e [? _].
  - intros e a. unfold deposit_row. destruct (event_data e) as [[]|]; cbn; by intros [= ->].
  - eapply Forall_impl; [exact Hwd|]. by intros e [_ ?].
Qed.

(** ** Concrete runs *)
Definition sf_key (b : byte) : pubkey := replicate 32 b.
Definition sf_args : fill_args :=
  {| fa_seed := 0; fa_depositor := sf_key x01; fa_recipient := sf_key x02; fa_exclusiveRelayer := None;
     fa_inputToken := sf_key x03; fa_outputToken := sf_key x04; fa_inputAmount := 1000; fa_outputAmount := 990;
     fa_originChainId := 1; fa_depositId := 7; fa_fillDeadline := None; fa_exclusivityDeadline := Some 0;
     fa_message := None |}.
(** The wallet with 5000 of the output token and the recipient's account. *)
Definition sf_info (owner : pubkey) : TokenInfo :=
  {| tk_mint := sf_key x04; tk_authority := owner; tk_program := sf_key x06 |}.
Definition sf_account (owner : pubkey) : pubkey := toy_ata (sf_key x04) owner (sf_key x06).
Definition sf_pool : fill_pool toy_ledger :=
  {| fp_fills := {| paused_fills := false; spoke_chain_id := 5; slow_relay_roots := ∅; fills := ∅; filled_log := [] |};
     fp_ledger := {| toy_mints := {[sf_key x04 := sf_key x06]};
                     toy_accounts := <[sf_account (sf_key x05) := (sf_info (sf_key x05), 5000)]>
                                       {[sf_account (sf_key x02) := (sf_info (sf_key x02), 1)]} |};
     settled := [] |}.
Definition sf_filled_relay : V3RelayData :=
  {| depositor := sf_key x01; recipient := sf_key x02; exclusive_relayer := sf_key x00; input_token := sf_key x03;
     output_token := sf_key x04; input_amount := 1000; output_amount := 990; origin_chain_id := 1; deposit_id := 7;
     fill_deadline := 1700000060; exclusivity_deadline := 1700000030; message := [] |}.

Lemma sf_relay : filled_relay 1700000000000 sf_args = sf_filled_relay.
Proof. reflexivity. Qed.

Lemma sf_fits : fill_fits (sf_key x09) 1700000000000 5 sf_args.
Proof.
  split; [unfold u64; cbn; lia|cbn; lia|cbn; lia| |unfold u64; lia|vm_compute; reflexivity|vm_compute; reflexivity].
  rewrite sf_relay. unfold relay_data_wf, pubkey_wf. cbn. lia.
Qed.

Lemma sf_can_fill : can_fill (sf_key x06) (sf_key x05) 1700000002 sf_pool sf_filled_relay.
Proof.
  split; [split_and!; [reflexivity|right; right; reflexivity|discriminate|vm_compute; discriminate]|].
  split_and!; vm_compute; reflexivity.
Qed.

Lemma sf_payment : balance (result_default (fp_ledger sf_pool) (fill_payment (sf_key x06) (sf_key x05) sf_pool sf_filled_relay))
  (sf_account (sf_key x02)) = 991.
Proof. vm_compute. reflexivity. Qed.


Definition sf_open : V3RelayData :=
  {| depositor := sf_key x01; recipient := sf_key x02; exclusive_relayer := sf_key x00; input_token := sf_key x03;
     output_token := sf_key x04; input_amount := 1000; output_amount := 990; origin_chain_id := 1; deposit_id := 7;
     fill_deadline := 1700000060; exclusivity_deadline := 0; message := [] |}.

Lemma simpleFill_misses_open_relays_witness :
  let st' := fp_fills (snd (run_state (fill_services (sf_key x09) (sf_key x00) (sf_key x06) (sf_key x05) 0 1700000000000
               1700000002) sf_pool
               (fillV3Relay toy_ata (sf_key x09) (sf_key x06) (sf_key x06) (sf_key x00) (sf_key x05) sf_args))) in
  let h := get_v3_relay_hash sf_open (spoke_chain_id (fp_fills sf_pool)) in
  (fills st' !! h = fills (fp_fills sf_pool) !! h ∧ (sf_open ∈ map fe_relay (filled_log st') →
     sf_open ∈ map fe_relay (filled_log (fp_fills sf_pool)))) ∨ keccak_collision.
Proof.
  refine (simpleFill_misses_open_relays (sf_key x09) (sf_key x06) (sf_key x06) (sf_key x00) (sf_key x05)
    1700000000000 1700000002 sf_pool sf_args sf_open sf_fits _ _ _).
  - lia.
  - unfold relay_data_wf, pubkey_wf. cbn. lia.
  - reflexivity.
Defined.

(** A codec that decodes any instruction to one fill. *)
Definition sf_filled : filled_event :=
  {| fv_relay := sf_open; fv_repaymentChainId := 5; fv_relayer := sf_key x05; fv_updatedRecipient := sf_key x02;
     fv_updatedMessage := []; fv_updatedOutputAmount := 990; fv_fillType := FastFill |}.
#[local] Instance sf_codec : AnchorCodec decoded_event :=
  {| bs58_decode s := Ok (utf8_encode s); base64_encode := bytes_text;
     events_decode _ s := Some ("filledV3Relay"%string, FilledEvent sf_filled) |}.
Definition sf_authority : pubkey := match event_authority (sf_key x09) with Ok a => a | Err _ => [] end.
Definition sf_env : env rpcE := λ _ X c,
  match c in rpcE Y return result Y with
  | GetTransaction _ =>
      Ok (Some {| version := Legacy; accountKeys := [sf_key x09; sf_authority];
                  innerInstructions := Some [[{| programIdIndex := 0; accounts := [1%nat]; data := "abcdefghij" |}]] |})
  | GetSignaturesForAddress _ => Ok ["sig"%string]
  end.

Lemma queries_list_all_witness :
  outcome sf_env (queryFills (sf_key x09) bytes_text 3) = Ok (EventsFetched [fill_table bytes_text sf_filled]) ∧
  outcome sf_env (queryDeposits (sf_key x09) bytes_text 3) = Ok NoEvents.
Proof.
  apply (queries_list_all (sf_key x09) bytes_text sf_env 3
    [{| program := sf_key x09; event_data := Some (FilledEvent sf_filled); event_name := Some "filledV3Relay"%string |}]).
  - vm_compute. reflexivity.
  - unfold u64. lia.
  - vm_compute. reflexivity.
  - constructor; [|constructor]. split; [by eexists|discriminate].
Defined.
