(* ===== verification/ExternalTypes.v ===== *)
(** * scripts/svm/generateExternalTypes.ts

    The script that fetches the IDLs of the two CCTP programs from the cluster,
    lets Anchor convert them and generate their TypeScript types, and copies
    them into the repository; over a model of the files it reads and writes.
    The cluster and the [anchor] command are services. *)

From stdpp Require Import base gmap strings list.
From Stdlib Require Import ZArith Lia.
From S2P Require Import Prelude JsText.

(** An IDL as JavaScript has it: its properties, as the cluster's JSON has
    them or set by the script. *)
Inductive idl_value := Published (json : string) | Address (address : string).

Definition idl_object : Type := list (string * idl_value).

Record external_program := { ep_name : string; ep_id : string }.

Inductive idlE : Type → Type :=
| FetchIdl (programId : string) : idlE (option idl_object)   (* [null] when the program has none *)
| WriteFileSync (path content : string) : idlE unit
| Exec (command : string) : idlE unit
| ExistsSync (path : string) : idlE bool
| MkdirSync (path : string) : idlE unit
| CopyFileSync (from to : string) : idlE unit.

Definition externalPrograms : list external_program :=
  [{| ep_name := "message_transmitter"; ep_id := "CCTPmbSD7gX1bxKPAmg77w8oFzNFpaQiQUWD43TKaecd" |};
   {| ep_name := "token_messenger_minter"; ep_id := "CCTPiPYPc6AsJuwueEnWgSgucamXDZwBd53dQ11YiKX3" |}].

Definition quote_text (s : string) : string := String (Ascii.ascii_of_nat 34) s +:+ String (Ascii.ascii_of_nat 34) EmptyString.

Section Script.
(** [path.resolve(__dirname, p)] of the three directories, and [JSON.stringify(idl, null, 2)]. *)
Context (idlDir typesDir idlsDir : string) (stringify : idl_object → string).

(** [path.join(directory, file)] *)
Definition in_dir (directory file : string) : string := directory +:+ "/" +:+ file.
Definition idl_path (programName : string) : string := in_dir idlDir (programName +:+ ".json").
Definition type_path (programName : string) : string := in_dir typesDir (programName +:+ ".ts").
Definition copy_path (programName : string) : string := in_dir idlsDir (programName +:+ ".json").

(** The IDL written: the one fetched with the address the CCTP programs lack. *)
Definition with_address (programId : string) (idl : idl_object) : idl_object :=
  js_set idl "metadata"%string (Address programId).

Definition fetchIdl (programName programId : string) : prog idlE unit :=
  let! fetched := call (FetchIdl programId) in
  let! idl := lift (from_option_err TypeError fetched) in
  call (WriteFileSync (idl_path programName) (stringify (with_address programId idl))).

(** The command lines; the paths of the first are not quoted. *)
Definition convert_command (programName : string) : string :=
  "anchor idl convert --out " +:+ idl_path programName +:+ " " +:+ idl_path programName.

Definition type_command (programName : string) : string :=
  "anchor idl type --out " +:+ quote_text (type_path programName) +:+ " " +:+ quote_text (idl_path programName).

Definition convertIdl (programName : string) : prog idlE unit :=
  try_catch (call (Exec (convert_command programName)))
    (λ _, Throw (JsError ("Failed to convert " +:+ programName +:+ " IDL"))).

Definition generateType (programName : string) : prog idlE unit :=
  try_catch (call (Exec (type_command programName)))
    (λ _, Throw (JsError ("Failed to generate type for " +:+ programName))).

Definition copyIdls (programName : string) : prog idlE unit :=
  let! there := call (ExistsSync idlsDir) in
  (if negb there then call (MkdirSync idlsDir) else Ret tt) ;;
  call (CopyFileSync (idl_path programName) (copy_path programName)).

Definition generate_one (p : external_program) : prog idlE unit :=
  fetchIdl (ep_name p) (ep_id p) ;;
  convertIdl (ep_name p) ;;
  generateType (ep_name p) ;;
  copyIdls (ep_name p).

(** The result is the exit code. *)
Definition generateExternalTypes : prog idlE Z :=
  try_catch (for_each externalPrograms generate_one ;; Ret 0) (λ _, Ret 1).
End Script.

(** ** The files *)
Record store := { files : gmap string string; directories : gset string }.

Definition write (st : store) (path content : string) : store :=
  {| files := <[path := content]> (files st); directories := directories st |}.

Section Service.
(** What the cluster has for a program, and the shell: the file a command
    writes, with its content, from the files there are. *)
Context (published : string → option idl_object)
  (shell : gmap string string → string → option (string * string)).

Definition ENOENT : js_error := JsError "ENOENT".

Definition file_services : handler store idlE := λ X st c,
  match c in idlE Y return result Y * store with
  | FetchIdl id => (Ok (published id), st)
  | WriteFileSync path content => (Ok tt, write st path content)
  | Exec command =>
      match shell (files st) command with
      | Some (path, content) => (Ok tt, write st path content)
      | None => (Err (JsError "Command failed"), st)
      end
  | ExistsSync path => (Ok (bool_decide (path ∈ directories st)), st)
  | MkdirSync path => (Ok tt, {| files := files st; directories := {[path]} ∪ directories st |})
  | CopyFileSync from to =>
      match files st !! from with
      | Some content => (Ok tt, write st to content)
      | None => (Err ENOENT, st)
      end
  end.
End Service.

(** ** Property *)
Section Runs.
Context (idlDir typesDir idlsDir : string) (stringify : idl_object → string).
Context (published : string → option idl_object) (shell : gmap string string → string → option (string * string)).
(** What Anchor makes of an IDL file, converted and as types. *)
Context (convert types : string → string).
Local Abbreviation serve := (file_services published shell).
Local Abbreviation idl_path := (idl_path idlDir).
Local Abbreviation type_path := (type_path typesDir).
Local Abbreviation copy_path := (copy_path idlsDir).
Implicit Types (st : store) (p : external_program).

(** The [anchor] commands of a program, on the files of the script. *)
Definition anchor_runs (programName : string) : Prop := ∀ (fs : gmap string string) text,
  fs !! idl_path programName = Some text →
  shell fs (convert_command idlDir programName) = Some (idl_path programName, convert text) ∧
  shell fs (type_command idlDir typesDir programName) = Some (type_path programName, types text).

(** The IDL of a program, converted. *)
Definition converted p (idl : idl_object) : string := convert (stringify (with_address (ep_id p) idl)).

Definition generated st p (idl : idl_object) : store :=
  write (write (write st (idl_path (ep_name p)) (converted p idl)) (type_path (ep_name p)) (types (converted p idl)))
    (copy_path (ep_name p)) (converted p idl).

Definition with_directory st : store := {| files := files st; directories := {[idlsDir]} ∪ directories st |}.

Lemma generate_one_run st p idl : published (ep_id p) = Some idl → anchor_runs (ep_name p) →
  idl_path (ep_name p) ≠ type_path (ep_name p) →
  run_state serve st (generate_one idlDir typesDir idlsDir stringify p) = (Ok tt, with_directory (generated st p idl)).
Proof.
  intros Hidl Hanchor Hne. unfold generate_one, fetchIdl, convertIdl, generateType, copyIdls.
  rewrite !run_state_bind, run_state_call. cbn [file_services]. rewrite Hidl, from_some.
  cbn [lift bind]. rewrite run_state_call. cbn [file_services].
  set (text := stringify (with_address (ep_id p) idl)).
  destruct (Hanchor (files (write st (idl_path (ep_name p)) text)) text) as [Hc _]; [apply lookup_insert_eq|].
  rewrite run_state_bind. rewrite (run_state_try_ok _ _ _ _ tt (write st (idl_path (ep_name p)) (convert text))).
  2:{ rewrite run_state_call. cbn [file_services]. rewrite Hc. unfold write. cbn [files]. by rewrite insert_insert_eq. }
  destruct (Hanchor (files (write st (idl_path (ep_name p)) (convert text))) (convert text)) as [_ Ht];
    [apply lookup_insert_eq|].
  rewrite run_state_bind, (run_state_try_ok _ _ _ _ tt (write (write st (idl_path (ep_name p)) (convert text))
    (type_path (ep_name p)) (types (convert text)))) by (rewrite run_state_call; cbn [file_services]; by rewrite Ht).
  rewrite run_state_bind, run_state_call. cbn [file_services directories write].
  assert (Hfile : files (write (write st (idl_path (ep_name p)) (convert text)) (type_path (ep_name p))
    (types (convert text))) !! idl_path (ep_name p) = Some (convert text)).
  { cbn [files write]. by rewrite lookup_insert_ne, lookup_insert_eq. }
  rewrite run_state_bind. case_bool_decide as Hdir; cbn [negb].
  - cbn [run_state]. rewrite run_state_call. cbn [file_services]. rewrite Hfile. f_equal.
    unfold with_directory, generated, write. cbn. f_equal. symmetry.
    by apply (subseteq_union_1_L {[idlsDir]} (directories st)), singleton_subseteq_l.
  - rewrite run_state_call. cbn [file_services files]. rewrite run_state_call. cbn [file_services files].
    by rewrite Hfile.
Qed.
End Runs.

(** generateExternalTypes.ts, when the cluster publishes both IDLs and
    Anchor's commands succeed, exits with 0 and leaves, for each of the two
    CCTP programs, the converted IDL, its address included, in the build
    directory, the types made from the converted IDL, and a copy of that IDL in
    the repository; the directory of the copies exists and no other file
    changes. *)
Theorem external_types_generated (idlDir typesDir idlsDir : string) (stringify : idl_object → string)
    (published : string → option idl_object) (shell : gmap string string → string → option (string * string))
    (convert types : string → string) (st : store) :
  Forall (λ p, is_Some (published (ep_id p)) ∧ anchor_runs idlDir typesDir shell convert types (ep_name p)) externalPrograms →
  NoDup (flat_map (λ p, [idl_path idlDir (ep_name p); type_path typesDir (ep_name p); copy_path idlsDir (ep_name p)])
           externalPrograms) →
  ∃ st', run_state (file_services published shell) st (generateExternalTypes idlDir typesDir idlsDir stringify) = (Ok 0, st') ∧
    idlsDir ∈ directories st' ∧
    (∀ p idl, p ∈ externalPrograms → published (ep_id p) = Some idl →
       let text := converted stringify convert p idl in
       files st' !! idl_path idlDir (ep_name p) = Some text ∧
       files st' !! type_path typesDir (ep_name p) = Some (types text) ∧
       files st' !! copy_path idlsDir (ep_name p) = Some text) ∧
    (∀ path, (∀ p, p ∈ externalPrograms → path ∉ [idl_path idlDir (ep_name p); type_path typesDir (ep_name p); copy_path idlsDir (ep_name p)]) →
       files st' !! path = files st !! path).
Proof.
  intros Hall Hpaths. unfold externalPrograms in Hall.
  apply Forall_cons in Hall as [[[idl1 H1] Ha1] Hall]. apply Forall_cons in Hall as [[[idl2 H2] Ha2] _].
  set (p1 := {| ep_name := "message_transmitter"; ep_id := _ |}) in *.
  set (p2 := {| ep_name := "token_messenger_minter"; ep_id := _ |}) in *.
  change externalPrograms with [p1; p2] in *. cbn [flat_map app] in Hpaths.
  rewrite !NoDup_cons, !not_elem_of_cons in Hpaths. destruct_and! Hpaths.
  eexists. split; [|split_and!].
  - unfold generateExternalTypes. apply run_state_try_ok. change externalPrograms with [p1; p2].
    cbn [for_each].
    rewrite !run_state_bind, (generate_one_run _ _ _ _ _ _ convert types st p1 idl1), run_state_bind,
      (generate_one_run _ _ _ _ _ _ convert types _ p2 idl2) by done.
    reflexivity.
  - cbn. set_solver.
  - intros p idl Hp Hidl text. subst text. cbn [with_directory generated files write].
    apply elem_of_cons in Hp as [->|Hp%list_elem_of_singleton]; [|subst p];
      [rewrite H1 in Hidl|rewrite H2 in Hidl]; injection Hidl as <-; by simplify_map_eq.
  - intros path Hother. cbn [with_directory generated files write].
    pose proof (Hother p1 ltac:(by left)) as Hp1. pose proof (Hother p2 ltac:(by right; left)) as Hp2.
    rewrite !not_elem_of_cons in Hp1, Hp2. destruct_and! Hp1. destruct_and! Hp2. by rewrite !lookup_insert_ne by done.
Qed.

(** A cluster with both IDLs, and a shell for the four commands. *)
Definition et_idl (id : string) : option idl_object := Some [("version"%string, Published "0.1")].
Definition et_text (idl : idl_object) : string := String.concat "," (map fst idl).

Definition et_shell (fs : gmap string string) (command : string) : option (string * string) :=
  foldr (λ p found,
    if bool_decide (command = convert_command "i" (ep_name p))
    then text ← fs !! idl_path "i" (ep_name p); Some (idl_path "i" (ep_name p), "converted " +:+ text)
    else if bool_decide (command = type_command "i" "t" (ep_name p))
    then text ← fs !! idl_path "i" (ep_name p); Some (type_path "t" (ep_name p), "type " +:+ text)
    else found) None externalPrograms.

Lemma external_types_generated_witness :
  ∃ st', run_state (file_services et_idl et_shell) {| files := ∅; directories := ∅ |}
    (generateExternalTypes "i" "t" "c" et_text) = (Ok 0, st') ∧
    files st' !! "c/message_transmitter.json"%string = Some "converted version,metadata"%string.
Proof.
  destruct (external_types_generated "i" "t" "c" et_text et_idl et_shell (λ s, "converted " +:+ s) (λ s, "type " +:+ s)
    {| files := ∅; directories := ∅ |}) as (st' & Hrun & _ & Hfiles & _).
  - repeat (apply Forall_cons; split; [split; [by eexists|]|]); [..|by apply Forall_nil];
      intros fs text Ht; unfold et_shell; cbn [foldr externalPrograms ep_name] in *; rewrite Ht;
      split; vm_compute; reflexivity.
  - apply (bool_decide_unpack _). vm_compute. exact I.
  - exists st'. split; [exact Hrun|].
    by apply (Hfiles {| ep_name := "message_transmitter"; ep_id := "CCTPmbSD7gX1bxKPAmg77w8oFzNFpaQiQUWD43TKaecd" |}
      [("version"%string, Published "0.1")]); [left|].
Defined.
