(* ===== verification/SvmMessages.v ===== *)
(** * The Solana spoke pool: administration by CCTP messages

    [utils/cctp_utils.rs] and [instructions/handle_receive_message.rs] of
    [programs/svm-spoke]: a message from the hub chain carries a Solidity call;
    it is translated to an instruction of the program, which the program then
    invokes on itself as its self authority. *)

From stdpp Require Import base gmap strings list.
From Stdlib Require Import ZArith Strings.Byte Lia.
From S2P Require Import Prelude Bytes JsText Interfaces SvmSpoke SvmUtils SvmState SvmBundle.

Definition InvalidSelector : js_error := JsError "InvalidSelector".
Definition InvalidArgument : js_error := JsError "InvalidArgument".
Definition InvalidBool : js_error := JsError "InvalidBool".
Definition InvalidAddress : js_error := JsError "InvalidAddress".
Definition InvalidUint32 : js_error := JsError "InvalidUint32".
Definition InvalidUint64 : js_error := JsError "InvalidUint64".
Definition UnsupportedSelector : js_error := JsError "UnsupportedSelector".
Definition InvalidRemoteDomain : js_error := JsError "InvalidRemoteDomain".
Definition InvalidRemoteSender : js_error := JsError "InvalidRemoteSender".
Definition AccountsMismatch : js_error := JsError "account constraint violated".

(** ** cctp_utils.rs *)

(** The administration calls, the ones a message can carry. *)
Inductive admin_call :=
| CallPauseDeposits (pause : bool)
| CallPauseFills (pause : bool)
| CallSetCrossDomainAdmin (admin : pubkey)
| CallSetEnableRoute (origin_token : pubkey) (destination_chain_id : Z) (enabled : bool)
| CallRelayRootBundle (refund_root slow_root : bytes)
| CallEmergencyDelete (root_bundle_id : Z).

(** [size_of] and Borsh of [bool]; SHA-256. *)
Class Sha256 := {
  sha256 : bytes → bytes;
  sha256_length : ∀ m, length (sha256 m) = 32%nat
}.

Section Codec.
Context `{HK : Keccak} `{HS : Sha256} `{HB : Borsh}.

Definition borsh_bool (b : bool) : bytes := [byte_of (Z.b2z b)].

(** [data.encode_instruction_data(discriminator)] of an already serialised value. *)
Definition encode_instruction_data (discriminator_str : string) (data : bytes) : bytes :=
  take 8 (sha256 (utf8_encode discriminator_str)) ++ data.

Definition encode_solidity_selector (signature : string) : bytes := take 4 (keccak (utf8_encode signature)).

Definition get_solidity_selector (data : bytes) : result bytes :=
  if (4 <=? length data)%nat then Ok (take 4 data) else Err InvalidSelector.

Definition get_solidity_arg (data : bytes) (index : nat) : result bytes :=
  let offset := (4 + 32 * index)%nat in
  if (offset + 32 <=? length data)%nat then Ok (slice data offset (offset + 32)) else Err InvalidArgument.

(** [u128::from_be_bytes] of the two halves. *)
Definition h_value (data : bytes) : Z := be_val (take 16 data).
Definition l_value (data : bytes) : Z := be_val (drop 16 data).

Definition decode_solidity_bool (data : bytes) : result bool :=
  if h_value data =? 0
  then if l_value data =? 0 then Ok false
       else if l_value data =? 1 then Ok true
       else Err InvalidBool
  else Err InvalidBool.

Definition decode_solidity_uint32 (data : bytes) : result Z :=
  if (0 <? h_value data) || (2 ^ 32 - 1 <? l_value data) then Err InvalidUint32
  else Ok (l_value data mod 2 ^ 32).

Definition decode_solidity_uint64 (data : bytes) : result Z :=
  if (0 <? h_value data) || (2 ^ 64 - 1 <? l_value data) then Err InvalidUint64
  else Ok (l_value data mod 2 ^ 64).

Definition decode_solidity_address (data : bytes) : result pubkey :=
  if existsb (λ b, negb (byte_val b =? 0)) (take 12 data) then Err InvalidAddress else Ok data.

(** ** handle_receive_message.rs *)

(** The [match] on the selector; the arms are tried in order. *)
Definition translate_message (data : bytes) : result bytes :=
  let? s := get_solidity_selector data in
  let is_selector signature := bool_decide (s = encode_solidity_selector signature) in
  if is_selector "pauseDeposits(bool)"%string then
    let? arg := get_solidity_arg data 0 in
    let? pause := decode_solidity_bool arg in
    Ok (encode_instruction_data "global:pause_deposits" (borsh_bool pause))
  else if is_selector "pauseFills(bool)"%string then
    let? arg := get_solidity_arg data 0 in
    let? pause := decode_solidity_bool arg in
    Ok (encode_instruction_data "global:pause_fills" (borsh_bool pause))
  else if is_selector "setCrossDomainAdmin(address)"%string then
    let? arg := get_solidity_arg data 0 in
    let? new_cross_domain_admin := decode_solidity_address arg in
    Ok (encode_instruction_data "global:set_cross_domain_admin" new_cross_domain_admin)
  else if is_selector "setEnableRoute(bytes32,uint64,bool)"%string then
    let? origin_token := get_solidity_arg data 0 in
    let? arg1 := get_solidity_arg data 1 in
    let? destination_chain_id := decode_solidity_uint64 arg1 in
    let? arg2 := get_solidity_arg data 2 in
    let? enabled := decode_solidity_bool arg2 in
    Ok (encode_instruction_data "global:set_enable_route"
          (origin_token ++ borsh_u64 destination_chain_id ++ borsh_bool enabled))
  else if is_selector "relayRootBundle(bytes32,bytes32)"%string then
    let? relayer_refund_root := get_solidity_arg data 0 in
    let? slow_relay_root := get_solidity_arg data 1 in
    Ok (encode_instruction_data "global:relay_root_bundle" (relayer_refund_root ++ slow_relay_root))
  else if is_selector "emergencyDeleteRootBundle(uint256)"%string then
    let? arg := get_solidity_arg data 0 in
    let? root_id := decode_solidity_uint32 arg in
    Ok (encode_instruction_data "global:emergency_delete_root_bundle" (borsh_u32 root_id))
  else Err UnsupportedSelector.

(** The instruction data a client writes for a call. *)
Definition instruction_name (c : admin_call) : string :=
  match c with
  | CallPauseDeposits _ => "global:pause_deposits"
  | CallPauseFills _ => "global:pause_fills"
  | CallSetCrossDomainAdmin _ => "global:set_cross_domain_admin"
  | CallSetEnableRoute _ _ _ => "global:set_enable_route"
  | CallRelayRootBundle _ _ => "global:relay_root_bundle"
  | CallEmergencyDelete _ => "global:emergency_delete_root_bundle"
  end.

Definition instruction_args (c : admin_call) : bytes :=
  match c with
  | CallPauseDeposits b | CallPauseFills b => borsh_bool b
  | CallSetCrossDomainAdmin k => k
  | CallSetEnableRoute k chain b => k ++ borsh_u64 chain ++ borsh_bool b
  | CallRelayRootBundle r s => r ++ s
  | CallEmergencyDelete id => borsh_u32 id
  end.

Definition instruction_data (c : admin_call) : bytes :=
  encode_instruction_data (instruction_name c) (instruction_args c).

(** The values the instructions' argument types hold. *)
Definition call_wf (c : admin_call) : Prop :=
  match c with
  | CallPauseDeposits _ | CallPauseFills _ => True
  | CallSetCrossDomainAdmin k => pubkey_wf k ∧ Forall (λ b, b = x00) (take 12 k)
  | CallSetEnableRoute k chain _ => pubkey_wf k ∧ 0 ≤ chain < 2 ^ 64
  | CallRelayRootBundle r s => pubkey_wf r ∧ pubkey_wf s
  | CallEmergencyDelete id => 0 ≤ id < 2 ^ 32
  end.
End Codec.

(** Anchor's generated entry point, on instruction data of the calls above: it
    decodes what [instruction_data] encodes (the discriminators differ). *)
Class AnchorEntry `{Sha256} `{Borsh} := {
  entry : bytes → result admin_call;
  entry_data : ∀ c, call_wf c → entry (instruction_data c) = Ok c
}.

Record HandleReceiveMessageParams := {
  hp_remote_domain : Z;
  hp_sender : pubkey;
  hp_message_body : bytes;
  hp_authority_bump : Z
}.

(** An account passed to an instruction. *)
Record AccountMeta := { am_key : pubkey; am_signer : bool; am_writable : bool }.

Section Handler.
Context {L : Type} `{HK : Keccak} `{HS : Sha256} `{HB : Borsh} `{HW : Web3} `{HT : TokenProgram L}
  `{HR : SolanaRuntime} `{HE : !AnchorEntry}.
(** The program, CCTP's message transmitter, and the system and associated
    token programs. *)
Context (program_id transmitter_id SystemProgram AssociatedToken : pubkey).
Implicit Types st : spoke_state L.

(** What an account of an instruction must be: its key, unless any will do,
    and whether it must sign and be writable. *)
Definition account_rule : Type := option pubkey * bool * bool.

Definition meets (r : account_rule) (a : AccountMeta) : bool :=
  let '(k, signer, writable) := r in
  match k with Some k => bool_decide (k = am_key a) | None => true end &&
  implb signer (am_signer a) && implb writable (am_writable a).

(** Anchor takes the accounts in order; more accounts may follow. *)
Fixpoint take_accounts (rules : list account_rule) (metas : list AccountMeta) : result unit :=
  match rules, metas with
  | [], _ => Ok tt
  | _ :: _, [] => Err AccountNotEnoughKeys
  | r :: rules', a :: metas' =>
      let? _ := require (meets r a) AccountsMismatch in take_accounts rules' metas'
  end.

(** The mint and token program of a [SetEnableRoute]. *)
Definition route_mint (metas : list AccountMeta) : pubkey :=
  match metas !! 5%nat with Some a => am_key a | None => [] end.
Definition route_token_program (metas : list AccountMeta) : pubkey :=
  match metas !! 6%nat with Some a => am_key a | None => [] end.

(** The account structs of admin.rs; [event_cpi] appends two accounts. *)
Definition account_rules (s : State) (metas : list AccountMeta) (c : admin_call)
  : result (list account_rule) :=
  let? self := get_self_authority_pda program_id in
  let? state_key := state_pda program_id (s_seed s) in
  let? event_authority := pda program_id "__event_authority" [] in
  let signer : account_rule := (Some self, true, false) in
  let payer : account_rule := (None, true, true) in
  let event_cpi : list account_rule := [(Some event_authority, false, false); (Some program_id, false, false)] in
  match c with
  | CallPauseDeposits _ | CallPauseFills _ | CallSetCrossDomainAdmin _ =>
      Ok ([signer; (Some state_key, false, true)] ++ event_cpi)
  | CallSetEnableRoute origin_token chain _ =>
      let? route := pda program_id "route" [origin_token; state_key; le_bytes 8 chain] in
      let vault := associated_token (route_mint metas) state_key (route_token_program metas) in
      Ok ([signer; payer; (Some state_key, false, false); (Some route, false, true);
           (Some vault, false, true); (None, false, false); (None, false, false);
           (Some AssociatedToken, false, false); (Some SystemProgram, false, false)] ++ event_cpi)
  | CallRelayRootBundle _ _ =>
      let? bundle := pda program_id "root_bundle" [state_key; le_bytes 4 (s_root_bundle_id s)] in
      Ok ([signer; payer; (Some state_key, false, true); (Some bundle, false, true);
           (Some SystemProgram, false, false)] ++ event_cpi)
  | CallEmergencyDelete id =>
      let? bundle := pda program_id "root_bundle" [state_key; le_bytes 4 id] in
      Ok ([signer; (None, false, true); (Some state_key, false, false); (Some bundle, false, true)] ++ event_cpi)
  end.

(** The instruction a call is, signed by the self authority. *)
Definition call_instruction (self mint token_program : pubkey) (c : admin_call) : spoke_instruction (L := L) :=
  match c with
  | CallPauseDeposits b => PauseDeposits self b
  | CallPauseFills b => PauseFills self b
  | CallSetCrossDomainAdmin k => SetCrossDomainAdmin self k
  | CallSetEnableRoute k chain b => SetEnableRoute self k chain b mint token_program
  | CallRelayRootBundle r s => RelayRootBundle self r s
  | CallEmergencyDelete id => EmergencyDelete self id
  end.

(** [invoke_self]: the remaining accounts keep their flags; the self
    authority, put in front, signs. *)
Definition invoke_self st (remaining_accounts : list AccountMeta) (data : bytes) : result (spoke_state L) :=
  let? s := the_state st in
  let? self := get_self_authority_pda program_id in
  let accounts := {| am_key := self; am_signer := true; am_writable := false |} :: remaining_accounts in
  let? c := entry data in
  let? rules := account_rules s accounts c in
  let? _ := take_accounts rules accounts in
  execute program_id st (call_instruction self (route_mint accounts) (route_token_program accounts) c).

(** The accounts of [HandleReceiveMessage], then the rest.  The authority is
    at the address of its seeds with the bump of the parameters. *)
Definition handle_rules (s : State) (authority_bump : Z) : result (list account_rule) :=
  let? authority := createProgramAddressSync
    [utf8_encode "message_transmitter_authority"; program_id; le_bytes 1 authority_bump] transmitter_id in
  let? state_key := state_pda program_id (s_seed s) in
  let? self := get_self_authority_pda program_id in
  Ok [(Some authority, true, false); (Some state_key, false, false); (Some self, false, false);
      (Some program_id, false, false)].

Definition handle_receive_message st (accounts : list AccountMeta) (params : HandleReceiveMessageParams)
  : result (spoke_state L) :=
  let? s := the_state st in
  let? rules := handle_rules s (hp_authority_bump params) in
  let? _ := take_accounts rules accounts in
  let? _ := require (hp_remote_domain params =? s_remote_domain s) InvalidRemoteDomain in
  let? _ := require (bool_decide (hp_sender params = s_cross_domain_admin s)) InvalidRemoteSender in
  let? self_ix_data := translate_message (hp_message_body params) in
  invoke_self st (drop 4 accounts) self_ix_data.
End Handler.

(** ** A concrete entry point, for evaluation *)
#[export] Instance toy_sha : Sha256 :=
  {| sha256 := toy_digest; sha256_length m := length_le_bytes 32 _ |}.

Definition read_bool (data : bytes) : result bool :=
  match data with
  | x00 :: _ => Ok false
  | x01 :: _ => Ok true
  | _ => Err (JsError "InstructionDidNotDeserialize")
  end.

Definition toy_entry_point (data : bytes) : result admin_call :=
  let is_call name := bool_decide (take 8 data = take 8 (toy_digest (utf8_encode name))) in
  let args := drop 8 data in
  if is_call "global:pause_deposits"%string then let? b := read_bool args in Ok (CallPauseDeposits b)
  else if is_call "global:pause_fills"%string then let? b := read_bool args in Ok (CallPauseFills b)
  else if is_call "global:set_cross_domain_admin"%string then Ok (CallSetCrossDomainAdmin (take 32 args))
  else if is_call "global:set_enable_route"%string then
    let? b := read_bool (drop 40 args) in
    Ok (CallSetEnableRoute (take 32 args) (le_val (take 8 (drop 32 args))) b)
  else if is_call "global:relay_root_bundle"%string then
    Ok (CallRelayRootBundle (take 32 args) (take 32 (drop 32 args)))
  else if is_call "global:emergency_delete_root_bundle"%string then
    Ok (CallEmergencyDelete (le_val (take 4 args)))
  else Err (JsError "InstructionFallbackNotFound").

Lemma read_borsh_bool b : read_bool (borsh_bool b) = Ok b.
Proof. by destruct b. Qed.

(** A function without repetitions on a list tells its elements apart. *)
Lemma NoDup_decide {A} `{EqDecision A} (f : string → A) (l : list string) a b :
  NoDup (map f l) → a ∈ l → b ∈ l → bool_decide (f a = f b) = String.eqb a b.
Proof.
  intros Hl (i & Ha)%list_elem_of_lookup (j & Hb)%list_elem_of_lookup.
  transitivity (bool_decide (a = b)).
  2: { case_bool_decide as Hab; [subst; by rewrite String.eqb_refl|]. symmetry. by apply String.eqb_neq. }
  apply bool_decide_ext. split; [|by intros ->]. intros Heq.
  assert (i = j) as ->; [|congruence].
  apply (NoDup_lookup _ i j (f a) Hl).
  - rewrite list_lookup_fmap, Ha. done.
  - rewrite list_lookup_fmap, Hb. cbn. by rewrite Heq.
Qed.

(** Decides the tests [f a = f b] of the goal between strings of a list. *)
Ltac decide_names Hdiff :=
  repeat match goal with |- context [bool_decide (?f ?a = ?f ?b)] =>
    rewrite (NoDup_decide f _ a b Hdiff) by (apply (bool_decide_unpack _); vm_compute; reflexivity) end;
  repeat match goal with |- context [String.eqb ?a ?b] =>
    let v := eval vm_compute in (String.eqb a b) in change (String.eqb a b) with v end; cbv iota.

Definition toy_discriminator (name : string) : bytes := take 8 (toy_digest (utf8_encode name)).

Lemma toy_discriminators : NoDup (map toy_discriminator
  ["global:pause_deposits"; "global:pause_fills"; "global:set_cross_domain_admin"; "global:set_enable_route";
   "global:relay_root_bundle"; "global:emergency_delete_root_bundle"]%string).
Proof. apply (bool_decide_unpack _). vm_compute. reflexivity. Qed.

Lemma toy_discriminator_eq name : take 8 (toy_digest (utf8_encode name)) = toy_discriminator name.
Proof. done. Qed.

Lemma toy_entry_data c : call_wf c → toy_entry_point (instruction_data c) = Ok c.
Proof.
  intros Hc. unfold instruction_data, encode_instruction_data, toy_entry_point.
  rewrite take_app_length', drop_app_length' by (rewrite length_take, sha256_length; reflexivity).
  change (sha256 ?m) with (toy_digest m). cbv beta zeta. rewrite !toy_discriminator_eq.
  pose proof toy_discriminators as Hdisc. revert Hdisc. generalize toy_discriminator. intros disc Hdisc.
  destruct c; cbn [instruction_name instruction_args call_wf] in *; decide_names Hdisc.
  - by rewrite read_borsh_bool.
  - by rewrite read_borsh_bool.
  - destruct Hc as [Hk _]. by rewrite take_ge by (by rewrite Hk).
  - destruct Hc as [Hk Hz]. rewrite borsh_u64_spec by done.
    replace (drop 40 (origin_token ++ le_bytes 8 destination_chain_id ++ borsh_bool enabled))
      with (borsh_bool enabled) by (by rewrite app_assoc, drop_app_length' by (by rewrite length_app, Hk)).
    rewrite read_borsh_bool, bind_ok, take_app_length', drop_app_length' by done.
    rewrite take_app_length' by done. by rewrite le_val_le_bytes.
  - destruct Hc as [Hr Hs]. rewrite take_app_length', drop_app_length' by done. by rewrite take_ge by (by rewrite Hs).
  - rewrite borsh_u32_spec, take_ge by (try done; by rewrite length_le_bytes). by rewrite le_val_le_bytes.
Qed.

#[export] Instance toy_entry : AnchorEntry := {| entry := toy_entry_point; entry_data := toy_entry_data |}.

(** * Properties *)

(** ** The Solidity encoding of a call, as a contract on the hub chain writes it *)
Definition signature (c : admin_call) : string :=
  match c with
  | CallPauseDeposits _ => "pauseDeposits(bool)"
  | CallPauseFills _ => "pauseFills(bool)"
  | CallSetCrossDomainAdmin _ => "setCrossDomainAdmin(address)"
  | CallSetEnableRoute _ _ _ => "setEnableRoute(bytes32,uint64,bool)"
  | CallRelayRootBundle _ _ => "relayRootBundle(bytes32,bytes32)"
  | CallEmergencyDelete _ => "emergencyDeleteRootBundle(uint256)"
  end.

Definition signatures : list string :=
  ["pauseDeposits(bool)"; "pauseFills(bool)"; "setCrossDomainAdmin(address)";
   "setEnableRoute(bytes32,uint64,bool)"; "relayRootBundle(bytes32,bytes32)";
   "emergencyDeleteRootBundle(uint256)"]%string.

Definition word (v : Z) : bytes := be_bytes 32 v.

Definition abi_words (c : admin_call) : list bytes :=
  match c with
  | CallPauseDeposits b | CallPauseFills b => [word (Z.b2z b)]
  | CallSetCrossDomainAdmin k => [k]
  | CallSetEnableRoute k chain b => [k; word chain; word (Z.b2z b)]
  | CallRelayRootBundle r s => [r; s]
  | CallEmergencyDelete id => [word id]
  end.

Definition abi_encode `{Keccak} (c : admin_call) : bytes :=
  encode_solidity_selector (signature c) ++ concat (abi_words c).

(** *** Words *)
Lemma be_val_app a b : be_val (a ++ b) = be_val a * 256 ^ Z.of_nat (length b) + be_val b.
Proof. unfold be_val. rewrite rev_app_distr, le_val_app, length_rev. lia. Qed.

Lemma word_halves data : length data = 32%nat →
  be_val data = h_value data * 2 ^ 128 + l_value data ∧
  0 ≤ h_value data ∧ 0 ≤ l_value data < 2 ^ 128.
Proof.
  intros Hl. unfold h_value, l_value.
  assert (length (drop 16 data) = 16%nat) as Hd by (rewrite length_drop; lia).
  rewrite <- (take_drop 16 data) at 1. rewrite be_val_app, Hd.
  pose proof (be_val_bound (take 16 data)). pose proof (be_val_bound (drop 16 data)) as Hb.
  rewrite Hd in Hb. change (256 ^ Z.of_nat 16) with (2 ^ 128) in *. lia.
Qed.

Lemma word_val v : 0 ≤ v < 2 ^ 256 → be_val (word v) = v.
Proof. intros. apply be_val_be_bytes. change (256 ^ Z.of_nat 32) with (2 ^ 256). lia. Qed.

Lemma length_word v : length (word v) = 32%nat.
Proof. apply length_be_bytes. Qed.

(** A word has a zero upper half and the value [v] below when it is [word v]. *)
Lemma word_iff data v : length data = 32%nat → 0 ≤ v < 2 ^ 128 →
  h_value data = 0 ∧ l_value data = v ↔ data = word v.
Proof.
  intros Hl Hv. destruct (word_halves data Hl) as (Hval & Hh & Hlow). split.
  - intros [Hh0 Hl0]. rewrite <- (be_bytes_be_val data), Hl. unfold word. f_equal. lia.
  - intros ->. rewrite word_val in Hval by lia. nia.
Qed.

Lemma decode_bool_iff data b : length data = 32%nat →
  decode_solidity_bool data = Ok b ↔ data = word (Z.b2z b).
Proof.
  intros Hl. rewrite <- word_iff by (destruct b; cbn; lia). unfold decode_solidity_bool.
  generalize (h_value data) (l_value data). intros h l.
  destruct (Z.eqb_spec h 0), (Z.eqb_spec l 0), (Z.eqb_spec l 1), b; cbn; split; intuition (congruence || lia).
Qed.

Lemma decode_uint_iff (bits : Z) data v : length data = 32%nat → 0 < bits ≤ 64 →
  (if (0 <? h_value data) || (2 ^ bits - 1 <? l_value data) then Err InvalidUint64
   else Ok (l_value data mod 2 ^ bits)) = Ok v ↔ data = word v ∧ 0 ≤ v < 2 ^ bits.
Proof.
  intros Hl Hb. destruct (word_halves data Hl) as (_ & Hh & Hlow).
  assert (2 ^ bits ≤ 2 ^ 64) by (apply Z.pow_le_mono_r; lia).
  destruct (Z.ltb_spec 0 (h_value data)) as [H0|H0]; cbn.
  - split; [done|]. intros [Hd Hv]. apply word_iff in Hd; [lia|done|lia].
  - destruct (Z.ltb_spec (2 ^ bits - 1) (l_value data)).
    + split; [done|]. intros [Hd Hv]. apply word_iff in Hd; [lia|done|lia].
    + rewrite Z.mod_small by lia. split.
      * intros [= <-]. split; [|lia]. apply word_iff; [done|lia|]. split; [lia|done].
      * intros [Hd Hv]. apply word_iff in Hd as [_ ->]; [done..|lia].
Qed.

Lemma decode_uint64_iff data v : length data = 32%nat →
  decode_solidity_uint64 data = Ok v ↔ data = word v ∧ 0 ≤ v < 2 ^ 64.
Proof. intros. by apply decode_uint_iff. Qed.

Lemma decode_uint32_iff data v : length data = 32%nat →
  decode_solidity_uint32 data = Ok v ↔ data = word v ∧ 0 ≤ v < 2 ^ 32.
Proof.
  intros Hl. rewrite <- (decode_uint_iff 32) by (try done; lia). unfold decode_solidity_uint32.
  by destruct (_ || _).
Qed.

Lemma decode_address_iff data k :
  decode_solidity_address data = Ok k ↔ data = k ∧ Forall (λ b, b = x00) (take 12 k).
Proof.
  assert (existsb (λ b, negb (byte_val b =? 0)) (take 12 data) = false ↔ Forall (λ b, b = x00) (take 12 data)) as Hx.
  { induction (take 12 data) as [|b l IH]; [done|]. cbn. rewrite orb_false_iff, Forall_cons, IH.
    assert (negb (byte_val b =? 0) = false ↔ b = x00) as -> by (destruct b; vm_compute; split; congruence).
    done. }
  unfold decode_solidity_address. destruct (existsb _ _); split.
  - done.
  - intros [-> Hf]. by apply Hx in Hf.
  - intros [= ->]. split; [done|]. by apply Hx.
  - by intros [-> _].
Qed.

Lemma decode_bool_word b : decode_solidity_bool (word (Z.b2z b)) = Ok b.
Proof. apply decode_bool_iff; [apply length_word|done]. Qed.

Lemma decode_uint64_word v : 0 ≤ v < 2 ^ 64 → decode_solidity_uint64 (word v) = Ok v.
Proof. intros. by apply decode_uint64_iff; [apply length_word|]. Qed.

Lemma decode_uint32_word v : 0 ≤ v < 2 ^ 32 → decode_solidity_uint32 (word v) = Ok v.
Proof. intros. by apply decode_uint32_iff; [apply length_word|]. Qed.

Lemma decode_address_word k : Forall (λ b, b = x00) (take 12 k) → decode_solidity_address k = Ok k.
Proof. intros. by apply decode_address_iff. Qed.

(** *** Selector and arguments *)
Lemma get_arg_inv data i a : get_solidity_arg data i = Ok a →
  length a = 32%nat ∧ drop (4 + 32 * i) data = a ++ drop (4 + 32 * S i) data.
Proof.
  unfold get_solidity_arg. destruct (Nat.leb_spec (4 + 32 * i + 32) (length data)); [|done].
  intros <-%Ok_inj. split; [rewrite length_slice; lia|].
  unfold slice. replace (4 + 32 * i + 32 - (4 + 32 * i))%nat with 32%nat by lia.
  rewrite <- (take_drop 32 (drop (4 + 32 * i) data)) at 1. rewrite drop_drop.
  replace (4 + 32 * i + 32)%nat with (4 + 32 * S i)%nat by lia. done.
Qed.

Lemma get_selector_inv data s : get_solidity_selector data = Ok s → data = s ++ drop 4 data.
Proof.
  unfold get_solidity_selector. destruct (_ <=? _)%nat; [|done]. intros [= <-]. by rewrite take_drop.
Qed.

Lemma get_selector_app s r : length s = 4%nat → get_solidity_selector (s ++ r) = Ok s.
Proof.
  intros Hs. unfold get_solidity_selector. rewrite length_app, Hs. cbn [Nat.add Nat.leb].
  by rewrite take_app_length'.
Qed.

Lemma get_arg_app s ws rest i w : length s = 4%nat → Forall (λ w, length w = 32%nat) ws →
  ws !! i = Some w → get_solidity_arg (s ++ concat ws ++ rest) i = Ok w.
Proof.
  intros Hs Hws Hi. destruct (list_elem_of_split_length ws i w Hi) as (pre & post & -> & ->).
  apply Forall_app in Hws as [Hpre Hpost]. apply Forall_cons in Hpost as [Hw _].
  assert (length (concat pre) = 32 * length pre)%nat as Hc.
  { clear Hi. induction Hpre as [|x l Hx _ IH]; [done|]. cbn. rewrite length_app, Hx, IH. lia. }
  rewrite concat_app. cbn [concat]. unfold get_solidity_arg.
  rewrite !length_app, Hs, Hc, Hw. destruct (Nat.leb_spec (4 + 32 * length pre + 32)
    (4 + (32 * length pre + (32 + length (concat post)) + length rest))); [|lia].
  f_equal. unfold slice. replace (4 + 32 * length pre + 32 - (4 + 32 * length pre))%nat with 32%nat by lia.
  rewrite <- !app_assoc, app_assoc, drop_app_length' by (rewrite length_app; lia).
  by rewrite take_app_length'.
Qed.

Section Translate.
Context `{HK : Keccak} `{HS : Sha256} `{HB : Borsh}.
(** Solidity gives the six functions different selectors. *)
Hypothesis selectors_differ : NoDup (map encode_solidity_selector signatures).

Lemma length_selector s : length (encode_solidity_selector s) = 4%nat.
Proof. unfold encode_solidity_selector. rewrite length_take, keccak_length. done. Qed.

Lemma words_length c : call_wf c → Forall (λ w, length w = 32%nat) (abi_words c).
Proof.
  destruct c; cbn; intros Hc; repeat constructor; try apply length_word; try done; apply Hc.
Qed.

Lemma signature_in c : signature c ∈ signatures.
Proof. apply list_elem_of_In. destruct c; cbn; tauto. Qed.

(** The translation of a call that is well encoded, whatever follows it. *)
Lemma translate_encoded c rest : call_wf c →
  translate_message (abi_encode c ++ rest) = Ok (instruction_data c).
Proof.
  intros Hc. unfold abi_encode. rewrite <- app_assoc.
  pose proof (words_length c Hc) as Hw. pose proof (length_selector (signature c)) as Hl.
  assert (∀ i w, abi_words c !! i = Some w →
    get_solidity_arg (encode_solidity_selector (signature c) ++ concat (abi_words c) ++ rest) i = Ok w) as Harg.
  { intros. by apply get_arg_app. }
  set (data := encode_solidity_selector _ ++ _) in *. unfold translate_message.
  assert (get_solidity_selector data = Ok (encode_solidity_selector (signature c))) as ->
    by (by apply get_selector_app).
  rewrite bind_ok. cbv beta zeta.
  destruct c; cbn [signature abi_words] in *;
    decide_names selectors_differ;
    cbn [call_wf] in Hc;
    repeat first [erewrite Harg by reflexivity | rewrite bind_ok | rewrite decode_bool_word
      | rewrite decode_uint64_word by apply Hc | rewrite decode_uint32_word by apply Hc
      | rewrite decode_address_word by apply Hc]; reflexivity.
Qed.

(** Only a well encoded call is translated. *)
Lemma translate_inv data ix : translate_message data = Ok ix →
  ∃ c rest, data = abi_encode c ++ rest ∧ call_wf c ∧ ix = instruction_data c.
Proof.
  unfold translate_message. destruct (get_solidity_selector data) as [s|] eqn:Hs; [|done].
  apply get_selector_inv in Hs. rewrite bind_ok. cbv beta zeta.
  assert (∀ sig c rest, s = encode_solidity_selector sig → signature c = sig →
    drop 4 data = concat (abi_words c) ++ rest → data = abi_encode c ++ rest) as Hdata.
  { intros sig c rest -> <- Hd. unfold abi_encode. by rewrite Hs, <- app_assoc, <- Hd at 1. }
  repeat match goal with |- (if bool_decide (s = encode_solidity_selector ?sig) then _ else _) = _ → _ =>
    destruct (bool_decide (s = encode_solidity_selector sig)) eqn:?Hsig;
      [apply bool_decide_eq_true in Hsig|clear Hsig] end; intros Hx; passes Hx; try done.
  all: apply Ok_inj in Hx as <-;
    repeat match goal with H : get_solidity_arg _ _ = Ok _ |- _ => apply get_arg_inv in H as [? H]; cbn [Nat.add Nat.mul] in H end;
    repeat match goal with
    | H : decode_solidity_bool _ = Ok _ |- _ => apply decode_bool_iff in H; [|done]
    | H : decode_solidity_uint64 _ = Ok _ |- _ => apply decode_uint64_iff in H as [H ?]; [|done]
    | H : decode_solidity_uint32 _ = Ok _ |- _ => apply decode_uint32_iff in H as [H ?]; [|done]
    | H : decode_solidity_address _ = Ok _ |- _ => apply decode_address_iff in H as [H ?]
    end; subst.
  1: refine (ex_intro _ (CallPauseDeposits _) (ex_intro _ _ (conj _ (conj _ eq_refl)))).
  3: refine (ex_intro _ (CallPauseFills _) (ex_intro _ _ (conj _ (conj _ eq_refl)))).
  5: refine (ex_intro _ (CallSetCrossDomainAdmin _) (ex_intro _ _ (conj _ (conj _ eq_refl)))).
  7: refine (ex_intro _ (CallSetEnableRoute _ _ _) (ex_intro _ _ (conj _ (conj _ eq_refl)))).
  9: refine (ex_intro _ (CallRelayRootBundle _ _) (ex_intro _ _ (conj _ (conj _ eq_refl)))).
  11: refine (ex_intro _ (CallEmergencyDelete _) (ex_intro _ _ (conj _ (conj _ eq_refl)))).
  all: first [done|eapply Hdata; [done..|]].
  all: repeat match goal with H1 : drop 4%nat _ = _, H2 : drop (S (S (S (S (S _))))) _ = _ |- _ =>
         rewrite H2 in H1; clear H2 end.
  all: match goal with H : drop 4%nat _ = _ |- _ => rewrite H end.
  all: cbn [concat abi_words]; rewrite <- !app_assoc; reflexivity.
Qed.
End Translate.

(** ** Who administers the pool *)

(** Everything the administration decides: the configuration, the routes and
    the roots in force.  The count of deposits and the claimed bitmaps are not
    its business. *)
Definition config (s : State) : State := set_number_of_deposits s 0.
Definition roots (b : RootBundle) : bytes * bytes := (relayer_refund_root b, slow_relay_root b).
Definition administration {L} (st : spoke_state L)
  : option State * gmap (pubkey * Z) bool * gmap Z (bytes * bytes) :=
  (config <$> state st, routes st, roots <$> root_bundles st).

Section Administration.
Context {L : Type} `{HK : Keccak} `{HW : Web3} `{HT : TokenProgram L} `{HR : SolanaRuntime} (program_id : pubkey).
Implicit Types st : spoke_state L.

Definition signer_of (i : spoke_instruction (L := L)) : option pubkey :=
  match i with
  | Initialize k _ _ _ _ _ _ _ | PauseDeposits k _ | PauseFills k _ | TransferOwnership k _
  | SetCrossDomainAdmin k _ | SetEnableRoute k _ _ _ _ _ | RelayRootBundle k _ _ | EmergencyDelete k _
  | DepositV3 _ k _ _ _ _ | ExecuteRelayerRefundLeaf k _ _ _ _ | InitializeClaimAccount k _ _
  | CloseClaimAccount k _ _ => Some k
  | ClaimRelayerRefund _ _ _ _ | BridgeTokensToHubPool _ _ _ _ => None
  end.

Lemma only_owner_ok signer s : only_owner program_id signer s = Ok tt →
  signer = s_owner s ∨ get_self_authority_pda program_id = Ok signer.
Proof.
  unfold only_owner, is_local_or_remote_owner. case_bool_decide; [by left|].
  destruct (get_self_authority_pda program_id) as [k|]; [|done]. cbn. case_bool_decide; [|done].
  subst. by right.
Qed.

Lemma pay_refunds_administration vault au mint tp rem refunds : ∀ st i b st' b',
  pay_refunds st vault au mint tp rem i refunds b = Ok (st', b') → administration st' = administration st.
Proof.
  induction refunds as [|[a v] refunds IH]; intros st i b st' b'; cbn [pay_refunds]; [by intros [= <- _]|].
  destruct (pay_refund _ _ _ _ _ _ _ _ _) as [[st1 d]|] eqn:H1; [|done]. cbn [result_bind].
  intros ->%IH. unfold pay_refund in H1. destruct (try_from_remaining_account _ _ _ _ _ _) as [[]|]; [| |done];
    cbn [result_bind] in H1; passes H1; by injection H1 as <- _.
Qed.

(** What changes the administration is one of its instructions, signed by the
    owner or by the program's self authority. *)
Lemma administration_step st i st' s :
  state st = Some s → s_seed s = 0 → execute program_id st i = Ok st' →
  administration st' = administration st ∨
  ∃ k, signer_of i = Some k ∧ (k = s_owner s ∨ get_self_authority_pda program_id = Ok k).
Proof.
  intros Hs Hseed. destruct i; cbn [execute signer_of]; intros Hx.
  all: try (right; eexists; split; [reflexivity|]; unfold pause_deposits, pause_fills, set_cross_domain_admin,
    set_enable_route, relay_root_bundle, emergency_delete_root_bundle, the_state in Hx; rewrite Hs in Hx;
    rewrite from_some, bind_ok in Hx; destruct (only_owner _ _ _) as [[]|] eqn:Ho; [|done];
    by apply only_owner_ok).
  - unfold initialize in Hx. rewrite Hs in Hx. passes Hx.
    match goal with Hb : bool_decide _ = true |- _ => apply bool_decide_eq_true in Hb as Hne end.
    match goal with He : set_seed _ _ = Ok _ |- _ => apply set_seed_ok in He as (-> & _ & _) end.
    destruct Hne. cbn. by rewrite Hseed.
  - right. eexists. split; [reflexivity|]. left. unfold transfer_ownership, the_state in Hx. rewrite Hs in Hx.
    rewrite from_some, bind_ok in Hx. passes Hx.
    by match goal with Hb : bool_decide _ = true |- _ => apply bool_decide_eq_true in Hb end.
  - left. unfold deposit_v3, the_state in Hx. rewrite Hs in Hx. passes Hx. injection Hx as <-.
    unfold administration. cbn. by rewrite Hs.
  - left. destruct params as [params|]; [|done]. apply execute_leaf_ok in Hx as
      (s' & b & au & st2 & d & pending & _ & Hb & _ & _ & _ & _ & _ & Hp & ->).
    apply pay_refunds_administration in Hp. unfold administration in *. cbn in *. rewrite Hp. f_equal.
    rewrite fmap_insert. apply insert_id. by rewrite lookup_fmap, Hb.
  - left. unfold initialize_claim_account in Hx. passes Hx. by injection Hx as <-.
  - left. unfold claim_relayer_refund, the_state in Hx. passes Hx. by injection Hx as <-.
  - left. unfold close_claim_account in Hx. passes Hx. by injection Hx as <-.
  - left. unfold bridge_tokens_to_hub_pool, the_state in Hx. passes Hx. by injection Hx as <-.
Qed.
End Administration.

(** ** The message handler *)
Section Messages.
Context {L : Type} `{HK : Keccak} `{HS : Sha256} `{HB : Borsh} `{HW : Web3} `{HT : TokenProgram L}
  `{HR : SolanaRuntime} `{HE : !AnchorEntry}.
Context (program_id transmitter_id SystemProgram AssociatedToken : pubkey).
Implicit Types st : spoke_state L.

Definition handle st accounts params : result (spoke_state L) :=
  handle_receive_message program_id transmitter_id SystemProgram AssociatedToken st accounts params.

(** The call [c] runs on the accounts [accounts] of a message, with the bump
    of its authority: those of the
    handler, then, after the signing self authority, those of the call. *)
Definition call_runs st (s : State) (accounts : list AccountMeta) (bump : Z) (c : admin_call) st' : Prop :=
  ∃ self r1 r2,
    get_self_authority_pda program_id = Ok self ∧
    handle_rules program_id transmitter_id s bump = Ok r1 ∧ take_accounts r1 accounts = Ok tt ∧
    let metas := {| am_key := self; am_signer := true; am_writable := false |} :: drop 4 accounts in
    account_rules program_id SystemProgram AssociatedToken s metas c = Ok r2 ∧ take_accounts r2 metas = Ok tt ∧
    execute program_id st (call_instruction self (route_mint metas) (route_token_program metas) c) = Ok st'.

Lemma handle_inv st accounts params st' :
  handle st accounts params = Ok st' →
  ∃ s c rest, state st = Some s ∧ hp_remote_domain params = s_remote_domain s ∧
    hp_sender params = s_cross_domain_admin s ∧
    hp_message_body params = abi_encode c ++ rest ∧ call_wf c ∧ call_runs st s accounts (hp_authority_bump params) c st'.
Proof.
  unfold handle, handle_receive_message, invoke_self, the_state.
  intros Hx. destruct (state st) as [s|]; [|done]. rewrite !from_some, !bind_ok in Hx.
  destruct (handle_rules _ _ s _) as [r1|] eqn:Hr1; [|done]. rewrite bind_ok in Hx.
  destruct (take_accounts r1 accounts) as [[]|] eqn:Ht1; [|done]. rewrite bind_ok in Hx.
  destruct (Z.eqb_spec (hp_remote_domain params) (s_remote_domain s)) as [Hd|]; [|done].
  cbn [require] in Hx. rewrite bind_ok in Hx.
  destruct (bool_decide _) eqn:Hb; [|done]. apply bool_decide_eq_true in Hb.
  cbn [require] in Hx. rewrite bind_ok in Hx.
  destruct (translate_message _) as [ix|] eqn:Htr; [|done]. rewrite bind_ok in Hx.
  destruct (translate_inv _ _ Htr) as (c & rest & Hbody & Hc & ->).
  rewrite bind_ok in Hx. destruct (get_self_authority_pda _) as [self|] eqn:Hself; [|done].
  rewrite bind_ok in Hx. cbv zeta in Hx.
  rewrite entry_data, bind_ok in Hx by done.
  destruct (account_rules _ _ _ _ _ _) as [r2|] eqn:Hr2; [|done]. rewrite bind_ok in Hx.
  destruct (take_accounts r2 _) as [[]|] eqn:Ht2; [|done]. rewrite bind_ok in Hx.
  exists s, c, rest. split_and!; try done. by exists self, r1, r2.
Qed.

Lemma handle_iff st accounts params st' : NoDup (map encode_solidity_selector signatures) →
  handle st accounts params = Ok st' ↔
  ∃ s c rest, state st = Some s ∧ hp_remote_domain params = s_remote_domain s ∧
    hp_sender params = s_cross_domain_admin s ∧
    hp_message_body params = abi_encode c ++ rest ∧ call_wf c ∧ call_runs st s accounts (hp_authority_bump params) c st'.
Proof.
  intros Hsel. split; [apply handle_inv|].
  unfold handle, handle_receive_message, invoke_self, the_state.
  intros (s & c & rest & -> & Hd & Ha & Hbody & Hc & self & r1 & r2 & Hself & Hr1 & Ht1 & Hr2 & Ht2 & Hx).
  rewrite !from_some, bind_ok, Hr1, bind_ok, Ht1, bind_ok, Hd, Z.eqb_refl. cbn [require].
    rewrite bind_ok, bool_decide_eq_true_2 by done. cbn [require].
    rewrite bind_ok, Hbody, translate_encoded, !bind_ok, Hself, bind_ok by done. cbv zeta.
    by rewrite entry_data, bind_ok, Hr2, bind_ok, Ht2, bind_ok.
Qed.
End Messages.

(** ** Properties *)
Section Theorems.
Context {L : Type} `{HK : Keccak} `{HS : Sha256} `{HB : Borsh} `{HW : Web3} `{HT : TokenProgram L}
  `{HR : SolanaRuntime} `{HE : !AnchorEntry}.

(** C13. What a message does, exactly: the handler succeeds if and only if the
    message comes from the configured domain and cross domain admin, its body
    is the Solidity encoding of one of the six administration calls with
    arguments in range (more bytes may follow), the accounts are those of the
    handler (the message transmitter's authority for the program, at the bump
    the message names, signs) and then those of the call, and the call's
    instruction, signed by the program's self authority, succeeds; the new state is the one that
    instruction gives.  Anything else is an error. *)
Theorem message_runs_call (program_id transmitter_id SystemProgram AssociatedToken : pubkey)
    (st st' : spoke_state L) (accounts : list AccountMeta) (params : HandleReceiveMessageParams)
    (Hsel : NoDup (map encode_solidity_selector signatures)) :
  handle_receive_message program_id transmitter_id SystemProgram AssociatedToken st accounts params = Ok st' ↔
  ∃ s c rest, state st = Some s ∧ hp_remote_domain params = s_remote_domain s ∧
    hp_sender params = s_cross_domain_admin s ∧
    hp_message_body params = abi_encode c ++ rest ∧ call_wf c ∧
    call_runs program_id transmitter_id SystemProgram AssociatedToken st s accounts (hp_authority_bump params) c st'.
Proof. exact (handle_iff program_id transmitter_id SystemProgram AssociatedToken st accounts params st' Hsel). Qed.

(** A transaction: instructions signed by a key pair, which the self
    authority, a derived address, is not; or a message delivered by CCTP. *)
Inductive request :=
| Direct (i : spoke_instruction (L := L))
| Message (accounts : list AccountMeta) (params : HandleReceiveMessageParams).

Definition process (program_id transmitter_id SystemProgram AssociatedToken : pubkey) (st : spoke_state L)
    (r : request) : result (spoke_state L) :=
  match r with
  | Direct i =>
      let? self := get_self_authority_pda program_id in
      let? _ := require (bool_decide (signer_of i ≠ Some self)) (JsError "missing signature") in
      execute program_id st i
  | Message accounts params =>
      handle_receive_message program_id transmitter_id SystemProgram AssociatedToken st accounts params
  end.

(** C18. In every reachable state, whatever transaction changes the
    configuration, the enabled routes or the roots in force is either signed
    by the owner or a message from the cross domain admin on its domain that
    encodes one of the six administration calls. *)
Theorem administration_authorized (program_id transmitter_id SystemProgram AssociatedToken : pubkey)
    (st st' : spoke_state L) (r : request) (s : State)
    (Hreach : reachable program_id st) (Hs : state st = Some s)
    (Hr : process program_id transmitter_id SystemProgram AssociatedToken st r = Ok st')
    (Hchange : administration st' ≠ administration st) :
  match r with
  | Direct i => signer_of i = Some (s_owner s)
  | Message _ params =>
      hp_remote_domain params = s_remote_domain s ∧ hp_sender params = s_cross_domain_admin s ∧
      ∃ c rest, hp_message_body params = abi_encode c ++ rest
  end.
Proof.
  destruct (reachable_represents _ _ Hreach) as (sp & _ & Hrep).
  pose proof (rep_seed _ _ Hrep _ Hs) as Hseed.
  destruct r as [i|accounts params]; cbn [process] in Hr.
  - destruct (get_self_authority_pda program_id) as [self|] eqn:Hself; [|done]. rewrite bind_ok in Hr.
    destruct (bool_decide _) eqn:Hb; [|done]. apply bool_decide_eq_true in Hb.
    destruct (administration_step program_id st i st' s Hs Hseed Hr) as [?|(k & Hk & [->|Ha])]; [done..|].
    congruence.
  - by apply handle_inv in Hr as (s0 & c & rest & [= <-]%(eq_trans (eq_sym Hs)) & ? & ? & ? & _ & _); eauto.
Qed.
End Theorems.

(** The sample pool of the bundles, whose admin sends a message to pause
    deposits, with its selector's trailing padding. *)
Definition ex_pda (r : result pubkey) : pubkey := result_default [] r.
Definition ex_transmitter : pubkey := ex_key x0a.
Definition ex_self : pubkey := ex_pda (get_self_authority_pda ex_program).
Definition ex_meta (k : pubkey) (writable : bool) : AccountMeta :=
  {| am_key := k; am_signer := false; am_writable := writable |}.
Definition ex_accounts : list AccountMeta :=
  [{| am_key := ex_pda (let? a := findProgramAddressSync
        [utf8_encode "message_transmitter_authority"; ex_program] ex_transmitter in Ok (fst a));
      am_signer := true; am_writable := false |};
   ex_meta (ex_pda (state_pda ex_program 0)) false; ex_meta ex_self false; ex_meta ex_program false;
   ex_meta (ex_pda (state_pda ex_program 0)) true;
   ex_meta (ex_pda (pda ex_program "__event_authority" [])) false; ex_meta ex_program false].
Definition ex_pause : HandleReceiveMessageParams :=
  {| hp_remote_domain := 0; hp_sender := ex_owner; hp_message_body := abi_encode (CallPauseDeposits true);
     hp_authority_bump := 255 |}.
Definition ex_paused : spoke_state toy_ledger :=
  result_default ex_state
    (handle_receive_message ex_program ex_transmitter (ex_key x0b) (ex_key x0c) ex_state ex_accounts ex_pause).

Lemma ex_selectors : NoDup (map encode_solidity_selector signatures).
Proof. apply (bool_decide_unpack _). vm_compute. reflexivity. Qed.

Lemma ex_paused_ok :
  handle_receive_message ex_program ex_transmitter (ex_key x0b) (ex_key x0c) ex_state ex_accounts ex_pause =
    Ok ex_paused.
Proof.
  unfold ex_paused.
  assert (is_ok (handle_receive_message ex_program ex_transmitter (ex_key x0b) (ex_key x0c) ex_state
    ex_accounts ex_pause) = true) as Hok by (vm_compute; reflexivity).
  by destruct (handle_receive_message _ _ _ _ _ _ _).
Qed.

Lemma message_runs_call_witness :
  NoDup (map encode_solidity_selector signatures) ∧
  ∃ s c rest, state ex_state = Some s ∧ hp_remote_domain ex_pause = s_remote_domain s ∧
    hp_sender ex_pause = s_cross_domain_admin s ∧
    hp_message_body ex_pause = abi_encode c ++ rest ∧ call_wf c ∧
    call_runs ex_program ex_transmitter (ex_key x0b) (ex_key x0c) ex_state s ex_accounts 255 c ex_paused.
Proof.
  split; [exact ex_selectors|].
  apply (message_runs_call ex_program ex_transmitter (ex_key x0b) (ex_key x0c) ex_state ex_paused
           ex_accounts ex_pause ex_selectors).
  exact ex_paused_ok.
Defined.

Lemma ex_state_some : is_Some (state ex_state).
Proof. apply (bool_decide_unpack _). vm_compute. reflexivity. Qed.

Lemma ex_changed : administration ex_paused ≠ administration ex_state.
Proof.
  intros Heq. apply (f_equal (λ a, s_paused_deposits <$> fst (fst a))) in Heq.
  assert (s_paused_deposits <$> fst (fst (administration ex_paused)) = Some true) as H1 by (vm_compute; reflexivity).
  assert (s_paused_deposits <$> fst (fst (administration ex_state)) = Some false) as H2 by (vm_compute; reflexivity).
  rewrite H1, H2 in Heq. discriminate Heq.
Qed.

Lemma administration_authorized_witness :
  ∃ s, state ex_state = Some s ∧
    hp_remote_domain ex_pause = s_remote_domain s ∧ hp_sender ex_pause = s_cross_domain_admin s ∧
    ∃ c rest, hp_message_body ex_pause = abi_encode c ++ rest.
Proof.
  destruct ex_state_some as [s Hs]. exists s. split; [exact Hs|].
  exact (administration_authorized ex_program ex_transmitter (ex_key x0b) (ex_key x0c) ex_state ex_paused
    (Message ex_accounts ex_pause) s ex_reachable Hs ex_paused_ok ex_changed).
Defined.
