(* ===== verification/FakeRepayment.v ===== *)
(** * scripts/svm/simpleFakeRelayerRepayment.ts

    The script that funds the Solana spoke pool, relays a root bundle of one
    refund leaf and executes it, as a program over the services it calls, and
    these services as a handler that runs the instructions of the pool
    ([SvmState], [SvmBundle]), its parameters account ([SvmLeaves]), an
    address lookup table and a versioned transaction, which is sent but not
    confirmed: the cluster includes it before the next transaction of the
    script or after it. *)

From stdpp Require Import base gmap strings list.
From Stdlib Require Import ZArith Strings.Byte Lia.
From S2P Require Import Prelude Bytes JsText Interfaces SvmSpoke SvmUtils SvmLeaves SvmState SvmClient SvmBundle MerkleTrees.

Record repayment_args := {
  ra_seed : Z;
  ra_numberOfRelayersToRepay : string;
  ra_inputToken : pubkey
}.

(** The versioned transaction: the compute unit limit, the execute
    instruction with its accounts, the lookup table its message is compiled
    with, as it was fetched, and the block hash. *)
Record v0_transaction := {
  tx_units : Z;
  tx_accounts : accounts_map;
  tx_remaining : list (pubkey * bool);
  tx_table : pubkey;
  tx_addresses : list pubkey;
  tx_blockhash : string
}.

Inductive repaymentE : Type → Type :=
| DateNow : repaymentE Z
| RpcDepositV3 (p : DepositParams) (accounts : accounts_map) : repaymentE unit
| KeypairGenerate : repaymentE pubkey
| CreateAssociatedTokenAccount (mint owner : pubkey) : repaymentE pubkey
| FetchState (k : pubkey) : repaymentE State
| RpcRelayRootBundle (relayerRefundRoot slowRelayRoot : bytes) (accounts : accounts_map) : repaymentE unit
| GetSlot : repaymentE Z
| SendCreateLookupTable (table : pubkey) : repaymentE unit
| SendExtendLookupTable (table : pubkey) (addresses : list pubkey) : repaymentE unit
| GetAddressLookupTable (table : pubkey) : repaymentE (option (list pubkey))
| ParamsAccount {X} (c : paramsE X) : repaymentE X
| GetLatestBlockhash : repaymentE string
| SendTransaction (tx : v0_transaction) : repaymentE unit
| RpcCloseInstructionParams (accounts : accounts_map) : repaymentE unit
| GetTokenAccountBalance (k : pubkey) : repaymentE Z.

Section Script.
Context {L : Type} `{HK : Keccak} `{HB : BNjs} `{HW : Web3} `{HT : TokenProgram L} `{HM : !UmaMerkleTree}
  `{HR : !SolanaRuntime}.
(** The spoke pool, the library's program ids, the lookup table program's
    address derivation, the layout of the parameters and the ABI coder. *)
Context (programId TOKEN_PROGRAM_ID SystemProgram_programId wallet : pubkey)
  (lookup_table_address : pubkey → Z → pubkey)
  (accountLayouts : string → option (ExecuteRelayerRefundLeafParams → bytes))
  (accountDiscriminator : string → bytes)
  (abi_encode_leaf : RelayerRefundLeafEvm → bytes).

(** [Array.from({ length: n }, (_, i) => new BN(i + 1))]: no element when
    [n] is [NaN] or negative. *)
Definition repayment_amounts (n : option Z) : list Z :=
  map (λ i, Z.of_nat i + 1) (seq 0 (Z.to_nat (default 0 n))).

Local Abbreviation find_pda := (find_pda programId).

Definition maxExtendedAccounts : nat := 30.

Definition createRefundAccount (inputToken : pubkey) : prog repaymentE pubkey :=
  let! recipient := call KeypairGenerate in
  call (CreateAssociatedTokenAccount inputToken recipient).

Definition extendLookupTable (table : pubkey) (lookupAddresses : list pubkey) : prog repaymentE unit :=
  for_each (slices maxExtendedAccounts lookupAddresses 0)
    (λ '(_, addresses), call (SendExtendLookupTable table addresses)).

(** The addresses of the static accounts, in the order of the object. *)
Definition static_accounts (instructionParams statePda rootBundle vault inputToken transferLiability
    eventAuthority : pubkey) : accounts_map :=
  [("instructionParams", instructionParams); ("state", statePda); ("rootBundle", rootBundle);
   ("signer", wallet); ("vault", vault); ("tokenProgram", TOKEN_PROGRAM_ID); ("mint", inputToken);
   ("transferLiability", transferLiability); ("systemProgram", SystemProgram_programId);
   ("eventAuthority", eventAuthority); ("program", programId)]%string.

Definition repayment_leaf (chainId : Z) (inputToken : pubkey) (refundAccounts : list pubkey)
    (amounts : list Z) : RelayerRefundLeaf :=
  {| amount_to_return := 0; chain_id := chainId; refund_amounts := amounts; leaf_id := 0;
     mint_public_key := inputToken; refund_accounts := refundAccounts |}.

Definition repayment_deposit (inputToken : pubkey) (amounts : list Z) (now1 now2 : Z) : DepositParams :=
  {| dp_depositor := wallet; dp_recipient := wallet; dp_input_token := inputToken;
     dp_output_token := inputToken; dp_input_amount := foldl Z.add 0 amounts; dp_output_amount := 0;
     dp_destination_chain_id := 11155111; dp_exclusive_relayer := replicate 32 x00;
     dp_quote_timestamp := now1 / 1000 - 1; dp_fill_deadline := now2 / 1000 + 3600;
     dp_exclusivity_deadline := 0; dp_message := [] |}.

(** With the lookup table extended: load the parameters, execute the leaf,
    close the parameters account and read the balances. *)
Definition executeAndReport (lookupTableAddress : pubkey) (staticAccounts : accounts_map)
    (remainingAccounts : list (pubkey * bool)) (instructionParams : pubkey)
    (params : ExecuteRelayerRefundLeafParams) (refundAccounts : list pubkey) : prog repaymentE (list (nat * Z)) :=
  let! lookupTableAccount := call (GetAddressLookupTable lookupTableAddress) in
  let! table := lift (from_option_err (JsError "AddressLookupTableAccount not fetched") lookupTableAccount) in
  translate (@ParamsAccount) (loadExecuteRelayerRefundLeafParams
    (LargeAccountsCoder_encode accountLayouts accountDiscriminator "executeRelayerRefundLeafParams" params)) ;;
  let! blockhash := call GetLatestBlockhash in
  call (SendTransaction {| tx_units := 500000; tx_accounts := staticAccounts; tx_remaining := remainingAccounts;
    tx_table := lookupTableAddress; tx_addresses := table; tx_blockhash := blockhash |}) ;;
  call (RpcCloseInstructionParams [("signer", wallet); ("instructionParams", instructionParams)]%string) ;;
  for_collect (zip (seq 0 (length refundAccounts)) refundAccounts)
    (λ '(i, account), let! amount := call (GetTokenAccountBalance account) in Ret (S i, amount)).

(** The lookup table, created by a transaction of its own. *)
Definition createLookupTable : prog repaymentE pubkey :=
  let! slot := call GetSlot in
  let lookupTableAddress := lookup_table_address wallet slot in
  call (SendCreateLookupTable lookupTableAddress) ;;
  Ret lookupTableAddress.

(** From the tree of the leaf on: relay its root, extend the lookup table with
    all accounts, and execute. *)
Definition relayAndExecute (inputToken statePda vault : pubkey) (leaf : RelayerRefundLeaf)
    (refundAccounts : list pubkey) : prog repaymentE (list (nat * Z)) :=
  let signer := wallet in
  let relayerRefundLeaf := SolanaLeaf leaf in
  let! root := lift (getRoot [relayerRefundLeaf] (relayerRefundHashFn abi_encode_leaf)) in
  let! state := call (FetchState statePda) in
  let rootBundleId := s_root_bundle_id state in
  let! rootBundleIdBuffer := lift (writeUInt32LE (buffer_alloc 4) rootBundleId 0) in
  let! rootBundle := lift (find_pda [utf8_encode "root_bundle"; statePda; rootBundleIdBuffer]) in
  call (RpcRelayRootBundle root root
    [("state", statePda); ("rootBundle", rootBundle); ("signer", signer); ("payer", signer);
     ("systemProgram", SystemProgram_programId)]%string) ;;
  let! proof := lift (getProof [relayerRefundLeaf] (relayerRefundHashFn abi_encode_leaf) relayerRefundLeaf) in
  let! transferLiability := lift (find_pda [utf8_encode "transfer_liability"; inputToken]) in
  let! instructionParams := lift (find_pda [utf8_encode "instruction_params"; signer]) in
  let! eventAuthority := lift (find_pda [utf8_encode "__event_authority"]) in
  let staticAccounts := static_accounts instructionParams statePda rootBundle vault inputToken
                          transferLiability eventAuthority in
  let remainingAccounts := map (λ account, (account, true)) refundAccounts in
  let! lookupTableAddress := createLookupTable in
  let lookupAddresses := map snd staticAccounts ++ refundAccounts in
  extendLookupTable lookupTableAddress lookupAddresses ;;
  executeAndReport lookupTableAddress staticAccounts remainingAccounts instructionParams
    {| root_bundle_id := rootBundleId; relayer_refund_leaf := leaf; proof := proof |} refundAccounts.

Definition testBundleLogic (argv : repayment_args) : prog repaymentE (list (nat * Z)) :=
  let numberOfRelayersToRepay := parseInt (ra_numberOfRelayersToRepay argv) in
  let amounts := repayment_amounts numberOfRelayersToRepay in
  let inputToken := ra_inputToken argv in
  let signer := wallet in
  let! seedBuffer := lift (toArrayLike_le (ra_seed argv) 8) in
  let! statePda := lift (find_pda [utf8_encode "state"; seedBuffer]) in
  let! chainBuffer := lift (toArrayLike_le 11155111 8) in
  let! routePda := lift (find_pda [utf8_encode "route"; inputToken; statePda; chainBuffer]) in
  let vault := associated_token inputToken statePda TOKEN_PROGRAM_ID in
  let! now1 := call DateNow in
  let! now2 := call DateNow in
  call (RpcDepositV3 (repayment_deposit inputToken amounts now1 now2)
    (deposit_accounts statePda routePda signer (associated_token inputToken signer TOKEN_PROGRAM_ID) vault
       TOKEN_PROGRAM_ID inputToken)) ;;
  let! refundAccounts := for_collect amounts (λ _, createRefundAccount inputToken) in
  let! state := call (FetchState statePda) in
  relayAndExecute inputToken statePda vault (repayment_leaf (s_chain_id state) inputToken refundAccounts amounts)
    refundAccounts.

(** ** The services *)

(** The pool, the wallet's parameters account, the lookup tables and the key
    pairs to be generated. *)
Record world := {
  pool : spoke_state L;
  params_account : option bytes;
  tables : gmap pubkey (list pubkey);
  key_pairs : list pubkey;
  pending : option v0_transaction
}.

(** The clock in milliseconds, the slot, a block hash, Anchor's
    deserialisation of the parameters account, the id of the compute budget
    program, and whether the cluster includes the execute transaction before
    the one the script sends after it. *)
Context (clock slot : Z) (blockhash : string)
  (decode_params : bytes → option ExecuteRelayerRefundLeafParams)
  (compute_budget : pubkey) (included_first : bool).

Definition OutOfKeys : js_error := JsError "no key pair".
Definition InvalidLookupTable : js_error := JsError "invalid lookup table".
Definition BlockhashNotFound : js_error := JsError "Blockhash not found".
Definition TooManyAccountLocks : js_error := JsError "Transaction locked too many accounts".

Definition with_pool (w : world) (p : spoke_state L) : world :=
  {| pool := p; params_account := params_account w; tables := tables w; key_pairs := key_pairs w;
     pending := pending w |}.
Definition with_params (w : world) (a : option bytes) : world :=
  {| pool := pool w; params_account := a; tables := tables w; key_pairs := key_pairs w; pending := pending w |}.
Definition with_table (w : world) (k : pubkey) (t : list pubkey) : world :=
  {| pool := pool w; params_account := params_account w; tables := <[k := t]> (tables w);
     key_pairs := key_pairs w; pending := pending w |}.
Definition with_keys (w : world) (ks : list pubkey) : world :=
  {| pool := pool w; params_account := params_account w; tables := tables w; key_pairs := ks;
     pending := pending w |}.
Definition with_pending (w : world) (t : option v0_transaction) : world :=
  {| pool := pool w; params_account := params_account w; tables := tables w; key_pairs := key_pairs w;
     pending := t |}.

Definition rpc_deposit (w : world) (p : DepositParams) (accounts : accounts_map) : result world :=
  let? pool' := run_deposit programId wallet (clock / 1000) (pool w) p accounts in
  Ok (with_pool w pool').

Definition rpc_relay (w : world) (refund_root slow_root : bytes) (accounts : accounts_map) : result world :=
  let? s := the_state (pool w) in
  let? state_key := state_pda programId (s_seed s) in
  let? bundle := pda programId "root_bundle" [state_key; le_bytes 4 (s_root_bundle_id s)] in
  let? _ := check_accounts accounts
    [("state", state_key); ("rootBundle", bundle); ("signer", wallet); ("payer", wallet);
     ("systemProgram", SystemProgram_programId)]%string in
  let? pool' := relay_root_bundle programId (pool w) wallet refund_root slow_root in
  Ok (with_pool w pool').

(** *** The versioned transaction *)

(** The length prefix of a list in a message. *)
Definition compact_u16 (n : nat) : Z := if Z.of_nat n <? 128 then 1 else if Z.of_nat n <? 16384 then 2 else 3.

Definition account_keys (tx : v0_transaction) : list pubkey :=
  map snd (tx_accounts tx) ++ map fst (tx_remaining tx).

(** [compileToV0Message]: the payer, the invoked programs and the keys that
    are not in the lookup table are written in the message; the others are
    loaded from the table, one byte each. *)
Definition from_table (tx : v0_transaction) (k : pubkey) : bool :=
  bool_decide (k ∈ tx_addresses tx ∧ k ≠ wallet ∧ k ≠ programId).
Definition static_keys (tx : v0_transaction) : list pubkey :=
  remove_dups (wallet :: compute_budget :: programId :: filter (λ k, from_table tx k = false) (account_keys tx)).
Definition loaded_keys (tx : v0_transaction) : list pubkey :=
  remove_dups (filter (λ k, from_table tx k = true) (account_keys tx)).

(** The bytes of the transaction: a signature; the version, the header, the
    static keys and the block hash; [setComputeUnitLimit] with 5 bytes of data
    and the execute instruction with its discriminator; the lookups. *)
Definition transaction_size (tx : v0_transaction) : Z :=
  let statics := length (static_keys tx) in
  let loaded := length (loaded_keys tx) in
  let accounts := length (account_keys tx) in
  compact_u16 1 + 64
  + 1 + 3 + compact_u16 statics + 32 * Z.of_nat statics + 32
  + compact_u16 2 + (1 + compact_u16 0 + compact_u16 5 + 5)
  + (1 + compact_u16 accounts + Z.of_nat accounts + compact_u16 8 + 8)
  + compact_u16 1 + (32 + 2 * compact_u16 loaded + Z.of_nat loaded).

(** What the cluster checks before it runs the instructions: the table holds
    the addresses the message was compiled with, the transaction fits a packet
    and the limit of 64 account locks, and the block hash is a recent one. *)
Definition check_transaction (w : world) (tx : v0_transaction) : result unit :=
  let? t := from_option_err InvalidLookupTable (tables w !! tx_table tx) in
  let? _ := require (bool_decide (tx_addresses tx `prefix_of` t)) InvalidLookupTable in
  let? _ := require (transaction_size tx <=? PACKET_DATA_SIZE) TransactionTooLarge in
  let? _ := require (length (static_keys tx) + length (loaded_keys tx) <=? 64)%nat TooManyAccountLocks in
  require (bool_decide (tx_blockhash tx = blockhash)) BlockhashNotFound.

Definition rpc_execute (w : world) (units : Z) (accounts : accounts_map) (remaining : list (pubkey * bool))
  : result world :=
  let? s := the_state (pool w) in
  let? state_key := state_pda programId (s_seed s) in
  let? data := from_option_err AccountNotInitialized (params_account w) in
  let? params := from_option_err AccountNotInitialized (decode_params data) in
  let? bundle := pda programId "root_bundle" [state_key; le_bytes 4 (root_bundle_id params)] in
  let? params_key := pda programId "instruction_params" [wallet] in
  let? mint := from_option_err ConstraintSeeds (js_lookup accounts "mint"%string) in
  let? tp := from_option_err ConstraintSeeds (js_lookup accounts "tokenProgram"%string) in
  let? liability := pda programId "transfer_liability" [mint] in
  let? event_authority := pda programId "__event_authority" [] in
  let? _ := check_accounts accounts
    [("instructionParams", params_key); ("state", state_key); ("rootBundle", bundle); ("signer", wallet);
     ("vault", associated_token mint state_key tp); ("transferLiability", liability);
     ("systemProgram", SystemProgram_programId); ("eventAuthority", event_authority);
     ("program", programId)]%string in
  let? pool' := execute_relayer_refund_leaf programId (pool w) wallet mint tp (Some params)
                  (map (λ '(k, b), {| key := Key k; is_writable := b |}) remaining) in
  let? _ := require (compute_fits units (length (refund_amounts (relayer_refund_leaf params)))
                       (length (proof params))) ComputeBudgetExceeded in
  Ok (with_pool w pool').

Definition run_transaction (w : world) (tx : v0_transaction) : result world :=
  let? _ := check_transaction w tx in
  rpc_execute w (tx_units tx) (tx_accounts tx) (tx_remaining tx).

(** [connection.sendTransaction] simulates the transaction, throws when that
    fails, and otherwise returns without waiting for a block. *)
Definition send_transaction (w : world) (tx : v0_transaction) : result world :=
  let? _ := run_transaction w tx in Ok (with_pending w (Some tx)).

(** The cluster includes the pending transaction; one that fails changes
    nothing. *)
Definition include_pending (w : world) : world :=
  match pending w with
  | None => w
  | Some tx => with_pending (result_default w (run_transaction w tx)) None
  end.

Definition rpc_close_params (w : world) (accounts : accounts_map) : result world :=
  let? params_key := pda programId "instruction_params" [wallet] in
  let? _ := check_accounts accounts [("signer", wallet); ("instructionParams", params_key)]%string in
  Ok (with_params w None).

Definition create_refund_account (w : world) (mint owner : pubkey) : result (pubkey * world) :=
  let? l := create_associated_token (ledger (pool w)) mint owner TOKEN_PROGRAM_ID in
  Ok (associated_token mint owner TOKEN_PROGRAM_ID, with_pool w (with_ledger (pool w) l)).

Definition create_table (w : world) (k : pubkey) : result world :=
  let? _ := require (bool_decide (tables w !! k = None)) AlreadyInUse in
  Ok (with_table w k []).

(** A table holds at most 256 addresses, an instruction adds at most 30. *)
Definition extend_table (w : world) (k : pubkey) (addresses : list pubkey) : result world :=
  let? t := from_option_err InvalidLookupTable (tables w !! k) in
  let? _ := require ((length addresses <=? 30)%nat && (length t + length addresses <=? 256)%nat) InvalidLookupTable in
  Ok (with_table w k (t ++ addresses)).

Definition services : handler world repaymentE := λ X w c,
  match c in repaymentE Y return result Y * world with
  | DateNow => (Ok clock, w)
  | RpcDepositV3 p accounts => done_in w (rpc_deposit w p accounts)
  | KeypairGenerate =>
      match key_pairs w with
      | [] => (Err OutOfKeys, w)
      | k :: ks => (Ok k, with_keys w ks)
      end
  | CreateAssociatedTokenAccount mint owner => answer w (create_refund_account w mint owner)
  | FetchState k => (fetch_state programId (pool w) k, w)
  | RpcRelayRootBundle r s accounts => done_in w (rpc_relay w r s accounts)
  | GetSlot => (Ok slot, w)
  | SendCreateLookupTable k => done_in w (create_table w k)
  | SendExtendLookupTable k addresses => done_in w (extend_table w k addresses)
  | GetAddressLookupTable k => (Ok (tables w !! k), w)
  | ParamsAccount c => let '(r, a) := params_program _ (params_account w) c in (r, with_params w a)
  | GetLatestBlockhash => (Ok blockhash, w)
  | SendTransaction tx => done_in w (send_transaction w tx)
  | RpcCloseInstructionParams accounts =>
      let w' := if included_first then include_pending w else w in
      done_in w' (rpc_close_params w' accounts)
  | GetTokenAccountBalance k => (Ok (balance (ledger (pool w)) k), w)
  end.
End Script.

(** ** Lemmas *)
Section Steps.
Context {L : Type} `{HK : Keccak} `{HB : BNjs} `{HW : Web3} `{HT : TokenProgram L} `{HM : !UmaMerkleTree}
  `{HR : !SolanaRuntime}.
Context (programId TOKEN_PROGRAM_ID SystemProgram_programId wallet : pubkey)
  (clock slot : Z) (blockhash : string)
  (decode_params : bytes → option ExecuteRelayerRefundLeafParams) (compute_budget : pubkey) (included_first : bool).
Abbreviation serve := (services (L := L) programId TOKEN_PROGRAM_ID SystemProgram_programId wallet clock slot blockhash
  decode_params compute_budget included_first).
Implicit Types (w : world (L := L)) (st : spoke_state L).

(** A run of the parameters account alone. *)
Lemma run_params {A} (p : prog paramsE A) w :
  run_state serve w (translate (@ParamsAccount) p) =
    (fst (run_state params_program (params_account w) p),
     with_params w (snd (run_state params_program (params_account w) p))).
Proof.
  revert w. induction p as [a|e|X c k IH]; intros w; cbn [translate run_state].
  1-2: by destruct w.
  cbn [services]. destruct (params_program X (params_account w) c) as [r a]. rewrite IH. by destruct w.
Qed.

Definition refund_atas (mint : pubkey) (owners : list pubkey) : list pubkey :=
  map (λ k, associated_token mint k TOKEN_PROGRAM_ID) owners.

(** A fresh, empty account of the mint. *)
Definition fresh_account (l : L) (mint a : pubkey) : Prop :=
  (∃ o, token_account l a = Some {| tk_mint := mint; tk_authority := o; tk_program := TOKEN_PROGRAM_ID |}) ∧
  frozen l a = false ∧ balance l a = 0.

Definition same_token_account (l l' : L) (k : pubkey) : Prop :=
  token_account l' k = token_account l k ∧ frozen l' k = frozen l k ∧ balance l' k = balance l k.

(** The loop creates one fresh account per generated key pair. *)
Lemma create_accounts_run {A} (xs : list A) w mint owners rest :
  length owners = length xs → key_pairs w = owners ++ rest →
  mint_program (ledger (pool w)) mint = Some TOKEN_PROGRAM_ID →
  NoDup (refund_atas mint owners) →
  Forall (λ a, token_account (ledger (pool w)) a = None) (refund_atas mint owners) →
  ∃ l, run_state serve w (for_collect xs (λ _, createRefundAccount mint)) =
         (Ok (refund_atas mint owners), with_keys (with_pool w (with_ledger (pool w) l)) rest) ∧
    (∀ k, mint_program l k = mint_program (ledger (pool w)) k) ∧
    Forall (fresh_account l mint) (refund_atas mint owners) ∧
    ∀ k, k ∉ refund_atas mint owners → same_token_account (ledger (pool w)) l k.
Proof.
  revert w owners. induction xs as [|x xs IH]; intros w [|o owners] Hlen Hkeys Hm Hnd Hnone; try done;
    cbn [for_collect].
  - exists (ledger (pool w)). split_and!; [|done|constructor|done].
    cbn. cbn in Hkeys. rewrite <- Hkeys. by destruct w as [[] ? ? ? ?].
  - cbn in Hlen. injection Hlen as Hlen. apply NoDup_cons in Hnd as [Hnew Hnd].
    apply Forall_cons in Hnone as [Ho Hnone].
    pose proof (create_associated_token_ok _ _ o _ Hm Ho) as Hok.
    destruct (create_associated_token (ledger (pool w)) mint o TOKEN_PROGRAM_ID) as [l|] eqn:Hc; [|done].
    destruct (create_associated_token_spec _ _ _ _ _ Hc) as (_ & Hinfo & Hbal & Hfr & Hmints & Hothers).
    set (w1 := with_pool (with_keys w (owners ++ rest)) (with_ledger (pool w) l)).
    destruct (IH w1 owners Hlen eq_refl) as (l' & Hrun & Hm' & Hfresh & Hframe).
    { cbn. by rewrite Hmints. }
    { done. }
    { apply Forall_forall. intros a Ha. cbn. rewrite (proj1 (Hothers a ltac:(intros ->; done))).
      by apply (proj1 (Forall_forall _ _) Hnone). }
    exists l'. split_and!.
    + unfold createRefundAccount at 1. rewrite !run_state_bind, run_state_call. cbn [services].
      rewrite Hkeys. cbn [app]. rewrite run_state_call. cbn [services]. unfold create_refund_account.
      cbn [pool with_keys]. rewrite Hc. cbn [result_bind answer].
      change (with_pool (with_keys w (owners ++ rest)) (with_ledger (pool w) l)) with w1.
      rewrite run_state_bind, Hrun. cbn. done.
    + intros k. rewrite Hm'. apply Hmints.
    + constructor; [|done]. destruct (Hframe _ Hnew) as (Ha & Hb & Hd). cbn in Ha, Hb, Hd.
      split_and!; [exists o; by rewrite Ha|by rewrite Hb|by rewrite Hd].
    + intros k [Hk Hks]%not_elem_of_cons. destruct (Hframe _ Hks) as (Ha & Hb & Hd). cbn in Ha, Hb, Hd.
      destruct (Hothers k Hk) as (Ha' & Hb' & Hd'). split_and!; congruence.
Qed.

(** Extending the table by slices leaves all addresses in it. *)
Lemma extend_run w k (t : list pubkey) (chunks : list (nat * list pubkey)) :
  tables w !! k = Some t → Forall (λ c, (length (snd c) ≤ 30)%nat) chunks →
  (length t + length (concat (map snd chunks)) ≤ 256)%nat →
  run_state serve w (for_each chunks (λ '(_, a), call (SendExtendLookupTable k a))) =
    (Ok tt, match chunks with [] => w | _ => with_table w k (t ++ concat (map snd chunks)) end).
Proof.
  intros Ht Hc. revert w t Ht. induction Hc as [|[i c] chunks Hc _ IH]; intros w t Ht Hlen; [done|].
  cbn [for_each map concat snd] in *. rewrite length_app in Hlen.
  rewrite run_state_bind, run_state_call. cbn [services]. unfold extend_table. rewrite Ht.
  cbn [from_option_err result_bind snd] in *. rewrite (proj2 (Nat.leb_le _ _) Hc).
  rewrite (proj2 (Nat.leb_le _ _)) by lia. cbn [andb require result_bind done_in answer].
  rewrite (IH _ (t ++ c)); [|by cbn; rewrite lookup_insert_eq|rewrite length_app; lia].
  rewrite app_assoc. destruct chunks as [|c' chunks]; [by rewrite app_nil_r|].
  unfold with_table. cbn. by rewrite insert_insert_eq.
Qed.

(** Reading the balances back. *)
Lemma balances_run w (xs : list (nat * pubkey)) :
  run_state serve w (for_collect xs (λ '(i, account), let! amount := call (GetTokenAccountBalance account) in Ret (S i, amount)))
  = (Ok (map (λ '(i, account), (S i, balance (ledger (pool w)) account)) xs), w).
Proof.
  induction xs as [|[i k] xs IH]; cbn [for_collect map]; [done|].
  rewrite !run_state_bind, run_state_call. cbn [services run_state]. by rewrite run_state_bind, IH.
Qed.
End Steps.

(** ** Sums of refunds *)
Lemma total_le_sum mint k refunds : Forall (λ r : pubkey * Z, 0 ≤ snd r) refunds →
  total (refund_payouts mint refunds) mint k ≤ refund_sum refunds.
Proof.
  induction 1 as [|[a v] refunds Hv Hr IH]; [done|]. rewrite refund_payouts_cons. cbn in *.
  case_decide; lia.
Qed.

Lemma total_absent mint k refunds : k ∉ map fst refunds → total (refund_payouts mint refunds) mint k = 0.
Proof.
  induction refunds as [|[a v] refunds IH]; [done|].
  cbn [map fst]. intros [Hk Hks]%not_elem_of_cons. rewrite refund_payouts_cons. cbn [total po_mint po_to].
  rewrite decide_False by (intros [_ ?]; by apply Hk). rewrite IH by done. done.
Qed.

Lemma total_present mint refunds i k v : NoDup (map fst refunds) → refunds !! i = Some (k, v) →
  total (refund_payouts mint refunds) mint k = v.
Proof.
  revert i. induction refunds as [|[a u] refunds IH]; intros i; [done|].
  cbn [map fst]. intros [Ha Hnd]%NoDup_cons. rewrite refund_payouts_cons. cbn [total po_mint po_to po_amount].
  destruct i as [|i]; cbn [lookup list_lookup].
  - intros [= -> ->]. rewrite decide_True by done. rewrite total_absent by done. lia.
  - intros Hi. rewrite decide_False, (IH i Hnd Hi); [done|]. intros [_ ->]. apply Ha.
    apply list_elem_of_fmap. exists (k, v). split; [done|]. by eapply list_elem_of_lookup_2.
Qed.

Lemma foldl_add_acc l acc : foldl Z.add acc l = acc + foldl Z.add 0 l.
Proof.
  revert acc. induction l as [|x l IH]; intros acc; cbn [foldl]; [lia|]. rewrite (IH (acc + x)), (IH (0 + x)). lia.
Qed.

Lemma refund_sum_zip (ks : list pubkey) vs : length ks = length vs →
  refund_sum (zip ks vs) = foldl Z.add 0 vs.
Proof.
  revert ks. induction vs as [|v vs IH]; intros [|k ks] Hl; try done.
  cbn [zip zip_with refund_sum snd foldl]. injection Hl as Hl.
  rewrite (foldl_add_acc vs (0 + v)), <- (IH ks Hl). unfold zip. lia.
Qed.

Lemma length_amounts n : length (repayment_amounts n) = Z.to_nat (default 0 n).
Proof. unfold repayment_amounts. by rewrite length_map, length_seq. Qed.

Lemma amounts_lookup n i v : repayment_amounts n !! i = Some v → v = Z.of_nat i + 1.
Proof.
  unfold repayment_amounts. rewrite list_lookup_fmap. destruct (seq _ _ !! i) eqn:Hi; [|done].
  apply lookup_seq in Hi as [-> _]. cbn. intros [= <-]. lia.
Qed.

Lemma amounts_pos n : Forall (λ v, 0 ≤ v) (repayment_amounts n).
Proof. apply Forall_lookup. intros i v Hi%amounts_lookup. lia. Qed.

Lemma zip_amounts_pos (ks : list pubkey) vs : Forall (λ v, 0 ≤ v) vs → Forall (λ r, 0 ≤ snd r) (zip ks vs).
Proof. intros Hv. revert ks. induction Hv; intros [|k ks]; cbn; constructor; auto. Qed.

Lemma map_fst_zip (ks : list pubkey) (vs : list Z) : length ks = length vs → map fst (zip ks vs) = ks.
Proof. revert vs. induction ks as [|k ks IH]; intros [|v vs] Hl; cbn in *; try done. f_equal. apply IH. lia. Qed.

Lemma remaining_accounts_zip (ks : list pubkey) (vs : list Z) : length ks = length vs →
  map (λ '(k, b), {| key := Key k; is_writable := b |}) (map (λ a, (a, true)) ks) =
  as_token_accounts (zip ks vs).
Proof.
  revert vs. unfold as_token_accounts. induction ks as [|k ks IH]; intros [|v vs] Hl; cbn in *; try done.
  f_equal. apply IH. lia.
Qed.

(** ** The whole run *)
Section Repayment.
Context {L : Type} `{HK : Keccak} `{HB : BNjs} `{HW : Web3} `{HT : TokenProgram L} `{HM : !UmaMerkleTree}
  `{HR : !SolanaRuntime}.
Context (programId TOKEN_PROGRAM_ID SystemProgram_programId wallet : pubkey)
  (lookup_table_address : pubkey → Z → pubkey)
  (accountLayouts : string → option (ExecuteRelayerRefundLeafParams → bytes))
  (accountDiscriminator : string → bytes)
  (abi_encode_leaf : RelayerRefundLeafEvm → bytes)
  (clock slot : Z) (blockhash : string)
  (decode_params : bytes → option ExecuteRelayerRefundLeafParams) (compute_budget : pubkey) (included_first : bool).
Implicit Types (w : world (L := L)) (st : spoke_state L).

Local Abbreviation key_of := (key_of programId).
Local Abbreviation state_key := (state_key programId).

(** The parts of a run, from its arguments. *)
Definition amounts_of (argv : repayment_args) : list Z :=
  repayment_amounts (parseInt (ra_numberOfRelayersToRepay argv)).
Definition atas_of (argv : repayment_args) (owners : list pubkey) : list pubkey :=
  refund_atas TOKEN_PROGRAM_ID (ra_inputToken argv) owners.
Definition user_of (argv : repayment_args) : pubkey :=
  associated_token (ra_inputToken argv) wallet TOKEN_PROGRAM_ID.
Definition vault_of (argv : repayment_args) : pubkey :=
  associated_token (ra_inputToken argv) (state_key (ra_seed argv)) TOKEN_PROGRAM_ID.
Definition params_of (argv : repayment_args) (owners : list pubkey) (s : State) : ExecuteRelayerRefundLeafParams :=
  {| root_bundle_id := s_root_bundle_id s; proof := [];
     relayer_refund_leaf := repayment_leaf (s_chain_id s) (ra_inputToken argv) (atas_of argv owners) (amounts_of argv) |}.
Definition static_of (argv : repayment_args) (s : State) : accounts_map :=
  static_accounts programId TOKEN_PROGRAM_ID SystemProgram_programId wallet
    (key_of [utf8_encode "instruction_params"; wallet]) (state_key (ra_seed argv))
    (key_of [utf8_encode "root_bundle"; state_key (ra_seed argv); le_bytes 4 (s_root_bundle_id s)])
    (vault_of argv) (ra_inputToken argv) (key_of [utf8_encode "transfer_liability"; ra_inputToken argv])
    (key_of [utf8_encode "__event_authority"]).
Definition sum_of (argv : repayment_args) : Z := foldl Z.add 0 (amounts_of argv).

(** What the run needs: the addresses it derives exist, the wallet owns the
    pool, the deposit is accepted, the associated accounts of the new key pairs
    and the lookup table do not exist yet, the runtime has the memory and the
    compute units for that many refunds (so there are at most 31), the encoded
    parameters fit an account of the program and Anchor reads them back. *)
Record repayment_ready w (argv : repayment_args) (owners rest : list pubkey) (s : State) : Prop := {
  rr_pool_pdas : has_state programId (ra_seed argv) ∧ has_route programId (ra_inputToken argv) (ra_seed argv) 11155111 ∧
    has_pda programId [utf8_encode "root_bundle"; state_key (ra_seed argv); le_bytes 4 (s_root_bundle_id s)];
  rr_leaf_pdas : has_pda programId [utf8_encode "transfer_liability"; ra_inputToken argv] ∧
    has_pda programId [utf8_encode "instruction_params"; wallet] ∧ has_pda programId [utf8_encode "__event_authority"];
  rr_state : state (pool w) = Some s;
  rr_seed : s_seed s = ra_seed argv ∧ u64 (ra_seed argv);
  rr_owner : s_owner s = wallet;
  rr_chain : u64 (s_chain_id s);
  rr_bundle : 0 ≤ s_root_bundle_id s ∧ s_root_bundle_id s + 1 < 2 ^ 32 ∧
              root_bundles (pool w) !! s_root_bundle_id s = None;
  rr_deposit : is_ok (deposit_v3 programId (clock / 1000) (pool w) wallet (user_of argv) (ra_inputToken argv)
    TOKEN_PROGRAM_ID (repayment_deposit wallet (ra_inputToken argv) (amounts_of argv) clock clock)) = true;
  rr_vault : frozen (ledger (pool w)) (vault_of argv) = false;
  rr_keys : key_pairs w = owners ++ rest ∧ length owners = length (amounts_of argv);
  rr_atas : NoDup (atas_of argv owners) ∧
            Forall (λ a, token_account (ledger (pool w)) a = None ∧ pubkey_wf a) (atas_of argv owners);
  rr_token : pubkey_wf (ra_inputToken argv);
  rr_table : tables w !! lookup_table_address wallet slot = None;
  rr_limits : refunds_fit (length owners) 0 1 = true ∧ compute_fits 500000 (length owners) 0 = true;
  rr_liability : default 0 (transfer_liability (pool w) !! ra_inputToken argv) < 2 ^ 64;
  rr_layout : ∃ layout, accountLayouts "executeRelayerRefundLeafParams"%string = Some layout ∧
    let data := accountDiscriminator "executeRelayerRefundLeafParams"%string ++ layout (params_of argv owners s) in
    Z.of_nat (length data) ≤ MAX_PERMITTED_DATA_INCREASE ∧ decode_params data = Some (params_of argv owners s)
}.

Lemma ready_refunds w argv owners rest s : repayment_ready w argv owners rest s → (length owners ≤ 31)%nat.
Proof.
  intros Hr. destruct (decide (length owners ≤ 31)%nat) as [|Hn]; [done|].
  pose proof (proj1 (rr_limits _ _ _ _ _ Hr)) as Hf. rewrite refunds_fit_limit in Hf by lia. done.
Qed.

(** After the deposit and the creation of the accounts, the refunds are
    payable from the vault. *)
Lemma refunds_payable (l0 l1 l2 : L) user au mint atas amounts :
  length atas = length amounts → Forall (λ v, 0 ≤ v) amounts →
  token_account l0 (associated_token mint au TOKEN_PROGRAM_ID) =
    Some {| tk_mint := mint; tk_authority := au; tk_program := TOKEN_PROGRAM_ID |} →
  frozen l0 (associated_token mint au TOKEN_PROGRAM_ID) = false →
  token_transfer l0 user (associated_token mint au TOKEN_PROGRAM_ID) mint wallet (foldl Z.add 0 amounts) = Ok l1 →
  Forall (λ a, token_account l0 a = None) atas →
  Forall (fresh_account TOKEN_PROGRAM_ID l2 mint) atas →
  (∀ k, k ∉ atas → same_token_account l1 l2 k) →
  payable l2 (associated_token mint au TOKEN_PROGRAM_ID) au mint TOKEN_PROGRAM_ID (zip atas amounts).
Proof.
  set (vault := associated_token mint au TOKEN_PROGRAM_ID).
  intros Hlen Hpos Hv Hfr Ht Hnone Hfresh Hframe.
  destruct (token_transfer_spec _ _ _ _ _ _ _ Ht) as (Hle & Hinfo & Hbal).
  pose proof (zip_amounts_pos atas amounts Hpos) as Hpos'.
  pose proof (refund_sum_zip atas amounts Hlen) as Hsum.
  pose proof (refund_sum_nonneg _ Hpos') as Hnn.
  assert (Hva : vault ∉ atas).
  { intros Hin. apply (proj1 (Forall_forall _ _) Hnone) in Hin. congruence. }
  destruct (Hframe vault Hva) as (Hv2 & Hf2 & Hb2).
  split; [by rewrite Hv2, (proj1 (Hinfo vault))|by rewrite Hf2, (proj1 (proj2 (Hinfo vault)))| |done|].
  - rewrite Hb2, Hbal, Hsum. pose proof (balance_u64 l0 vault).
    repeat case_decide; try done; [|lia].
    match goal with Hvu : vault = user |- _ => rewrite Hvu; lia end.
  - apply Forall_forall. intros [k v] Hin.
    assert (Hk : k ∈ atas).
    { rewrite <- (map_fst_zip atas amounts Hlen). apply list_elem_of_fmap. by exists (k, v). }
    destruct (proj1 (Forall_forall _ _) Hfresh k Hk) as (Ha & Hb & Hc).
    cbn [fst]. split_and!; [by intros ->|done|done|]. rewrite Hc.
    pose proof (total_le_sum mint k _ Hpos'). pose proof (balance_u64 l0 user). lia.
Qed.

(** The account objects of the script meet the constraints of the program. *)
Lemma relay_accounts_checked (st_key bundle : pubkey) :
  let accounts := [("state", st_key); ("rootBundle", bundle); ("signer", wallet); ("payer", wallet);
    ("systemProgram", SystemProgram_programId)]%string in
  check_accounts accounts accounts = Ok tt.
Proof. accounts_found. Qed.

Lemma static_accounts_checked (ip st_key bundle vault mint tl ea : pubkey) :
  let accounts := static_accounts programId TOKEN_PROGRAM_ID SystemProgram_programId wallet ip st_key bundle
                    vault mint tl ea in
  js_lookup accounts "mint"%string = Some mint ∧
  js_lookup accounts "tokenProgram"%string = Some TOKEN_PROGRAM_ID ∧
  check_accounts accounts
    [("instructionParams", ip); ("state", st_key); ("rootBundle", bundle); ("signer", wallet);
     ("vault", vault); ("transferLiability", tl); ("systemProgram", SystemProgram_programId);
     ("eventAuthority", ea); ("program", programId)]%string = Ok tt.
Proof. split_and!; [vm_compute; reflexivity..|accounts_found]. Qed.

Lemma close_accounts_checked (params_key : pubkey) :
  let accounts := [("signer", wallet); ("instructionParams", params_key)]%string in
  check_accounts accounts accounts = Ok tt.
Proof. accounts_found. Qed.

Lemma rpc_deposit_ok w s p inputToken pool' :
  has_state programId (s_seed s) → has_route programId inputToken (s_seed s) (dp_destination_chain_id p) →
  state (pool w) = Some s →
  deposit_v3 programId (clock / 1000) (pool w) wallet (associated_token inputToken wallet TOKEN_PROGRAM_ID)
    inputToken TOKEN_PROGRAM_ID p = Ok pool' →
  dp_input_token p = inputToken →
  rpc_deposit programId wallet clock w p
    (deposit_accounts (state_key (s_seed s))
       (key_of [utf8_encode "route"; inputToken; state_key (s_seed s); le_bytes 8 (dp_destination_chain_id p)])
       wallet (associated_token inputToken wallet TOKEN_PROGRAM_ID)
       (associated_token inputToken (state_key (s_seed s)) TOKEN_PROGRAM_ID) TOKEN_PROGRAM_ID inputToken)
    = Ok (with_pool w pool').
Proof.
  intros Hst Hroute Hs Hd <-. unfold rpc_deposit. rewrite run_deposit_accounts by done. by rewrite Hd, bind_ok.
Qed.

Lemma relay_root_bundle_ok st s r r' :
  state st = Some s → s_owner s = wallet → s_root_bundle_id s + 1 < 2 ^ 32 →
  root_bundles st !! s_root_bundle_id s = None →
  relay_root_bundle programId st wallet r r' =
    Ok (with_state (emit (with_root_bundles st (<[s_root_bundle_id s :=
          {| relayer_refund_root := r; slow_relay_root := r'; claimed_bitmap := [] |}]> (root_bundles st)))
          (RelayedRootBundle (s_root_bundle_id s) r r')) (set_root_bundle_id s (s_root_bundle_id s + 1))).
Proof.
  intros Hs Ho Hlt Hn. unfold relay_root_bundle, the_state, only_owner, is_local_or_remote_owner. rewrite Hs.
  cbn [from_option_err result_bind]. rewrite (bool_decide_eq_true_2 (wallet = s_owner s)) by done.
  cbn [result_bind require]. rewrite bool_decide_eq_true_2 by done. cbn [result_bind require].
  unfold checked_add. rewrite (proj2 (Z.ltb_lt _ _) Hlt). done.
Qed.

Lemma rpc_relay_ok w s r r' pool' :
  has_state programId (s_seed s) →
  has_pda programId [utf8_encode "root_bundle"; state_key (s_seed s); le_bytes 4 (s_root_bundle_id s)] →
  state (pool w) = Some s → relay_root_bundle programId (pool w) wallet r r' = Ok pool' →
  rpc_relay programId SystemProgram_programId wallet w r r'
    [("state", state_key (s_seed s));
     ("rootBundle", key_of [utf8_encode "root_bundle"; state_key (s_seed s); le_bytes 4 (s_root_bundle_id s)]);
     ("signer", wallet); ("payer", wallet); ("systemProgram", SystemProgram_programId)]%string
  = Ok (with_pool w pool').
Proof.
  intros Hst Hb Hs Hr. unfold rpc_relay, the_state.
  rewrite Hs, from_some, bind_ok, state_pda_ok, bind_ok, pda_ok, bind_ok by done.
  by rewrite relay_accounts_checked, bind_ok, Hr, bind_ok.
Qed.

Lemma rpc_execute_ok w s data params inputToken units remaining pool' st_key bundle ip tl ea :
  state (pool w) = Some s → params_account w = Some data → decode_params data = Some params →
  state_pda programId (s_seed s) = Ok st_key →
  pda programId "root_bundle" [st_key; le_bytes 4 (root_bundle_id params)] = Ok bundle →
  pda programId "instruction_params" [wallet] = Ok ip →
  pda programId "transfer_liability" [inputToken] = Ok tl → pda programId "__event_authority" [] = Ok ea →
  execute_relayer_refund_leaf programId (pool w) wallet inputToken TOKEN_PROGRAM_ID (Some params)
    (map (λ '(k, b), {| key := Key k; is_writable := b |}) remaining) = Ok pool' →
  compute_fits units (length (refund_amounts (relayer_refund_leaf params))) (length (proof params)) = true →
  rpc_execute programId SystemProgram_programId wallet decode_params w units
    (static_accounts programId TOKEN_PROGRAM_ID SystemProgram_programId wallet ip st_key bundle
      (associated_token inputToken st_key TOKEN_PROGRAM_ID) inputToken tl ea) remaining
  = Ok (with_pool w pool').
Proof.
  intros Hs Hd Hp Hst Hb Hip Htl Hea Hx Hcu.
  destruct (static_accounts_checked ip st_key bundle (associated_token inputToken st_key TOKEN_PROGRAM_ID)
    inputToken tl ea) as (Hm & Ht & Hc).
  unfold rpc_execute, the_state.
  rewrite Hs, from_some, bind_ok, Hst, bind_ok, Hd, from_some, bind_ok, Hp, from_some, bind_ok, Hb, bind_ok,
    Hip, bind_ok, Hm, from_some, bind_ok, Ht, from_some, bind_ok, Htl, bind_ok, Hea, bind_ok, Hc, bind_ok.
  by rewrite Hx, bind_ok, Hcu.
Qed.

Lemma rpc_close_ok w : has_pda programId [utf8_encode "instruction_params"; wallet] →
  rpc_close_params programId wallet w
    [("signer", wallet); ("instructionParams", key_of [utf8_encode "instruction_params"; wallet])]%string
  = Ok (with_params w None).
Proof.
  intros Hp. unfold rpc_close_params. by rewrite pda_ok, bind_ok, close_accounts_checked, bind_ok by done.
Qed.

Abbreviation serve := (services (L := L) programId TOKEN_PROGRAM_ID SystemProgram_programId wallet clock slot blockhash
  decode_params compute_budget included_first).
Abbreviation script := (testBundleLogic (L := L) programId TOKEN_PROGRAM_ID SystemProgram_programId wallet
  lookup_table_address accountLayouts accountDiscriminator abi_encode_leaf).

Lemma repayment_leaf_wf chain inputToken atas (l : L) user amounts :
  u64 chain → pubkey_wf inputToken → Forall pubkey_wf atas → Forall (λ v, 0 ≤ v) amounts →
  length atas = length amounts → foldl Z.add 0 amounts ≤ balance l user →
  refund_leaf_wf (repayment_leaf chain inputToken atas amounts).
Proof.
  intros Hc Ht Ha Hpos Hlen Hsum. pose proof (balance_u64 l user).
  split_and!; cbn; try done; try (unfold u64, u32; lia).
  apply Forall_forall. intros v Hv. unfold u64. split; [by apply (proj1 (Forall_forall _ _) Hpos)|].
  apply list_elem_of_lookup in Hv as [i Hi]. destruct (lookup_lt_is_Some_2 atas i) as [k Hk].
  { rewrite Hlen. by eapply lookup_lt_Some. }
  pose proof (zip_amounts_pos atas amounts Hpos) as Hz. pose proof (refund_sum_zip atas amounts Hlen) as Hs.
  assert (v ≤ refund_sum (zip atas amounts)); [|lia].
  assert (Hin : (k, v) ∈ zip atas amounts).
  { apply list_elem_of_lookup. exists i. apply lookup_zip_with_Some. by eexists _, _. }
  clear -Hin Hz. induction Hz as [|r rs Hr Hrs IH]; [by apply not_elem_of_nil in Hin|].
  cbn. pose proof (refund_sum_nonneg _ Hrs).
  apply elem_of_cons in Hin as [<-|Hin]; [cbn in *; lia|]. specialize (IH Hin). lia.
Qed.

(** The tree of one Solana leaf: its root is accepted with the empty proof. *)
Lemma single_leaf_tree leaf : refund_leaf_wf leaf →
  let hashFn := relayerRefundHashFn abi_encode_leaf in
  ∃ root, getRoot [SolanaLeaf leaf] hashFn = Ok root ∧ getProof [SolanaLeaf leaf] hashFn (SolanaLeaf leaf) = Ok [] ∧
    verify_merkle_proof root (RelayerRefundLeaf_to_keccak_hash leaf) [] = Ok tt.
Proof.
  intros Hwf. cbv zeta.
  assert (Hh : hashes_to (relayerRefundHashFn abi_encode_leaf) (SolanaLeaf leaf) (RelayerRefundLeaf_to_keccak_hash leaf)).
  { split; [|apply keccak_length]. cbn. unfold calculateRelayerRefundLeafHashUint8Array.
    by rewrite refund_leaf_content_wf. }
  destruct (getProof_verifies [SolanaLeaf leaf] (relayerRefundHashFn abi_encode_leaf) (SolanaLeaf leaf)
    (RelayerRefundLeaf_to_keccak_hash leaf)) as (root & pf & Hr & Hp & _ & Hv).
  { constructor; [by eexists|constructor]. }
  { by left. }
  { done. }
  pose proof (getProof_single _ _ _ Hp) as ->.
  exists root. split_and!; [done|done|]. unfold verify_merkle_proof. by rewrite decide_True.
Qed.

(** The whole table of a non-empty address list. *)
Lemma extend_all_run w k addresses :
  addresses ≠ [] → (length addresses ≤ 256)%nat →
  run_state serve (with_table w k []) (extendLookupTable k addresses) = (Ok tt, with_table w k addresses).
Proof.
  intros Hne Hlen. unfold extendLookupTable.
  pose proof (slices_concat maxExtendedAccounts addresses 0 ltac:(unfold maxExtendedAccounts; lia)) as Hcat.
  rewrite drop_0 in Hcat.
  rewrite (extend_run programId TOKEN_PROGRAM_ID SystemProgram_programId wallet clock slot blockhash decode_params
    compute_budget included_first (with_table w k []) k [] (slices maxExtendedAccounts addresses 0)).
  - rewrite Hcat. destruct (slices maxExtendedAccounts addresses 0) as [|c cs] eqn:Hsl; [by destruct addresses|].
    unfold with_table. cbn. by rewrite insert_insert_eq.
  - cbn. by rewrite lookup_insert_eq.
  - apply Forall_forall. intros [j c] Hin. cbn.
    apply slices_from_small in Hin; [|unfold maxExtendedAccounts; lia]. unfold maxExtendedAccounts in Hin. lia.
  - cbn. by rewrite Hcat.
Qed.

(** *** The versioned transaction *)
Lemma remove_dups_length_le (l l' : list pubkey) : l ⊆ l' → (length (remove_dups l) ≤ length l')%nat.
Proof.
  intros Hl. apply submseteq_length, NoDup_submseteq; [apply NoDup_remove_dups|].
  intros x Hx. apply (proj1 (elem_of_remove_dups _ _)) in Hx. exact (Hl x Hx).
Qed.

Lemma compact_u16_small n : (n < 128)%nat → compact_u16 n = 1.
Proof. intros Hn. unfold compact_u16. by rewrite (proj2 (Z.ltb_lt _ _)) by lia. Qed.

(** With all keys in the table, only the payer and the two programs are
    static. *)
Lemma static_keys_few tx : account_keys tx ⊆ tx_addresses tx →
  (length (static_keys programId wallet compute_budget tx) ≤ 3)%nat.
Proof.
  intros Hin. change 3%nat with (length [wallet; compute_budget; programId]). apply remove_dups_length_le.
  intros k Hk. apply elem_of_cons in Hk as [->|Hk]; [by left|].
  apply elem_of_cons in Hk as [->|Hk]; [by right; left|].
  apply elem_of_cons in Hk as [->|Hk]; [by do 2 right; left|].
  apply list_elem_of_filter in Hk as [Hf Hk]. unfold from_table in Hf. apply bool_decide_eq_false in Hf.
  destruct (decide (k = wallet)) as [->|]; [by left|].
  destruct (decide (k = programId)) as [->|]; [by do 2 right; left|].
  destruct Hf. split_and!; [exact (Hin k Hk)|done..].
Qed.

Lemma loaded_keys_few tx : (length (loaded_keys programId wallet tx) ≤ length (account_keys tx))%nat.
Proof. apply remove_dups_length_le. intros k Hk. by apply list_elem_of_filter in Hk as [_ Hk]. Qed.

Lemma check_transaction_ok w tx :
  tables w !! tx_table tx = Some (tx_addresses tx) → account_keys tx ⊆ tx_addresses tx →
  (length (account_keys tx) ≤ 42)%nat → tx_blockhash tx = blockhash →
  check_transaction programId wallet blockhash compute_budget w tx = Ok tt.
Proof.
  intros Ht Hin Hlen Hh. pose proof (static_keys_few tx Hin) as Hst. pose proof (loaded_keys_few tx) as Hld.
  unfold check_transaction. rewrite Ht, from_some, bind_ok, bool_decide_eq_true_2 by done.
  cbn [require result_bind]. rewrite (proj2 (Z.leb_le _ _)).
  2: { unfold transaction_size, PACKET_DATA_SIZE. rewrite !compact_u16_small by lia. lia. }
  cbn [require result_bind]. rewrite (proj2 (Nat.leb_le _ _)) by lia. cbn [require result_bind].
  by rewrite bool_decide_eq_true_2.
Qed.

(** *** Up to the execution *)

Definition table_key : pubkey := lookup_table_address wallet slot.

(** The world before the parameters are loaded. *)
Record prepared w w3 (argv : repayment_args) (owners : list pubkey) (s : State) : Prop := {
  pr_state : ∃ s3, state (pool w3) = Some s3 ∧ s_seed s3 = ra_seed argv ∧ s_chain_id s3 = s_chain_id s;
  pr_bundle : ∃ root, root_bundles (pool w3) !! s_root_bundle_id s =
      Some {| relayer_refund_root := root; slow_relay_root := root; claimed_bitmap := [] |} ∧
    verify_merkle_proof root (RelayerRefundLeaf_to_keccak_hash (relayer_refund_leaf (params_of argv owners s))) [] = Ok tt;
  pr_mint : mint_program (ledger (pool w3)) (ra_inputToken argv) = Some TOKEN_PROGRAM_ID;
  pr_payable : payable (ledger (pool w3)) (vault_of argv) (state_key (ra_seed argv)) (ra_inputToken argv)
    TOKEN_PROGRAM_ID (zip (atas_of argv owners) (amounts_of argv));
  pr_fresh : Forall (fresh_account TOKEN_PROGRAM_ID (ledger (pool w3)) (ra_inputToken argv)) (atas_of argv owners);
  pr_balances : ∀ k, k ∉ atas_of argv owners → balance (ledger (pool w3)) k = balance (ledger (pool w)) k
    - (if decide (k = user_of argv) then sum_of argv else 0) + (if decide (k = vault_of argv) then sum_of argv else 0);
  pr_vault : vault_of argv ∉ atas_of argv owners;
  pr_liability : transfer_liability (pool w3) = transfer_liability (pool w);
  pr_executed : executed_leaves (events (pool w3)) = executed_leaves (events (pool w));
  pr_tables : tables w3 !! table_key = Some (map snd (static_of argv s) ++ atas_of argv owners)
}.

Lemma write_u32 v : 0 ≤ v < 2 ^ 32 → writeUInt32LE (buffer_alloc 4) v 0 = Ok (le_bytes 4 v).
Proof.
  intros Hv. unfold writeUInt32LE, write_uint. rewrite (proj2 (fits_spec 4 v)) by exact Hv.
  unfold splice. cbn [buffer_alloc replicate length app take drop Nat.leb andb Nat.add].
  by rewrite length_le_bytes.
Qed.

Lemma fetch_ok w s : has_state programId (s_seed s) → state (pool w) = Some s →
  serve _ w (FetchState (state_key (s_seed s))) = (Ok s, w).
Proof.
  intros Hst Hs. cbn [services]. unfold fetch_state. rewrite Hs. cbn [from_option_err result_bind].
  rewrite state_pda_ok by done. cbn [result_bind]. by rewrite bool_decide_eq_true_2.
Qed.

(** The deposit and the new accounts, and what the ledger is after them. *)
Record funded w (pool1 : spoke_state L) (l2 : L) (argv : repayment_args) (owners : list pubkey) (s : State) : Prop := {
  fu_pool : ∃ n p l1, pool1 = emit (with_state (with_ledger (pool w) l1) (set_number_of_deposits s n)) (V3FundsDeposited n p);
  fu_mint : mint_program l2 (ra_inputToken argv) = Some TOKEN_PROGRAM_ID;
  fu_payable : payable l2 (vault_of argv) (state_key (ra_seed argv)) (ra_inputToken argv)
    TOKEN_PROGRAM_ID (zip (atas_of argv owners) (amounts_of argv));
  fu_fresh : Forall (fresh_account TOKEN_PROGRAM_ID l2 (ra_inputToken argv)) (atas_of argv owners);
  fu_balances : ∀ k, k ∉ atas_of argv owners → balance l2 k = balance (ledger (pool w)) k
    - (if decide (k = user_of argv) then sum_of argv else 0) + (if decide (k = vault_of argv) then sum_of argv else 0);
  fu_vault : vault_of argv ∉ atas_of argv owners;
  fu_sum : sum_of argv ≤ balance (ledger (pool w)) (user_of argv)
}.

Lemma ready_funded w argv owners rest s pool1 : repayment_ready w argv owners rest s →
  deposit_v3 programId (clock / 1000) (pool w) wallet (user_of argv) (ra_inputToken argv)
    TOKEN_PROGRAM_ID (repayment_deposit wallet (ra_inputToken argv) (amounts_of argv) clock clock) = Ok pool1 →
  ∃ l2, run_state serve (with_pool w pool1)
      (for_collect (amounts_of argv) (λ _, createRefundAccount (ra_inputToken argv))) =
      (Ok (atas_of argv owners), with_keys (with_pool w (with_ledger pool1 l2)) rest) ∧
    funded w pool1 l2 argv owners s.
Proof.
  intros Hr Hd.
  destruct (deposit_v3_ok _ _ _ _ _ _ _ _ _ Hd) as (s' & au & l1 & nd & Hs' & Hau & Hmint & Hvault & Htr & Hp1).
  rewrite (rr_state _ _ _ _ _ Hr) in Hs'. injection Hs' as <-.
  rewrite (proj1 (rr_seed _ _ _ _ _ Hr)), state_pda_ok in Hau by apply (rr_pool_pdas _ _ _ _ _ Hr).
  injection Hau as <-. fold (vault_of argv) in Hvault, Htr.
  destruct (rr_keys _ _ _ _ _ Hr) as [Hkeys Hlen]. destruct (rr_atas _ _ _ _ _ Hr) as [Hnd Hatas].
  destruct (token_transfer_spec _ _ _ _ _ _ _ Htr) as (Hle & Hinfo & Hbal1).
  cbn [dp_input_amount repayment_deposit] in Htr, Hle, Hbal1. fold (sum_of argv) in Htr, Hle, Hbal1.
  assert (Hlen' : length (atas_of argv owners) = length (amounts_of argv))
    by (unfold atas_of, refund_atas; by rewrite length_map).
  destruct (create_accounts_run programId TOKEN_PROGRAM_ID SystemProgram_programId wallet clock slot blockhash
    decode_params compute_budget included_first (amounts_of argv) (with_pool w pool1) (ra_inputToken argv) owners rest
    Hlen Hkeys) as (l2 & Hcreate & Hm2 & Hfresh & Hframe).
  { cbn. rewrite Hp1. cbn. by rewrite (proj2 (proj2 (Hinfo (ra_inputToken argv)))). }
  { done. }
  { eapply Forall_impl; [exact Hatas|]. intros a [Ha _]. rewrite Hp1. cbn. by rewrite (proj1 (Hinfo a)). }
  fold (atas_of argv owners) in Hcreate, Hfresh, Hframe.
  assert (Hva : vault_of argv ∉ atas_of argv owners).
  { intros Hin. apply (proj1 (Forall_forall _ _) Hatas) in Hin as [Hin _]. congruence. }
  exists l2. split; [exact Hcreate|].
  assert (Hframe1 : ∀ k, k ∉ atas_of argv owners → same_token_account l1 l2 k)
    by (intros k Hk; specialize (Hframe k Hk); by rewrite Hp1 in Hframe).
  split; [by do 3 eexists| | |done| |done|exact Hle].
  - rewrite Hm2. cbn. rewrite Hp1. cbn. by rewrite (proj2 (proj2 (Hinfo (ra_inputToken argv)))).
  - apply (refunds_payable (ledger (pool w)) l1 l2 (user_of argv)); try done.
    + apply amounts_pos.
    + apply (rr_vault _ _ _ _ _ Hr).
    + eapply Forall_impl; [exact Hatas|]. by intros a [? _].
  - intros k Hk. by rewrite (proj2 (proj2 (Hframe1 k Hk))), Hbal1.
Qed.

Lemma leaf_wf w argv owners rest s pool1 l2 : repayment_ready w argv owners rest s →
  funded w pool1 l2 argv owners s → refund_leaf_wf (relayer_refund_leaf (params_of argv owners s)).
Proof.
  intros Hr Hf. apply (repayment_leaf_wf _ _ _ (ledger (pool w)) (user_of argv)).
  - apply (rr_chain _ _ _ _ _ Hr).
  - apply (rr_token _ _ _ _ _ Hr).
  - eapply Forall_impl; [apply (rr_atas _ _ _ _ _ Hr)|]. by intros a [_ ?].
  - apply amounts_pos.
  - unfold atas_of, refund_atas. rewrite length_map. apply (rr_keys _ _ _ _ _ Hr).
  - apply (fu_sum _ _ _ _ _ _ Hf).
Qed.

Abbreviation report := (executeAndReport wallet accountLayouts accountDiscriminator).
Abbreviation relay := (relayAndExecute programId TOKEN_PROGRAM_ID SystemProgram_programId wallet lookup_table_address
  accountLayouts accountDiscriminator abi_encode_leaf).

(** The world after the deposit and the creation of the accounts. *)
Definition funded_world w (pool1 : spoke_state L) (l2 : L) (rest : list pubkey) : world :=
  with_keys (with_pool w (with_ledger pool1 l2)) rest.

Lemma fund_run w argv owners rest s : repayment_ready w argv owners rest s →
  ∃ pool1 l2, funded w pool1 l2 argv owners s ∧
    run_state serve w (script argv) =
    run_state serve (funded_world w pool1 l2 rest)
      (relay (ra_inputToken argv) (state_key (ra_seed argv)) (vault_of argv)
        (relayer_refund_leaf (params_of argv owners s)) (atas_of argv owners)).
Proof.
  intros Hr. destruct (rr_pool_pdas _ _ _ _ _ Hr) as (Hst & Hroute & _).
  destruct (rr_seed _ _ _ _ _ Hr) as [Hseed Hu]. pose proof (rr_state _ _ _ _ _ Hr) as Hs.
  pose proof (rr_deposit _ _ _ _ _ Hr) as Hdep.
  destruct (deposit_v3 _ _ _ _ _ _ _ _) as [pool1|] eqn:Hd; [clear Hdep|done].
  destruct (ready_funded _ _ _ _ _ _ Hr Hd) as (l2 & Hcreate & Hf).
  destruct (fu_pool _ _ _ _ _ _ Hf) as (nd & dp & l1 & Hp1).
  exists pool1, l2. split; [exact Hf|]. fold (funded_world w pool1 l2 rest) in Hcreate.
  unfold testBundleLogic, vault_of. fold (amounts_of argv).
  rewrite run_state_bind, run_state_lift, toArrayLike_le_fits by exact Hu.
  rewrite run_state_bind, run_state_lift, find_pda_ok by exact Hst. fold (state_key (ra_seed argv)).
  rewrite run_state_bind, run_state_lift, toArrayLike_le_fits by done.
  rewrite run_state_bind, run_state_lift, find_pda_ok by exact Hroute.
  do 3 (rewrite run_state_bind, run_state_call; cbn [services]).
  rewrite <- Hseed in *.
  pose proof (rpc_deposit_ok w s (repayment_deposit wallet (ra_inputToken argv) (amounts_of argv) clock clock)
    (ra_inputToken argv) pool1 Hst Hroute Hs Hd eq_refl) as Hrpc.
  cbn [dp_destination_chain_id repayment_deposit] in Hrpc. rewrite Hrpc. cbn [done_in result_bind answer].
  rewrite run_state_bind, Hcreate.
  pose proof (fetch_ok (funded_world w pool1 l2 rest) (set_number_of_deposits s nd) Hst
    ltac:(cbn; by rewrite Hp1)) as Hfetch.
  cbn [s_seed set_number_of_deposits] in Hfetch.
  by rewrite run_state_bind, run_state_call, Hfetch.
Qed.

(** The root bundle and the lookup table: what is left to run. *)
Lemma relay_run w argv owners rest s pool1 l2 : repayment_ready w argv owners rest s →
  funded w pool1 l2 argv owners s →
  ∃ w3, prepared w w3 argv owners s ∧
    run_state serve (funded_world w pool1 l2 rest)
      (relay (ra_inputToken argv) (state_key (ra_seed argv)) (vault_of argv)
        (relayer_refund_leaf (params_of argv owners s)) (atas_of argv owners)) =
    run_state serve w3 (report table_key (static_of argv s) (map (λ account, (account, true)) (atas_of argv owners))
      (key_of [utf8_encode "instruction_params"; wallet]) (params_of argv owners s) (atas_of argv owners)).
Proof.
  intros Hr Hf. destruct (rr_pool_pdas _ _ _ _ _ Hr) as (Hst & _ & Hbundle).
  destruct (rr_leaf_pdas _ _ _ _ _ Hr) as (Htl & Hip & Hea).
  destruct (rr_seed _ _ _ _ _ Hr) as [Hseed Hu]. destruct (rr_bundle _ _ _ _ _ Hr) as (Hid0 & Hid & Hnone).
  destruct (fu_pool _ _ _ _ _ _ Hf) as (nd & dp & l1 & Hp1).
  pose proof (leaf_wf _ _ _ _ _ _ _ Hr Hf) as Hwf.
  destruct (single_leaf_tree _ Hwf) as (root & Hroot & Hproof & Hverify).
  set (w2 := funded_world w pool1 l2 rest). set (s2 := set_number_of_deposits s nd).
  assert (Hs2 : state (pool w2) = Some s2) by (unfold w2; cbn; by rewrite Hp1).
  assert (Hseed2 : s_seed s2 = ra_seed argv) by done.
  pose proof (fetch_ok w2 s2) as Hfetch. rewrite Hseed2 in Hfetch. specialize (Hfetch Hst Hs2).
  assert (Hrel := relay_root_bundle_ok (pool w2) s2 root root Hs2 (rr_owner _ _ _ _ _ Hr) Hid
    ltac:(unfold w2; cbn; by rewrite Hp1)).
  set (pool3 := with_state _ _) in Hrel.
  pose proof (rpc_relay_ok w2 s2 root root pool3) as Hrpc. rewrite Hseed2 in Hrpc.
  specialize (Hrpc Hst Hbundle Hs2 Hrel).
  unfold relayAndExecute.
  rewrite run_state_bind, run_state_lift, Hroot. rewrite run_state_bind, run_state_call, Hfetch.
  rewrite run_state_bind, run_state_lift, write_u32 by (cbn; lia).
  rewrite run_state_bind, run_state_lift, find_pda_ok by exact Hbundle.
  rewrite run_state_bind, run_state_call. cbn [services].
  change (s_root_bundle_id s2) with (s_root_bundle_id s) in Hrpc |- *. rewrite Hrpc. cbn [done_in result_bind answer].
  rewrite run_state_bind, run_state_lift, Hproof.
  do 3 (rewrite run_state_bind, run_state_lift, find_pda_ok by done).
  unfold createLookupTable. rewrite !run_state_bind, run_state_call. cbn [services]. fold table_key.
  rewrite run_state_bind, run_state_call. cbn [services]. unfold create_table.
  rewrite bool_decide_eq_true_2 by apply (rr_table _ _ _ _ _ Hr). cbn [require result_bind done_in answer run_state].
  fold (static_of argv s). rewrite run_state_bind, extend_all_run.
  2: { cbn. discriminate. }
  2: { pose proof (ready_refunds _ _ _ _ _ Hr). rewrite length_app. unfold atas_of, refund_atas.
       rewrite !length_map. change (length (static_of argv s)) with 11%nat. lia. }
  eexists. split; [|reflexivity]. pose proof (fu_mint _ _ _ _ _ _ Hf). pose proof (fu_payable _ _ _ _ _ _ Hf).
  pose proof (fu_fresh _ _ _ _ _ _ Hf). pose proof (fu_balances _ _ _ _ _ _ Hf). pose proof (fu_vault _ _ _ _ _ _ Hf).
  split; try done.
  - by eexists.
  - exists root. split; [cbn; by rewrite lookup_insert_eq|done].
  - cbn. by rewrite Hp1.
  - cbn. rewrite Hp1. cbn. by rewrite !executed_leaves_snoc, !app_nil_r.
  - cbn. by rewrite lookup_insert_eq.
Qed.

(** *** The execution and after *)

Definition execute_tx (argv : repayment_args) (owners : list pubkey) (s : State) : v0_transaction :=
  {| tx_units := 500000; tx_accounts := static_of argv s;
     tx_remaining := map (λ account, (account, true)) (atas_of argv owners); tx_table := table_key;
     tx_addresses := map snd (static_of argv s) ++ atas_of argv owners; tx_blockhash := blockhash |}.

Lemma execute_tx_checked w argv owners rest s w4 : repayment_ready w argv owners rest s →
  tables w4 !! table_key = Some (map snd (static_of argv s) ++ atas_of argv owners) →
  check_transaction programId wallet blockhash compute_budget w4 (execute_tx argv owners s) = Ok tt.
Proof.
  intros Hr Ht. pose proof (ready_refunds _ _ _ _ _ Hr) as Hn.
  assert (Hkeys : account_keys (execute_tx argv owners s) = tx_addresses (execute_tx argv owners s)).
  { unfold account_keys. cbn [execute_tx tx_accounts tx_remaining tx_addresses]. f_equal.
    rewrite map_map. apply map_id. }
  apply check_transaction_ok; [exact Ht|by rewrite Hkeys| |done].
  rewrite Hkeys. cbn [execute_tx tx_addresses]. rewrite length_app. unfold atas_of, refund_atas.
  rewrite !length_map. change (length (static_of argv s)) with 11%nat. lia.
Qed.

(** What executing the leaf does to the pool. *)
Record leaf_paid (st st' : spoke_state L) (argv : repayment_args) (owners : list pubkey) (s : State) : Prop := {
  lp_executed : executed_leaves (events st') =
    executed_leaves (events st) ++ [(s_root_bundle_id s, relayer_refund_leaf (params_of argv owners s))];
  lp_paid : ∀ i a, atas_of argv owners !! i = Some a → balance (ledger st') a = Z.of_nat i + 1;
  lp_others : ∀ k, k ∉ atas_of argv owners → balance (ledger st') k =
    balance (ledger st) k - (if decide (k = vault_of argv) then sum_of argv else 0)
}.

Lemma execute_ready w argv owners rest s w3 data : repayment_ready w argv owners rest s →
  prepared w w3 argv owners s → decode_params data = Some (params_of argv owners s) →
  ∃ pool5, leaf_paid (pool w3) pool5 argv owners s ∧
    ∀ w4, pool w4 = pool w3 → tables w4 = tables w3 → params_account w4 = Some data →
      run_transaction programId SystemProgram_programId wallet blockhash decode_params compute_budget w4
        (execute_tx argv owners s) = Ok (with_pool w4 pool5).
Proof.
  intros Hr Hp Hdec. destruct (rr_pool_pdas _ _ _ _ _ Hr) as (Hst & _ & Hbundle).
  destruct (rr_leaf_pdas _ _ _ _ _ Hr) as (Htl & Hip & Hea).
  destruct (pr_state _ _ _ _ _ Hp) as (s3 & Hs3 & Hseed & Hchain).
  destruct (pr_bundle _ _ _ _ _ Hp) as (root & Hroot & Hverify).
  destruct (rr_limits _ _ _ _ _ Hr) as [Hfit Hcu]. destruct (rr_keys _ _ _ _ _ Hr) as [_ Hlen].
  assert (Hau : state_pda programId (s_seed s3) = Ok (state_key (ra_seed argv)))
    by (rewrite Hseed; by apply state_pda_ok).
  assert (Hlen' : length (atas_of argv owners) = length (amounts_of argv))
    by (unfold atas_of, refund_atas; by rewrite length_map).
  destruct (execute_leaf_progress programId (pool w3) wallet (ra_inputToken argv) TOKEN_PROGRAM_ID
    (params_of argv owners s) (state_key (ra_seed argv)) s3) as (pool5 & Hx & _ & _ & Hex & _ & _ & Hbal); try done.
  { split; [|apply (pr_mint _ _ _ _ _ Hp)|done|exact Hlen'|].
    - exists s3. do 2 eexists. split_and!; try done.
      + unfold leaf_fits. cbn. by rewrite <- Hlen.
      + exact (pr_payable _ _ _ _ _ Hp).
    - rewrite (pr_liability _ _ _ _ _ Hp). cbn. pose proof (rr_liability _ _ _ _ _ Hr). lia. }
  exists pool5. cbn [relayer_refund_leaf params_of refund_accounts refund_amounts repayment_leaf] in Hx, Hbal.
  rewrite <- remaining_accounts_zip in Hx by exact Hlen'.
  assert (Hrefunds : refunds_of (relayer_refund_leaf (params_of argv owners s)) =
    refund_payouts (ra_inputToken argv) (zip (atas_of argv owners) (amounts_of argv))) by apply refund_payouts_zip.
  cbn [relayer_refund_leaf params_of] in Hrefunds. rewrite Hrefunds in Hbal.
  split; [split; [exact Hex|..]|].
  - intros i a Hi. rewrite Hbal, decide_False.
    2: { intros ->. by apply (pr_vault _ _ _ _ _ Hp), list_elem_of_lookup_2 with i. }
    destruct (lookup_lt_is_Some_2 (amounts_of argv) i) as [v Hv].
    { rewrite <- Hlen'. by eapply lookup_lt_Some. }
    rewrite (total_present _ _ i a v).
    + apply amounts_lookup in Hv as ->. apply list_elem_of_lookup_2 in Hi.
      apply (proj1 (Forall_forall _ _) (pr_fresh _ _ _ _ _ Hp)) in Hi as (_ & _ & ->). lia.
    + rewrite map_fst_zip by exact Hlen'. apply (rr_atas _ _ _ _ _ Hr).
    + apply lookup_zip_with_Some. by eexists _, _.
  - intros k Hk. rewrite Hbal, total_absent by (by rewrite map_fst_zip).
    rewrite refund_sum_zip by exact Hlen'. fold (vault_of argv) (sum_of argv). lia.
  - intros w4 Hpool Htab Hparams. unfold run_transaction.
    rewrite (execute_tx_checked w argv owners rest s w4 Hr) by (by rewrite Htab, (pr_tables _ _ _ _ _ Hp)).
    cbn [result_bind]. rewrite <- Hpool in Hs3, Hx.
    apply (rpc_execute_ok w4 s3 data (params_of argv owners s) (ra_inputToken argv) 500000 _ pool5 (state_key (ra_seed argv)));
      try done; try by apply pda_ok. cbn. by rewrite <- Hlen.
Qed.

(** What the run leaves when the transaction is included in time: each new
    account holds its amount, the wallet's token account paid their sum, no
    other balance changed, the leaf is executed, the parameters account is
    closed and the table holds all accounts. *)
Record repayment_done w w' (argv : repayment_args) (owners : list pubkey) (s : State) : Prop := {
  rd_paid : ∀ i a, atas_of argv owners !! i = Some a → balance (ledger (pool w')) a = Z.of_nat i + 1;
  rd_others : ∀ k, k ∉ atas_of argv owners → balance (ledger (pool w')) k =
    balance (ledger (pool w)) k - (if decide (k = user_of argv) then sum_of argv else 0);
  rd_executed : executed_leaves (events (pool w')) = executed_leaves (events (pool w)) ++
    [(s_root_bundle_id s, relayer_refund_leaf (params_of argv owners s))];
  rd_params : params_account w' = None;
  rd_table : tables w' !! table_key = Some (map snd (static_of argv s) ++ atas_of argv owners)
}.

(** And when it is not: the parameters account is closed, the new accounts are
    empty, the deposit stays in the vault, no leaf was executed, and the
    pending transaction fails whenever it is included. *)
Record repayment_lost w w' (argv : repayment_args) (owners : list pubkey) (s : State) : Prop := {
  rl_unpaid : ∀ a, a ∈ atas_of argv owners → balance (ledger (pool w')) a = 0;
  rl_others : ∀ k, k ∉ atas_of argv owners → balance (ledger (pool w')) k = balance (ledger (pool w)) k
    - (if decide (k = user_of argv) then sum_of argv else 0) + (if decide (k = vault_of argv) then sum_of argv else 0);
  rl_executed : executed_leaves (events (pool w')) = executed_leaves (events (pool w));
  rl_params : params_account w' = None;
  rl_pending : ∃ tx, pending w' = Some tx ∧
    run_transaction programId SystemProgram_programId wallet blockhash decode_params compute_budget w' tx =
      Err AccountNotInitialized
}.

Lemma report_run w argv owners rest s w3 : repayment_ready w argv owners rest s → prepared w w3 argv owners s →
  ∃ w', run_state serve w3 (report table_key (static_of argv s)
          (map (λ account, (account, true)) (atas_of argv owners))
          (key_of [utf8_encode "instruction_params"; wallet]) (params_of argv owners s) (atas_of argv owners)) =
      (Ok (map (λ '(i, a), (S i, balance (ledger (pool w')) a))
             (zip (seq 0 (length (atas_of argv owners))) (atas_of argv owners))), w') ∧
    params_account w' = None ∧ tables w' = tables w3 ∧
    if included_first then leaf_paid (pool w3) (pool w') argv owners s
    else pool w' = pool w3 ∧ pending w' = Some (execute_tx argv owners s).
Proof.
  intros Hr Hp. destruct (rr_layout _ _ _ _ _ Hr) as (layout & Hlayout & Hsize & Hdecode). cbv zeta in Hsize.
  destruct (execute_ready _ _ _ _ _ _ _ Hr Hp Hdecode) as (pool5 & Hpaid & Htx).
  unfold executeAndReport. rewrite run_state_bind, run_state_call. cbn [services].
  rewrite run_state_bind, run_state_lift, (pr_tables _ _ _ _ _ Hp). cbn [from_option_err].
  rewrite LargeAccountsCoder_encode_exact, Hlayout, decide_True.
  2: { rewrite length_app in Hsize. unfold MAX_PERMITTED_DATA_INCREASE in Hsize. lia. }
  rewrite run_state_bind, run_params, load_params_run by exact Hsize. cbn [fst snd].
  rewrite run_state_bind, run_state_call. cbn [services].
  fold (execute_tx argv owners s). set (w4 := with_params w3 _).
  rewrite run_state_bind, run_state_call. cbn [services]. unfold send_transaction at 1.
  rewrite Htx by done. cbn [result_bind done_in answer].
  rewrite run_state_bind, run_state_call. cbn [services]. unfold include_pending. cbn [pending with_pending].
  rewrite Htx by done. cbn [result_default].
  destruct (rr_leaf_pdas _ _ _ _ _ Hr) as (_ & Hip & _).
  rewrite rpc_close_ok by exact Hip. cbn [done_in result_bind answer]. rewrite balances_run.
  eexists. split; [reflexivity|]. by destruct included_first.
Qed.
End Repayment.

(** ** Property *)

(** A table of balances, from what each of the accounts holds. *)
Lemma reported (f : pubkey → Z) (g : nat → Z) (atas : list pubkey) n :
  length atas = n → (∀ i a, atas !! i = Some a → f a = g i) →
  map (λ '(i, a), (S i, f a)) (zip (seq 0 (length atas)) atas) = map (λ i, (S i, g i)) (seq 0 n).
Proof.
  intros <- Hf. apply list_eq. intros i. rewrite !list_lookup_fmap.
  destruct (atas !! i) as [a|] eqn:Ha.
  - pose proof (lookup_lt_Some _ _ _ Ha) as Hi.
    assert (Hseq : seq 0 (length atas) !! i = Some i) by (by apply lookup_seq).
    assert (Hzip : zip (seq 0 (length atas)) atas !! i = Some (i, a))
      by (apply lookup_zip_with_Some; by exists i, a).
    rewrite Hseq, Hzip. cbn. by rewrite (Hf i a Ha).
  - apply lookup_ge_None in Ha. rewrite !(proj2 (lookup_ge_None _ _)); [done|by rewrite length_seq|].
    rewrite length_zip_with, length_seq. lia.
Qed.

Section Outcomes.
Context {L : Type} `{HK : Keccak} `{HB : BNjs} `{HW : Web3} `{HT : TokenProgram L} `{HM : !UmaMerkleTree}
  `{HR : !SolanaRuntime}.
Context (programId TOKEN_PROGRAM_ID SystemProgram_programId wallet : pubkey)
  (lookup_table_address : pubkey → Z → pubkey)
  (accountLayouts : string → option (ExecuteRelayerRefundLeafParams → bytes))
  (accountDiscriminator : string → bytes) (abi_encode_leaf : RelayerRefundLeafEvm → bytes)
  (clock slot : Z) (blockhash : string)
  (decode_params : bytes → option ExecuteRelayerRefundLeafParams) (compute_budget : pubkey).
Implicit Types (w : world (L := L)).

Abbreviation ready := (repayment_ready (L := L) programId TOKEN_PROGRAM_ID wallet lookup_table_address accountLayouts
  accountDiscriminator clock slot decode_params).
Abbreviation is_prepared := (prepared (L := L) programId TOKEN_PROGRAM_ID SystemProgram_programId wallet
  lookup_table_address slot).
Abbreviation run included w argv :=
  (run_state (services (L := L) programId TOKEN_PROGRAM_ID SystemProgram_programId wallet clock slot blockhash
     decode_params compute_budget included) w
   (testBundleLogic (L := L) programId TOKEN_PROGRAM_ID SystemProgram_programId wallet lookup_table_address
     accountLayouts accountDiscriminator abi_encode_leaf argv)).

Lemma whole_run included w argv owners rest s : ready w argv owners rest s →
  ∃ w3 w', is_prepared w w3 argv owners s ∧
    run included w argv =
      (Ok (map (λ '(i, a), (S i, balance (ledger (pool w')) a))
             (zip (seq 0 (length (atas_of TOKEN_PROGRAM_ID argv owners))) (atas_of TOKEN_PROGRAM_ID argv owners))), w') ∧
    params_account w' = None ∧ tables w' = tables w3 ∧
    if included then leaf_paid programId TOKEN_PROGRAM_ID (pool w3) (pool w') argv owners s
    else pool w' = pool w3 ∧ pending w' = Some (execute_tx programId TOKEN_PROGRAM_ID SystemProgram_programId wallet
                                                   lookup_table_address slot blockhash argv owners s).
Proof.
  intros Hr.
  destruct (fund_run programId TOKEN_PROGRAM_ID SystemProgram_programId wallet lookup_table_address accountLayouts
    accountDiscriminator abi_encode_leaf clock slot blockhash decode_params compute_budget included
    w argv owners rest s Hr) as (pool1 & l2 & Hf & Hrun1).
  destruct (relay_run programId TOKEN_PROGRAM_ID SystemProgram_programId wallet lookup_table_address accountLayouts
    accountDiscriminator abi_encode_leaf clock slot blockhash decode_params compute_budget included
    w argv owners rest s pool1 l2 Hr Hf) as (w3 & Hp & Hrun2).
  destruct (report_run programId TOKEN_PROGRAM_ID SystemProgram_programId wallet lookup_table_address accountLayouts
    accountDiscriminator clock slot blockhash decode_params compute_budget included
    w argv owners rest s w3 Hr Hp) as (w' & Hrun3 & Hrest).
  exists w3, w'. split; [exact Hp|]. split; [by rewrite Hrun1, Hrun2, Hrun3|exact Hrest].
Qed.

Lemma ready_length w argv owners rest s : ready w argv owners rest s →
  length (atas_of TOKEN_PROGRAM_ID argv owners) = Z.to_nat (default 0 (parseInt (ra_numberOfRelayersToRepay argv))).
Proof.
  intros Hr. unfold atas_of, refund_atas. rewrite length_map, (proj2 (rr_keys _ _ _ _ _ _ _ _ _ _ _ _ _ _ Hr)).
  apply length_amounts.
Qed.

(** C11. The repayment script, end to end: run by the owner of a Solana spoke
    pool that accepts its deposit, with key pairs whose token accounts do not
    exist yet and a number of relayers the runtime has room for, it completes,
    and the root bundle it relays, the lookup table it extends in slices of 30,
    the parameters it loads in fragments and the transaction it compiles fit
    together.  The execute transaction is sent and not confirmed.  Included
    before the next transaction, it pays the [i]-th relayer's account exactly
    [i + 1], the wallet's token account paid exactly the sum (the vault is
    back where it was), no other balance changed, and the balances reported
    are those.  Included later, it fails, since the script has closed the
    parameters account by then: no leaf is executed, the relayers' accounts are
    reported with a balance of 0, and the deposit stays in the vault. *)
Theorem fake_repayment_pays w (argv : repayment_args) (owners rest : list pubkey) (s : State) :
  ready w argv owners rest s →
  let n := Z.to_nat (default 0 (parseInt (ra_numberOfRelayersToRepay argv))) in
  (∃ w', run true w argv = (Ok (map (λ i, (S i, Z.of_nat i + 1)) (seq 0 n)), w') ∧
     repayment_done programId TOKEN_PROGRAM_ID SystemProgram_programId wallet lookup_table_address slot
       w w' argv owners s) ∧
  ∃ w', run false w argv = (Ok (map (λ i, (S i, 0)) (seq 0 n)), w') ∧
    repayment_lost programId TOKEN_PROGRAM_ID SystemProgram_programId wallet blockhash decode_params compute_budget
      w w' argv owners s.
Proof.
  intros Hr n. pose proof (ready_length _ _ _ _ _ Hr) as Hn. split.
  - destruct (whole_run true _ _ _ _ _ Hr) as (w3 & w' & Hp & Hrun & Hpar & Htab & Hpaid). exists w'. split.
    + rewrite Hrun. do 2 f_equal. apply reported; [exact Hn|]. apply (lp_paid _ _ _ _ _ _ _ Hpaid).
    + split; [apply (lp_paid _ _ _ _ _ _ _ Hpaid)| | |exact Hpar|by rewrite Htab, (pr_tables _ _ _ _ _ _ _ _ _ _ _ Hp)].
      * intros k Hk. rewrite (lp_others _ _ _ _ _ _ _ Hpaid k Hk), (pr_balances _ _ _ _ _ _ _ _ _ _ _ Hp k Hk). lia.
      * by rewrite (lp_executed _ _ _ _ _ _ _ Hpaid), (pr_executed _ _ _ _ _ _ _ _ _ _ _ Hp).
  - destruct (whole_run false _ _ _ _ _ Hr) as (w3 & w' & Hp & Hrun & Hpar & Htab & Hpool & Hpend).
    assert (Hzero : ∀ a, a ∈ atas_of TOKEN_PROGRAM_ID argv owners → balance (ledger (pool w')) a = 0).
    { intros a Ha. rewrite Hpool. by apply (proj1 (Forall_forall _ _) (pr_fresh _ _ _ _ _ _ _ _ _ _ _ Hp)) in Ha as (_ & _ & ?). }
    exists w'. split.
    + rewrite Hrun. do 2 f_equal. apply reported; [exact Hn|]. intros i a Hi. by eapply Hzero, list_elem_of_lookup_2.
    + split; [exact Hzero| | |exact Hpar|].
      * rewrite Hpool. apply (pr_balances _ _ _ _ _ _ _ _ _ _ _ Hp).
      * rewrite Hpool. apply (pr_executed _ _ _ _ _ _ _ _ _ _ _ Hp).
      * eexists. split; [exact Hpend|]. unfold run_transaction.
        rewrite (execute_tx_checked programId TOKEN_PROGRAM_ID SystemProgram_programId wallet lookup_table_address
          accountLayouts accountDiscriminator clock slot blockhash decode_params compute_budget w argv owners rest s w' Hr)
          by (by rewrite Htab, (pr_tables _ _ _ _ _ _ _ _ _ _ _ Hp)).
        destruct (pr_state _ _ _ _ _ _ _ _ _ _ _ Hp) as (s3 & Hs3 & Hseed & _).
        cbn [result_bind]. unfold rpc_execute, the_state.
        rewrite Hpool, Hs3, from_some, bind_ok, Hseed, state_pda_ok, bind_ok, Hpar; [done|].
        apply (rr_pool_pdas _ _ _ _ _ _ _ _ _ _ _ _ _ _ Hr).
Qed.
End Outcomes.

(** A pool owned by the wallet, with the route to Sepolia enabled, and three
    key pairs. *)
Definition ex_wallet : pubkey := ex_owner.
Definition ex_user : pubkey := toy_ata ex_mint ex_wallet ex_tokens.
Definition ex_argv : repayment_args :=
  {| ra_seed := 0; ra_numberOfRelayersToRepay := "3"; ra_inputToken := ex_mint |}.
Definition ex_owners : list pubkey := [ex_key x21; ex_key x22; ex_key x23].
Definition ex_clock : Z := 1700000000000.

Definition ex_pool : spoke_state toy_ledger :=
  result_default (fresh ex_ledger) (execute_all ex_program
    (fresh {| toy_mints := {[ex_mint := ex_tokens]}; toy_accounts := {[ex_user := (ex_info ex_wallet, 100)]} |})
    [Initialize ex_owner 0 0 34268394551451 0 ex_owner 3600 14400;
     SetEnableRoute ex_owner ex_mint 11155111 true ex_mint ex_tokens]).

Definition ex_world : world (L := toy_ledger) :=
  {| pool := ex_pool; params_account := Some [x00]; tables := ∅; key_pairs := ex_owners; pending := None |}.

Definition ex_expected : ExecuteRelayerRefundLeafParams :=
  {| root_bundle_id := 0; proof := [];
     relayer_refund_leaf := repayment_leaf 34268394551451 ex_mint (refund_atas (HT := toy_token_program) ex_tokens ex_mint ex_owners) [1; 2; 3] |}.

Definition ex_state_account : State :=
  {| s_paused_deposits := false; s_paused_fills := false; s_owner := ex_owner; s_seed := 0;
     s_number_of_deposits := 0; s_chain_id := 34268394551451; s_current_time := 0; s_remote_domain := 0;
     s_cross_domain_admin := ex_owner; s_root_bundle_id := 0; s_deposit_quote_time_buffer := 3600;
     s_fill_deadline_buffer := 14400 |}.

Definition ex_layouts (name : string) : option (ExecuteRelayerRefundLeafParams → bytes) := Some (λ _, []).
Definition ex_discriminator (name : string) : bytes := [x01].
Definition ex_decode (bs : bytes) : option ExecuteRelayerRefundLeafParams :=
  if decide (bs = [x01]) then Some ex_expected else None.

Lemma ex_ready_to_repay :
  repayment_ready ex_program ex_tokens ex_wallet (λ k _, k) ex_layouts ex_discriminator ex_clock 7 ex_decode
    ex_world ex_argv ex_owners [] ex_state_account.
Proof.
  split.
  - split_and!; vm_compute; reflexivity.
  - split_and!; vm_compute; reflexivity.
  - vm_compute. reflexivity.
  - split; [reflexivity|]. unfold u64. cbn. lia.
  - reflexivity.
  - unfold u64. cbn. lia.
  - split_and!; [cbn; lia|cbn; lia|vm_compute; reflexivity].
  - vm_compute. reflexivity.
  - reflexivity.
  - split; [reflexivity|vm_compute; reflexivity].
  - split.
    + apply (bool_decide_unpack _). vm_compute. done.
    + do 3 (apply Forall_cons; split; [split; vm_compute; reflexivity|]). by apply Forall_nil.
  - reflexivity.
  - reflexivity.
  - split; vm_compute; reflexivity.
  - vm_compute. reflexivity.
  - exists (λ _, []). split; [reflexivity|]. cbv zeta. split; [done|vm_compute; reflexivity].
Qed.

(** Three relayers are repaid 1, 2 and 3, or nothing. *)
Lemma fake_repayment_pays_witness :
  let run included := run_state (services ex_program ex_tokens (ex_key x00) ex_wallet ex_clock 7 "hash" ex_decode
            (ex_key x77) included) ex_world
          (testBundleLogic (L := toy_ledger) ex_program ex_tokens (ex_key x00) ex_wallet
             (λ k _, k) ex_layouts ex_discriminator (λ _, []) ex_argv) in
  (∃ w', run true = (Ok [(1%nat, 1); (2%nat, 2); (3%nat, 3)], w') ∧ balance (ledger (pool w')) ex_user = 94) ∧
  ∃ w', run false = (Ok [(1%nat, 0); (2%nat, 0); (3%nat, 0)], w') ∧ balance (ledger (pool w')) ex_user = 94.
Proof.
  cbv zeta.
  destruct (fake_repayment_pays ex_program ex_tokens (ex_key x00) ex_wallet (λ k _, k) ex_layouts ex_discriminator
    (λ _, []) ex_clock 7 "hash" ex_decode (ex_key x77) ex_world ex_argv ex_owners [] ex_state_account ex_ready_to_repay)
    as [(w1 & Hrun1 & Hdone) (w2 & Hrun2 & Hlost)].
  split; [exists w1|exists w2]; (split; [eassumption|]).
  - rewrite (rd_others _ _ _ _ _ _ _ _ _ _ _ Hdone).
    + vm_compute. reflexivity.
    + apply (bool_decide_unpack _). vm_compute. done.
  - rewrite (rl_others _ _ _ _ _ _ _ _ _ _ _ _ Hlost).
    + vm_compute. reflexivity.
    + apply (bool_decide_unpack _). vm_compute. done.
Defined.
