(* ===== verification/Cctp.v ===== *)
(** * CCTP messages: headers, bodies and their finalization

    [test/svm/cctpHelpers.ts] (imported by
    [scripts/svm/remotePauseDeposits.ts]) reads and writes the message format
    of Circle's cross-chain transfer protocol; [scripts/finalizeCCTPMessages.ts]
    reads the same offsets from event logs, waits for attestations and submits
    the messages that were not received yet. *)

From stdpp Require Import base gmap strings list.
From Stdlib Require Import ZArith Strings.Byte Lia.
From S2P Require Import Prelude Bytes JsText Interfaces SvmUtils.

Definition HEADER_VERSION_INDEX : nat := 0.
Definition SOURCE_DOMAIN_INDEX : nat := 4.
Definition DESTINATION_DOMAIN_INDEX : nat := 8.
Definition NONCE_INDEX : nat := 12.
Definition HEADER_SENDER_INDEX : nat := 20.
Definition HEADER_RECIPIENT_INDEX : nat := 52.
Definition DESTINATION_CALLER_INDEX : nat := 84.
Definition MESSAGE_BODY_INDEX : nat := 116.

Definition BODY_VERSION_INDEX : nat := 0.
Definition BURN_TOKEN_INDEX : nat := 4.
Definition MINT_RECIPIENT_INDEX : nat := 36.
Definition AMOUNT_INDEX : nat := 68.
Definition MESSAGE_SENDER_INDEX : nat := 100.

Record MessageHeader := {
  h_version : Z;
  sourceDomain : Z;
  destinationDomain : Z;
  nonce : Z;
  sender : pubkey;
  h_recipient : pubkey;
  destinationCaller : pubkey;
  messageBody : bytes
}.

Record TokenMessengerMessageBody := {
  b_version : Z;
  burnToken : pubkey;
  mintRecipient : pubkey;
  amount : Z;
  messageSender : pubkey
}.

(** [new PublicKey(data.slice(i, i + 32))] *)
Definition key_at `{Web3} (data : bytes) (i : nat) : result pubkey :=
  PublicKey_new (slice data i (i + 32)).

Definition decodeMessageHeader `{Web3} (data : bytes) : result MessageHeader :=
  let? version := readUInt32BE data HEADER_VERSION_INDEX in
  let? source := readUInt32BE data SOURCE_DOMAIN_INDEX in
  let? destination := readUInt32BE data DESTINATION_DOMAIN_INDEX in
  let? n := readBigUInt64BE data NONCE_INDEX in
  let? s := key_at data HEADER_SENDER_INDEX in
  let? r := key_at data HEADER_RECIPIENT_INDEX in
  let? caller := key_at data DESTINATION_CALLER_INDEX in
  Ok {| h_version := version; sourceDomain := source; destinationDomain := destination;
        nonce := n; sender := s; h_recipient := r; destinationCaller := caller;
        messageBody := slice_from data MESSAGE_BODY_INDEX |}.

Definition decodeTokenMessengerMessageBody `{Web3} (data : bytes)
  : result TokenMessengerMessageBody :=
  let? version := readUInt32BE data BODY_VERSION_INDEX in
  let? burn := key_at data BURN_TOKEN_INDEX in
  let? mint := key_at data MINT_RECIPIENT_INDEX in
  let amt := readUInt256BE (slice data AMOUNT_INDEX (AMOUNT_INDEX + 32)) in
  let? s := key_at data MESSAGE_SENDER_INDEX in
  Ok {| b_version := version; burnToken := burn; mintRecipient := mint;
        amount := amt; messageSender := s |}.

Definition decodeMessageSentData `{Web3} (message : bytes)
  : result (MessageHeader * TokenMessengerMessageBody) :=
  let? messageHeader := decodeMessageHeader message in
  let? body := decodeTokenMessengerMessageBody (slice_from message MESSAGE_BODY_INDEX) in
  Ok (messageHeader, body).

Definition encodeMessageHeader (header : MessageHeader) : result bytes :=
  let message := buffer_alloc (MESSAGE_BODY_INDEX + length (messageBody header)) in
  let? message := writeUInt32BE message (h_version header) HEADER_VERSION_INDEX in
  let? message := writeUInt32BE message (sourceDomain header) SOURCE_DOMAIN_INDEX in
  let? message := writeUInt32BE message (destinationDomain header) DESTINATION_DOMAIN_INDEX in
  let? message := writeBigUInt64BE message (nonce header) NONCE_INDEX in
  let message := buffer_copy (sender header) message HEADER_SENDER_INDEX in
  let message := buffer_copy (h_recipient header) message HEADER_RECIPIENT_INDEX in
  let message := buffer_copy (destinationCaller header) message DESTINATION_CALLER_INDEX in
  let message := buffer_copy (messageBody header) message MESSAGE_BODY_INDEX in
  Ok message.

(** The values a header can hold. *)
Definition header_wf (h : MessageHeader) : Prop :=
  0 ≤ h_version h < 2 ^ 32 ∧ 0 ≤ sourceDomain h < 2 ^ 32 ∧
  0 ≤ destinationDomain h < 2 ^ 32 ∧ 0 ≤ nonce h < 2 ^ 64 ∧
  pubkey_wf (sender h) ∧ pubkey_wf (h_recipient h) ∧ pubkey_wf (destinationCaller h).

(** The layout as one concatenation. *)
Definition header_layout (h : MessageHeader) : bytes :=
  be_bytes 4 (h_version h) ++ be_bytes 4 (sourceDomain h) ++
  be_bytes 4 (destinationDomain h) ++ be_bytes 8 (nonce h) ++
  sender h ++ h_recipient h ++ destinationCaller h ++ messageBody h.

(** * Properties *)

(** Writing just after what was written extends it. *)
Lemma splice_extend (pre src : bytes) k :
  (length src ≤ k)%nat →
  splice (pre ++ replicate k x00) (length pre) src =
    (pre ++ src) ++ replicate (k - length src) x00.
Proof.
  intros Hk. unfold splice.
  rewrite take_app_length, drop_app_ge by lia.
  replace (length pre + length src - length pre)%nat with (length src) by lia.
  by rewrite drop_replicate, app_assoc.
Qed.

Lemma write_extend n (pre : bytes) k v :
  0 ≤ v < 256 ^ Z.of_nat n → (n ≤ k)%nat →
  write_uint be_bytes n (pre ++ replicate k x00) v (length pre) =
    Ok ((pre ++ be_bytes n v) ++ replicate (k - n) x00).
Proof.
  intros Hv Hk. unfold write_uint.
  assert (fits n v = true) as -> by (by apply fits_spec).
  rewrite length_app, length_replicate. destruct (Nat.leb_spec (length pre + n) (length pre + k)); [|lia].
  cbn. by rewrite splice_extend, length_be_bytes by (rewrite length_be_bytes; lia).
Qed.

Lemma copy_extend (src pre : bytes) k :
  (length src ≤ k)%nat →
  buffer_copy src (pre ++ replicate k x00) (length pre) =
    (pre ++ src) ++ replicate (k - length src) x00.
Proof.
  intros Hk. unfold buffer_copy. rewrite length_app, length_replicate.
  destruct (Nat.leb_spec (length pre) (length pre + k)); [|lia].
  rewrite (take_ge src) by lia. by apply splice_extend.
Qed.

Ltac unfold_indices :=
  unfold HEADER_VERSION_INDEX, SOURCE_DOMAIN_INDEX, DESTINATION_DOMAIN_INDEX, NONCE_INDEX,
    HEADER_SENDER_INDEX, HEADER_RECIPIENT_INDEX, DESTINATION_CALLER_INDEX,
    MESSAGE_BODY_INDEX, BODY_VERSION_INDEX, BURN_TOKEN_INDEX, MINT_RECIPIENT_INDEX,
    AMOUNT_INDEX, MESSAGE_SENDER_INDEX, pubkey_wf in *.

(** Steps through the writes of [encodeMessageHeader]: each offset constant is
    the length of what precedes it. *)
Ltac at_end :=
  match goal with
  | |- context [write_uint be_bytes ?n (?p ++ replicate ?k x00) ?v ?off] =>
      replace off with (length p)
        by (unfold_indices; rewrite ?length_app, ?length_be_bytes; cbn [length]; lia);
      rewrite (write_extend n p k v)
        by (first [cbn; lia | lia])
  | |- context [buffer_copy ?s (?p ++ replicate ?k x00) ?off] =>
      replace off with (length p)
        by (unfold_indices; rewrite ?length_app, ?length_be_bytes; cbn [length]; lia);
      rewrite (copy_extend s p k)
        by (unfold_indices; lia)
  end.

Lemma encodeMessageHeader_layout h :
  header_wf h → encodeMessageHeader h = Ok (header_layout h).
Proof.
  intros (? & ? & ? & ? & Hs & Hr & Hc). unfold pubkey_wf in *.
  unfold encodeMessageHeader, buffer_alloc, writeUInt32BE, writeBigUInt64BE. cbv zeta.
  rewrite <- (app_nil_l (replicate _ x00)).
  remember (MESSAGE_BODY_INDEX + length (messageBody h))%nat as total eqn:Ht.
  assert (total = 116 + length (messageBody h))%nat as -> by exact Ht. clear Ht.
  do 4 (at_end; cbn [result_bind]). do 4 at_end.
  unfold header_layout. rewrite Hs, Hr, Hc. f_equal.
  replace (_ - length (messageBody h))%nat with 0%nat by lia.
  cbn [replicate]. by rewrite app_nil_r, <- !app_assoc.
Qed.

(** Reading a field in the middle of a concatenation. *)
Lemma slice_app (pre f post : bytes) i j :
  i = length pre → j = (length pre + length f)%nat → slice (pre ++ f ++ post) i j = f.
Proof.
  intros -> ->. unfold slice. rewrite drop_app_length.
  replace (_ - _)%nat with (length f) by lia. by rewrite take_app_length.
Qed.

Lemma read_be_app n (pre post : bytes) v i :
  i = length pre → 0 ≤ v < 256 ^ Z.of_nat n →
  read_uint_be n (pre ++ be_bytes n v ++ post) i = Ok v.
Proof.
  intros -> Hv. unfold read_uint_be. rewrite !length_app, length_be_bytes.
  destruct (Nat.leb_spec (length pre + n) (length pre + (n + length post))); [|lia].
  rewrite (slice_app pre (be_bytes n v) post); [|done|by rewrite length_be_bytes].
  by rewrite be_val_be_bytes.
Qed.

(** Presents [header_layout h] as [pre ++ f ++ post]. *)
Ltac layout_as pre f post :=
  replace (pre ++ f ++ post) with (header_layout _)
    by (unfold header_layout; rewrite <- ?app_assoc; reflexivity).

Lemma decode_layout `{Web3} h :
  header_wf h → decodeMessageHeader (header_layout h) = Ok h.
Proof.
  intros (? & ? & ? & ? & Hs & Hr & Hc). unfold pubkey_wf in *.
  set (v := be_bytes 4 (h_version h)). set (s := be_bytes 4 (sourceDomain h)).
  set (d := be_bytes 4 (destinationDomain h)). set (n := be_bytes 8 (nonce h)).
  assert (Hlv : length v = 4%nat) by apply length_be_bytes.
  assert (Hls : length s = 4%nat) by apply length_be_bytes.
  assert (Hld : length d = 4%nat) by apply length_be_bytes.
  assert (Hln : length n = 8%nat) by apply length_be_bytes.
  assert (E1 : readUInt32BE (header_layout h) 0 = Ok (h_version h)).
  { apply (read_be_app 4 [] (s ++ d ++ n ++ sender h ++ h_recipient h ++ destinationCaller h ++ messageBody h)); done. }
  assert (E2 : readUInt32BE (header_layout h) 4 = Ok (sourceDomain h)).
  { apply (read_be_app 4 v (d ++ n ++ sender h ++ h_recipient h ++ destinationCaller h ++ messageBody h)); done. }
  assert (E3 : readUInt32BE (header_layout h) 8 = Ok (destinationDomain h)).
  { unfold header_layout. rewrite (app_assoc _ _ (_ ++ be_bytes 8 _ ++ _)).
    apply (read_be_app 4 (v ++ s)); [by rewrite length_app, Hlv, Hls|done]. }
  assert (E4 : readBigUInt64BE (header_layout h) 12 = Ok (nonce h)).
  { unfold header_layout. rewrite (app_assoc _ _ (be_bytes 8 _ ++ _)), (app_assoc _ _ (be_bytes 8 _ ++ _)).
    apply (read_be_app 8 ((v ++ s) ++ d)); [by rewrite !length_app, Hlv, Hls, Hld|done]. }
  assert (Hk : ∀ pre f post i, header_layout h = pre ++ f ++ post → i = length pre →
    length f = 32%nat → key_at (header_layout h) i = Ok f).
  { intros pre f post i -> -> Hf. unfold key_at.
    rewrite slice_app; [by apply PublicKey_new_32|done|by rewrite Hf]. }
  assert (E5 : key_at (header_layout h) 20 = Ok (sender h)).
  { apply (Hk (v ++ s ++ d ++ n) _ (h_recipient h ++ destinationCaller h ++ messageBody h)).
    - unfold header_layout. by rewrite <- !app_assoc.
    - by rewrite !length_app, Hlv, Hls, Hld, Hln.
    - done. }
  assert (E6 : key_at (header_layout h) 52 = Ok (h_recipient h)).
  { apply (Hk (v ++ s ++ d ++ n ++ sender h) _ (destinationCaller h ++ messageBody h)).
    - unfold header_layout. by rewrite <- !app_assoc.
    - by rewrite !length_app, Hlv, Hls, Hld, Hln, Hs.
    - done. }
  assert (E7 : key_at (header_layout h) 84 = Ok (destinationCaller h)).
  { apply (Hk (v ++ s ++ d ++ n ++ sender h ++ h_recipient h) _ (messageBody h)).
    - unfold header_layout. by rewrite <- !app_assoc.
    - by rewrite !length_app, Hlv, Hls, Hld, Hln, Hs, Hr.
    - done. }
  assert (E8 : slice_from (header_layout h) 116 = messageBody h).
  { unfold slice_from, header_layout. fold v s d n. rewrite !app_assoc.
    apply drop_app_length'. by rewrite !length_app, Hlv, Hls, Hld, Hln, Hs, Hr, Hc. }
  unfold decodeMessageHeader. unfold_indices.
  rewrite E1, E2, E3, E4, E5, E6, E7, E8. by destruct h.
Qed.

(** Consecutive slices put back together. *)
Lemma slice_join {A} (l : list A) i j k :
  (i ≤ j)%nat → (j ≤ k)%nat → slice l i j ++ slice l j k = slice l i k.
Proof.
  intros. unfold slice.
  replace (drop j l) with (drop (j - i) (drop i l)) by (rewrite drop_drop; f_equal; lia).
  replace (k - i)%nat with ((j - i) + (k - j))%nat by lia. apply take_take_drop.
Qed.

Lemma slice_to_end {A} (l : list A) i j :
  (i ≤ j)%nat → slice l i j ++ drop j l = drop i l.
Proof.
  intros. unfold slice.
  replace (drop j l) with (drop (j - i) (drop i l)) by (rewrite drop_drop; f_equal; lia).
  apply take_drop.
Qed.

Lemma be_bytes_slice (l : bytes) i n :
  (i + n ≤ length l)%nat → be_bytes n (be_val (slice l i (i + n))) = slice l i (i + n).
Proof.
  intros H. rewrite <- (be_bytes_be_val (slice l i (i + n))) at 2.
  by replace (length (slice l i (i + n))) with n by (rewrite length_slice; lia).
Qed.

Lemma read_uint_be_ok n l i v : read_uint_be n l i = Ok v →
  (i + n ≤ length l)%nat ∧ be_bytes n v = slice l i (i + n) ∧ 0 ≤ v < 256 ^ Z.of_nat n.
Proof.
  unfold read_uint_be. destruct (Nat.leb_spec (i + n) (length l)); [|done].
  intros [= <-]. split_and!; [done|by apply be_bytes_slice|apply be_val_bound|].
  pose proof (be_val_bound (slice l i (i + n))) as Hb.
  rewrite length_slice in Hb by lia. replace (i + n - i)%nat with n in Hb by lia. lia.
Qed.

Lemma decode_layout_inv `{Web3} data h :
  (MESSAGE_BODY_INDEX ≤ length data)%nat → decodeMessageHeader data = Ok h →
  header_wf h ∧ header_layout h = data.
Proof.
  unfold decodeMessageHeader. unfold_indices. intros Hlen.
  destruct (readUInt32BE data 0) as [v|] eqn:E1; [|done].
  destruct (readUInt32BE data 4) as [s|] eqn:E2; [|done].
  destruct (readUInt32BE data 8) as [d|] eqn:E3; [|done].
  destruct (readBigUInt64BE data 12) as [n|] eqn:E4; [|done].
  apply read_uint_be_ok in E1 as (_ & E1 & ?), E2 as (_ & E2 & ?), E3 as (_ & E3 & ?),
    E4 as (_ & E4 & ?).
  assert (Hk : ∀ i, (i + 32 ≤ length data)%nat →
    key_at data i = Ok (slice data i (i + 32)) ∧ length (slice data i (i + 32)) = 32%nat).
  { intros i Hi. assert (length (slice data i (i + 32)) = 32%nat) by (rewrite length_slice; lia).
    split; [by apply PublicKey_new_32|done]. }
  destruct (Hk 20%nat) as [-> H20]; [lia|]. destruct (Hk 52%nat) as [-> H52]; [lia|].
  destruct (Hk 84%nat) as [-> H84]; [lia|]. cbn [result_bind]. intros <-%Ok_inj.
  change (256 ^ Z.of_nat 4) with (2 ^ 32) in *. change (256 ^ Z.of_nat 8) with (2 ^ 64) in *.
  split; [unfold header_wf; cbn [h_version sourceDomain destinationDomain nonce sender
    h_recipient destinationCaller]; unfold pubkey_wf; split_and!; lia || done|].
  change (be_bytes 4 v ++ be_bytes 4 s ++ be_bytes 4 d ++ be_bytes 8 n ++
    slice data 20 52 ++ slice data 52 84 ++ slice data 84 116 ++ drop 116 data = data).
  rewrite E1, E2, E3, E4.
  change (slice data 0 4 ++ slice data 4 8 ++ slice data 8 12 ++ slice data 12 20 ++
    slice data 20 52 ++ slice data 52 84 ++ slice data 84 116 ++ drop 116 data = data).
  by rewrite !slice_to_end by lia.
Qed.

(** C38. Encoding a message header and decoding it gives the header back, for
    every header whose domains, version and nonce fit their fields. *)
Theorem header_roundtrip `{Web3} h :
  header_wf h →
  (let? data := encodeMessageHeader h in decodeMessageHeader data) = Ok h.
Proof. intros Hh. rewrite encodeMessageHeader_layout by done. by apply decode_layout. Qed.

Definition sample_header : MessageHeader :=
  {| h_version := 0; sourceDomain := 0; destinationDomain := 5; nonce := 77;
     sender := replicate 32 x01; h_recipient := replicate 32 x02;
     destinationCaller := replicate 32 x00; messageBody := [x2a; x2b] |}.

Lemma sample_header_wf : header_wf sample_header.
Proof. unfold header_wf, pubkey_wf; cbn; lia. Qed.

Lemma header_roundtrip_witness :
  header_wf sample_header ∧
  (let? data := encodeMessageHeader sample_header in decodeMessageHeader data) = Ok sample_header.
Proof. split; [exact sample_header_wf|]. apply header_roundtrip. exact sample_header_wf. Defined.

(** Decoding loses nothing: whenever a buffer of at least 116 bytes
    decodes, the decoded fields fit the format and encoding them again gives
    exactly that buffer. *)
Theorem header_decode_encode `{Web3} data h :
  (MESSAGE_BODY_INDEX ≤ length data)%nat → decodeMessageHeader data = Ok h →
  header_wf h ∧ encodeMessageHeader h = Ok data.
Proof.
  intros Hlen Hd. destruct (decode_layout_inv data h Hlen Hd) as [Hwf <-].
  split; [done|]. by apply encodeMessageHeader_layout.
Qed.

Lemma header_decode_encode_witness :
  ∃ h, decodeMessageHeader (replicate 120 x07) = Ok h ∧
    encodeMessageHeader h = Ok (replicate 120 x07).
Proof.
  eexists. split; [vm_compute; reflexivity|].
  apply header_decode_encode; [unfold MESSAGE_BODY_INDEX; cbn; lia|vm_compute; reflexivity].
Defined.
