(* ===== verification/RemotePause.v ===== *)
(** * scripts/svm/remotePauseDeposits.ts

    The script that pauses deposits of the Solana spoke pool from Ethereum: it
    sends the call through CCTP, polls the attestation service
    ([getMessages] of [test/svm/cctpHelpers.ts]) and delivers the message.  It
    never gets that far (see the property): what a message does, once delivered,
    is in [SvmMessages]. *)

From stdpp Require Import base gmap strings list.
From Stdlib Require Import ZArith Strings.Byte Lia.
From S2P Require Import Prelude Bytes JsText Interfaces SvmSpoke SvmUtils SvmState SvmBundle SvmMessages Cctp.

(** Numbers as [===] sees them: a [number] is never a [bigint]. *)
Inductive js_numeric := Number (z : Z) | BigInt (z : Z).

Definition strict_equal (a b : js_numeric) : bool :=
  match a, b with
  | Number x, Number y | BigInt x, BigInt y => x =? y
  | _, _ => false
  end.

(** The command line; [None] is [undefined]. *)
Record pause_args := {
  pa_seed : Z;
  pa_pause : option bool;
  pa_resumeRemoteTx : option string
}.

Definition check_args (argv : pause_args) : result unit :=
  match pa_pause argv, pa_resumeRemoteTx argv with
  | Some _, Some _ => Err (JsError "Options --pause and --resumeRemoteTx are mutually exclusive")
  | None, None => Err (JsError "One of the options --pause or --resumeRemoteTx is required")
  | _, _ => Ok tt
  end.

(** A reply of the attestation service: whether it has an [error], and its
    [messages] (attestation, message). *)
Record attestation_reply := { ar_error : bool; ar_messages : option (list (string * string)) }.

Inductive remoteE : Type → Type :=
| ConnectProvider (url : string) : remoteE unit
| ConnectWallet (mnemonic : string) : remoteE unit
| GetNetwork : remoteE js_numeric
| SendMessage (transmitter : string) (domain : Z) (recipient : pubkey) (calldata : bytes) : remoteE string
| WaitForTx (txHash : string) : remoteE unit
| Fetch (url : string) : remoteE attestation_reply
| SetTimeout (ms : Z) : remoteE unit
| GetNoncePda (nonce sourceDomain : Z) (messageTransmitter : pubkey) : remoteE pubkey
| ReceiveMessage (message attestation : bytes) (accounts : list (string * pubkey))
    (remainingAccounts : list AccountMeta) : remoteE unit
| FetchState (k : pubkey) : remoteE State.

(** ** [getMessages] *)
Definition pending (r : attestation_reply) : bool :=
  ar_error r ||
  match ar_messages r with
  | None => true
  | Some [] => false                                   (* [undefined === "PENDING"] *)
  | Some ((attestation, _) :: _) => bool_decide (attestation = "PENDING"%string)
  end.

(** [fuel] bounds the number of requests. *)
Fixpoint getMessages_loop (fuel : nat) (url : string) (attestationResponse : attestation_reply)
  : prog remoteE attestation_reply :=
  if pending attestationResponse then
    match fuel with
    | O => Throw (JsError "out of fuel")
    | S fuel' =>
        let! attestationResponse := call (Fetch url) in
        (if pending attestationResponse then call (SetTimeout 2000) else Ret tt) ;;
        getMessages_loop fuel' url attestationResponse
    end
  else Ret attestationResponse.

Definition getMessages (fuel : nat) (txHash : string) (srcDomain : Z) (irisApiUrl : string)
  : prog remoteE attestation_reply :=
  getMessages_loop fuel (irisApiUrl +:+ "/messages/" +:+ decimal srcDomain +:+ "/" +:+ txHash)
    {| ar_error := false; ar_messages := None |}.

Section Script.
Context {L : Type} `{HB : BNjs} `{HW : Web3}.
(** The programs, the wallet and the library's encoder of
    [pauseDeposits(bool)]. *)
Context (svmSpoke messageTransmitter SystemProgram wallet : pubkey)
  (encodePauseDeposits : option bool → result bytes).

Definition remoteDomain : Z := 0.
Definition localDomain : Z := 5.

Inductive cluster := Devnet | Mainnet.

Definition cluster_of (rpcEndpoint : string) : result cluster :=
  if includes rpcEndpoint "devnet" then Ok Devnet
  else if includes rpcEndpoint "mainnet" then Ok Mainnet
  else Err (JsError ("Unsupported cluster endpoint: " +:+ rpcEndpoint)).

Definition irisApiUrl (c : cluster) : string :=
  match c with
  | Devnet => "https://iris-api-sandbox.circle.com"
  | Mainnet => "https://iris-api.circle.com"
  end.

Definition supportedChainId (c : cluster) : Z := match c with Devnet => 11155111 | Mainnet => 1 end.

Definition messageTransmitterRemoteAddress (c : cluster) : string :=
  match c with
  | Devnet => "0x7865fAfC2db2093669d92c0F33AeEF291086BEFD"
  | Mainnet => "0x0a992d191deec32afe36203ad87d7d289a738f81"
  end.

Definition find_pda (seeds : list bytes) (program : pubkey) : result pubkey :=
  let? a := findProgramAddressSync seeds program in Ok (fst a).

(** The accounts the script derives. *)
Record pause_accounts := {
  statePda : pubkey;
  messageTransmitterState : pubkey;
  authorityPda : pubkey;
  selfAuthority : pubkey;
  eventAuthority : pubkey
}.

Definition derive_accounts (seed : Z) : result pause_accounts :=
  let? seedBuffer := toArrayLike_le seed 8 in
  let? state_key := find_pda [utf8_encode "state"; seedBuffer] svmSpoke in
  let? transmitter_state := find_pda [utf8_encode "message_transmitter"] messageTransmitter in
  let? authority := find_pda [utf8_encode "message_transmitter_authority"; svmSpoke] messageTransmitter in
  let? self := find_pda [utf8_encode "self_authority"] svmSpoke in
  let? events := find_pda [utf8_encode "__event_authority"] svmSpoke in
  Ok {| statePda := state_key; messageTransmitterState := transmitter_state; authorityPda := authority;
        selfAuthority := self; eventAuthority := events |}.

(** Sending the call, unless a remote transaction is resumed. *)
Definition send_pause (c : cluster) (argv : pause_args) : prog remoteE string :=
  match pa_resumeRemoteTx argv with
  | Some tx =>
      if bool_decide (tx = ""%string) then
        let! calldata := lift (encodePauseDeposits (pa_pause argv)) in
        let! hash := call (SendMessage (messageTransmitterRemoteAddress c) localDomain svmSpoke calldata) in
        call (WaitForTx hash) ;; Ret hash
      else Ret tx
  | None =>
      let! calldata := lift (encodePauseDeposits (pa_pause argv)) in
      let! hash := call (SendMessage (messageTransmitterRemoteAddress c) localDomain svmSpoke calldata) in
      call (WaitForTx hash) ;; Ret hash
  end.

Definition readonly (k : pubkey) : AccountMeta := {| am_key := k; am_signer := false; am_writable := false |}.
Definition writable (k : pubkey) : AccountMeta := {| am_key := k; am_signer := false; am_writable := true |}.

Definition remaining_accounts (a : pause_accounts) : list AccountMeta :=
  [readonly (statePda a); readonly (selfAuthority a); readonly svmSpoke;
   writable (statePda a); readonly (eventAuthority a); readonly svmSpoke].

Definition receive_accounts (a : pause_accounts) (usedNonces : pubkey) : list (string * pubkey) :=
  [("payer", wallet); ("caller", wallet); ("authorityPda", authorityPda a);
   ("messageTransmitter", messageTransmitterState a); ("usedNonces", usedNonces);
   ("receiver", svmSpoke); ("systemProgram", SystemProgram)]%string.

(** Fetching the attestation and delivering the message; the result is the
    flag read back. *)
Definition receive_pause (fuel : nat) (c : cluster) (a : pause_accounts) (remoteTxHash : string)
  : prog remoteE bool :=
  let! attestationResponse := getMessages fuel remoteTxHash remoteDomain (irisApiUrl c) in
  match ar_messages attestationResponse with
  | Some ((attestation, message) :: _) =>
      let bytes_of s := buffer_from_hex (replace_empty s "0x") in
      let! header := lift (decodeMessageHeader (bytes_of message)) in
      let! usedNonces := call (GetNoncePda (nonce header) remoteDomain (messageTransmitterState a)) in
      call (ReceiveMessage (bytes_of message) (bytes_of attestation) (receive_accounts a usedNonces)
              (remaining_accounts a)) ;;
      let! stateData := call (FetchState (statePda a)) in
      Ret (s_paused_deposits stateData)
  | _ => Throw TypeError
  end.

(** [ETHERS_PROVIDER_URL] and [ETHERS_MNEMONIC]: unset and empty are the same. *)
Definition require_env (v : option string) (name : string) : result string :=
  match v with
  | Some s => if bool_decide (s = ""%string)
              then Err (JsError ("Environment variable " +:+ name +:+ " is not set")) else Ok s
  | None => Err (JsError ("Environment variable " +:+ name +:+ " is not set"))
  end.

Definition remotePauseDeposits (fuel : nat) (argv : pause_args) (provider_url mnemonic : option string)
    (rpcEndpoint : string) : prog remoteE bool :=
  lift (check_args argv) ;;
  let! url := lift (require_env provider_url "ETHERS_PROVIDER_URL") in
  call (ConnectProvider url) ;;
  let! words := lift (require_env mnemonic "ETHERS_MNEMONIC") in
  call (ConnectWallet words) ;;
  let! a := lift (derive_accounts (pa_seed argv)) in
  let! c := lift (cluster_of rpcEndpoint) in
  let! chainId := call GetNetwork in
  if negb (strict_equal chainId (BigInt (supportedChainId c)))
  then Throw (JsError "Chain ID does not match expected Solana cluster")
  else
    let! remoteTxHash := send_pause c argv in
    receive_pause fuel c a remoteTxHash.
End Script.

(** * Properties *)

(** The script up to the chain check touches nothing. *)
Definition only_connects (h : list (event remoteE)) (X : Type) (c : remoteE X) : Prop :=
  match c with ConnectProvider _ | ConnectWallet _ | GetNetwork => True | _ => False end.

(** ethers 5 gives the chain id as a [number]. *)
Definition ethers5 (X : Type) (c : remoteE X) (r : result X) : Prop :=
  match c in remoteE Y return result Y → Prop with
  | GetNetwork => λ r, ∀ n, r = Ok n → ∃ z, n = Number z
  | _ => λ _, True
  end r.

(** C16. As it is written the script always fails before it sends or
    receives anything, whatever the arguments, the cluster and the answers of
    the services: the chain id ethers returns is a [number], the expected one
    a [bigint], and [!==] tells them apart even when they are equal. *)
Theorem remote_pause_never_runs `{BNjs} `{Web3}
    (svmSpoke messageTransmitter SystemProgram wallet : pubkey) (encode : option bool → result bytes)
    (fuel : nat) (argv : pause_args) (provider_url mnemonic : option string) (rpcEndpoint : string)
    (ev : env remoteE) (Hev : respects ethers5 ev) :
  let script := remotePauseDeposits svmSpoke messageTransmitter SystemProgram wallet encode fuel argv
                  provider_url mnemonic rpcEndpoint in
  is_ok (outcome ev script) = false ∧ trace_ok only_connects (trace ev script).
Proof.
  intros script.
  assert (wp ethers5 only_connects (λ _ r, is_ok r = false) [] script) as Hwp.
  { subst script. unfold remotePauseDeposits. destruct (check_args argv) as [[]|]; [|done].
    destruct (require_env provider_url _) as [url|]; [|done]. cbn [lift bind call wp].
    split; [done|]. intros [[]|] _; [|done]. cbn [lift bind].
    destruct (require_env mnemonic _) as [words|]; [|done]. cbn [lift bind call wp].
    split; [done|]. intros [[]|] _; [|done]. cbn [lift bind].
    destruct (derive_accounts _ _ _) as [a|]; [|done]. cbn [lift bind].
    destruct (cluster_of rpcEndpoint) as [c|]; [|done]. cbn [lift bind call wp].
    split; [done|]. intros [n|] Hn; [|done]. by destruct (Hn n eq_refl) as [z ->]. }
  destruct (wp_trace _ _ _ ev _ Hev Hwp). done.
Qed.

(** ** Polling the attestation service *)

(** The service: its reply to each request, by number, and the times waited. *)
Section Polling.
Context (api : nat → string → attestation_reply).

Record polling := { po_requests : nat; po_waits : nat }.

Definition polled : handler polling remoteE := λ X w c,
  match c in remoteE Y return result Y * polling with
  | Fetch url => (Ok (api (po_requests w) url), {| po_requests := S (po_requests w); po_waits := po_waits w |})
  | SetTimeout _ => (Ok tt, {| po_requests := po_requests w; po_waits := S (po_waits w) |})
  | _ => (Err TypeError, w)
  end.

Lemma getMessages_run url n : ∀ fuel w r0,
  (n < fuel)%nat → pending r0 = true →
  (∀ i, (i < n)%nat → pending (api (po_requests w + i) url) = true) →
  pending (api (po_requests w + n) url) = false →
  run_state polled w (getMessages_loop fuel url r0) =
    (Ok (api (po_requests w + n) url), {| po_requests := po_requests w + S n; po_waits := po_waits w + n |}).
Proof.
  induction n as [|n IH]; intros [|fuel] w r0 Hf Hr0 Hp Hn; [lia| |lia|]; cbn [getMessages_loop];
    rewrite Hr0, run_state_bind, run_state_call; cbn [polled].
  - rewrite Nat.add_0_r in *. rewrite Hn, run_state_bind. cbn [run_state].
    assert (∀ g r, pending r = false → getMessages_loop g url r = Ret r) as Hstop
      by (intros [|g] r Hr; cbn [getMessages_loop]; by rewrite Hr).
    rewrite Hstop by done. cbn [run_state]. by rewrite Nat.add_1_r, Nat.add_0_r.
  - assert (pending (api (po_requests w) url) = true) as H0.
    { rewrite <- (Nat.add_0_r (po_requests w)). apply Hp. lia. }
    rewrite H0, run_state_bind, run_state_call. cbn [polled].
    rewrite IH; cbn [po_requests po_waits].
    + do 2 f_equal; [f_equal; lia|lia|lia].
    + lia.
    + done.
    + intros i Hi. replace (S (po_requests w) + i)%nat with (po_requests w + S i)%nat by lia. apply Hp. lia.
    + by replace (S (po_requests w) + n)%nat with (po_requests w + S n)%nat by lia.
Qed.
End Polling.

(** [getMessages] returns the first reply that is neither an error, nor empty,
    nor pending, after one request per reply up to it and one wait per reply
    before it, on whatever fuel is enough for the requests. *)
Theorem getMessages_first_ready (api : nat → string → attestation_reply) (fuel n : nat) (txHash : string)
    (srcDomain : Z) (irisApiUrl : string) :
  let url := irisApiUrl +:+ "/messages/" +:+ decimal srcDomain +:+ "/" +:+ txHash in
  (n < fuel)%nat → (∀ i, (i < n)%nat → pending (api i url) = true) → pending (api n url) = false →
  run_state (polled api) {| po_requests := 0; po_waits := 0 |} (getMessages fuel txHash srcDomain irisApiUrl) =
    (Ok (api n url), {| po_requests := S n; po_waits := n |}).
Proof.
  intros url Hf Hp Hn.
  exact (getMessages_run api url n fuel {| po_requests := 0; po_waits := 0 |}
           {| ar_error := false; ar_messages := None |} Hf eq_refl Hp Hn).
Qed.

Definition ex_api (i : nat) (url : string) : attestation_reply :=
  match i with
  | O => {| ar_error := true; ar_messages := None |}
  | S O => {| ar_error := false; ar_messages := Some [("PENDING", "0x")] |}
  | _ => {| ar_error := false; ar_messages := Some [("0x07", "0x08")] |}
  end%string.

Lemma getMessages_first_ready_witness :
  run_state (polled ex_api) {| po_requests := 0; po_waits := 0 |} (getMessages 5 "0xabc" 0 "https://iris") =
    (Ok (ex_api 2 ""), {| po_requests := 3; po_waits := 2 |}).
Proof.
  apply (getMessages_first_ready ex_api 5 2); [lia| |reflexivity].
  intros [|[|i]] Hi; [reflexivity|reflexivity|lia].
Defined.

(** ethers 5 on Sepolia, with a devnet endpoint and a wallet. *)
Definition ex_ethers : env remoteE := λ _ X c,
  match c in remoteE Y return result Y with
  | GetNetwork => Ok (Number 11155111)
  | ConnectProvider _ | ConnectWallet _ | WaitForTx _ | SetTimeout _ | ReceiveMessage _ _ _ _ => Ok tt
  | SendMessage _ _ _ _ => Ok ""%string
  | Fetch _ => Ok {| ar_error := true; ar_messages := None |}
  | GetNoncePda _ _ _ => Ok (ex_key x0d)
  | FetchState _ => Err TypeError
  end.

Lemma remote_pause_never_runs_witness :
  let script := remotePauseDeposits ex_program ex_transmitter (ex_key x0b) ex_owner
    (λ p, Ok (abi_encode (CallPauseDeposits (default false p)))) 5
    {| pa_seed := 0; pa_pause := Some true; pa_resumeRemoteTx := None |} (Some "http://eth") (Some "words")
    "https://api.devnet.solana.com" in
  outcome ex_ethers script = Err (JsError "Chain ID does not match expected Solana cluster") ∧
  trace_ok only_connects (trace ex_ethers script).
Proof.
  intros script. split; [vm_compute; reflexivity|].
  apply (remote_pause_never_runs ex_program ex_transmitter (ex_key x0b) ex_owner _ 5 _ _ _ _ ex_ethers).
  intros h X []; cbn; try exact I. intros n [= <-]. by eexists.
Defined.
