(* ===== verification/FinalizeCctp.v ===== *)
(** * scripts/finalizeCCTPMessages.ts: receiving CCTP messages

    The script finds the transactions that sent USDC through CCTP, extracts the
    message of each, waits for Circle's attestation and submits the messages
    whose nonce is unused.  Chains, the attestation service and the message
    transmitter contract are services; the block scan is [EventScan]. *)

From stdpp Require Import base gmap strings list.
From Stdlib Require Import ZArith Strings.Byte Lia.
From S2P Require Import Prelude Bytes JsText Interfaces Consts EventScan Cctp.

Definition chainToArtifactPrefix : list (Z * string) :=
  [(1, "Ethereum"); (5, "Ethereum"); (10, "Optimism"); (420, "Optimism"); (42161, "Arbitrum");
   (421613, "Arbitrum"); (8453, "Base"); (84531, "Base"); (137, "Polygon"); (80001, "Polygon")]%string.

(** [`${chainToArtifactPrefix[chainId]}`] *)
Definition artifact_prefix (chainId : chain_key) : string :=
  match chainId with
  | Some c => default "undefined"%string (js_lookup chainToArtifactPrefix c)
  | None => "undefined"
  end.

Record tx_log := { topic0 : option string; log_data : bytes }.

Record attestation_response := { status : string; attestation : string }.

Inductive cctpE : Type → Type :=
| CompanionChainId : cctpE string
| OwnChainId : cctpE string
| GetBlockNumber (on : layer) : cctpE Z
| HubPoolAddress : cctpE string
| SpokePoolAddress (artifact : string) : cctpE string
| ContractFactory (artifact : string) : cctpE unit
| QueryFilter (artifact eventName : string) (fromBlock toBlock : Z) : cctpE (list chain_event)
| GetTransactionReceipt (on : layer) (txHash : string) : cctpE (option (list tx_log))
| FetchAttestation (messageHash : string) : cctpE attestation_response
| MessageTransmitter (address : jsval) : cctpE unit    (* [new ethers.Contract(...)] *)
| UsedNonces (nonceHash : string) : cctpE Z
| ReceiveMessage (messageBytes : bytes) (attestation : string) : cctpE string
| WaitForTx (txHash : string) : cctpE unit.

Record message_hash_and_bytes := {
  messageHash : string;
  messageBytes : bytes;
  nonceHash : string;
  m_destinationDomain : option Z
}.

(** [hexlify(bytes)] *)
Definition hexlify (bs : bytes) : string := "0x" +:+ to_hex bs.

Definition invalid_argument : js_error := JsError "INVALID_ARGUMENT".

(** A number of [n] bytes in [solidityKeccak256], given as [hexlify] text: the
    empty text [0x] is not a number. *)
Definition packed_uint (n : nat) (bs : bytes) : result bytes :=
  match bs with [] => Err invalid_argument | _ => Ok (be_bytes n (be_val bs)) end.

Section Script.
Context `{Keccak} `{AcrossConstants}.
(** [defaultAbiCoder.decode(["bytes"], data)[0]] *)
Context (abi_decode_bytes : bytes → result bytes).

Definition MessageSent_topic : string := hexlify (keccak (utf8_encode "MessageSent(bytes)")).

Definition parse_message (messageBytes : bytes) : result message_hash_and_bytes :=
  let sourceDomain := slice messageBytes 4 8 in
  let destinationDomain := hexlify (slice messageBytes 8 12) in
  let nonce := slice messageBytes 12 20 in
  let? domain_word := packed_uint 4 sourceDomain in
  let? nonce_word := packed_uint 8 nonce in
  let nonceHash := hexlify (keccak (domain_word ++ nonce_word)) in
  let messageHash := hexlify (keccak messageBytes) in
  Ok {| messageHash := messageHash; messageBytes := messageBytes; nonceHash := nonceHash;
        m_destinationDomain := parseInt destinationDomain |}.

(** The body of the loop over receipts: the first [MessageSent] log, if any. *)
Definition parse_receipt (receipt : option (list tx_log)) : result (list message_hash_and_bytes) :=
  match receipt with
  | None => Err TypeError
  | Some logs =>
      match list_find (λ l, topic0 l = Some MessageSent_topic) logs with
      | None => Ok []
      | Some (_, log) =>
          let? messageBytes := abi_decode_bytes (log_data log) in
          let? m := parse_message messageBytes in Ok [m]
      end
  end.

Fixpoint parse_receipts (receipts : list (option (list tx_log)))
  : result (list message_hash_and_bytes) :=
  match receipts with
  | [] => Ok []
  | r :: receipts' =>
      let? here := parse_receipt r in
      let? rest := parse_receipts receipts' in
      Ok (here ++ rest)
  end.

(** The receipts are requested together; their order is that of [txHashes]. *)
Definition parseMessageHashesAndBytes (txHashes : list string) (src : layer)
  : prog cctpE (list message_hash_and_bytes) :=
  let! receipts := for_collect txHashes (λ h, call (GetTransactionReceipt src h)) in
  lift (parse_receipts receipts).

(** [fuel] bounds the number of polls. *)
Fixpoint requestAttestation (fuel : nat) (hash : string) : prog cctpE string :=
  match fuel with
  | O => Throw (JsError "out of fuel")
  | S fuel' =>
      let! response := call (FetchAttestation hash) in
      if bool_decide (status response = "complete"%string)
      then Ret (attestation response)
      else requestAttestation fuel' hash
  end.

Definition receive_one (m : message_hash_and_bytes) (att : string) : prog cctpE unit :=
  try_catch
    (let! usedNonces := call (UsedNonces (nonceHash m)) in
     if usedNonces =? 1 then Ret tt
     else
       let! hash := call (ReceiveMessage (messageBytes m) att) in
       call (WaitForTx hash))
    (λ _, Ret tt).

Definition receive_all (ms : list (message_hash_and_bytes * string)) : prog cctpE unit :=
  for_each ms (λ '(m, att), receive_one m att).

(** [event.args?.l1Token === L1_ADDRESS_MAP[l1ChainId].usdc] *)
Definition is_usdc (usdc : jsval) (e : chain_event) : bool :=
  bool_decide (or_undefined (ev_l1Token e) = usdc).

Definition getL1SrcEvents (l1ChainId : chain_key) (blockLookback : option Z)
  : prog cctpE (list chain_event) :=
  let! l1LatestBlock := call (GetBlockNumber L1) in
  let! hubPool := call HubPoolAddress in
  let artifact := artifact_prefix l1ChainId +:+ "_Adapter" in
  call (ContractFactory artifact) ;;
  scan (λ fromBlock toBlock,
    let! tokensRelayedEvents := call (QueryFilter artifact "TokensRelayed" fromBlock toBlock) in
    match tokensRelayedEvents with
    | [] => Ret []
    | _ =>
        let! usdc := lift (l1 l1ChainId "usdc") in
        Ret (filter (λ e, is_usdc usdc e = true) tokensRelayedEvents)
    end) l1LatestBlock MAX_L1_BLOCK_LOOKBACK blockLookback.

Definition getL2SrcEvents (l2ChainId : chain_key) (blockLookback : option Z)
  : prog cctpE (list chain_event) :=
  let! l2LatestBlock := call (GetBlockNumber L2) in
  let prefix := artifact_prefix l2ChainId in
  let artifact := prefix +:+ "_SpokePool" in
  let eventName :=
    (if bool_decide (prefix = "Base"%string) then "Optimism"%string else prefix) +:+ "TokensBridged" in
  let! spokePool := call (SpokePoolAddress artifact) in
  call (ContractFactory artifact) ;;
  scan (λ fromBlock toBlock, call (QueryFilter artifact eventName fromBlock toBlock))
    l2LatestBlock MAX_L2_BLOCK_LOOKBACK blockLookback.

(** [messageHashAndBytes.destinationDomain === CIRCLE_DOMAIN_IDs[...]]: [NaN]
    and [undefined] equal no number, nor each other. *)
Definition is_relevant (domain : option Z) (m : message_hash_and_bytes) : bool :=
  match m_destinationDomain m, domain with
  | Some a, Some b => a =? b
  | _, _ => false
  end.

(** [RECEIVE_MESSAGES_ON] and [BLOCK_LOOKBACK]; [fuel] is for each attestation. *)
Definition main (receive_on lookback : option string) (fuel : nat) : prog cctpE unit :=
  let receiveMessagesOn := env_or receive_on "l2" in
  let on_l1 := bool_decide (receiveMessagesOn = "l1"%string) in
  let l1BlockLookback := parseInt (env_or lookback "8640") in
  let l2BlockLookback := parseInt (env_or lookback "17380") in
  let! l1Id := call CompanionChainId in
  let l1ChainId := parseInt l1Id in
  let! l2Id := call OwnChainId in
  let l2ChainId := parseInt l2Id in
  let! srcEvents :=
    (if on_l1 then getL2SrcEvents l2ChainId l2BlockLookback
     else getL1SrcEvents l1ChainId l1BlockLookback) in
  let! all := parseMessageHashesAndBytes (unique (map transactionHash srcEvents))
                (if on_l1 then L2 else L1) in
  let domain := match (if on_l1 then l1ChainId else l2ChainId) with
                | Some c => js_lookup CIRCLE_DOMAIN_IDs c | None => None end in
  let relevant := filter (λ m, is_relevant domain m = true) all in
  match relevant with
  | [] => Ret tt
  | _ =>
      let! attestations := for_collect relevant (λ m, requestAttestation fuel (messageHash m)) in
      let! address := lift (if on_l1 then l1 l1ChainId "cctpMessageTransmitter"
                            else l2 l2ChainId "cctpMessageTransmitter") in
      call (MessageTransmitter address) ;;
      receive_all (zip relevant attestations)
  end.
End Script.

(** * Properties *)

(** ** Parsing *)
(** [parseInt(hexlify(bytes))] is the big-endian value. *)
Lemma parseInt_hexlify bs : bs ≠ [] → parseInt (hexlify bs) = Some (be_val bs).
Proof.
  intros Hne. destruct bs as [|b bs]; [done|]. unfold parseInt, hexlify. rewrite chars_app.
  change (fst (parse_unsigned (chars "0x" ++ chars (to_hex (b :: bs)))) = Some (be_val (b :: bs))).
  unfold to_hex. rewrite chars_text.
  change (fst (take_hex_digits 0 false (to_hex_chars (b :: bs))) = Some (be_val (b :: bs))).
  cbn [to_hex_chars]. rewrite hex_pair, take_hex_digits_bytes, be_val_cons. cbn [fst].
  done.
Qed.

Lemma packed_uint_be n bs v :
  (0 < n)%nat → bs = be_bytes n v → 0 ≤ v < 256 ^ Z.of_nat n → packed_uint n bs = Ok (be_bytes n v).
Proof.
  intros Hn -> Hv. unfold packed_uint. rewrite be_val_be_bytes by done.
  destruct (be_bytes n v) eqn:Hb; [|done].
  pose proof (length_be_bytes n v) as Hl. rewrite Hb in Hl. cbn in Hl. lia.
Qed.

(** The three fields the script reads, in the layout of the header. *)
Lemma header_slices h :
  slice (header_layout h) 4 8 = be_bytes 4 (sourceDomain h) ∧
  slice (header_layout h) 8 12 = be_bytes 4 (destinationDomain h) ∧
  slice (header_layout h) 12 20 = be_bytes 8 (nonce h).
Proof.
  unfold header_layout.
  pose proof (length_be_bytes 4 (h_version h)) as Lv.
  pose proof (length_be_bytes 4 (sourceDomain h)) as Ls.
  pose proof (length_be_bytes 4 (destinationDomain h)) as Ld.
  pose proof (length_be_bytes 8 (nonce h)) as Ln.
  split_and!.
  - apply (slice_app (be_bytes 4 (h_version h))); lia.
  - rewrite (app_assoc (be_bytes 4 (h_version h))).
    apply slice_app; rewrite length_app; lia.
  - rewrite (app_assoc (be_bytes 4 (h_version h))), (app_assoc _ (be_bytes 4 (destinationDomain h))).
    apply slice_app; rewrite !length_app; lia.
Qed.

(** The script and the CCTP decoder read the same message: for every
    message of the header format, the domain the script filters on is the
    header's destination domain, and the nonce hash it looks up is the digest
    of the header's source domain and nonce, packed in 4 and 8 bytes as the
    message transmitter packs them. *)
Theorem parse_message_header `{Keccak} (h : MessageHeader) :
  header_wf h →
  parse_message (header_layout h) =
    Ok {| messageHash := hexlify (keccak (header_layout h)); messageBytes := header_layout h;
          nonceHash := hexlify (keccak (be_bytes 4 (sourceDomain h) ++ be_bytes 8 (nonce h)));
          m_destinationDomain := Some (destinationDomain h) |}.
Proof.
  intros (Hv & Hs & Hd & Hn & _). destruct (header_slices h) as (E1 & E2 & E3).
  unfold parse_message. rewrite E1, E2, E3.
  rewrite (packed_uint_be 4 _ (sourceDomain h)) by (done || lia).
  rewrite (packed_uint_be 8 _ (nonce h)) by (done || lia). cbn [result_bind].
  rewrite parseInt_hexlify.
  - by rewrite be_val_be_bytes.
  - intros Hb. pose proof (length_be_bytes 4 (destinationDomain h)) as Hl. by rewrite Hb in Hl.
Qed.

Lemma parse_message_header_witness :
  header_wf sample_header ∧
  m_destinationDomain <$> match parse_message (header_layout sample_header) with
                          | Ok m => Some m | Err _ => None end = Some (Some 5).
Proof.
  split; [exact sample_header_wf|].
  rewrite (parse_message_header sample_header sample_header_wf). reflexivity.
Defined.

(** ** Attestations *)

(** C39. [requestAttestation] polls until the service answers "complete": if the
    first [n] answers are not complete and the next one is, it returns that
    attestation after exactly [n + 1] requests, for any larger fuel. *)
Theorem requestAttestation_polls (ev : env cctpE) (past : list (event cctpE)) (hash : string)
    (n fuel : nat) (last : attestation_response) :
  let request : event cctpE := Event (FetchAttestation hash) in
  (∀ k, (k < n)%nat → ∃ r, ev (past ++ replicate k request) _ (FetchAttestation hash) = Ok r ∧
     status r ≠ "complete"%string) →
  ev (past ++ replicate n request) _ (FetchAttestation hash) = Ok last →
  status last = "complete"%string → (n < fuel)%nat →
  run ev past (requestAttestation fuel hash) = (Ok (attestation last), past ++ replicate (S n) request).
Proof.
  intros request. revert past fuel. induction n as [|n IH]; intros past fuel Hw Hl Hc Hf;
    (destruct fuel as [|fuel]; [lia|]); cbn [requestAttestation].
  - cbn [replicate] in *. rewrite app_nil_r in Hl. rewrite run_bind, run_call, Hl.
    by rewrite bool_decide_eq_true_2.
  - destruct (Hw 0%nat) as (r & Hr & Hs); [lia|]. cbn [replicate] in Hr. rewrite app_nil_r in Hr.
    rewrite run_bind, run_call, Hr, bool_decide_eq_false_2 by done. cbv iota beta.
    fold request.
    rewrite (IH (past ++ [request]) fuel).
    + by rewrite <- app_assoc.
    + intros k Hk. rewrite <- app_assoc. apply (Hw (S k)). lia.
    + by rewrite <- app_assoc.
    + done.
    + lia.
Qed.

Lemma requestAttestation_polls_witness :
  let ev : env cctpE := λ h X c,
    match c in cctpE Y return result Y with
    | FetchAttestation _ =>
        Ok {| status := if (length h <? 2)%nat then "pending" else "complete"; attestation := "0xa" |}
    | _ => Err TypeError
    end in
  fst (run ev [] (requestAttestation 5 "0xh")) = Ok "0xa"%string.
Proof.
  intros ev.
  rewrite (requestAttestation_polls ev [] "0xh" 2 5 {| status := "complete"; attestation := "0xa" |});
    [reflexivity| |reflexivity|reflexivity|lia].
  intros k Hk. destruct k as [|[|k]]; [eexists; split; [reflexivity|done]..|lia].
Defined.

(** ** Receiving *)

(** The message transmitter contract as the script meets it: the nonces used,
    the submissions tried and those received, oldest first, and the number of
    calls so far. *)
Record transmitter := {
  tm_used : gset string;
  tm_attempts : list (bytes * string);
  tm_received : list (bytes * string);
  tm_calls : nat
}.

(** What the network does with a call: answers it, refuses it, or executes it
    and loses the answer. *)
Inductive network := Answers | Refuses | Loses.

Section Receiving.
(** The nonce hash the contract derives from a message, whether it accepts a
    message with an attestation otherwise, the network at each call, and the
    nonces others use before it. *)
Context (nonce_of : bytes → string) (valid : bytes → string → bool)
  (net : nat → network) (others : nat → gset string).
Implicit Types w : transmitter.

Definition ConnectionError : js_error := JsError "could not detect network".
Definition Reverted : js_error := JsError "execution reverted".

(** Before a call others may have used nonces. *)
Definition tick w : transmitter :=
  {| tm_used := others (tm_calls w) ∪ tm_used w; tm_attempts := tm_attempts w; tm_received := tm_received w;
     tm_calls := S (tm_calls w) |}.

Definition attempt w (b : bytes) (att : string) : transmitter :=
  {| tm_used := tm_used w; tm_attempts := tm_attempts w ++ [(b, att)]; tm_received := tm_received w;
     tm_calls := tm_calls w |}.

(** [receiveMessage]: a used nonce or an invalid message reverts, and the
    nonce is used from then on. *)
Definition receiveMessage w (b : bytes) (att : string) : result transmitter :=
  let? _ := require (bool_decide (nonce_of b ∉ tm_used w) && valid b att) Reverted in
  Ok {| tm_used := {[nonce_of b]} ∪ tm_used w; tm_attempts := tm_attempts w;
        tm_received := tm_received w ++ [(b, att)]; tm_calls := tm_calls w |}.

(** The answer the script sees of an answer given. *)
Definition through {A} (n : network) (r : result A) : result A :=
  match n with Answers => r | Refuses | Loses => Err ConnectionError end.

Definition transmitter_services : handler transmitter cctpE := λ X w c,
  let n := net (tm_calls w) in
  let w := tick w in
  match c in cctpE Y return result Y * transmitter with
  | UsedNonces h => (through n (Ok (if bool_decide (h ∈ tm_used w) then 1 else 0)), w)
  | ReceiveMessage b att =>
      let w := attempt w b att in
      match n with
      | Refuses => (Err ConnectionError, w)
      | Answers | Loses =>
          match receiveMessage w b att with
          | Ok w' => (through n (Ok "0x"%string), w')
          | Err e => (Err e, w)
          end
      end
  | WaitForTx _ => (through n (Ok tt), w)
  | _ => (Err TypeError, w)
  end.
Local Abbreviation serve := transmitter_services.

(** The submission of a message with its attestation. *)
Definition submission (x : message_hash_and_bytes * string) : bytes * string := (messageBytes x.1, x.2).
Definition accepted (x : bytes * string) : bool := valid x.1 x.2.

(** The submissions tried when the calls are answered and nobody else uses a
    nonce: of every message whose nonce is unused when its turn comes. *)
Fixpoint to_submit (used : gset string) (ms : list (message_hash_and_bytes * string)) : list (bytes * string) :=
  match ms with
  | [] => []
  | x :: ms' =>
      if bool_decide (nonceHash x.1 ∈ used) then to_submit used ms'
      else submission x :: to_submit (if accepted (submission x) then {[nonceHash x.1]} ∪ used else used) ms'
  end.

Definition answered : Prop := ∀ k, net k = Answers.
Definition undisturbed : Prop := answered ∧ ∀ k, others k = ∅.

(** What the loop does to the contract for one message. *)
Record one_received w w' (x : message_hash_and_bytes * string) : Prop := {
  or_used : tm_used w ⊆ tm_used w';
  or_received : tm_received w' = tm_received w ∨
    (tm_received w' = tm_received w ++ [submission x] ∧ accepted (submission x) = true ∧
     (nonceHash x.1 ∉ tm_used w) ∧ (nonceHash x.1 ∈ tm_used w'));
  or_live : answered → accepted (submission x) = true → nonceHash x.1 ∈ tm_used w';
  or_exact : undisturbed →
    tm_attempts w' = tm_attempts w ++ to_submit (tm_used w) [x] ∧
    tm_received w' = tm_received w ++ filter (λ y, accepted y = true) (to_submit (tm_used w) [x]) ∧
    tm_used w' = if bool_decide (nonceHash x.1 ∈ tm_used w) then tm_used w
                 else if accepted (submission x) then {[nonceHash x.1]} ∪ tm_used w else tm_used w
}.

Lemma union_swap (n a b u : gset string) : n ∪ (a ∪ (b ∪ u)) = (a ∪ b) ∪ (n ∪ u).
Proof. apply set_eq. intros k. rewrite !elem_of_union. tauto. Qed.

(** A message received, others having used the nonces [extra] besides. *)
Lemma one_accepted w w' x (extra : gset string) :
  nonceHash x.1 ∉ tm_used w → accepted (submission x) = true →
  tm_used w' = extra ∪ ({[nonceHash x.1]} ∪ tm_used w) → (undisturbed → extra = ∅) →
  tm_attempts w' = tm_attempts w ++ [submission x] → tm_received w' = tm_received w ++ [submission x] →
  one_received w w' x.
Proof.
  intros Hnew Hok Hu Hq Ha Hr.
  assert (Hin : nonceHash x.1 ∈ tm_used w').
  { rewrite Hu. apply elem_of_union_r, elem_of_union_l. by apply elem_of_singleton. }
  split.
  - rewrite Hu. intros k Hk. by apply elem_of_union_r, elem_of_union_r.
  - right. by split_and!.
  - by intros _ _.
  - intros Hq'. cbn [to_submit]. rewrite bool_decide_eq_false_2, Hok by done.
    rewrite Hu, (Hq Hq'), (left_id_L ∅ (∪)), Ha, Hr. split_and!; [done| |done].
    by rewrite filter_cons_True.
Qed.

(** A message not received: submitted and refused, or not answered. *)
Lemma one_refused w w' x :
  tm_used w ⊆ tm_used w' → tm_received w' = tm_received w →
  (answered → accepted (submission x) = true → nonceHash x.1 ∈ tm_used w') →
  (undisturbed → accepted (submission x) = false ∧ (nonceHash x.1 ∉ tm_used w) ∧ tm_used w' = tm_used w ∧
     tm_attempts w' = tm_attempts w ++ [submission x]) →
  one_received w w' x.
Proof.
  intros Hu Hr Hl Hq. split; [done|by left|done|]. intros Hq'. destruct (Hq Hq') as (Hno & Hnew & Hused & Ha).
  cbn [to_submit]. rewrite bool_decide_eq_false_2, Hno by done. rewrite filter_cons_False by congruence.
  by rewrite Ha, Hr, Hused, app_nil_r.
Qed.

Lemma undisturbed_tick w : undisturbed → tm_used (tick w) = tm_used w.
Proof. intros [_ Ho]. cbn. by rewrite Ho, (left_id_L ∅ (∪)). Qed.

Lemma tick_used w : tm_used w ⊆ tm_used (tick w).
Proof. apply union_subseteq_r. Qed.

(** The submission of a message whose nonce was unused. *)
Lemma submit_run w m att : nonce_of (messageBytes m) = nonceHash m → nonceHash m ∉ tm_used w →
  ∃ w', run_state serve (tick w) (try_catch
          (let! hash := call (ReceiveMessage (messageBytes m) att) in call (WaitForTx hash)) (λ _, Ret tt)) = (Ok tt, w') ∧
    one_received w w' (m, att).
Proof.
  intros Hn Hnew. cbn [bind call try_catch run_state transmitter_services].
  set (w1 := attempt (tick (tick w)) (messageBytes m) att).
  assert (Hu1 : tm_used w1 = (others (S (tm_calls w)) ∪ others (tm_calls w)) ∪ tm_used w)
    by (apply (assoc_L (∪))).
  assert (Hsub : tm_used w ⊆ tm_used w1) by (rewrite Hu1; apply union_subseteq_r).
  assert (Hnone : undisturbed → others (S (tm_calls w)) ∪ others (tm_calls w) = ∅)
    by (intros [_ Ho]; by rewrite !Ho, (left_id_L ∅ (∪))).
  destruct (net (tm_calls (tick w))) eqn:Hnet; [|exists w1; split; [done|]; apply one_refused;
    [done|done|intros Ha; by rewrite Ha in Hnet|intros [Ha _]; by rewrite Ha in Hnet]|].
  all: destruct (receiveMessage w1 (messageBytes m) att) as [w2|e] eqn:Hrec;
    cbn [through bind lift try_catch run_state call transmitter_services].
  (* received, then waited for; refused by the contract; the same with the answer lost *)
  1,3: unfold receiveMessage in Hrec; passes Hrec; injection Hrec as <-; bool_to_prop;
    match goal with Hv : valid _ _ = true |- _ => rename Hv into Hvalid end.
  - match goal with |- context [through (net ?k) (Ok tt)] => destruct (net k) end;
      cbn [through try_catch run_state]; (eexists; split; [done|]).
    all: apply (one_accepted _ _ (m, att) (others (S (S (tm_calls w))) ∪ (others (S (tm_calls w)) ∪ others (tm_calls w))));
      [done|done| |intros Hq; rewrite (Hnone Hq); destruct Hq as [_ Ho]; by rewrite Ho, (left_id_L ∅ (∪))|done|done].
    all: cbn [tick tm_used tm_calls attempt w1 fst]; rewrite Hn, (union_swap {[nonceHash m]}); apply (assoc_L (∪)).
  - eexists. split; [done|].
    apply (one_accepted _ _ (m, att) (others (S (tm_calls w)) ∪ others (tm_calls w))); [done|done| |done|done|done].
    cbn [tm_used w1 attempt tick fst]. rewrite Hn. apply union_swap.
  - assert (He : e = Reverted ∧ (bool_decide (nonce_of (messageBytes m) ∉ tm_used w1) && valid (messageBytes m) att) = false).
    { unfold receiveMessage in Hrec. destruct (_ && _); [done|]. by injection Hrec as <-. }
    destruct He as [-> Hrefused]. rewrite Hn in Hrefused.
    exists w1. split; [done|]. apply one_refused; [done|done| |].
    + unfold accepted. cbn [fst snd submission]. intros _ Hv. rewrite Hv, andb_true_r in Hrefused.
      apply bool_decide_eq_false in Hrefused. by apply dec_stable.
    + intros Hq. rewrite Hu1, (Hnone Hq), (left_id_L ∅ (∪)) in Hrefused |- *. split_and!; try done.
      unfold accepted. cbn [fst snd submission]. by rewrite bool_decide_eq_true_2 in Hrefused.
  - assert (e = Reverted) as -> by (unfold receiveMessage in Hrec; destruct (_ && _); [done|]; by injection Hrec as <-).
    exists w1. split; [done|].
    apply one_refused; [done|done|intros Ha; by rewrite Ha in Hnet|intros [Ha _]; by rewrite Ha in Hnet].
Qed.

Lemma receive_one_run w x : nonce_of (messageBytes x.1) = nonceHash x.1 →
  ∃ w', run_state serve w (receive_one x.1 x.2) = (Ok tt, w') ∧ one_received w w' x.
Proof.
  destruct x as [m att]. cbn [fst snd]. intros Hn. unfold receive_one.
  change (∃ w', (let '(r, w1) := serve _ w (UsedNonces (nonceHash m)) in
    run_state serve w1 (try_catch (bind (lift r) (λ usedNonces : Z, if usedNonces =? 1 then Ret tt
      else let! hash := call (ReceiveMessage (messageBytes m) att) in call (WaitForTx hash))) (λ _, Ret tt))) = (Ok tt, w') ∧
    one_received w w' (m, att)).
  cbn [transmitter_services]. destruct (net (tm_calls w)) eqn:Hnet; cbn [through lift bind].
  2-3: exists (tick w); split; [done|]; split;
    [apply tick_used|by left|intros Ha; by rewrite Ha in Hnet|intros [Ha _]; by rewrite Ha in Hnet].
  case_bool_decide as Hu.
  - exists (tick w). split; [done|]. split; [apply tick_used|by left|done|].
    intros Hq. rewrite (undisturbed_tick w Hq) in *. cbn [to_submit fst].
    by rewrite bool_decide_eq_true_2, !app_nil_r.
  - apply submit_run; [done|]. intros Hin. apply Hu. by apply tick_used.
Qed.

Lemma to_submit_cons used x ms : to_submit used (x :: ms) = to_submit used [x] ++
  to_submit (if bool_decide (nonceHash x.1 ∈ used) then used
             else if accepted (submission x) then {[nonceHash x.1]} ∪ used else used) ms.
Proof. cbn [to_submit]. by case_bool_decide. Qed.

(** What a run of the loop does: [sent] is what the contract received. *)
Record all_received w w' (ms : list (message_hash_and_bytes * string)) (sent : list (bytes * string)) : Prop := {
  ar_used : tm_used w ⊆ tm_used w';
  ar_received : tm_received w' = tm_received w ++ sent;
  ar_order : sublist sent (map submission ms);
  ar_once : NoDup (map (λ y, nonce_of y.1) sent);
  ar_fresh : Forall (λ y, accepted y = true ∧ (nonce_of y.1 ∉ tm_used w) ∧ nonce_of y.1 ∈ tm_used w') sent;
  ar_live : answered → Forall (λ x, accepted (submission x) = true → nonceHash x.1 ∈ tm_used w') ms;
  ar_exact : undisturbed → tm_attempts w' = tm_attempts w ++ to_submit (tm_used w) ms ∧
    sent = filter (λ y, accepted y = true) (to_submit (tm_used w) ms)
}.

(** Used nonces stay used. *)
Ltac by_growth :=
  first [done | etrans; eassumption | eapply elem_of_weaken; eassumption |
         let H := fresh in intros H; match goal with Hn : _ ∉ _ |- False => apply Hn; by eapply elem_of_weaken end].

Lemma receive_all_run ms w : Forall (λ x, nonce_of (messageBytes x.1) = nonceHash x.1) ms →
  ∃ w' sent, run_state serve w (receive_all ms) = (Ok tt, w') ∧ all_received w w' ms sent.
Proof.
  intros Hn. revert w. induction Hn as [|[m att] ms Hx _ IH]; intros w; unfold receive_all in *; cbn [for_each].
  { exists w, []. split; [done|].
    split; cbn; rewrite ?app_nil_r; try done; try constructor; done. }
  destruct (receive_one_run w (m, att) Hx) as (w1 & Hrun & [Hu Hr Hl He]). cbn [fst snd] in Hrun.
  rewrite run_state_bind, Hrun. destruct (IH w1) as (w' & sent & Hrun' & [Hu' Hr' Hs Hnd Hf Hl' He']).
  rewrite Hrun'. cbn [fst] in *.
  assert (Hexact : undisturbed → tm_attempts w' = tm_attempts w ++ to_submit (tm_used w) ((m, att) :: ms) ∧
    tm_received w' = tm_received w ++ filter (λ y, accepted y = true) (to_submit (tm_used w) ((m, att) :: ms))).
  { intros Hq. destruct (He Hq) as (Ha1 & Hr1 & Hu1), (He' Hq) as (Ha2 & Hr2).
    rewrite to_submit_cons, Ha2, Ha1, Hr', Hr2, Hr1, filter_app, Hu1. by rewrite <- !app_assoc. }
  destruct Hr as [Hr|(Hr & Hok & Hnew & Hin)].
  - exists w', sent. split; [done|]. rewrite Hr in Hr'. split; [by_growth|done|by constructor|done| | |].
    + eapply Forall_impl; [exact Hf|]. intros y (? & ? & ?). split_and!; [done|by_growth|done].
    + intros Hq. constructor; [|by apply Hl']. cbn. intros Hv. specialize (Hl Hq Hv). by_growth.
    + intros Hq. destruct (Hexact Hq) as [Ha Hrec]. split; [exact Ha|]. rewrite Hr' in Hrec.
      by apply app_inv_head in Hrec.
  - exists w', (submission (m, att) :: sent). split; [done|].
    assert (Hr2 : tm_received w' = tm_received w ++ submission (m, att) :: sent) by (by rewrite Hr', Hr, <- app_assoc).
    split; [by_growth|done|by constructor| | | |].
    + cbn [map]. constructor; [|done]. intros (y & Hy & Hin')%list_elem_of_fmap.
      apply (proj1 (Forall_forall _ _) Hf) in Hin' as (_ & Hno & _). rewrite <- Hy in Hno. cbn in Hno.
      by rewrite Hx in Hno.
    + constructor; [cbn; rewrite Hx; split_and!; [done|done|by_growth]|].
      eapply Forall_impl; [exact Hf|]. intros y (? & ? & ?). split_and!; [done|by_growth|done].
    + intros Hq. constructor; [|by apply Hl']. cbn. intros Hv. specialize (Hl Hq Hv). by_growth.
    + intros Hq. destruct (Hexact Hq) as [Ha Hrec]. split; [exact Ha|]. rewrite Hr2 in Hrec.
      by apply app_inv_head in Hrec.
Qed.
End Receiving.

(** C28. The receiving loop against the contract, whose nonces become used by
    what it receives and by others in between, over a network that may refuse
    calls or lose their answers.  It always runs to the end.  What the contract
    receives are messages of the list in order, each with its own attestation
    and at most one per nonce, none of a nonce used before.  When the calls are
    answered every acceptable message has its nonce used at the end, so a
    failure on one message never stops the others; and when nobody else
    interferes the submissions tried are exactly the messages whose nonce is
    unused when their turn comes, and those received the acceptable ones among
    them. *)
Theorem receive_all_exact (nonce_of : bytes → string) (valid : bytes → string → bool) (net : nat → network)
    (others : nat → gset string) (w : transmitter) (ms : list (message_hash_and_bytes * string)) :
  Forall (λ x, nonce_of (messageBytes x.1) = nonceHash x.1) ms →
  ∃ w' sent, run_state (transmitter_services nonce_of valid net others) w (receive_all ms) = (Ok tt, w') ∧
    all_received nonce_of valid net others w w' ms sent.
Proof. apply receive_all_run. Qed.

(** One message twice and another one, whose nonce is used already. *)
Definition sample_message : message_hash_and_bytes :=
  {| messageHash := "0xh"; messageBytes := [x01]; nonceHash := "1"; m_destinationDomain := Some 3 |}.
Definition received_message : message_hash_and_bytes :=
  {| messageHash := "0xk"; messageBytes := [x02]; nonceHash := "2"; m_destinationDomain := Some 3 |}.
Definition sample_nonce (b : bytes) : string := if bool_decide (b = [x01]) then "1" else "2".
Definition sample_transmitter : transmitter :=
  {| tm_used := {["2"%string]}; tm_attempts := []; tm_received := []; tm_calls := 0 |}.

Lemma receive_all_exact_witness :
  ∃ w', run_state (transmitter_services sample_nonce (λ _ _, true) (λ _, Answers) (λ _, ∅)) sample_transmitter
          (receive_all [(sample_message, "0xa"); (received_message, "0xc"); (sample_message, "0xb")]%string) = (Ok tt, w') ∧
    tm_attempts w' = [([x01], "0xa"%string)] ∧ tm_received w' = [([x01], "0xa"%string)].
Proof.
  destruct (receive_all_exact sample_nonce (λ _ _, true) (λ _, Answers) (λ _, ∅) sample_transmitter
    [(sample_message, "0xa"); (received_message, "0xc"); (sample_message, "0xb")]%string)
    as (w' & sent & Hrun & [_ Hr _ _ _ _ He]); [repeat constructor|].
  exists w'. split; [exact Hrun|]. destruct He as [Ha Hs]; [by split|].
  rewrite Hr, Hs, Ha. split; vm_compute; reflexivity.
Defined.

(** ** The mainnet direction *)

(** Ethereum mainnet as the L1; decoded events carry an [l1Token]. *)
Definition mainnet_l1 : ∀ X, cctpE X → result X → Prop :=
  λ X c, match c in cctpE Y return result Y → Prop with
  | CompanionChainId => λ r, ∃ s, r = Ok s ∧ parseInt s = Some 1
  | QueryFilter _ _ _ _ => λ r, match r with
      | Ok es => Forall (λ e, is_Some (ev_l1Token e)) es | Err _ => True end
  | _ => λ _, True
  end.

(** No message is looked at, attested or submitted. *)
Definition nothing_received (_ : list (event cctpE)) : ∀ X, cctpE X → Prop :=
  λ X c, match c with
  | GetTransactionReceipt _ _ | FetchAttestation _ | UsedNonces _ | ReceiveMessage _ _ => False
  | _ => True
  end.

Lemma filter_none {A} (P : A → Prop) `{∀ x, Decision (P x)} (l : list A) :
  Forall (λ x, ¬ P x) l → filter P l = [].
Proof. induction 1 as [|x l Hx _ IH]; [done|]. by rewrite filter_cons_False. Qed.

Lemma scan_loop_nothing (q : Z → Z → prog cctpE (list chain_event)) l m fuel f acc h :
  (∀ a b h, wp mainnet_l1 nothing_received
     (λ _ r, match r with Ok es => es = [] | Err _ => True end) h (q a b)) →
  wp mainnet_l1 nothing_received
    (λ _ r, match r with Ok es => es = acc | Err _ => True end) h (scan_loop q l m fuel f acc).
Proof.
  intros Hq. revert f acc h. induction fuel as [|fuel IH]; intros f acc h; cbn [scan_loop]; [done|].
  case_match; [|done]. case_match; [done|]. apply wp_bind.
  eapply wp_mono; [intros; eassumption| |apply Hq].
  intros h' [es|e]; [|done]. intros ->. rewrite app_nil_r. apply IH.
Qed.

(** On mainnet the script cannot receive messages on L2: without
    [RECEIVE_MESSAGES_ON=l1] it filters the relayed tokens by the [usdc] entry
    of the L1 table, which mainnet does not have, so every event is dropped and
    it ends without looking at a single message. *)
Theorem mainnet_l2_receives_nothing `{Keccak} `{AcrossConstants}
    (decode : bytes → result bytes) (lookback : option string) (fuel : nat) (ev : env cctpE) :
  respects mainnet_l1 ev →
  trace_ok nothing_received (trace ev (main decode None lookback fuel)).
Proof.
  intros Hev.
  assert (Husdc : l1 (Some 1) "usdc" = Ok JUndef).
  { unfold l1. rewrite L1_ADDRESS_MAP_eval. vm_compute. reflexivity. }
  refine (proj1 (wp_trace _ _ (λ _ _, True) ev _ Hev _)).
  unfold main. cbn [env_or]. rewrite bool_decide_eq_false_2 by done.
  cbn [bind call wp]. split; [done|]. intros r (s & -> & Hs). cbn [bind lift wp]. rewrite Hs.
  split; [done|]. intros [id|e] _; [|done]. cbn [bind lift]. apply wp_bind.
  eapply wp_mono with (Q := λ _ r, match r with Ok es => es = [] | Err _ => True end);
    [intros; eassumption| |].
  { intros h [es|e]; [|done]. intros ->. done. }
  unfold getL1SrcEvents. cbn [bind call wp]. split; [done|]. intros [latest|e] _; [|done].
  cbn [bind lift wp]. split; [done|]. intros [hub|e] _; [|done].
  cbn [bind lift wp]. split; [done|]. intros [[]|e] _; [|done]. cbn [bind lift].
  unfold scan. rewrite ?Hs. destruct (parseInt (env_or lookback "8640")) as [n|]; [|done].
  apply scan_loop_nothing. intros a b h. cbn [bind call wp]. split; [done|].
  intros [es|e] Hes; [|done]. cbn [bind lift]. destruct es as [|e0 es]; [done|].
  rewrite Husdc. cbn [bind lift wp]. apply filter_none.
  eapply Forall_impl; [exact Hes|]. intros e [a0 Ha]. unfold is_usdc.
  rewrite Ha, bool_decide_eq_false_2 by done. done.
Qed.

Lemma mainnet_l2_receives_nothing_witness :
  let ev : env cctpE := λ _ X c,
    match c in cctpE Y return result Y with
    | CompanionChainId => Ok "1"%string
    | OwnChainId => Ok "42161"%string
    | GetBlockNumber _ => Ok 20000000
    | HubPoolAddress | SpokePoolAddress _ => Ok "0xhub"%string
    | ContractFactory _ => Ok tt
    | QueryFilter _ _ _ _ =>
        Ok [{| transactionHash := "0xt"; ev_l1Token := Some "0xA0b86991c6218b36c1d19D4a2e9Eb0cE3606eB48"%string |}]
    | GetTransactionReceipt _ _ => Ok None
    | FetchAttestation _ => Err TypeError
    | MessageTransmitter _ => Ok tt
    | UsedNonces _ => Ok 0
    | ReceiveMessage _ _ => Err TypeError
    | WaitForTx _ => Ok tt
    end in
  trace_ok nothing_received (trace ev (main (λ b, Ok b) None (Some "2000"%string) 5)) ∧
  length (trace ev (main (λ b, Ok b) None (Some "2000"%string) 5)) = 7%nat.
Proof.
  intros ev. split; [|vm_compute; reflexivity].
  apply mainnet_l2_receives_nothing. intros h X c. destruct c; cbn; try exact I.
  - exists "1"%string. split; reflexivity.
  - repeat constructor. eexists; reflexivity.
Defined.
