(* ===== verification/ClaimLinea.v ===== *)
(** * scripts/claimLineaMessages.ts: claiming Linea messages

    The script finds the transactions that sent messages between Ethereum and
    Linea, asks the Linea SDK for their messages, waits until each is known on
    the other chain and claims those not claimed yet.  The SDK, the chains and
    the deployments are services; the block scan is [EventScan]. *)

From stdpp Require Import base strings list.
From Stdlib Require Import ZArith Lia.
From S2P Require Import Prelude JsText Consts EventScan.

(** [OnChainMessageStatus] of the SDK. *)
Inductive OnChainMessageStatus := UNKNOWN | CLAIMABLE | CLAIMED.
#[export] Instance OnChainMessageStatus_eq_dec : EqDecision OnChainMessageStatus.
Proof. solve_decision. Defined.

(** A [MessageSent] event: its hash and the rest of its fields. *)
Record linea_message := { messageHash : string; payload : string }.

(** The fees of a claim transaction. *)
Record fees := { maxFeePerGas : Z; maxPriorityFeePerGas : Z }.

Inductive lineaE : Type → Type :=
| CompanionChainId : lineaE string
| OwnChainId : lineaE string
| GetSigners : lineaE unit
| GetMessageService (on : layer) (address : jsval) : lineaE unit   (* [sdk.getL1Contract], [sdk.getL2Contract] *)
| GetBlockNumber (on : layer) : lineaE Z
| GetDeployment (on : layer) (name : string) : lineaE string
| ContractFactory (artifact : string) : lineaE unit
| QueryFilter (artifact eventName : string) (fromBlock toBlock : Z) : lineaE (list chain_event)
| GetMessagesByTransactionHash (src : layer) (txHash : string) : lineaE (option (list linea_message))
| GetMessageStatus (dst : layer) (hash : string) : lineaE OnChainMessageStatus
| Get1559Fees (dst : layer) : lineaE fees
| EstimateClaimGas (dst : layer) (m : linea_message) (f : fees) : lineaE Z
| Claim (dst : layer) (m : linea_message) (f : fees) (gasLimit : Z) : lineaE string
| WaitForTx (txHash : string) : lineaE unit.

Section Script.
Context `{AcrossConstants}.

(** The scan of this file, the same text as the one of the CCTP script. *)
Definition getSrcEvents (queryFn : Z → Z → prog lineaE (list chain_event))
    (latestBlock maxBlockLookback : Z) (blockLookback : option Z) : prog lineaE (list chain_event) :=
  scan queryFn latestBlock maxBlockLookback blockLookback.

(** Both filters are queried together; the results are joined in this order. *)
Definition getL1SrcEvents (blockLookback : option Z) : prog lineaE (list chain_event) :=
  let! l1LatestBlock := call (GetBlockNumber L1) in
  let! hubPool := call (GetDeployment L1 "HubPool") in
  call (ContractFactory "Linea_Adapter") ;;
  getSrcEvents (λ fromBlock toBlock,
    let! tokensRelayedEvents := call (QueryFilter "Linea_Adapter" "TokensRelayed" fromBlock toBlock) in
    let! messageRelayedEvents := call (QueryFilter "Linea_Adapter" "MessageRelayed" fromBlock toBlock) in
    Ret (tokensRelayedEvents ++ messageRelayedEvents))
    l1LatestBlock MAX_L1_BLOCK_LOOKBACK blockLookback.

Definition getL2SrcEvents (blockLookback : option Z) : prog lineaE (list chain_event) :=
  let! l2LatestBlock := call (GetBlockNumber L2) in
  let! spokePool := call (GetDeployment L2 "Linea_SpokePool") in
  call (ContractFactory "Linea_SpokePool") ;;
  getSrcEvents (λ fromBlock toBlock, call (QueryFilter "Linea_SpokePool" "LineaTokensBridged" fromBlock toBlock))
    l2LatestBlock MAX_L2_BLOCK_LOOKBACK blockLookback.

(** The loop over the distinct transactions. *)
Definition messages_sent (src : layer) (txHashes : list string) : prog lineaE (list linea_message) :=
  let! found := for_collect txHashes (λ h, call (GetMessagesByTransactionHash src h)) in
  Ret (concat (map (default []) found)).

(** Asking again while the status is unknown; [fuel] bounds the attempts. *)
Fixpoint wait_known (fuel : nat) (dst : layer) (hash : string) : prog lineaE OnChainMessageStatus :=
  match fuel with
  | O => Throw (JsError "out of fuel")
  | S fuel' =>
      let! messageStatus := call (GetMessageStatus dst hash) in
      if bool_decide (messageStatus = UNKNOWN) then wait_known fuel' dst hash
      else Ret messageStatus
  end.

Definition claim_one (fuel : nat) (dst : layer) (m : linea_message) : prog lineaE unit :=
  let! messageStatus := wait_known fuel dst (messageHash m) in
  if bool_decide (messageStatus = CLAIMED) then Ret tt
  else
    try_catch
      (let! fees := call (Get1559Fees dst) in
       let! limit := call (EstimateClaimGas dst m fees) in
       let! hash := call (Claim dst m fees (limit * 2)) in
       call (WaitForTx hash))
      (λ _, Ret tt).

Definition claim_all (fuel : nat) (dst : layer) (ms : list linea_message) : prog lineaE unit :=
  for_each ms (claim_one fuel dst).

(** [CLAIM_MESSAGES_ON] and [BLOCK_LOOKBACK]; [fuel] is for each message. *)
Definition main (claim_on lookback : option string) (fuel : nat) : prog lineaE unit :=
  let claimMessagesOn := env_or claim_on "l2" in
  let on_l1 := bool_decide (claimMessagesOn = "l1"%string) in
  let l1BlockLookback := parseInt (env_or lookback "8640") in
  let l2BlockLookback := parseInt (env_or lookback "17380") in
  let! l1Id := call CompanionChainId in
  let l1ChainId := parseInt l1Id in
  let! l2Id := call OwnChainId in
  let l2ChainId := parseInt l2Id in
  call GetSigners ;;
  let! l1Address := lift (l1 l1ChainId "lineaMessageService") in
  call (GetMessageService L1 l1Address) ;;
  let! l2Address := lift (l2 l2ChainId "lineaMessageService") in
  call (GetMessageService L2 l2Address) ;;
  let '(src, dst) := if on_l1 then (L2, L1) else (L1, L2) in
  let! srcEvents :=
    (if on_l1 then getL2SrcEvents l2BlockLookback else getL1SrcEvents l1BlockLookback) in
  let! relevantMessageSentEvents := messages_sent src (unique (map transactionHash srcEvents)) in
  match relevantMessageSentEvents with
  | [] => Ret tt
  | _ => claim_all fuel dst relevantMessageSentEvents
  end.
End Script.

(** ** Claims made by a run *)

Definition claims (h : list (event lineaE)) : list linea_message :=
  omap (λ e, match ev_cmd e with Claim _ m _ _ => Some m | _ => None end) h.

(** The hashes whose status was asked for, each run of equal questions once. *)
Definition statuses_asked (h : list (event lineaE)) : list string :=
  omap (λ e, match ev_cmd e with GetMessageStatus _ x => Some x | _ => None end) h.

(** The SDK's answers: the status of a message is one of [possible]; statuses
    are always answered, other calls may fail but not end the process. *)
Definition linea_sdk (possible : string → list OnChainMessageStatus) (X : Type) (c : lineaE X)
    (r : result X) : Prop :=
  match c in lineaE Y return result Y → Prop with
  | GetMessageStatus _ h => λ r, ∃ s, r = Ok s ∧ s ∈ possible h
  | _ => λ r, match r with Ok _ => True | Err e => ∀ x, e ≠ ProcessExit x end
  end r.

(** A claim is for one of [ms] on the destination, that may be claimable, with
    twice the estimated gas; nothing else is sent. *)
Definition claims_claimable (dst : layer) (possible : string → list OnChainMessageStatus)
    (ms : list linea_message) (h : list (event lineaE)) (X : Type) (c : lineaE X) : Prop :=
  match c with
  | Claim d m f _ => d = dst ∧ m ∈ ms ∧ CLAIMABLE ∈ possible (messageHash m) ∧
                     last h = Some (Event (EstimateClaimGas dst m f))
  | GetMessageStatus d x => d = dst ∧ ∃ m, m ∈ ms ∧ messageHash m = x
  | Get1559Fees d => d = dst
  | EstimateClaimGas d m _ => d = dst ∧ m ∈ ms
  | WaitForTx _ => True
  | _ => False
  end.

(** Carries a fact about the history over calls it does not count. *)
Ltac frame_by H := repeat (apply H; [|reflexivity]); first [reflexivity|assumption].

Section Claims.
Context (dst : layer) (possible : string → list OnChainMessageStatus) (ms : list linea_message).
Local Abbreviation spec Q h p := (wp (linea_sdk possible) (claims_claimable dst possible ms) Q h p).

Lemma wait_known_wp fuel m h :
  m ∈ ms →
  spec (λ h' r, claims h' = claims h ∧
          match r with
          | Ok s => s ≠ UNKNOWN ∧ s ∈ possible (messageHash m)
          | Err _ => fuel = 0%nat ∨ UNKNOWN ∈ possible (messageHash m) end ∧
          (UNKNOWN ∉ possible (messageHash m) → is_ok r →
             statuses_asked h' = statuses_asked h ++ [messageHash m]))
    h (wait_known fuel dst (messageHash m)).
Proof.
  intros Hm. revert h. induction fuel as [|fuel IH]; intros h; cbn [wait_known].
  - cbn. split_and!; [done|by left|done].
  - cbn [bind call wp]. split; [split; [done|by exists m]|]. intros r (s & -> & Hs). cbn [lift bind].
    case_bool_decide as Hu; [subst s|].
    + eapply wp_mono; [intros; eassumption| |apply IH]. intros h' r (Hc & Hr & _).
      split; [by rewrite Hc; unfold claims; rewrite omap_app, app_nil_r|].
      split; [|by intros Hn _; destruct (Hn Hs)]. destruct r as [s|]; [done|by right].
    + cbn [wp]. split; [by unfold claims; rewrite omap_app, app_nil_r|]. split; [done|].
      intros _ _. unfold statuses_asked. by rewrite omap_app.
Qed.

(** The guarded part makes at most one claim, of [m], and never fails. *)
Lemma claim_guarded_wp m h :
  m ∈ ms → CLAIMABLE ∈ possible (messageHash m) →
  spec (λ h' r, r = Ok tt ∧ statuses_asked h' = statuses_asked h ∧
          (claims h' = claims h ∨ claims h' = claims h ++ [m])) h
    (try_catch
      (let! fees := call (Get1559Fees dst) in
       let! limit := call (EstimateClaimGas dst m fees) in
       let! hash := call (Claim dst m fees (limit * 2)) in
       call (WaitForTx hash))
      (λ _, Ret tt)).
Proof.
  intros Hm Hc.
  assert (∀ (h' : list (event lineaE)) e, (∀ x, e ≠ ProcessExit x) →
    statuses_asked h' = statuses_asked h → claims h' = claims h ∨ claims h' = claims h ++ [m] →
    spec (λ h' r, r = Ok tt ∧ statuses_asked h' = statuses_asked h ∧
          (claims h' = claims h ∨ claims h' = claims h ++ [m])) h'
      (try_catch (Throw (A := unit) e) (λ _, Ret tt))) as Hfail.
  { intros h' [| |x] He ? ?; cbn; [done..|by destruct (He x)]. }
  assert (∀ h' e, statuses_asked h' = statuses_asked h → statuses_asked [e] = [] →
    statuses_asked (h' ++ [e]) = statuses_asked h) as Hask.
  { intros h' e Hh He. unfold statuses_asked in *. rewrite omap_app, Hh, He. apply app_nil_r. }
  assert (∀ h' e l, claims h' = l → claims [e] = [] → claims (h' ++ [e]) = l) as Hcl.
  { intros h' e l Hh He. unfold claims in *. rewrite omap_app, Hh, He. apply app_nil_r. }
  cbn. split; [done|]. intros [f|e] Hr; cbn in Hr; [|apply Hfail; [done|frame_by Hask|left; frame_by Hcl]].
  cbn. split; [done|]. intros [limit|e] Hr2; cbn in Hr2;
    [|apply Hfail; [done|frame_by Hask|left; frame_by Hcl]].
  cbn. split; [split_and!; [done..|by rewrite last_snoc]|].
  assert (claims (((h ++ [Event (Get1559Fees dst)]) ++ [Event (EstimateClaimGas dst m f)]) ++
                  [Event (Claim dst m f (limit * 2))]) = claims h ++ [m]) as Hclaim.
  { unfold claims. rewrite !omap_app. cbn. by rewrite !app_nil_r. }
  intros [hash|e] Hr3; cbn in Hr3; [|apply Hfail; [done|frame_by Hask|by right]].
  cbn. split; [done|]. intros [[]|e] Hr4; cbn in Hr4;
    [|apply Hfail; [done|frame_by Hask|right; frame_by Hcl]].
  cbn. split_and!; [done|frame_by Hask|right; frame_by Hcl].
Qed.

(** Whether the loop cannot stop on the messages [todo]: each is known. *)
Definition all_known (fuel : nat) (todo : list linea_message) : Prop :=
  fuel ≠ 0%nat ∧ ∀ m, m ∈ todo → UNKNOWN ∉ possible (messageHash m).

Lemma claim_one_wp fuel m h :
  m ∈ ms →
  spec (λ h' r, (claims h' = claims h ∨ claims h' = claims h ++ [m]) ∧
          (all_known fuel [m] → r = Ok tt ∧ statuses_asked h' = statuses_asked h ++ [messageHash m])) h
    (claim_one fuel dst m).
Proof.
  intros Hm. unfold claim_one. apply wp_bind.
  eapply wp_mono; [intros; eassumption| |by apply wait_known_wp].
  intros h1 [s|e] (Hc1 & Hs & Hask); cbn in Hask.
  - destruct Hs as [Hu Hs]. case_bool_decide as Hcl.
    + cbn. split; [by left|]. intros [_ Hk]. split; [done|]. apply Hask; [|done]. by apply Hk; left.
    + destruct s; [done| |done].
      eapply wp_mono; [intros; eassumption| |by apply claim_guarded_wp].
      intros h2 r (-> & Ha2 & Hc2). rewrite Hc1 in Hc2. split; [done|]. intros [_ Hk]. split; [done|].
      rewrite Ha2. apply Hask; [|done]. by apply Hk; left.
  - split; [by left|]. intros [Hf Hk]. destruct Hs as [?|Hs]; [done|]. destruct (Hk m); [by left|done].
Qed.

Lemma claim_all_wp fuel todo h :
  (∀ m, m ∈ todo → m ∈ ms) →
  spec (λ h' r, (∃ made, claims h' = claims h ++ made ∧ sublist made todo) ∧
          (all_known fuel todo →
             r = Ok tt ∧ statuses_asked h' = statuses_asked h ++ map messageHash todo)) h
    (claim_all fuel dst todo).
Proof.
  revert h. induction todo as [|m todo IH]; intros h Hsub; cbn [claim_all for_each map].
  - cbn. split; [exists []; split; [by rewrite app_nil_r|constructor]|]. intros _.
    by rewrite app_nil_r.
  - apply wp_bind. eapply wp_mono; [intros; eassumption| |apply claim_one_wp, Hsub; by left].
    intros h1 r (Hc & Hk).
    assert (∃ made, claims h1 = claims h ++ made ∧ (made = [] ∨ made = [m])) as (made & Hc1 & Hmade).
    { destruct Hc as [Hc|Hc]; [exists []; rewrite app_nil_r|exists [m]]; by auto. }
    assert (all_known fuel (m :: todo) →
            all_known fuel [m] ∧ all_known fuel todo) as Hsplit.
    { intros [Hf Ha]. split; (split; [done|]); intros x Hx; apply Ha.
      - apply list_elem_of_singleton in Hx as ->. by left.
      - by right. }
    destruct r as [[]|e].
    + eapply wp_mono; [intros; eassumption| |apply IH; intros; apply Hsub; by right].
      intros h2 r2 ((made2 & Hc2 & Hl) & Hk2). split.
      * exists (made ++ made2). rewrite Hc2, Hc1, app_assoc. split; [done|].
        destruct Hmade as [-> | ->]; cbn; [by apply sublist_cons|by apply sublist_skip].
      * intros [Ha1 Ha2]%Hsplit. destruct (Hk Ha1) as [_ Hs1]. destruct (Hk2 Ha2) as [-> Hs2].
        split; [done|]. by rewrite Hs2, Hs1, <- app_assoc.
    + split.
      * exists made. split; [done|]. destruct Hmade as [-> | ->]; [apply sublist_nil_l|].
        apply sublist_skip, sublist_nil_l.
      * intros [Ha1 _]%Hsplit. destruct (Hk Ha1) as [? _]. done.
Qed.
End Claims.

(** ** Property *)

(** C36. The claiming loop, whatever fails: it claims messages in the order
    they were found and each at most as often as it was found, only on the
    destination chain and only messages the SDK reports neither unknown nor
    claimed, right after estimating their gas.  When every message is known on
    the destination chain it always runs to the end, asking for the status of
    each message once and in order: a failing claim never stops the others. *)
Theorem claim_all_safe (possible : string → list OnChainMessageStatus) (fuel : nat) (dst : layer)
    (ms : list linea_message) (ev : env lineaE) (Hev : respects (linea_sdk possible) ev) :
  trace_ok (claims_claimable dst possible ms) (trace ev (claim_all fuel dst ms)) ∧
  sublist (claims (trace ev (claim_all fuel dst ms))) ms ∧
  (all_known possible fuel ms →
   outcome ev (claim_all fuel dst ms) = Ok tt ∧
   statuses_asked (trace ev (claim_all fuel dst ms)) = map messageHash ms).
Proof.
  pose proof (wp_trace _ _ _ ev _ Hev (claim_all_wp dst possible ms fuel ms [] (λ x Hx, Hx)))
    as (Ht & (made & Hc & Hl) & Hk).
  cbn in Hc. rewrite Hc. by split_and!.
Qed.

(** Two messages, the first one claimed already; the claim of the second fails. *)
Definition sample_messages : list linea_message :=
  [{| messageHash := "0xa"; payload := "" |}; {| messageHash := "0xb"; payload := "" |}].
Definition sample_status (h : string) : OnChainMessageStatus :=
  if bool_decide (h = "0xa"%string) then CLAIMED else CLAIMABLE.
Definition sample_sdk : env lineaE := λ _ X c,
  match c in lineaE Y return result Y with
  | CompanionChainId | OwnChainId | GetDeployment _ _ | Claim _ _ _ _ => Err (JsError "reverted")
  | GetSigners | GetMessageService _ _ | ContractFactory _ | WaitForTx _ => Ok tt
  | GetBlockNumber _ => Ok 0
  | QueryFilter _ _ _ _ => Ok []
  | GetMessagesByTransactionHash _ _ => Ok None
  | GetMessageStatus _ h => Ok (sample_status h)
  | Get1559Fees _ => Ok {| maxFeePerGas := 1; maxPriorityFeePerGas := 1 |}
  | EstimateClaimGas _ _ _ => Ok 100000
  end.

Lemma claim_all_safe_witness :
  outcome sample_sdk (claim_all 1 L2 sample_messages) = Ok tt ∧
  statuses_asked (trace sample_sdk (claim_all 1 L2 sample_messages)) = ["0xa"; "0xb"]%string ∧
  length (claims (trace sample_sdk (claim_all 1 L2 sample_messages))) = 1%nat.
Proof.
  destruct (claim_all_safe (λ h, [sample_status h]) 1 L2 sample_messages sample_sdk) as (_ & _ & Hk).
  - intros h X []; cbn; try done. eexists. split; [reflexivity|by left].
  - destruct Hk as [Ho Hs].
    + split; [done|]. intros m Hm. apply list_elem_of_In in Hm. destruct Hm as [<-|[<-|[]]];
        cbn; by intros ?%list_elem_of_singleton.
    + split_and!; [exact Ho|exact Hs|vm_compute; reflexivity].
Defined.
