(* ===== verification/ClaimPolygonZkEvm.v ===== *)
(** * scripts/claimPolygonZkEvmMessages.ts: claiming Polygon zkEVM deposits

    The script asks the bridge's web API for the deposits sent to the hub pool
    (or to the spoke pool on L2), keeps those that are ready and not claimed,
    and claims each with the Merkle proof the API gives for it.  The API, the
    chains, the wallet and the bridge contract are services; what the script
    sends to the bridge follows the ABI written in the script. *)

From stdpp Require Import base strings list.
From Stdlib Require Import ZArith Lia.
From S2P Require Import Prelude JsText Interfaces Consts EventScan.

(** A deposit and a proof, as the API's JSON has them. *)
Record Message := {
  leaf_type : Z;
  orig_net : Z;
  orig_addr : string;
  amount : string;
  dest_net : Z;
  dest_addr : string;
  block_num : string;
  deposit_cnt : string;
  network_id : Z;
  tx_hash : string;
  claim_tx_hash : string;
  metadata : string;
  ready_for_claim : bool
}.

Record BridgeProof := {
  merkle_proof : list string;
  main_exit_root : string;
  rollup_exit_root : string
}.

Definition polygonZkEvmBridgeAbi : list abi_function :=
  [{| fn_name := "claimMessage";
      fn_inputs :=
        [("smtProof", "bytes32[32]"); ("index", "uint32"); ("mainnetExitRoot", "bytes32");
         ("rollupExitRoot", "bytes32"); ("originNetwork", "uint32"); ("originAddress", "address");
         ("destinationNetwork", "uint32"); ("destinationAddress", "address");
         ("amount", "uint256"); ("metadata", "bytes")] |};
   {| fn_name := "claimAsset";
      fn_inputs :=
        [("smtProof", "bytes32[32]"); ("index", "uint32"); ("mainnetExitRoot", "bytes32");
         ("rollupExitRoot", "bytes32"); ("originNetwork", "uint32"); ("originTokenAddress", "address");
         ("destinationNetwork", "uint32"); ("destinationAddress", "address");
         ("amount", "uint256"); ("metadata", "bytes")] |}]%string.

Inductive zkevmE : Type → Type :=
| ChainId (on : layer) : zkevmE string
| GetNodeUrl (network : string) (useHttps : bool) (chain : chain_key) : zkevmE string
| ConnectL1Wallet (url : string) : zkevmE unit    (* the configured mnemonic's wallet *)
| GetSigners : zkevmE unit
| GetDeployment (on : layer) (name : string) : zkevmE string
| FetchDeposits (url : string) : zkevmE (option (list Message))   (* [data.deposits] *)
| FetchProof (url : string) : zkevmE (option BridgeProof)               (* [data.proof] *)
| NewContract (address : jsval) (signer : layer) : zkevmE unit
| BridgeCall (f : abi_function) (args : list jsval) : zkevmE string
| WaitForTx (txHash : string) : zkevmE unit.

(** [`${n}`] of a number, [NaN] included. *)
Definition template_number (n : option Z) : string :=
  match n with
  | None => "NaN"
  | Some z => if z <? 0 then "-" +:+ decimal (- z) else decimal z
  end.

(** ** The API *)
Definition deposits_url (apiBaseUrl target : string) (limit offset : Z) : string :=
  apiBaseUrl +:+ "/bridges/" +:+ target +:+ "?limit=" +:+ decimal limit +:+ "&offset=" +:+ decimal offset.

Definition proof_url (apiBaseUrl : string) (depositCount : option Z) (originNetwork : Z) : string :=
  apiBaseUrl +:+ "/merkle-proof?deposit_cnt=" +:+ template_number depositCount +:+
  "&net_id=" +:+ decimal originNetwork.

Definition getMessages (apiBaseUrl target : string) : prog zkevmE (option (list Message)) :=
  call (FetchDeposits (deposits_url apiBaseUrl target 100 0)).

Definition getProof (apiBaseUrl : string) (depositCount : option Z) (originNetwork : Z)
  : prog zkevmE (option BridgeProof) :=
  call (FetchProof (proof_url apiBaseUrl depositCount originNetwork)).

Definition getMessagesToClaimOnL1 (apiBaseUrl : string) : prog zkevmE (option (list Message)) :=
  let! hubPoolDeployment := call (GetDeployment L1 "HubPool") in
  getMessages apiBaseUrl hubPoolDeployment.

Definition getMessagesToClaimOnL2 (apiBaseUrl : string) : prog zkevmE (option (list Message)) :=
  let! spokePoolDeployment := call (GetDeployment L2 "PolygonZkEVM_SpokePool") in
  getMessages apiBaseUrl spokePoolDeployment.

(** ** Claiming *)

(** [Boolean(ready_for_claim) && !claim_tx_hash] *)
Definition claimable (m : Message) : bool :=
  ready_for_claim m && bool_decide (claim_tx_hash m = ""%string).

Definition claim_args (proof : BridgeProof) (message : Message) : list jsval :=
  [JArr (merkle_proof proof); JStr (deposit_cnt message);
   JStr (main_exit_root proof); JStr (rollup_exit_root proof);
   JNum (orig_net message); JStr (orig_addr message);
   JNum (dest_net message); JStr (dest_addr message);
   JStr (amount message); JStr (metadata message)].

(** [contract.name(...args)]: a function missing from the ABI is a [TypeError]. *)
Definition contract_call (abi : list abi_function) (name : string) (args : list jsval) : prog zkevmE string :=
  match List.find (λ f, bool_decide (fn_name f = name)) abi with
  | Some f => call (BridgeCall f args)
  | None => Throw TypeError
  end.

Definition from_undefined {A} (o : option A) : prog zkevmE A :=
  match o with Some a => Ret a | None => Throw TypeError end.

Definition claim_one (apiBaseUrl : string) (on_l1 : bool) (message : Message) : prog zkevmE unit :=
  let asset := leaf_type message =? 0 in
  try_catch
    (let! data := getProof apiBaseUrl (parseInt (deposit_cnt message)) (if on_l1 then 1 else 0) in
     let! proof := from_undefined data in
     let args := claim_args proof message in
     let! claimTx :=
       (if asset then contract_call polygonZkEvmBridgeAbi "claimAsset" args
        else contract_call polygonZkEvmBridgeAbi "claimMessage" args) in
     call (WaitForTx claimTx))
    (λ _, Ret tt).

Section Script.
Context `{AcrossConstants}.

Definition api_base_url (l1ChainId : chain_key) : string :=
  if bool_decide (l1ChainId = Some 1) then "https://bridge-api.zkevm-rpc.com"
  else "https://bridge-api.public.zkevm-test.net".

(** [L1_ADDRESS_MAP[l1ChainId].polygonZkEvmBridge], or the entry of the L2 table. *)
Definition bridge_address (on_l1 : bool) (l1ChainId l2ChainId : chain_key) : result jsval :=
  if on_l1 then l1 l1ChainId "polygonZkEvmBridge" else l2 l2ChainId "polygonZkEvmBridge".

(** [CLAIM_MESSAGES_ON] *)
Definition main (claim_on : option string) : prog zkevmE unit :=
  let claimMessagesOn := env_or claim_on "l1" in
  let on_l1 := bool_decide (claimMessagesOn = "l1"%string) in
  let! l1Id := call (ChainId L1) in
  let l1ChainId := parseInt l1Id in
  let! l2Id := call (ChainId L2) in
  let l2ChainId := parseInt l2Id in
  let! url := call (GetNodeUrl (if bool_decide (l1ChainId = Some 1) then "mainnet" else "goerli")
                      true l1ChainId) in
  call (ConnectL1Wallet url) ;;
  call GetSigners ;;
  let bridgeApiBaseUrl := api_base_url l1ChainId in
  let! data :=
    (if on_l1 then getMessagesToClaimOnL1 bridgeApiBaseUrl
     else getMessagesToClaimOnL2 bridgeApiBaseUrl) in
  let! srcMessages := from_undefined data in
  match List.filter claimable srcMessages with
  | [] => Ret tt
  | relevantMessages =>
      let! address := lift (bridge_address on_l1 l1ChainId l2ChainId) in
      call (NewContract address (if on_l1 then L1 else L2)) ;;
      for_each relevantMessages (claim_one bridgeApiBaseUrl on_l1)
  end.
End Script.

(** * Properties *)

(** What a run sent to the bridge. *)
Definition bridge_calls (h : list (event zkevmE)) : list (abi_function * list jsval) :=
  omap (λ e, match ev_cmd e with BridgeCall f args => Some (f, args) | _ => None end) h.

(** The argument a call gives to an input of the function. *)
Definition argument (sent : abi_function * list jsval) (input : string) : option jsval :=
  js_lookup (zip (map fst (fn_inputs (fst sent))) (snd sent)) input.

(** The call claims the deposit [m] with the proof [p]: read by the names of
    the ABI, every input is the field of the deposit or of the proof it is for. *)
Definition claims_deposit (sent : abi_function * list jsval) (mp : Message * BridgeProof) : Prop :=
  let '(m, p) := mp in
  let asset := leaf_type m =? 0 in
  fst sent ∈ polygonZkEvmBridgeAbi ∧
  length (snd sent) = length (fn_inputs (fst sent)) ∧
  fn_name (fst sent) = (if asset then "claimAsset" else "claimMessage")%string ∧
  argument sent "smtProof" = Some (JArr (merkle_proof p)) ∧
  argument sent "index" = Some (JStr (deposit_cnt m)) ∧
  argument sent "mainnetExitRoot" = Some (JStr (main_exit_root p)) ∧
  argument sent "rollupExitRoot" = Some (JStr (rollup_exit_root p)) ∧
  argument sent "originNetwork" = Some (JNum (orig_net m)) ∧
  argument sent (if asset then "originTokenAddress" else "originAddress") = Some (JStr (orig_addr m)) ∧
  argument sent "destinationNetwork" = Some (JNum (dest_net m)) ∧
  argument sent "destinationAddress" = Some (JStr (dest_addr m)) ∧
  argument sent "amount" = Some (JStr (amount m)) ∧
  argument sent "metadata" = Some (JStr (metadata m)).

(** A world for the script: the chains, the deployments and the API's pages. *)
Record world := {
  chain_ids : layer → string;
  deployed : layer → string → string;
  deposits : string → option (list Message);
  proofs : string → option BridgeProof
}.

(** An exception a script can catch. *)
Definition no_exit {A} (r : result A) : Prop :=
  match r with Ok _ => True | Err e => ∀ x, e ≠ ProcessExit x end.

(** How the services answer in a world: the API's proofs may be missing,
    proofs, bridge calls and receipts may fail, and a contract cannot be made
    at an undefined address (ethers: "invalid contract address or ENS name"). *)
Definition answers (w : world) (X : Type) (c : zkevmE X) (r : result X) : Prop :=
  match c in zkevmE Y return result Y → Prop with
  | ChainId on => λ r, r = Ok (chain_ids w on)
  | GetDeployment on name => λ r, r = Ok (deployed w on name)
  | FetchDeposits url => λ r, r = Ok (deposits w url)
  | FetchProof url => λ r, r = Ok (proofs w url) ∨ (proofs w url = None ∧ no_exit r ∧ is_ok r = false)
  | GetNodeUrl _ _ _ | ConnectL1Wallet _ | GetSigners => λ r, is_ok r
  | NewContract JUndef _ => λ r, is_ok r = false
  | NewContract _ _ => λ r, is_ok r
  | BridgeCall _ _ | WaitForTx _ => no_exit
  end r.

(** The deposits the API has a proof for, with it. *)
Definition with_proofs (w : world) (base : string) (on_l1 : bool) (ms : list Message)
  : list (Message * BridgeProof) :=
  omap (λ m, pair m <$> proofs w (proof_url base (parseInt (deposit_cnt m)) (if on_l1 then 1 else 0))) ms.

(** The bridge contract is only made at the address of the table. *)
Definition made_at (address : result jsval) (h : list (event zkevmE)) (X : Type) (c : zkevmE X) : Prop :=
  match c with NewContract a _ => address = Ok a | _ => True end.

Section Claims.
Context (w : world) (base : string) (on_l1 : bool) (address : result jsval).
Local Abbreviation spec Q h p := (wp (answers w) (made_at address) Q h p).

Lemma caught {A} (Q : list (event zkevmE) → result unit → Prop) h (r : result A)
    (k : A → prog zkevmE unit) :
  no_exit r → (is_ok r = false → Q h (Ok tt)) →
  (∀ a, r = Ok a → spec Q h (try_catch (k a) (λ _, Ret tt))) →
  spec Q h (try_catch (bind (lift r) k) (λ _, Ret tt)).
Proof. destruct r as [a|[| |x]]; cbn; intros Hr HQ Hk; [by apply Hk|by apply HQ..|by destruct (Hr x)]. Qed.

Lemma bridge_calls_other h e : bridge_calls [e] = [] → bridge_calls (h ++ [e]) = bridge_calls h.
Proof. unfold bridge_calls. rewrite omap_app. intros ->. apply app_nil_r. Qed.

Lemma bridge_calls_snoc h f args :
  bridge_calls (h ++ [Event (BridgeCall f args)]) = bridge_calls h ++ [(f, args)].
Proof. unfold bridge_calls. by rewrite omap_app. Qed.

(** The call made for a deposit with its proof. *)
Definition claim_call (mp : Message * BridgeProof) : abi_function * list jsval :=
  let '(m, p) := mp in
  (if leaf_type m =? 0 then {| fn_name := "claimAsset";
      fn_inputs := fn_inputs (nth 1 polygonZkEvmBridgeAbi {| fn_name := ""; fn_inputs := [] |}) |}
   else nth 0 polygonZkEvmBridgeAbi {| fn_name := ""; fn_inputs := [] |}, claim_args p m).

Lemma claim_call_claims mp : claims_deposit (claim_call mp) mp.
Proof.
  destruct mp as [m p]. unfold claims_deposit, claim_call. destruct (leaf_type m =? 0).
  - split; [by right; left|]. by split_and!.
  - split; [by left|]. by split_and!.
Qed.

(** Sending the call for [m]: it is made once, whether or not it succeeds. *)
Lemma send_wp m p h l :
  bridge_calls h = l →
  spec (λ h' r, r = Ok tt ∧ bridge_calls h' = l ++ [claim_call (m, p)]) h
    (try_catch
      (let! claimTx :=
         (if leaf_type m =? 0 then contract_call polygonZkEvmBridgeAbi "claimAsset" (claim_args p m)
          else contract_call polygonZkEvmBridgeAbi "claimMessage" (claim_args p m)) in
       call (WaitForTx claimTx))
      (λ _, Ret tt)).
Proof.
  intros <-. cbn [claim_call].
  destruct (leaf_type m =? 0); (cbn; split; [done|]; intros r Hr; apply caught; [done| |];
    [intros _; split; [done|]; by rewrite bridge_calls_snoc
    |intros hash ->; cbn; split; [done|]; intros r2 Hr2;
     assert (try_catch (lift r2) (λ _, Ret tt) = Ret tt) as ->
       by (destruct r2 as [[]|[| |x]]; [done..|by destruct (Hr2 x)]);
     cbn; split; [done|]; by rewrite bridge_calls_other, bridge_calls_snoc]).
Qed.

Lemma zkevm_claim_one_wp m h :
  spec (λ h' r, r = Ok tt ∧
          bridge_calls h' = bridge_calls h ++ map claim_call (with_proofs w base on_l1 [m]))
    h (claim_one base on_l1 m).
Proof.
  unfold claim_one, getProof, with_proofs. cbn [omap list_omap].
  set (url := proof_url _ _ _). cbn [bind call try_catch wp]. split; [done|].
  intros r Hr. apply caught.
  - destruct Hr as [-> |(_ & ? & _)]; done.
  - intros Hf. destruct Hr as [-> |(Hp & _)]; [done|]. rewrite Hp. cbn.
    by rewrite bridge_calls_other, app_nil_r.
  - intros data ->. destruct Hr as [[= ->]|(_ & _ & ?)]; [|done].
    destruct (proofs w url) as [p|]; cbn [from_undefined bind].
    + cbn [option_fmap option_map fmap map]. apply send_wp. by apply bridge_calls_other.
    + cbn. by rewrite bridge_calls_other, app_nil_r.
Qed.

Lemma claim_loop_wp ms h :
  spec (λ h' r, r = Ok tt ∧
          bridge_calls h' = bridge_calls h ++ map claim_call (with_proofs w base on_l1 ms))
    h (for_each ms (claim_one base on_l1)).
Proof.
  revert h. induction ms as [|m ms IH]; intros h; cbn [for_each].
  - cbn. by rewrite app_nil_r.
  - apply wp_bind. eapply wp_mono; [intros; eassumption| |apply zkevm_claim_one_wp].
    intros h1 r (-> & H1). eapply wp_mono; [intros; eassumption| |apply IH].
    intros h2 r2 (-> & H2). split; [done|]. rewrite H2, H1, <- app_assoc, <- map_app. f_equal.
    f_equal. unfold with_proofs. by rewrite <- omap_app.
Qed.
End Claims.

(** The page of deposits the script reads: those of the hub pool on L1, or of
    the spoke pool on L2, in the world [w]. *)
Section Main.
Context `{HC : AcrossConstants} (w : world) (claim_on : option string).

Definition claims_on_l1 : bool := bool_decide (env_or claim_on "l1" = "l1"%string).
Definition base_url : string := api_base_url (parseInt (chain_ids w L1)).
Definition target : string :=
  if claims_on_l1 then deployed w L1 "HubPool" else deployed w L2 "PolygonZkEVM_SpokePool".
Definition page : option (list Message) := deposits w (deposits_url base_url target 100 0).
Definition bridge_at : result jsval :=
  bridge_address claims_on_l1 (parseInt (chain_ids w L1)) (parseInt (chain_ids w L2)).

Lemma main_wp :
  wp (answers w) (made_at bridge_at)
    (λ h r,
      match page with
      | None => r = Err TypeError ∧ bridge_calls h = []
      | Some ms =>
          match List.filter claimable ms, bridge_at with
          | [], _ => r = Ok tt ∧ bridge_calls h = []
          | _, Ok JUndef => is_ok r = false ∧ bridge_calls h = []
          | todo, Ok _ => r = Ok tt ∧ bridge_calls h = map claim_call (with_proofs w base_url claims_on_l1 todo)
          | _, Err e => r = Err e ∧ bridge_calls h = []
          end
      end) [] (main claim_on).
Proof.
  unfold main. fold claims_on_l1. cbn. split; [done|]. intros ? ->. cbn. split; [done|]. intros ? ->.
  cbn. fold base_url.
  split; [done|]. intros [url|] Hr1; [|done]. cbn. split; [done|]. intros [[]|] Hr2; [|done]. cbn.
  split; [done|]. intros [[]|] Hr3; [|done]. cbn [lift bind].
  set (h := [_; _; _; _; _]).
  assert (∀ on name, wp (answers w) (made_at bridge_at)
    (λ h' r, r = Ok (deposits w (deposits_url base_url (deployed w on name) 100 0)) ∧ bridge_calls h' = [])
    h (let! target := call (GetDeployment on name) in getMessages base_url target)) as Hpage.
  { intros on name. cbn. split; [done|]. intros ? ->. cbn. split; [done|]. intros ? ->. by cbn. }
  apply wp_bind. eapply wp_mono; [intros; eassumption| |].
  2: { unfold getMessagesToClaimOnL1, getMessagesToClaimOnL2.
       instantiate (1 := λ h' r, r = Ok page ∧ bridge_calls h' = []).
       unfold page, target. destruct claims_on_l1; apply Hpage. }
  intros h1 r (-> & Hh1). destruct page as [ms|]; [|done]. cbn [from_undefined bind].
  destruct (List.filter claimable ms) as [|m todo]; [done|]. fold bridge_at.
  destruct bridge_at as [a|e] eqn:Ha; [|done]. cbn [lift bind call wp]. split; [done|].
  intros r Hr. assert (bridge_calls (h1 ++ [Event (NewContract a (if claims_on_l1 then L1 else L2))]) = [])
    as Hh2 by by rewrite bridge_calls_other.
  assert ((∀ r, answers w unit (NewContract a (if claims_on_l1 then L1 else L2)) r → is_ok r) →
    wp (answers w) (made_at (Ok a))
      (λ h r, r = Ok tt ∧ bridge_calls h = map claim_call (with_proofs w base_url claims_on_l1 (m :: todo)))
      (h1 ++ [Event (NewContract a (if claims_on_l1 then L1 else L2))])
      (let! _ := lift r in for_each (m :: todo) (claim_one base_url claims_on_l1))) as Hloop.
  { intros Hok. specialize (Hok _ Hr). destruct r as [[]|]; [|done].
    eapply wp_mono; [intros; eassumption| |apply claim_loop_wp]. intros h' r (-> & Hl). by rewrite Hl, Hh2. }
  destruct a; [destruct r; [done|]; cbn; by rewrite Hh2|..]; by apply Hloop.
Qed.
End Main.

(** A deposit that is ready to be claimed and has no claim yet. *)
Definition open_deposit (m : Message) : Prop := ready_for_claim m = true ∧ claim_tx_hash m = ""%string.

#[export] Instance open_deposit_dec m : Decision (open_deposit m).
Proof. unfold open_deposit. apply _. Defined.

Lemma filter_claimable ms : List.filter claimable ms = filter open_deposit ms.
Proof.
  induction ms as [|m ms IH]; [done|]. rewrite filter_cons. cbn [List.filter]. rewrite IH.
  unfold claimable. destruct (decide (open_deposit m)) as [[-> Ht]|Hn].
  - by rewrite Ht.
  - destruct (ready_for_claim m) eqn:Hr; [|done]. cbn [andb].
    by rewrite bool_decide_eq_false_2 by (intros ?; by destruct Hn).
Qed.

(** C31. Against any world, the script ends normally and what it sends to
    the bridge is, in order, one call for each deposit of the API's page that
    is ready, not claimed yet and has a proof: [claimAsset] for assets and
    [claimMessage] for messages, with every input of the ABI given the field
    of that deposit, or of that deposit's own proof, it stands for.  Missing
    proofs and failing claims never stop the others, and the bridge is the
    table's for the chain the messages are claimed on. *)
Theorem zkevm_claims_exact `{HC : AcrossConstants} (w : world) (claim_on : option string)
    (ev : env zkevmE) (ms : list Message) (bridge : string)
    (Hev : respects (answers w) ev) (Hpage : page w claim_on = Some ms)
    (Hbridge : bridge_at w claim_on = Ok (JStr bridge)) :
  let claimed := with_proofs w (base_url w) (claims_on_l1 claim_on) (filter open_deposit ms) in
  outcome ev (main claim_on) = Ok tt ∧
  Forall2 claims_deposit (bridge_calls (trace ev (main claim_on))) claimed ∧
  trace_ok (made_at (Ok (JStr bridge))) (trace ev (main claim_on)).
Proof.
  intros claimed. subst claimed. rewrite <- filter_claimable.
  set (claimed := with_proofs _ _ _ _).
  destruct (wp_trace _ _ _ ev _ Hev (main_wp w claim_on)) as [Ht HQ].
  rewrite Hpage, Hbridge in *.
  assert (outcome ev (main claim_on) = Ok tt ∧ bridge_calls (trace ev (main claim_on)) =
    map claim_call claimed)
    as [-> ->] by (subst claimed; by destruct (List.filter claimable ms)).
  split_and!; [done| |done]. clear. induction claimed; constructor; [apply claim_call_claims|done].
Qed.

(** A name that the row of a chain does not hold is not found. *)
Lemma entry_absent (table : address_table) (name : string) (chain : chain_key) :
  Forall (λ r, chain = Some (fst r) → js_lookup (snd r) name = None) table →
  entry table chain name = Ok JUndef ∨ entry table chain name = Err TypeError.
Proof.
  intros Ht. unfold entry, row_of. destruct chain as [c|]; [|by right].
  destruct (js_lookup table c) as [row|] eqn:Hrow; [|by right]. left.
  apply js_lookup_Some_in in Hrow. rewrite Forall_forall in Ht.
  specialize (Ht _ Hrow eq_refl). cbn in Ht. by rewrite Ht.
Qed.

(** The address tables name a Polygon zkEVM bridge on chain 1442 only. *)
Lemma bridge_only_1442 `{HC : AcrossConstants} on_l1 c1 c2 :
  on_l1 = true ∨ c2 ≠ Some 1442 →
  bridge_address on_l1 c1 c2 = Ok JUndef ∨ bridge_address on_l1 c1 c2 = Err TypeError.
Proof.
  assert (Forall (λ r, js_lookup (snd r) "polygonZkEvmBridge" = None) L1_ADDRESS_MAP ∧
          Forall (λ r, fst r = 1442 ∨ js_lookup (snd r) "polygonZkEvmBridge" = None) L2_ADDRESS_MAP)
    as [H1 H2].
  { rewrite L1_ADDRESS_MAP_eval, L2_ADDRESS_MAP_eval.
    split; apply (bool_decide_unpack _); vm_compute; reflexivity. }
  intros Hm. unfold bridge_address. destruct on_l1; apply entry_absent; eapply Forall_impl; try done.
  intros [c row] [Hr|Hr] Hc; [|done]. cbn in *. subst. by destruct Hm.
Qed.

(** The only Polygon zkEVM bridge in the address tables is the one of the
    test chain 1442, so in the default mode (claiming on L1), on whatever
    chains, and when claiming on any other L2, mainnet's 1101 included, the
    script throws as soon as there is something to claim, before anything is
    sent to the bridge. *)
Theorem zkevm_l1_claims_nothing `{HC : AcrossConstants} (w : world) (claim_on : option string)
    (ev : env zkevmE) (ms : list Message)
    (Hev : respects (answers w) ev) (Hpage : page w claim_on = Some ms)
    (Hmode : claims_on_l1 claim_on = true ∨ parseInt (chain_ids w L2) ≠ Some 1442)
    (Htodo : filter open_deposit ms ≠ []) :
  is_ok (outcome ev (main claim_on)) = false ∧ bridge_calls (trace ev (main claim_on)) = [].
Proof.
  destruct (wp_trace _ _ _ ev _ Hev (main_wp w claim_on)) as [_ HQ].
  rewrite <- filter_claimable in Htodo.
  rewrite Hpage in HQ. destruct (List.filter claimable ms) as [|m todo]; [done|].
  destruct (bridge_only_1442 _ (parseInt (chain_ids w L1)) _ Hmode) as [Hb|Hb];
    unfold bridge_at in HQ; rewrite Hb in HQ; destruct HQ as [HQ Hc]; by rewrite ?HQ.
Qed.

(** A page with four deposits: a claimed one, one that is not ready, an asset
    and a message; the API has no proof for the last. *)
Definition sample_message (leaf : Z) (count claimed : string) (ready : bool) : Message :=
  {| leaf_type := leaf; orig_net := 1; orig_addr := "0x5b"; amount := "250000"; dest_net := 0;
     dest_addr := "0xc1"; block_num := "77"; deposit_cnt := count; network_id := 1; tx_hash := "0x1";
     claim_tx_hash := claimed; metadata := "0x"; ready_for_claim := ready |}.

Definition sample_page : list Message :=
  [sample_message 0 "41" "0xdd" true; sample_message 0 "42" "" false;
   sample_message 0 "43" "" true; sample_message 1 "44" "" true].

Definition sample_world (l1Id l2Id : string) : world :=
  {| chain_ids on := match on with L1 => l1Id | L2 => l2Id end;
     deployed _ name := name;
     deposits url := if includes url "Pool?limit=100&offset=0" then Some sample_page else None;
     proofs url :=
       if includes url "deposit_cnt=43&net_id="
       then Some {| merkle_proof := ["0xaa"]; main_exit_root := "0xbb"; rollup_exit_root := "0xcc" |}
       else None |}.

Definition sample_services (w : world) : env zkevmE := λ _ X c,
  match c in zkevmE Y return result Y with
  | ChainId on => Ok (chain_ids w on)
  | GetNodeUrl _ _ _ => Ok "https://node"%string
  | ConnectL1Wallet _ | GetSigners => Ok tt
  | GetDeployment on name => Ok (deployed w on name)
  | FetchDeposits url => Ok (deposits w url)
  | FetchProof url => Ok (proofs w url)
  | NewContract JUndef _ => Err (JsError "invalid contract address or ENS name")
  | NewContract _ _ => Ok tt
  | BridgeCall _ _ => Err (JsError "reverted")
  | WaitForTx _ => Ok tt
  end.

Lemma sample_services_answer w : respects (answers w) (sample_services w).
Proof. intros h X []; cbn; try done; [by left|by destruct address]. Qed.

Lemma zkevm_claims_exact_witness :
  let w := sample_world "5" "1442" in
  outcome (sample_services w) (main (Some "l2"%string)) = Ok tt ∧
  map snd (bridge_calls (trace (sample_services w) (main (Some "l2"%string)))) =
    [[JArr ["0xaa"]; JStr "43"; JStr "0xbb"; JStr "0xcc"; JNum 1; JStr "0x5b"; JNum 0; JStr "0xc1";
      JStr "250000"; JStr "0x"]]%string.
Proof.
  intros w.
  destruct (zkevm_claims_exact w (Some "l2"%string) (sample_services w) sample_page
    "0xF6BEEeBB578e214CA9E23B0e9683454Ff88Ed2A7" (sample_services_answer w)) as (Ho & _).
  - vm_compute. reflexivity.
  - vm_compute. reflexivity.
  - split; [exact Ho|]. vm_compute. reflexivity.
Defined.

Lemma zkevm_l1_claims_nothing_witness :
  let w := sample_world "1" "1101" in
  is_ok (outcome (sample_services w) (main None)) = false ∧
  bridge_calls (trace (sample_services w) (main None)) = [].
Proof.
  intros w. apply (zkevm_l1_claims_nothing w None (sample_services w) sample_page).
  - apply sample_services_answer.
  - vm_compute. reflexivity.
  - by left.
  - vm_compute. done.
Defined.
