(* ===== verification/ScrollTasks.v ===== *)
(** * tasks/finalizeScrollClaims.ts and tasks/rescueStuckScrollTxn.ts

    The two hardhat tasks of the Scroll bridge: relaying on L1 the withdrawals
    the bridge's web API lists as claimable, and replaying on L2 a message that
    ran out of gas.  The chain, the API, the wallet and the messenger contract
    are services; the calls follow the ABIs written in the tasks. *)

From stdpp Require Import base strings list.
From Stdlib Require Import ZArith Lia.
From S2P Require Import Prelude Bytes JsText Interfaces Utils Consts.

Definition finalizeRelayMessengerAbi : list abi_function :=
  [{| fn_name := "relayMessageWithProof";
      fn_inputs :=
        [("_from", "address"); ("_to", "address"); ("_value", "uint256"); ("_nonce", "uint256");
         ("_message", "bytes"); ("_proof", "(uint256 batchIndex, bytes merkleProof)")] |}]%string.

(** The event's inputs and the function's. *)
Definition rescueRelayMessengerAbi : list abi_function :=
  [{| fn_name := "SentMessage";
      fn_inputs :=
        [("sender", "address"); ("target", "address"); ("value", "uint256"); ("messageNonce", "uint256");
         ("gasLimit", "uint256"); ("message", "bytes")] |};
   {| fn_name := "replayMessage";
      fn_inputs :=
        [("_from", "address"); ("_to", "address"); ("_value", "uint256"); ("_messageNonce", "uint256");
         ("_message", "bytes"); ("_newGasLimit", "uint32"); ("_refundAddress", "address")] |}]%string.

(** A claim as the API's JSON has it. *)
Record claim_info := {
  ci_from : string;
  ci_to : string;
  ci_value : string;
  ci_nonce : string;
  ci_message : string;
  ci_proof : string;
  ci_batch_index : string
}.

(** A log of a receipt, and the arguments of a decoded [SentMessage]. *)
Record log := { lg_topics : list string; lg_data : string }.

Record sent_message := {
  sm_sender : string;
  sm_target : string;
  sm_value : Z;
  sm_messageNonce : Z;
  sm_gasLimit : Z;
  sm_message : string
}.

(** The arguments of the two contract calls. *)
Inductive messenger_arg :=
| AText (s : string)
| ANumber (n : Z)
| AProof (batchIndex merkleProof : string).

Inductive scrollE : Type → Type :=
| TaskChainId : scrollE string
| TaskSigners : scrollE unit
| NewMessenger (address : jsval) (abi : list abi_function) : scrollE unit
| FetchClaims (apiUrl : string) (page_size page : Z) (address : string) : scrollE (option (list claim_info))
| MessengerCall (f : abi_function) (args : list messenger_arg) (value : Z) : scrollE string
| GetTransactionReceipt (l1Hash : string) : scrollE (option (list log))
| SignerAddress : scrollE string.

(** [contract.name(...args)]: a function missing from the ABI is a [TypeError]. *)
Definition messenger_call (abi : list abi_function) (name : string) (args : list messenger_arg) (value : Z)
  : prog scrollE string :=
  match List.find (λ f, bool_decide (fn_name f = name)) abi with
  | Some f => call (MessengerCall f args value)
  | None => Throw TypeError
  end.

Section Tasks.
Context `{AcrossConstants} `{EthersNumbers}.
(** [ethers.utils.isAddress], the topic of [SentMessage], and [parseLog]. *)
Context (isAddress : string → bool) (sentMessageTopic : string) (parseLog : log → result sent_message).

(** [["11155111", "1"].includes(String(chainId))] *)
Definition scroll_chain (chainId : string) : bool := bool_decide (chainId ∈ ["1"; "11155111"]%string).

Definition wrong_chain : js_error := JsError "This script can only be run on Sepolia or Ethereum mainnet".

Definition scroll_api_url (chainId : string) : string :=
  "https://" +:+ (if bool_decide (chainId = "1"%string) then "mainnet" else "sepolia") +:+
  "-api-bridge.scroll.io/api/claimable".

(** [L1_ADDRESS_MAP[chainId].scrollMessengerRelay] *)
Definition scroll_messenger (chainId : string) : result jsval := l1 (parseInt chainId) "scrollMessengerRelay".

Definition claim_args (c : claim_info) : list messenger_arg :=
  [AText (ci_from c); AText (ci_to c); AText (ci_value c); AText (ci_nonce c); AText (ci_message c);
   AProof (ci_batch_index c) (ci_proof c)].

(** One of the promises of [Promise.allSettled]: whether it is fulfilled. *)
Definition finalize_one (c : claim_info) : prog scrollE bool :=
  try_catch (messenger_call finalizeRelayMessengerAbi "relayMessageWithProof" (claim_args c) 0 ;; Ret true)
    (λ _, Ret false).

(** The result is what the task prints: how many claims succeeded and failed. *)
Definition finalizeScrollClaims (l2Address : string) : prog scrollE (nat * nat) :=
  let! chainId := call TaskChainId in
  if negb (scroll_chain chainId) then Throw wrong_chain
  else if negb (isAddress l2Address) then Throw (JsError "Invalid L2 operator address")
  else
    call TaskSigners ;;
    let apiUrl := scroll_api_url chainId in
    let! address := lift (scroll_messenger chainId) in
    call (NewMessenger address finalizeRelayMessengerAbi) ;;
    let! answer := call (FetchClaims apiUrl 100 1 l2Address) in
    let! claimList := lift (from_option_err TypeError answer) in
    let! result := for_collect claimList finalize_one in
    Ret (length (List.filter id result), length (List.filter negb result)).

Definition is_sent_message (l : log) : bool := bool_decide (head (lg_topics l) = Some sentMessageTopic).

Definition replay_args (m : sent_message) (gasLimit : Z) (refundAddress : string) : list messenger_arg :=
  [AText (sm_sender m); AText (sm_target m); ANumber (sm_value m); ANumber (sm_messageNonce m);
   AText (sm_message m); ANumber gasLimit; AText refundAddress].

(** The result is the hash printed. *)
Definition rescueStuckScrollTxn (l1Hash gasLimit : string) : prog scrollE string :=
  let! chainId := call TaskChainId in
  if negb (scroll_chain chainId) then Throw wrong_chain
  else
    call TaskSigners ;;
    let! address := lift (scroll_messenger chainId) in
    call (NewMessenger address rescueRelayMessengerAbi) ;;
    let! txn := call (GetTransactionReceipt l1Hash) in
    match List.find is_sent_message (default [] txn) with
    | None => Throw (JsError "No relevant event found. Is this a Scroll bridge transaction?")
    | Some relevantEvent =>
        let! m := lift (parseLog relevantEvent) in
        let! refundAddress := call SignerAddress in
        let! newGasLimit := lift (BigNumber_from gasLimit) in
        let! value := lift (parseUnits "0.001" 18) in
        messenger_call rescueRelayMessengerAbi "replayMessage" (replay_args m newGasLimit refundAddress) value
    end.
End Tasks.

(** ** Lemmas *)
Section Runs.
Context `{AcrossConstants} `{EthersNumbers}.
Context (isAddress : string → bool) (sentMessageTopic : string) (parseLog : log → result sent_message).
Context (ev : env scrollE).
(** A service fails with an exception; it does not leave the process. *)
Context (Hexit : ∀ h X (c : scrollE X) n, ev h X c ≠ Err (ProcessExit n)).

Definition relay_function : abi_function := List.hd {| fn_name := ""; fn_inputs := [] |} finalizeRelayMessengerAbi.
Definition replay_function : abi_function :=
  List.nth 1 rescueRelayMessengerAbi {| fn_name := ""; fn_inputs := [] |}.

Definition relay_call (c : claim_info) : event scrollE := Event (MessengerCall relay_function (claim_args c) 0).

(** Which relays succeed, in turn. *)
Fixpoint relay_results (h : list (event scrollE)) (claims : list claim_info) : list bool :=
  match claims with
  | [] => []
  | c :: cs => is_ok (ev h _ (MessengerCall relay_function (claim_args c) 0)) :: relay_results (h ++ [relay_call c]) cs
  end.

Lemma finalize_one_run h c :
  run ev h (finalize_one c) =
    (Ok (is_ok (ev h _ (MessengerCall relay_function (claim_args c) 0))), h ++ [relay_call c]).
Proof.
  unfold finalize_one, messenger_call.
  change (List.find _ _) with (Some relay_function). cbn [call bind try_catch run].
  specialize (Hexit h _ (MessengerCall relay_function (claim_args c) 0)).
  destruct (ev h string (MessengerCall relay_function (claim_args c) 0)) as [s|[| |n]]; try done.
  by destruct (Hexit n).
Qed.

Lemma finalize_all_run h claims :
  run ev h (for_collect claims finalize_one) = (Ok (relay_results h claims), h ++ map relay_call claims).
Proof.
  revert h. induction claims as [|c claims IH]; intros h; cbn [for_collect relay_results map].
  - by rewrite app_nil_r.
  - rewrite run_bind, finalize_one_run, run_bind, IH. cbn [run]. by rewrite <- app_assoc.
Qed.

Lemma length_relay_results h claims : length (relay_results h claims) = length claims.
Proof. revert h. induction claims as [|c claims IH]; intros h; cbn; [done|]. by rewrite IH. Qed.

Lemma count_results (l : list bool) : (length (List.filter id l) + length (List.filter negb l) = length l)%nat.
Proof. induction l as [|[] l IH]; cbn; lia. Qed.

Lemma scroll_messenger_found chainId : scroll_chain chainId = true →
  ∃ a, scroll_messenger chainId = Ok (JStr a).
Proof.
  unfold scroll_chain, scroll_messenger, l1, entry. intros Hc%bool_decide_eq_true.
  rewrite L1_ADDRESS_MAP_eval. apply elem_of_cons in Hc as [->|Hc]; [vm_compute; by eexists|].
  apply list_elem_of_singleton in Hc as ->. vm_compute. by eexists.
Qed.
End Runs.

(** ** Properties *)

(** finalizeScrollClaims.ts tries each claim once.  On Ethereum or
    Sepolia, for a valid address, the task fetches one page of a hundred claims
    and calls [relayMessageWithProof] on that chain's messenger for every claim
    of the page, in order and with the claim's own values, whether or not the
    earlier ones succeeded; it ends normally, reporting how many succeeded and
    how many failed.  On another chain, or for another address, it throws
    before it reaches the API or the bridge. *)
Theorem finalize_scroll_each_once `{AcrossConstants} (isAddress : string → bool) (ev : env scrollE)
    (l2Address chainId address : string) (claims : list claim_info) :
  (∀ h X (c : scrollE X) n, ev h X c ≠ Err (ProcessExit n)) →
  ev [] _ TaskChainId = Ok chainId → scroll_messenger chainId = Ok (JStr address) →
  (∀ h, ev h _ TaskSigners = Ok tt) → (∀ h a abi, ev h _ (NewMessenger a abi) = Ok tt) →
  (∀ h, ev h _ (FetchClaims (scroll_api_url chainId) 100 1 l2Address) = Ok (Some claims)) →
  let before := [Event TaskChainId; Event TaskSigners; Event (NewMessenger (JStr address) finalizeRelayMessengerAbi);
                 Event (FetchClaims (scroll_api_url chainId) 100 1 l2Address)] in
  if scroll_chain chainId && isAddress l2Address then
    trace ev (finalizeScrollClaims isAddress l2Address) = before ++ map relay_call claims ∧
    ∃ done failed, outcome ev (finalizeScrollClaims isAddress l2Address) = Ok (done, failed) ∧
      done = length (List.filter id (relay_results ev before claims)) ∧ (done + failed = length claims)%nat
  else
    trace ev (finalizeScrollClaims isAddress l2Address) = [Event TaskChainId] ∧
    is_ok (outcome ev (finalizeScrollClaims isAddress l2Address)) = false.
Proof.
  intros Hexit Hid Haddr Hs Hm Hf. cbv zeta. unfold trace, outcome, finalizeScrollClaims.
  rewrite run_bind, run_call, Hid. cbv beta iota. cbn [app].
  destruct (scroll_chain chainId); cbn [negb andb]; [|done].
  destruct (isAddress l2Address); cbn [negb]; [|done].
  rewrite run_bind, run_call, Hs. cbv beta iota zeta. rewrite Haddr. cbn [lift bind].
  rewrite run_bind, run_call, Hm. cbv beta iota. rewrite run_bind, run_call, Hf. cbv beta iota.
  cbn [from_option_err lift bind app]. rewrite run_bind, finalize_all_run by done. cbn [run fst snd].
  split; [done|]. do 2 eexists. split_and!; [reflexivity|reflexivity|].
  by rewrite count_results, length_relay_results.
Qed.

(** rescueStuckScrollTxn.ts replays the message it found.  On Ethereum or
    Sepolia the task takes the first [SentMessage] log of the receipt and calls
    [replayMessage] once on that chain's messenger, with the sender, target,
    value, nonce and payload of that log, the gas limit given, the signer as
    refund address and 0.001 ETH; without such a log (or without a receipt)
    it throws and sends nothing. *)
Theorem rescue_scroll_replays `{AcrossConstants} `{EthersNumbers} (sentMessageTopic : string)
    (parseLog : log → result sent_message) (ev : env scrollE) (l1Hash gasLimit chainId address signer : string)
    (receipt : option (list log)) (gas fee : Z) (m : log → sent_message) :
  ev [] _ TaskChainId = Ok chainId → scroll_chain chainId = true → scroll_messenger chainId = Ok (JStr address) →
  (∀ h, ev h _ TaskSigners = Ok tt) → (∀ h a abi, ev h _ (NewMessenger a abi) = Ok tt) →
  (∀ h, ev h _ SignerAddress = Ok signer) →
  (∀ h, ev h _ (GetTransactionReceipt l1Hash) = Ok receipt) →
  BigNumber_from gasLimit = Ok gas → parseUnits "0.001" 18 = Ok fee →
  (∀ l, l ∈ default [] receipt → is_sent_message sentMessageTopic l = true → parseLog l = Ok (m l)) →
  let before := [Event TaskChainId; Event TaskSigners; Event (NewMessenger (JStr address) rescueRelayMessengerAbi);
                 Event (GetTransactionReceipt l1Hash)] in
  match List.find (is_sent_message sentMessageTopic) (default [] receipt) with
  | Some l =>
      trace ev (rescueStuckScrollTxn sentMessageTopic parseLog l1Hash gasLimit) =
        before ++ [Event SignerAddress; Event (MessengerCall replay_function (replay_args (m l) gas signer) fee)]
  | None =>
      trace ev (rescueStuckScrollTxn sentMessageTopic parseLog l1Hash gasLimit) = before ∧
      is_ok (outcome ev (rescueStuckScrollTxn sentMessageTopic parseLog l1Hash gasLimit)) = false
  end.
Proof.
  intros Hid Hc Haddr Hs Hm Hsig Hr Hg Hv Hp. cbv zeta. unfold trace, outcome, rescueStuckScrollTxn.
  rewrite run_bind, run_call, Hid. cbv beta iota. cbn [app]. rewrite Hc. cbn [negb].
  rewrite run_bind, run_call, Hs. cbv beta iota. rewrite Haddr. cbn [lift bind].
  rewrite run_bind, run_call, Hm. cbv beta iota. rewrite run_bind, run_call, Hr. cbv beta iota.
  destruct (List.find _ _) as [l|] eqn:Hl; [|done].
  apply find_some in Hl as [Hin Ht]. rewrite (Hp l) by (done || by apply list_elem_of_In). cbn [lift bind].
  rewrite run_bind, run_call, Hsig. cbv beta iota. rewrite Hg, Hv. cbn [lift bind].
  unfold messenger_call. change (List.find _ _) with (Some replay_function). cbv beta iota. rewrite run_call. done.
Qed.

(** Two claims, the first of which is refused. *)
Definition sample_claim (nonce : string) : claim_info :=
  {| ci_from := "0xa"; ci_to := "0xb"; ci_value := "1"; ci_nonce := nonce; ci_message := "0x"; ci_proof := "0xff";
     ci_batch_index := "7" |}.
Definition sample_log : log := {| lg_topics := ["0x104371f3"]; lg_data := "0x01" |}.
Definition sample_sent : sent_message :=
  {| sm_sender := "0xa"; sm_target := "0xb"; sm_value := 5; sm_messageNonce := 9; sm_gasLimit := 1; sm_message := "0x" |}.
Definition scroll_env : env scrollE := λ h X c,
  match c in scrollE Y return result Y with
  | TaskChainId => Ok "1"%string
  | TaskSigners => Ok tt
  | NewMessenger _ _ => Ok tt
  | FetchClaims _ _ _ _ => Ok (Some [sample_claim "1"; sample_claim "2"])
  | MessengerCall _ _ _ => if (length h <? 5)%nat then Err (JsError "revert") else Ok "0xhash"%string
  | GetTransactionReceipt _ => Ok (Some [{| lg_topics := []; lg_data := "" |}; sample_log])
  | SignerAddress => Ok "0xsigner"%string
  end.

Lemma finalize_scroll_each_once_witness :
  ∃ done failed, outcome scroll_env (finalizeScrollClaims (λ _, true) "0xop") = Ok (done, failed) ∧ done = 1%nat ∧
    (done + failed = 2)%nat.
Proof.
  pose proof (finalize_scroll_each_once (λ _, true) scroll_env "0xop" "1" "0x6774Bcbd5ceCeF1336b5300fb5186a12DDD8b367"
    [sample_claim "1"; sample_claim "2"]) as Hx.
  destruct Hx as (_ & Hx); try reflexivity.
  - intros h X c n. destruct c; cbn; try case_match; discriminate.
  - exact Hx.
Defined.

Lemma rescue_scroll_replays_witness :
  trace scroll_env (rescueStuckScrollTxn "0x104371f3" (λ _, Ok sample_sent) "0xl1" "200000") =
    [Event TaskChainId; Event TaskSigners;
     Event (NewMessenger (JStr "0x6774Bcbd5ceCeF1336b5300fb5186a12DDD8b367") rescueRelayMessengerAbi);
     Event (GetTransactionReceipt "0xl1"); Event SignerAddress;
     Event (MessengerCall replay_function (replay_args sample_sent 200000 "0xsigner") (10 ^ 15))].
Proof.
  apply (rescue_scroll_replays "0x104371f3" (λ _, Ok sample_sent) scroll_env "0xl1" "200000" "1"
    "0x6774Bcbd5ceCeF1336b5300fb5186a12DDD8b367" "0xsigner" (Some [{| lg_topics := []; lg_data := "" |}; sample_log])
    200000 (10 ^ 15) (λ _, sample_sent)); try reflexivity.
  all: vm_compute; reflexivity.
Defined.
