(* ===== verification/ZkSyncScript.v ===== *)
(** * scripts/zkSync.ts

    The script that inspects the zkSync spoke pool and lets it spend the
    wallet's tokens.  ethers' contracts keep the address text they are built
    with, so the addresses are compared as text. *)

From stdpp Require Import base gmap strings list.
From Stdlib Require Import ZArith Lia.
From S2P Require Import Prelude JsText Interfaces Utils.

Definition weth9Abi : list abi_function :=
  [{| fn_name := "withdraw"; fn_inputs := [("wad", "uint256")] |};
   {| fn_name := "deposit"; fn_inputs := [] |};
   {| fn_name := "balanceOf"; fn_inputs := [("", "address")] |}]%string.

Record zk_config := {
  spokePoolAddress : string;
  wethAddress : string;
  l2Erc20AddressToTest : string;
  depositDestinationChainId : Z;
  rootBundleIdToExecute : Z;
  amountToDepositIntoSpokePool : Z
}.

Inductive zkE : Type → Type :=
| ZkSigner : zkE string                                    (* the first signer's address *)
| ZkArtifact (name : string) : zkE unit
| ZkFactory (name : string) : zkE unit
| ZkWeth (address : string) (abi : list abi_function) : zkE unit
| EnabledDepositRoutes (spokePool : string) (fromBlock toBlock : Z) : zkE (list string)
| SpokeChainId (spokePool : string) : zkE Z
| SpokeCurrentTime (spokePool : string) : zkE Z
| SpokeWrappedNative (spokePool : string) : zkE string
| SpokeHubPool (spokePool : string) : zkE string
| SpokeRouteEnabled (spokePool token : string) (chainId : Z) : zkE bool
| SpokeRootBundle (spokePool : string) (id : Z) : zkE (string * string)
| Allowance (token owner spender : string) : zkE Z
| Approve (token spender : string) (amount : Z) : zkE string
| WaitApprove (hash : string) : zkE unit
| ZkBalanceOf (token holder : string) : zkE Z.

(** What the script prints. *)
Record zk_report := {
  zr_routes : list string;
  zr_chain_id : Z;
  zr_current_time : Z;
  zr_native_as_configured : bool;      (* [console.assert] prints when it is not *)
  zr_hub_pool : string;
  zr_route_enabled : bool;
  zr_root_bundle : string * string;
  zr_balance : Z;
  zr_spoke_balance : Z
}.

Section Script.
Context `{EthersNumbers}.

Definition zk_script_config : result zk_config :=
  let? amount := toBN "200000000000000000" in
  Ok {| spokePoolAddress := "0x63b25F1CdD7d9873A8D59717762396d4e6A46b83";
        wethAddress := "0xd3765838f9600ccff3d01efa83496599e0984bd2";
        l2Erc20AddressToTest := "0xd3765838f9600ccff3d01efa83496599e0984bd2";
        depositDestinationChainId := 5; rootBundleIdToExecute := 1;
        amountToDepositIntoSpokePool := amount |}.

(** The allowance is raised unless the token is the pool's wrapped native token. *)
Definition set_allowance (config : zk_config) (signer native : string) : prog zkE unit :=
  let erc20 := l2Erc20AddressToTest config in
  let amount := amountToDepositIntoSpokePool config in
  let! allowance := call (Allowance erc20 signer (spokePoolAddress config)) in
  if (0 <? amount) && (allowance <? amount) && negb (bool_decide (erc20 = native)) then
    let! txn := call (Approve erc20 (spokePoolAddress config) amount) in
    call (WaitApprove txn)
  else Ret tt.

Definition main : prog zkE zk_report :=
  let! signer := call ZkSigner in
  let! config := lift zk_script_config in
  call (ZkArtifact "ZkSync_SpokePool") ;;
  let spokePool := spokePoolAddress config in
  call (ZkFactory "ERC20") ;;
  let erc20 := l2Erc20AddressToTest config in
  call (ZkWeth (wethAddress config) weth9Abi) ;;
  let weth := wethAddress config in
  let! events := call (EnabledDepositRoutes spokePool 1019607 1019607) in
  let! originChainId := call (SpokeChainId spokePool) in
  let! currentTime := call (SpokeCurrentTime spokePool) in
  let! native := call (SpokeWrappedNative spokePool) in
  let! hubPool := call (SpokeHubPool spokePool) in
  let! enabled := call (SpokeRouteEnabled spokePool erc20 (depositDestinationChainId config)) in
  let! rootBundle := call (SpokeRootBundle spokePool (rootBundleIdToExecute config)) in
  set_allowance config signer native ;;
  let! balance := call (ZkBalanceOf erc20 signer) in
  let! spokeBalance := call (ZkBalanceOf erc20 spokePool) in
  Ret {| zr_routes := events; zr_chain_id := originChainId; zr_current_time := currentTime;
         zr_native_as_configured := bool_decide (native = weth); zr_hub_pool := hubPool;
         zr_route_enabled := enabled; zr_root_bundle := rootBundle; zr_balance := balance;
         zr_spoke_balance := spokeBalance |}.
End Script.

(** ** The pool and the tokens *)
Record zk_pool := {
  zp_chain_id : Z;
  zp_time : Z;
  zp_native : string;
  zp_hub : string;
  zp_routes : list string;
  zp_route : string → Z → bool;
  zp_bundles : Z → string * string;
  zp_balance : string → string → Z
}.

(** Allowances by token, owner and spender, whatever the case of the text. *)
Abbreviation allowances := (gmap (string * string * string) Z) (only parsing).

Definition allowance_key (token owner spender : string) : string * string * string :=
  (to_lower token, to_lower owner, to_lower spender).

Definition allowed (m : allowances) (token owner spender : string) : Z :=
  default 0 (m !! allowance_key token owner spender).

Definition zk_services (signer : string) (pool : zk_pool) : handler allowances zkE := λ X m c,
  match c in zkE Y return result Y * allowances with
  | ZkSigner => (Ok signer, m)
  | ZkArtifact _ => (Ok tt, m)
  | ZkFactory _ => (Ok tt, m)
  | ZkWeth _ _ => (Ok tt, m)
  | EnabledDepositRoutes _ _ _ => (Ok (zp_routes pool), m)
  | SpokeChainId _ => (Ok (zp_chain_id pool), m)
  | SpokeCurrentTime _ => (Ok (zp_time pool), m)
  | SpokeWrappedNative _ => (Ok (zp_native pool), m)
  | SpokeHubPool _ => (Ok (zp_hub pool), m)
  | SpokeRouteEnabled _ token chain => (Ok (zp_route pool token chain), m)
  | SpokeRootBundle _ id => (Ok (zp_bundles pool id), m)
  | Allowance token owner spender => (Ok (allowed m token owner spender), m)
  | Approve token spender amount => (Ok "0xapprove"%string, <[allowance_key token signer spender := amount]> m)
  | WaitApprove _ => (Ok tt, m)
  | ZkBalanceOf token holder => (Ok (zp_balance pool token holder), m)
  end.

(** ** Property *)

(** The configuration of the script. *)
Definition zk_settings : zk_config :=
  {| spokePoolAddress := "0x63b25F1CdD7d9873A8D59717762396d4e6A46b83";
     wethAddress := "0xd3765838f9600ccff3d01efa83496599e0984bd2";
     l2Erc20AddressToTest := "0xd3765838f9600ccff3d01efa83496599e0984bd2";
     depositDestinationChainId := 5; rootBundleIdToExecute := 1;
     amountToDepositIntoSpokePool := 200000000000000000 |}.

Lemma zk_script_config_eq `{EthersNumbers} : zk_script_config = Ok zk_settings.
Proof.
  unfold zk_script_config, toBN. change "200000000000000000"%string with (decimal 200000000000000000).
  change (includes (decimal 200000000000000000) ".") with false. cbv iota.
  by rewrite BigNumber_from_decimal, bind_ok by lia.
Qed.

(** Text in lower case is not the text of an address with a capital letter. *)
Lemma checksummed_differs s : to_lower s ≠ s → s ≠ l2Erc20AddressToTest zk_settings.
Proof. intros Hs ->. apply Hs. vm_compute. reflexivity. Qed.

(** zkSync.ts always ends normally, whatever it finds, the failed
    [console.assert] included, and the one thing it changes is the allowance of
    the pool for the token: raised to the amount when it is lower.  The
    exemption of the wrapped native token compares text: it applies only when
    the contract's answer is in lower case like the configured address, so with
    the checksummed address ethers returns, the same address included, the
    allowance is raised all the same and the assertion fails. *)
Theorem zksync_allowance `{EthersNumbers} (signer : string) (pool : zk_pool) (m : gmap (string * string * string) Z) :
  let spendable m := allowed m (l2Erc20AddressToTest zk_settings) signer (spokePoolAddress zk_settings) in
  let amount := amountToDepositIntoSpokePool zk_settings in
  ∃ report m', run_state (zk_services signer pool) m main = (Ok report, m') ∧
    zr_native_as_configured report = bool_decide (zp_native pool = wethAddress zk_settings) ∧
    (zp_native pool = l2Erc20AddressToTest zk_settings → m' = m) ∧
    (zp_native pool ≠ l2Erc20AddressToTest zk_settings → spendable m' = Z.max (spendable m) amount) ∧
    (to_lower (zp_native pool) ≠ zp_native pool →
       zr_native_as_configured report = false ∧ amount ≤ spendable m') ∧
    (∀ k, k ≠ allowance_key (l2Erc20AddressToTest zk_settings) signer (spokePoolAddress zk_settings) → m' !! k = m !! k).
Proof.
  intros spendable amount.
  set (raise := (spendable m <? amount) && negb (bool_decide (l2Erc20AddressToTest zk_settings = zp_native pool))).
  set (k := allowance_key (l2Erc20AddressToTest zk_settings) signer (spokePoolAddress zk_settings)).
  assert (Hset : run_state (zk_services signer pool) m (set_allowance zk_settings signer (zp_native pool)) =
    (Ok tt, if raise then <[k := amount]> m else m)).
  { unfold set_allowance. rewrite run_state_bind, run_state_call. cbn [zk_services].
    change (0 <? amountToDepositIntoSpokePool zk_settings) with true. cbn [andb].
    change ((allowed m _ signer _ <? amountToDepositIntoSpokePool zk_settings) && _) with raise.
    destruct raise; [|done]. by rewrite run_state_bind, run_state_call. }
  assert (Hraised : ∀ v, spendable (<[k := v]> m) = v).
  { intros v. unfold spendable, allowed. fold k. by rewrite lookup_insert_eq. }
  assert (Hmax : zp_native pool ≠ l2Erc20AddressToTest zk_settings →
    spendable (if raise then <[k := amount]> m else m) = Z.max (spendable m) amount).
  { intros Hne. unfold raise. rewrite bool_decide_eq_false_2 by done. rewrite andb_true_r.
    destruct (Z.ltb_spec (spendable m) amount); [rewrite Hraised|]; lia. }
  eexists _, (if raise then <[k := amount]> m else m). split; [|split_and!].
  - unfold main. rewrite zk_script_config_eq.
    rewrite run_state_bind, run_state_call; cbn [zk_services]. rewrite run_state_bind, run_state_lift.
    do 10 (rewrite run_state_bind, run_state_call; cbn [zk_services]).
    rewrite run_state_bind, Hset. do 2 (rewrite run_state_bind, run_state_call; cbn [zk_services]). reflexivity.
  - reflexivity.
  - intros He. unfold raise. by rewrite bool_decide_eq_true_2, andb_false_r.
  - exact Hmax.
  - intros Hs. apply checksummed_differs in Hs. split; [by apply bool_decide_eq_false|].
    rewrite (Hmax Hs). lia.
  - intros k' Hk. destruct raise; [|done]. by rewrite lookup_insert_ne.
Qed.
