(* ===== verification/Airdrop.v ===== *)
(** * The ERC-1155 airdrop

    [scripts/mintERC1155.ts] against [contracts/erc1155/MintableERC1155.sol]:
    the list of recipients is read and validated, then minted to in chunks of
    100, leaving out those who already hold the token. *)

From stdpp Require Import base gmap strings list.
From Stdlib Require Import ZArith Lia.
From S2P Require Import Prelude JsText.

Definition RECIPIENTS_CHUNK_SIZE : Z := 100.

(** The services the script calls. *)
Inductive airdropE : Type → Type :=
| ReadRecipients (path : string) : airdropE (list string)
| ResolveName (name : string) : airdropE (option string)
| GetSigner : airdropE unit
| GetMintableERC1155 : airdropE unit
| BalanceOfBatch (accounts : list string) (ids : list Z) : airdropE (list Z)
| AirdropTx (tokenId : Z) (recipients : list string) (amount : Z) : airdropE string
| WaitAirdrop (hash : string) : airdropE unit.

(** [xs.slice(i, j)] with [0 <= j]; a negative [i] counts from the end. *)
Definition js_slice {A} (l : list A) (i j : Z) : list A :=
  let n := Z.of_nat (length l) in
  let from := if i <? 0 then Z.max 0 (n + i) else i in
  slice l (Z.to_nat from) (Z.to_nat (if j <? 0 then Z.max 0 (n + j) else j)).

(** The recipients whose balance [test] accepts; a missing balance is
    [undefined]. *)
Fixpoint filter_by_balance (test : Z → bool) (recipients : list string) (balances : list Z)
  : result (list string) :=
  match recipients, balances with
  | [], _ => Ok []
  | _ :: _, [] => Err TypeError
  | r :: rs, b :: bs =>
      let? rest := filter_by_balance test rs bs in
      Ok (if test b then r :: rest else rest)
  end.

(** The encoder of a [uint256] argument. *)
Definition encode_uint256 (n : option Z) : result Z :=
  match n with
  | Some v => if (0 <=? v) && (v <? 2 ^ 256) then Ok v else Err (JsError "value out-of-bounds")
  | None => Err (JsError "invalid BigNumber value")
  end.

Section Script.
(** [ethers.utils.isAddress] and [ethers.utils.getAddress] *)
Context (isAddress : string → bool) (getAddress : string → result string).

(** Items whose first position is an earlier one. *)
Fixpoint repeated (seen l : list string) : list string :=
  match l with
  | [] => []
  | x :: l' => if decide (x ∈ seen) then x :: repeated seen l' else repeated (x :: seen) l'
  end.

Definition getDuplicateAddresses (addresses : list string) : result (list string) :=
  let? checksummed := map_result getAddress addresses in Ok (repeated [] checksummed).

Definition unresolved (r : string) : js_error := JsError ("Could not resolve ENS name: " +:+ r).

(** One entry of the file; an empty answer of the resolver is falsy. *)
Definition resolve_recipient (r : string) : prog airdropE string :=
  if ends_with (to_lower r) ".eth" then
    try_catch
      (let! resolvedAddress := call (ResolveName r) in
       match resolvedAddress with
       | Some a => if bool_decide (a = ""%string) then Throw (unresolved r) else Ret a
       | None => Throw (unresolved r)
       end)
      (λ _, Throw (unresolved r))
  else Ret r.

(** The names are resolved together; their order is that of the file. *)
Definition parseAndValidateRecipients (RECIPIENTS : option string) : prog airdropE (list string) :=
  let path := env_or RECIPIENTS "" in
  if bool_decide (path = ""%string)
  then Throw (JsError "Missing path to a JSON file with the list of recipients")
  else
    let! recipientsFromFile := call (ReadRecipients path) in
    let! resolvedRecipients := for_collect recipientsFromFile resolve_recipient in
    let invalidRecipients := filter (λ r, isAddress r = false) resolvedRecipients in
    if bool_decide (invalidRecipients ≠ [])
    then Throw (JsError "Invalid recipients")
    else
      let! duplicateAddresses := lift (getDuplicateAddresses resolvedRecipients) in
      if bool_decide (duplicateAddresses ≠ [])
      then Throw (JsError "Recipients list contains duplicates")
      else lift (map_result getAddress resolvedRecipients).

(** The body of the loop, for one chunk. *)
Definition process_chunk (tokenId : option Z) (recipientsChunk : list string) : prog airdropE unit :=
  let! id := lift (encode_uint256 tokenId) in
  let! balanceOfBatch :=
    call (BalanceOfBatch recipientsChunk (replicate (length recipientsChunk) id)) in
  let! alreadyMintedRecipients := lift (filter_by_balance (λ b, 0 <? b) recipientsChunk balanceOfBatch) in
  let! recipientsToMint := lift (filter_by_balance (λ b, b =? 0) recipientsChunk balanceOfBatch) in
  if bool_decide (recipientsToMint = []) then Ret tt
  else
    let! hash := call (AirdropTx id recipientsToMint 1) in
    call (WaitAirdrop hash).

(** [fuel] bounds the number of chunks; the number of indices left is enough. *)
Fixpoint chunk_loop (fuel : nat) (tokenId : option Z) (validRecipients : list string) (i : Z)
  : prog airdropE unit :=
  match fuel with
  | O => Ret tt
  | S fuel' =>
      if i <? Z.of_nat (length validRecipients) then
        process_chunk tokenId (js_slice validRecipients i (i + RECIPIENTS_CHUNK_SIZE)) ;;
        chunk_loop fuel' tokenId validRecipients (i + RECIPIENTS_CHUNK_SIZE)
      else Ret tt
  end.

Definition loop_fuel (validRecipients : list string) (i : Z) : nat :=
  Z.to_nat (Z.of_nat (length validRecipients) - i).

(** A [SKIP] that is no number makes the loop condition false at once. *)
Definition main (TOKEN_ID SKIP RECIPIENTS : option string) : prog airdropE unit :=
  let tokenId := parseInt (env_or TOKEN_ID "0") in
  let skip := parseInt (env_or SKIP "0") in
  let! validRecipients := parseAndValidateRecipients RECIPIENTS in
  call GetSigner ;;
  call GetMintableERC1155 ;;
  match skip with
  | Some i => chunk_loop (loop_fuel validRecipients i) tokenId validRecipients i
  | None => Ret tt
  end.
End Script.

(** ** The token contract *)

(** [_balances], by account and token id. *)
Abbreviation erc1155_state := (gmap (string * Z) Z).

Definition balance_of (st : erc1155_state) (account : string) (id : Z) : Z :=
  default 0 (st !! (account, id)).

Section Contract.
(** Whether the signer owns the contract, and which accounts ERC-1155's [_mint]
    accepts: not the zero address, and contracts only with a receiver hook. *)
Context (is_owner : bool) (accepts : string → bool).

Definition _mint (st : erc1155_state) (to : string) (id amount : Z) : result erc1155_state :=
  let b := balance_of st to id + amount in
  if accepts to && (b <? 2 ^ 256) then Ok (<[(to, id) := b]> st) else Err (JsError "revert").

Fixpoint mint_each (st : erc1155_state) (id : Z) (recipients : list string) (amount : Z)
  : result erc1155_state :=
  match recipients with
  | [] => Ok st
  | r :: rs => let? st' := _mint st r id amount in mint_each st' id rs amount
  end.

Definition airdrop (st : erc1155_state) (id : Z) (recipients : list string) (amount : Z)
  : result erc1155_state :=
  if is_owner then mint_each st id recipients amount
  else Err (JsError "Ownable: caller is not the owner").

(** The service: the file and the name resolver are fixed, the token contract
    is the state. *)
Context (file : list string) (ens : string → option string).

Definition airdrop_service : handler erc1155_state airdropE := λ X st c,
  match c in airdropE Y return result Y * erc1155_state with
  | ReadRecipients _ => (Ok file, st)
  | ResolveName n => (Ok (ens n), st)
  | GetSigner => (Ok tt, st)
  | GetMintableERC1155 => (Ok tt, st)
  | BalanceOfBatch accounts ids =>
      (if (length accounts =? length ids)%nat
       then Ok (zip_with (balance_of st) accounts ids) else Err (JsError "length mismatch"), st)
  | AirdropTx id recipients amount =>
      match airdrop st id recipients amount with
      | Ok st' => (Ok "hash"%string, st')
      | Err e => (Err e, st)
      end
  | WaitAirdrop _ => (Ok tt, st)
  end.
End Contract.

(** ** Lemmas *)

Lemma filter_by_balance_map (test : Z → bool) (f : string → Z) rs :
  filter_by_balance test rs (map f rs) = Ok (filter (λ r, test (f r) = true) rs).
Proof.
  induction rs as [|r rs IH]; [done|]. cbn [map filter_by_balance]. rewrite IH. cbn [result_bind].
  rewrite filter_cons. by destruct (test (f r)).
Qed.

Lemma zip_with_replicate st id rs :
  zip_with (balance_of st) rs (replicate (length rs) id) = map (λ r, balance_of st r id) rs.
Proof. induction rs as [|r rs IH]; cbn; [done|]. by rewrite IH. Qed.

Lemma js_slice_nonneg {A} (l : list A) i j :
  0 ≤ i → 0 ≤ j → js_slice l i j = slice l (Z.to_nat i) (Z.to_nat j).
Proof.
  intros Hi Hj. unfold js_slice. apply Z.ltb_ge in Hi, Hj. by rewrite Hi, Hj.
Qed.

(** The list from an index on is one chunk and the rest. *)
Lemma drop_chunk {A} (l : list A) i : 0 ≤ i →
  drop (Z.to_nat i) l =
    js_slice l i (i + RECIPIENTS_CHUNK_SIZE) ++ drop (Z.to_nat (i + RECIPIENTS_CHUNK_SIZE)) l.
Proof.
  intros Hi. unfold RECIPIENTS_CHUNK_SIZE. rewrite js_slice_nonneg by lia. unfold slice.
  replace (Z.to_nat (i + 100)) with (Z.to_nat i + (Z.to_nat (i + 100) - Z.to_nat i))%nat at 2 by lia.
  by rewrite <- drop_drop, take_drop.
Qed.

Lemma nothing_minted st t l i : Z.of_nat (length l) ≤ i → ∀ a j,
  balance_of st a j =
    if decide (j = t ∧ a ∈ drop (Z.to_nat i) l ∧ balance_of st a t = 0) then 1 else balance_of st a j.
Proof.
  intros Hi a j. rewrite drop_ge by lia. rewrite decide_False; [done|].
  by intros (_ & ?%not_elem_of_nil & _).
Qed.

Lemma repeated_nil seen l : repeated seen l = [] → NoDup l ∧ ∀ x, x ∈ l → x ∉ seen.
Proof.
  revert seen. induction l as [|y l IH]; intros seen; cbn.
  - intros _. split; [constructor|]. by intros x ?%not_elem_of_nil.
  - case_decide as Hy; [done|]. intros [Hnd Hl]%IH. split.
    + constructor; [|done]. intros Hin. apply (Hl y Hin). by left.
    + intros x [->|Hx]%elem_of_cons; [done|]. intros Hs. apply (Hl x Hx). by right.
Qed.

Lemma balance_of_insert st a i b a' i' :
  balance_of (<[(a, i) := b]> st) a' i' = if decide (i' = i ∧ a' = a) then b else balance_of st a' i'.
Proof.
  unfold balance_of. case_decide as H.
  - destruct H as [-> ->]. by rewrite lookup_insert_eq.
  - rewrite lookup_insert_ne; [done|]. intros [= -> ->]. by destruct H.
Qed.

Section Airdrops.
Context (accepts : string → bool) (file : list string) (ens : string → option string).
Local Abbreviation service := (airdrop_service true accepts file ens).

Lemma mint_each_exact id rs st :
  Forall (λ r, accepts r = true ∧ balance_of st r id = 0) rs → NoDup rs →
  ∃ st', mint_each accepts st id rs 1 = Ok st' ∧
    ∀ a i, balance_of st' a i = if decide (i = id ∧ a ∈ rs) then 1 else balance_of st a i.
Proof.
  intros Hall Hnd. revert st Hall. induction Hnd as [|r rs Hr Hnd IH]; intros st Hall.
  - exists st. split; [done|]. intros a i. rewrite decide_False; [done|]. by intros [_ ?%not_elem_of_nil].
  - apply Forall_cons in Hall as [[Ha Hb] Hall]. cbn [mint_each]. unfold _mint. rewrite Ha, Hb.
    change (true && (0 + 1 <? 2 ^ 256)) with true. cbn [result_bind]. destruct (IH (<[(r, id) := 0 + 1]> st)) as (st' & -> & Hst').
    { apply Forall_forall. intros x Hx. destruct (proj1 (Forall_forall _ _) Hall x Hx). split; [done|].
      rewrite balance_of_insert, decide_False; [done|]. by intros [_ ->]. }
    exists st'. split; [done|]. intros a i. rewrite Hst', balance_of_insert.
    repeat case_decide; rewrite ?elem_of_cons in *; tauto.
Qed.

(** The part of [process_chunk] up to the transaction. *)
Lemma process_chunk_run t chunk st :
  0 ≤ t < 2 ^ 256 →
  run_state service st (process_chunk (Some t) chunk) =
    let todo := filter (λ r, balance_of st r t = 0) chunk in
    if bool_decide (todo = []) then (Ok tt, st)
    else match mint_each accepts st t todo 1 with
         | Ok st' => (Ok tt, st')
         | Err e => (Err e, st)
         end.
Proof.
  intros Ht. unfold process_chunk, encode_uint256.
  assert ((0 <=? t) && (t <? 2 ^ 256) = true) as -> by lia.
  rewrite run_state_bind, run_state_lift, run_state_bind, run_state_call. cbn [airdrop_service].
  rewrite length_replicate, Nat.eqb_refl, zip_with_replicate.
  rewrite run_state_bind, run_state_lift, !filter_by_balance_map.
  rewrite run_state_bind, run_state_lift.
  rewrite (list_filter_iff _ (λ r, balance_of st r t = 0)) by (intros; apply Z.eqb_eq).
  cbv zeta. case_bool_decide; [done|].
  rewrite run_state_bind, run_state_call. cbn [airdrop_service airdrop].
  destruct (mint_each _ _ _ _ _); [|done]. by rewrite run_state_call.
Qed.

Lemma process_chunk_idle t chunk st :
  0 ≤ t < 2 ^ 256 → (∀ a, a ∈ chunk → balance_of st a t ≠ 0) →
  run_state service st (process_chunk (Some t) chunk) = (Ok tt, st).
Proof.
  intros Ht Hall. rewrite process_chunk_run by done. cbv zeta. rewrite bool_decide_eq_true_2; [done|].
  destruct (filter _ chunk) as [|a l] eqn:Hl; [done|].
  assert (a ∈ filter (λ r, balance_of st r t = 0) chunk) as Ha by (rewrite Hl; by left).
  apply list_elem_of_filter in Ha as [H0 Ha]. by destruct (Hall a Ha).
Qed.

(** One chunk: those without the token get one. *)
Lemma process_chunk_exact t chunk st :
  0 ≤ t < 2 ^ 256 → Forall (λ r, accepts r = true) chunk → NoDup chunk →
  ∃ st', run_state service st (process_chunk (Some t) chunk) = (Ok tt, st') ∧
    ∀ a i, balance_of st' a i =
      if decide (i = t ∧ a ∈ chunk ∧ balance_of st a t = 0) then 1 else balance_of st a i.
Proof.
  intros Ht Hacc Hnd. rewrite process_chunk_run by done. cbv zeta. set (todo := filter _ _).
  assert (∀ a, a ∈ todo ↔ a ∈ chunk ∧ balance_of st a t = 0) as Htodo.
  { intros a. unfold todo. rewrite list_elem_of_filter. tauto. }
  case_bool_decide as Hnil.
  - exists st. split; [done|]. intros a i. rewrite decide_False; [done|].
    intros (_ & Ha). apply Htodo in Ha. rewrite Hnil in Ha. by apply not_elem_of_nil in Ha.
  - destruct (mint_each_exact t todo st) as (st' & -> & Hst').
    { apply Forall_forall. intros r [Hr ?]%Htodo. split; [|done].
      by apply (proj1 (Forall_forall _ _) Hacc). }
    { by apply NoDup_filter. }
    exists st'. split; [done|]. intros a i. rewrite Hst'. apply decide_ext. by rewrite Htodo.
Qed.

Lemma chunk_loop_exact fuel t l i st :
  0 ≤ t < 2 ^ 256 → 0 ≤ i → Z.of_nat (length l) - i ≤ Z.of_nat fuel → NoDup l →
  Forall (λ r, accepts r = true) (drop (Z.to_nat i) l) →
  ∃ st', run_state service st (chunk_loop fuel (Some t) l i) = (Ok tt, st') ∧
    ∀ a j, balance_of st' a j =
      if decide (j = t ∧ a ∈ drop (Z.to_nat i) l ∧ balance_of st a t = 0) then 1 else balance_of st a j.
Proof.
  intros Ht. revert i st. induction fuel as [|fuel IH]; intros i st Hi Hf Hnd Hacc; cbn [chunk_loop].
  - exists st. split; [done|]. by apply nothing_minted; lia.
  - destruct (Z.ltb_spec i (Z.of_nat (length l))) as [Hlt|Hge].
    2:{ exists st. split; [done|]. by apply nothing_minted; lia. }
    assert (NoDup (drop (Z.to_nat i) l)) as Hcat.
    { rewrite <- (take_drop (Z.to_nat i) l) in Hnd. by apply NoDup_app in Hnd as (_ & _ & ?). }
    rewrite drop_chunk in Hacc, Hcat |- * by done.
    apply Forall_app in Hacc as [Hc Hrest]. apply NoDup_app in Hcat as (Hndc & Hdis & _).
    destruct (process_chunk_exact t _ st Ht Hc Hndc) as (st1 & Hrun1 & Hst1).
    rewrite run_state_bind, Hrun1.
    destruct (IH (i + RECIPIENTS_CHUNK_SIZE) st1) as (st2 & Hrun2 & Hst2);
      [unfold RECIPIENTS_CHUNK_SIZE; lia..|done|done|].
    exists st2. split; [done|]. intros a j. rewrite Hst2, !Hst1. specialize (Hdis a).
    repeat case_decide; rewrite ?elem_of_app in *; try tauto; lia.
Qed.

(** Nothing is left to do when everybody has the token. *)
Lemma chunk_loop_idle fuel t l i st :
  0 ≤ t < 2 ^ 256 → 0 ≤ i → NoDup l → (∀ a, a ∈ drop (Z.to_nat i) l → balance_of st a t ≠ 0) →
  Z.of_nat (length l) - i ≤ Z.of_nat fuel → Forall (λ r, accepts r = true) (drop (Z.to_nat i) l) →
  run_state service st (chunk_loop fuel (Some t) l i) = (Ok tt, st).
Proof.
  intros Ht. revert i. induction fuel as [|fuel IH]; intros i Hi Hnd Hall Hf Hacc; cbn [chunk_loop]; [done|].
  destruct (Z.ltb_spec i (Z.of_nat (length l))) as [Hlt|Hge]; [|done].
  rewrite drop_chunk in Hacc, Hall by done. apply Forall_app in Hacc as [_ Hrest].
  rewrite run_state_bind, process_chunk_idle; [|done|].
  - apply IH; [unfold RECIPIENTS_CHUNK_SIZE; lia|done| |unfold RECIPIENTS_CHUNK_SIZE; lia|done].
    intros a Ha. apply Hall, elem_of_app. by right.
  - intros a Ha. apply Hall, elem_of_app. by left.
Qed.
End Airdrops.

(** ** The recipients *)

Section Recipients.
Context (isAddress : string → bool) (getAddress : string → result string).
Context (is_owner : bool) (accepts : string → bool) (file : list string) (ens : string → option string).
Local Abbreviation svc := (airdrop_service is_owner accepts file ens).

(** A program that leaves the token contract alone and whose result does not
    depend on it. *)
Definition reads_only {A} (p : prog airdropE A) : Prop :=
  ∃ r, ∀ st, run_state svc st p = (r, st).

Lemma reads_only_bind {A B} (p : prog airdropE A) (f : A → prog airdropE B) :
  reads_only p → (∀ a, reads_only (f a)) → reads_only (bind p f).
Proof.
  intros [r Hp] Hf. destruct r as [a|e].
  - destruct (Hf a) as [r' Hr']. exists r'. intros st. by rewrite run_state_bind, Hp, Hr'.
  - exists (Err e). intros st. by rewrite run_state_bind, Hp.
Qed.

Lemma reads_only_result {A} (r : result A) : reads_only (lift r).
Proof. exists r. intros st. apply run_state_lift. Qed.

Lemma resolve_recipient_reads r : reads_only (resolve_recipient r).
Proof.
  unfold resolve_recipient. destruct (ends_with _ _); [|by exists (Ok r)].
  destruct (ens r) as [a|] eqn:He; [destruct (bool_decide (a = ""%string)) eqn:Ha|];
    eexists; intros st; cbn [bind call try_catch run_state airdrop_service lift];
    rewrite He; cbn [lift bind]; rewrite ?Ha; reflexivity.
Qed.

Lemma for_collect_reads {A B} (f : A → prog airdropE B) l :
  (∀ x, reads_only (f x)) → reads_only (for_collect l f).
Proof.
  intros Hf. induction l as [|x l IH]; cbn [for_collect]; [by exists (Ok [])|].
  apply reads_only_bind; [done|]. intros y. apply reads_only_bind; [done|].
  intros ys. by exists (Ok (y :: ys)).
Qed.

Lemma parse_reads RECIPIENTS : reads_only (parseAndValidateRecipients isAddress getAddress RECIPIENTS).
Proof.
  unfold parseAndValidateRecipients. case_bool_decide; [by eexists|].
  apply reads_only_bind; [by exists (Ok file)|]. intros names.
  apply reads_only_bind; [apply for_collect_reads, resolve_recipient_reads|]. intros rs.
  case_bool_decide; [by eexists|]. apply reads_only_bind; [apply reads_only_result|].
  intros ds. case_bool_decide; [by eexists|]. apply reads_only_result.
Qed.

(** Validated recipients are distinct. *)
Lemma parse_NoDup RECIPIENTS st l :
  fst (run_state svc st (parseAndValidateRecipients isAddress getAddress RECIPIENTS)) = Ok l → NoDup l.
Proof.
  unfold parseAndValidateRecipients. case_bool_decide; [done|].
  rewrite run_state_bind, run_state_call. cbn [airdrop_service]. rewrite run_state_bind.
  destruct (run_state _ _ (for_collect _ _)) as [[rs|] st1]; [|done].
  case_bool_decide; [done|]. rewrite run_state_bind, run_state_lift. unfold getDuplicateAddresses.
  destruct (map_result getAddress rs) as [cs|]; cbn [result_bind]; [|done].
  case_bool_decide as Hd; [done|]. rewrite run_state_lift. cbn [fst]. intros [= <-].
  by apply repeated_nil in Hd as [? _].
Qed.
End Recipients.

(** ** Properties *)

(** The airdrop gives every recipient exactly one token, once: when the
    list validates (no duplicates, only addresses), the signer owns the
    contract and the recipients can receive, the script succeeds, each
    recipient from index [SKIP] on who had none of the token gets one, every
    other balance is unchanged, and running the script again changes nothing. *)
Theorem airdrop_exact (isAddress : string → bool) (getAddress : string → result string)
    (accepts : string → bool) (file : list string) (ens : string → option string)
    (TOKEN_ID SKIP RECIPIENTS : option string) (t s : Z) (l : list string) (st : erc1155_state)
    (Htoken : parseInt (env_or TOKEN_ID "0") = Some t) (Ht : 0 ≤ t < 2 ^ 256)
    (Hskip : parseInt (env_or SKIP "0") = Some s) (Hs : 0 ≤ s)
    (Hlist : fst (run_state (airdrop_service true accepts file ens) st
                    (parseAndValidateRecipients isAddress getAddress RECIPIENTS)) = Ok l)
    (Hacc : Forall (λ r, accepts r = true) (drop (Z.to_nat s) l)) :
  let go st := run_state (airdrop_service true accepts file ens) st
                 (main isAddress getAddress TOKEN_ID SKIP RECIPIENTS) in
  ∃ st', go st = (Ok tt, st') ∧ go st' = (Ok tt, st') ∧
    ∀ a id, balance_of st' a id =
      if decide (id = t ∧ a ∈ drop (Z.to_nat s) l ∧ balance_of st a t = 0) then 1
      else balance_of st a id.
Proof.
  intros go. pose proof (parse_NoDup _ _ _ _ _ _ _ _ _ Hlist) as Hnd.
  destruct (parse_reads isAddress getAddress true accepts file ens RECIPIENTS) as [r Hr].
  rewrite Hr in Hlist. cbn in Hlist. subst r.
  assert (∀ st0, go st0 = run_state (airdrop_service true accepts file ens) st0
                            (chunk_loop (loop_fuel l s) (Some t) l s)) as Hgo.
  { intros st0. unfold go, main. rewrite Htoken, Hskip, run_state_bind, Hr.
    by rewrite run_state_bind, run_state_call; cbn [airdrop_service];
       rewrite run_state_bind, run_state_call. }
  assert (Z.of_nat (length l) - s ≤ Z.of_nat (loop_fuel l s)) as Hfuel by (unfold loop_fuel; lia).
  destruct (chunk_loop_exact accepts file ens (loop_fuel l s) t l s st) as (st' & Hrun & Hst'); [done..|].
  exists st'. split; [by rewrite Hgo|]. split; [|done]. rewrite Hgo.
  apply chunk_loop_idle; [done..| |done|done]. intros a Ha. rewrite Hst'.
  case_decide as Hd; [done|]. intros H0. by apply Hd.
Qed.

Definition sample_accounts : list string := ["0xa"; "bob.eth"; "0xc"]%string.
Definition sample_balances : gmap (string * Z) Z := {[ ("0xc"%string, 7) := 2 ]}.

Lemma airdrop_exact_witness :
  ∃ st', run_state (airdrop_service true (λ _, true) sample_accounts (λ _, Some "0xb"%string)) sample_balances
           (main (λ _, true) Ok (Some "7"%string) None (Some "list.json"%string)) = (Ok tt, st') ∧
         run_state (airdrop_service true (λ _, true) sample_accounts (λ _, Some "0xb"%string)) st'
           (main (λ _, true) Ok (Some "7"%string) None (Some "list.json"%string)) = (Ok tt, st') ∧
         balance_of st' "0xb" 7 = 1 ∧ balance_of st' "0xc" 7 = 2.
Proof.
  destruct (airdrop_exact (λ _, true) Ok (λ _, true) sample_accounts (λ _, Some "0xb"%string)
              (Some "7"%string) None (Some "list.json"%string) 7 0 ["0xa"; "0xb"; "0xc"]%string sample_balances)
    as (st' & H1 & H2 & H3).
  - reflexivity.
  - lia.
  - reflexivity.
  - lia.
  - vm_compute. reflexivity.
  - repeat constructor.
  - exists st'. split_and!; [exact H1|exact H2| |]; rewrite H3; vm_compute; reflexivity.
Defined.
