(* ===== verification/TokenMetadata.v ===== *)
(** * scripts/setERC1155Metadata.ts

    The script that validates a token's metadata file, pins it to IPFS and sets
    the token's URI.  The environment, the file, the pinning service, the
    wallet and the contract are services. *)

From stdpp Require Import base strings list.
From Stdlib Require Import ZArith Ascii Lia.
From S2P Require Import Prelude JsText.

(** The metadata object, by property. *)
Definition metadata : Type := list (string * string).

Inductive metadataE : Type → Type :=
| EnvVar (name : string) : metadataE (option string)
| ReadMetadata (path : string) : metadataE metadata        (* [JSON.parse(readFileSync(path))] *)
| PinJSONToIPFS (m : metadata) (name : string) : metadataE string
| MetadataSigners : metadataE unit
| MetadataDeployment (name : string) : metadataE string
| SetTokenURI (contract : string) (tokenId : option Z) (uri : string) : metadataE string
| WaitSetTokenURI (hash : string) : metadataE unit.

Definition requiredKeys : list string := ["name"; "description"; "image"; "animation_url"]%string.

(** The characters before the first occurrence of [p], and those after it. *)
Fixpoint split_at (p l : list ascii) : list ascii * option (list ascii) :=
  if prefix_of p l then ([], Some (drop (length p) l))
  else match l with
       | [] => ([], None)
       | a :: l' => let '(before, after) := split_at p l' in (a :: before, after)
       end.

(** [s.split(p)[1]] when [p] occurs in [s]. *)
Definition second_piece (s p : string) : string :=
  match split_at (chars p) (chars s) with
  | (_, Some after) => text (fst (split_at (chars p) after))
  | (_, None) => ""
  end.

Section Script.
(** [CID.parse] and [path.join(__dirname, "..", p)]. *)
Context (CID_parse : string → result unit) (repository_path : string → string).

Definition requireIpfsLink (ipfsLink key : string) : result unit :=
  if negb (starts_with ipfsLink "ipfs://")
  then Err (JsError ("Invalid metadata: '" +:+ key +:+ "' must be an IPFS link ipfs://<CID>"))
  else CID_parse (second_piece ipfsLink "ipfs://").

(** The checks of the parsed object; a property is read after its presence is checked. *)
Definition validate_metadata (m : metadata) : result unit :=
  let? _ := require (forallb (λ k, bool_decide (is_Some (js_lookup m k))) requiredKeys)
              (JsError "Invalid metadata: required keys") in
  let? _ := requireIpfsLink (default ""%string (js_lookup m "image"%string)) "image" in
  requireIpfsLink (default ""%string (js_lookup m "animation_url"%string)) "animation_url".

Definition parseAndValidateMetadata : prog metadataE metadata :=
  let! path := call (EnvVar "METADATA") in
  match path with
  | None => Throw (JsError "Missing path to a JSON file with token metadata")
  | Some p =>
      if bool_decide (p = ""%string) then Throw (JsError "Missing path to a JSON file with token metadata")
      else
        let! metadataFromFile := call (ReadMetadata (repository_path p)) in
        lift (validate_metadata metadataFromFile) ;; Ret metadataFromFile
  end.

Definition token_text (tokenId : option Z) : string :=
  match tokenId with Some n => if n <? 0 then "-" +:+ decimal (- n) else decimal n | None => "NaN" end.

Definition setERC1155Metadata : prog metadataE unit :=
  let! id := call (EnvVar "TOKEN_ID") in
  let tokenId := parseInt (env_or id "0") in
  let! m := parseAndValidateMetadata in
  let! ipfsHash := call (PinJSONToIPFS m (token_text tokenId +:+ "-metadata.json")) in
  let metadataIpfsLink := "ipfs://" +:+ ipfsHash in
  call MetadataSigners ;;
  let! erc1155 := call (MetadataDeployment "MintableERC1155") in
  let! setTokenUriTx := call (SetTokenURI erc1155 tokenId metadataIpfsLink) in
  call (WaitSetTokenURI setTokenUriTx).
End Script.

(** ** Property *)

(** An IPFS link whose identifier is valid. *)
Definition ipfs_link (CID_parse : string → result unit) (link : string) : Prop :=
  starts_with link "ipfs://" = true ∧ CID_parse (second_piece link "ipfs://") = Ok tt.

(** Metadata with the required keys and two links. *)
Definition valid_metadata (CID_parse : string → result unit) (m : metadata) : Prop :=
  (∀ k, k ∈ requiredKeys → is_Some (js_lookup m k)) ∧
  (∀ link, js_lookup m "image"%string = Some link → ipfs_link CID_parse link) ∧
  (∀ link, js_lookup m "animation_url"%string = Some link → ipfs_link CID_parse link).

Lemma requireIpfsLink_iff CID_parse link key : requireIpfsLink CID_parse link key = Ok tt ↔ ipfs_link CID_parse link.
Proof.
  unfold requireIpfsLink, ipfs_link. destruct (starts_with link "ipfs://"); cbn [negb]; [tauto|].
  split; [done|]. by intros [? _].
Qed.

Lemma validate_metadata_iff CID_parse m : validate_metadata CID_parse m = Ok tt ↔ valid_metadata CID_parse m.
Proof.
  unfold validate_metadata, valid_metadata.
  destruct (forallb _ requiredKeys) eqn:Hk; cbn [require result_bind].
  - assert (Hkeys : ∀ k, k ∈ requiredKeys → is_Some (js_lookup m k)).
    { intros k Hin. apply list_elem_of_In in Hin. apply (proj1 (forallb_forall _ _) Hk) in Hin.
      by apply bool_decide_eq_true in Hin. }
    destruct (Hkeys "image"%string) as [a Ha]; [by do 2 right; left|].
    destruct (Hkeys "animation_url"%string) as [b Hb]; [by do 3 right; left|].
    rewrite Ha, Hb. cbn [from_option id].
    destruct (requireIpfsLink CID_parse a "image") as [[]|e] eqn:Hi; cbn [result_bind].
    + split; [intros Hx; split_and!; [done| |]|intros (_ & _ & Hx)].
      * intros link [= <-]. exact (proj1 (requireIpfsLink_iff _ _ _) Hi).
      * intros link [= <-]. exact (proj1 (requireIpfsLink_iff _ _ _) Hx).
      * by apply (requireIpfsLink_iff _ _ "animation_url"), Hx.
    + split; [done|]. intros (_ & Hx & _). specialize (Hx a eq_refl).
      apply (requireIpfsLink_iff _ _ "image") in Hx. congruence.
  - split; [done|]. intros (Hkeys & _). assert (forallb (λ k, bool_decide (is_Some (js_lookup m k))) requiredKeys = true);
      [|congruence]. apply forallb_forall. intros k Hin%list_elem_of_In. by apply bool_decide_eq_true, Hkeys.
Qed.

(** Services that answer: the environment, the file at each path, and the
    hash, address and transaction they return. *)
Definition metadata_services (environment : string → option string) (file : string → metadata)
    (pin : metadata → string → string) (contract tx : string) : env metadataE := λ _ X c,
  match c in metadataE Y return result Y with
  | EnvVar name => Ok (environment name)
  | ReadMetadata path => Ok (file path)
  | PinJSONToIPFS m name => Ok (pin m name)
  | MetadataSigners => Ok tt
  | MetadataDeployment _ => Ok contract
  | SetTokenURI _ _ _ => Ok tx
  | WaitSetTokenURI _ => Ok tt
  end.

(** setERC1155Metadata.ts pins and links exactly valid metadata.  When the
    file METADATA names has the required keys and both links are IPFS links with
    a valid identifier, the script pins that object, under the name made of
    TOKEN_ID, sets the URI of that token to the hash the pinning returned, waits
    for the transaction and succeeds; when it does not, the script fails
    before anything is pinned or sent. *)
Theorem metadata_pinned_iff_valid (CID_parse : string → result unit) (repository_path : string → string)
    (environment : string → option string) (file : string → metadata)
    (pin : metadata → string → string) (contract tx path : string) :
  environment "METADATA"%string = Some path → path ≠ ""%string →
  let ev := metadata_services environment file pin contract tx in
  let script := setERC1155Metadata CID_parse repository_path in
  let m := file (repository_path path) in
  let tokenId := parseInt (env_or (environment "TOKEN_ID"%string) "0") in
  let name := token_text tokenId +:+ "-metadata.json" in
  let checks := [Event (EnvVar "TOKEN_ID"); Event (EnvVar "METADATA"); Event (ReadMetadata (repository_path path))] in
  (valid_metadata CID_parse m → outcome ev script = Ok tt ∧
     trace ev script = checks ++ [Event (PinJSONToIPFS m name); Event MetadataSigners;
       Event (MetadataDeployment "MintableERC1155");
       Event (SetTokenURI contract tokenId ("ipfs://" +:+ pin m name)); Event (WaitSetTokenURI tx)]) ∧
  (¬ valid_metadata CID_parse m → is_ok (outcome ev script) = false ∧ trace ev script = checks).
Proof.
  intros Hpath Hne. cbv zeta. unfold outcome, trace, setERC1155Metadata, parseAndValidateMetadata.
  rewrite !run_bind, !run_call. cbn [metadata_services fst snd app]. rewrite !run_bind, !run_call.
  cbn [metadata_services fst snd app]. rewrite Hpath, bool_decide_eq_false_2 by done.
  rewrite !run_bind, !run_call. cbn [metadata_services fst snd app].
  rewrite <- !validate_metadata_iff. destruct (validate_metadata _ _) as [[]|e]; cbn; split; done.
Qed.

Lemma metadata_pinned_iff_valid_witness :
  outcome (metadata_services (λ _, Some "m"%string)
    (λ _, [("name", "n"); ("description", "d"); ("image", "ipfs://Qm"); ("animation_url", "ipfs://Qn")]%string)
    (λ _ _, "Qz"%string) "0x1" "0x2")
    (setERC1155Metadata (λ s, require (negb (bool_decide (s = ""%string))) (JsError "cid")) (λ p, p)) = Ok tt.
Proof.
  eapply metadata_pinned_iff_valid; [reflexivity|done|]. apply validate_metadata_iff. vm_compute. reflexivity.
Defined.
