(* ===== verification/DeploymentUtils.v ===== *)
(** * deployments.json: reading and writing it

    [src/DeploymentUtils.ts] looks contracts up in [deployments/deployments.json];
    [scripts/processHardhatExport.ts] writes that file from a hardhat export.
    The file itself is generated and not part of the repository, so it is an
    argument of the definitions. *)

From stdpp Require Import base strings list.
From Stdlib Require Import ZArith Lia.
From S2P Require Import Prelude JsText Consts.

Record deployment := { dep_address : string; dep_blockNumber : Z }.

(** chain id text -> contract name -> deployment *)
Definition DeploymentExport : Type := list (string * list (string * deployment)).

(** [networkId.toString()] *)
Definition chain_text (networkId : chain_key) : string :=
  match networkId with Some c => decimal c | None => "NaN" end.

Definition not_found (what : string) : js_error :=
  JsError ("Contract " +:+ what +:+ " not found in deployments.json").

Section Lookup.
Context (deployments : DeploymentExport).

Definition deployed_entry (contractName chainText : string) : option deployment :=
  match js_lookup deployments chainText with
  | Some contracts => js_lookup contracts contractName
  | None => None
  end.

(** An empty address is falsy. *)
Definition getDeployedAddress (contractName : string) (networkId : chain_key) (throwOnError : bool)
  : result (option string) :=
  let address := dep_address <$> deployed_entry contractName (chain_text networkId) in
  let falsy := match address with Some a => bool_decide (a = ""%string) | None => true end in
  if falsy && throwOnError
  then Err (not_found (contractName +:+ " on " +:+ chain_text networkId))
  else Ok address.

(** The [TypeError] of a missing chain or contract is caught and rethrown. *)
Definition getDeployedBlockNumber (contractName : string) (networkId : chain_key) : result Z :=
  match deployed_entry contractName (chain_text networkId) with
  | Some d => Ok (dep_blockNumber d)
  | None => Err (not_found (contractName +:+ " on " +:+ chain_text networkId))
  end.

(** The pairs pushed on [returnValue], in the order of the keys. *)
Definition contracts_at (contractAddress : string) : list (chain_key * string) :=
  concat (map (λ _chainId,
    match js_lookup deployments _chainId with
    | None => []
    | Some contracts =>
        concat (map (λ _contractName,
          match js_lookup contracts _contractName with
          | Some d => if bool_decide (dep_address d = contractAddress)
                      then [(js_Number _chainId, _contractName)] else []
          | None => []
          end) (js_keys contracts))
    end) (js_keys deployments)).

Definition getContractInfoFromAddress (contractAddress : string) : result (chain_key * string) :=
  match contracts_at contractAddress with
  | [] => Err (not_found contractAddress)
  | [info] => Ok info
  | _ => Err (JsError ("Multiple deployments found for " +:+ contractAddress))
  end.
End Lookup.

(** ** scripts/processHardhatExport.ts *)

(** [cache/massExport.json]: per chain, the network's name and contracts
    ([castExport[chainId][0]]; [None] when the array is empty). *)
Record network_export := { net_name : string; net_contracts : list (string * string) }.
Definition MassExport : Type := list (string * option network_export).

Definition is_spoke_name (contractName : string) : bool := includes contractName "_SpokePool".

Section ExportScript.
(** The receipt's block number in [deployments/<network>/<contract>.json]. *)
Context (findDeploymentBlockNumber : string → string → result Z).
Context (existingDeployments : DeploymentExport).

(** The body of the innermost callback. *)
Definition process_contract (chainId : string) (net : network_export)
    (processedOutput : DeploymentExport) (contractName : string) : result DeploymentExport :=
  let contracts := default [] (js_lookup processedOutput chainId) in
  let processedOutput := js_set processedOutput chainId contracts in
  let? address := from_option_err TypeError (js_lookup (net_contracts net) contractName) in
  let? blockNumber := findDeploymentBlockNumber (net_name net) contractName in
  let? existing := from_option_err TypeError (deployed_entry existingDeployments contractName chainId) in
  if blockNumber <? dep_blockNumber existing then Ok processedOutput
  else
    let contractName := if is_spoke_name contractName then "SpokePool"%string else contractName in
    Ok (js_set processedOutput chainId
          (js_set contracts contractName
             {| dep_address := address; dep_blockNumber := blockNumber |})).

Fixpoint fold_result {A B} (f : B → A → result B) (b : B) (l : list A) : result B :=
  match l with
  | [] => Ok b
  | x :: l' => let? b' := f b x in fold_result f b' l'
  end.

Definition process_chain (castExport : MassExport) (processedOutput : DeploymentExport)
    (chainId : string) : result DeploymentExport :=
  match js_lookup castExport chainId with
  | Some (Some net) =>
      fold_result (process_contract chainId net) processedOutput (js_keys (net_contracts net))
  | _ => Ok processedOutput
  end.

(** What [run] writes to [deployments.json]: [None] when an exception was
    caught (and ignored) before the write. *)
Definition processHardhatExport (deploymentExport : result MassExport) : option DeploymentExport :=
  match
    let? castExport := deploymentExport in
    fold_result (process_chain castExport) [] (js_keys castExport)
  with
  | Ok processedOutput => Some processedOutput
  | Err _ => None
  end.
End ExportScript.

(** * Properties *)

(** A file as [JSON.parse] gives it: no key twice. *)
Definition export_wf (ds : DeploymentExport) : Prop :=
  NoDup (js_keys ds) ∧ Forall (λ r, NoDup (js_keys r.2)) ds.

Lemma contracts_at_spec ds a info :
  info ∈ contracts_at ds a ↔
    ∃ c n d, deployed_entry ds n c = Some d ∧ dep_address d = a ∧ info = (js_Number c, n).
Proof.
  unfold contracts_at, deployed_entry. rewrite elem_of_concat_map. split.
  - intros (c & Hc & Hin). destruct (js_lookup ds c) as [cs|] eqn:Hcs; [|by apply not_elem_of_nil in Hin].
    apply elem_of_concat_map in Hin as (n & Hn & Hin).
    destruct (js_lookup cs n) as [d|] eqn:Hd; [|by apply not_elem_of_nil in Hin].
    case_bool_decide as Ha; [|by apply not_elem_of_nil in Hin].
    apply list_elem_of_singleton in Hin as ->. exists c, n, d. by rewrite Hcs.
  - intros (c & n & d & Hd & Ha & ->).
    destruct (js_lookup ds c) as [cs|] eqn:Hcs; [|done].
    exists c. split; [by apply elem_of_js_keys; eauto|]. rewrite Hcs.
    apply elem_of_concat_map. exists n. split; [by apply elem_of_js_keys; eauto|]. rewrite Hd.
    rewrite bool_decide_eq_true_2 by done. by apply list_elem_of_singleton.
Qed.

(** The two look-ups of deployments.json are inverse to each other: the
    contract [getContractInfoFromAddress] returns is recorded at that address,
    it throws "not found" exactly when nothing is recorded there, and a
    contract whose address is recorded nowhere else is found again from the
    address [getDeployedAddress] gives. *)
Theorem address_lookup_inverse (ds : DeploymentExport) (a : string) :
  (∀ c n, getContractInfoFromAddress ds a = Ok (c, n) →
     ∃ t d, js_Number t = c ∧ deployed_entry ds n t = Some d ∧ dep_address d = a) ∧
  (getContractInfoFromAddress ds a = Err (not_found a) ↔
     ∀ n t d, deployed_entry ds n t = Some d → dep_address d ≠ a) ∧
  (∀ n chain, getDeployedAddress ds n (Some chain) true = Ok (Some a) →
     length (contracts_at ds a) = 1%nat →
     getContractInfoFromAddress ds a = Ok (js_Number (decimal chain), n)).
Proof.
  unfold getContractInfoFromAddress. split_and!.
  - intros c n. pose proof (contracts_at_spec ds a (c, n)) as Hs.
    destruct (contracts_at ds a) as [|i [|]]; [done| |done].
    intros [= ->]. destruct Hs as [Hs _].
    destruct (Hs ltac:(by left)) as (t & m & d & Hd & Ha & [= -> ->]). eauto.
  - split.
    + intros He n t d Hd Ha. pose proof (contracts_at_spec ds a (js_Number t, n)) as [_ Hs].
      destruct (contracts_at ds a) as [|i [|]]; [|done|].
      * apply (not_elem_of_nil (js_Number t, n)), Hs. by exists t, n, d.
      * unfold not_found in He. injection He as He. cbn in He. discriminate He.
    + intros Hno. destruct (contracts_at ds a) as [|i l] eqn:Hl; [done|].
      destruct (proj1 (contracts_at_spec ds a i) ltac:(rewrite Hl; by left)) as (t & m & d & Hd & Ha & _).
      by destruct (Hno m t d Hd).
  - intros n chain Hg Hlen. unfold getDeployedAddress in Hg.
    destruct (deployed_entry ds n (chain_text (Some chain))) as [d|] eqn:Hd; [|done].
    cbn in Hg. case_match; [done|]. injection Hg as Hg.
    pose proof (proj2 (contracts_at_spec ds a (js_Number (decimal chain), n))) as Hs.
    destruct (contracts_at ds a) as [|i [|]]; [done| |done].
    assert (Hin : (js_Number (decimal chain), n) ∈ [i]) by (apply Hs; by exists (decimal chain), n, d).
    by apply list_elem_of_singleton in Hin as ->.
Qed.

Definition sample_deployments : DeploymentExport :=
  [("1", [("HubPool", {| dep_address := "0xhub"; dep_blockNumber := 10 |});
          ("SpokePool", {| dep_address := "0xspoke"; dep_blockNumber := 11 |})]);
   ("10", [("SpokePool", {| dep_address := "0xop"; dep_blockNumber := 12 |})])]%string.

Lemma address_lookup_inverse_witness :
  getContractInfoFromAddress sample_deployments "0xop" = Ok (Some 10, "SpokePool"%string).
Proof.
  destruct (address_lookup_inverse sample_deployments "0xop") as (_ & _ & H).
  apply (H "SpokePool"%string 10); vm_compute; reflexivity.
Defined.

(** ** Exports *)
Lemma fold_result_ok {A B} (f : B → A → result B) (I : B → Prop) l b b' :
  fold_result f b l = Ok b' → I b → (∀ b x b', x ∈ l → I b → f b x = Ok b' → I b') → I b'.
Proof.
  revert b. induction l as [|x l IH]; cbn; intros b Hb HI Hstep; [congruence|].
  destruct (f b x) as [b1|] eqn:Hf; [|done]. cbn in Hb.
  eapply IH; [exact Hb| |].
  - eapply Hstep; [by left|exact HI|exact Hf].
  - intros b2 y b3 Hy. apply Hstep. by right.
Qed.

Lemma fold_result_visits {A B} (f : B → A → result B) l b b' x :
  fold_result f b l = Ok b' → x ∈ l → ∃ b1 b2, f b1 x = Ok b2.
Proof.
  revert b. induction l as [|y l IH]; cbn; intros b Hb Hx; [by apply not_elem_of_nil in Hx|].
  destruct (f b y) as [b1|] eqn:Hf; [|done]. cbn in Hb.
  apply elem_of_cons in Hx as [->|Hx]; eauto.
Qed.

(** No contract is listed under its network-specific spoke pool name. *)
Definition renamed (ds : DeploymentExport) : Prop :=
  NoDup (js_keys ds) ∧
  ∀ c cs, js_lookup ds c = Some cs → Forall (λ n, is_spoke_name n = false) (js_keys cs).

Lemma renamed_entry ds n c : renamed ds → is_spoke_name n = true → deployed_entry ds n c = None.
Proof.
  intros [_ Hr] Hn. unfold deployed_entry. destruct (js_lookup ds c) as [cs|] eqn:Hc; [|done].
  apply js_lookup_None. intros Hin. specialize (Hr c cs Hc).
  rewrite Forall_forall in Hr. specialize (Hr n Hin). cbn in Hr. congruence.
Qed.

Lemma renamed_set ds c cs :
  renamed ds → Forall (λ n, is_spoke_name n = false) (js_keys cs) → renamed (js_set ds c cs).
Proof.
  intros [Hnd Hr] Hcs. split; [by apply js_set_NoDup|].
  intros c' cs'. rewrite js_lookup_set by done. case_decide; [by intros [= <-]|]. apply Hr.
Qed.

Lemma process_contract_renamed find existing c net ds n ds' :
  renamed ds → process_contract find existing c net ds n = Ok ds' → renamed ds'.
Proof.
  intros Hr. unfold process_contract.
  assert (Hcs : Forall (λ n, is_spoke_name n = false) (js_keys (default [] (js_lookup ds c)))).
  { destruct (js_lookup ds c) as [cs|] eqn:Hc; [by eapply (proj2 Hr)|constructor]. }
  pose proof (renamed_set ds c _ Hr Hcs) as Hr1. set (ds1 := js_set ds c _) in *.
  destruct (from_option_err TypeError (js_lookup (net_contracts net) n)) as [a|]; [|done].
  destruct (find (net_name net) n) as [bn|]; [|done].
  destruct (from_option_err TypeError (deployed_entry existing n c)) as [old|]; [|done].
  cbn [result_bind]. case_match; intros [= <-]; [done|].
  apply renamed_set; [done|]. rewrite js_keys_set. case_decide; [done|].
  apply Forall_app. split; [done|]. apply Forall_singleton.
  destruct (is_spoke_name n) eqn:Hn; [reflexivity|exact Hn].
Qed.

Lemma process_chain_renamed find existing exp ds c ds' :
  renamed ds → process_chain find existing exp ds c = Ok ds' → renamed ds'.
Proof.
  intros Hr. unfold process_chain. destruct (js_lookup exp c) as [[net|]|]; [|congruence..].
  intros Hf. eapply fold_result_ok; [exact Hf|done|].
  intros b n b' _ Hb. by apply process_contract_renamed.
Qed.

Lemma processHardhatExport_renamed find existing exp out :
  processHardhatExport find existing (Ok exp) = Some out → renamed out.
Proof.
  unfold processHardhatExport. cbn [result_bind].
  destruct (fold_result (process_chain find existing exp) [] (js_keys exp)) as [ds|] eqn:Hf; intros [= <-].
  eapply fold_result_ok; [exact Hf| |].
  - split; [constructor|]. done.
  - intros b c b' _ Hb. by apply process_chain_renamed.
Qed.

Lemma processHardhatExport_visits find existing exp out c net n :
  processHardhatExport find existing (Ok exp) = Some out →
  js_lookup exp c = Some (Some net) → n ∈ js_keys (net_contracts net) →
  is_Some (deployed_entry existing n c).
Proof.
  unfold processHardhatExport. cbn [result_bind]. intros Hout Hc Hn.
  destruct (fold_result (process_chain find existing exp) [] (js_keys exp)) as [ds|] eqn:Hf; [|done].
  destruct (fold_result_visits _ _ _ _ c Hf) as (b1 & b2 & Hchain);
    [apply elem_of_js_keys; eauto|].
  unfold process_chain in Hchain. rewrite Hc in Hchain.
  destruct (fold_result_visits _ _ _ _ n Hchain Hn) as (b3 & b4 & Hp).
  unfold process_contract in Hp.
  destruct (from_option_err TypeError (js_lookup _ n)); [|done].
  destruct (find (net_name net) n); [|done]. cbn [result_bind] in Hp.
  destruct (deployed_entry existing n c); [eauto|done].
Qed.

(** [processHardhatExport] cannot update a file it wrote itself: it
    renames every [X_SpokePool] to [SpokePool] when writing, but looks the old
    name up in the existing file, and the resulting [TypeError] is swallowed.
    After one successful run, no later export that contains a spoke pool
    writes anything. *)
Theorem export_not_repeatable find find' existing exp exp' out c net n :
  processHardhatExport find existing (Ok exp) = Some out →
  js_lookup exp' c = Some (Some net) → n ∈ js_keys (net_contracts net) →
  is_spoke_name n = true →
  processHardhatExport find' out (Ok exp') = None.
Proof.
  intros Hout Hc Hn Hspoke. apply processHardhatExport_renamed in Hout.
  destruct (processHardhatExport find' out (Ok exp')) as [out'|] eqn:Hout'; [|done].
  destruct (processHardhatExport_visits _ _ _ _ _ _ _ Hout' Hc Hn) as [d Hd].
  by rewrite (renamed_entry out n c Hout Hspoke) in Hd.
Qed.

Definition sample_export : MassExport :=
  [("10"%string, Some {| net_name := "optimism"; net_contracts := [("Optimism_SpokePool", "0xop")] |})]%string.
Definition hand_written : DeploymentExport :=
  [("10", [("Optimism_SpokePool", {| dep_address := "0xold"; dep_blockNumber := 1 |})])]%string.

Lemma export_not_repeatable_witness :
  ∃ out, processHardhatExport (λ _ _, Ok 12) hand_written (Ok sample_export) = Some out ∧
    processHardhatExport (λ _ _, Ok 12) out (Ok sample_export) = None.
Proof.
  eexists. split; [vm_compute; reflexivity|].
  eapply (export_not_repeatable (λ _ _, Ok 12) _ hand_written sample_export _ _ "10" _ "Optimism_SpokePool");
    [vm_compute; reflexivity|vm_compute; reflexivity| |].
  - cbn. left.
  - vm_compute. reflexivity.
Defined.
