(* ===== verification/VerifySpokePool.v ===== *)
(** * tasks/verifySpokePool.ts

    The task that reads the configuration of a deployed spoke pool in one
    multicall and asserts that it is the expected one.  A word of the
    multicall's answer is 32 bytes of hexadecimal text. *)

From stdpp Require Import base gmap strings list.
From Stdlib Require Import ZArith Ascii Strings.Byte Lia.
From S2P Require Import Prelude Bytes JsText Consts DeploymentUtils.

(** An [EnabledDepositRoute] event. *)
Record route_event := {
  re_originToken : string;
  re_destinationChainId : Z;
  re_enabled : bool;
  re_blockNumber : Z;
  re_transactionHash : string
}.

Inductive verifyE : Type → Type :=
| VerifyChainId : verifyE string
| GetDeploymentAbi (name : string) : verifyE unit
| StaticMulticall (spokeAddress : string) (functions : list string) : verifyE (list string)
| QueryRoutes (spokeAddress : string) : verifyE (list route_event).

Definition AssertionError : js_error := JsError "AssertionError".

Definition spokeFunctions : list string :=
  ["chainId"; "getCurrentTime"; "depositQuoteTimeBuffer"; "fillDeadlineBuffer"; "wrappedNativeToken";
   "crossDomainAdmin"]%string.

(** [Object.fromEntries(spokeFunctions.map((fn, idx) => [fn, multicall[idx]]))] *)
Definition named_results (multicall : list string) (fn : string) : option string :=
  js_lookup (zip spokeFunctions multicall) fn.

Section Task.
Context `{AcrossConstants}.
(** [Object.values(MAINNET_CHAIN_IDs)], deployments.json, [ethers.utils.getAddress]. *)
Context (MAINNET_CHAIN_IDs : list Z) (deployments : DeploymentExport) (getAddress : string → result string).

(** A missing answer is [undefined], whose [slice] throws. *)
Definition bytes32ToAddress (bytestring : option string) : result string :=
  let? b := from_option_err TypeError bytestring in
  let? _ := require (bool_decide (str_slice b 2 26 = "000000000000000000000000"%string)) AssertionError in
  getAddress (str_slice b 0 2 +:+ str_slice_last b 40).

(** [Number(word)]; [undefined] is [NaN]. *)
Definition number_of (word : option string) : option Z := word ≫= js_Number.

(** The row printed for a route: the chain id is padded on the left. *)
Record route_row := { rr_block : Z; rr_token : string; rr_chain : string; rr_enabled : string; rr_hash : string }.

Definition pad_start (n : nat) (s : string) : string := text (replicate (n - length (chars s)) " "%char) +:+ s.

(** [Object.values(MAINNET_CHAIN_IDs).sort(...).pop().toString().length] *)
Definition CHAIN_PADDING : nat := length (chars (decimal (foldr Z.max 0 MAINNET_CHAIN_IDs))).
Definition formatChainId (chainId : Z) : string := pad_start CHAIN_PADDING (decimal chainId).

Definition route_row_of (e : route_event) : route_row :=
  {| rr_block := re_blockNumber e; rr_token := re_originToken e; rr_chain := formatChainId (re_destinationChainId e);
     rr_enabled := pad_start 5 (if re_enabled e then "true" else "false"); rr_hash := re_transactionHash e |}.

(** What the task prints last: the number of route events and, with
    [--routes], their rows, the latest first. *)
Definition verifySpokePool (routes : bool) : prog verifyE (nat * list route_row) :=
  let! id := call VerifyChainId in
  let spokeChainId := parseInt id in
  let hubChainId := match spokeChainId with
                    | Some c => if bool_decide (c ∈ MAINNET_CHAIN_IDs) then CHAIN_IDs "MAINNET" else CHAIN_IDs "SEPOLIA"
                    | None => CHAIN_IDs "SEPOLIA"
                    end in
  let! spokeAddress := lift (getDeployedAddress deployments "SpokePool" spokeChainId true) in
  let! hubAddress := lift (getDeployedAddress deployments "HubPool" (Some hubChainId) true) in
  call (GetDeploymentAbi "Ethereum_SpokePool") ;;
  let address := default ""%string spokeAddress in
  let! multicall := call (StaticMulticall address spokeFunctions) in
  let results := named_results multicall in
  lift (require (bool_decide (is_Some spokeChainId ∧ number_of (results "chainId"%string) = spokeChainId)) AssertionError) ;;
  let! wrappedNative := lift (bytes32ToAddress (results "wrappedNativeToken"%string)) in
  let wrappedNativeSymbol := if bool_decide (spokeChainId = Some (CHAIN_IDs "POLYGON")) then "WMATIC"%string else "WETH"%string in
  let expectedWrappedNative := c ← spokeChainId; TOKEN_SYMBOLS_MAP wrappedNativeSymbol c in
  lift (require (bool_decide (Some wrappedNative = expectedWrappedNative)) AssertionError) ;;
  let! crossDomainAdmin := lift (bytes32ToAddress (results "crossDomainAdmin"%string)) in
  lift (require (bool_decide (Some crossDomainAdmin = hubAddress)) AssertionError) ;;
  let! events := call (QueryRoutes address) in
  Ret (length events, if routes then map route_row_of (rev events) else []).
End Task.

(** ** Words as text *)
Definition word_text (w : Z) : string := "0x" +:+ to_hex (be_bytes 32 w).

Lemma length_to_hex_chars bs : length (to_hex_chars bs) = (2 * length bs)%nat.
Proof. induction bs as [|b bs IH]; cbn [to_hex_chars length]; lia. Qed.

Lemma to_hex_chars_app a b : to_hex_chars (a ++ b) = to_hex_chars a ++ to_hex_chars b.
Proof. induction a as [|x a IH]; cbn [app to_hex_chars]; [done|]. by rewrite IH. Qed.

Lemma chars_word w : chars (word_text w) = "0"%char :: "x"%char :: to_hex_chars (be_bytes 32 w).
Proof. unfold word_text, to_hex. by rewrite chars_app, chars_text. Qed.

(** The two parts of a word: its first 12 bytes and the other 20. *)
Lemma word_parts w :
  str_slice (word_text w) 2 26 = to_hex (take 12 (be_bytes 32 w)) ∧
  str_slice (word_text w) 0 2 +:+ str_slice_last (word_text w) 40 = "0x" +:+ to_hex (drop 12 (be_bytes 32 w)).
Proof.
  set (bs := be_bytes 32 w). assert (Hl : length bs = 32%nat) by apply length_be_bytes.
  assert (Hsplit : to_hex_chars bs = to_hex_chars (take 12 bs) ++ to_hex_chars (drop 12 bs))
    by (by rewrite <- to_hex_chars_app, take_drop).
  assert (Ht : length (to_hex_chars (take 12 bs)) = 24%nat) by (rewrite length_to_hex_chars, length_take, Hl; done).
  assert (Hd : length (to_hex_chars (drop 12 bs)) = 40%nat) by (rewrite length_to_hex_chars, length_drop, Hl; done).
  unfold str_slice, str_slice_last, slice.
  assert (Hlen : String.length (word_text w) = 66%nat).
  { rewrite <- (text_chars (word_text w)), chars_word. fold bs. unfold text.
    assert (Hs : ∀ l, String.length (String.string_of_list_ascii l) = length l)
      by (intros l; induction l as [|x l IH]; cbn; congruence).
    rewrite Hs. cbn [length]. rewrite length_to_hex_chars, Hl. done. }
  rewrite Hlen, chars_word. fold bs. rewrite Hsplit. split.
  - change (66 - 40)%nat with 26%nat. cbn [drop Nat.sub]. rewrite drop_0. unfold to_hex. by rewrite take_app_length' by done.
  - change (66 - 40)%nat with (2 + 24)%nat. cbn [drop Nat.sub take Nat.add].
    unfold to_hex. by rewrite drop_app_length' by done.
Qed.

Lemma le_bytes_app n m v : le_bytes (n + m) v = le_bytes n v ++ le_bytes m (v / 256 ^ Z.of_nat n).
Proof.
  revert v. induction n as [|n IH]; intros v.
  - cbn [Nat.add le_bytes app]. f_equal. change (256 ^ Z.of_nat 0) with 1. by rewrite Z.div_1_r.
  - cbn [Nat.add le_bytes app]. rewrite IH. do 3 f_equal.
    rewrite pow256_S, Z.div_div by lia. done.
Qed.

Lemma be_bytes_split w :
  take 12 (be_bytes 32 w) = be_bytes 12 (w / 2 ^ 160) ∧ drop 12 (be_bytes 32 w) = be_bytes 20 w.
Proof.
  unfold be_bytes. change 32%nat with (20 + 12)%nat. rewrite le_bytes_app, rev_app_distr.
  change (256 ^ Z.of_nat 20) with (2 ^ 160).
  assert (length (rev (le_bytes 12 (w / 2 ^ 160))) = 12%nat) by (by rewrite length_rev, length_le_bytes).
  by rewrite take_app_length', drop_app_length' by done.
Qed.

Definition is_word (w : Z) : Prop := 0 ≤ w < 2 ^ 256.

(** An address word is read back; another word is refused. *)
Lemma bytes32ToAddress_word (getAddress : string → result string) w : is_word w →
  bytes32ToAddress getAddress (Some (word_text w)) =
    if w <? 2 ^ 160 then getAddress ("0x" +:+ to_hex (be_bytes 20 w)) else Err AssertionError.
Proof.
  intros Hw. unfold bytes32ToAddress. rewrite from_some, bind_ok.
  destruct (word_parts w) as [-> ->]. destruct (be_bytes_split w) as [-> ->].
  assert (Hhi : 0 ≤ w / 2 ^ 160 < 256 ^ Z.of_nat 12).
  { split; [apply Z.div_pos; unfold is_word in Hw; lia|]. apply Z.div_lt_upper_bound; [lia|].
    change (2 ^ 160 * 256 ^ Z.of_nat 12) with (2 ^ 256). apply Hw. }
  destruct (Z.ltb_spec w (2 ^ 160)) as [Hlt|Hge].
  - rewrite (Z.div_small w) by (unfold is_word in Hw; lia). by rewrite bool_decide_eq_true_2.
  - rewrite bool_decide_eq_false_2; [done|]. intros Heq.
    apply (f_equal buffer_from_hex) in Heq. rewrite buffer_from_to_hex in Heq.
    apply (f_equal be_val) in Heq. rewrite be_val_be_bytes in Heq by done.
    change (be_val (buffer_from_hex "000000000000000000000000")) with 0 in Heq.
    assert (1 ≤ w / 2 ^ 160) by (apply Z.div_le_lower_bound; lia). lia.
Qed.

Lemma hex_digit_not_space n : 0 ≤ n < 16 → is_space (hex_digit n) = false.
Proof.
  intros Hn. assert (n = 0 ∨ n = 1 ∨ n = 2 ∨ n = 3 ∨ n = 4 ∨ n = 5 ∨ n = 6 ∨ n = 7 ∨ n = 8
    ∨ n = 9 ∨ n = 10 ∨ n = 11 ∨ n = 12 ∨ n = 13 ∨ n = 14 ∨ n = 15) as Hc by lia.
  by repeat destruct Hc as [->|Hc]; subst; vm_compute.
Qed.

Lemma trim_id l : Forall (λ a, is_space a = false) l → trim l = l.
Proof.
  assert (Hd : ∀ l, Forall (λ a, is_space a = false) l → drop_spaces l = l).
  { intros k Hk. destruct Hk as [|a k Ha _]; [done|]. cbn. by rewrite Ha. }
  intros Hl. unfold trim. rewrite (Hd l Hl), Hd; [apply rev_involutive|]. by apply Forall_rev.
Qed.

Lemma hex_chars_not_space bs : Forall (λ a, is_space a = false) (to_hex_chars bs).
Proof.
  induction bs as [|b bs IH]; cbn; [constructor|]. pose proof (byte_val_bound b).
  constructor; [|constructor; [|done]]; apply hex_digit_not_space.
  - split; [apply Z.div_pos|apply Z.div_lt_upper_bound]; lia.
  - apply Z.mod_pos_bound. lia.
Qed.

Lemma number_of_word w : is_word w → number_of (Some (word_text w)) = Some w.
Proof.
  intros Hw. unfold number_of, js_Number. cbn [mbind option_bind]. rewrite chars_word, trim_id.
  - cbn [parse_unsigned]. pose proof (be_val_be_bytes 32 w Hw) as Hv.
    assert (length (be_bytes 32 w) = 32%nat) by apply length_be_bytes.
    destruct (be_bytes 32 w) as [|b bs]; [done|]. cbn [to_hex_chars]. rewrite hex_pair, take_hex_digits_bytes. cbn [whole].
    rewrite <- Hv, be_val_cons. f_equal.
  - repeat (constructor; [reflexivity|]). apply hex_chars_not_space.
Qed.

(** ** Property *)

(** What a spoke pool must answer on chain [c]: its chain id, the wrapped native
    token of the chain and the hub pool as admin, both as addresses. *)
Definition rightly_configured `{AcrossConstants} (checksum : bytes → string) (c : Z) (hub : string)
    (chainId wrappedNative crossDomainAdmin : Z) : Prop :=
  chainId = c ∧
  (wrappedNative < 2 ^ 160 ∧
   TOKEN_SYMBOLS_MAP (if bool_decide (c = CHAIN_IDs "POLYGON") then "WMATIC" else "WETH") c =
     Some (checksum (be_bytes 20 wrappedNative))) ∧
  (crossDomainAdmin < 2 ^ 160 ∧ checksum (be_bytes 20 crossDomainAdmin) = hub).

(** verifySpokePool.ts accepts exactly the expected configuration.  For a
    pool and a hub found in deployments.json and any words the pool answers, the
    task ends normally if and only if the pool's chain id is the network's, its
    wrapped native token is that of the chain (WMATIC on Polygon, WETH
    elsewhere) and its admin is the hub pool, both words being addresses; it
    then reports all route events, latest first when asked to. *)
Theorem verify_spokepool_exact `{AcrossConstants} (MAINNET_CHAIN_IDs : list Z) (deployments : DeploymentExport)
    (getAddress : string → result string) (checksum : bytes → string) (ev : env verifyE)
    (id spoke hub : string) (c chainId time quoteBuffer fillBuffer native admin : Z) (events : list route_event)
    (routes : bool) :
  (∀ bs, length bs = 20%nat → getAddress ("0x" +:+ to_hex bs) = Ok (checksum bs)) →
  parseInt id = Some c →
  getDeployedAddress deployments "SpokePool" (Some c) true = Ok (Some spoke) →
  getDeployedAddress deployments "HubPool"
    (Some (if bool_decide (c ∈ MAINNET_CHAIN_IDs) then CHAIN_IDs "MAINNET" else CHAIN_IDs "SEPOLIA")) true = Ok (Some hub) →
  Forall is_word [chainId; time; quoteBuffer; fillBuffer; native; admin] →
  (∀ h, ev h _ VerifyChainId = Ok id) → (∀ h, ev h _ (GetDeploymentAbi "Ethereum_SpokePool") = Ok tt) →
  (∀ h, ev h _ (StaticMulticall spoke spokeFunctions) =
     Ok (map word_text [chainId; time; quoteBuffer; fillBuffer; native; admin])) →
  (∀ h, ev h _ (QueryRoutes spoke) = Ok events) →
  let run := outcome ev (verifySpokePool MAINNET_CHAIN_IDs deployments getAddress routes) in
  (is_ok run = true ↔ rightly_configured checksum c hub chainId native admin) ∧
  (rightly_configured checksum c hub chainId native admin →
     run = Ok (length events, if routes then map (route_row_of MAINNET_CHAIN_IDs) (rev events) else [])).
Proof.
  intros Hget Hid Hspoke Hhub Hwords Hev1 Hev2 Hev3 Hev4. cbv zeta.
  assert (Hch : is_word chainId) by (by inversion Hwords).
  assert (Hna : is_word native) by (eapply Forall_forall; [exact Hwords|]; do 4 right; left).
  assert (Had : is_word admin) by (eapply Forall_forall; [exact Hwords|]; do 5 right; left).
  assert (Haddr : ∀ w, is_word w → bytes32ToAddress getAddress (Some (word_text w)) =
    if w <? 2 ^ 160 then Ok (checksum (be_bytes 20 w)) else Err AssertionError).
  { intros w Hw. rewrite bytes32ToAddress_word by done. by rewrite Hget by apply length_be_bytes. }
  unfold outcome, verifySpokePool. rewrite run_bind, run_call, Hev1. cbv beta iota zeta. rewrite Hid.
  rewrite Hspoke. cbn [lift bind]. rewrite Hhub. cbn [lift bind default].
  rewrite run_bind, run_call, Hev2. cbv beta iota. rewrite run_bind, run_call, Hev3. cbv beta iota.
  change (named_results (map word_text [chainId; time; quoteBuffer; fillBuffer; native; admin]) "chainId"%string)
    with (Some (word_text chainId)).
  change (named_results (map word_text [chainId; time; quoteBuffer; fillBuffer; native; admin]) "wrappedNativeToken"%string)
    with (Some (word_text native)).
  change (named_results (map word_text [chainId; time; quoteBuffer; fillBuffer; native; admin]) "crossDomainAdmin"%string)
    with (Some (word_text admin)).
  rewrite number_of_word, !Haddr by done. unfold rightly_configured.
  destruct (decide (chainId = c)) as [->|Hne].
  2:{ rewrite bool_decide_eq_false_2 by (intros [_ [=]]; done). cbn. split; [split; [done|tauto]|tauto]. }
  rewrite bool_decide_eq_true_2 by (split; [by eexists|done]). cbn [require lift bind].
  destruct (Z.ltb_spec native (2 ^ 160)); cbn [lift bind].
  2:{ cbn. split; [split; [done|lia]|lia]. }
  assert (bool_decide (Some c = Some (CHAIN_IDs "POLYGON")) = bool_decide (c = CHAIN_IDs "POLYGON")) as ->
    by (apply bool_decide_ext; split; congruence).
  cbn [mbind option_bind].
  set (symbol := if bool_decide (c = CHAIN_IDs "POLYGON") then "WMATIC"%string else "WETH"%string).
  destruct (decide (TOKEN_SYMBOLS_MAP symbol c = Some (checksum (be_bytes 20 native)))) as [Ht|Ht].
  2:{ rewrite bool_decide_eq_false_2 by congruence. cbn. split; [split; [done|tauto]|tauto]. }
  rewrite bool_decide_eq_true_2 by done. cbn [require lift bind].
  destruct (Z.ltb_spec admin (2 ^ 160)); cbn [lift bind].
  2:{ cbn. split; [split; [done|lia]|lia]. }
  destruct (decide (checksum (be_bytes 20 admin) = hub)) as [Hh|Hh].
  2:{ rewrite bool_decide_eq_false_2 by congruence. cbn. split; [split; [done|tauto]|tauto]. }
  rewrite bool_decide_eq_true_2 by (by f_equal). cbn [require lift bind].
  rewrite run_bind, run_call, Hev4. cbn [run fst]. done.
Qed.

(** A spoke pool on mainnet with the sample package's token. *)
Definition vs_weth : string := "0xC02aaA39b223FE8D0A0e5C4F27eAD9083C756Cc2".
Definition vs_bytes : bytes := buffer_from_hex (str_slice_from vs_weth 2).
Definition vs_checksum (bs : bytes) : string :=
  if bool_decide (bs = vs_bytes) then vs_weth else "0x" +:+ to_hex bs.
Definition vs_getAddress (s : string) : result string := Ok (vs_checksum (buffer_from_hex (str_slice_from s 2))).
Definition vs_hub : string := "0x" +:+ to_hex (be_bytes 20 77).
Definition vs_deployments : DeploymentExport :=
  [("1", [("SpokePool", {| dep_address := "0xspoke"; dep_blockNumber := 1 |});
          ("HubPool", {| dep_address := vs_hub; dep_blockNumber := 1 |})])]%string.
Definition vs_route (n : Z) : route_event :=
  {| re_originToken := vs_weth; re_destinationChainId := 10; re_enabled := true; re_blockNumber := n;
     re_transactionHash := "0xhash" |}.
Definition vs_words : list Z := [1; 1700000000; 3600; 21600; be_val vs_bytes; 77].
Definition vs_env : env verifyE := λ _ X q,
  match q in verifyE Y return result Y with
  | VerifyChainId => Ok "1"%string
  | GetDeploymentAbi _ => Ok tt
  | StaticMulticall _ _ => Ok (map word_text vs_words)
  | QueryRoutes _ => Ok [vs_route 5; vs_route 6]
  end.

Lemma verify_spokepool_exact_witness :
  rightly_configured vs_checksum 1 vs_hub 1 (be_val vs_bytes) 77 ∧
  outcome vs_env (verifySpokePool [1] vs_deployments vs_getAddress true) =
    Ok (2%nat, map (route_row_of [1]) [vs_route 6; vs_route 5]).
Proof.
  assert (Hr : rightly_configured vs_checksum 1 vs_hub 1 (be_val vs_bytes) 77).
  { unfold rightly_configured. split; [reflexivity|]. split; (split; [vm_compute; reflexivity|vm_compute; reflexivity]). }
  split; [exact Hr|].
  refine (proj2 (verify_spokepool_exact [1] vs_deployments vs_getAddress vs_checksum vs_env "1" "0xspoke" vs_hub 1
    1 1700000000 3600 21600 (be_val vs_bytes) 77 [vs_route 5; vs_route 6] true _ _ _ _ _ _ _ _ _) Hr);
    try reflexivity.
  - intros bs _. unfold vs_getAddress, str_slice_from. rewrite chars_app.
    change (drop 2 (chars "0x" ++ chars (to_hex bs))) with (chars (to_hex bs)). by rewrite text_chars, buffer_from_to_hex.
  - repeat (constructor; [vm_compute; split; [discriminate|reflexivity]|]). constructor.
Defined.
