(* ===== verification/AbiSpec.v ===== *)
(** * Signatures of the contracts the scripts deploy

    The parameters of each constructor and of each proxy's [initialize], as
    declared under [contracts/], and what an argument must be for the ABI
    encoder to accept it.  Interface types are addresses in the ABI. *)

From stdpp Require Import base strings list.
From Stdlib Require Import ZArith Ascii Lia.
From S2P Require Import Prelude JsText Consts.

Inductive abi_ty :=
| Address
| Uint (bits : Z)
| Bytes4Array.

Definition param : Type := string * abi_ty.

Record contract_abi := {
  constructor_params : list param;
  initialize_params : option (list param)
}.

Definition HubPool_abi : contract_abi :=
  {| constructor_params := [("_lpTokenFactory", Address); ("_finder", Address); ("_weth", Address); ("_timer",
      Address)]%string;
     initialize_params := None |}.

Definition Arbitrum_SpokePool_abi : contract_abi :=
  {| constructor_params := [("_wrappedNativeTokenAddress", Address); ("_depositQuoteTimeBuffer", Uint 32);
      ("_fillDeadlineBuffer", Uint 32); ("_l2Usdc", Address); ("_cctpTokenMessenger",
      Address)]%string;
     initialize_params := Some [("_initialDepositId", Uint 32); ("_l2GatewayRouter", Address); ("_crossDomainAdmin",
      Address); ("_withdrawalRecipient", Address)]%string |}.

Definition Base_SpokePool_abi : contract_abi :=
  {| constructor_params := [("_wrappedNativeTokenAddress", Address); ("_depositQuoteTimeBuffer", Uint 32);
      ("_fillDeadlineBuffer", Uint 32); ("_l2Usdc", Address); ("_cctpTokenMessenger",
      Address)]%string;
     initialize_params := Some [("_initialDepositId", Uint 32); ("_crossDomainAdmin", Address);
      ("_withdrawalRecipient", Address)]%string |}.

Definition Blast_SpokePool_abi : contract_abi :=
  {| constructor_params := [("_wrappedNativeTokenAddress", Address); ("_depositQuoteTimeBuffer", Uint 32);
      ("_fillDeadlineBuffer", Uint 32); ("_l2Usdc", Address); ("_cctpTokenMessenger",
      Address); ("usdb", Address); ("l1Usdb", Address); ("yieldRecipient", Address);
      ("blastRetriever", Address)]%string;
     initialize_params := Some [("_initialDepositId", Uint 32); ("_crossDomainAdmin", Address);
      ("_withdrawalRecipient", Address)]%string |}.

Definition Boba_SpokePool_abi : contract_abi :=
  {| constructor_params := [("_wrappedNativeTokenAddress", Address); ("_depositQuoteTimeBuffer", Uint 32);
      ("_fillDeadlineBuffer", Uint 32)]%string;
     initialize_params := Some [("_initialDepositId", Uint 32); ("_crossDomainAdmin", Address);
      ("_withdrawalRecipient", Address)]%string |}.

Definition Ethereum_SpokePool_abi : contract_abi :=
  {| constructor_params := [("_wrappedNativeTokenAddress", Address); ("_depositQuoteTimeBuffer", Uint 32);
      ("_fillDeadlineBuffer", Uint 32)]%string;
     initialize_params := Some [("_initialDepositId", Uint 32); ("_withdrawalRecipient", Address)]%string |}.

Definition Linea_SpokePool_abi : contract_abi :=
  {| constructor_params := [("_wrappedNativeTokenAddress", Address); ("_depositQuoteTimeBuffer", Uint 32);
      ("_fillDeadlineBuffer", Uint 32)]%string;
     initialize_params := Some [("_initialDepositId", Uint 32); ("_l2MessageService", Address); ("_l2TokenBridge",
      Address); ("_l2UsdcBridge", Address); ("_crossDomainAdmin", Address);
      ("_withdrawalRecipient", Address)]%string |}.

Definition Lisk_SpokePool_abi : contract_abi :=
  {| constructor_params := [("_wrappedNativeTokenAddress", Address); ("_depositQuoteTimeBuffer", Uint 32);
      ("_fillDeadlineBuffer", Uint 32); ("_l2Usdc", Address); ("_cctpTokenMessenger",
      Address)]%string;
     initialize_params := Some [("_initialDepositId", Uint 32); ("_crossDomainAdmin", Address);
      ("_withdrawalRecipient", Address)]%string |}.

Definition Mode_SpokePool_abi : contract_abi :=
  {| constructor_params := [("_wrappedNativeTokenAddress", Address); ("_depositQuoteTimeBuffer", Uint 32);
      ("_fillDeadlineBuffer", Uint 32); ("_l2Usdc", Address); ("_cctpTokenMessenger",
      Address)]%string;
     initialize_params := Some [("_initialDepositId", Uint 32); ("_crossDomainAdmin", Address);
      ("_withdrawalRecipient", Address)]%string |}.

Definition Optimism_SpokePool_abi : contract_abi :=
  {| constructor_params := [("_wrappedNativeTokenAddress", Address); ("_depositQuoteTimeBuffer", Uint 32);
      ("_fillDeadlineBuffer", Uint 32); ("_l2Usdc", Address); ("_cctpTokenMessenger",
      Address)]%string;
     initialize_params := Some [("_initialDepositId", Uint 32); ("_crossDomainAdmin", Address);
      ("_withdrawalRecipient", Address)]%string |}.

Definition PolygonZkEVM_SpokePool_abi : contract_abi :=
  {| constructor_params := [("_wrappedNativeTokenAddress", Address); ("_depositQuoteTimeBuffer", Uint 32);
      ("_fillDeadlineBuffer", Uint 32)]%string;
     initialize_params := Some [("_l2PolygonZkEVMBridge", Address); ("_initialDepositId", Uint 32);
      ("_crossDomainAdmin", Address); ("_withdrawalRecipient", Address)]%string |}.

Definition Polygon_SpokePool_abi : contract_abi :=
  {| constructor_params := [("_wrappedNativeTokenAddress", Address); ("_depositQuoteTimeBuffer", Uint 32);
      ("_fillDeadlineBuffer", Uint 32); ("_l2Usdc", Address); ("_cctpTokenMessenger",
      Address)]%string;
     initialize_params := Some [("_initialDepositId", Uint 32); ("_polygonTokenBridger", Address);
      ("_crossDomainAdmin", Address); ("_withdrawalRecipient", Address); ("_fxChild",
      Address)]%string |}.

Definition Redstone_SpokePool_abi : contract_abi :=
  {| constructor_params := [("_wrappedNativeTokenAddress", Address); ("_depositQuoteTimeBuffer", Uint 32);
      ("_fillDeadlineBuffer", Uint 32); ("_l2Usdc", Address); ("_cctpTokenMessenger",
      Address)]%string;
     initialize_params := Some [("_initialDepositId", Uint 32); ("_crossDomainAdmin", Address);
      ("_withdrawalRecipient", Address)]%string |}.

Definition Scroll_SpokePool_abi : contract_abi :=
  {| constructor_params := [("_wrappedNativeTokenAddress", Address); ("_depositQuoteTimeBuffer", Uint 32);
      ("_fillDeadlineBuffer", Uint 32)]%string;
     initialize_params := Some [("_l2GatewayRouter", Address); ("_l2ScrollMessenger", Address); ("_initialDepositId",
      Uint 32); ("_crossDomainAdmin", Address); ("_withdrawalRecipient",
      Address)]%string |}.

Definition WorldChain_SpokePool_abi : contract_abi :=
  {| constructor_params := [("_wrappedNativeTokenAddress", Address); ("_depositQuoteTimeBuffer", Uint 32);
      ("_fillDeadlineBuffer", Uint 32); ("_l2Usdc", Address); ("_cctpTokenMessenger",
      Address)]%string;
     initialize_params := Some [("_initialDepositId", Uint 32); ("_crossDomainAdmin", Address); ("_hubPool",
      Address)]%string |}.

Definition ZkSync_SpokePool_abi : contract_abi :=
  {| constructor_params := [("_wrappedNativeTokenAddress", Address); ("_depositQuoteTimeBuffer", Uint 32);
      ("_fillDeadlineBuffer", Uint 32)]%string;
     initialize_params := Some [("_initialDepositId", Uint 32); ("_zkErc20Bridge", Address); ("_crossDomainAdmin",
      Address); ("_withdrawalRecipient", Address)]%string |}.

Definition Zora_SpokePool_abi : contract_abi :=
  {| constructor_params := [("_wrappedNativeTokenAddress", Address); ("_depositQuoteTimeBuffer", Uint 32);
      ("_fillDeadlineBuffer", Uint 32); ("_l2Usdc", Address); ("_cctpTokenMessenger",
      Address)]%string;
     initialize_params := Some [("_initialDepositId", Uint 32); ("_crossDomainAdmin", Address);
      ("_withdrawalRecipient", Address)]%string |}.

Definition Arbitrum_Adapter_abi : contract_abi :=
  {| constructor_params := [("_l1ArbitrumInbox", Address); ("_l1ERC20GatewayRouter", Address);
      ("_l2RefundL2Address", Address); ("_l1Usdc", Address); ("_cctpTokenMessenger",
      Address)]%string;
     initialize_params := None |}.

Definition Arbitrum_RescueAdapter_abi : contract_abi :=
  {| constructor_params := [("_l1ArbitrumInbox", Address)]%string;
     initialize_params := None |}.

Definition Arbitrum_SendTokensAdapter_abi : contract_abi :=
  {| constructor_params := [("_l1ERC20GatewayRouter", Address); ("_l2RefundL2Address", Address)]%string;
     initialize_params := None |}.

Definition Base_Adapter_abi : contract_abi :=
  {| constructor_params := [("_l1Weth", Address); ("_crossDomainMessenger", Address); ("_l1StandardBridge",
      Address); ("_l1Usdc", Address); ("_cctpTokenMessenger", Address)]%string;
     initialize_params := None |}.

Definition Blast_Adapter_abi : contract_abi :=
  {| constructor_params := [("_l1Weth", Address); ("_crossDomainMessenger", Address); ("_l1StandardBridge",
      Address); ("_l1Usdc", Address); ("l1BlastBridge", Address); ("l1Dai", Address);
      ("l2GasLimit", Uint 32)]%string;
     initialize_params := None |}.

Definition Blast_RescueAdapter_abi : contract_abi :=
  {| constructor_params := [("_rescueAddress", Address); ("_usdYieldManager", Address)]%string;
     initialize_params := None |}.

Definition Boba_Adapter_abi : contract_abi :=
  {| constructor_params := [("_l1Weth", Address); ("_crossDomainMessenger", Address); ("_l1StandardBridge",
      Address)]%string;
     initialize_params := None |}.

Definition Linea_Adapter_abi : contract_abi :=
  {| constructor_params := [("_l1Weth", Address); ("_l1MessageService", Address); ("_l1TokenBridge", Address);
      ("_l1UsdcBridge", Address)]%string;
     initialize_params := None |}.

Definition Lisk_Adapter_abi : contract_abi :=
  {| constructor_params := [("_l1Weth", Address); ("_crossDomainMessenger", Address); ("_l1StandardBridge",
      Address); ("_l1Usdc", Address)]%string;
     initialize_params := None |}.

Definition Mode_Adapter_abi : contract_abi :=
  {| constructor_params := [("_l1Weth", Address); ("_crossDomainMessenger", Address); ("_l1StandardBridge",
      Address); ("_l1Usdc", Address)]%string;
     initialize_params := None |}.

Definition Optimism_Adapter_abi : contract_abi :=
  {| constructor_params := [("_l1Weth", Address); ("_crossDomainMessenger", Address); ("_l1StandardBridge",
      Address); ("_l1Usdc", Address); ("_cctpTokenMessenger", Address)]%string;
     initialize_params := None |}.

Definition PolygonZkEVM_Adapter_abi : contract_abi :=
  {| constructor_params := [("_l1Weth", Address); ("_l1PolygonZkEVMBridge", Address)]%string;
     initialize_params := None |}.

Definition Polygon_Adapter_abi : contract_abi :=
  {| constructor_params := [("_rootChainManager", Address); ("_fxStateSender", Address); ("_depositManager",
      Address); ("_erc20Predicate", Address); ("_l1Matic", Address); ("_l1Weth",
      Address); ("_l1Usdc", Address); ("_cctpTokenMessenger", Address)]%string;
     initialize_params := None |}.

Definition Redstone_Adapter_abi : contract_abi :=
  {| constructor_params := [("_l1Weth", Address); ("_crossDomainMessenger", Address); ("_l1StandardBridge",
      Address); ("_l1Usdc", Address)]%string;
     initialize_params := None |}.

Definition Scroll_Adapter_abi : contract_abi :=
  {| constructor_params := [("_l1GatewayRouter", Address); ("_l1ScrollMessenger", Address); ("_l2GasPriceOracle",
      Address); ("_l2MessageRelayGasLimit", Uint 32); ("_l2TokenRelayGasLimit", Uint
      32)]%string;
     initialize_params := None |}.

Definition WorldChain_Adapter_abi : contract_abi :=
  {| constructor_params := [("_l1Weth", Address); ("_crossDomainMessenger", Address); ("_l1StandardBridge",
      Address); ("_l1Usdc", Address)]%string;
     initialize_params := None |}.

Definition ZkSync_Adapter_abi : contract_abi :=
  {| constructor_params := [("_l1Weth", Address); ("_l2RefundAddress", Address)]%string;
     initialize_params := None |}.

Definition Zora_Adapter_abi : contract_abi :=
  {| constructor_params := [("_l1Weth", Address); ("_crossDomainMessenger", Address); ("_l1StandardBridge",
      Address); ("_l1Usdc", Address)]%string;
     initialize_params := None |}.

Definition PolygonTokenBridger_abi : contract_abi :=
  {| constructor_params := [("_destination", Address); ("_l1PolygonRegistry", Address); ("_l1Weth", Address);
      ("_l2WrappedMatic", Address); ("_l1ChainId", Uint 256); ("_l2ChainId", Uint
      256)]%string;
     initialize_params := None |}.

Definition BondToken_abi : contract_abi :=
  {| constructor_params := [("_hubPool", Address)]%string;
     initialize_params := None |}.

Definition SwapAndBridge_abi : contract_abi :=
  {| constructor_params := [("_spokePool", Address); ("_exchange", Address); ("_allowedSelectors", Bytes4Array);
      ("_swapToken", Address); ("_acrossInputToken", Address)]%string;
     initialize_params := None |}.

Definition UniversalSwapAndBridge_abi : contract_abi :=
  {| constructor_params := [("_spokePool", Address); ("_exchange", Address); ("_allowedSelectors",
      Bytes4Array)]%string;
     initialize_params := None |}.

Definition Blast_DaiRetriever_abi : contract_abi :=
  {| constructor_params := [("_hubPool", Address); ("_usdYieldManager", Address); ("_dai", Address)]%string;
     initialize_params := None |}.

Definition LpTokenFactory_abi : contract_abi :=
  {| constructor_params := [];
     initialize_params := None |}.

Definition AcrossConfigStore_abi : contract_abi :=
  {| constructor_params := [];
     initialize_params := None |}.

Definition SpokePoolVerifier_abi : contract_abi :=
  {| constructor_params := [];
     initialize_params := None |}.

Definition AcrossMerkleDistributor_abi : contract_abi :=
  {| constructor_params := [];
     initialize_params := None |}.

Definition MulticallHandler_abi : contract_abi :=
  {| constructor_params := [];
     initialize_params := None |}.

Definition Ethereum_Adapter_abi : contract_abi :=
  {| constructor_params := [];
     initialize_params := None |}.

Definition MintableERC1155_abi : contract_abi :=
  {| constructor_params := []%string;
     initialize_params := None |}.

Definition contract_abis : list (string * contract_abi) :=
  [("HubPool", HubPool_abi);
   ("Arbitrum_SpokePool", Arbitrum_SpokePool_abi);
   ("Base_SpokePool", Base_SpokePool_abi);
   ("Blast_SpokePool", Blast_SpokePool_abi);
   ("Boba_SpokePool", Boba_SpokePool_abi);
   ("Ethereum_SpokePool", Ethereum_SpokePool_abi);
   ("Linea_SpokePool", Linea_SpokePool_abi);
   ("Lisk_SpokePool", Lisk_SpokePool_abi);
   ("Mode_SpokePool", Mode_SpokePool_abi);
   ("Optimism_SpokePool", Optimism_SpokePool_abi);
   ("PolygonZkEVM_SpokePool", PolygonZkEVM_SpokePool_abi);
   ("Polygon_SpokePool", Polygon_SpokePool_abi);
   ("Redstone_SpokePool", Redstone_SpokePool_abi);
   ("Scroll_SpokePool", Scroll_SpokePool_abi);
   ("WorldChain_SpokePool", WorldChain_SpokePool_abi);
   ("ZkSync_SpokePool", ZkSync_SpokePool_abi);
   ("Zora_SpokePool", Zora_SpokePool_abi);
   ("Arbitrum_Adapter", Arbitrum_Adapter_abi);
   ("Arbitrum_RescueAdapter", Arbitrum_RescueAdapter_abi);
   ("Arbitrum_SendTokensAdapter", Arbitrum_SendTokensAdapter_abi);
   ("Base_Adapter", Base_Adapter_abi);
   ("Blast_Adapter", Blast_Adapter_abi);
   ("Blast_RescueAdapter", Blast_RescueAdapter_abi);
   ("Boba_Adapter", Boba_Adapter_abi);
   ("Linea_Adapter", Linea_Adapter_abi);
   ("Lisk_Adapter", Lisk_Adapter_abi);
   ("Mode_Adapter", Mode_Adapter_abi);
   ("Optimism_Adapter", Optimism_Adapter_abi);
   ("PolygonZkEVM_Adapter", PolygonZkEVM_Adapter_abi);
   ("Polygon_Adapter", Polygon_Adapter_abi);
   ("Redstone_Adapter", Redstone_Adapter_abi);
   ("Scroll_Adapter", Scroll_Adapter_abi);
   ("WorldChain_Adapter", WorldChain_Adapter_abi);
   ("ZkSync_Adapter", ZkSync_Adapter_abi);
   ("Zora_Adapter", Zora_Adapter_abi);
   ("PolygonTokenBridger", PolygonTokenBridger_abi);
   ("BondToken", BondToken_abi);
   ("SwapAndBridge", SwapAndBridge_abi);
   ("UniversalSwapAndBridge", UniversalSwapAndBridge_abi);
   ("Blast_DaiRetriever", Blast_DaiRetriever_abi);
   ("LpTokenFactory", LpTokenFactory_abi);
   ("AcrossConfigStore", AcrossConfigStore_abi);
   ("SpokePoolVerifier", SpokePoolVerifier_abi);
   ("AcrossMerkleDistributor", AcrossMerkleDistributor_abi);
   ("MulticallHandler", MulticallHandler_abi);
   ("Ethereum_Adapter", Ethereum_Adapter_abi);
   ("MintableERC1155", MintableERC1155_abi)]%string.

(** ** What the encoder accepts *)

(** A selector: [0x] and eight hexadecimal digits. *)
Definition is_bytes4 (s : string) : bool :=
  match chars s with
  | "0"%char :: "x"%char :: ds => (length ds =? 8)%nat && forallb is_hex_char ds
  | _ => false
  end.

(** A number given as text must be all digits, or hexadecimal. *)
Definition is_number_text (s : string) : bool :=
  match chars s with
  | [] => false
  | "0"%char :: "x"%char :: ds => negb (length ds =? 0)%nat && forallb is_hex_char ds
  | ds => forallb is_digit ds
  end.

Definition accepts (t : abi_ty) (v : jsval) : bool :=
  match t, v with
  | Address, JStr s => is_address s
  | Uint bits, JNum n => (0 <=? n) && (n <? 2 ^ bits)
  | Uint bits, JStr s =>
      is_number_text s &&
      match parseInt s with Some n => (0 <=? n) && (n <? 2 ^ bits) | None => false end
  | Bytes4Array, JArr l => forallb is_bytes4 l
  | _, _ => false
  end.

Fixpoint accepts_all (ps : list param) (vs : list jsval) : bool :=
  match ps, vs with
  | [], [] => true
  | (_, t) :: ps', v :: vs' => accepts t v && accepts_all ps' vs'
  | _, _ => false
  end.

(** The argument given for a named parameter. *)
Fixpoint arg_named (ps : list param) (vs : list jsval) (name : string) : option jsval :=
  match ps, vs with
  | (n, _) :: ps', v :: vs' => if (n =? name)%string then Some v else arg_named ps' vs' name
  | _, _ => None
  end.

Definition abi_of (contract : string) : option contract_abi := js_lookup contract_abis contract.

Definition constructor_accepts (contract : string) (args : list jsval) : bool :=
  match abi_of contract with
  | Some a => accepts_all (constructor_params a) args
  | None => false
  end.

Definition initialize_accepts (contract : string) (args : list jsval) : bool :=
  match abi_of contract with
  | Some {| initialize_params := Some ps |} => accepts_all ps args
  | _ => false
  end.

Definition constructor_arg (contract : string) (args : list jsval) (name : string) : option jsval :=
  match abi_of contract with
  | Some a => arg_named (constructor_params a) args name
  | None => None
  end.

Definition initialize_arg (contract : string) (args : list jsval) (name : string) : option jsval :=
  match abi_of contract with
  | Some {| initialize_params := Some ps |} => arg_named ps args name
  | _ => None
  end.

Example underscore_rejected : accepts (Uint 32) (JStr "200_000") = false.
Proof. reflexivity. Qed.
Example number_accepted : accepts (Uint 32) (JNum 200000) = true.
Proof. reflexivity. Qed.
