(* ===== verification/Hre.v ===== *)
(** * The hardhat runtime as the deployment scripts use it

    The calls of the scripts on [hre] (hardhat, hardhat-deploy and the
    OpenZeppelin and zkSync upgrade plugins) as an effect signature, and
    [utils/utils.hre.ts]: the chain information of a spoke pool deployment and
    the deployment of an upgradeable proxy or of a new implementation. *)

From stdpp Require Import base strings list.
From Stdlib Require Import ZArith Lia.
From S2P Require Import Prelude JsText Consts DeploymentUtils.

(** The options object of [deployments.deploy]. *)
Record deploy_options := {
  o_from : string;
  o_contract : option string;
  o_skipIfAlreadyDeployed : bool;
  o_args : list jsval;
  o_libraries : list (string * string);
  o_deterministicDeployment : option string
}.

Definition deploy_args (deployer : string) (skipIfAlreadyDeployed : bool) (args : list jsval)
  : deploy_options :=
  {| o_from := deployer; o_contract := None; o_skipIfAlreadyDeployed := skipIfAlreadyDeployed; o_args := args;
     o_libraries := []; o_deterministicDeployment := None |}.

(** [deterministicDeployment: salt] and [contract: name] *)
Definition with_salt (salt : string) (o : deploy_options) : deploy_options :=
  {| o_from := o_from o; o_contract := o_contract o;
     o_skipIfAlreadyDeployed := o_skipIfAlreadyDeployed o; o_args := o_args o;
     o_libraries := o_libraries o; o_deterministicDeployment := Some salt |}.
Definition with_contract (name : string) (o : deploy_options) : deploy_options :=
  {| o_from := o_from o; o_contract := Some name;
     o_skipIfAlreadyDeployed := o_skipIfAlreadyDeployed o; o_args := o_args o;
     o_libraries := o_libraries o; o_deterministicDeployment := o_deterministicDeployment o |}.
Definition with_libraries (libs : list (string * string)) (o : deploy_options) : deploy_options :=
  {| o_from := o_from o; o_contract := o_contract o;
     o_skipIfAlreadyDeployed := o_skipIfAlreadyDeployed o; o_args := o_args o;
     o_libraries := libs; o_deterministicDeployment := o_deterministicDeployment o |}.

Inductive hreE : Type → Type :=
| GetNamedAccounts : hreE string                             (* the deployer *)
| GetChainId : hreE string
| L1DeploymentsGet (name : string) : hreE string             (* companionNetworks.l1 *)
| L1GetChainId : hreE string
| DeploymentsGet (name : string) : hreE string
| DeploymentsDeploy (name : string) (o : deploy_options) : hreE string
| GetContractFactory (name : string) : hreE unit
| DeployImplementation (name : string) (constructorArgs : list jsval)
    (unsafeAllow : list string) : hreE string
| DeployProxy (name : string) (initArgs constructorArgs : list jsval)
    (unsafeAllow : list string) : hreE string
| ProxyDeployed (proxy : string) : hreE string
| GetImplementationAddress (proxy : string) : hreE string
| PrepareUpgrade (proxy name : string) (constructorArgs : list jsval) : hreE string
| GetExtendedArtifact (name : string) : hreE unit
| SaveDeployment (name address : string) : hreE unit
| RunVerify (address : string) (constructorArguments : option (list jsval))
    (contract : option string) : hreE unit
| ZkLoadArtifact (name : string) : hreE unit
| ZkDeploy (name : string) (constructorArgs : list jsval) : hreE string
| ZkDeployProxy (name : string) (initArgs constructorArgs : list jsval)
    (unsafeAllow : list string) : hreE string.

Definition script : Type := prog hreE unit.

(** [parseInt(await hre.getChainId())] *)
Definition parsed_chain_id : prog hreE chain_key :=
  let! id := call GetChainId in Ret (parseInt id).

Record deployment_info := { hubPool : string; hubChainId : chain_key; spokeChainId : chain_key }.

Definition getSpokePoolDeploymentInfo : prog hreE deployment_info :=
  let! id := call GetChainId in
  let spokeChainId := js_Number id in
  let! hubPool := call (L1DeploymentsGet "HubPool") in
  let! hubId := call L1GetChainId in
  let hubChainId := js_Number hubId in
  Ret {| hubPool := hubPool; hubChainId := hubChainId; spokeChainId := spokeChainId |}.

Section Proxy.
Context `{AcrossConstants} (deployments : DeploymentExport).

(** [[CHAIN_IDs.BLAST, CHAIN_IDs.BLAST_SEPOLIA].includes(chainId)] *)
Definition is_blast (chainId : chain_key) : bool :=
  match chainId with
  | Some c => (c =? CHAIN_IDs "BLAST") || (c =? CHAIN_IDs "BLAST_SEPOLIA")
  | None => false
  end.

Definition unsafeAllowArgs (chainId : chain_key) : list string :=
  "delegatecall"%string :: (if is_blast chainId then ["state-variable-immutable"%string] else []).

Definition deployNewProxy (name : string) (constructorArgs initArgs : list jsval)
    (implementationOnly : option bool) : script :=
  let! id := call GetChainId in
  let chainId := js_Number id in
  let unsafeAllow := unsafeAllowArgs chainId in
  let! proxy := lift (getDeployedAddress deployments "SpokePool" chainId false) in
  let implementationOnly := default (bool_decide (is_Some proxy)) implementationOnly in
  let! instance :=
    (if implementationOnly then
       call (GetContractFactory name) ;;
       call (DeployImplementation name constructorArgs unsafeAllow)
     else
       call (GetContractFactory name) ;;
       let! proxy := call (DeployProxy name initArgs constructorArgs unsafeAllow) in
       let! instance := call (ProxyDeployed proxy) in
       call (GetImplementationAddress instance) ;;
       Ret instance) in
  call (GetExtendedArtifact name) ;;
  call (SaveDeployment name instance) ;;
  let contract := "contracts/" +:+ name +:+ ".sol:" +:+ name in
  call (RunVerify instance (Some constructorArgs) (Some contract)).
End Proxy.
