(* ===== verification/DeploySpec.v ===== *)
(** * What a deployment script promises

    The contract every script of [deploy/] is checked against: how the hardhat
    services answer, which calls conform to the ABI of the contract they
    deploy, and the automation that runs a script symbolically. *)

From stdpp Require Import base strings list.
From Stdlib Require Import ZArith Lia.
From S2P Require Import Prelude JsText Consts DeploymentUtils AbiSpec Hre.

(** How services answer: chain ids as decimal text for the chain [c] of the
    network and [h] of its L1 companion, addresses as addresses; calls may
    fail, but not with a [TypeError]. *)
Definition answers (c h : Z) (hub : string) : ∀ X, hreE X → result X → Prop :=
  λ X cmd, match cmd in hreE Y return result Y → Prop with
  | GetChainId => λ r, ∃ s, r = Ok s ∧ parseInt s = Some c ∧ js_Number s = Some c
  | L1GetChainId => λ r, ∃ s, r = Ok s ∧ parseInt s = Some h ∧ js_Number s = Some h
  | L1DeploymentsGet n => λ r, match r with
      | Ok a => n = "HubPool"%string → a = hub ∧ is_address a = true
      | Err e => e ≠ TypeError end
  | DeploymentsGet n => λ r, match r with
      | Ok a => (n = "HubPool"%string → c = h → a = hub) ∧ is_address a = true
      | Err e => e ≠ TypeError end
  | DeploymentsDeploy _ _ => λ r, match r with Ok a => is_address a = true | Err e => e ≠ TypeError end
  | _ => λ r, match r with Ok _ => True | Err e => e ≠ TypeError end
  end.

(** The script itself never reads a property of [undefined]. *)
Definition no_type_error {A} (r : result A) : Prop :=
  match r with Ok _ => True | Err e => e ≠ TypeError end.

(** ** Conformance of the calls *)

(** The constructor arguments a call deploys with. *)
Definition event_args (e : event hreE) : option (list jsval) :=
  match ev_cmd e with
  | DeploymentsDeploy _ o => Some (o_args o)
  | DeployImplementation _ args _ | ZkDeploy _ args => Some args
  | DeployProxy _ _ args _ | ZkDeployProxy _ _ args _ => Some args
  | _ => None
  end.

(** Those of the latest deployment. *)
Definition last_args (h : list (event hreE)) : option (list jsval) :=
  foldl (λ acc e, match event_args e with Some args => Some args | None => acc end) None h.

(** The buffers every spoke pool is built with. *)
Definition buffers_ok (name : string) (args : list jsval) : bool :=
  bool_decide (constructor_arg name args "_depositQuoteTimeBuffer" = Some (JNum 3600)) &&
  bool_decide (constructor_arg name args "_fillDeadlineBuffer" = Some (JNum 21600)).

(** The parameters of [initialize] that name the owner on the hub chain. *)
Definition hub_params : list string :=
  ["_crossDomainAdmin"; "_withdrawalRecipient"; "_hubPool"]%string.

Definition owner_ok (hub : string) (name : string) (args : list jsval) : bool :=
  forallb (λ p, match initialize_arg name args p with
                | Some v => bool_decide (v = JStr hub)
                | None => true
                end) hub_params.

Definition proxy_ok (hub : string) (name : string) (initArgs constructorArgs : list jsval) : Prop :=
  constructor_accepts name constructorArgs = true ∧ buffers_ok name constructorArgs = true ∧
  initialize_accepts name initArgs = true ∧ owner_ok hub name initArgs = true.

(** [conforms hub h c]: the call [c], made after [h], passes arguments the
    contract's ABI accepts; a proxy gets the hub pool at [hub] as its admin and
    recipient; verification repeats the arguments of the deployment. *)
Definition conforms (hub : string) (h : list (event hreE)) : ∀ X, hreE X → Prop :=
  λ X cmd, match cmd with
  | DeploymentsDeploy name o =>
      constructor_accepts (default name (o_contract o)) (o_args o) = true
  | DeployImplementation name args _ => constructor_accepts name args = true ∧ buffers_ok name args = true
  | ZkDeploy name args => constructor_accepts name args = true
  | DeployProxy name initArgs args _ | ZkDeployProxy name initArgs args _ =>
      proxy_ok hub name initArgs args
  | RunVerify _ (Some args) _ => last_args h = Some args
  | _ => True
  end.

(** Tokens the package must list for a script to have its arguments. *)
Definition listed `{AcrossConstants} (tokens : list (string * string)) : Prop :=
  Forall (λ '(s, chain), is_Some (TOKEN_SYMBOLS_MAP s (CHAIN_IDs chain))) tokens.

(** A script, the network it is run on, the L1 companion of that network and
    the tokens it needs. *)
Record row := {
  r_script : script;
  r_network : string;
  r_hub : string;
  r_tokens : list (string * string)
}.

Definition row_conforms `{AcrossConstants} (r : row) : Prop :=
  listed (r_tokens r) → ∀ (ev : env hreE) hub,
  respects (answers (CHAIN_IDs (r_network r)) (CHAIN_IDs (r_hub r)) hub) ev →
  trace_ok (conforms hub) (trace ev (r_script r)) ∧ no_type_error (outcome ev (r_script r)).

Definition deployments_wf (ds : DeploymentExport) : Prop :=
  ∀ n c d, deployed_entry ds n c = Some d → is_address (dep_address d) = true.

Lemma row_by_wp `{AcrossConstants} r :
  (listed (r_tokens r) → ∀ hub,
   wp (answers (CHAIN_IDs (r_network r)) (CHAIN_IDs (r_hub r)) hub) (conforms hub)
      (λ _, no_type_error) [] (r_script r)) →
  row_conforms r.
Proof.
  intros Hwp Hl ev hub Hev.
  exact (wp_trace _ (conforms hub) (λ _, no_type_error) ev (r_script r) Hev (Hwp Hl hub)).
Qed.

Lemma getDeployedAddress_wf ds n c throws a :
  deployments_wf ds → getDeployedAddress ds n c throws = Ok (Some a) → is_address a = true.
Proof.
  intros Hwf. unfold getDeployedAddress.
  destruct (deployed_entry ds n (chain_text c)) as [d|] eqn:Hd; cbn; case_match; try done.
  intros [= <-]. by eapply Hwf.
Qed.

Lemma getDeployedAddress_nothrow ds n c :
  getDeployedAddress ds n c false = Ok (dep_address <$> deployed_entry ds n (chain_text c)).
Proof. unfold getDeployedAddress. by rewrite andb_false_r. Qed.

Lemma last_args_snoc h e :
  last_args (h ++ [e]) = match event_args e with Some args => Some args | None => last_args h end.
Proof. unfold last_args. by rewrite foldl_app. Qed.

(** A check of a concrete file. *)
Definition deployments_check (ds : DeploymentExport) : bool :=
  forallb (λ r, forallb (λ e, is_address (dep_address e.2)) r.2) ds.

Lemma deployments_check_wf ds : deployments_check ds = true → deployments_wf ds.
Proof.
  unfold deployments_check. intros Hc n c d Hd. unfold deployed_entry in Hd.
  destruct (js_lookup ds c) as [cs|] eqn:Hcs; [|done].
  apply js_lookup_Some_in, list_elem_of_In in Hcs. apply js_lookup_Some_in, list_elem_of_In in Hd.
  rewrite forallb_forall in Hc. specialize (Hc _ Hcs). cbn in Hc.
  rewrite forallb_forall in Hc. exact (Hc _ Hd).
Qed.

(** Services for evaluation: every call succeeds, addresses are [addr], and
    the chains are [c] and, for the companion, [h]. *)
Definition sample_addr : string := "0xc186fA914353c44b2E33eBE05f21846F1048bEda".

Definition hre_env (c h : string) : env hreE := λ _ X cmd,
  match cmd in hreE Y return result Y with
  | GetNamedAccounts | L1DeploymentsGet _ | DeploymentsGet _ | DeploymentsDeploy _ _
  | DeployImplementation _ _ _ | DeployProxy _ _ _ _ | ProxyDeployed _ | GetImplementationAddress _
  | PrepareUpgrade _ _ _ | ZkDeploy _ _ | ZkDeployProxy _ _ _ _ => Ok sample_addr
  | GetChainId => Ok c
  | L1GetChainId => Ok h
  | GetContractFactory _ | GetExtendedArtifact _ | SaveDeployment _ _ | RunVerify _ _ _
  | ZkLoadArtifact _ => Ok tt
  end.

Lemma hre_env_answers cs hs c h :
  parseInt cs = Some c → js_Number cs = Some c → parseInt hs = Some h → js_Number hs = Some h →
  respects (answers c h sample_addr) (hre_env cs hs).
Proof.
  intros Hc Hc' Hh Hh' hist X cmd. destruct cmd; cbn; try exact I; try done;
    try (eexists; split_and!; [reflexivity|done|done]).
Qed.

(** ** Automation *)
Ltac wp_simpl := cbn [wp bind lift call fst snd result_bind].

Lemma l1_eval C c n v : @l1 sample_constants c n = v → @l1 C c n = v.
Proof. intros <-. unfold l1. by rewrite L1_ADDRESS_MAP_eval. Qed.

Lemma l2_eval C c n v : @l2 sample_constants c n = v → @l2 C c n = v.
Proof. intros <-. unfold l2. by rewrite L2_ADDRESS_MAP_eval. Qed.

(** The address tables at a known chain. *)
Ltac eval_tables :=
  repeat match goal with
  | |- context [@l1 ?C (Some ?c) ?n] =>
      let v := eval vm_compute in (@l1 sample_constants (Some c) n) in
      rewrite (l1_eval C (Some c) n v) by (vm_compute; reflexivity)
  | |- context [@l2 ?C (Some ?c) ?n] =>
      let v := eval vm_compute in (@l2 sample_constants (Some c) n) in
      rewrite (l2_eval C (Some c) n v) by (vm_compute; reflexivity)
  | |- context [@js_lookup ?K ?V ?D (@POLYGON_CHAIN_IDS ?C) ?c] =>
      let v := eval vm_compute in (@js_lookup K V D (@POLYGON_CHAIN_IDS sample_constants) c) in
      replace (@js_lookup K V D (@POLYGON_CHAIN_IDS C) c) with v
        by (rewrite POLYGON_CHAIN_IDS_eval; vm_compute; reflexivity)
  end.

(** Replaces parsed chain ids by their values. *)
Ltac use_ids :=
  repeat match goal with
  | H : js_Number ?s = Some _ |- context [js_Number ?s] => rewrite H
  | H : parseInt ?s = Some _ |- context [parseInt ?s] => rewrite H
  end.

(** Removes the conditional on the recorded proxy by cases. *)
Ltac case_recorded :=
  match goal with
  | |- context [getDeployedAddress ?ds ?n ?c false] =>
      rewrite (getDeployedAddress_nothrow ds n c); wp_simpl;
      destruct (deployed_entry ds n (chain_text c)) as [?|] eqn:?; cbn [fmap option_fmap option_map];
      [rewrite (bool_decide_eq_true_2 (is_Some (Some _))) by eauto
      |rewrite (bool_decide_eq_false_2 (is_Some None)) by (by intros [? [=]])];
      cbn [default]; wp_simpl
  end.

(** Turns the [listed] hypothesis into one address per token. *)
Ltac use_tokens H :=
  repeat match type of H with
  | Forall _ (_ :: _) =>
      let H1 := fresh "Htok" in
      apply Forall_cons in H as [H1 H];
      cbv beta iota in H1;
      match type of H1 with
      | context [CHAIN_IDs ?n] => rewrite (CHAIN_IDs_eip155 n _ eq_refl) in H1
      end;
      apply token_address in H1;
      let a := fresh "a" in let Ha := fresh "Ha" in let Hw := fresh "Hw" in
      destruct H1 as (a & Ha & Hw)
  end.

Ltac token_values :=
  unfold USDC, WETH, WMATIC in *;
  repeat match goal with
  | Ha : token ?s ?c = JStr ?a |- context [token ?s ?c] => rewrite Ha
  end.

(** [constructor_accepts name args = true] and the like, argument by argument. *)
Ltac abi_goal :=
  unfold constructor_accepts, initialize_accepts;
  repeat match goal with
  | |- context [abi_of ?n] =>
      let v := eval vm_compute in (abi_of n) in
      replace (abi_of n) with v by (vm_compute; reflexivity)
  end;
  cbn [constructor_params initialize_params accepts_all accepts default];
  repeat match goal with
  | H : is_address ?a = true |- context [is_address ?a] => rewrite H
  end;
  vm_compute; reflexivity.

(** One step of a symbolic execution under [wp]. *)
Ltac wp_answer :=
  let r := fresh "r" in let Hr := fresh "Hr" in
  intros r Hr; cbn [answers] in Hr;
  first
    [ let s := fresh "s" in let Hs := fresh "Hs" in let Hp := fresh "Hp" in let Hn := fresh "Hn" in
      destruct Hr as (s & -> & Hp & Hn)
    | destruct r as [?|?];
      [ cbn in Hr;
        try specialize (Hr eq_refl);
        try match type of Hr with
            | _ ∧ _ => let H1 := fresh "Hr" in let H2 := fresh "Hr" in destruct Hr as [H1 H2];
                       try specialize (H1 eq_refl eq_refl); try subst
            end
      | first [exact Hr | reflexivity | let F := fresh "F" in intros F; discriminate F] ] ].

(** The final condition: the rejected deployment is in the trace. *)
Ltac find_rejected P :=
  unfold P; rewrite ?Exists_app, ?Exists_cons, ?Exists_nil;
  cbn [ev_cmd ev_type deploy_args o_contract o_args default];
  unfold constructor_accepts;
  repeat match goal with
  | |- context [abi_of ?n] =>
      let v := eval vm_compute in (abi_of n) in
      replace (abi_of n) with v by (vm_compute; reflexivity)
  end;
  cbn [constructor_params accepts_all accepts];
  replace (is_number_text "200_000") with false by reflexivity;
  cbn [andb]; rewrite ?andb_false_r; intuition reflexivity.

(** [deployNewProxy] conforms as soon as its two argument lists do. *)
Lemma deployNewProxy_conforms `{AcrossConstants} ds c h hub name ctor init hist only :
  proxy_ok hub name init ctor →
  wp (answers c h hub) (conforms hub) (λ _, no_type_error) hist
    (deployNewProxy ds name ctor init only).
Proof.
  intros Hok. unfold deployNewProxy. wp_simpl.
  split; [exact I|wp_answer; wp_simpl]. rewrite Hn, getDeployedAddress_nothrow. wp_simpl.
  destruct (default _ only); wp_simpl;
    repeat (split;
      [first [exact I|exact Hok|split; apply Hok|cbn [conforms]; rewrite !last_args_snoc; reflexivity]
      |wp_answer; wp_simpl]); exact I.
Qed.

(** The conditions of a proxy, argument by argument. *)
Ltac named_args :=
  unfold buffers_ok, owner_ok, hub_params, constructor_arg, initialize_arg;
  repeat match goal with
  | |- context [abi_of ?n] =>
      let v := eval vm_compute in (abi_of n) in
      replace (abi_of n) with v by (vm_compute; reflexivity)
  end;
  cbn [constructor_params initialize_params arg_named String.eqb Ascii.eqb Bool.eqb forallb];
  rewrite ?bool_decide_eq_true_2 by reflexivity; reflexivity.

Ltac proxy_goal :=
  split_and!;
  [ token_values; abi_goal | named_args | token_values; abi_goal | named_args ].
