(* ===== verification/DeployAdapters.v ===== *)
(** * Deployment of the hub pool, its adapters and the helper contracts

    The scripts of [deploy/] that deploy with hardhat-deploy: one definition
    per script, making the same calls with the same arguments.  Console output
    is left out. *)

From stdpp Require Import base strings list.
From Stdlib Require Import ZArith Lia.
From S2P Require Import Prelude JsText Consts DeploymentUtils AbiSpec Hre DeploySpec.

Section Scripts.
Context `{AcrossConstants} (deployments : DeploymentExport).

Definition deploy_001_hubpool : script :=
  let! deployer := call GetNamedAccounts in
  let! chainId := parsed_chain_id in
  let! lpTokenFactory := call (DeploymentsDeploy "LpTokenFactory" (deploy_args deployer true [])) in
  let! finder := lift (l1 chainId "finder") in
  let! _ := call (DeploymentsDeploy "HubPool"
    (with_libraries [("MerkleLib"%string, lpTokenFactory)]
      (deploy_args deployer true
        [JStr lpTokenFactory; finder; WETH chainId; JStr ZERO_ADDRESS]))) in
  Ret tt.

Definition deploy_002_optimism_adapter : script :=
  let! deployer := call GetNamedAccounts in
  let! chainId := parsed_chain_id in
  let! messenger := lift (l1 chainId "optimismCrossDomainMessenger") in
  let! bridge := lift (l1 chainId "optimismStandardBridge") in
  let! cctp := lift (l1 chainId "cctpTokenMessenger") in
  let args := [WETH chainId; messenger; bridge; USDC chainId; cctp] in
  let! instance := call (DeploymentsDeploy "Optimism_Adapter" (deploy_args deployer false args)) in
  call (RunVerify instance (Some args) None).

(** The argument list is written twice in the script. *)
Definition deploy_004_arbitrum_adapter : script :=
  let! deployer := call GetNamedAccounts in
  let! chainId := parsed_chain_id in
  let l2RefundAddress := "0x07aE8551Be970cB1cCa11Dd7a11F47Ae82e70E67"%string in
  let! inbox := lift (l1 chainId "l1ArbitrumInbox") in
  let! router := lift (l1 chainId "l1ERC20GatewayRouter") in
  let! cctp := lift (l1 chainId "cctpTokenMessenger") in
  let args := [inbox; router; JStr l2RefundAddress; USDC chainId; cctp] in
  let! inbox' := lift (l1 chainId "l1ArbitrumInbox") in
  let! router' := lift (l1 chainId "l1ERC20GatewayRouter") in
  let! cctp' := lift (l1 chainId "cctpTokenMessenger") in
  let! instance := call (DeploymentsDeploy "Arbitrum_Adapter"
    (deploy_args deployer false [inbox'; router'; JStr l2RefundAddress; USDC chainId; cctp'])) in
  call (RunVerify instance (Some args) None).

Definition deploy_006_ethereum_adapter : script :=
  let! deployer := call GetNamedAccounts in
  let! _ := call (DeploymentsDeploy "Ethereum_Adapter" (deploy_args deployer true [])) in
  Ret tt.

Definition bridger_args (hub : string) (registry : jsval) (hubChainId spokeChainId : chain_key)
  : list jsval :=
  let num c := match c with Some n => JNum n | None => JUndef end in
  [JStr hub; registry; WETH hubChainId; WMATIC spokeChainId; num hubChainId; num spokeChainId].

Definition deploy_008_polygon_token_bridger_mainnet : script :=
  let! deployer := call GetNamedAccounts in
  let! hubChainId := parsed_chain_id in
  let spokeChainId :=
    match hubChainId with Some c => js_lookup POLYGON_CHAIN_IDS c | None => None end in
  let! hubPool := call (DeploymentsGet "HubPool") in
  let! registry := lift (l1 hubChainId "polygonRegistry") in
  let! _ := call (DeploymentsDeploy "PolygonTokenBridger"
    (with_salt "0x1234"
      (deploy_args deployer true (bridger_args hubPool registry hubChainId spokeChainId)))) in
  Ret tt.

Definition deploy_009_polygon_adapter : script :=
  let! deployer := call GetNamedAccounts in
  let! chainId := parsed_chain_id in
  let MATIC := token "MATIC" in
  let! rootChainManager := lift (l1 chainId "polygonRootChainManager") in
  let! fxRoot := lift (l1 chainId "polygonFxRoot") in
  let! depositManager := lift (l1 chainId "polygonDepositManager") in
  let! predicate := lift (l1 chainId "polygonERC20Predicate") in
  let! cctp := lift (l1 chainId "cctpTokenMessenger") in
  let args := [rootChainManager; fxRoot; depositManager; predicate; MATIC chainId; WETH chainId;
               USDC chainId; cctp] in
  let! instance := call (DeploymentsDeploy "Polygon_Adapter" (deploy_args deployer false args)) in
  call (RunVerify instance (Some args) None).

Definition deploy_010_polygon_token_bridger_polygon : script :=
  let! deployer := call GetNamedAccounts in
  let! spokeChainId := parsed_chain_id in
  let! hubId := call L1GetChainId in
  let hubChainId := parseInt hubId in
  let! l1HubPool := call (L1DeploymentsGet "HubPool") in
  let! registry := lift (l1 hubChainId "polygonRegistry") in
  let! _ := call (DeploymentsDeploy "PolygonTokenBridger"
    (with_salt "0x1234"
      (deploy_args deployer true (bridger_args l1HubPool registry hubChainId spokeChainId)))) in
  Ret tt.

Definition deploy_012_boba_adapter : script :=
  let! deployer := call GetNamedAccounts in
  let! chainId := parsed_chain_id in
  let! messenger := lift (l1 chainId "bobaCrossDomainMessenger") in
  let! bridge := lift (l1 chainId "bobaStandardBridge") in
  let! _ := call (DeploymentsDeploy "Boba_Adapter"
    (deploy_args deployer true [WETH chainId; messenger; bridge])) in
  Ret tt.

Definition deploy_014_config_store : script :=
  let! deployer := call GetNamedAccounts in
  let! _ := call (DeploymentsDeploy "AcrossConfigStore" (deploy_args deployer true [])) in
  Ret tt.

Definition deploy_015_zksync_adapter : script :=
  let! deployer := call GetNamedAccounts in
  let! chainId := parsed_chain_id in
  let! _ := call (DeploymentsDeploy "ZkSync_Adapter"
    (deploy_args deployer true
      [WETH chainId; JStr "0x07aE8551Be970cB1cCa11Dd7a11F47Ae82e70E67"])) in
  Ret tt.

Definition deploy_017_ethereum_merkle_distributor : script :=
  let! deployer := call GetNamedAccounts in
  let! _ := call (DeploymentsDeploy "AcrossMerkleDistributor" (deploy_args deployer true [])) in
  Ret tt.

Definition deploy_018_arbitrum_rescueadapter : script :=
  let! deployer := call GetNamedAccounts in
  let! chainId := parsed_chain_id in
  let! inbox := lift (l1 chainId "l1ArbitrumInbox") in
  let! _ := call (DeploymentsDeploy "Arbitrum_RescueAdapter" (deploy_args deployer true [inbox])) in
  Ret tt.

Definition deploy_019_bond_token : script :=
  let! deployer := call GetNamedAccounts in
  let! chainId := call GetChainId in
  let! hubPool := call (DeploymentsGet "HubPool") in
  let constructorArguments := [JStr hubPool] in
  let! deployment := call (DeploymentsDeploy "BondToken" (deploy_args deployer true [JStr hubPool])) in
  call (RunVerify deployment (Some constructorArguments) None).

Definition deploy_020_arbitrum_sendtoken_adapter : script :=
  let! deployer := call GetNamedAccounts in
  let! chainId := parsed_chain_id in
  let! router := lift (l1 chainId "l1ERC20GatewayRouter") in
  let! _ := call (DeploymentsDeploy "Arbitrum_SendTokensAdapter"
    (deploy_args deployer true [router])) in
  Ret tt.

Definition deploy_021_erc1155 : script :=
  let! deployer := call GetNamedAccounts in
  let! _ := call (DeploymentsDeploy "MintableERC1155" (deploy_args deployer true [])) in
  Ret tt.

Definition deploy_023_spoke_pool_verifier : script :=
  let! deployer := call GetNamedAccounts in
  let! deployment := call (DeploymentsDeploy "SpokePoolVerifier"
    (with_salt "0x1234" (deploy_args deployer true []))) in
  call (RunVerify deployment (Some []) None).

Definition deploy_024_base_adapter : script :=
  let! deployer := call GetNamedAccounts in
  let! chainId := parsed_chain_id in
  let! messenger := lift (l1 chainId "baseCrossDomainMessenger") in
  let! bridge := lift (l1 chainId "baseStandardBridge") in
  let! cctp := lift (l1 chainId "cctpTokenMessenger") in
  let args := [WETH chainId; messenger; bridge; USDC chainId; cctp] in
  let! instance := call (DeploymentsDeploy "Base_Adapter" (deploy_args deployer false args)) in
  call (RunVerify instance (Some args) None).

Definition deploy_026_scroll_adapter : script :=
  let! deployer := call GetNamedAccounts in
  let! chainId := parsed_chain_id in
  let! router := lift (l1 chainId "scrollERC20GatewayRouter") in
  let! messenger := lift (l1 chainId "scrollMessengerRelay") in
  let! oracle := lift (l1 chainId "scrollGasPriceOracle") in
  let! _ := call (DeploymentsDeploy "Scroll_Adapter"
    (deploy_args deployer false [router; messenger; oracle; JNum 2000000; JNum 250000])) in
  Ret tt.

Definition deploy_028_linea_adapter : script :=
  let! deployer := call GetNamedAccounts in
  let! chainId := parsed_chain_id in
  let! messageService := lift (l1 chainId "lineaMessageService") in
  let! tokenBridge := lift (l1 chainId "lineaTokenBridge") in
  let! usdcBridge := lift (l1 chainId "lineaUsdcBridge") in
  let! _ := call (DeploymentsDeploy "Linea_Adapter"
    (deploy_args deployer true [WETH chainId; messageService; tokenBridge; usdcBridge])) in
  Ret tt.

Definition deploy_030_polygon_zk_evm_adapter : script :=
  let! deployer := call GetNamedAccounts in
  let! chainId := parsed_chain_id in
  let! bridge := lift (l1 chainId "polygonZkEvmBridge") in
  let! _ := call (DeploymentsDeploy "PolygonZkEVM_Adapter"
    (deploy_args deployer true [WETH chainId; bridge])) in
  Ret tt.

(** [TOKEN_SYMBOLS_MAP[chainId === BASE ? "USDbC" : "USDC.e"].addresses[chainId]] *)
Definition bridged_usdc (chainId : chain_key) : jsval :=
  token (if bool_decide (chainId = Some (CHAIN_IDs "BASE")) then "USDbC" else "USDC.e") chainId.

Definition spoke_address (chainId : chain_key) : result jsval :=
  let? a := getDeployedAddress deployments "SpokePool" chainId true in Ok (or_undefined a).

Definition oneinch_selectors : list string :=
  ["0xd2d374e5"; "0xc4d652af"; "0xe413f48d"; "0x07ed2379"; "0xfa461e33"; "0x83800a8e";
   "0x8770ba91"; "0x19367472"; "0xe2c95c82"; "0xea76dddf"; "0xf7a70056"]%string.

Definition deploy_032_uniswap_swap_and_bridge : script :=
  let! deployer := call GetNamedAccounts in
  let! chainId := parsed_chain_id in
  let! spokePool := lift (spoke_address chainId) in
  let! router := lift (l2 chainId "uniswapV3SwapRouter") in
  let! _ := call (DeploymentsDeploy "UniswapV3_SwapAndBridge"
    (with_contract "SwapAndBridge"
      (deploy_args deployer true
        [spokePool; router; JArr ["0x414bf389"%string]; bridged_usdc chainId; USDC chainId]))) in
  Ret tt.

Definition deploy_033_uniswap_universal_swap_and_bridge : script :=
  let! deployer := call GetNamedAccounts in
  let! chainId := parsed_chain_id in
  let! spokePool := lift (spoke_address chainId) in
  let! router := lift (l2 chainId "uniswapV3SwapRouter") in
  let! _ := call (DeploymentsDeploy "UniswapV3_UniversalSwapAndBridge"
    (with_contract "UniversalSwapAndBridge"
      (deploy_args deployer true [spokePool; router; JArr ["0x414bf389"%string]]))) in
  Ret tt.

Definition deploy_034_1inch_swap_and_bridge : script :=
  let! deployer := call GetNamedAccounts in
  let! chainId := parsed_chain_id in
  let! spokePool := lift (spoke_address chainId) in
  let! router := lift (l2 chainId "1inchV6Router") in
  let! _ := call (DeploymentsDeploy "1inch_SwapAndBridge"
    (with_contract "SwapAndBridge"
      (deploy_args deployer true
        [spokePool; router; JArr oneinch_selectors; bridged_usdc chainId; USDC chainId]))) in
  Ret tt.

Definition deploy_035_universal_1inch_swap_and_bridge : script :=
  let! deployer := call GetNamedAccounts in
  let! chainId := parsed_chain_id in
  let! spokePool := lift (spoke_address chainId) in
  let! router := lift (l2 chainId "1inchV6Router") in
  let! _ := call (DeploymentsDeploy "1inch_UniversalSwapAndBridge"
    (with_contract "UniversalSwapAndBridge"
      (deploy_args deployer true [spokePool; router; JArr oneinch_selectors]))) in
  Ret tt.

Definition deploy_037_blast_adapter : script :=
  let! deployer := call GetNamedAccounts in
  let! chainId := parsed_chain_id in
  let USDB := token "USDB" in
  let! messenger := lift (l1 chainId "blastCrossDomainMessenger") in
  let! bridge := lift (l1 chainId "blastStandardBridge") in
  let! blastBridge := lift (l1 chainId "l1BlastBridge") in
  let! _ := call (DeploymentsDeploy "Blast_Adapter"
    (deploy_args deployer true
      [WETH chainId; messenger; bridge; USDC chainId; blastBridge; USDB chainId; JStr "200_000"])) in
  Ret tt.

Definition deploy_038_mode_adapter : script :=
  let! deployer := call GetNamedAccounts in
  let! chainId := parsed_chain_id in
  let! messenger := lift (l1 chainId "modeCrossDomainMessenger") in
  let! bridge := lift (l1 chainId "modeStandardBridge") in
  let! _ := call (DeploymentsDeploy "Mode_Adapter"
    (deploy_args deployer true [WETH chainId; messenger; bridge; USDC chainId])) in
  Ret tt.

Definition deploy_040_multicall_handler : script :=
  let! deployer := call GetNamedAccounts in
  let! _ := call (DeploymentsDeploy "Multicallhandler"
    (with_salt "0x12345678" (with_contract "MulticallHandler" (deploy_args deployer true [])))) in
  Ret tt.

Definition deploy_041_zk_multicall_handler : script :=
  call (ZkLoadArtifact "MulticallHandler") ;;
  let constructorArgs := [] in
  let! newAddress := call (ZkDeploy "MulticallHandler" constructorArgs) in
  call (GetExtendedArtifact "MulticallHandler") ;;
  call (SaveDeployment "MulticallHandler" newAddress) ;;
  call (RunVerify newAddress (Some constructorArgs) None).

Definition deploy_042_lisk_adapter : script :=
  let! deployer := call GetNamedAccounts in
  let! chainId := parsed_chain_id in
  let! messenger := lift (l1 chainId "liskCrossDomainMessenger") in
  let! bridge := lift (l1 chainId "liskStandardBridge") in
  let! _ := call (DeploymentsDeploy "Lisk_Adapter"
    (deploy_args deployer true [WETH chainId; messenger; bridge; USDC chainId])) in
  Ret tt.

Definition deploy_044_blast_dai_retriever : script :=
  let! deployer := call GetNamedAccounts in
  let! chainId := parsed_chain_id in
  let! hubPool := call (DeploymentsGet "HubPool") in
  let! yieldManager := lift (l1 chainId "blastYieldManager") in
  let! dai := lift (l1 chainId "dai") in
  let constructorArguments := [JStr hubPool; yieldManager; dai] in
  let! deployment := call (DeploymentsDeploy "Blast_DaiRetriever"
    (deploy_args deployer true constructorArguments)) in
  call (RunVerify deployment (Some constructorArguments) None).

Definition deploy_045_blast_rescue_adapter : script :=
  let! deployer := call GetNamedAccounts in
  let! hubPool := call (DeploymentsGet "HubPool") in
  let! chainId := parsed_chain_id in
  let! yieldManager := lift (l1 chainId "blastYieldManager") in
  let constructorArguments := [JStr hubPool; yieldManager] in
  let! deployment := call (DeploymentsDeploy "Blast_RescueAdapter"
    (deploy_args deployer true constructorArguments)) in
  call (RunVerify deployment (Some constructorArguments) None).

Definition deploy_046_redstone_adapter : script :=
  let! deployer := call GetNamedAccounts in
  let! chainId := parsed_chain_id in
  let! messenger := lift (l1 chainId "redstoneCrossDomainMessenger") in
  let! bridge := lift (l1 chainId "redstoneStandardBridge") in
  let! _ := call (DeploymentsDeploy "Redstone_Adapter"
    (deploy_args deployer true [WETH chainId; messenger; bridge; JStr ZERO_ADDRESS])) in
  Ret tt.

Definition deploy_048_zora_adapter : script :=
  let! deployer := call GetNamedAccounts in
  let! chainId := parsed_chain_id in
  let! messenger := lift (l1 chainId "zoraCrossDomainMessenger") in
  let! bridge := lift (l1 chainId "zoraStandardBridge") in
  let! _ := call (DeploymentsDeploy "Zora_Adapter"
    (deploy_args deployer true [WETH chainId; messenger; bridge; JStr ZERO_ADDRESS])) in
  Ret tt.

Definition deploy_050_worldchain_adapter : script :=
  let! deployer := call GetNamedAccounts in
  let! chainId := parsed_chain_id in
  let! messenger := lift (l1 chainId "worldChainCrossDomainMessenger") in
  let! bridge := lift (l1 chainId "worldChainStandardBridge") in
  let! _ := call (DeploymentsDeploy "WorldChain_Adapter"
    (deploy_args deployer true [WETH chainId; messenger; bridge; JStr ZERO_ADDRESS])) in
  Ret tt.
End Scripts.

(** * Properties *)
Create HintDb scripts.
#[export] Hint Unfold deploy_001_hubpool deploy_002_optimism_adapter deploy_004_arbitrum_adapter
  deploy_006_ethereum_adapter deploy_008_polygon_token_bridger_mainnet
  deploy_009_polygon_adapter deploy_010_polygon_token_bridger_polygon
  deploy_012_boba_adapter deploy_014_config_store deploy_015_zksync_adapter
  deploy_017_ethereum_merkle_distributor deploy_018_arbitrum_rescueadapter
  deploy_019_bond_token deploy_020_arbitrum_sendtoken_adapter deploy_021_erc1155
  deploy_023_spoke_pool_verifier deploy_024_base_adapter deploy_026_scroll_adapter
  deploy_028_linea_adapter deploy_030_polygon_zk_evm_adapter
  deploy_032_uniswap_swap_and_bridge deploy_033_uniswap_universal_swap_and_bridge
  deploy_034_1inch_swap_and_bridge deploy_035_universal_1inch_swap_and_bridge
  deploy_037_blast_adapter deploy_038_mode_adapter deploy_040_multicall_handler
  deploy_041_zk_multicall_handler deploy_042_lisk_adapter deploy_044_blast_dai_retriever
  deploy_045_blast_rescue_adapter deploy_046_redstone_adapter deploy_048_zora_adapter
  deploy_050_worldchain_adapter : scripts.


Lemma spoke_address_cases ds chain :
  deployments_wf ds →
  (∃ a, spoke_address ds chain = Ok (JStr a) ∧ is_address a = true) ∨
  (∃ e, spoke_address ds chain = Err e ∧ e ≠ TypeError).
Proof.
  intros Hwf. unfold spoke_address.
  destruct (getDeployedAddress ds "SpokePool" chain true) as [[a|]|e] eqn:Hg.
  - left. exists a. split; [done|]. by eapply getDeployedAddress_wf.
  - unfold getDeployedAddress in Hg. destruct (deployed_entry _ _ _) as [d|]; cbn in Hg; [|done].
    by case_match.
  - right. exists e. split; [done|]. unfold getDeployedAddress in Hg.
    case_match; [|done]. by injection Hg as <-.
Qed.

(** Runs a script symbolically and closes the condition of each call. *)
Ltac close_call :=
  first
    [ exact I
    | reflexivity
    | cbn [conforms deploy_args with_salt with_contract with_libraries o_args o_contract default];
      unfold bridger_args, bridged_usdc; chain_ids;
      rewrite ?bool_decide_eq_true_2, ?bool_decide_eq_false_2 by done;
      token_values; abi_goal ].

Ltac run_row :=
  let Hl := fresh "Hl" in let hub := fresh "hub" in
  apply row_by_wp; cbn [r_script r_network r_hub r_tokens]; unfold listed; intros Hl hub;
  use_tokens Hl; chain_ids; unfold parsed_chain_id; wp_simpl;
  repeat (split; [close_call|wp_answer; wp_simpl];
          repeat match goal with Hp : parseInt _ = Some _ |- _ => rewrite Hp; clear Hp end;
          eval_tables; wp_simpl;
          try match goal with
          | Hwf : deployments_wf ?ds |- context [spoke_address ?ds ?c] =>
              let E := fresh "E" in let e := fresh "e" in let He := fresh "He" in
              destruct (spoke_address_cases ds c Hwf) as [(? & E & ?)|(e & E & He)]; rewrite E;
              [wp_simpl; eval_tables; wp_simpl|exact He]
          end);
  try exact I.

Section Conformance.
Context `{AcrossConstants} (deployments : DeploymentExport).

Definition row_of_script (s : script) (network hub : string) (tokens : list (string * string)) : row :=
  {| r_script := s; r_network := network; r_hub := hub; r_tokens := tokens |}.

(** The scripts, the networks they are meant for and the tokens they need. *)
Definition adapter_rows : list row :=
  [row_of_script (deploy_001_hubpool) "MAINNET" "MAINNET" [("WETH", "MAINNET")];
   row_of_script (deploy_001_hubpool) "SEPOLIA" "SEPOLIA" [("WETH", "SEPOLIA")];
   row_of_script (deploy_002_optimism_adapter) "MAINNET" "MAINNET" [("WETH", "MAINNET"); ("USDC", "MAINNET")];
   row_of_script (deploy_002_optimism_adapter) "SEPOLIA" "SEPOLIA" [("WETH", "SEPOLIA"); ("USDC", "SEPOLIA")];
   row_of_script (deploy_004_arbitrum_adapter) "MAINNET" "MAINNET" [("USDC", "MAINNET")];
   row_of_script (deploy_004_arbitrum_adapter) "SEPOLIA" "SEPOLIA" [("USDC", "SEPOLIA")];
   row_of_script (deploy_006_ethereum_adapter) "MAINNET" "MAINNET" [];
   row_of_script (deploy_006_ethereum_adapter) "SEPOLIA" "SEPOLIA" [];
   row_of_script (deploy_008_polygon_token_bridger_mainnet) "MAINNET" "MAINNET" [("WETH", "MAINNET"); ("WMATIC", "POLYGON")];
   row_of_script (deploy_008_polygon_token_bridger_mainnet) "SEPOLIA" "SEPOLIA" [("WETH", "SEPOLIA"); ("WMATIC", "POLYGON_AMOY")];
   row_of_script (deploy_009_polygon_adapter) "MAINNET" "MAINNET" [("MATIC", "MAINNET"); ("WETH", "MAINNET"); ("USDC", "MAINNET")];
   row_of_script (deploy_009_polygon_adapter) "SEPOLIA" "SEPOLIA" [("MATIC", "SEPOLIA"); ("WETH", "SEPOLIA"); ("USDC", "SEPOLIA")];
   row_of_script (deploy_010_polygon_token_bridger_polygon) "POLYGON" "MAINNET" [("WETH", "MAINNET"); ("WMATIC", "POLYGON")];
   row_of_script (deploy_010_polygon_token_bridger_polygon) "POLYGON_AMOY" "SEPOLIA" [("WETH", "SEPOLIA"); ("WMATIC", "POLYGON_AMOY")];
   row_of_script (deploy_012_boba_adapter) "MAINNET" "MAINNET" [("WETH", "MAINNET")];
   row_of_script (deploy_012_boba_adapter) "SEPOLIA" "SEPOLIA" [("WETH", "SEPOLIA")];
   row_of_script (deploy_014_config_store) "MAINNET" "MAINNET" [];
   row_of_script (deploy_014_config_store) "SEPOLIA" "SEPOLIA" [];
   row_of_script (deploy_015_zksync_adapter) "MAINNET" "MAINNET" [("WETH", "MAINNET")];
   row_of_script (deploy_015_zksync_adapter) "SEPOLIA" "SEPOLIA" [("WETH", "SEPOLIA")];
   row_of_script (deploy_017_ethereum_merkle_distributor) "MAINNET" "MAINNET" [];
   row_of_script (deploy_017_ethereum_merkle_distributor) "SEPOLIA" "SEPOLIA" [];
   row_of_script (deploy_018_arbitrum_rescueadapter) "MAINNET" "MAINNET" [];
   row_of_script (deploy_018_arbitrum_rescueadapter) "SEPOLIA" "SEPOLIA" [];
   row_of_script (deploy_019_bond_token) "MAINNET" "MAINNET" [];
   row_of_script (deploy_019_bond_token) "SEPOLIA" "SEPOLIA" [];
   row_of_script (deploy_021_erc1155) "MAINNET" "MAINNET" [];
   row_of_script (deploy_021_erc1155) "SEPOLIA" "SEPOLIA" [];
   row_of_script (deploy_023_spoke_pool_verifier) "MAINNET" "MAINNET" [];
   row_of_script (deploy_023_spoke_pool_verifier) "SEPOLIA" "SEPOLIA" [];
   row_of_script (deploy_024_base_adapter) "MAINNET" "MAINNET" [("WETH", "MAINNET"); ("USDC", "MAINNET")];
   row_of_script (deploy_024_base_adapter) "SEPOLIA" "SEPOLIA" [("WETH", "SEPOLIA"); ("USDC", "SEPOLIA")];
   row_of_script (deploy_026_scroll_adapter) "MAINNET" "MAINNET" [];
   row_of_script (deploy_026_scroll_adapter) "SEPOLIA" "SEPOLIA" [];
   row_of_script (deploy_028_linea_adapter) "MAINNET" "MAINNET" [("WETH", "MAINNET")];
   row_of_script (deploy_028_linea_adapter) "SEPOLIA" "SEPOLIA" [("WETH", "SEPOLIA")];
   row_of_script (deploy_032_uniswap_swap_and_bridge deployments) "OPTIMISM" "MAINNET" [("USDC.e", "OPTIMISM"); ("USDC", "OPTIMISM")];
   row_of_script (deploy_033_uniswap_universal_swap_and_bridge deployments) "OPTIMISM" "MAINNET" [];
   row_of_script (deploy_032_uniswap_swap_and_bridge deployments) "ARBITRUM" "MAINNET" [("USDC.e", "ARBITRUM"); ("USDC", "ARBITRUM")];
   row_of_script (deploy_033_uniswap_universal_swap_and_bridge deployments) "ARBITRUM" "MAINNET" [];
   row_of_script (deploy_032_uniswap_swap_and_bridge deployments) "POLYGON" "MAINNET" [("USDC.e", "POLYGON"); ("USDC", "POLYGON")];
   row_of_script (deploy_033_uniswap_universal_swap_and_bridge deployments) "POLYGON" "MAINNET" [];
   row_of_script (deploy_032_uniswap_swap_and_bridge deployments) "BASE" "MAINNET" [("USDbC", "BASE"); ("USDC", "BASE")];
   row_of_script (deploy_033_uniswap_universal_swap_and_bridge deployments) "BASE" "MAINNET" [];
   row_of_script (deploy_032_uniswap_swap_and_bridge deployments) "OPTIMISM_SEPOLIA" "SEPOLIA" [("USDC.e", "OPTIMISM_SEPOLIA"); ("USDC", "OPTIMISM_SEPOLIA")];
   row_of_script (deploy_033_uniswap_universal_swap_and_bridge deployments) "OPTIMISM_SEPOLIA" "SEPOLIA" [];
   row_of_script (deploy_032_uniswap_swap_and_bridge deployments) "BASE_SEPOLIA" "SEPOLIA" [("USDC.e", "BASE_SEPOLIA"); ("USDC", "BASE_SEPOLIA")];
   row_of_script (deploy_033_uniswap_universal_swap_and_bridge deployments) "BASE_SEPOLIA" "SEPOLIA" [];
   row_of_script (deploy_034_1inch_swap_and_bridge deployments) "OPTIMISM" "MAINNET" [("USDC.e", "OPTIMISM"); ("USDC", "OPTIMISM")];
   row_of_script (deploy_035_universal_1inch_swap_and_bridge deployments) "OPTIMISM" "MAINNET" [];
   row_of_script (deploy_034_1inch_swap_and_bridge deployments) "ARBITRUM" "MAINNET" [("USDC.e", "ARBITRUM"); ("USDC", "ARBITRUM")];
   row_of_script (deploy_035_universal_1inch_swap_and_bridge deployments) "ARBITRUM" "MAINNET" [];
   row_of_script (deploy_034_1inch_swap_and_bridge deployments) "POLYGON" "MAINNET" [("USDC.e", "POLYGON"); ("USDC", "POLYGON")];
   row_of_script (deploy_035_universal_1inch_swap_and_bridge deployments) "POLYGON" "MAINNET" [];
   row_of_script (deploy_034_1inch_swap_and_bridge deployments) "BASE" "MAINNET" [("USDbC", "BASE"); ("USDC", "BASE")];
   row_of_script (deploy_035_universal_1inch_swap_and_bridge deployments) "BASE" "MAINNET" [];
   row_of_script (deploy_034_1inch_swap_and_bridge deployments) "ZK_SYNC" "MAINNET" [("USDC.e", "ZK_SYNC"); ("USDC", "ZK_SYNC")];
   row_of_script (deploy_035_universal_1inch_swap_and_bridge deployments) "ZK_SYNC" "MAINNET" [];
   row_of_script (deploy_038_mode_adapter) "MAINNET" "MAINNET" [("WETH", "MAINNET"); ("USDC", "MAINNET")];
   row_of_script (deploy_038_mode_adapter) "SEPOLIA" "SEPOLIA" [("WETH", "SEPOLIA"); ("USDC", "SEPOLIA")];
   row_of_script (deploy_040_multicall_handler) "MAINNET" "MAINNET" [];
   row_of_script (deploy_040_multicall_handler) "SEPOLIA" "SEPOLIA" [];
   row_of_script (deploy_041_zk_multicall_handler) "ZK_SYNC" "MAINNET" [];
   row_of_script (deploy_042_lisk_adapter) "MAINNET" "MAINNET" [("WETH", "MAINNET"); ("USDC", "MAINNET")];
   row_of_script (deploy_042_lisk_adapter) "SEPOLIA" "SEPOLIA" [("WETH", "SEPOLIA"); ("USDC", "SEPOLIA")];
   row_of_script (deploy_045_blast_rescue_adapter) "MAINNET" "MAINNET" [];
   row_of_script (deploy_046_redstone_adapter) "MAINNET" "MAINNET" [("WETH", "MAINNET")];
   row_of_script (deploy_048_zora_adapter) "MAINNET" "MAINNET" [("WETH", "MAINNET")];
   row_of_script (deploy_050_worldchain_adapter) "MAINNET" "MAINNET" [("WETH", "MAINNET")]]%string.

(** Every adapter and helper script that a deployment needs is right on
    every network it is meant for: whatever the services answer, each contract
    is created with arguments its Solidity constructor accepts (number, types
    and ranges), verification is run with the arguments of the deployment, and
    no script reads a property of [undefined]. *)
Theorem adapter_scripts_conform :
  deployments_wf deployments → Forall row_conforms adapter_rows.
Proof.
  intros Hwf. unfold adapter_rows, row_of_script.
  repeat (apply Forall_cons; split; [autounfold with scripts; run_row|]).
  apply Forall_nil; exact I.
Qed.
End Conformance.

Definition op_deployments : DeploymentExport :=
  [("10"%string, [("SpokePool"%string, {| dep_address := sample_addr; dep_blockNumber := 93903076 |})])].

Lemma adapter_scripts_conform_witness :
  trace_ok (conforms sample_addr)
    (trace (hre_env "10" "1") (deploy_032_uniswap_swap_and_bridge op_deployments)) ∧
  length (trace (hre_env "10" "1") (deploy_032_uniswap_swap_and_bridge op_deployments)) = 3%nat.
Proof.
  split; [|vm_compute; reflexivity].
  pose proof (adapter_scripts_conform op_deployments) as H.
  assert (Hwf : deployments_wf op_deployments) by (apply deployments_check_wf; reflexivity).
  refine (proj1 (Forall_lookup_1 _ _ 36 _ (H Hwf) eq_refl _ (hre_env "10" "1") sample_addr _)).
  - repeat constructor; eexists; reflexivity.
  - apply hre_env_answers; reflexivity.
Defined.

(** ** Scripts that cannot succeed *)

(** A deployment whose arguments the constructor's ABI rejects. *)
Definition rejected_deployment (h : list (event hreE)) : Prop :=
  Exists (λ e, match ev_cmd e with
    | DeploymentsDeploy name o => constructor_accepts (default name (o_contract o)) (o_args o) = false
    | _ => False
    end) h.

(** Runs a script symbolically with no condition on its calls. *)
Ltac run_free :=
  unfold parsed_chain_id; wp_simpl;
  repeat (split; [exact I|wp_answer; wp_simpl];
          repeat match goal with Hp : parseInt _ = Some _ |- _ => rewrite Hp; clear Hp end;
          eval_tables; wp_simpl).

Section Broken.
Context `{AcrossConstants}.

(** Four scripts of [deploy/] cannot succeed on mainnet: the Arbitrum
    send-tokens adapter is deployed with one argument for a constructor that
    takes two, the Polygon zkEVM adapter and the Blast DAI retriever with an
    [undefined] address, and the Blast adapter with the text "200_000" for a
    [uint32].  Each either stops at a failing service or asks for a deployment
    whose arguments the constructor's ABI rejects. *)
Theorem broken_adapter_scripts (ev : env hreE) (hub : string) :
  respects (answers (CHAIN_IDs "MAINNET") (CHAIN_IDs "MAINNET") hub) ev →
  Forall (λ s, is_ok (outcome ev s) = true → rejected_deployment (trace ev s))
    [deploy_020_arbitrum_sendtoken_adapter; deploy_030_polygon_zk_evm_adapter;
     deploy_037_blast_adapter; deploy_044_blast_dai_retriever].
Proof.
  chain_ids. intros Hev.
  assert (Hwp : ∀ s : script, wp (answers 1 1 hub) (λ _ _ _, True)
    (λ h r, is_ok r = true → rejected_deployment h) [] s →
    is_ok (outcome ev s) = true → rejected_deployment (trace ev s)).
  { intros s Hs. by apply (wp_trace _ _ _ ev s Hev) in Hs as [_ Hs]. }
  repeat (apply Forall_cons; split); [..|by apply Forall_nil]; apply Hwp;
    autounfold with scripts; run_free; intros _; find_rejected rejected_deployment.
Qed.

End Broken.

Lemma broken_adapter_scripts_witness :
  rejected_deployment (trace (hre_env "1" "1") deploy_037_blast_adapter).
Proof.
  assert (Hev : respects (answers (CHAIN_IDs "MAINNET") (CHAIN_IDs "MAINNET") sample_addr)
    (hre_env "1" "1")) by (apply hre_env_answers; reflexivity).
  exact (Forall_lookup_1 _ _ 2 _ (broken_adapter_scripts (hre_env "1" "1") sample_addr Hev)
    eq_refl eq_refl).
Defined.


(** ** One token bridger at one address *)

(** What determines the address of a CREATE2 deployment: the salt, the
    contract and its constructor arguments. *)
Definition create2_inputs (h : list (event hreE)) : list (string * string * list jsval) :=
  omap (λ e, match ev_cmd e with
    | DeploymentsDeploy name o =>
        salt ← o_deterministicDeployment o;
        Some (salt, default name (o_contract o), o_args o)
    | _ => None
    end) h.

Section Bridger.
Context `{AcrossConstants}.

Ltac solve_bridger h c registry :=
  exists (λ hub, [("0x1234"%string, "PolygonTokenBridger"%string,
                   bridger_args hub (JStr registry) (Some h) (Some c))]);
  chain_ids; split_and!; try done; intros hub'; autounfold with scripts; run_free;
  intros _; reflexivity.

Lemma bridger_inputs (c h : Z) (s : script) (inputs : string → list (string * string * list jsval))
    (ev : env hreE) hub :
  (∀ hub, wp (answers c h hub) (λ _ _ _, True)
     (λ hist r, is_ok r = true → create2_inputs hist = inputs hub) [] s) →
  respects (answers c h hub) ev → is_ok (outcome ev s) = true →
  create2_inputs (trace ev s) = inputs hub.
Proof. intros Hwp Hev. apply (wp_trace _ _ _ ev s Hev (Hwp hub)). Qed.

(** The token bridger lands at the same address on both chains: for the
    mainnet and the testnet pair, when script 008 (run on L1) and script 010
    (run on Polygon) both complete with the same hub pool, they make one CREATE2
    deployment each, of the same contract with the same salt and arguments, as
    script 011 assumes. *)
Theorem polygon_bridgers_agree (hubName spokeName : string) (ev1 ev2 : env hreE) (hub : string) :
  (hubName, spokeName) ∈ [("MAINNET", "POLYGON"); ("SEPOLIA", "POLYGON_AMOY")]%string →
  respects (answers (CHAIN_IDs hubName) (CHAIN_IDs hubName) hub) ev1 →
  respects (answers (CHAIN_IDs spokeName) (CHAIN_IDs hubName) hub) ev2 →
  is_ok (outcome ev1 deploy_008_polygon_token_bridger_mainnet) = true →
  is_ok (outcome ev2 deploy_010_polygon_token_bridger_polygon) = true →
  create2_inputs (trace ev1 deploy_008_polygon_token_bridger_mainnet) =
    create2_inputs (trace ev2 deploy_010_polygon_token_bridger_polygon) ∧
  length (create2_inputs (trace ev1 deploy_008_polygon_token_bridger_mainnet)) = 1%nat.
Proof.
  intros Hpair.
  assert (Hinputs : ∃ inputs : string → list (string * string * list jsval),
    (∀ hub, wp (answers (CHAIN_IDs hubName) (CHAIN_IDs hubName) hub) (λ _ _ _, True)
      (λ h r, is_ok r = true → create2_inputs h = inputs hub) []
      deploy_008_polygon_token_bridger_mainnet) ∧
    (∀ hub, wp (answers (CHAIN_IDs spokeName) (CHAIN_IDs hubName) hub) (λ _ _ _, True)
      (λ h r, is_ok r = true → create2_inputs h = inputs hub) []
      deploy_010_polygon_token_bridger_polygon) ∧ length (inputs hub) = 1%nat).
  { repeat (apply elem_of_cons in Hpair as [[= -> ->]|Hpair]); [| |by apply not_elem_of_nil in Hpair].
    - solve_bridger 1 137 "0x33a02E6cC863D393d6Bf231B697b82F6e499cA71"%string.
    - solve_bridger 11155111 80002 "0xfE92F7c3a701e43d8479738c8844bCc555b9e5CD"%string. }
  destruct Hinputs as (inputs & Hw1 & Hw2 & Hlen). intros H1 H2 Hok1 Hok2.
  rewrite (bridger_inputs _ _ _ inputs ev1 hub Hw1 H1 Hok1).
  rewrite (bridger_inputs _ _ _ inputs ev2 hub Hw2 H2 Hok2). done.
Qed.
End Bridger.

Lemma polygon_bridgers_agree_witness :
  create2_inputs (trace (hre_env "1" "1") deploy_008_polygon_token_bridger_mainnet) =
    create2_inputs (trace (hre_env "137" "1") deploy_010_polygon_token_bridger_polygon).
Proof.
  apply (polygon_bridgers_agree "MAINNET" "POLYGON" _ _ sample_addr);
    [left|apply hre_env_answers; reflexivity|apply hre_env_answers; reflexivity|reflexivity|reflexivity].
Defined.
