(* ===== verification/DeploySpokes.v ===== *)
(** * Deployment of the spoke pools

    The scripts of [deploy/] that deploy an upgradeable spoke pool on a
    satellite chain (or only a new implementation when one is recorded), one
    definition per script. *)

From stdpp Require Import base strings list.
From Stdlib Require Import ZArith Lia.
From S2P Require Import Prelude JsText Consts DeploymentUtils AbiSpec Hre DeploySpec.

Section Scripts.
Context `{AcrossConstants} (deployments : DeploymentExport).

Definition deploy_003_optimism_spokepool : script :=
  let! info := getSpokePoolDeploymentInfo in
  let initArgs := [JNum 1000000; JStr (hubPool info); JStr (hubPool info)] in
  let! cctp := lift (l2 (spokeChainId info) "cctpTokenMessenger") in
  let constructorArgs :=
    [WETH (spokeChainId info); JNum QUOTE_TIME_BUFFER; JNum FILL_DEADLINE_BUFFER;
     USDC (spokeChainId info); cctp] in
  deployNewProxy deployments "Optimism_SpokePool" constructorArgs initArgs None.

Definition deploy_005_arbitrum_spokepool : script :=
  let! info := getSpokePoolDeploymentInfo in
  let! router := lift (l2 (spokeChainId info) "l2GatewayRouter") in
  let initArgs := [JNum 1000000; router; JStr (hubPool info); JStr (hubPool info)] in
  let! cctp := lift (l2 (spokeChainId info) "cctpTokenMessenger") in
  let constructorArgs :=
    [WETH (spokeChainId info); JNum QUOTE_TIME_BUFFER; JNum FILL_DEADLINE_BUFFER;
     USDC (spokeChainId info); cctp] in
  deployNewProxy deployments "Arbitrum_SpokePool" constructorArgs initArgs None.

Definition deploy_007_ethereum_spokepool : script :=
  let! info := getSpokePoolDeploymentInfo in
  let initArgs := [JNum 1000000; JStr (hubPool info)] in
  let constructorArgs := [WETH (spokeChainId info); JNum QUOTE_TIME_BUFFER; JNum FILL_DEADLINE_BUFFER] in
  deployNewProxy deployments "Ethereum_SpokePool" constructorArgs initArgs None.

Definition deploy_011_polygon_spokepool : script :=
  let! info := getSpokePoolDeploymentInfo in
  let! fxChild := lift (l2 (spokeChainId info) "fxChild") in
  let initArgs :=
    [JNum 1000000; JStr "0x0330E9b4D0325cCfF515E81DFbc7754F2a02ac57"; JStr (hubPool info);
     JStr (hubPool info); fxChild] in
  let! cctp := lift (l2 (spokeChainId info) "cctpTokenMessenger") in
  let constructorArgs :=
    [WMATIC (spokeChainId info); JNum QUOTE_TIME_BUFFER; JNum FILL_DEADLINE_BUFFER;
     USDC (spokeChainId info); cctp] in
  deployNewProxy deployments "Polygon_SpokePool" constructorArgs initArgs None.

Definition deploy_013_boba_spokepool : script :=
  let! info := getSpokePoolDeploymentInfo in
  let initArgs := [JNum 1000000; JStr (hubPool info); JStr (hubPool info)] in
  let constructorArgs :=
    [JStr "0xDeadDeAddeAddEAddeadDEaDDEAdDeaDDeAD0000"; JNum QUOTE_TIME_BUFFER; JNum FILL_DEADLINE_BUFFER] in
  deployNewProxy deployments "Boba_SpokePool" constructorArgs initArgs None.

Definition deploy_016_zksync_spokepool : script :=
  let contractName := "ZkSync_SpokePool"%string in
  let! info := getSpokePoolDeploymentInfo in
  call (ZkLoadArtifact contractName) ;;
  let! bridge := lift (l2 (spokeChainId info) "zkErc20Bridge") in
  let initArgs := [JNum 0; bridge; JStr (hubPool info); JStr (hubPool info)] in
  let constructorArgs := [WETH (spokeChainId info); JNum QUOTE_TIME_BUFFER; JNum FILL_DEADLINE_BUFFER] in
  let! proxy := lift (getDeployedAddress deployments "SpokePool" (spokeChainId info) false) in
  let implementationOnly := bool_decide (is_Some proxy) in
  let! newAddress :=
    (if implementationOnly then call (ZkDeploy contractName constructorArgs)
     else
       let! proxy := call (ZkDeployProxy contractName initArgs constructorArgs ["delegatecall"%string]) in
       let! _ := call (ProxyDeployed proxy) in
       Ret proxy) in
  call (GetExtendedArtifact contractName) ;;
  call (SaveDeployment contractName newAddress) ;;
  call (RunVerify newAddress (Some constructorArgs) None).

(** [deployments[chainId].SpokePool] has to exist for [.address]. *)
Definition deploy_022_upgrade_spokepool : script :=
  let! deployer := call GetNamedAccounts in
  let! chainId := parsed_chain_id in
  let! spokePool := lift (from_option_err TypeError
    (deployed_entry deployments "SpokePool" (chain_text chainId))) in
  call (GetContractFactory "Ethereum_SpokePool") ;;
  let! newImplementation := call (PrepareUpgrade (dep_address spokePool) "Ethereum_SpokePool"
    [WETH chainId; JNum QUOTE_TIME_BUFFER; JNum FILL_DEADLINE_BUFFER]) in
  call (RunVerify newImplementation None None).

Definition deploy_025_base_spokepool : script :=
  let! info := getSpokePoolDeploymentInfo in
  let initArgs := [JNum 1000000; JStr (hubPool info); JStr (hubPool info)] in
  let! cctp := lift (l2 (spokeChainId info) "cctpTokenMessenger") in
  let constructorArgs :=
    [WETH (spokeChainId info); JNum QUOTE_TIME_BUFFER; JNum FILL_DEADLINE_BUFFER;
     USDC (spokeChainId info); cctp] in
  deployNewProxy deployments "Base_SpokePool" constructorArgs initArgs None.

Definition deploy_027_scroll_spokepool : script :=
  let! info := getSpokePoolDeploymentInfo in
  let! chainId := parsed_chain_id in
  let! router := lift (l2 chainId "scrollERC20GatewayRouter") in
  let! messenger := lift (l2 chainId "scrollMessenger") in
  let initArgs := [router; messenger; JNum 1000000;
     JStr (hubPool info); JStr (hubPool info)] in
  let constructorArgs := [WETH chainId; JNum QUOTE_TIME_BUFFER; JNum FILL_DEADLINE_BUFFER] in
  deployNewProxy deployments "Scroll_SpokePool" constructorArgs initArgs None.

Definition deploy_029_linea_spokepool : script :=
  let! info := getSpokePoolDeploymentInfo in
  let! chainId := parsed_chain_id in
  let! messageService := lift (l2 chainId "lineaMessageService") in
  let! tokenBridge := lift (l2 chainId "lineaTokenBridge") in
  let! usdcBridge := lift (l2 chainId "lineaUsdcBridge") in
  let initArgs := [JNum 1000000; messageService; tokenBridge; usdcBridge;
     JStr (hubPool info); JStr (hubPool info)] in
  let constructorArgs := [WETH chainId; JNum QUOTE_TIME_BUFFER; JNum FILL_DEADLINE_BUFFER] in
  deployNewProxy deployments "Linea_SpokePool" constructorArgs initArgs None.

Definition deploy_031_polygon_zk_evm_spokepool : script :=
  let! info := getSpokePoolDeploymentInfo in
  let! chainId := parsed_chain_id in
  let! bridge := lift (l2 chainId "polygonZkEvmBridge") in
  let initArgs := [bridge; JNum 1000000;
     JStr (hubPool info); JStr (hubPool info)] in
  let constructorArgs := [WETH chainId; JNum QUOTE_TIME_BUFFER; JNum FILL_DEADLINE_BUFFER] in
  deployNewProxy deployments "PolygonZkEVM_SpokePool" constructorArgs initArgs None.

Definition deploy_036_blast_spokepool : script :=
  let USDB := token "USDB" in
  let! info := getSpokePoolDeploymentInfo in
  let initArgs := [JNum 1000000; JStr (hubPool info); JStr (hubPool info)] in
  let! retriever := lift (l1 (hubChainId info) "blastDaiRetriever") in
  let constructorArgs :=
    [WETH (spokeChainId info); JNum QUOTE_TIME_BUFFER; JNum FILL_DEADLINE_BUFFER;
     JStr ZERO_ADDRESS; JStr ZERO_ADDRESS;
     USDB (spokeChainId info); USDB (hubChainId info);
     JStr "0x8bA929bE3462a809AFB3Bf9e100Ee110D2CFE531"; retriever] in
  deployNewProxy deployments "Blast_SpokePool" constructorArgs initArgs None.

Definition deploy_039_mode_spokepool : script :=
  let! info := getSpokePoolDeploymentInfo in
  let initArgs := [JNum 1; JStr (hubPool info); JStr (hubPool info)] in
  let constructorArgs :=
    [WETH (spokeChainId info); JNum QUOTE_TIME_BUFFER; JNum FILL_DEADLINE_BUFFER;
     JStr ZERO_ADDRESS; JStr ZERO_ADDRESS] in
  deployNewProxy deployments "Mode_SpokePool" constructorArgs initArgs None.

Definition deploy_043_lisk_spokepool : script :=
  let! info := getSpokePoolDeploymentInfo in
  let initArgs := [JNum 1; JStr (hubPool info); JStr (hubPool info)] in
  let constructorArgs :=
    [WETH (spokeChainId info); JNum QUOTE_TIME_BUFFER; JNum FILL_DEADLINE_BUFFER;
     JStr ZERO_ADDRESS; JStr ZERO_ADDRESS] in
  deployNewProxy deployments "Lisk_SpokePool" constructorArgs initArgs None.

Definition deploy_047_redstone_spokepool : script :=
  let! info := getSpokePoolDeploymentInfo in
  let initArgs := [JNum 1; JStr (hubPool info); JStr (hubPool info)] in
  let constructorArgs :=
    [WETH (spokeChainId info); JNum QUOTE_TIME_BUFFER; JNum FILL_DEADLINE_BUFFER;
     JStr ZERO_ADDRESS; JStr ZERO_ADDRESS] in
  deployNewProxy deployments "Redstone_SpokePool" constructorArgs initArgs None.

Definition deploy_049_zora_spokepool : script :=
  let! info := getSpokePoolDeploymentInfo in
  let initArgs := [JNum 1; JStr (hubPool info); JStr (hubPool info)] in
  let constructorArgs :=
    [WETH (spokeChainId info); JNum QUOTE_TIME_BUFFER; JNum FILL_DEADLINE_BUFFER;
     JStr ZERO_ADDRESS; JStr ZERO_ADDRESS] in
  deployNewProxy deployments "Zora_SpokePool" constructorArgs initArgs None.

Definition deploy_051_worldchain_spokepool : script :=
  let! info := getSpokePoolDeploymentInfo in
  let initArgs := [JNum 1; JStr (hubPool info); JStr (hubPool info)] in
  let constructorArgs :=
    [WETH (spokeChainId info); JNum QUOTE_TIME_BUFFER; JNum FILL_DEADLINE_BUFFER;
     JStr ZERO_ADDRESS; JStr ZERO_ADDRESS] in
  deployNewProxy deployments "WorldChain_SpokePool" constructorArgs initArgs None.

End Scripts.

(** * Properties *)
Create HintDb spoke_scripts.
#[export] Hint Unfold deploy_003_optimism_spokepool deploy_005_arbitrum_spokepool deploy_007_ethereum_spokepool
  deploy_011_polygon_spokepool deploy_013_boba_spokepool deploy_016_zksync_spokepool
  deploy_022_upgrade_spokepool deploy_025_base_spokepool deploy_027_scroll_spokepool
  deploy_029_linea_spokepool deploy_031_polygon_zk_evm_spokepool
  deploy_036_blast_spokepool deploy_039_mode_spokepool deploy_043_lisk_spokepool
  deploy_047_redstone_spokepool deploy_049_zora_spokepool deploy_051_worldchain_spokepool : spoke_scripts.

Definition spoke_row (s : script) (network hub : string) (tokens : list (string * string)) : row :=
  {| r_script := s; r_network := network; r_hub := hub; r_tokens := tokens |}.

(** The scripts, the networks they are meant for and the tokens they need. *)
Definition spoke_rows `{AcrossConstants} (deployments : DeploymentExport) : list row :=
  [spoke_row (deploy_003_optimism_spokepool deployments) "OPTIMISM" "MAINNET" [("WETH", "OPTIMISM"); ("USDC", "OPTIMISM")];
   spoke_row (deploy_003_optimism_spokepool deployments) "OPTIMISM_SEPOLIA" "SEPOLIA" [("WETH", "OPTIMISM_SEPOLIA"); ("USDC", "OPTIMISM_SEPOLIA")];
   spoke_row (deploy_005_arbitrum_spokepool deployments) "ARBITRUM" "MAINNET" [("WETH", "ARBITRUM"); ("USDC", "ARBITRUM")];
   spoke_row (deploy_005_arbitrum_spokepool deployments) "ARBITRUM_SEPOLIA" "SEPOLIA" [("WETH", "ARBITRUM_SEPOLIA"); ("USDC", "ARBITRUM_SEPOLIA")];
   spoke_row (deploy_007_ethereum_spokepool deployments) "MAINNET" "MAINNET" [("WETH", "MAINNET")];
   spoke_row (deploy_007_ethereum_spokepool deployments) "SEPOLIA" "SEPOLIA" [("WETH", "SEPOLIA")];
   spoke_row (deploy_011_polygon_spokepool deployments) "POLYGON" "MAINNET" [("WMATIC", "POLYGON"); ("USDC", "POLYGON")];
   spoke_row (deploy_011_polygon_spokepool deployments) "POLYGON_AMOY" "SEPOLIA" [("WMATIC", "POLYGON_AMOY"); ("USDC", "POLYGON_AMOY")];
   spoke_row (deploy_013_boba_spokepool deployments) "BOBA" "MAINNET" [];
   spoke_row (deploy_016_zksync_spokepool deployments) "ZK_SYNC" "MAINNET" [("WETH", "ZK_SYNC")];
   spoke_row (deploy_025_base_spokepool deployments) "BASE" "MAINNET" [("WETH", "BASE"); ("USDC", "BASE")];
   spoke_row (deploy_025_base_spokepool deployments) "BASE_SEPOLIA" "SEPOLIA" [("WETH", "BASE_SEPOLIA"); ("USDC", "BASE_SEPOLIA")];
   spoke_row (deploy_027_scroll_spokepool deployments) "SCROLL" "MAINNET" [("WETH", "SCROLL")];
   spoke_row (deploy_027_scroll_spokepool deployments) "SCROLL_SEPOLIA" "SEPOLIA" [("WETH", "SCROLL_SEPOLIA")];
   spoke_row (deploy_029_linea_spokepool deployments) "LINEA" "MAINNET" [("WETH", "LINEA")];
   spoke_row (deploy_036_blast_spokepool deployments) "BLAST" "MAINNET" [("WETH", "BLAST"); ("USDB", "BLAST"); ("USDB", "MAINNET")];
   spoke_row (deploy_039_mode_spokepool deployments) "MODE" "MAINNET" [("WETH", "MODE")];
   spoke_row (deploy_039_mode_spokepool deployments) "MODE_SEPOLIA" "SEPOLIA" [("WETH", "MODE_SEPOLIA")];
   spoke_row (deploy_043_lisk_spokepool deployments) "LISK" "MAINNET" [("WETH", "LISK")];
   spoke_row (deploy_043_lisk_spokepool deployments) "LISK_SEPOLIA" "SEPOLIA" [("WETH", "LISK_SEPOLIA")];
   spoke_row (deploy_047_redstone_spokepool deployments) "REDSTONE" "MAINNET" [("WETH", "REDSTONE")];
   spoke_row (deploy_049_zora_spokepool deployments) "ZORA" "MAINNET" [("WETH", "ZORA")];
   spoke_row (deploy_051_worldchain_spokepool deployments) "WORLD_CHAIN" "MAINNET" [("WETH", "WORLD_CHAIN")]]%string.

Ltac run_spoke :=
  let Hl := fresh "Hl" in let hub := fresh "hub" in
  apply row_by_wp; cbn [r_script r_network r_hub r_tokens]; unfold listed; intros Hl hub;
  use_tokens Hl; chain_ids; unfold parsed_chain_id, getSpokePoolDeploymentInfo; wp_simpl;
  repeat (lazymatch goal with |- _ ∧ _ => idtac end;
          split; [exact I|wp_answer; wp_simpl];
          repeat match goal with
          | Hn : js_Number _ = Some _ |- _ => rewrite Hn; clear Hn
          | Hp : parseInt _ = Some _ |- _ => rewrite Hp; clear Hp
          end;
          cbn [hubPool hubChainId spokeChainId]; eval_tables; wp_simpl).

Section Conformance.
Context `{AcrossConstants} (deployments : DeploymentExport).

(** The zkSync script has its own deployment code. *)
Lemma zksync_conforms :
  row_conforms (spoke_row (deploy_016_zksync_spokepool deployments) "ZK_SYNC" "MAINNET"
                  [("WETH", "ZK_SYNC")]%string).
Proof.
  unfold spoke_row; autounfold with spoke_scripts; run_spoke.
  case_recorded; repeat (split; [|wp_answer; wp_simpl]);
    first [exact I|cbn [conforms]; rewrite ?last_args_snoc; reflexivity|cbn [conforms]; proxy_goal
          |cbn [conforms]; token_values; abi_goal].
Qed.

(** Script 022 prepares an upgrade of the recorded pool of Ethereum, and
    deploys nothing else. *)
Definition prepares (proxy : string) (_ : list (event hreE)) : ∀ X, hreE X → Prop :=
  λ X cmd, match cmd with
  | PrepareUpgrade p name args =>
      p = proxy ∧ name = "Ethereum_SpokePool"%string ∧ constructor_accepts name args = true ∧ buffers_ok name args = true
  | DeploymentsDeploy _ _ | DeployImplementation _ _ _ | DeployProxy _ _ _ _ | SaveDeployment _ _ | ZkDeploy _ _
  | ZkDeployProxy _ _ _ _ => False
  | _ => True
  end.

Definition upgrade_conforms (network : string) : Prop :=
  listed [("WETH"%string, network)] → ∀ (ev : env hreE) h hub d,
  respects (answers (CHAIN_IDs network) h hub) ev →
  deployed_entry deployments "SpokePool" (decimal (CHAIN_IDs network)) = Some d →
  trace_ok (prepares (dep_address d)) (trace ev (deploy_022_upgrade_spokepool deployments)) ∧
  no_type_error (outcome ev (deploy_022_upgrade_spokepool deployments)).

Lemma upgrades_conform : Forall upgrade_conforms ["MAINNET"; "SEPOLIA"]%string.
Proof.
  repeat (apply Forall_cons; split; [|]); [..|by apply Forall_nil].
  all: unfold upgrade_conforms, listed; intros Hl ev h hub d Hev Hd; refine (wp_trace _ _ (λ _, no_type_error) ev _ Hev _);
    use_tokens Hl; revert Hd; chain_ids; intros Hd; autounfold with spoke_scripts; unfold parsed_chain_id; wp_simpl;
    repeat (lazymatch goal with |- _ ∧ _ => idtac end; split; [exact I|wp_answer; wp_simpl]);
    use_ids; unfold chain_text; rewrite Hd; wp_simpl; split; [exact I|wp_answer; wp_simpl];
    (split; [cbn [prepares]; split_and!; [done|done|token_values; abi_goal|named_args]|wp_answer; wp_simpl];
     split; [exact I|wp_answer; wp_simpl]; exact I).
Qed.

(** Script 031 has its bridge on the testnet 1442 only; on 1101 it always
    throws. *)
Definition zk_evm_conforms : Prop :=
  (is_Some (TOKEN_SYMBOLS_MAP "WETH" 1442) → ∀ (ev : env hreE) h hub, respects (answers 1442 h hub) ev →
     trace_ok (conforms hub) (trace ev (deploy_031_polygon_zk_evm_spokepool deployments)) ∧
     no_type_error (outcome ev (deploy_031_polygon_zk_evm_spokepool deployments))) ∧
  ∀ (ev : env hreE) h hub, respects (answers 1101 h hub) ev →
    is_ok (outcome ev (deploy_031_polygon_zk_evm_spokepool deployments)) = false ∧
    trace_ok (λ _ X c, match c with GetChainId | L1GetChainId | L1DeploymentsGet _ => True | _ => False end)
      (trace ev (deploy_031_polygon_zk_evm_spokepool deployments)).

Lemma zk_evm_script : zk_evm_conforms.
Proof.
  split.
  - intros Hw ev h hub Hev. refine (wp_trace _ _ (λ _, no_type_error) ev _ Hev _).
    apply token_address in Hw as (a & Ha & Hwf).
    autounfold with spoke_scripts. unfold parsed_chain_id, getSpokePoolDeploymentInfo. wp_simpl.
    repeat (lazymatch goal with |- _ ∧ _ => idtac end; split; [exact I|wp_answer; wp_simpl]).
    use_ids. cbn [hubPool hubChainId spokeChainId]. eval_tables. wp_simpl.
    apply deployNewProxy_conforms. proxy_goal.
  - intros ev h hub Hev. apply and_comm. apply (wp_trace _ _ (λ _ r, is_ok r = false) ev _ Hev).
    autounfold with spoke_scripts. unfold parsed_chain_id, getSpokePoolDeploymentInfo. wp_simpl.
    repeat (lazymatch goal with |- _ ∧ _ => idtac end; split; [exact I|wp_answer; wp_simpl]).
    use_ids. eval_tables. reflexivity.
Qed.

(** On Blast Sepolia script 036 can only ask for a constructor call the ABI
    rejects: the L1 table has no Blast retriever on Sepolia. *)
Definition rejected_proxy (h : list (event hreE)) : Prop :=
  Exists (λ e, match ev_cmd e with
    | DeployImplementation name args _ | DeployProxy name _ args _ => constructor_accepts name args = false
    | _ => False
    end) h.

Definition blast_sepolia_rejected : Prop :=
  ∀ (ev : env hreE) hub, respects (answers (CHAIN_IDs "BLAST_SEPOLIA") (CHAIN_IDs "SEPOLIA") hub) ev →
  is_ok (outcome ev (deploy_036_blast_spokepool deployments)) = true →
  rejected_proxy (trace ev (deploy_036_blast_spokepool deployments)).

Lemma blast_sepolia_script : blast_sepolia_rejected.
Proof.
  unfold blast_sepolia_rejected. chain_ids. intros ev hub Hev.
  apply (wp_trace _ (λ _ _ _, True) (λ t r, is_ok r = true → rejected_proxy t) ev _ Hev).
  autounfold with spoke_scripts. unfold parsed_chain_id, getSpokePoolDeploymentInfo. wp_simpl.
  repeat (lazymatch goal with |- _ ∧ _ => idtac end; split; [exact I|wp_answer; wp_simpl]).
  use_ids. cbn [hubPool hubChainId spokeChainId]. eval_tables. unfold deployNewProxy. wp_simpl.
  split; [exact I|wp_answer; wp_simpl]. use_ids. case_recorded;
  repeat (split; [exact I|wp_answer; wp_simpl]).
  all: intros _; find_rejected rejected_proxy.
Qed.

(** C22. Every spoke pool script, on the networks it is written for.  On each
    network of the table the implementation's constructor and the proxy's
    [initialize] get arguments their Solidity declarations accept, with the
    quote and fill-deadline buffers of 3600 and 21600 seconds, and the proxy's
    cross-domain admin and withdrawal recipient are the hub pool of the
    network's L1 companion, whatever services answer and whether or not a proxy
    is recorded; script 022 prepares, on mainnet and Sepolia, an upgrade of
    exactly the recorded pool with such arguments and deploys nothing; script
    031 conforms on chain 1442.  The two configured networks left are the ones
    no script serves: on 1101 script 031 throws before it deploys anything, and
    on Blast Sepolia what script 036 deploys is rejected. *)
Theorem spoke_scripts_conform :
  Forall row_conforms (spoke_rows deployments) ∧ Forall upgrade_conforms ["MAINNET"; "SEPOLIA"]%string ∧
  zk_evm_conforms ∧ blast_sepolia_rejected.
Proof.
  split_and!; [|exact upgrades_conform|exact zk_evm_script|exact blast_sepolia_script].
  unfold spoke_rows.
  repeat (apply Forall_cons; split;
    [first [exact zksync_conforms
           |unfold spoke_row; autounfold with spoke_scripts; run_spoke;
            apply deployNewProxy_conforms; proxy_goal]|]).
  apply Forall_nil; exact I.
Qed.
End Conformance.

(** Runs of the scripts of Optimism, of the upgrade of mainnet, and of script
    031 on its two chains. *)
Definition recorded_mainnet : DeploymentExport :=
  [("1"%string, [("SpokePool"%string, {| dep_address := sample_addr; dep_blockNumber := 15977129 |})])].

Lemma spoke_scripts_conform_witness :
  trace_ok (conforms sample_addr) (trace (hre_env "10" "1") (deploy_003_optimism_spokepool recorded_mainnet)) ∧
  trace_ok (prepares sample_addr) (trace (hre_env "1" "1") (deploy_022_upgrade_spokepool recorded_mainnet)) ∧
  trace_ok (conforms sample_addr) (trace (hre_env "1442" "5") (deploy_031_polygon_zk_evm_spokepool recorded_mainnet)) ∧
  is_ok (outcome (hre_env "1101" "1") (deploy_031_polygon_zk_evm_spokepool recorded_mainnet)) = false.
Proof.
  destruct (spoke_scripts_conform recorded_mainnet) as (Hrows & Hup & [Hzk Hno] & _). split_and!.
  - refine (proj1 (Forall_lookup_1 _ _ 0 _ Hrows eq_refl _ (hre_env "10" "1") sample_addr _)).
    + repeat constructor; eexists; reflexivity.
    + apply hre_env_answers; reflexivity.
  - refine (proj1 (Forall_lookup_1 _ _ 0 _ Hup eq_refl _ (hre_env "1" "1") 1 sample_addr
      {| dep_address := sample_addr; dep_blockNumber := 15977129 |} _ _)).
    + repeat constructor; eexists; reflexivity.
    + apply hre_env_answers; reflexivity.
    + reflexivity.
  - refine (proj1 (Hzk _ (hre_env "1442" "5") 5 sample_addr _)).
    + eexists; reflexivity.
    + apply hre_env_answers; reflexivity.
  - refine (proj1 (Hno (hre_env "1101" "1") 1 sample_addr _)). apply hre_env_answers; reflexivity.
Defined.

(** ** Upgrades *)

(** What [deployNewProxy] may ask for, given what is recorded for the chain. *)
Definition proxy_calls `{AcrossConstants} (recorded : option deployment) (c : Z) (name : string)
    (ctor init : list jsval) (_ : list (event hreE)) : ∀ X, hreE X → Prop :=
  let allow := if decide (c = CHAIN_IDs "BLAST" ∨ c = CHAIN_IDs "BLAST_SEPOLIA")
               then ["delegatecall"; "state-variable-immutable"]%string else ["delegatecall"%string] in
  λ X cmd, match cmd with
  | DeployProxy n i a u => recorded = None ∧ n = name ∧ i = init ∧ a = ctor ∧ u = allow
  | DeployImplementation n a u => is_Some recorded ∧ n = name ∧ a = ctor ∧ u = allow
  | SaveDeployment n _ => n = name
  | RunVerify _ args _ => args = Some ctor
  | DeploymentsDeploy _ _ | PrepareUpgrade _ _ _ | ZkDeploy _ _ | ZkDeployProxy _ _ _ _ => False
  | _ => True
  end.

Definition deployments_made (h : list (event hreE)) : nat := length (omap event_args h).

Lemma deployments_made_snoc h e :
  deployments_made (h ++ [e]) =
    (deployments_made h + match event_args e with Some _ => 1 | None => 0 end)%nat.
Proof.
  unfold deployments_made. rewrite omap_app, length_app. f_equal. cbn.
  by destruct (event_args e).
Qed.

Lemma unsafeAllowArgs_spec `{AcrossConstants} c :
  unsafeAllowArgs (Some c) =
    if decide (c = CHAIN_IDs "BLAST" ∨ c = CHAIN_IDs "BLAST_SEPOLIA")
    then ["delegatecall"; "state-variable-immutable"]%string else ["delegatecall"%string].
Proof.
  unfold unsafeAllowArgs, is_blast.
  destruct (Z.eqb_spec c (CHAIN_IDs "BLAST")), (Z.eqb_spec c (CHAIN_IDs "BLAST_SEPOLIA"));
    destruct (decide _) as [Hd|Hd]; cbn; try reflexivity; tauto.
Qed.

(** [deployNewProxy] never replaces a proxy: when deployments.json records
    a SpokePool on the chain it asks for a new implementation and for no proxy,
    otherwise for one proxy and no separate implementation; it makes exactly
    one deployment when it returns, with the arguments it was given, saves it
    under the contract's name and verifies it with the same arguments; and the
    immutable-variable check is waived on the two Blast chains only. *)
Theorem deployNewProxy_upgrades `{AcrossConstants} (ds : DeploymentExport) (c h : Z) (hub name : string)
    (ctor init : list jsval) (ev : env hreE) :
  respects (answers c h hub) ev →
  trace_ok (proxy_calls (deployed_entry ds "SpokePool" (decimal c)) c name ctor init)
    (trace ev (deployNewProxy ds name ctor init None)) ∧
  (is_ok (outcome ev (deployNewProxy ds name ctor init None)) = true →
   deployments_made (trace ev (deployNewProxy ds name ctor init None)) = 1%nat).
Proof.
  intros Hev.
  apply (wp_trace _ _ (λ t r, is_ok r = true → deployments_made t = 1%nat) ev _ Hev).
  unfold deployNewProxy. wp_simpl. split; [exact I|wp_answer; wp_simpl].
  rewrite Hn, getDeployedAddress_nothrow. cbn [chain_text]. wp_simpl. rewrite unsafeAllowArgs_spec.
  destruct (deployed_entry ds "SpokePool" (decimal c)) as [d|] eqn:Hd; cbn [fmap option_fmap option_map].
  - rewrite (bool_decide_eq_true_2 (is_Some (Some _))) by eauto. cbn [default]. wp_simpl.
    repeat (split; [first [exact I|reflexivity|split_and!; eauto]|wp_answer; wp_simpl]).
    intros _. by rewrite !deployments_made_snoc.
  - rewrite (bool_decide_eq_false_2 (is_Some None)) by (by intros [? [=]]). cbn [default]. wp_simpl.
    repeat (split; [first [exact I|reflexivity|split_and!; eauto]|wp_answer; wp_simpl]).
    intros _. by rewrite !deployments_made_snoc.
Qed.

Lemma deployNewProxy_upgrades_witness :
  deployments_made (trace (hre_env "10" "1") (deployNewProxy [] "Optimism_SpokePool" [] [] None)) = 1%nat.
Proof.
  apply (deployNewProxy_upgrades [] 10 1 sample_addr "Optimism_SpokePool" [] [] (hre_env "10" "1"));
    [apply hre_env_answers; reflexivity|reflexivity].
Defined.
