(* ===== verification/HardhatConfig.v ===== *)
(** * hardhat.config.ts: the networks and the compiler

    The networks of the hardhat configuration with their L1 companions, the
    block explorers used for verification and the compiler settings of each
    contract.  Plugins are left out. *)

From stdpp Require Import base strings list.
From Stdlib Require Import ZArith Lia.
From S2P Require Import Prelude JsText Consts DeploymentUtils AbiSpec Hre DeploySpec DeployAdapters DeploySpokes.

(** Where a network is reached: a node of [getNodeUrl] (from [@uma/common]),
    an Infura subdomain, or a fixed address. *)
Inductive node_url :=
| NodeUrl (name : string) (chainId : Z)
| InfuraUrl (subdomain : string)
| Url (url : string)
| NoUrl.

#[export] Instance node_url_eq_dec : EqDecision node_url.
Proof. solve_decision. Defined.

(** [zksync: true], absent, or [COMPILE_ZK === "true"] *)
Inductive zk_mode := ZkAlways | ZkNever | ZkWhenCompiling.
#[export] Instance zk_mode_eq_dec : EqDecision zk_mode.
Proof. solve_decision. Defined.

Record network := {
  n_name : string;
  n_url : node_url;
  n_chainId : option Z;
  n_saveDeployments : bool;
  n_companion_l1 : option string;
  n_zksync : zk_mode
}.

#[export] Instance network_eq_dec : EqDecision network.
Proof. solve_decision. Defined.

Inductive api_key := EnvKey (var : string) | LiteralKey (key : string).

Record custom_chain := {
  cc_network : string;
  cc_chainId : Z;
  cc_apiURL : string;
  cc_browserURL : string
}.

Section Config.
Context `{AcrossConstants}.

(** The networks up to base-sepolia, and from linea on. *)
Definition networks_to_base : list network :=
  [{| n_name := "hardhat"; n_url := NoUrl;
      n_chainId := None; n_saveDeployments := false;
      n_companion_l1 := None; n_zksync := ZkWhenCompiling |};
   {| n_name := "mainnet"; n_url := NodeUrl "mainnet" (1);
      n_chainId := Some (CHAIN_IDs "MAINNET"); n_saveDeployments := true;
      n_companion_l1 := Some "mainnet"; n_zksync := ZkNever |};
   {| n_name := "zksync"; n_url := Url "https://mainnet.era.zksync.io";
      n_chainId := Some (CHAIN_IDs "ZK_SYNC"); n_saveDeployments := true;
      n_companion_l1 := Some "mainnet"; n_zksync := ZkAlways |};
   {| n_name := "optimism"; n_url := NodeUrl "optimism-mainnet" (CHAIN_IDs "OPTIMISM");
      n_chainId := Some (CHAIN_IDs "OPTIMISM"); n_saveDeployments := true;
      n_companion_l1 := Some "mainnet"; n_zksync := ZkNever |};
   {| n_name := "optimism-sepolia"; n_url := NodeUrl "optimism-sepolia" (CHAIN_IDs "OPTIMISM_SEPOLIA");
      n_chainId := Some (CHAIN_IDs "OPTIMISM_SEPOLIA"); n_saveDeployments := true;
      n_companion_l1 := Some "sepolia"; n_zksync := ZkNever |};
   {| n_name := "arbitrum"; n_url := NodeUrl "arbitrum-mainnet" (CHAIN_IDs "ARBITRUM");
      n_chainId := Some (CHAIN_IDs "ARBITRUM"); n_saveDeployments := true;
      n_companion_l1 := Some "mainnet"; n_zksync := ZkNever |};
   {| n_name := "arbitrum-sepolia"; n_url := NodeUrl "arbitrum-sepolia" (CHAIN_IDs "ARBITRUM_SEPOLIA");
      n_chainId := Some (CHAIN_IDs "ARBITRUM_SEPOLIA"); n_saveDeployments := true;
      n_companion_l1 := Some "sepolia"; n_zksync := ZkNever |};
   {| n_name := "sepolia"; n_url := InfuraUrl "sepolia";
      n_chainId := Some (CHAIN_IDs "SEPOLIA"); n_saveDeployments := true;
      n_companion_l1 := Some "sepolia"; n_zksync := ZkNever |};
   {| n_name := "polygon"; n_url := NodeUrl "polygon-mainnet" (CHAIN_IDs "POLYGON");
      n_chainId := Some (CHAIN_IDs "POLYGON"); n_saveDeployments := true;
      n_companion_l1 := Some "mainnet"; n_zksync := ZkNever |};
   {| n_name := "boba"; n_url := NodeUrl "boba" (CHAIN_IDs "BOBA");
      n_chainId := Some (CHAIN_IDs "BOBA"); n_saveDeployments := false;
      n_companion_l1 := Some "mainnet"; n_zksync := ZkNever |};
   {| n_name := "polygon-amoy"; n_url := Url "https://rpc-amoy.polygon.technology";
      n_chainId := Some (CHAIN_IDs "POLYGON_AMOY"); n_saveDeployments := true;
      n_companion_l1 := Some "sepolia"; n_zksync := ZkNever |};
   {| n_name := "base"; n_url := Url "https://mainnet.base.org";
      n_chainId := Some (CHAIN_IDs "BASE"); n_saveDeployments := true;
      n_companion_l1 := Some "mainnet"; n_zksync := ZkNever |};
   {| n_name := "base-sepolia"; n_url := InfuraUrl "base-sepolia";
      n_chainId := Some (CHAIN_IDs "BASE_SEPOLIA"); n_saveDeployments := true;
      n_companion_l1 := Some "sepolia"; n_zksync := ZkNever |}]%string.
Definition networks_from_linea : list network :=
  [{| n_name := "linea"; n_url := InfuraUrl "linea-mainnet";
      n_chainId := Some (CHAIN_IDs "LINEA"); n_saveDeployments := true;
      n_companion_l1 := Some "mainnet"; n_zksync := ZkNever |};
   {| n_name := "scroll"; n_url := Url "https://rpc.scroll.io";
      n_chainId := Some (CHAIN_IDs "SCROLL"); n_saveDeployments := true;
      n_companion_l1 := Some "mainnet"; n_zksync := ZkNever |};
   {| n_name := "scroll-sepolia"; n_url := Url "https://sepolia-rpc.scroll.io";
      n_chainId := Some (CHAIN_IDs "SCROLL_SEPOLIA"); n_saveDeployments := true;
      n_companion_l1 := Some "sepolia"; n_zksync := ZkNever |};
   {| n_name := "polygon-zk-evm"; n_url := Url "https://zkevm-rpc.com";
      n_chainId := Some (1101); n_saveDeployments := true;
      n_companion_l1 := Some "mainnet"; n_zksync := ZkNever |};
   {| n_name := "polygon-zk-evm-testnet"; n_url := Url "https://rpc.public.zkevm-test.net";
      n_chainId := Some (1442); n_saveDeployments := true;
      n_companion_l1 := Some "goerli"; n_zksync := ZkNever |};
   {| n_name := "mode"; n_url := Url "https://mainnet.mode.network";
      n_chainId := Some (CHAIN_IDs "MODE"); n_saveDeployments := true;
      n_companion_l1 := Some "mainnet"; n_zksync := ZkNever |};
   {| n_name := "mode-sepolia"; n_url := Url "https://sepolia.mode.network";
      n_chainId := Some (CHAIN_IDs "MODE_SEPOLIA"); n_saveDeployments := true;
      n_companion_l1 := Some "sepolia"; n_zksync := ZkNever |};
   {| n_name := "lisk"; n_url := Url "https://rpc.api.lisk.com";
      n_chainId := Some (CHAIN_IDs "LISK"); n_saveDeployments := true;
      n_companion_l1 := Some "mainnet"; n_zksync := ZkNever |};
   {| n_name := "lisk-sepolia"; n_url := Url "https://rpc.sepolia-api.lisk.com";
      n_chainId := Some (CHAIN_IDs "LISK_SEPOLIA"); n_saveDeployments := true;
      n_companion_l1 := Some "sepolia"; n_zksync := ZkNever |};
   {| n_name := "redstone"; n_url := Url "https://rpc.redstonechain.com";
      n_chainId := Some (CHAIN_IDs "REDSTONE"); n_saveDeployments := true;
      n_companion_l1 := Some "mainnet"; n_zksync := ZkNever |};
   {| n_name := "blast"; n_url := Url "https://rpc.blast.io";
      n_chainId := Some (CHAIN_IDs "BLAST"); n_saveDeployments := true;
      n_companion_l1 := Some "mainnet"; n_zksync := ZkNever |};
   {| n_name := "blast-sepolia"; n_url := Url "https://sepolia.blast.io";
      n_chainId := Some (CHAIN_IDs "BLAST_SEPOLIA"); n_saveDeployments := true;
      n_companion_l1 := Some "sepolia"; n_zksync := ZkNever |};
   {| n_name := "worldchain"; n_url := Url "https://worldchain-mainnet.g.alchemy.com/public";
      n_chainId := Some (CHAIN_IDs "WORLD_CHAIN"); n_saveDeployments := true;
      n_companion_l1 := Some "mainnet"; n_zksync := ZkNever |};
   {| n_name := "zora"; n_url := Url "https://rpc.zora.energy";
      n_chainId := Some (CHAIN_IDs "ZORA"); n_saveDeployments := true;
      n_companion_l1 := Some "mainnet"; n_zksync := ZkNever |}]%string.

Definition networks : list network := networks_to_base ++ networks_from_linea.

Definition etherscan_apiKey : list (string * api_key) :=
  [("mainnet", EnvKey "ETHERSCAN_API_KEY");
   ("sepolia", EnvKey "ETHERSCAN_API_KEY");
   ("optimisticEthereum", EnvKey "OPTIMISM_ETHERSCAN_API_KEY");
   ("optimisticSepolia", EnvKey "OPTIMISM_ETHERSCAN_API_KEY");
   ("arbitrumOne", EnvKey "ARBITRUM_ETHERSCAN_API_KEY");
   ("arbitrum-sepolia", EnvKey "ARBITRUM_ETHERSCAN_API_KEY");
   ("polygon", EnvKey "POLYGON_ETHERSCAN_API_KEY");
   ("polygon-amoy", EnvKey "POLYGON_ETHERSCAN_API_KEY");
   ("base", EnvKey "BASE_ETHERSCAN_API_KEY");
   ("base-sepolia", EnvKey "BASE_ETHERSCAN_API_KEY");
   ("linea", EnvKey "LINEA_ETHERSCAN_API_KEY");
   ("scroll", EnvKey "SCROLL_ETHERSCAN_API_KEY");
   ("scroll-sepolia", EnvKey "SCROLL_ETHERSCAN_API_KEY");
   ("polygon-zk-evm", EnvKey "POLYGON_ZK_EVM_ETHERSCAN_API_KEY");
   ("polygon-zk-evm-testnet", EnvKey "POLYGON_ZK_EVM_ETHERSCAN_API_KEY");
   ("mode", EnvKey "MODE_ETHERSCAN_API_KEY");
   ("mode-sepolia", EnvKey "MODE_ETHERSCAN_API_KEY");
   ("lisk", EnvKey "LISK_ETHERSCAN_API_KEY");
   ("lisk-sepolia", EnvKey "LISK_ETHERSCAN_API_KEY");
   ("redstone", EnvKey "REDSTONE_ETHERSCAN_API_KEY");
   ("blast", EnvKey "BLAST_ETHERSCAN_API_KEY");
   ("blast-sepolia", EnvKey "BLAST_ETHERSCAN_API_KEY");
   ("zora", LiteralKey "routescan");
   ("worldchain", LiteralKey "blockscout")]%string.

(** The custom chains up to arbitrum-sepolia, and from mode-sepolia on. *)
Definition customChains_to_arbitrum : list custom_chain :=
  [{| cc_network := "base"; cc_chainId := CHAIN_IDs "BASE";
      cc_apiURL := "https://api.basescan.org/api";
      cc_browserURL := "https://basescan.org" |};
   {| cc_network := "base-sepolia"; cc_chainId := CHAIN_IDs "BASE_SEPOLIA";
      cc_apiURL := "https://api-sepolia.basescan.org/api";
      cc_browserURL := "https://sepolia.basescan.org" |};
   {| cc_network := "linea"; cc_chainId := CHAIN_IDs "LINEA";
      cc_apiURL := "https://api.lineascan.build/api";
      cc_browserURL := "https://lineascan.org" |};
   {| cc_network := "sepolia"; cc_chainId := CHAIN_IDs "SEPOLIA";
      cc_apiURL := "https://api-sepolia.etherscan.io/api";
      cc_browserURL := "https://sepolia.etherscan.io" |};
   {| cc_network := "scroll"; cc_chainId := CHAIN_IDs "SCROLL";
      cc_apiURL := "https://api.scrollscan.com/api";
      cc_browserURL := "https://api.scrollscan.com" |};
   {| cc_network := "scroll-sepolia"; cc_chainId := CHAIN_IDs "SCROLL_SEPOLIA";
      cc_apiURL := "https://api-sepolia.scrollscan.com/api";
      cc_browserURL := "https://api-sepolia.scrollscan.com" |};
   {| cc_network := "optimisticSepolia"; cc_chainId := CHAIN_IDs "OPTIMISM_SEPOLIA";
      cc_apiURL := "https://api-sepolia-optimistic.etherscan.io/api";
      cc_browserURL := "https://sepolia-optimism.etherscan.io" |};
   {| cc_network := "polygon-zk-evm"; cc_chainId := 1101;
      cc_apiURL := "https://api-zkevm.polygonscan.com/api";
      cc_browserURL := "https://zkevm.polygonscan.com" |};
   {| cc_network := "polygon-zk-evm-testnet"; cc_chainId := 1442;
      cc_apiURL := "https://api-testnet-zkevm.polygonscan.com/api";
      cc_browserURL := "https://testnet-zkevm.polygonscan.com/" |};
   {| cc_network := "polygon-amoy"; cc_chainId := CHAIN_IDs "POLYGON_AMOY";
      cc_apiURL := "https://api-amoy.polygonscan.com/api";
      cc_browserURL := "https://amoy.polygonscan.com" |};
   {| cc_network := "arbitrum-sepolia"; cc_chainId := CHAIN_IDs "ARBITRUM_SEPOLIA";
      cc_apiURL := "https://api-sepolia.arbiscan.io/api";
      cc_browserURL := "https://sepolia.arbiscan.io" |}]%string.
Definition customChains_from_mode : list custom_chain :=
  [{| cc_network := "mode-sepolia"; cc_chainId := CHAIN_IDs "MODE_SEPOLIA";
      cc_apiURL := "https://api.routescan.io/v2/network/testnet/evm/919/etherscan";
      cc_browserURL := "https://testnet.modescan.io" |};
   {| cc_network := "mode"; cc_chainId := CHAIN_IDs "MODE";
      cc_apiURL := "https://explorer.mode.network/api";
      cc_browserURL := "https://explorer.mode.network/" |};
   {| cc_network := "lisk"; cc_chainId := CHAIN_IDs "LISK";
      cc_apiURL := "https://blockscout.lisk.com/api";
      cc_browserURL := "https://blockscout.lisk.com" |};
   {| cc_network := "lisk-sepolia"; cc_chainId := CHAIN_IDs "LISK_SEPOLIA";
      cc_apiURL := "https://sepolia-blockscout.lisk.com/api";
      cc_browserURL := "https://sepolia-blockscout.lisk.com" |};
   {| cc_network := "redstone"; cc_chainId := CHAIN_IDs "REDSTONE";
      cc_apiURL := "https://explorer.redstone.xyz/api";
      cc_browserURL := "https://explorer.redstone.xyz" |};
   {| cc_network := "blast"; cc_chainId := CHAIN_IDs "BLAST";
      cc_apiURL := "https://api.blastscan.io/api";
      cc_browserURL := "https://blastscan.io" |};
   {| cc_network := "blast-sepolia"; cc_chainId := CHAIN_IDs "BLAST_SEPOLIA";
      cc_apiURL := "https://api-sepolia.blastscan.io/api";
      cc_browserURL := "https://sepolia.blastscan.io" |};
   {| cc_network := "worldchain"; cc_chainId := CHAIN_IDs "WORLD_CHAIN";
      cc_apiURL := "https://worldchain-mainnet.explorer.alchemy.com/api";
      cc_browserURL := "https://worldchain-mainnet.explorer.alchemy.com" |};
   {| cc_network := "zora"; cc_chainId := CHAIN_IDs "ZORA";
      cc_apiURL := "https://api.routescan.io/v2/network/mainnet/evm/7777777/etherscan";
      cc_browserURL := "https://zorascan.xyz" |}]%string.

Definition customChains : list custom_chain := customChains_to_arbitrum ++ customChains_from_mode.

Definition network_named (name : string) : option network :=
  snd <$> list_find (λ n, n_name n = name) networks.

(** [hre.companionNetworks.l1] of a network *)
Definition companion (n : network) : option network :=
  name ← n_companion_l1 n; network_named name.

(** The network with a chain id. *)
Definition network_of_chain (c : Z) : option network :=
  snd <$> list_find (λ n, n_chainId n = Some c) networks.
End Config.

(** ** The other settings *)

(** The custom tasks, loaded from [./tasks]. *)
Definition tasks : list string :=
  ["enableL1TokenAcrossEcosystem"; "finalizeScrollClaims"; "rescueStuckScrollTxn"; "verifySpokePool";
   "testChainAdapter"]%string.
Definition task_modules : list string := map (String.append "./tasks/") tasks.

(** [process.env.COMPILE_ZK === "true"], the [zksync] member of the hardhat
    network. *)
Definition compileZk (COMPILE_ZK : option string) : bool := bool_decide (COMPILE_ZK = Some "true"%string).
Definition uses_zksolc (COMPILE_ZK : option string) (n : network) : bool :=
  match n_zksync n with ZkAlways => true | ZkNever => false | ZkWhenCompiling => compileZk COMPILE_ZK end.

Record zksolc_settings := { zksolc_version : string; zksolc_optimizer : bool }.
Definition zksolc : zksolc_settings := {| zksolc_version := "latest"; zksolc_optimizer := true |}.

Record gas_reporter := { gr_enabled : bool; gr_currency : string }.
Definition gasReporter (REPORT_GAS : option string) : gas_reporter :=
  {| gr_enabled := bool_decide (is_Some REPORT_GAS); gr_currency := "USD" |}.

(** Account numbers of the mnemonic, and the output directories. *)
Definition namedAccounts : list (string * Z) := [("deployer", 0)]%string.
Record typechain_settings := { outDir : string; target : string }.
Definition typechain : typechain_settings := {| outDir := "./typechain"; target := "ethers-v5" |}.
Definition paths : list (string * string) := [("tests", "./test/evm/hardhat")]%string.

(** ** The compiler *)
Record compiler_settings := {
  cs_version : string;
  cs_optimizer_enabled : bool;
  cs_runs : Z;
  cs_viaIR : bool;
  cs_revertStrings : string
}.

Definition solcVersion : string := "0.8.23".

(** [process.env.IS_TEST === "true" || process.env.CI === "true"] *)
Definition is_test (IS_TEST CI : option string) : bool :=
  bool_decide (IS_TEST = Some "true"%string) || bool_decide (CI = Some "true"%string).

Section Compiler.
Context (isTest : bool).

Definition revert_strings : string := if isTest then "default" else "strip".

Definition LARGE_CONTRACT_COMPILER_SETTINGS : compiler_settings :=
  {| cs_version := solcVersion; cs_optimizer_enabled := true; cs_runs := 1000; cs_viaIR := true;
     cs_revertStrings := revert_strings |}.

Definition DEFAULT_CONTRACT_COMPILER_SETTINGS : compiler_settings :=
  {| cs_version := solcVersion; cs_optimizer_enabled := true; cs_runs := 1000000; cs_viaIR := true;
     cs_revertStrings := revert_strings |}.

(** [{ ...settings, version }] *)
Definition with_version (c : compiler_settings) (version : string) : compiler_settings :=
  {| cs_version := version; cs_optimizer_enabled := cs_optimizer_enabled c; cs_runs := cs_runs c;
     cs_viaIR := cs_viaIR c; cs_revertStrings := cs_revertStrings c |}.

Definition compiler_overrides : list (string * compiler_settings) :=
  [("contracts/HubPool.sol", LARGE_CONTRACT_COMPILER_SETTINGS);
   ("contracts/Arbitrum_SpokePool.sol", with_version DEFAULT_CONTRACT_COMPILER_SETTINGS "0.8.19");
   ("contracts/Linea_SpokePool.sol", with_version DEFAULT_CONTRACT_COMPILER_SETTINGS "0.8.19");
   ("contracts/SpokePoolVerifier.sol", with_version DEFAULT_CONTRACT_COMPILER_SETTINGS "0.8.19");
   ("contracts/Blast_SpokePool.sol", LARGE_CONTRACT_COMPILER_SETTINGS);
   ("contracts/Lisk_SpokePool.sol", LARGE_CONTRACT_COMPILER_SETTINGS);
   ("contracts/Redstone_SpokePool.sol", LARGE_CONTRACT_COMPILER_SETTINGS);
   ("contracts/Zora_SpokePool.sol", LARGE_CONTRACT_COMPILER_SETTINGS);
   ("contracts/Mode_SpokePool.sol", LARGE_CONTRACT_COMPILER_SETTINGS);
   ("contracts/Base_SpokePool.sol", LARGE_CONTRACT_COMPILER_SETTINGS);
   ("contracts/Optimism_SpokePool.sol", LARGE_CONTRACT_COMPILER_SETTINGS);
   ("contracts/WorldChain_SpokePool.sol", LARGE_CONTRACT_COMPILER_SETTINGS)]%string.

(** The settings a file is compiled with. *)
Definition compiler_of (file : string) : compiler_settings :=
  default DEFAULT_CONTRACT_COMPILER_SETTINGS (js_lookup compiler_overrides file).
End Compiler.

(** * Properties *)

Definition companion_chain `{AcrossConstants} (n : network) : option Z :=
  m ← companion n; n_chainId m.

Lemma networks_eval C : @networks C = @networks sample_constants.
Proof. unfold networks, networks_to_base, networks_from_linea. chain_ids. reflexivity. Qed.

Lemma companion_eval C n : @companion C n = @companion sample_constants n.
Proof. unfold companion, network_named. by rewrite networks_eval. Qed.

Lemma companion_chain_eval C n : @companion_chain C n = @companion_chain sample_constants n.
Proof. unfold companion_chain. by rewrite companion_eval. Qed.

Lemma network_of_chain_eval C c : @network_of_chain C c = @network_of_chain sample_constants c.
Proof. unfold network_of_chain. by rewrite networks_eval. Qed.

(** The chain of the companion of the network with a chain id. *)
Definition hub_of_chain `{AcrossConstants} (c : Z) : option Z :=
  n ← network_of_chain c; companion_chain n.

Lemma hub_of_chain_eval C c v : @hub_of_chain sample_constants c = v → @hub_of_chain C c = v.
Proof.
  intros <-. unfold hub_of_chain. rewrite network_of_chain_eval.
  destruct (@network_of_chain sample_constants c) as [n|]; cbn; [|done].
  by rewrite companion_chain_eval.
Qed.

(** The deployment scripts run on configured networks: for each script and
    network of the conformance tables, hardhat.config.ts has a network with that
    chain id whose L1 companion is the hub chain the table assumes. *)
Theorem rows_configured `{AcrossConstants} (ds : DeploymentExport) :
  Forall (λ r, hub_of_chain (CHAIN_IDs (r_network r)) = Some (CHAIN_IDs (r_hub r)))
    (adapter_rows ds ++ spoke_rows ds).
Proof.
  unfold adapter_rows, spoke_rows, row_of_script, spoke_row. cbn [app].
  repeat (apply Forall_cons; split; [cbn [r_network r_hub]; chain_ids;
    apply hub_of_chain_eval; vm_compute; reflexivity|]).
  apply Forall_nil; exact I.
Qed.

(** Every file is compiled through the IR with the optimizer, with 0.8.19 exactly
    when it is the Arbitrum or the Linea spoke pool or the verifier deployed
    there, and with its revert strings outside tests and CI never kept. *)
Theorem compiler_settings_exact (isTest : bool) (file : string) :
  let c := compiler_of isTest file in
  cs_optimizer_enabled c = true ∧ cs_viaIR c = true ∧
  (cs_version c = "0.8.19"%string ↔
     file ∈ ["contracts/Arbitrum_SpokePool.sol"; "contracts/Linea_SpokePool.sol"; "contracts/SpokePoolVerifier.sol"]%string) ∧
  (cs_version c ≠ "0.8.19"%string → cs_version c = solcVersion) ∧
  (cs_revertStrings c = "strip"%string ↔ isTest = false).
Proof.
  cbv zeta. unfold compiler_of.
  destruct (js_lookup (compiler_overrides isTest) file) as [c|] eqn:Hc; cbn [from_option id].
  - apply js_lookup_Some_in in Hc. unfold compiler_overrides in Hc.
    repeat (apply elem_of_cons in Hc as [[= -> ->]|Hc]); [..|by apply not_elem_of_nil in Hc];
      split_and!; try reflexivity; try (by destruct isTest);
      try (split; intros Hx; [apply (bool_decide_unpack _)|]; try discriminate Hx; vm_compute; try reflexivity;
           apply (bool_decide_pack _) in Hx; vm_compute in Hx; by destruct Hx).
  - apply js_lookup_None in Hc. split_and!; try reflexivity; [|by destruct isTest].
    split; [done|]. intros Hin. destruct Hc. unfold js_keys, compiler_overrides. cbn [map fst].
    repeat (apply elem_of_cons in Hin as [->|Hin]); [..|by apply not_elem_of_nil in Hin];
      apply (bool_decide_unpack _); vm_compute; exact I.
Qed.

(** Only the zkSync network is always compiled with zksolc, the in-process
    network when COMPILE_ZK asks for it, and no other. *)
Theorem zksolc_networks `{AcrossConstants} (COMPILE_ZK : option string) :
  map n_name (filter (λ n, uses_zksolc COMPILE_ZK n = true) networks) =
    (if compileZk COMPILE_ZK then ["hardhat"; "zksync"] else ["zksync"])%string.
Proof.
  unfold uses_zksolc. destruct (compileZk COMPILE_ZK); reflexivity.
Qed.
