(* ===== verification/HubPoolAdmin.v ===== *)
(** * HubPool.sol: the admin functions the token task calls

    The part of [contracts/HubPool.sol] (and of [contracts/SpokePool.sol] on
    the receiving side) that the calldata built by
    [tasks/enableL1TokenAcrossEcosystem.ts] exercises.  The multicall itself is
    a library's ([Interfaces.MultiCaller]). *)

From stdpp Require Import base gmap strings list.
From Stdlib Require Import ZArith Strings.Byte Lia.
From S2P Require Import Prelude JsText Interfaces.

Definition zero_address : string := "0x0000000000000000000000000000000000000000".

(** Calls encoded for a spoke pool. *)
Inductive spoke_call :=
| SetEnableRoute (originToken : string) (destinationChainId : Z) (enabled : bool)
| WhitelistToken (l2Token l1Token : string)
| SetTokenBridge (l2Token tokenBridge : string)
| UpgradeTo (newImplementation : string)
| RawData (data : list Byte.byte).   (* not a call: what an adapter decodes itself *)

#[export] Instance spoke_call_eq_dec : EqDecision spoke_call.
Proof. solve_decision. Defined.

(** Calls encoded for the hub pool. *)
Inductive hub_call :=
| EnableL1TokenForLiquidityProvision (l1Token : string)
| SetDepositRoute (originChainId destinationChainId : Z) (originToken : string) (depositsEnabled : bool)
| SetPoolRebalanceRoute (destinationChainId : Z) (l1Token destinationToken : string)
| RelaySpokePoolAdminFunction (chainId : Z) (functionData : spoke_call).

#[export] Instance hub_call_eq_dec : EqDecision hub_call.
Proof. solve_decision. Defined.

Record PooledToken := { lpToken : string; isEnabled : bool; lastLpFeeUpdate : Z }.
Record CrossChainContract := { adapter : string; spokePool : string }.

Record hub_state := {
  owner : string;
  pooledTokens : gmap string PooledToken;
  crossChainContracts : gmap Z CrossChainContract;
  poolRebalanceRoutes : gmap (string * Z) string;   (* keyed by the hash of the pair *)
  relayed : list (Z * spoke_call)                   (* messages handed to the adapters *)
}.

Definition revert (msg : string) : js_error := JsError msg.

Section Hub.
(** [lpTokenFactory.createLpToken], [getCurrentTime()], and whether the
    adapter is a contract whose [relayMessage] succeeds. *)
Context (createLpToken : string → string) (now : Z) (isContract : string → bool)
  (relayMessage : string → string → spoke_call → bool).

Definition only_owner {A} (sender : string) (s : hub_state) (k : result A) : result A :=
  if bool_decide (sender = owner s) then k else Err (revert "Ownable: caller is not the owner").

Definition with_relayed (s : hub_state) (m : Z * spoke_call) : hub_state :=
  {| owner := owner s; pooledTokens := pooledTokens s;
     crossChainContracts := crossChainContracts s; poolRebalanceRoutes := poolRebalanceRoutes s;
     relayed := relayed s ++ [m] |}.

Definition _getInitializedCrossChainContracts (s : hub_state) (chainId : Z)
  : result (string * string) :=
  let c := default {| adapter := zero_address; spokePool := zero_address |}
             (crossChainContracts s !! chainId) in
  if bool_decide (spokePool c = zero_address) then Err (revert "SpokePool not initialized")
  else if isContract (adapter c) then Ok (adapter c, spokePool c)
  else Err (revert "Adapter not initialized").

Definition _relaySpokePoolAdminFunction (s : hub_state) (chainId : Z) (functionData : spoke_call)
  : result hub_state :=
  let? contracts := _getInitializedCrossChainContracts s chainId in
  if relayMessage (fst contracts) (snd contracts) functionData
  then Ok (with_relayed s (chainId, functionData))
  else Err (revert "delegatecall failed").

Definition setPoolRebalanceRoute (s : hub_state) (chain : Z) (l1Token destinationToken : string)
  : hub_state :=
  {| owner := owner s; pooledTokens := pooledTokens s;
     crossChainContracts := crossChainContracts s;
     poolRebalanceRoutes := <[(l1Token, chain) := destinationToken]> (poolRebalanceRoutes s);
     relayed := relayed s |}.

Definition enableL1TokenForLiquidityProvision (s : hub_state) (l1Token : string) : hub_state :=
  let old := default {| lpToken := zero_address; isEnabled := false; lastLpFeeUpdate := 0 |}
               (pooledTokens s !! l1Token) in
  let new :=
    if bool_decide (lpToken old = zero_address)
    then {| lpToken := createLpToken l1Token; isEnabled := true;
            lastLpFeeUpdate := now mod 2 ^ 32 |}
    else {| lpToken := lpToken old; isEnabled := true; lastLpFeeUpdate := lastLpFeeUpdate old |} in
  {| owner := owner s; pooledTokens := <[l1Token := new]> (pooledTokens s);
     crossChainContracts := crossChainContracts s; poolRebalanceRoutes := poolRebalanceRoutes s;
     relayed := relayed s |}.

Definition hub_exec (sender : string) (s : hub_state) (c : hub_call) : result hub_state :=
  only_owner sender s
    match c with
    | EnableL1TokenForLiquidityProvision l1Token => Ok (enableL1TokenForLiquidityProvision s l1Token)
    | SetDepositRoute from to token enabled =>
        _relaySpokePoolAdminFunction s from (SetEnableRoute token to enabled)
    | SetPoolRebalanceRoute chain l1Token token => Ok (setPoolRebalanceRoute s chain l1Token token)
    | RelaySpokePoolAdminFunction chain data => _relaySpokePoolAdminFunction s chain data
    end.

(** [multicall] on the hub pool's calls. *)
Definition multicall `{MultiCaller} (sender : string) (s : hub_state) (data : list hub_call)
  : result hub_state :=
  multicall_of (hub_exec sender) s data.

(** ** What a multicall leaves behind *)

(** The message a call hands to an adapter. *)
Definition message_of (c : hub_call) : option (Z * spoke_call) :=
  match c with
  | SetDepositRoute from to token enabled => Some (from, SetEnableRoute token to enabled)
  | RelaySpokePoolAdminFunction chain data => Some (chain, data)
  | _ => None
  end.

Lemma relay_ok s chain data s' :
  _relaySpokePoolAdminFunction s chain data = Ok s' → s' = with_relayed s (chain, data).
Proof.
  unfold _relaySpokePoolAdminFunction.
  destruct (_getInitializedCrossChainContracts s chain) as [cs|]; cbn; [|done].
  case_match; [|done]. by intros [= <-].
Qed.

(** The four shapes of a successful call. *)
Lemma hub_exec_ok sender s c s' : hub_exec sender s c = Ok s' →
  s' = match c with
       | EnableL1TokenForLiquidityProvision l1Token => enableL1TokenForLiquidityProvision s l1Token
       | SetDepositRoute from to token enabled => with_relayed s (from, SetEnableRoute token to enabled)
       | SetPoolRebalanceRoute chain l1Token token => setPoolRebalanceRoute s chain l1Token token
       | RelaySpokePoolAdminFunction chain data => with_relayed s (chain, data)
       end.
Proof.
  unfold hub_exec, only_owner. case_bool_decide; [|done].
  destruct c; try apply relay_ok; by intros [= <-].
Qed.

Lemma hub_exec_relayed sender s c s' :
  hub_exec sender s c = Ok s' → relayed s' = relayed s ++ option_list (message_of c).
Proof. intros ->%hub_exec_ok. destruct c; cbn; by rewrite ?app_nil_r. Qed.

Lemma multicall_relayed `{MultiCaller} sender s data s' :
  multicall sender s data = Ok s' → relayed s' = relayed s ++ omap message_of data.
Proof.
  unfold multicall. rewrite multicall_in_order.
  revert s. induction data as [|c data IH]; cbn; intros s Hs.
  - injection Hs as ->. by rewrite app_nil_r.
  - destruct (hub_exec sender s c) as [s1|] eqn:Hc; [|done]. cbn in Hs.
    rewrite (IH _ Hs), (hub_exec_relayed _ _ _ _ Hc), <- app_assoc.
    by destruct (message_of c).
Qed.

Definition rebalance_of (c : hub_call) : option ((string * Z) * string) :=
  match c with SetPoolRebalanceRoute chain l1Token token => Some ((l1Token, chain), token) | _ => None end.

(** Later calls override earlier ones. *)
Definition set_routes (m : gmap (string * Z) string) (l : list ((string * Z) * string)) :=
  foldl (λ m kv, <[kv.1 := kv.2]> m) m l.

Lemma multicall_rebalance `{MultiCaller} sender s data s' :
  multicall sender s data = Ok s' →
  poolRebalanceRoutes s' = set_routes (poolRebalanceRoutes s) (omap rebalance_of data).
Proof.
  unfold multicall. rewrite multicall_in_order.
  revert s. induction data as [|c data IH]; cbn; intros s Hs; [by injection Hs as ->|].
  destruct (hub_exec sender s c) as [s1|] eqn:Hc; [|done]. cbn in Hs. rewrite (IH _ Hs).
  apply hub_exec_ok in Hc as ->. by destruct c.
Qed.

Lemma set_routes_lookup m l k v :
  NoDup (map fst l) → (k, v) ∈ l → set_routes m l !! k = Some v.
Proof.
  unfold set_routes. revert m. induction l as [|[k' v'] l IH]; cbn; intros m Hnd Hin;
    [by apply not_elem_of_nil in Hin|].
  apply NoDup_cons in Hnd as [Hk Hnd]. apply elem_of_cons in Hin as [[= -> ->]|Hin]; [|by apply IH].
  clear IH Hnd. cbn in *. revert m. induction l as [|[k2 v2] l IH]; cbn; intros m.
  - by rewrite lookup_insert_eq.
  - cbn in Hk. apply not_elem_of_cons in Hk as [Hne Hk].
    rewrite insert_insert_ne by done. by apply IH.
Qed.

Lemma set_routes_frame m l k : k ∉ map fst l → set_routes m l !! k = m !! k.
Proof.
  unfold set_routes. revert m. induction l as [|[k' v] l IH]; cbn; intros m Hk; [done|].
  apply not_elem_of_cons in Hk as [Hne Hk]. rewrite IH by done. by apply lookup_insert_ne.
Qed.

Definition enabled_of (c : hub_call) : option string :=
  match c with EnableL1TokenForLiquidityProvision t => Some t | _ => None end.

Definition token_enabled (s : hub_state) (t : string) : bool :=
  match pooledTokens s !! t with Some p => isEnabled p | None => false end.

Lemma multicall_enabled `{MultiCaller} sender s data s' t :
  multicall sender s data = Ok s' →
  token_enabled s' t = bool_decide (t ∈ omap enabled_of data) || token_enabled s t.
Proof.
  unfold multicall. rewrite multicall_in_order.
  revert s. induction data as [|c data IH]; cbn; intros s Hs.
  - injection Hs as ->. by rewrite bool_decide_eq_false_2 by apply not_elem_of_nil.
  - destruct (hub_exec sender s c) as [s1|] eqn:Hc; [|done]. cbn in Hs. rewrite (IH _ Hs).
    apply hub_exec_ok in Hc as ->. destruct c as [t'| | |]; cbn [omap list_omap enabled_of]; try done.
    unfold token_enabled at 1. cbn. destruct (decide (t' = t)) as [->|Hne].
    + rewrite lookup_insert_eq. rewrite (bool_decide_eq_true_2 (t ∈ t :: _)) by by left.
      rewrite orb_comm. match goal with |- context [if ?b then _ else _] => destruct b end; reflexivity.
    + rewrite lookup_insert_ne by done. fold (token_enabled s t). f_equal.
      apply bool_decide_ext. rewrite elem_of_cons. split; [by right|]. by intros [?|?].
Qed.
End Hub.

(** ** The receiving spoke pools *)

(** [enabledDepositRoutes[originToken][destinationChainId]] of each chain. *)
Abbreviation spoke_routes := (gmap (Z * string * Z) bool).

Section Delivery.
(** The owner of the spoke pool of each chain and the account the hub pool's
    messages arrive from there: [setEnableRoute] is [onlyOwner], and a message
    that reverts changes nothing. *)
Context (spoke_owner message_sender : Z → string).

Definition obeys (chain : Z) : bool := bool_decide (message_sender chain = spoke_owner chain).

Definition deliver (r : spoke_routes) (m : Z * spoke_call) : spoke_routes :=
  match m with
  | (chain, SetEnableRoute token destination enabled) =>
      if obeys chain then <[(chain, token, destination) := enabled]> r else r
  | _ => r
  end.

Definition deliver_all (r : spoke_routes) (ms : list (Z * spoke_call)) : spoke_routes :=
  foldl deliver r ms.

Lemma deliver_all_enabled r ms k :
  Forall (λ m, match m.2 with SetEnableRoute _ _ e => e = true | _ => True end) ms →
  deliver_all r ms !! k =
    if decide (obeys k.1.1 = true ∧ (k.1.1, SetEnableRoute k.1.2 k.2 true) ∈ ms) then Some true else r !! k.
Proof.
  unfold deliver_all. revert r. induction ms as [|[c sc] ms IH]; intros r Hall; cbn [foldl].
  - rewrite decide_False; [done|]. by intros [_ ?%not_elem_of_nil].
  - apply Forall_cons in Hall as [Hm Hall]. rewrite IH by done.
    destruct (decide (_ ∧ _ ∈ ms)) as [[Ho Hin]|Hout].
    + by rewrite decide_True by (split; [done|by right]).
    + destruct sc as [t d e| | | |]; cbn in *;
        try (rewrite decide_False; [done|]; intros [? [[=]|?]%elem_of_cons]; by apply Hout).
      subst e. destruct (obeys c) eqn:Hc; [destruct (decide (k = (c, t, d))) as [->|Hne]|]; cbn in *.
      * rewrite lookup_insert_eq, decide_True; [done|split; [done|by left]].
      * rewrite lookup_insert_ne by done. rewrite decide_False; [done|].
        intros [? [[= H1 H2 H3]|?]%elem_of_cons]; [|by apply Hout].
        apply Hne. destruct k as [[? ?] ?]; cbn in *; congruence.
      * rewrite decide_False; [done|].
        intros [? [[= H1 H2 H3]|?]%elem_of_cons]; [|by apply Hout]. congruence.
Qed.
End Delivery.
