(* ===== verification/EnableToken.v ===== *)
(** * tasks/enableL1TokenAcrossEcosystem.ts

    The task that builds (and optionally sends) the multicall enabling a token
    on every supported chain: deposit routes between the chains, rebalance
    routes from the hub, and the liquidity token.  The effect of the calldata
    is stated on the hub pool of [HubPoolAdmin]. *)

From stdpp Require Import base gmap strings list.
From Stdlib Require Import ZArith Ascii Lia.
From S2P Require Import Prelude JsText Interfaces Consts HubPoolAdmin.

(** ** Lists given on the command line *)

(** [l.split(",")]: at least one piece. *)
Fixpoint split_chars (l : list ascii) : list (list ascii) :=
  match l with
  | [] => [[]]
  | a :: l' =>
      if (a =? ",")%char then [] :: split_chars l'
      else match split_chars l' with
           | piece :: rest => (a :: piece) :: rest
           | [] => [[a]]
           end
  end.

Definition split_commas (s : string) : list string := map text (split_chars (chars s)).

Definition remove_spaces (s : string) : string := text (filter (λ a, is_space a = false) (chars s)).

Definition getChainsFromList (taskArgInput : option string) : list chain_key :=
  match taskArgInput with
  | None => []
  | Some s => map js_Number (split_commas (remove_spaces s))
  end.

(** ** tasks/utils.ts: the yes/no question *)
Inductive question :=
| HasSetConfigStore        (* "Have you setup the ConfigStore for this token?" *)
| AddressesMatch.          (* "Do these token addresses match your expectations?" *)

Inductive enableE : Type → Type :=
| TaskChainId : enableE string
| AskQuestion (query : question) : enableE string
| TaskHubPool : enableE string
| GetSigners : enableE unit
| LogCallData (callData : list hub_call) : enableE unit
| SendMulticall (callData : list hub_call) : enableE string.

(** [askYesNoQuestion] over the service that asks; [fuel] bounds the number of
    unusable answers. *)
Fixpoint askYesNo {E} (askQuestion : prog E string) (fuel : nat) : prog E bool :=
  match fuel with
  | O => Throw (JsError "out of fuel")
  | S fuel' =>
      let! ans := askQuestion in
      if bool_decide (to_lower ans = "y"%string) then Ret true
      else if bool_decide (to_lower ans = "n"%string) then Ret false
      else askYesNo askQuestion fuel'
  end.

Definition askYesNoQuestion (fuel : nat) (query : question) : prog enableE bool :=
  askYesNo (call (AskQuestion query)) fuel.

Record task_arguments := {
  a_execute : bool;
  a_token : string;
  a_chains : option string;
  a_customoptimismbridge : option string;
  a_depositroutechains : option string
}.

Section Task.
Context `{AcrossConstants}.
(** [Object.keys(TOKEN_SYMBOLS_MAP)] and [Object.values(MAINNET_CHAIN_IDs)] *)
Context (token_symbols : list string) (MAINNET_CHAIN_IDs : list Z).

Definition isTokenSymbol (symbol : string) : bool := bool_decide (symbol ∈ token_symbols).

Definition AssertionError (msg : string) : js_error := JsError msg.

(** An empty address would be falsy; the package's are not empty. *)
Definition resolveTokenOnChain (mainnetSymbol : string) (chainId : Z)
  : result (option (string * string)) :=
  if isTokenSymbol mainnetSymbol then
    let found symbol := address ← TOKEN_SYMBOLS_MAP symbol chainId; Some (symbol, address) in
    if bool_decide (mainnetSymbol = "USDC"%string) then
      let symbols := filter (λ s, isTokenSymbol s = true) ["USDC"; "USDC.e"; "USDbC"; "USDzC"]%string in
      match list_find (λ s, is_Some (TOKEN_SYMBOLS_MAP s chainId)) symbols with
      | None => Ok None
      | Some (_, tokenSymbol) => Ok (found tokenSymbol)
      end
    else if bool_decide (mainnetSymbol = "DAI"%string) && (chainId =? CHAIN_IDs "BLAST")
    then Ok (found "USDB"%string)
    else Ok (found mainnetSymbol)
  else Err (AssertionError ("Unrecognised token symbol (" +:+ mainnetSymbol +:+ ")")).

Definition NO_SYMBOL : string := "----".
Definition NO_ADDRESS : string := "------------------------------------------".

(** [.sort((x, y) => x - y)] *)
Fixpoint insert_sorted (x : Z) (l : list Z) : list Z :=
  match l with
  | [] => [x]
  | y :: l' => if x <=? y then x :: l else y :: insert_sorted x l'
  end.
Definition sort_ids (l : list Z) : list Z := foldr insert_sorted [] l.

Definition enabledChainIds : list Z :=
  sort_ids (filter (λ c, c ≠ CHAIN_IDs "BOBA") MAINNET_CHAIN_IDs).

(** [inputChains], or the error for a list that is not one of chain ids. *)
Definition parse_chains (chains : option string) : result (list Z) :=
  match chains with
  | None => Ok enabledChainIds
  | Some s =>
      let parsed := map js_Number (split_commas s) in
      let invalid c := match c with Some n => n <? 0 | None => true end in
      if existsb invalid parsed then Err (JsError "Invalid chains list")
      else Ok (omap id parsed)
  end.

Definition token_table : Type := list (Z * (string * string)).

Fixpoint token_entries (symbol : string) (chainIds : list Z) : result token_table :=
  match chainIds with
  | [] => Ok []
  | c :: cs =>
      let? t := resolveTokenOnChain symbol c in
      let? rest := token_entries symbol cs in
      Ok ((c, default (NO_SYMBOL, NO_ADDRESS) t) :: rest)
  end.

(** [Object.fromEntries(...)]; integer keys are listed in ascending order,
    which is the order of [chainIds]. *)
Definition from_entries (l : token_table) : token_table :=
  foldl (λ m e, js_set m e.1 e.2) [] l.

(** [interface.encodeFunctionData] refuses what is not an address. *)
Definition call_addresses (c : hub_call) : list string :=
  match c with
  | EnableL1TokenForLiquidityProvision t => [t]
  | SetDepositRoute _ _ t _ => [t]
  | SetPoolRebalanceRoute _ l1Token t => [l1Token; t]
  | RelaySpokePoolAdminFunction _ (WhitelistToken a b) => [a; b]
  | RelaySpokePoolAdminFunction _ (SetTokenBridge a b) => [a; b]
  | RelaySpokePoolAdminFunction _ (SetEnableRoute t _ _) => [t]
  | RelaySpokePoolAdminFunction _ (UpgradeTo a) => [a]
  | RelaySpokePoolAdminFunction _ (RawData _) => []
  end.

Definition encodeFunctionData (c : hub_call) : result hub_call :=
  if forallb is_address (call_addresses c) then Ok c else Err (JsError "invalid address").

Fixpoint encode_all (l : list hub_call) : result (list hub_call) :=
  match l with
  | [] => Ok []
  | c :: l' => let? d := encodeFunctionData c in let? ds := encode_all l' in Ok (d :: ds)
  end.

Section CallData.
Context (l1Token : string) (tokens : token_table) (chainIds : list Z).
Context (depositRouteChains : list chain_key).

Definition has_symbol (c : Z) : bool :=
  match js_lookup tokens c with Some (s, _) => negb (bool_decide (s = NO_SYMBOL)) | None => false end.
Definition address_on (c : Z) : string :=
  match js_lookup tokens c with Some (_, a) => a | None => "" end.

Definition no_list : bool := match depositRouteChains with [] => true | _ => false end.
Definition on_list (c : Z) : bool := bool_decide (Some c ∈ depositRouteChains).

(** The assertions over the listed chains: an unknown chain is a [TypeError]. *)
Fixpoint check_listed (l : list chain_key) : result unit :=
  match l with
  | [] => Ok tt
  | c :: l' =>
      let? entry := from_option_err TypeError (c' ← c; js_lookup tokens c') in
      if bool_decide (entry.1 = NO_SYMBOL)
      then Err (AssertionError "Token is not defined for chain")
      else check_listed l'
  end.

Definition liquidity_calls : result (list hub_call) :=
  if no_list then encode_all [EnableL1TokenForLiquidityProvision l1Token]
  else let? _ := check_listed depositRouteChains in Ok [].

Definition route_wanted (fromId toId : Z) : bool :=
  negb (fromId =? toId) && has_symbol fromId && has_symbol toId &&
  (no_list || on_list toId || on_list fromId).

Definition deposit_route_list : list hub_call :=
  concat (map (λ fromId,
    concat (map (λ toId,
      if route_wanted fromId toId
      then [SetDepositRoute fromId toId (address_on fromId) true] else [])
      (js_keys tokens))) (js_keys tokens)).

Definition rebalance_wanted (toId : Z) : bool :=
  negb (bool_decide (address_on toId = NO_ADDRESS)) && (no_list || on_list toId).

Definition rebalance_route_list : list hub_call :=
  concat (map (λ toId,
    if rebalance_wanted toId
    then [SetPoolRebalanceRoute toId l1Token (address_on toId)] else []) chainIds).

Definition arbitrum_list : list hub_call :=
  if on_list (CHAIN_IDs "ARBITRUM")
  then [RelaySpokePoolAdminFunction (CHAIN_IDs "ARBITRUM")
          (WhitelistToken (address_on (CHAIN_IDs "ARBITRUM")) l1Token)]
  else [].

Definition optimism_list (customoptimismbridge : option string) : list hub_call :=
  match customoptimismbridge with
  | Some bridge =>
      if on_list (CHAIN_IDs "OPTIMISM") && negb (bool_decide (bridge = ""%string))
      then [RelaySpokePoolAdminFunction (CHAIN_IDs "OPTIMISM")
              (SetTokenBridge (address_on (CHAIN_IDs "OPTIMISM")) bridge)]
      else []
  | None => []
  end.

(** The calls in the order they are pushed. *)
Definition build_callData (customoptimismbridge : option string) : result (list hub_call) :=
  let? liquidity := liquidity_calls in
  let? rest := encode_all (deposit_route_list ++ rebalance_route_list ++ arbitrum_list ++
                           optimism_list customoptimismbridge) in
  Ok (liquidity ++ rest).
End CallData.

(** [fuel] bounds the unusable answers to each question. *)
(** What the task does with the calldata it has built. *)
Definition report_and_send (args : task_arguments) (callData : list hub_call) : prog enableE unit :=
  call (LogCallData callData) ;;
  (if a_execute args && negb (bool_decide (callData = [])) then
     let! hash := call (SendMulticall callData) in Ret tt
   else Ret tt).

Definition enable_l1_token (fuel : nat) (args : task_arguments) : prog enableE unit :=
  let symbol := a_token args in
  let! id := call TaskChainId in
  let hubChainId := parseInt id in
  if bool_decide (hubChainId = Some 31337)
  then Throw (JsError "Defaulted to network `hardhat`")
  else if negb (isTokenSymbol symbol) then Throw (AssertionError "not a token symbol")
  else
  match (c ← hubChainId; TOKEN_SYMBOLS_MAP symbol c) with
  | None => Throw (AssertionError ("Could not find " +:+ symbol +:+ " in TOKEN_SYMBOLS_MAP"))
  | Some l1Token =>
      let depositRouteChains := getChainsFromList (a_depositroutechains args) in
      let! hasSetConfigStore := askYesNoQuestion fuel HasSetConfigStore in
      if negb hasSetConfigStore then Throw (ProcessExit 0)
      else
      call GetSigners ;;
      let! inputChains := lift (parse_chains (a_chains args)) in
      let inputChains := match inputChains with [] => enabledChainIds | _ => inputChains end in
      let chainIds := filter (λ c, c ∈ inputChains) enabledChainIds in
      let! entries := lift (token_entries symbol chainIds) in
      let tokens := from_entries entries in
      let! confirmed := askYesNoQuestion fuel AddressesMatch in
      if negb confirmed then Throw (ProcessExit 0)
      else
      let! hubPool := call TaskHubPool in
      let! callData := lift (build_callData l1Token tokens chainIds depositRouteChains
                               (a_customoptimismbridge args)) in
      report_and_send args callData
  end.

(** ** Lemmas *)

Lemma sort_ids_perm l : sort_ids l ≡ₚ l.
Proof.
  unfold sort_ids. induction l as [|x l IH]; [done|]. cbn [foldr]. etrans; [|by rewrite <- IH].
  generalize (foldr insert_sorted [] l). clear. intros l. induction l as [|y l IH]; cbn; [done|].
  case_match; [done|]. rewrite IH. apply Permutation_swap.
Qed.

Lemma enabledChainIds_NoDup : NoDup MAINNET_CHAIN_IDs → NoDup enabledChainIds.
Proof. intros. unfold enabledChainIds. rewrite sort_ids_perm. by apply NoDup_filter. Qed.

Lemma encode_all_ok l l' : encode_all l = Ok l' → l' = l.
Proof.
  revert l'. induction l as [|c l IH]; cbn; intros l'; [by intros [= <-]|].
  unfold encodeFunctionData. case_match; [|done]. cbn.
  destruct (encode_all l) as [ds|]; [|done]. cbn. intros [= <-]. by rewrite (IH ds).
Qed.

(** A successful construction is the five groups of calls, one after another. *)
Lemma build_callData_ok l1Token tokens chainIds l bridge data :
  build_callData l1Token tokens chainIds l bridge = Ok data →
  data = (if no_list l then [EnableL1TokenForLiquidityProvision l1Token] else []) ++
         deposit_route_list tokens l ++ rebalance_route_list l1Token tokens chainIds l ++
         arbitrum_list l1Token tokens l ++ optimism_list tokens l bridge
  ∧ (no_list l = false → check_listed tokens l = Ok tt).
Proof.
  unfold build_callData, liquidity_calls. destruct (no_list l).
  - destruct (encode_all [_]) eqn:He; [|done]. apply encode_all_ok in He as ->. cbn [result_bind].
    destruct (encode_all (_ ++ _)) eqn:Hr; [|done]. apply encode_all_ok in Hr as ->.
    by intros [= <-].
  - destruct (check_listed tokens l) as [[]|]; [|done]. cbn [result_bind].
    destruct (encode_all (_ ++ _)) eqn:Hr; [|done]. apply encode_all_ok in Hr as ->.
    by intros [= <-].
Qed.

Lemma js_set_fresh {V} (m : list (Z * V)) k v : k ∉ js_keys m → js_set m k v = m ++ [(k, v)].
Proof.
  induction m as [|[k' w] m IH]; cbn; [done|]. intros [Hne Hk]%not_elem_of_cons.
  rewrite decide_False by done. by rewrite IH.
Qed.

(** Distinct keys: the object lists the entries. *)
Lemma from_entries_id l : NoDup (map fst l) → from_entries l = l.
Proof.
  unfold from_entries. intros Hnd.
  assert (∀ m, NoDup (map fst (m ++ l)) → foldl (λ m e, js_set m e.1 e.2) m l = m ++ l) as Hgen.
  { clear Hnd. induction l as [|[k v] l IH]; cbn; intros m Hm; [by rewrite app_nil_r|].
    rewrite js_set_fresh.
    - rewrite IH; rewrite <- app_assoc; done.
    - rewrite map_app in Hm. apply NoDup_app in Hm as (_ & Hm & _). intros Hin.
      apply (Hm k Hin). by left. }
  apply (Hgen []), Hnd.
Qed.

(** The symbol and address the task uses on a chain, and the address alone. *)
Definition resolved (symbol : string) (c : Z) : option (string * string) :=
  match resolveTokenOnChain symbol c with Ok t => t | Err _ => None end.
Definition token_on (symbol : string) (c : Z) : option string := snd <$> resolved symbol c.

Lemma resolved_wf symbol c s a : symbol ≠ NO_SYMBOL →
  resolved symbol c = Some (s, a) → s ≠ NO_SYMBOL ∧ is_address a = true.
Proof.
  intros Hsym. unfold resolved, resolveTokenOnChain. destruct (isTokenSymbol symbol); [|done].
  assert (∀ s', s' ≠ NO_SYMBOL →
    (address ← TOKEN_SYMBOLS_MAP s' c; Some (s', address)) = Some (s, a) →
    s ≠ NO_SYMBOL ∧ is_address a = true) as Hfound.
  { intros s' Hs'. destruct (TOKEN_SYMBOLS_MAP s' c) eqn:Ht; cbn; [|done].
    intros [= <- <-]. split; [done|]. exact (TOKEN_SYMBOLS_MAP_address _ _ _ Ht). }
  case_bool_decide.
  - destruct (list_find _ _) as [[i s']|] eqn:Hf. 2: done. apply Hfound.
    apply list_find_Some in Hf as (Hf & _). apply list_elem_of_lookup_2, list_elem_of_filter in Hf as [_ Hf].
    intros ->. rewrite !elem_of_cons in Hf. by destruct Hf as [?|[?|[?|[?|?%not_elem_of_nil]]]].
  - destruct (_ && _); by apply Hfound.
Qed.

Lemma token_entries_ok symbol chainIds entries :
  token_entries symbol chainIds = Ok entries →
  entries = map (λ c, (c, default (NO_SYMBOL, NO_ADDRESS) (resolved symbol c))) chainIds.
Proof.
  revert entries. induction chainIds as [|c cs IH]; cbn; intros entries; [by intros [= <-]|].
  unfold resolved at 1. destruct (resolveTokenOnChain symbol c) as [t|]; [|done]. cbn.
  destruct (token_entries symbol cs) as [rest|]; [|done]. cbn. intros [= <-]. by rewrite (IH rest).
Qed.

Section Table.
Context (symbol : string) (chainIds : list Z) (tokens : token_table).
Context (Hsym : symbol ≠ NO_SYMBOL) (Hnd : NoDup chainIds)
  (Htok : (from_entries <$> (match token_entries symbol chainIds with Ok e => Some e | Err _ => None end))
          = Some tokens).

Lemma table_eq :
  tokens = map (λ c, (c, default (NO_SYMBOL, NO_ADDRESS) (resolved symbol c))) chainIds.
Proof using Hnd Htok.
  destruct (token_entries symbol chainIds) as [e|] eqn:He; [|done]. injection Htok as <-.
  apply token_entries_ok in He as ->. apply from_entries_id. rewrite map_map. cbn. by rewrite map_id.
Qed.

Lemma table_keys : js_keys tokens = chainIds.
Proof using Hnd Htok. rewrite table_eq. unfold js_keys. rewrite map_map. cbn. apply map_id. Qed.

Lemma table_lookup c :
  js_lookup tokens c =
    if decide (c ∈ chainIds) then Some (default (NO_SYMBOL, NO_ADDRESS) (resolved symbol c)) else None.
Proof using Hnd Htok.
  case_decide as Hc.
  - apply js_lookup_in; [by rewrite table_keys|]. rewrite table_eq.
    apply list_elem_of_In, in_map_iff. exists c. split; [done|]. by apply list_elem_of_In.
  - apply js_lookup_None. by rewrite table_keys.
Qed.

Lemma has_symbol_iff c : has_symbol tokens c = true ↔ c ∈ chainIds ∧ is_Some (token_on symbol c).
Proof using Hsym Hnd Htok.
  unfold has_symbol, token_on. rewrite table_lookup. case_decide; [|by intuition].
  destruct (resolved symbol c) as [[s a]|] eqn:Hr; cbn.
  - destruct (resolved_wf _ _ _ _ Hsym Hr) as [Hs _]. rewrite bool_decide_eq_false_2 by done. by eauto.
  - split; [done|]. by intros [_ [? ?]].
Qed.

Lemma address_on_eq c : c ∈ chainIds → address_on tokens c = default NO_ADDRESS (token_on symbol c).
Proof using Hnd Htok.
  intros Hc. unfold address_on, token_on. rewrite table_lookup, decide_True by done.
  by destruct (resolved symbol c) as [[s a]|].
Qed.

Lemma rebalance_wanted_iff l c : c ∈ chainIds →
  rebalance_wanted tokens l c = true ↔ is_Some (token_on symbol c) ∧ (no_list l || on_list l c).
Proof using Hsym Hnd Htok.
  intros Hc. unfold rebalance_wanted. rewrite address_on_eq by done.
  unfold token_on. destruct (resolved symbol c) as [[s a]|] eqn:Hr; cbn.
  - destruct (resolved_wf _ _ _ _ Hsym Hr) as [_ Ha]. rewrite bool_decide_eq_false_2.
    + cbn. split; [intros ->; eauto|]. intros [_ ?]. by destruct (_ || _).
    + intros ->. done.
  - split; [done|]. by intros [[? ?] _].
Qed.

Lemma elem_of_deposit_route_list l x :
  x ∈ deposit_route_list tokens l ↔
  ∃ c d t, x = SetDepositRoute c d t true ∧ c ∈ chainIds ∧ d ∈ chainIds ∧ c ≠ d ∧
    token_on symbol c = Some t ∧ is_Some (token_on symbol d) ∧ (no_list l || on_list l d || on_list l c).
Proof using Hsym Hnd Htok.
  unfold deposit_route_list. rewrite elem_of_concat_map, table_keys.
  setoid_rewrite elem_of_concat_map. unfold route_wanted. split.
  - intros (c & Hc & d & Hd & Hx).
    destruct (c =? d) eqn:Hcd; cbn in Hx; [by apply not_elem_of_nil in Hx|]. apply Z.eqb_neq in Hcd.
    destruct (has_symbol tokens c) eqn:Hsc; [|by apply not_elem_of_nil in Hx].
    destruct (has_symbol tokens d) eqn:Hsd; [|by apply not_elem_of_nil in Hx].
    destruct (_ || _) eqn:Hl in Hx; [|by apply not_elem_of_nil in Hx].
    apply has_symbol_iff in Hsc as [_ [t Ht]]. apply has_symbol_iff in Hsd as [_ Hsd].
    apply list_elem_of_singleton in Hx as ->. rewrite address_on_eq, Ht by done. cbn.
    exists c, d, t. rewrite Hl. done.
  - intros (c & d & t & -> & Hc & Hd & Hcd & Ht & Hsd & Hl). exists c. split; [done|].
    exists d. split; [done|]. rewrite (proj2 (Z.eqb_neq c d) Hcd).
    rewrite (proj2 (has_symbol_iff c)) by eauto. rewrite (proj2 (has_symbol_iff d)) by eauto.
    destruct (_ || _); [|done]. apply list_elem_of_singleton. cbn.
    by rewrite address_on_eq, Ht by done.
Qed.
End Table.
End Task.

(** ** The effect of the calldata on the hub pool and the spoke pools *)

Lemma omap_app_none {A B} (f : A → option B) l l' :
  (∀ x, x ∈ l → f x = None) → omap f (l ++ l') = omap f l'.
Proof.
  induction l as [|x l IH]; intros Hl; [done|]. cbn. rewrite (Hl x) by (by left).
  apply IH. intros y Hy. apply Hl. by right.
Qed.

(** Which sort of call each group holds. *)
Lemma arbitrum_list_in `{AcrossConstants} l1Token tokens l x :
  x ∈ arbitrum_list l1Token tokens l ↔
  on_list l (CHAIN_IDs "ARBITRUM") ∧
  x = RelaySpokePoolAdminFunction (CHAIN_IDs "ARBITRUM")
        (WhitelistToken (address_on tokens (CHAIN_IDs "ARBITRUM")) l1Token).
Proof.
  unfold arbitrum_list. destruct (on_list _ _).
  - rewrite list_elem_of_singleton. by intuition.
  - split; [by intros ?%not_elem_of_nil|]. by intros [[] _].
Qed.

Lemma optimism_list_in `{AcrossConstants} tokens l bridge x :
  x ∈ optimism_list tokens l bridge →
  ∃ b, bridge = Some b ∧ x = RelaySpokePoolAdminFunction (CHAIN_IDs "OPTIMISM")
                               (SetTokenBridge (address_on tokens (CHAIN_IDs "OPTIMISM")) b).
Proof.
  unfold optimism_list. destruct bridge as [b|]; [|by intros ?%not_elem_of_nil].
  case_match; [|by intros ?%not_elem_of_nil]. intros ->%list_elem_of_singleton. by eauto.
Qed.

Lemma rebalance_list_in l1Token tokens chainIds l x :
  x ∈ rebalance_route_list l1Token tokens chainIds l ↔
  ∃ c, c ∈ chainIds ∧ rebalance_wanted tokens l c ∧
       x = SetPoolRebalanceRoute c l1Token (address_on tokens c).
Proof.
  unfold rebalance_route_list. rewrite elem_of_concat_map. split.
  - intros (c & Hc & Hx). exists c. destruct (rebalance_wanted _ _ _); [|by apply not_elem_of_nil in Hx].
    by apply list_elem_of_singleton in Hx.
  - intros (c & Hc & Hw & ->). exists c. destruct (rebalance_wanted _ _ _); [|done].
    by split; [|apply list_elem_of_singleton].
Qed.

(** The rebalance routes the calls set, one per wanted chain. *)
Lemma omap_rebalance_routes l1Token tokens chainIds l :
  omap rebalance_of (rebalance_route_list l1Token tokens chainIds l) =
  map (λ c, ((l1Token, c), address_on tokens c))
      (filter (λ c, rebalance_wanted tokens l c = true) chainIds).
Proof.
  unfold rebalance_route_list. induction chainIds as [|c cs IH]; [done|].
  cbn [map concat]. rewrite filter_cons. destruct (rebalance_wanted tokens l c); cbn; by rewrite IH.
Qed.

Section Effect.
Context `{AcrossConstants} `{MultiCaller} (token_symbols : list string).
Context (symbol l1Token : string) (chainIds : list Z) (l : list chain_key)
  (bridge : option string) (tokens : token_table) (data : list hub_call).
Context (Hsym : symbol ≠ NO_SYMBOL) (Hnd : NoDup chainIds)
  (Htok : (from_entries <$> (match token_entries token_symbols symbol chainIds with
                             | Ok e => Some e | Err _ => None end)) = Some tokens)
  (Hdata : build_callData l1Token tokens chainIds l bridge = Ok data).

Local Abbreviation token_of := (token_on token_symbols symbol).

(** A message enabling a route comes from the deposit routes alone. *)
Lemma route_message_iff c d t e :
  (c, SetEnableRoute t d e) ∈ omap message_of data ↔
  e = true ∧ c ∈ chainIds ∧ d ∈ chainIds ∧ c ≠ d ∧ token_of c = Some t ∧ is_Some (token_of d) ∧
  (no_list l || on_list l d || on_list l c).
Proof using Hsym Hnd Htok Hdata.
  apply build_callData_ok in Hdata as [-> _]. rewrite list_elem_of_omap. split.
  - intros (x & Hx & Hm). rewrite !elem_of_app in Hx. destruct Hx as [Hx|[Hx|[Hx|[Hx|Hx]]]].
    + destruct (no_list l); [apply list_elem_of_singleton in Hx as ->|apply not_elem_of_nil in Hx]; done.
    + eapply elem_of_deposit_route_list in Hx as (c' & d' & t' & -> & Hx); [|done..].
      cbn in Hm. by simplify_eq.
    + apply rebalance_list_in in Hx as (? & _ & _ & ->). done.
    + apply arbitrum_list_in in Hx as [_ ->]. done.
    + apply optimism_list_in in Hx as (? & _ & ->). done.
  - intros (-> & Hx). exists (SetDepositRoute c d t true). split; [|done].
    rewrite !elem_of_app. right; left. eapply elem_of_deposit_route_list; [done..|]. by exists c, d, t.
Qed.

Lemma rebalance_calls :
  omap rebalance_of data =
  map (λ c, ((l1Token, c), address_on tokens c))
      (filter (λ c, rebalance_wanted tokens l c = true) chainIds).
Proof using Hsym Hnd Htok Hdata.
  apply build_callData_ok in Hdata as [-> _]. rewrite omap_app_none; [rewrite omap_app_none|].
  - rewrite omap_app, omap_rebalance_routes, <- (app_nil_r (_ ++ optimism_list _ _ _)), omap_app_none.
    + apply app_nil_r.
    + intros x [[_ ->]%arbitrum_list_in|(? & _ & ->)%optimism_list_in]%elem_of_app; done.
  - intros x Hx. eapply elem_of_deposit_route_list in Hx as (? & ? & ? & -> & _); done.
  - intros x Hx. destruct (no_list l); [by apply list_elem_of_singleton in Hx as ->|by apply not_elem_of_nil in Hx].
Qed.

Lemma enabled_calls t : t ∈ omap enabled_of data ↔ no_list l ∧ t = l1Token.
Proof using Hsym Hnd Htok Hdata.
  apply build_callData_ok in Hdata as [-> _]. rewrite omap_app, elem_of_app.
  rewrite <- (app_nil_r (_ ++ _)), omap_app_none.
  - cbn. destruct (no_list l); cbn.
    + rewrite list_elem_of_singleton. split; [by intros [->|?%not_elem_of_nil]|]. intros [_ ->]. by left.
    + split; [by intros [?%not_elem_of_nil|?%not_elem_of_nil]|]. by intros [[] _].
  - intros x. rewrite !elem_of_app. intros [Hx|[Hx|[Hx|Hx]]].
    + eapply elem_of_deposit_route_list in Hx as (? & ? & ? & -> & _); done.
    + by apply rebalance_list_in in Hx as (? & _ & _ & ->).
    + by apply arbitrum_list_in in Hx as [_ ->].
    + by apply optimism_list_in in Hx as (? & _ & ->).
Qed.

Context (createLpToken : string → string) (now : Z) (isContract : string → bool)
  (relayMessage : string → string → spoke_call → bool) (sender : string) (s s' : hub_state)
  (Hs : multicall createLpToken now isContract relayMessage sender s data = Ok s').

Lemma rebalance_effect c :
  poolRebalanceRoutes s' !! (l1Token, c) =
    if decide (c ∈ chainIds ∧ is_Some (token_of c) ∧ (no_list l || on_list l c))
    then token_of c else poolRebalanceRoutes s !! (l1Token, c).
Proof using Hsym Hnd Htok Hdata Hs.
  rewrite (multicall_rebalance _ _ _ _ _ _ _ _ Hs), rebalance_calls. case_decide as Hc.
  - destruct Hc as (Hc & [a Ha] & Hl). rewrite Ha. apply set_routes_lookup.
    + rewrite map_map. cbn. apply (NoDup_fmap_2 (λ c, (l1Token, c))), NoDup_filter, Hnd.
    + apply list_elem_of_In, in_map_iff. exists c.
      erewrite address_on_eq by done. rewrite Ha. split; [done|].
      apply list_elem_of_In, list_elem_of_filter. split; [|done].
      eapply rebalance_wanted_iff; [done..|]. by rewrite Ha.
  - apply set_routes_frame. rewrite map_map. cbn.
    intros (c' & [= ->] & Hin%list_elem_of_In)%list_elem_of_In%in_map_iff.
    apply list_elem_of_filter in Hin as [Hw Hin]. eapply rebalance_wanted_iff in Hw; [|done..].
    by destruct Hc.
Qed.

Lemma rebalance_frame t c : t ≠ l1Token → poolRebalanceRoutes s' !! (t, c) = poolRebalanceRoutes s !! (t, c).
Proof using Hsym Hnd Htok Hdata Hs.
  intros Hne. rewrite (multicall_rebalance _ _ _ _ _ _ _ _ Hs), rebalance_calls.
  apply set_routes_frame. rewrite map_map. cbn.
  by intros (c' & [= ? ->] & _)%list_elem_of_In%in_map_iff.
Qed.
End Effect.

(** ** Properties *)

Section Asking.
Context (R : ∀ X, enableE X → result X → Prop) (P : list (event enableE) → ∀ X, enableE X → Prop).
Context (Q : list (event enableE) → result bool → Prop) (query : question)
  (HP : ∀ h, P h string (AskQuestion query)).

(** A question adds its attempts to the history; it is answered yes only when
    the user may say yes. *)
Lemma askYesNoQuestion_wp fuel h :
  (∀ k b, (b = true → ∃ s, R string (AskQuestion query) (Ok s) ∧ to_lower s = "y"%string) →
          Q (h ++ replicate k (Event (AskQuestion query))) (Ok b)) →
  (∀ k e, Q (h ++ replicate k (Event (AskQuestion query))) (Err e)) →
  wp R P Q h (askYesNoQuestion fuel query).
Proof using HP.
  revert h. unfold askYesNoQuestion. induction fuel as [|fuel IH]; intros h Hok Herr; cbn [askYesNo].
  - rewrite <- (app_nil_r h). apply (Herr 0%nat).
  - cbn [bind call wp]. split; [apply HP|]. intros [s|e] Hs; cbn [lift bind wp]; [|apply (Herr 1%nat)].
    case_bool_decide as Hy; [by apply (Hok 1%nat); eauto|].
    case_bool_decide; [by apply (Hok 1%nat)|]. apply IH.
    + intros k b Hb. rewrite <- app_assoc. by apply (Hok (S k)).
    + intros k e. rewrite <- app_assoc. apply (Herr (S k)).
Qed.
End Asking.

Section Task2.
Context `{AcrossConstants} (token_symbols : list string) (MAINNET_CHAIN_IDs : list Z).
Context (args : task_arguments).

Definition is_send (e : event enableE) : bool :=
  match ev_cmd e with SendMulticall _ => true | _ => false end.

(** Calldata the task may print or send. *)
Definition is_task_data (d : list hub_call) : Prop :=
  ∃ chainIds entries l1Token, chainIds ⊆ enabledChainIds MAINNET_CHAIN_IDs ∧
    (NoDup MAINNET_CHAIN_IDs → NoDup chainIds) ∧
    token_entries token_symbols (a_token args) chainIds = Ok entries ∧
    (∃ hubChainId, TOKEN_SYMBOLS_MAP (a_token args) hubChainId = Some l1Token) ∧
    build_callData l1Token (from_entries entries) chainIds (getChainsFromList (a_depositroutechains args))
      (a_customoptimismbridge args) = Ok d.

(** The calls the task may make; [yes q] when the user may say yes to [q]. *)
Definition task_calls (yes : question → bool) (h : list (event enableE)) (X : Type) (c : enableE X) : Prop :=
  match c with
  | LogCallData d => yes HasSetConfigStore = true ∧ yes AddressesMatch = true ∧ is_task_data d
  | SendMulticall d =>
      yes HasSetConfigStore = true ∧ yes AddressesMatch = true ∧ is_task_data d ∧ a_execute args = true ∧ d ≠ [] ∧
      last h = Some (Event (LogCallData d)) ∧ Forall (λ e, is_send e = false) h
  | GetSigners => yes HasSetConfigStore = true
  | _ => True
  end.

Definition answers_yes (yes : question → bool) (X : Type) (c : enableE X) (r : result X) : Prop :=
  match c in enableE X return result X → Prop with
  | AskQuestion q => λ r, match r with Ok s => to_lower s = "y"%string → yes q = true | Err _ => True end
  | _ => λ _, True
  end r.

Lemma enable_l1_token_wp yes fuel :
  wp (answers_yes yes) (task_calls yes) (λ _ _, True) []
     (enable_l1_token token_symbols MAINNET_CHAIN_IDs fuel args).
Proof.
  unfold enable_l1_token. cbn [bind call wp]. split; [exact I|]. intros [id|e] _; [|exact I].
  cbn [bind lift]. case_bool_decide; [exact I|]. destruct (isTokenSymbol _ _) eqn:Ht; cbn [negb]; [|exact I].
  destruct (_ ← _; _) as [l1Token|] eqn:Hl1; [|exact I]. cbn [app].
  apply bind_Some in Hl1 as (hubChainId & _ & Hl1).
  apply wp_bind, askYesNoQuestion_wp; [done| |done]. intros k1 b1 Hb1.
  destruct b1; cbn [negb]; [|exact I]. destruct (Hb1 eq_refl) as (s1 & Hs1 & Hy). cbn in Hs1. specialize (Hs1 Hy) as Hyes1.
  cbn [bind call wp]. split; [done|]. intros [[]|e] _; [|exact I]. cbn [bind lift].
  destruct (parse_chains _ _) as [chains|]; [|exact I]. cbn [bind lift].
  set (inputs := match chains with [] => _ | _ => _ end). set (chainIds := filter _ _).
  destruct (token_entries _ _ _) as [entries|] eqn:He; [|exact I]. cbn [bind lift].
  apply wp_bind, askYesNoQuestion_wp; [done| |done]. intros k2 b2 Hb2.
  destruct b2; cbn [negb]; [|exact I]. destruct (Hb2 eq_refl) as (s2 & Hs2 & Hy2).
  cbn in Hs2. specialize (Hs2 Hy2) as Hyes2. cbn [bind call wp]. split; [done|].
  intros [hub|e] _; [|exact I]. cbn [bind lift].
  destruct (build_callData _ _ _ _ _) as [data|] eqn:Hd; [|exact I]. cbn [bind lift call wp].
  assert (is_task_data data) as Htd.
  { exists chainIds, entries, l1Token. split_and!; [| |done| |done].
    - intros x [_ Hx]%list_elem_of_filter. done.
    - intros Hids. by apply NoDup_filter, enabledChainIds_NoDup.
    - by exists hubChainId. }
  split; [done|]. intros [[]|e] _; [|exact I]. cbn [bind lift].
  destruct (a_execute args) eqn:Hx; cbn [andb]; [|exact I]. case_bool_decide; cbn [negb]; [exact I|].
  cbn [bind call wp task_calls]. split; [|by intros [] _].
  split_and!; [done..| |].
  - by rewrite last_snoc.
  - rewrite !Forall_app. repeat split; repeat constructor;
      apply Forall_forall; by intros ? [-> _]%elem_of_replicate.
Qed.
End Task2.

(** C34. What the task does, whatever the network, the user and the services
    answer: calldata is printed and sent only after a yes to both questions;
    it is the calldata built for some of the supported chains; it is sent at
    most once, only under [--execute], never empty, and it is exactly the
    calldata printed just before.  A user who says no to either question
    causes none of it. *)
Theorem enable_task_confirmed `{AcrossConstants} token_symbols MAINNET_CHAIN_IDs fuel args yes
    (ev : env enableE) (Hyes : respects (answers_yes yes) ev) :
  trace_ok (task_calls token_symbols MAINNET_CHAIN_IDs args yes)
    (trace ev (enable_l1_token token_symbols MAINNET_CHAIN_IDs fuel args)).
Proof.
  refine (proj1 (wp_trace _ _ (λ _ _, True) ev _ Hyes _)). apply enable_l1_token_wp.
Qed.

(** C23. The effect of the task's calldata when the hub pool accepts it.  On
    the spoke pools, the deposit route of token [t] from [c] to [d] becomes
    enabled exactly when the messages reach the pool of [c] from its owner,
    both chains are among the chosen ones and distinct, [t] is the token's
    address on [c], the token exists on [d], and no list of deposit chains was
    given or one of the two is on it; every other route is as before.  On the
    hub pool, the rebalance route of the L1 token to [c] is the token's address
    there for each chosen (and listed) chain that has it,
    all other routes are as before, and the token is enabled for liquidity
    provision exactly when no list was given. *)
Theorem enable_effect `{AcrossConstants} `{MultiCaller} (token_symbols : list string) (symbol l1Token sender : string)
    (chainIds : list Z) (l : list chain_key) (bridge : option string) (entries : token_table)
    (data : list hub_call) (createLpToken : string → string) (now : Z) (isContract : string → bool)
    (relayMessage : string → string → spoke_call → bool) (s s' : hub_state) (r : spoke_routes)
    (spoke_owner message_sender : Z → string)
    (Hsym : symbol ≠ NO_SYMBOL) (Hnd : NoDup chainIds)
    (Hent : token_entries token_symbols symbol chainIds = Ok entries)
    (Hdata : build_callData l1Token (from_entries entries) chainIds l bridge = Ok data)
    (Hs : multicall createLpToken now isContract relayMessage sender s data = Ok s') :
  let listed (c : Z) := no_list l || on_list l c in
  let token_of := token_on token_symbols symbol in
  (∀ c t d, deliver_all spoke_owner message_sender r (drop (length (relayed s)) (relayed s')) !! (c, t, d) =
     if decide (message_sender c = spoke_owner c ∧ c ∈ chainIds ∧ d ∈ chainIds ∧ c ≠ d ∧ token_of c = Some t ∧ is_Some (token_of d) ∧
                (listed d || listed c))
     then Some true else r !! (c, t, d)) ∧
  (∀ t c, poolRebalanceRoutes s' !! (t, c) =
     if decide (t = l1Token ∧ c ∈ chainIds ∧ is_Some (token_of c) ∧ listed c)
     then token_of c else poolRebalanceRoutes s !! (t, c)) ∧
  (∀ t, token_enabled s' t = bool_decide (no_list l ∧ t = l1Token) || token_enabled s t).
Proof.
  intros listed token_of.
  assert ((from_entries <$> (match token_entries token_symbols symbol chainIds with
                             | Ok e => Some e | Err _ => None end)) = Some (from_entries entries)) as Htok
    by by rewrite Hent.
  split_and!.
  - intros c t d. rewrite (multicall_relayed _ _ _ _ _ _ _ _ Hs), drop_app_length.
    pose proof (route_message_iff _ _ _ _ _ _ _ _ Hsym Hnd Htok Hdata) as Hiff.
    rewrite deliver_all_enabled.
    + cbn. apply decide_ext. unfold obeys. rewrite bool_decide_eq_true, Hiff. unfold listed.
      destruct (no_list l), (on_list l c), (on_list l d); cbn; by intuition.
    + apply Forall_forall. intros [c' [t' d' e'| | | |]] Hin; cbn; [|done..]. by apply Hiff in Hin as [-> _].
  - intros t c. destruct (decide (t = l1Token)) as [->|Hne].
    + erewrite rebalance_effect by done. apply decide_ext. by intuition.
    + rewrite decide_False by by intros [? _]. eapply rebalance_frame; done.
  - intros t. rewrite (multicall_enabled _ _ _ _ _ _ _ _ _ Hs). f_equal. apply bool_decide_ext.
    by rewrite enabled_calls.
Qed.

(** The Arbitrum spoke pool is told to whitelist the token exactly when
    Arbitrum is on the list of deposit chains.  So enabling a token everywhere
    (no list), the one case in which the hub's rebalance route to Arbitrum is
    newly set together with the token, never whitelists it there. *)
Theorem whitelist_only_listed `{AcrossConstants} l1Token tokens chainIds l bridge data
    (Hdata : build_callData l1Token tokens chainIds l bridge = Ok data) :
  ((∃ c a b, (c, WhitelistToken a b) ∈ omap message_of data) ↔ on_list l (CHAIN_IDs "ARBITRUM")) ∧
  (l = [] → ∀ c a b, (c, WhitelistToken a b) ∉ omap message_of data).
Proof.
  assert ((∃ c a b, (c, WhitelistToken a b) ∈ omap message_of data) ↔ on_list l (CHAIN_IDs "ARBITRUM")) as Hiff.
  { apply build_callData_ok in Hdata as [-> _]. split.
    - intros (c & a & b & (x & Hx & Hm)%list_elem_of_omap). rewrite !elem_of_app in Hx.
      destruct Hx as [Hx|[Hx|[Hx|[Hx|Hx]]]].
      + destruct (no_list l); [by apply list_elem_of_singleton in Hx as ->|by apply not_elem_of_nil in Hx].
      + unfold deposit_route_list in Hx. apply elem_of_concat_map in Hx as (? & _ & Hx).
        apply elem_of_concat_map in Hx as (? & _ & Hx). destruct (route_wanted _ _ _ _);
          [by apply list_elem_of_singleton in Hx as ->|by apply not_elem_of_nil in Hx].
      + by apply rebalance_list_in in Hx as (? & _ & _ & ->).
      + by apply arbitrum_list_in in Hx as [? _].
      + by apply optimism_list_in in Hx as (? & _ & ->).
    - intros Hl. do 3 eexists. apply list_elem_of_omap. eexists. rewrite !elem_of_app.
      split; [right; right; right; left; apply arbitrum_list_in; split; [done|reflexivity]|reflexivity]. }
  split; [done|]. intros -> c a b Hin.
  assert (on_list [] (CHAIN_IDs "ARBITRUM")) as Hf by (apply Hiff; by eauto). done.
Qed.

(** A listed chain the task accepts. *)
Definition listed_ok (tokens : token_table) (k : chain_key) : Prop :=
  match k with Some c => has_symbol tokens c = true | None => False end.

Lemma check_listed_ok tokens l : check_listed tokens l = Ok tt → Forall (listed_ok tokens) l.
Proof.
  induction l as [|[c|] l IH]; cbn; [done| |done].
  destruct (js_lookup tokens c) as [[s a]|] eqn:Hc; cbn; [|done].
  case_bool_decide as Hs; [done|]. intros Hl. constructor; [|by apply IH].
  cbn. unfold has_symbol. rewrite Hc. by rewrite bool_decide_eq_false_2.
Qed.

Lemma check_listed_unknown tokens l k rest : Forall (listed_ok tokens) l →
  match k with Some c => c ∉ js_keys tokens | None => True end →
  check_listed tokens (l ++ k :: rest) = Err TypeError.
Proof.
  intros Hl Hk. induction Hl as [|[c|] l Hc Hl IH]; [|cbn in *|done].
  - destruct k as [c|]; cbn; [|done]. by rewrite (proj2 (js_lookup_None tokens c) Hk).
  - unfold has_symbol in Hc. destruct (js_lookup tokens c) as [[s a]|]; cbn; [|done].
    by destruct (bool_decide _).
Qed.

(** With a list of deposit chains, calldata is built only if every listed
    chain is one of the chosen chains and has the token; a list naming any
    other chain makes the task fail with a [TypeError].  An empty argument is
    read as the list of the chain [0], so it always fails that way. *)
Theorem deposit_list_checked `{AcrossConstants} l1Token tokens chainIds bridge l :
  (is_ok (build_callData l1Token tokens chainIds l bridge) → Forall (listed_ok tokens) l) ∧
  (∀ l' k rest, l = l' ++ k :: rest → Forall (listed_ok tokens) l' →
     match k with Some c => c ∉ js_keys tokens | None => True end →
     build_callData l1Token tokens chainIds l bridge = Err TypeError) ∧
  (0 ∉ js_keys tokens →
   build_callData l1Token tokens chainIds (getChainsFromList (Some ""%string)) bridge = Err TypeError).
Proof.
  assert (∀ l' k rest, Forall (listed_ok tokens) l' →
     match k with Some c => c ∉ js_keys tokens | None => True end →
     build_callData l1Token tokens chainIds (l' ++ k :: rest) bridge = Err TypeError) as Hbad.
  { intros l' k rest Hl' Hk. unfold build_callData, liquidity_calls.
    assert (no_list (l' ++ k :: rest) = false) as -> by by destruct l'.
    by rewrite check_listed_unknown. }
  split_and!.
  - destruct (build_callData _ _ _ _ _) eqn:Hd; [|done]. intros _.
    apply build_callData_ok in Hd as [_ Hd]. destruct l as [|k l]; [done|].
    by apply check_listed_ok, Hd.
  - intros l' k rest ->. apply Hbad.
  - intros H0. by apply (Hbad [] (Some 0) []).
Qed.

(** ** Witnesses *)

Definition sample_weth : string := "0xC02aaA39b223FE8D0A0e5C4F27eAD9083C756Cc2".

Definition sample_entries : token_table :=
  [(1, ("WETH", sample_weth)); (10, ("WETH", sample_weth)); (42161, ("WETH", sample_weth))]%string.

Definition sample_hub : hub_state :=
  {| owner := "owner"; pooledTokens := ∅;
     crossChainContracts :=
       list_to_map (map (λ c, (c, {| adapter := "adapter"; spokePool := "spoke" |})) [1; 10; 42161]);
     poolRebalanceRoutes := ∅; relayed := [] |}.

Definition sample_data (l : list chain_key) : list hub_call :=
  match build_callData (H := sample_constants) sample_weth (from_entries sample_entries) [1; 10; 42161] l None with
  | Ok d => d | Err _ => [] end.

Definition sample_after (l : list chain_key) : hub_state :=
  match multicall (λ t, t) 0 (λ _, true) (λ _ _ _, true) "owner" sample_hub (sample_data l) with
  | Ok s => s | Err _ => sample_hub end.

Lemma enable_effect_witness :
  deliver_all (λ _, "owner"%string) (λ _, "owner"%string) ∅ (relayed (sample_after [])) !! (1, sample_weth, 42161) = Some true ∧
  poolRebalanceRoutes (sample_after []) !! (sample_weth, 10) = Some sample_weth ∧
  token_enabled (sample_after []) sample_weth = true.
Proof.
  destruct (enable_effect (H := sample_constants) ["WETH"%string] "WETH" sample_weth "owner" [1; 10; 42161]
              [] None sample_entries (sample_data []) (λ t, t) 0 (λ _, true) (λ _ _ _, true)
              sample_hub (sample_after []) ∅ (λ _, "owner"%string) (λ _, "owner"%string)) as (Hr & Hp & He).
  - done.
  - apply (bool_decide_unpack _). vm_compute. exact I.
  - vm_compute. reflexivity.
  - vm_compute. reflexivity.
  - vm_compute. reflexivity.
  - split_and!.
    + etrans; [exact (Hr 1 sample_weth 42161)|]. vm_compute. reflexivity.
    + rewrite Hp. vm_compute. reflexivity.
    + rewrite He. vm_compute. reflexivity.
Defined.

Lemma whitelist_only_listed_witness :
  (∃ c a b, (c, WhitelistToken a b) ∈ omap message_of (sample_data [Some 42161])) ∧
  ¬ (∃ c a b, (c, WhitelistToken a b) ∈ omap message_of (sample_data [Some 10])).
Proof.
  split.
  - apply (whitelist_only_listed (H := sample_constants) sample_weth (from_entries sample_entries)
             [1; 10; 42161] [Some 42161] None); vm_compute; reflexivity.
  - intros Hin. apply (whitelist_only_listed (H := sample_constants) sample_weth (from_entries sample_entries)
             [1; 10; 42161] [Some 10] None) in Hin; [|vm_compute; reflexivity].
    revert Hin. vm_compute. done.
Defined.

Lemma deposit_list_checked_witness :
  Forall (listed_ok sample_entries) [Some 10] ∧
  build_callData (H := sample_constants) sample_weth sample_entries [1; 10; 42161]
    (getChainsFromList (Some ""%string)) None = Err TypeError.
Proof.
  split.
  - apply (deposit_list_checked (H := sample_constants) sample_weth sample_entries [1; 10; 42161] None [Some 10]).
    vm_compute. reflexivity.
  - apply (deposit_list_checked (H := sample_constants) sample_weth sample_entries [1; 10; 42161] None []).
    apply (bool_decide_unpack _). vm_compute. exact I.
Defined.

(** A user on mainnet who does not confirm the addresses. *)
Definition reluctant_user : env enableE := λ _ X c,
  match c in enableE X return result X with
  | TaskChainId => Ok "1"%string
  | AskQuestion HasSetConfigStore => Ok "y"%string
  | AskQuestion AddressesMatch => Ok "n"%string
  | TaskHubPool => Ok "hub"%string
  | GetSigners => Ok tt
  | LogCallData _ => Ok tt
  | SendMulticall _ => Ok "hash"%string
  end.

Definition reluctant (q : question) : bool :=
  match q with HasSetConfigStore => true | AddressesMatch => false end.

Definition sample_args : task_arguments :=
  {| a_execute := true; a_token := "WETH"; a_chains := None; a_customoptimismbridge := None;
     a_depositroutechains := None |}.

Lemma enable_task_confirmed_witness :
  trace_ok (task_calls (H := sample_constants) ["WETH"%string] [1; 10; 42161] sample_args reluctant)
    (trace reluctant_user (enable_l1_token (H := sample_constants) ["WETH"%string] [1; 10; 42161] 1 sample_args)).
Proof.
  apply (enable_task_confirmed (H := sample_constants) ["WETH"%string] [1; 10; 42161] 1 sample_args reluctant).
  intros h X []; cbn; try done. by destruct query.
Defined.
