(* ===== verification/AdminScripts.v ===== *)
(** * Set-up scripts of the hub pool's owner

    [scripts/setupArbitrumSpokePool.ts] and [scripts/setupOptimismSpokePool.ts]
    print calldata for [HubPool.multicall]; its effect is stated on the hub pool
    of [HubPoolAdmin] and on the mappings the spoke pools keep
    ([whitelistedTokens] of contracts/Arbitrum_SpokePool.sol, [tokenBridges] of
    contracts/Ovm_SpokePool.sol).  [scripts/deployZkSyncSpokePoolProxy.ts]
    deploys a test spoke pool. *)

From stdpp Require Import base gmap strings list.
From Stdlib Require Import ZArith Lia.
From S2P Require Import Prelude JsText Interfaces Consts Hre HubPoolAdmin EnableToken.

(** The factories of [utils/utils.ts], whose interfaces encode the calls. *)
Inductive setupE : Type → Type :=
| SetupSigners : setupE unit
| SetupFactory (name : string) : setupE unit.

Section Scripts.
Context `{AcrossConstants}.
(** The keys of [TOKEN_SYMBOLS_MAP], in the order of [Object.values]. *)
Context (token_symbols : list string).

(** The call pushed for a token; [None] is the [continue]. *)
Definition whitelist_call (symbol : string) : option hub_call :=
  match TOKEN_SYMBOLS_MAP symbol (CHAIN_IDs "MAINNET"), TOKEN_SYMBOLS_MAP symbol (CHAIN_IDs "ARBITRUM") with
  | Some l1Token, Some arbitrumToken =>
      Some (RelaySpokePoolAdminFunction (CHAIN_IDs "ARBITRUM") (WhitelistToken arbitrumToken l1Token))
  | _, _ => None
  end.

(** The calls passed to [multicall], which the script prints encoded. *)
Definition setupArbitrumSpokePool : prog setupE (list hub_call) :=
  call SetupSigners ;;
  call (SetupFactory "Arbitrum_SpokePool") ;;
  call (SetupFactory "HubPool") ;;
  lift (encode_all (omap whitelist_call token_symbols)).

Definition customOptimismTokenBridges : list (string * string) :=
  [("0xDA10009cBd5D07dd0CeCc66161FC93D7c9000da1", "0x467194771dAe2967Aef3ECbEDD3Bf9a310C76C65")]%string.

Definition setupOptimismSpokePool : prog setupE (list hub_call) :=
  call SetupSigners ;;
  call (SetupFactory "Ovm_SpokePool") ;;
  call (SetupFactory "HubPool") ;;
  lift (encode_all (map (λ '(l2Token, bridge),
    RelaySpokePoolAdminFunction (CHAIN_IDs "OPTIMISM") (SetTokenBridge l2Token bridge)) customOptimismTokenBridges)).

(** [MNEMONIC] is read but its wallet is a service; the third argument of the
    initializer is read from the table when the call is made. *)
Definition deployZkSyncSpokePoolProxy : prog hreE string :=
  let contractName := "Ethereum_SpokePool"%string in
  let! chainId := call GetChainId in
  if negb (bool_decide (chainId = "280"%string))
  then Throw (JsError "This script can only be run on zkSync testnet (chainId 280)")
  else
    call (ZkLoadArtifact contractName) ;;
    let! weth := lift (l1 (parseInt chainId) "weth") in
    let! proxy := call (ZkDeployProxy contractName
                    [JNum 1000000; JStr "0x0e2817C49698cc0874204AeDf7c72Be2Bb7fCD5d"; weth] [] []) in
    call (ProxyDeployed proxy).
End Scripts.

(** ** The mappings of the spoke pools, by chain and L2 token *)
Abbreviation spoke_mapping := (gmap (Z * string) string) (only parsing).

Definition deliver_whitelist (w : spoke_mapping) (m : Z * spoke_call) : spoke_mapping :=
  match m with (chain, WhitelistToken l2Token l1Token) => <[(chain, l2Token) := l1Token]> w | _ => w end.

Definition deliver_bridge (w : spoke_mapping) (m : Z * spoke_call) : spoke_mapping :=
  match m with (chain, SetTokenBridge l2Token bridge) => <[(chain, l2Token) := bridge]> w | _ => w end.

(** ** Lemmas *)
Section Lemmas.
Context `{AcrossConstants}.

Lemma encode_all_id l : Forall (λ c, forallb is_address (call_addresses c) = true) l → encode_all l = Ok l.
Proof.
  induction 1 as [|c l Hc _ IH]; cbn [encode_all]; [done|]. unfold encodeFunctionData. by rewrite Hc, IH.
Qed.

Lemma whitelist_call_Some symbol c : whitelist_call symbol = Some c ↔
  ∃ l1Token l2Token, TOKEN_SYMBOLS_MAP symbol (CHAIN_IDs "MAINNET") = Some l1Token ∧
    TOKEN_SYMBOLS_MAP symbol (CHAIN_IDs "ARBITRUM") = Some l2Token ∧
    c = RelaySpokePoolAdminFunction (CHAIN_IDs "ARBITRUM") (WhitelistToken l2Token l1Token).
Proof.
  unfold whitelist_call. split.
  - destruct (TOKEN_SYMBOLS_MAP symbol (CHAIN_IDs "MAINNET")) as [a|]; [|done].
    destruct (TOKEN_SYMBOLS_MAP symbol (CHAIN_IDs "ARBITRUM")) as [b|]; [|done].
    intros [= <-]. by eexists _, _.
  - by intros (a & b & -> & -> & ->).
Qed.

Lemma whitelist_calls_encoded symbols : encode_all (omap whitelist_call symbols) = Ok (omap whitelist_call symbols).
Proof.
  apply encode_all_id, Forall_forall. intros c (s & _ & Hs)%list_elem_of_omap.
  apply whitelist_call_Some in Hs as (a & b & Ha & Hb & ->). cbn.
  by rewrite (TOKEN_SYMBOLS_MAP_address _ _ _ Ha), (TOKEN_SYMBOLS_MAP_address _ _ _ Hb).
Qed.

(** Messages with one value per key end with that value. *)
Lemma whitelist_delivered (ms : list (Z * spoke_call)) (w : spoke_mapping) chain a b :
  (chain, WhitelistToken a b) ∈ ms → (∀ b', (chain, WhitelistToken a b') ∈ ms → b' = b) →
  foldl deliver_whitelist w ms !! (chain, a) = Some b.
Proof.
  intros Hin Hu. assert (∀ w, w !! (chain, a) = Some b ∨ (chain, WhitelistToken a b) ∈ ms →
    foldl deliver_whitelist w ms !! (chain, a) = Some b) as Hgen; [|by apply Hgen; right].
  clear Hin w. induction ms as [|[c m] ms IH]; intros w Hw; cbn [foldl].
  - destruct Hw as [Hw|Hw]; [done|]. by apply not_elem_of_nil in Hw.
  - apply IH; [intros b' Hb'; apply Hu; by right|].
    destruct Hw as [Hw|[[= <- <-]|Hw]%elem_of_cons]; [left|left; by apply lookup_insert_eq|by right].
    destruct m as [| a' b'| | |]; [done| |done..]. cbn. destruct (decide ((c, a') = (chain, a))) as [[= -> ->]|Hne].
    + rewrite lookup_insert_eq. f_equal. apply Hu. by left.
    + by rewrite lookup_insert_ne.
Qed.

Lemma whitelist_frame (ms : list (Z * spoke_call)) (w : spoke_mapping) k :
  (∀ b, (k.1, WhitelistToken k.2 b) ∉ ms) → foldl deliver_whitelist w ms !! k = w !! k.
Proof.
  revert w. induction ms as [|[c m] ms IH]; intros w Hk; cbn [foldl]; [done|].
  rewrite IH by (intros b Hb; apply (Hk b); by right). destruct m as [|a b| | |]; [done| |done..].
  cbn. apply lookup_insert_ne. intros <-. apply (Hk b). by left.
Qed.
End Lemmas.

(** ** Properties *)

(** A call that succeeds and whose answer is not used. *)
Lemma run_call_ok {E A} (ev : env E) h (c : E unit) (k : prog E A) : is_ok (ev h unit c) = true →
  run ev h (call c ;; k) = run ev (h ++ [Event c]) k.
Proof. intros Hc. rewrite run_bind, run_call. by destruct (ev h unit c). Qed.

(** What a multicall of the hub pool hands to the spoke pools. *)
Definition new_messages (s s' : hub_state) : list (Z * spoke_call) := drop (length (relayed s)) (relayed s').

(** Executing what setupArbitrumSpokePool.ts prints.  The script always
    succeeds when its services do; once the hub pool's multicall of its calldata
    succeeded and the messages arrived, Arbitrum's spoke pool maps the Arbitrum
    address of every known token that has one on mainnet too to the mainnet
    address, and every other entry of the mapping, on any chain, is as before
    (tokens that share an Arbitrum address must share the mainnet one). *)
Theorem arbitrum_setup_whitelists `{AcrossConstants} `{MultiCaller} (token_symbols : list string) (ev : env setupE)
    (createLpToken : string → string) (now : Z) (isContract : string → bool)
    (relayMessage : string → string → spoke_call → bool) :
  (∀ h X (c : setupE X), is_ok (ev h X c) = true) →
  (∀ s1 s2, s1 ∈ token_symbols → s2 ∈ token_symbols →
     is_Some (TOKEN_SYMBOLS_MAP s1 (CHAIN_IDs "ARBITRUM")) →
     TOKEN_SYMBOLS_MAP s1 (CHAIN_IDs "ARBITRUM") = TOKEN_SYMBOLS_MAP s2 (CHAIN_IDs "ARBITRUM") →
     is_Some (TOKEN_SYMBOLS_MAP s1 (CHAIN_IDs "MAINNET")) → is_Some (TOKEN_SYMBOLS_MAP s2 (CHAIN_IDs "MAINNET")) →
     TOKEN_SYMBOLS_MAP s1 (CHAIN_IDs "MAINNET") = TOKEN_SYMBOLS_MAP s2 (CHAIN_IDs "MAINNET")) →
  ∃ data, outcome ev (setupArbitrumSpokePool token_symbols) = Ok data ∧
    ∀ sender s s' (w : gmap (Z * string) string),
      multicall createLpToken now isContract relayMessage sender s data = Ok s' →
      let w' := foldl deliver_whitelist w (new_messages s s') in
      (∀ symbol l1Token l2Token, symbol ∈ token_symbols →
         TOKEN_SYMBOLS_MAP symbol (CHAIN_IDs "MAINNET") = Some l1Token →
         TOKEN_SYMBOLS_MAP symbol (CHAIN_IDs "ARBITRUM") = Some l2Token →
         w' !! (CHAIN_IDs "ARBITRUM", l2Token) = Some l1Token) ∧
      (∀ k, ¬ (∃ symbol, symbol ∈ token_symbols ∧ is_Some (TOKEN_SYMBOLS_MAP symbol (CHAIN_IDs "MAINNET")) ∧
                 TOKEN_SYMBOLS_MAP symbol (CHAIN_IDs "ARBITRUM") = Some k.2 ∧ k.1 = CHAIN_IDs "ARBITRUM") →
         w' !! k = w !! k).
Proof.
  intros Hev Hcons. exists (omap whitelist_call token_symbols). split.
  { unfold outcome, setupArbitrumSpokePool. rewrite whitelist_calls_encoded.
    do 3 (rewrite run_call_ok by done).
    done. }
  intros sender s s' w Hs. cbv zeta. unfold new_messages.
  rewrite (multicall_relayed _ _ _ _ _ _ _ _ Hs), drop_app_length.
  set (ms := omap message_of (omap whitelist_call token_symbols)).
  assert (Hin : ∀ c a b, (c, WhitelistToken a b) ∈ ms ↔ c = CHAIN_IDs "ARBITRUM" ∧ ∃ symbol, symbol ∈ token_symbols ∧
    TOKEN_SYMBOLS_MAP symbol (CHAIN_IDs "MAINNET") = Some b ∧ TOKEN_SYMBOLS_MAP symbol (CHAIN_IDs "ARBITRUM") = Some a).
  { intros c a b. unfold ms. rewrite list_elem_of_omap. setoid_rewrite list_elem_of_omap. split.
    - intros (hc & (symbol & Hsym & (l1 & l2 & Hl1 & Hl2 & ->)%whitelist_call_Some) & [= <- <- <-]). eauto 6.
    - intros (-> & symbol & Hsym & Hb & Ha). exists (RelaySpokePoolAdminFunction (CHAIN_IDs "ARBITRUM") (WhitelistToken a b)).
      split; [|done]. exists symbol. split; [done|]. apply whitelist_call_Some. by eexists _, _. }
  split.
  - intros symbol l1Token l2Token Hsym H1 H2. apply whitelist_delivered; [apply Hin; eauto|].
    intros b' (_ & symbol' & Hsym' & H1' & H2')%Hin.
    specialize (Hcons symbol symbol' Hsym Hsym'). rewrite H1, H1', H2, H2' in Hcons.
    specialize (Hcons ltac:(eauto) eq_refl ltac:(eauto) ltac:(eauto)). congruence.
  - intros k Hk. apply whitelist_frame. intros b (Hc & symbol & Hsym & H1 & H2)%Hin. apply Hk.
    exists symbol. rewrite H1. split_and!; eauto.
Qed.

(** Executing what setupOptimismSpokePool.ts prints sets the bridge of the one
    token listed on Optimism's spoke pool and no other. *)
Theorem optimism_setup_bridge `{AcrossConstants} `{MultiCaller} (ev : env setupE)
    (createLpToken : string → string) (now : Z) (isContract : string → bool)
    (relayMessage : string → string → spoke_call → bool) :
  (∀ h X (c : setupE X), is_ok (ev h X c) = true) →
  ∃ data, outcome ev setupOptimismSpokePool = Ok data ∧
    ∀ sender s s' (w : gmap (Z * string) string),
      multicall createLpToken now isContract relayMessage sender s data = Ok s' →
      foldl deliver_bridge w (new_messages s s') =
        <[(CHAIN_IDs "OPTIMISM", "0xDA10009cBd5D07dd0CeCc66161FC93D7c9000da1"%string) :=
          "0x467194771dAe2967Aef3ECbEDD3Bf9a310C76C65"%string]> w.
Proof.
  intros Hev. eexists. split.
  { unfold outcome, setupOptimismSpokePool.
    do 3 (rewrite run_call_ok by done).
    reflexivity. }
  intros sender s s' w Hs. unfold new_messages. by rewrite (multicall_relayed _ _ _ _ _ _ _ _ Hs), drop_app_length.
Qed.

(** deployZkSyncSpokePoolProxy.ts cannot deploy.  Whatever the services
    answer, the script ends with an error and never asks for the proxy: on any
    chain but 280 it refuses, and on 280 it reads [weth] of an entry that
    [L1_ADDRESS_MAP] does not have. *)
Theorem zksync_proxy_never_deployed `{AcrossConstants} (ev : env hreE) :
  is_ok (outcome ev deployZkSyncSpokePoolProxy) = false ∧
  Forall (λ e, ∀ name a b c, e ≠ Event (ZkDeployProxy name a b c)) (trace ev deployZkSyncSpokePoolProxy).
Proof.
  unfold outcome, trace, deployZkSyncSpokePoolProxy. rewrite run_bind, run_call. cbn [app].
  destruct (ev [] string GetChainId) as [id|e]; cbn [fst snd]; [|by repeat constructor].
  case_bool_decide as Hid; cbn [negb]; [subst id|by repeat constructor].
  rewrite run_bind, run_call. destruct (ev _ _ (ZkLoadArtifact _)); cbn [fst snd app]; [|by repeat constructor].
  assert (l1 (parseInt "280") "weth" = Err TypeError) as ->.
  { unfold l1. rewrite L1_ADDRESS_MAP_eval. vm_compute. reflexivity. }
  cbn. by repeat constructor.
Qed.

Definition willing : env setupE := λ _ X c,
  match c in setupE Y return result Y with SetupSigners => Ok tt | SetupFactory _ => Ok tt end.

(** On a hub pool with Arbitrum set up, the multicall succeeds and WETH is mapped. *)
Lemma arbitrum_setup_whitelists_witness :
  ∃ data s', outcome willing (setupArbitrumSpokePool (H := sample_constants) ["WETH"%string]) = Ok data ∧
    multicall (λ t, t) 0 (λ _, true) (λ _ _ _, true) "owner" sample_hub data = Ok s' ∧
    foldl deliver_whitelist ∅ (new_messages sample_hub s') !! (42161, sample_weth) = Some sample_weth.
Proof.
  destruct (arbitrum_setup_whitelists (H := sample_constants) ["WETH"%string] willing (λ t, t) 0 (λ _, true) (λ _ _ _, true))
    as (data & Hdata & Heff).
  - intros h X c. by destruct c.
  - done.
  - assert (Hok : is_ok (multicall (λ t, t) 0 (λ _, true) (λ _ _ _, true) "owner" sample_hub data) = true).
    { assert (Hd : data = result_default [] (outcome willing (setupArbitrumSpokePool (H := sample_constants) ["WETH"%string])))
        by (by rewrite Hdata).
      rewrite Hd. vm_compute. reflexivity. }
    destruct (multicall _ _ _ _ _ _ data) as [s'|] eqn:Hs; [|discriminate Hok].
    exists data, s'. split_and!; [exact Hdata|exact Hs|].
    destruct (Heff "owner"%string sample_hub s' ∅ Hs) as [Hin _].
    apply (Hin "WETH"%string); [by left|reflexivity|reflexivity].
Defined.
