(* ===== verification/ChainAdapterTask.v ===== *)
(** * tasks/testChainAdapter.ts

    The task that bridges an amount of a token through the chain adapter of a
    chain, calling the adapter itself: it tops the adapter up from the wallet
    when its balance looks short and relays the whole balance.  The chain, the
    user, the token and the adapter are services, with a handler for the
    balances. *)

From stdpp Require Import base gmap strings list.
From Stdlib Require Import ZArith Ascii Lia.
From S2P Require Import Prelude Bytes JsText Interfaces Utils Consts HubPoolAdmin EnableToken.

Inductive adapter_question := ZeroL2Token | MayBeLost.

Inductive adapterE : Type → Type :=
| AdapterChainId : adapterE string
| AdapterDeployment (name : string) : adapterE string
| PoolRebalanceRoute (chainId : Z) (l1Token : string) : adapterE string
| AskUser (query : adapter_question) : adapterE string
| BalanceOf (token holder : string) : adapterE Z
| Decimals (token : string) : adapterE Z
| TransferTo (token to : string) (amount : Z) : adapterE string
| WaitTransaction (hash : string) : adapterE unit
| WalletAddress : adapterE string
| EstimateGas (adapter l1Token l2Token : string) (amount : Z) (recipient : string) : adapterE Z
| RelayTokens (adapter l1Token l2Token : string) (amount : Z) (recipient : string) (gasLimit : Z) : adapterE string.

Record adapter_args := { ad_chain : string; ad_token : string; ad_amount : string }.

Definition upper_char (a : ascii) : ascii :=
  let c := code a in
  if (97 <=? c) && (c <=? 122) then ascii_of_N (Z.to_N (c - 32)) else a.

(** [s.toUpperCase()] on ASCII text *)
Definition to_upper (s : string) : string := text (map upper_char (chars s)).

Section Task.
Context `{AcrossConstants} `{EthersNumbers}.
(** [Object.keys] of [CHAIN_IDs] and of [TOKEN_SYMBOLS_MAP]. *)
Context (chain_names token_symbols : list string).

Definition chains : list (Z * string) :=
  [(CHAIN_IDs "ARBITRUM", "Arbitrum_Adapter"); (CHAIN_IDs "ALEPH_ZERO", "Arbitrum_CustomGasToken_Adapter");
   (CHAIN_IDs "WORLD_CHAIN", "WorldChain_Adapter"); (CHAIN_IDs "ZK_SYNC", "ZkSync_Adapter")]%string.

Definition assertion (message : string) : js_error := JsError message.

(** The chain's name in the package. *)
Definition spoke_name (spokeChainId : chain_key) : option string :=
  c ← spokeChainId; List.find (λ name, CHAIN_IDs name =? c) chain_names.

Definition adapter_name (spokeChainId : Z) (spokeName : string) : string :=
  match js_lookup chains spokeChainId with
  | Some name => name
  | None => to_upper (text (take 1 (chars spokeName))) +:+ to_lower (str_slice_from spokeName 1) +:+ "_Adapter"
  end.

(** [TOKEN_SYMBOLS_MAP[tokenSymbol].addresses[hubChainId]]; the contract call
    refuses [undefined]. *)
Definition adapter_token (tokenSymbol hubChainId : string) : result string :=
  if bool_decide (tokenSymbol ∈ token_symbols)
  then from_option_err (JsError "invalid address") (c ← parseInt hubChainId; TOKEN_SYMBOLS_MAP tokenSymbol c)
  else Err TypeError.

(** [if (!(await askYesNoQuestion(...))) process.exit(0)] *)
Definition confirm (fuel : nat) (query : adapter_question) : prog adapterE unit :=
  let! proceed := askYesNo (call (AskUser query)) fuel in
  if proceed then Ret tt else Throw (ProcessExit 0).

(** Topping the adapter up: the balance is compared with the amount as typed,
    the transfer is of the amount scaled by the token's decimals. *)
Definition top_up (fuel : nat) (tokenAddress adapterAddress amount : string) : prog adapterE unit :=
  let! balance := call (BalanceOf tokenAddress adapterAddress) in
  let! decimals := call (Decimals tokenAddress) in
  let! scaledAmount := lift (parseUnits amount decimals) in
  let! threshold := lift (BigNumber_from amount) in
  if balance <? threshold then
    confirm fuel MayBeLost ;;
    let! txn := call (TransferTo tokenAddress adapterAddress scaledAmount) in
    call (WaitTransaction txn)
  else Ret tt.

Definition relay_balance (tokenAddress l2Token adapterAddress : string) : prog adapterE unit :=
  let! balance := call (BalanceOf tokenAddress adapterAddress) in
  let! recipient := call WalletAddress in
  let! gasLimit := call (EstimateGas adapterAddress tokenAddress l2Token balance recipient) in
  let! txn := call (RelayTokens adapterAddress tokenAddress l2Token balance recipient (gasLimit * 2)) in
  call (WaitTransaction txn).

Definition testChainAdapter (fuel : nat) (args : adapter_args) : prog adapterE unit :=
  let! hubChainId := call AdapterChainId in
  let! hubPoolAddress := call (AdapterDeployment "HubPool") in
  match parseInt (ad_chain args), spoke_name (parseInt (ad_chain args)) with
  | Some spokeChainId, Some spokeName =>
      let! adapterAddress := call (AdapterDeployment (adapter_name spokeChainId spokeName)) in
      let tokenSymbol := to_upper (ad_token args) in
      let! tokenAddress := lift (adapter_token tokenSymbol hubChainId) in
      let! l2Token := call (PoolRebalanceRoute spokeChainId tokenAddress) in
      (if bool_decide (l2Token = ZERO_ADDRESS) then confirm fuel ZeroL2Token else Ret tt) ;;
      top_up fuel tokenAddress adapterAddress (ad_amount args) ;;
      relay_balance tokenAddress l2Token adapterAddress
  | _, _ => Throw (assertion "Could not find any chain entry for chainId")
  end.
End Task.

(** ** Balances *)
Record adapter_world := { held : Z; wallet_balance : Z; bridged : list Z }.

Section Service.
(** The hub's chain, the deployments, the L2 token of the hub's route, the
    user's answer, the token's decimals, the wallet and the gas. *)
Context (chainId : string) (deployed : string → result string) (l2 : Z → string → string)
  (ans : string) (decimals gas : Z) (wallet : string).

Definition adapter_services : handler adapter_world adapterE := λ X w c,
  match c in adapterE Y return result Y * adapter_world with
  | AdapterChainId => (Ok chainId, w)
  | AdapterDeployment name => (deployed name, w)
  | PoolRebalanceRoute c t => (Ok (l2 c t), w)
  | AskUser _ => (Ok ans, w)
  | BalanceOf _ _ => (Ok (held w), w)
  | Decimals _ => (Ok decimals, w)
  | TransferTo _ _ amount =>
      if (0 <=? amount) && (amount <=? wallet_balance w)
      then (Ok "0xtransfer"%string, {| held := held w + amount; wallet_balance := wallet_balance w - amount; bridged := bridged w |})
      else (Err (JsError "ERC20: transfer amount exceeds balance"), w)
  | WaitTransaction _ => (Ok tt, w)
  | WalletAddress => (Ok wallet, w)
  | EstimateGas _ _ _ _ _ => (Ok gas, w)
  | RelayTokens _ _ _ amount _ _ =>
      if amount <=? held w
      then (Ok "0xrelay"%string, {| held := held w - amount; wallet_balance := wallet_balance w; bridged := bridged w ++ [amount] |})
      else (Err (JsError "ERC20: transfer amount exceeds balance"), w)
  end.
End Service.

(** ** Properties *)
Section Runs.
Context `{AcrossConstants} `{EthersNumbers} (chain_names token_symbols : list string).
Context (chainId : string) (deployed : string → result string) (l2 : Z → string → string)
  (ans : string) (decimals gas : Z) (wallet : string).
Context (Hyes : to_lower ans = "y"%string).
Local Abbreviation serve := (adapter_services chainId deployed l2 ans decimals gas wallet).

Lemma confirm_run fuel q w : run_state serve w (confirm (S fuel) q) = (Ok tt, w).
Proof.
  unfold confirm. cbn [askYesNo]. rewrite !run_state_bind, run_state_call. cbn [adapter_services].
  by rewrite bool_decide_eq_true_2.
Qed.

Lemma relay_balance_run t l a w : run_state serve w (relay_balance t l a) =
  (Ok tt, {| held := held w - held w; wallet_balance := wallet_balance w; bridged := bridged w ++ [held w] |}).
Proof.
  unfold relay_balance. do 4 (rewrite run_state_bind, run_state_call; cbn [adapter_services]).
  by rewrite (proj2 (Z.leb_le _ _) (Z.le_refl (held w))).
Qed.

Lemma top_up_run fuel t a amount scaled w : parseUnits amount decimals = Ok scaled →
  run_state serve w (top_up (S fuel) t a amount) =
    match BigNumber_from amount with
    | Err e => (Err e, w)
    | Ok threshold =>
        if held w <? threshold then
          if (0 <=? scaled) && (scaled <=? wallet_balance w)
          then (Ok tt, {| held := held w + scaled; wallet_balance := wallet_balance w - scaled; bridged := bridged w |})
          else (Err (JsError "ERC20: transfer amount exceeds balance"), w)
        else (Ok tt, w)
    end.
Proof.
  intros Hs. unfold top_up. do 2 (rewrite run_state_bind, run_state_call; cbn [adapter_services]).
  rewrite Hs. cbn [lift bind]. destruct (BigNumber_from amount) as [n|e]; [|done]. cbn [lift bind].
  destruct (held w <? n); [|done]. rewrite run_state_bind, confirm_run, run_state_bind, run_state_call.
  cbn [adapter_services]. by destruct (_ && _).
Qed.
End Runs.

(** testChainAdapter.ts compares the adapter's balance, in base units, with
    the amount as typed.  With the user confirming, an amount that is not a
    whole number ends the task with an error and nothing is sent; an adapter
    that holds fewer base units than the number typed receives the scaled
    amount and everything it then holds is relayed; any other adapter gets
    nothing and relays what it holds, even if that is less than the amount
    asked for. *)
Theorem adapter_test_relays `{AcrossConstants} `{EthersNumbers} (chain_names token_symbols : list string)
    (chainId : string) (deployed : string → result string) (l2 : Z → string → string) (ans : string)
    (decimals gas : Z) (wallet : string) (fuel : nat) (args : adapter_args) (w : adapter_world)
    (hub adapterAddress spokeName token : string) (spokeChainId scaled : Z) :
  to_lower ans = "y"%string → deployed "HubPool"%string = Ok hub →
  parseInt (ad_chain args) = Some spokeChainId → spoke_name chain_names (Some spokeChainId) = Some spokeName →
  deployed (adapter_name spokeChainId spokeName) = Ok adapterAddress →
  adapter_token token_symbols (to_upper (ad_token args)) chainId = Ok token →
  parseUnits (ad_amount args) decimals = Ok scaled → 0 ≤ scaled ≤ wallet_balance w →
  run_state (adapter_services chainId deployed l2 ans decimals gas wallet) w
    (testChainAdapter chain_names token_symbols (S fuel) args) =
  match BigNumber_from (ad_amount args) with
  | Err e => (Err e, w)
  | Ok typed =>
      let topped := if held w <? typed then scaled else 0 in
      (Ok tt, {| held := 0; wallet_balance := wallet_balance w - topped; bridged := bridged w ++ [held w + topped] |})
  end.
Proof.
  intros Hyes Hhub Hc Hn Ha Ht Hs Hw. unfold testChainAdapter.
  rewrite run_state_bind, run_state_call. cbn [adapter_services].
  rewrite run_state_bind, run_state_call. cbn [adapter_services]. rewrite Hhub, Hc, Hn.
  rewrite run_state_bind, run_state_call. cbn [adapter_services]. rewrite Ha, Ht. cbn [lift bind].
  rewrite run_state_bind, run_state_call. cbn [adapter_services].
  assert (Hz : run_state (adapter_services chainId deployed l2 ans decimals gas wallet) w
    (if bool_decide (l2 spokeChainId token = ZERO_ADDRESS) then confirm (S fuel) ZeroL2Token else Ret tt) = (Ok tt, w)).
  { case_bool_decide; [by apply confirm_run|done]. }
  rewrite run_state_bind, Hz, run_state_bind, (top_up_run _ _ _ _ _ _ _ Hyes _ _ _ _ scaled) by done.
  destruct (BigNumber_from (ad_amount args)) as [typed|e]; [|done]. cbv zeta.
  destruct (held w <? typed).
  - rewrite (proj2 (Z.leb_le 0 scaled)), (proj2 (Z.leb_le scaled (wallet_balance w))) by lia. cbn [andb].
    rewrite relay_balance_run. cbn [held wallet_balance bridged]. by rewrite Z.sub_diag.
  - rewrite relay_balance_run, Z.sub_diag, Z.sub_0_r, Z.add_0_r. done.
Qed.

(** 100 tokens of six decimals asked for, 5000 base units held: these are relayed. *)
Definition ca_args : adapter_args := {| ad_chain := "10"; ad_token := "usdc"; ad_amount := "100" |}.
Definition ca_world : adapter_world := {| held := 5000; wallet_balance := 200000000; bridged := [] |}.

Lemma adapter_test_relays_witness :
  run_state (adapter_services "1" (λ _, Ok "0xdeployed"%string) (λ _ _, "0xl2"%string) "Y" 6 100000 "0xwallet") ca_world
    (testChainAdapter (H := sample_constants) ["OPTIMISM"%string] ["USDC"%string] 1 ca_args) =
  (Ok tt, {| held := 0; wallet_balance := 200000000; bridged := [5000] |}).
Proof.
  etransitivity; [eapply (adapter_test_relays (H := sample_constants) (H0 := toy_numbers) ["OPTIMISM"%string] ["USDC"%string] "1" (λ _, Ok "0xdeployed"%string)
    (λ _ _, "0xl2"%string) "Y" 6 100000 "0xwallet" 0 ca_args ca_world "0xdeployed" "0xdeployed" "OPTIMISM"
    "0xC02aaA39b223FE8D0A0e5C4F27eAD9083C756Cc2" 10 100000000); try reflexivity|vm_compute; reflexivity].
  cbn. lia.
Defined.
