(* ===== verification/Solidity.v ===== *)
(** * Solidity 0.8 arithmetic

    The integer types the contracts use: checked addition, subtraction and
    multiplication (a result outside the type reverts), casts (which wrap),
    array reads (out of range reverts), and the lemmas and the tactic
    [solidity_ok] that read off what a successful computation says. *)

From stdpp Require Import base list strings.
From Stdlib Require Import ZArith Strings.Byte Lia.
From S2P Require Import Prelude Bytes JsText.

(** [Panic(0x11)] and [Panic(0x12)] for arithmetic,
    [Panic(0x32)] for arrays. *)
Definition arithmetic_panic : js_error := JsError "Panic(0x11)".
Definition division_panic : js_error := JsError "Panic(0x12)".
Definition index_panic : js_error := JsError "Panic(0x32)".

Definition uint_fits (w z : Z) : bool := (0 <=? z) && (z <? 2 ^ w).
Definition int_fits (w z : Z) : bool := (- 2 ^ (w - 1) <=? z) && (z <? 2 ^ (w - 1)).

Definition checked_uint (w z : Z) : result Z :=
  if uint_fits w z then Ok z else Err arithmetic_panic.
Definition checked_int (w z : Z) : result Z :=
  if int_fits w z then Ok z else Err arithmetic_panic.

(** [uint256]: [a + b], [a - b], [a * b] and [a / b]. *)
Definition uadd (a b : Z) : result Z := checked_uint 256 (a + b).
Definition usub (a b : Z) : result Z := checked_uint 256 (a - b).
Definition umul (a b : Z) : result Z := checked_uint 256 (a * b).
Definition udiv (a b : Z) : result Z := if b =? 0 then Err division_panic else Ok (a / b).

(** [int256]: [a + b] and [a - b]. *)
Definition iadd (a b : Z) : result Z := checked_int 256 (a + b).
Definition isub (a b : Z) : result Z := checked_int 256 (a - b).

(** Casts keep the low bits. *)
Definition to_uint (w z : Z) : Z := z mod 2 ^ w.
Definition to_int (w z : Z) : Z := (z + 2 ^ (w - 1)) mod 2 ^ w - 2 ^ (w - 1).
Definition uint256 : Z → Z := to_uint 256.
Definition uint32 : Z → Z := to_uint 32.
Definition int256 : Z → Z := to_int 256.

(** [xs[i]] *)
Definition array_get {A} (xs : list A) (i : nat) : result A := from_option_err index_panic (xs !! i).

(** A 32-byte word of [abi.encode]: of an integer (two's complement), of an
    address (left padded), and of an array (its length, then its elements). *)
Definition abi_word (z : Z) : bytes := be_bytes 32 (uint256 z).
Definition address_word (a : string) : bytes :=
  let bs := buffer_from_hex (str_slice_from a 2) in replicate (32 - length bs) x00 ++ bs.
Definition abi_array {A} (word : A → bytes) (xs : list A) : bytes :=
  abi_word (Z.of_nat (length xs)) ++ concat (map word xs).

(** [bytes], padded to whole words. *)
Definition abi_bytes (bs : bytes) : bytes :=
  abi_word (Z.of_nat (length bs)) ++ bs ++ replicate ((32 - length bs mod 32) mod 32) x00.

Definition zero_bytes32 : bytes := replicate 32 x00.

(** [msg.sender], [msg.value] and the time of the block. *)
Record message := { msg_sender : string; msg_value : Z; block_time : Z }.

(** ** What a successful computation says *)

Lemma checked_uint_ok w z r : checked_uint w z = Ok r → r = z ∧ 0 ≤ z < 2 ^ w.
Proof.
  unfold checked_uint, uint_fits. destruct (0 <=? z) eqn:H1, (z <? 2 ^ w) eqn:H2; cbn; try done.
  intros [= <-]. lia.
Qed.

Lemma checked_int_ok w z r : checked_int w z = Ok r → r = z ∧ - 2 ^ (w - 1) ≤ z < 2 ^ (w - 1).
Proof.
  unfold checked_int, int_fits.
  destruct (- 2 ^ (w - 1) <=? z) eqn:H1, (z <? 2 ^ (w - 1)) eqn:H2; cbn; try done.
  intros [= <-]. lia.
Qed.

Lemma checked_uint_intro w z : 0 ≤ z < 2 ^ w → checked_uint w z = Ok z.
Proof.
  intros [H1 H2]. unfold checked_uint, uint_fits.
  by rewrite (proj2 (Z.leb_le _ _) H1), (proj2 (Z.ltb_lt _ _) H2).
Qed.

Lemma uadd_ok a b r : uadd a b = Ok r → r = a + b ∧ 0 ≤ a + b < 2 ^ 256.
Proof. apply checked_uint_ok. Qed.
Lemma usub_ok a b r : usub a b = Ok r → r = a - b ∧ 0 ≤ a - b < 2 ^ 256.
Proof. apply checked_uint_ok. Qed.
Lemma umul_ok a b r : umul a b = Ok r → r = a * b ∧ 0 ≤ a * b < 2 ^ 256.
Proof. apply checked_uint_ok. Qed.
Lemma iadd_ok a b r : iadd a b = Ok r → r = a + b ∧ - 2 ^ 255 ≤ a + b < 2 ^ 255.
Proof. apply (checked_int_ok 256). Qed.
Lemma isub_ok a b r : isub a b = Ok r → r = a - b ∧ - 2 ^ 255 ≤ a - b < 2 ^ 255.
Proof. apply (checked_int_ok 256). Qed.
Lemma udiv_ok a b r : udiv a b = Ok r → r = a / b ∧ b ≠ 0.
Proof. unfold udiv. destruct (b =? 0) eqn:Hb; [done|]. intros [= <-]. lia. Qed.

Lemma to_int_small w z : 0 < w → - 2 ^ (w - 1) ≤ z < 2 ^ (w - 1) → to_int w z = z.
Proof.
  intros Hw Hz. unfold to_int. rewrite Z.mod_small; [lia|].
  replace (2 ^ w) with (2 * 2 ^ (w - 1)); [lia|].
  rewrite <- Z.pow_succ_r by lia. f_equal. lia.
Qed.

(** A cast to [int256] and back keeps the value modulo [2^256]. *)
Lemma int256_mod z : int256 z mod 2 ^ 256 = z mod 2 ^ 256.
Proof.
  unfold int256, to_int. rewrite Zminus_mod_idemp_l. f_equal. lia.
Qed.

Lemma uint256_bound z : 0 ≤ uint256 z < 2 ^ 256.
Proof. apply Z.mod_pos_bound. lia. Qed.

Lemma int256_small z : 0 ≤ z < 2 ^ 255 → int256 z = z.
Proof. intros H. apply to_int_small; lia. Qed.

Lemma uint256_small z : 0 ≤ z < 2 ^ 256 → uint256 z = z.
Proof. intros H. by apply Z.mod_small. Qed.

Lemma uint32_small z : 0 ≤ z < 2 ^ 32 → uint32 z = z.
Proof. intros H. by apply Z.mod_small. Qed.

Lemma uint32_bound z : 0 ≤ uint32 z < 2 ^ 32.
Proof. apply Z.mod_pos_bound. lia. Qed.

(** Reads every arithmetic hypothesis: the result is replaced by the exact
    value, its bounds stay in the context. *)
Ltac solidity_ok :=
  repeat match goal with
  | H : uadd _ _ = Ok _ |- _ => apply uadd_ok in H as [-> ?]
  | H : usub _ _ = Ok _ |- _ => apply usub_ok in H as [-> ?]
  | H : umul _ _ = Ok _ |- _ => apply umul_ok in H as [-> ?]
  | H : iadd _ _ = Ok _ |- _ => apply iadd_ok in H as [-> ?]
  | H : isub _ _ = Ok _ |- _ => apply isub_ok in H as [-> ?]
  | H : udiv _ _ = Ok _ |- _ => apply udiv_ok in H as [-> ?]
  end.

Lemma array_get_ok {A} (xs : list A) i x : array_get xs i = Ok x → xs !! i = Some x.
Proof. unfold array_get. by destruct (xs !! i); [intros [= ->]|]. Qed.

#[export] Hint Rewrite int256_small uint256_small uint32_small using lia : across.
