(* ===== verification/HubWorld.v ===== *)
(** * The contracts the hub pool calls

    ERC-20 tokens, WETH, LP tokens and their factory, the UMA contracts and
    the chain adapters, as type classes over the state [W] of everything
    outside the hub pool, with the documented effect of each successful call
    on balances, and a small concrete world that has the laws. *)

From stdpp Require Import base gmap strings list.
From Stdlib Require Import ZArith Lia Strings.Byte.
From S2P Require Import Prelude Bytes JsText Interfaces HubPoolAdmin Solidity.

Abbreviation address := string (only parsing).

(** [from] pays [to]: the effect of a transfer of [token]. *)
Definition pays (bal bal' : address → address → Z) (token from to : address) (amount : Z) : Prop :=
  ∀ t k, bal' t k = bal t k - (if decide (t = token ∧ k = from) then amount else 0)
                            + (if decide (t = token ∧ k = to) then amount else 0).

(** [k]'s balance of [token] falls by [amount], its other balances stay. *)
Definition spends (bal bal' : address → address → Z) (k token : address) (amount : Z) : Prop :=
  ∀ t, bal' t k = bal t k - (if decide (t = token) then amount else 0).

(** A transfer seen from the side of one who takes part. *)
Lemma pays_to bal bal' token from a k t : pays bal bal' token from k a → from ≠ k →
  bal' t k = bal t k + (if decide (t = token) then a else 0).
Proof.
  intros Hp Hne. rewrite Hp. rewrite (decide_False (P := t = token ∧ k = from)) by (by intros [_ ->]).
  destruct (decide (t = token)) as [->|]; [rewrite decide_True by done|rewrite decide_False by (by intros [??])]; lia.
Qed.

Lemma pays_from bal bal' token to a k t : pays bal bal' token k to a → 0 ≤ a →
  bal t k - (if decide (t = token) then a else 0) ≤ bal' t k.
Proof.
  intros Hp Ha'. rewrite Hp.
  destruct (decide (t = token)) as [->|].
  - rewrite decide_True by done. case_decide; lia.
  - rewrite !decide_False by (by intros [??]). lia.
Qed.

(** ERC-20 tokens that charge no fee on transfers (the contract's stated
    assumption), WETH, the LP tokens and their factory, and plain ether.  The
    caller of each function is written out as an argument. *)
Class Tokens (W : Type) := {
  balanceOf : W → address → address → Z;
  totalSupply : W → address → Z;
  safeTransfer : W → address → address → address → Z → result W;
  transfer : W → address → address → address → Z → result (bool * W);
  safeTransferFrom : W → address → address → address → address → Z → result W;
  safeIncreaseAllowance : W → address → address → address → Z → result W;
  safeApprove : W → address → address → address → Z → result W;
  lp_mint : W → address → address → address → Z → result W;
  lp_burnFrom : W → address → address → address → Z → result W;
  createLpToken : W → address → address → result (address * W);
  weth_deposit : W → address → address → Z → result W;
  weth_withdraw : W → address → address → Z → result W;
  sendValue : W → address → address → Z → result W;

  balance_nonneg : ∀ w t k, 0 ≤ balanceOf w t k;
  supply_nonneg : ∀ w t, 0 ≤ totalSupply w t;
  safeTransfer_spec : ∀ w t from to a w', safeTransfer w t from to a = Ok w' →
    pays (balanceOf w) (balanceOf w') t from to a ∧
    (∀ t', totalSupply w' t' = totalSupply w t');
  transfer_spec : ∀ w t from to a ok w', transfer w t from to a = Ok (ok, w') →
    if ok then pays (balanceOf w) (balanceOf w') t from to a else w' = w;
  safeTransferFrom_spec : ∀ w t by_ from to a w', safeTransferFrom w t by_ from to a = Ok w' →
    pays (balanceOf w) (balanceOf w') t from to a ∧
    (∀ t', totalSupply w' t' = totalSupply w t');
  safeIncreaseAllowance_spec : ∀ w t by_ to a w', safeIncreaseAllowance w t by_ to a = Ok w' →
    ∀ t' k, balanceOf w' t' k = balanceOf w t' k;
  safeApprove_spec : ∀ w t by_ to a w', safeApprove w t by_ to a = Ok w' →
    ∀ t' k, balanceOf w' t' k = balanceOf w t' k;
  lp_mint_spec : ∀ w t by_ to a w', lp_mint w t by_ to a = Ok w' →
    (∀ t' k, balanceOf w' t' k = balanceOf w t' k + (if decide (t' = t ∧ k = to) then a else 0)) ∧
    (∀ t', totalSupply w' t' = totalSupply w t' + (if decide (t' = t) then a else 0));
  lp_burnFrom_spec : ∀ w t by_ from a w', lp_burnFrom w t by_ from a = Ok w' →
    0 ≤ a ≤ totalSupply w t ∧
    (∀ t' k, balanceOf w' t' k = balanceOf w t' k - (if decide (t' = t ∧ k = from) then a else 0)) ∧
    (∀ t', totalSupply w' t' = totalSupply w t' - (if decide (t' = t) then a else 0));
  createLpToken_spec : ∀ w l1Token minter t w', createLpToken w l1Token minter = Ok (t, w') →
    t ≠ zero_address ∧ ∀ t' k, balanceOf w t' k ≤ balanceOf w' t' k;
  weth_deposit_spec : ∀ w weth by_ value w', weth_deposit w weth by_ value = Ok w' →
    (∀ t k, balanceOf w' t k = balanceOf w t k + (if decide (t = weth ∧ k = by_) then value else 0)) ∧
    (∀ t', t' ≠ weth → totalSupply w' t' = totalSupply w t');
  weth_withdraw_spec : ∀ w weth by_ value w', weth_withdraw w weth by_ value = Ok w' →
    spends (balanceOf w) (balanceOf w') by_ weth value;
  sendValue_spec : ∀ w from to value w', sendValue w from to value = Ok w' →
    ∀ t, balanceOf w' t from = balanceOf w t from
}.

(** UMA: the finder, its whitelists, the store of final fees and the skinny
    optimistic oracle.  A price request costs its proposer's bond and final
    fee, which the caller pays; so does a dispute. *)
Record OracleRequest := {
  rq_proposer : address; rq_disputer : address; rq_currency : address; rq_settled : bool;
  rq_proposedPrice : Z; rq_resolvedPrice : Z; rq_expirationTime : Z; rq_reward : Z;
  rq_finalFee : Z; rq_bond : Z; rq_customLiveness : Z
}.

Class Uma (W : Type) `{Tokens W} := {
  getImplementationAddress : W → string → result address;
  isOnWhitelist : W → address → address → bool;
  isIdentifierSupported : W → address → bytes → bool;
  computeFinalFee : W → address → address → Z;
  requestAndProposePriceFor :
    W → address → address → bytes → Z → bytes → address → Z → Z → Z → address → Z → result (Z * W);
  disputePriceFor : W → address → address → bytes → Z → bytes → OracleRequest → address → address → result W;

  finalFee_range : ∀ w store t, 0 ≤ computeFinalFee w store t < 2 ^ 256;
  requestAndProposePriceFor_spec : ∀ w oracle by_ id ts data currency reward bond lv proposer price
      store x w',
    getImplementationAddress w "Store" = Ok store →
    requestAndProposePriceFor w oracle by_ id ts data currency reward bond lv proposer price = Ok (x, w') →
    bond ≠ 0 →
    spends (balanceOf w) (balanceOf w') by_ currency (reward + bond + computeFinalFee w store currency);
  disputePriceFor_spec : ∀ w oracle by_ id ts data rq disputer requester w',
    disputePriceFor w oracle by_ id ts data rq disputer requester = Ok w' →
    spends (balanceOf w) (balanceOf w') by_ (rq_currency rq) (rq_bond rq + rq_finalFee rq);
  allowance_keeps_fees : ∀ w t by_ to a w' store currency, safeIncreaseAllowance w t by_ to a = Ok w' →
    getImplementationAddress w' "Store" = getImplementationAddress w "Store" ∧
    computeFinalFee w' store currency = computeFinalFee w store currency
}.

(** What a spoke pool is told. *)
Inductive spoke_message :=
| AdminCall (c : spoke_call)
| RelayRootBundle (relayerRefundRoot slowRelayRoot : bytes).

#[export] Instance spoke_message_eq_dec : EqDecision spoke_message.
Proof. solve_decision. Defined.

(** The adapters ([AdapterInterface]), run by [delegatecall], so that they
    spend the hub pool's tokens; they write none of its storage. *)
Class Adapters (W : Type) `{Tokens W} := {
  isContract : W → address → bool;
  relayTokens : W → address → address → address → address → Z → address → result W;
  relayMessage : W → address → address → address → spoke_message → result W;

  relayTokens_spec : ∀ w adapter hub l1 l2 a to w', relayTokens w adapter hub l1 l2 a to = Ok w' →
    spends (balanceOf w) (balanceOf w') hub l1 a;
  relayMessage_spec : ∀ w adapter hub target m w', relayMessage w adapter hub target m = Ok w' →
    ∀ t, balanceOf w t hub ≤ balanceOf w' t hub
}.


(** ** A concrete world *)

(** Balances and supplies as naturals, and one final fee for every token. *)
Record toy_world := {
  tw_balances : gmap (address * address) N;
  tw_supplies : gmap address N;
  tw_finalFee : N
}.

Definition tw_balance (w : toy_world) (t k : address) : Z := Z.of_N (default 0%N (tw_balances w !! (t, k))).
Definition tw_supply (w : toy_world) (t : address) : Z := Z.of_N (default 0%N (tw_supplies w !! t)).

Definition tw_set (w : toy_world) (t k : address) (v : Z) : toy_world :=
  {| tw_balances := <[(t, k) := Z.to_N v]> (tw_balances w); tw_supplies := tw_supplies w;
     tw_finalFee := tw_finalFee w |}.
Definition tw_set_supply (w : toy_world) (t : address) (v : Z) : toy_world :=
  {| tw_balances := tw_balances w; tw_supplies := <[t := Z.to_N v]> (tw_supplies w);
     tw_finalFee := tw_finalFee w |}.

Definition tw_credit (w : toy_world) (t k : address) (a : Z) : result toy_world :=
  if 0 <=? a then Ok (tw_set w t k (tw_balance w t k + a)) else Err arithmetic_panic.
Definition tw_debit (w : toy_world) (t k : address) (a : Z) : result toy_world :=
  if (0 <=? a) && (a <=? tw_balance w t k) then Ok (tw_set w t k (tw_balance w t k - a))
  else Err (JsError "insufficient balance").
Definition tw_move (w : toy_world) (t from to : address) (a : Z) : result toy_world :=
  let? w := tw_debit w t from a in tw_credit w t to a.
Definition tw_mint (w : toy_world) (t to : address) (a : Z) : result toy_world :=
  let? w := tw_credit w t to a in Ok (tw_set_supply w t (tw_supply w t + a)).
Definition tw_burn (w : toy_world) (t from : address) (a : Z) : result toy_world :=
  if a <=? tw_supply w t
  then let? w := tw_debit w t from a in Ok (tw_set_supply w t (tw_supply w t - a))
  else Err arithmetic_panic.

Lemma tw_set_balance w t k v t' k' : 0 ≤ v →
  tw_balance (tw_set w t k v) t' k' = if decide (t' = t ∧ k' = k) then v else tw_balance w t' k'.
Proof.
  intros Hv. unfold tw_balance, tw_set. cbn. destruct (decide _) as [[-> ->]|Hne].
  - rewrite lookup_insert_eq. cbn. lia.
  - rewrite lookup_insert_ne by (intros [=]; naive_solver). done.
Qed.

Lemma tw_set_supply_spec w t v t' : 0 ≤ v →
  tw_supply (tw_set_supply w t v) t' = if decide (t' = t) then v else tw_supply w t'.
Proof.
  intros Hv. unfold tw_supply, tw_set_supply. cbn. destruct (decide _) as [->|Hne].
  - rewrite lookup_insert_eq. cbn. lia.
  - by rewrite lookup_insert_ne by done.
Qed.

Lemma tw_balance_nonneg w t k : 0 ≤ tw_balance w t k.
Proof. unfold tw_balance. lia. Qed.
Lemma tw_supply_nonneg w t : 0 ≤ tw_supply w t.
Proof. unfold tw_supply. lia. Qed.

Lemma tw_credit_spec w t k a w' : tw_credit w t k a = Ok w' → 0 ≤ a ∧
  (∀ t' k', tw_balance w' t' k' = tw_balance w t' k' + (if decide (t' = t ∧ k' = k) then a else 0)) ∧
  (∀ t', tw_supply w' t' = tw_supply w t').
Proof.
  unfold tw_credit. destruct (0 <=? a) eqn:Ha; [|done]. intros [= <-].
  pose proof (tw_balance_nonneg w t k). apply Z.leb_le in Ha.
  split; [lia|]. split; [|done]. intros t' k'. rewrite tw_set_balance by lia.
  destruct (decide _) as [[-> ->]|]; lia.
Qed.

Lemma tw_debit_spec w t k a w' : tw_debit w t k a = Ok w' → 0 ≤ a ∧
  (∀ t' k', tw_balance w' t' k' = tw_balance w t' k' - (if decide (t' = t ∧ k' = k) then a else 0)) ∧
  (∀ t', tw_supply w' t' = tw_supply w t').
Proof.
  unfold tw_debit. destruct (_ && _) eqn:Ha; [|done]. intros [= <-].
  pose proof (tw_balance_nonneg w t k). bool_to_prop.
  split; [lia|]. split; [|done]. intros t' k'. rewrite tw_set_balance by lia.
  destruct (decide _) as [[-> ->]|]; lia.
Qed.

Lemma tw_spends w t k a w' : tw_debit w t k a = Ok w' → spends (tw_balance w) (tw_balance w') k t a.
Proof.
  intros (_ & Hb & _)%tw_debit_spec t'. rewrite Hb.
  destruct (decide (t' = t)) as [->|]; [rewrite decide_True by done|rewrite decide_False by (by intros [??])]; done.
Qed.

Lemma tw_move_spec w t from to a w' : tw_move w t from to a = Ok w' →
  pays (tw_balance w) (tw_balance w') t from to a ∧ (∀ t', tw_supply w' t' = tw_supply w t').
Proof.
  unfold tw_move. intros Hx. passes Hx.
  apply tw_debit_spec in Heqr as (_ & H1 & H2). apply tw_credit_spec in Hx as (_ & H3 & H4).
  split; [intros t' k|intros t']; [by rewrite H3, H1|by rewrite H4, H2].
Qed.

Lemma tw_mint_spec w t to a w' : tw_mint w t to a = Ok w' →
  (∀ t' k, tw_balance w' t' k = tw_balance w t' k + (if decide (t' = t ∧ k = to) then a else 0)) ∧
  (∀ t', tw_supply w' t' = tw_supply w t' + (if decide (t' = t) then a else 0)).
Proof.
  unfold tw_mint. intros Hx. passes Hx. injection Hx as <-.
  apply tw_credit_spec in Heqr as (Ha & H1 & H2). split; [exact H1|].
  intros t'. pose proof (tw_supply_nonneg a0 t). rewrite tw_set_supply_spec by lia.
  rewrite !H2. destruct (decide _) as [->|]; lia.
Qed.

Lemma tw_burn_spec w t from a w' : tw_burn w t from a = Ok w' →
  0 ≤ a ≤ tw_supply w t ∧
  (∀ t' k, tw_balance w' t' k = tw_balance w t' k - (if decide (t' = t ∧ k = from) then a else 0)) ∧
  (∀ t', tw_supply w' t' = tw_supply w t' - (if decide (t' = t) then a else 0)).
Proof.
  unfold tw_burn. destruct (a <=? tw_supply w t) eqn:Hle; [|done]. intros Hx. passes Hx.
  injection Hx as <-. apply tw_debit_spec in Heqr as (Ha & H1 & H2). apply Z.leb_le in Hle.
  split; [done|]. split; [exact H1|]. intros t'. rewrite tw_set_supply_spec by (rewrite H2; lia).
  rewrite !H2. destruct (decide _) as [->|]; lia.
Qed.

Definition tw_deposit (w : toy_world) (weth by_ : address) (value : Z) : result toy_world :=
  tw_mint w weth by_ value.

#[export] Instance toy_tokens : Tokens toy_world.
Proof.
  refine {| balanceOf := tw_balance; totalSupply := tw_supply; safeTransfer := tw_move;
            transfer w t from to a := let? w := tw_move w t from to a in Ok (true, w);
            safeTransferFrom w t _ from to a := tw_move w t from to a;
            safeIncreaseAllowance w _ _ _ _ := Ok w; safeApprove w _ _ _ _ := Ok w;
            lp_mint w t _ to a := tw_mint w t to a; lp_burnFrom w t _ from a := tw_burn w t from a;
            createLpToken w l1 _ := Ok (String.append "LP-" l1, w);
            weth_deposit := tw_deposit; weth_withdraw := tw_debit; sendValue w _ _ _ := Ok w |}.
  - apply tw_balance_nonneg.
  - apply tw_supply_nonneg.
  - intros *. apply tw_move_spec.
  - intros * Hx. passes Hx. injection Hx as <- <-. by apply tw_move_spec.
  - intros w t by_ from to a w' Hx. by apply tw_move_spec.
  - intros; cbn in *; by simplify_eq.
  - intros; cbn in *; by simplify_eq.
  - intros w t by_ to a w' Hx. by apply tw_mint_spec in Hx.
  - intros w t by_ from a w' Hx. by apply tw_burn_spec in Hx.
  - intros; cbn in *; by simplify_eq.
  - intros * (H1 & H2)%tw_mint_spec. split; [done|]. intros t' Hne. by rewrite H2, decide_False, Z.add_0_r.
  - intros *. apply tw_spends.
  - intros; cbn in *; by simplify_eq.
Defined.

#[export] Instance toy_uma : Uma toy_world.
Proof.
  refine {| getImplementationAddress _ name := Ok name; isOnWhitelist _ _ _ := true;
            isIdentifierSupported _ _ _ := true; computeFinalFee w _ _ := Z.of_N (tw_finalFee w mod 2 ^ 256);
            requestAndProposePriceFor w _ by_ _ _ _ currency reward bond _ _ _ :=
              let? w' := tw_debit w currency by_ (reward + bond + Z.of_N (tw_finalFee w mod 2 ^ 256)) in
              Ok (bond, w');
            disputePriceFor w _ by_ _ _ _ rq _ _ :=
              tw_debit w (rq_currency rq) by_ (rq_bond rq + rq_finalFee rq) |}.
  - intros w _ _. split; [apply N2Z.is_nonneg|]. pose proof (N.mod_lt (tw_finalFee w) (2 ^ 256) ltac:(done)).
    apply N2Z.inj_lt in H. by rewrite N2Z.inj_pow in H.
  - intros w ????????????? w' _ Hx _. cbn in Hx. passes Hx. injection Hx as <- <-. by apply tw_spends.
  - intros; by apply tw_spends.
  - intros; cbn in *; by simplify_eq.
Defined.

#[export] Instance toy_adapters : Adapters toy_world.
Proof.
  refine {| isContract _ _ := true; relayTokens w _ hub l1 _ a _ := tw_debit w l1 hub a;
            relayMessage w _ _ _ _ := Ok w |}.
  - intros; by apply tw_spends.
  - intros; cbn in *; by simplify_eq.
Defined.
