(* ===== verification/HubPool.v ===== *)
(** * HubPool.sol: the state machine of the hub pool

    The whole contract [contracts/HubPool.sol]: the storage, every public
    function with its modifiers, and the internal functions it calls, in the
    order of the source.  A call takes the message ([msg]), the storage and
    the world outside the contract (tokens, adapters, the oracle), and gives
    the new ones or reverts, which leaves both unchanged.  The lock of
    [nonReentrant] is what lets an external call be one step on the world.

    [HubPoolAdmin] holds the smaller view of the same contract the token task
    is verified against; [HubPoolViews] proves that this model refines it. *)

From stdpp Require Import base gmap strings list.
From Stdlib Require Import ZArith Lia Strings.Byte.
From S2P Require Import Prelude Bytes JsText Interfaces HubPoolAdmin SvmSpoke Solidity HubWorld.

(** ** Storage *)

Record RootBundle := {
  poolRebalanceRoot : bytes;
  relayerRefundRoot : bytes;
  slowRelayRoot : bytes;
  claimedBitMap : Z;
  proposer : address;
  unclaimedPoolRebalanceLeafCount : Z;
  challengePeriodEndTimestamp : Z
}.

(** [delete rootBundleProposal] *)
Definition no_bundle : RootBundle :=
  {| poolRebalanceRoot := zero_bytes32; relayerRefundRoot := zero_bytes32;
     slowRelayRoot := zero_bytes32; claimedBitMap := 0; proposer := zero_address;
     unclaimedPoolRebalanceLeafCount := 0; challengePeriodEndTimestamp := 0 |}.

Record PooledToken := {
  lpToken : address;
  isEnabled : bool;
  lastLpFeeUpdate : Z;
  utilizedReserves : Z;
  liquidReserves : Z;
  undistributedLpFees : Z
}.

Definition no_token : PooledToken :=
  {| lpToken := zero_address; isEnabled := false; lastLpFeeUpdate := 0;
     utilizedReserves := 0; liquidReserves := 0; undistributedLpFees := 0 |}.

Record PoolRebalanceLeaf := {
  chainId : Z;
  bundleLpFees : list Z;
  netSendAmounts : list Z;
  runningBalances : list Z;
  groupIndex : Z;
  leafId : Z;
  l1Tokens : list address
}.

(** The variables only the owner sets. *)
Record HubSettings := {
  hub_owner : address;
  paused : bool;
  protocolFeeCaptureAddress : address;
  protocolFeeCapturePct : Z;
  bondToken : address;
  bondAmount : Z;
  liveness : Z;
  identifier : bytes;
  lpFeeRatePerSecond : Z
}.

Inductive hub_event :=
| Paused (isPaused : bool)
| EmergencyRootBundleDeleted (rebalance refund slow : bytes) (proposer : address)
| ProtocolFeeCaptureSet (who : address) (pct : Z)
| ProtocolFeesCapturedClaimed (l1Token : address) (accumulatedFees : Z)
| BondSet (token : address) (amount : Z)
| LivenessSet (newLiveness : Z)
| IdentifierSet (newIdentifier : bytes)
| CrossChainContractsSet (l2ChainId : Z) (adapter spokePool : address)
| L1TokenEnabledForLiquidityProvision (l1Token lpToken : address)
| L2TokenDisabledForLiquidityProvision (l1Token lpToken : address)
| LiquidityAdded (l1Token : address) (amount lpTokensMinted : Z) (liquidityProvider : address)
| LiquidityRemoved (l1Token : address) (amount lpTokensBurnt : Z) (liquidityProvider : address)
| SetPoolRebalanceRouteEvent (destinationChainId : Z) (l1Token destinationToken : address)
| SetEnableDepositRoute (originChainId destinationChainId : Z) (originToken : address) (enabled : bool)
| ProposeRootBundle (challengePeriodEnd leafCount : Z) (blocks : list Z) (rebalance refund slow : bytes)
    (proposer : address)
| RootBundleExecuted (leaf : PoolRebalanceLeaf) (caller : address)
| SpokePoolAdminFunctionTriggered (chain : Z) (message : spoke_call)
| RootBundleDisputed (disputer : address) (requestTime : Z)
| RootBundleCanceled (disputer : address) (requestTime : Z)
(** emitted by the adapters, in the name of the hub pool *)
| MessageRelayed (target : address) (message : spoke_message)
| TokensRelayed (l1Token l2Token : address) (amount : Z) (to : address).

Record hub_pool (W : Type) := {
  settings : HubSettings;
  rootBundleProposal : RootBundle;
  pooledTokens : gmap address PooledToken;
  poolRebalanceRoutes : gmap (address * Z) address;   (* keyed by the hash of the pair *)
  crossChainContracts : gmap Z CrossChainContract;
  unclaimedAccumulatedProtocolFees : gmap address Z;
  events : list hub_event;
  world : W
}.
Arguments settings {W} _.
Arguments rootBundleProposal {W} _.
Arguments pooledTokens {W} _.
Arguments poolRebalanceRoutes {W} _.
Arguments crossChainContracts {W} _.
Arguments unclaimedAccumulatedProtocolFees {W} _.
Arguments events {W} _.
Arguments world {W} _.

(** *** Assignments *)

Section Storage.
Context {W : Type}.
Implicit Types s : hub_pool W.

Definition set_settings s v : hub_pool W :=
  {| settings := v; rootBundleProposal := rootBundleProposal s; pooledTokens := pooledTokens s;
     poolRebalanceRoutes := poolRebalanceRoutes s; crossChainContracts := crossChainContracts s;
     unclaimedAccumulatedProtocolFees := unclaimedAccumulatedProtocolFees s;
     events := events s; world := world s |}.
Definition set_proposal s v : hub_pool W :=
  {| settings := settings s; rootBundleProposal := v; pooledTokens := pooledTokens s;
     poolRebalanceRoutes := poolRebalanceRoutes s; crossChainContracts := crossChainContracts s;
     unclaimedAccumulatedProtocolFees := unclaimedAccumulatedProtocolFees s;
     events := events s; world := world s |}.
Definition set_token s l1Token p : hub_pool W :=
  {| settings := settings s; rootBundleProposal := rootBundleProposal s;
     pooledTokens := <[l1Token := p]> (pooledTokens s);
     poolRebalanceRoutes := poolRebalanceRoutes s; crossChainContracts := crossChainContracts s;
     unclaimedAccumulatedProtocolFees := unclaimedAccumulatedProtocolFees s;
     events := events s; world := world s |}.
Definition set_route s k v : hub_pool W :=
  {| settings := settings s; rootBundleProposal := rootBundleProposal s;
     pooledTokens := pooledTokens s;
     poolRebalanceRoutes := <[k := v]> (poolRebalanceRoutes s);
     crossChainContracts := crossChainContracts s;
     unclaimedAccumulatedProtocolFees := unclaimedAccumulatedProtocolFees s;
     events := events s; world := world s |}.
Definition set_contracts s k v : hub_pool W :=
  {| settings := settings s; rootBundleProposal := rootBundleProposal s;
     pooledTokens := pooledTokens s; poolRebalanceRoutes := poolRebalanceRoutes s;
     crossChainContracts := <[k := v]> (crossChainContracts s);
     unclaimedAccumulatedProtocolFees := unclaimedAccumulatedProtocolFees s;
     events := events s; world := world s |}.
Definition set_unclaimed s l1Token v : hub_pool W :=
  {| settings := settings s; rootBundleProposal := rootBundleProposal s;
     pooledTokens := pooledTokens s; poolRebalanceRoutes := poolRebalanceRoutes s;
     crossChainContracts := crossChainContracts s;
     unclaimedAccumulatedProtocolFees := <[l1Token := v]> (unclaimedAccumulatedProtocolFees s);
     events := events s; world := world s |}.
Definition emit s e : hub_pool W :=
  {| settings := settings s; rootBundleProposal := rootBundleProposal s;
     pooledTokens := pooledTokens s; poolRebalanceRoutes := poolRebalanceRoutes s;
     crossChainContracts := crossChainContracts s;
     unclaimedAccumulatedProtocolFees := unclaimedAccumulatedProtocolFees s;
     events := events s ++ [e]; world := world s |}.
Definition set_world s w : hub_pool W :=
  {| settings := settings s; rootBundleProposal := rootBundleProposal s;
     pooledTokens := pooledTokens s; poolRebalanceRoutes := poolRebalanceRoutes s;
     crossChainContracts := crossChainContracts s;
     unclaimedAccumulatedProtocolFees := unclaimedAccumulatedProtocolFees s;
     events := events s; world := w |}.

(** Reads of a mapping: the zero value where nothing was written. *)
Definition pooled s (l1Token : address) : PooledToken := default no_token (pooledTokens s !! l1Token).
Definition route s (l1Token : address) (chain : Z) : address :=
  default zero_address (poolRebalanceRoutes s !! (l1Token, chain)).
Definition unclaimed_fees s (l1Token : address) : Z :=
  default 0 (unclaimedAccumulatedProtocolFees s !! l1Token).
End Storage.
Arguments pooled : simpl never.
Arguments route : simpl never.
Arguments unclaimed_fees : simpl never.

(** Updates of one field of a struct in storage. *)
Definition with_reserves (p : PooledToken) (utilized liquid : Z) : PooledToken :=
  {| lpToken := lpToken p; isEnabled := isEnabled p; lastLpFeeUpdate := lastLpFeeUpdate p;
     utilizedReserves := utilized; liquidReserves := liquid;
     undistributedLpFees := undistributedLpFees p |}.
Definition with_fees (p : PooledToken) (undistributed : Z) (updated : Z) : PooledToken :=
  {| lpToken := lpToken p; isEnabled := isEnabled p; lastLpFeeUpdate := updated;
     utilizedReserves := utilizedReserves p; liquidReserves := liquidReserves p;
     undistributedLpFees := undistributed |}.
Definition with_enabled (p : PooledToken) (enabled : bool) : PooledToken :=
  {| lpToken := lpToken p; isEnabled := enabled; lastLpFeeUpdate := lastLpFeeUpdate p;
     utilizedReserves := utilizedReserves p; liquidReserves := liquidReserves p;
     undistributedLpFees := undistributedLpFees p |}.
Definition with_claims (b : RootBundle) (bitmap unclaimed : Z) : RootBundle :=
  {| poolRebalanceRoot := poolRebalanceRoot b; relayerRefundRoot := relayerRefundRoot b;
     slowRelayRoot := slowRelayRoot b; claimedBitMap := bitmap; proposer := proposer b;
     unclaimedPoolRebalanceLeafCount := unclaimed;
     challengePeriodEndTimestamp := challengePeriodEndTimestamp b |}.

(** ** MerkleLib.sol *)

Definition isClaimed1D (bitmap index : Z) : bool :=
  let mask := Z.shiftl 1 index in Z.land bitmap mask =? mask.
Definition setClaimed1D (bitmap index : Z) : Z := Z.lor bitmap (Z.shiftl 1 index).

(** [abi.encode(rebalance)]: the offset of the struct, its head with the
    offsets of the four arrays, then the arrays. *)
Definition abi_encode_leaf (l : PoolRebalanceLeaf) : bytes :=
  let fees := abi_array abi_word (bundleLpFees l) in
  let sends := abi_array abi_word (netSendAmounts l) in
  let balances := abi_array abi_word (runningBalances l) in
  let tokens := abi_array address_word (l1Tokens l) in
  let size (bs : bytes) := Z.of_nat (length bs) in
  abi_word 32 ++
  abi_word (chainId l) ++ abi_word 224 ++ abi_word (224 + size fees) ++
  abi_word (224 + size fees + size sends) ++ abi_word (groupIndex l) ++ abi_word (leafId l) ++
  abi_word (224 + size fees + size sends + size balances) ++
  fees ++ sends ++ balances ++ tokens.

Definition verifyPoolRebalance `{Keccak} (root : bytes) (rebalance : PoolRebalanceLeaf)
    (proof : list bytes) : bool :=
  bool_decide (process_proof proof (keccak (abi_encode_leaf rebalance)) = root).

(** ** The contract *)

Section Contract.
Context {W : Type} `{!Keccak} `{Ht : !Tokens W} `{Hu : !Uma W} `{Ha : !Adapters W}.
(** [address(this)] and the immutable [weth]. *)
Context (this weth : address).
Implicit Types s : hub_pool W.

(** *** Internal functions *)

Definition _activeRequest s : bool :=
  negb (unclaimedPoolRebalanceLeafCount (rootBundleProposal s) =? 0).

Definition onlyOwner (m : message) s : result unit :=
  require (bool_decide (msg_sender m = hub_owner (settings s)))
    (revert "Ownable: caller is not the owner").
Definition noActiveRequests s : result unit :=
  require (negb (_activeRequest s)) (revert "Proposal has unclaimed leaves").
Definition unpaused s : result unit :=
  require (negb (paused (settings s))) (revert "Contract is paused").

(** A call whose failure is bubbled up, on the world. *)
Definition external s (r : result W) : result (hub_pool W) :=
  let? w := r in Ok (set_world s w).

(** [(bool success, ) = adapter.delegatecall(...); require(success, ...)] *)
Definition delegatecall s (r : result W) (e : hub_event) : result (hub_pool W) :=
  match r with
  | Ok w => Ok (emit (set_world s w) e)
  | Err _ => Err (revert "delegatecall failed")
  end.

Definition _getInitializedCrossChainContracts s (chain : Z) : result (address * address) :=
  let c := default {| adapter := zero_address; spokePool := zero_address |}
             (crossChainContracts s !! chain) in
  let? _ := require (negb (bool_decide (spokePool c = zero_address)))
              (revert "SpokePool not initialized") in
  let? _ := require (isContract (world s) (adapter c)) (revert "Adapter not initialized") in
  Ok (adapter c, spokePool c).

Definition _relaySpokePoolAdminFunction s (chain : Z) (functionData : spoke_call)
  : result (hub_pool W) :=
  let? c := _getInitializedCrossChainContracts s chain in
  let? s := delegatecall s (relayMessage (world s) c.1 this c.2 (AdminCall functionData))
              (MessageRelayed c.2 (AdminCall functionData)) in
  Ok (emit s (SpokePoolAdminFunctionTriggered chain functionData)).

Definition _getOptimisticOracle s : result address :=
  getImplementationAddress (world s) "SkinnyOptimisticOracle".

Definition _getBondTokenFinalFee s : result Z :=
  let? store := getImplementationAddress (world s) "Store" in
  Ok (computeFinalFee (world s) store (bondToken (settings s))).

(** [bondToken.transfer] here, not [safeTransfer]: its answer is dropped. *)
Definition _cancelBundle (m : message) s : result (hub_pool W) :=
  let? r := transfer (world s) (bondToken (settings s)) this (proposer (rootBundleProposal s))
              (bondAmount (settings s)) in
  Ok (emit (set_proposal (set_world s r.2) no_bundle) (RootBundleCanceled (msg_sender m) (block_time m))).

Definition _getAccumulatedFees (m : message) s (undistributed last : Z) : result Z :=
  let? timeFromLastInteraction := usub (block_time m) last in
  let? rate := umul undistributed (lpFeeRatePerSecond (settings s)) in
  let? total := umul rate timeFromLastInteraction in
  let? maxUndistributedLpFees := udiv total (10 ^ 18) in
  Ok (if maxUndistributedLpFees <? undistributed then maxUndistributedLpFees else undistributed).

Definition _updateAccumulatedLpFees (m : message) s (l1Token : address) : result (hub_pool W) :=
  let p := pooled s l1Token in
  let? accumulatedFees := _getAccumulatedFees m s (undistributedLpFees p) (lastLpFeeUpdate p) in
  let? remaining := usub (undistributedLpFees p) accumulatedFees in
  Ok (set_token s l1Token (with_fees p remaining (uint32 (block_time m)))).

Definition _sync s (l1Token : address) : result (hub_pool W) :=
  let p := pooled s l1Token in
  let balance := balanceOf (world s) l1Token this in
  let? balanceSansBond :=
    if bool_decide (l1Token = bondToken (settings s)) && _activeRequest s
    then usub balance (bondAmount (settings s)) else Ok balance in
  if liquidReserves p <? balanceSansBond
  then let? difference := usub balanceSansBond (liquidReserves p) in
       let? utilized := isub (utilizedReserves p) (int256 difference) in
       Ok (set_token s l1Token (with_reserves p utilized balanceSansBond))
  else Ok s.

Definition _exchangeRateCurrent (m : message) s (l1Token : address) : result (Z * hub_pool W) :=
  let lpTokenTotalSupply := totalSupply (world s) (lpToken (pooled s l1Token)) in
  if lpTokenTotalSupply =? 0 then Ok (10 ^ 18, s)
  else
    let? s := _updateAccumulatedLpFees m s l1Token in
    let? s := _sync s l1Token in
    let p := pooled s l1Token in
    let? assets := iadd (int256 (liquidReserves p)) (utilizedReserves p) in
    let? numerator := isub assets (int256 (undistributedLpFees p)) in
    let? scaled := umul (uint256 numerator) (10 ^ 18) in
    let? rate := udiv scaled lpTokenTotalSupply in
    Ok (rate, s).

Definition _liquidityUtilizationPostRelay s (l1Token : address) (relayedAmount : Z)
  : result (Z * hub_pool W) :=
  let? s := _sync s l1Token in
  let p := pooled s l1Token in
  let flooredUtilizedReserves := if 0 <? utilizedReserves p then uint256 (utilizedReserves p) else 0 in
  let? numerator := uadd relayedAmount flooredUtilizedReserves in
  let? denominator := uadd (liquidReserves p) flooredUtilizedReserves in
  if denominator =? 0 then Ok (10 ^ 18, s)
  else let? scaled := umul numerator (10 ^ 18) in
       let? ratio := udiv scaled denominator in
       Ok (ratio, s).

Definition _allocateLpAndProtocolFees s (l1Token : address) (fees : Z) : result (hub_pool W) :=
  let? scaled := umul fees (protocolFeeCapturePct (settings s)) in
  let? protocolFeesCaptured := udiv scaled (10 ^ 18) in
  let? lpFeesCaptured := usub fees protocolFeesCaptured in
  let? s :=
    if 0 <? lpFeesCaptured
    then let p := pooled s l1Token in
         let? undistributed := uadd (undistributedLpFees p) lpFeesCaptured in
         let? utilized := iadd (utilizedReserves p) (int256 lpFeesCaptured) in
         Ok (set_token s l1Token
               (with_reserves (with_fees p undistributed (lastLpFeeUpdate p)) utilized (liquidReserves p)))
    else Ok s in
  if 0 <? protocolFeesCaptured
  then let? total := uadd (unclaimed_fees s l1Token) protocolFeesCaptured in
       Ok (set_unclaimed s l1Token total)
  else Ok s.

(** The body of the loop over [l1Tokens], at index [i]. *)
Definition send_one (adapter spokePool : address) (chain : Z) (netSendAmounts bundleLpFees : list Z)
    (i : nat) (l1Token : address) s : result (hub_pool W) :=
  let l2Token := route s l1Token chain in
  let? _ := require (negb (bool_decide (l2Token = zero_address))) (revert "Route not whitelisted") in
  let? netSendAmount := array_get netSendAmounts i in
  let? s :=
    if 0 <? netSendAmount
    then let? s := delegatecall s
                     (relayTokens (world s) adapter this l1Token l2Token (uint256 netSendAmount) spokePool)
                     (TokensRelayed l1Token l2Token (uint256 netSendAmount) spokePool) in
         let p := pooled s l1Token in
         let? utilized := iadd (utilizedReserves p) netSendAmount in
         let? liquid := usub (liquidReserves p) (uint256 netSendAmount) in
         Ok (set_token s l1Token (with_reserves p utilized liquid))
    else Ok s in
  let? fees := array_get bundleLpFees i in
  _allocateLpAndProtocolFees s l1Token fees.

Fixpoint send_from (adapter spokePool : address) (chain : Z) (netSendAmounts bundleLpFees : list Z)
    (i : nat) (l1Tokens : list address) s : result (hub_pool W) :=
  match l1Tokens with
  | [] => Ok s
  | l1Token :: l1Tokens' =>
      let? s := send_one adapter spokePool chain netSendAmounts bundleLpFees i l1Token s in
      send_from adapter spokePool chain netSendAmounts bundleLpFees (S i) l1Tokens' s
  end.

Definition _sendTokensToChainAndUpdatePooledTokenTrackers (adapter spokePool : address) (chain : Z)
    (l1Tokens : list address) (netSendAmounts bundleLpFees : list Z) s : result (hub_pool W) :=
  send_from adapter spokePool chain netSendAmounts bundleLpFees 0 l1Tokens s.

(** *** Admin functions *)

Definition setPaused (m : message) s (pause : bool) : result (hub_pool W) :=
  let? _ := onlyOwner m s in
  let c := settings s in
  Ok (emit (set_settings s
    {| hub_owner := hub_owner c; paused := pause;
       protocolFeeCaptureAddress := protocolFeeCaptureAddress c;
       protocolFeeCapturePct := protocolFeeCapturePct c; bondToken := bondToken c;
       bondAmount := bondAmount c; liveness := liveness c; identifier := identifier c;
       lpFeeRatePerSecond := lpFeeRatePerSecond c |}) (Paused pause)).

Definition emergencyDeleteProposal (m : message) s : result (hub_pool W) :=
  let? _ := onlyOwner m s in
  let old := rootBundleProposal s in
  let s := set_proposal s no_bundle in
  let? s :=
    if 0 <? unclaimedPoolRebalanceLeafCount old
    then external s (safeTransfer (world s) (bondToken (settings s)) this (proposer old)
                       (bondAmount (settings s)))
    else Ok s in
  Ok (emit s (EmergencyRootBundleDeleted (poolRebalanceRoot old) (relayerRefundRoot old)
                (slowRelayRoot old) (proposer old))).

Definition relaySpokePoolAdminFunction (m : message) s (chain : Z) (functionData : spoke_call)
  : result (hub_pool W) :=
  let? _ := onlyOwner m s in _relaySpokePoolAdminFunction s chain functionData.

Definition setProtocolFeeCapture (m : message) s (newAddress : address) (newPct : Z)
  : result (hub_pool W) :=
  let? _ := onlyOwner m s in
  let? _ := require (newPct <=? 10 ^ 18) (revert "Bad protocolFeeCapturePct") in
  let? _ := require (negb (bool_decide (newAddress = zero_address)))
              (revert "Bad protocolFeeCaptureAddress") in
  let c := settings s in
  Ok (emit (set_settings s
    {| hub_owner := hub_owner c; paused := paused c;
       protocolFeeCaptureAddress := newAddress; protocolFeeCapturePct := newPct;
       bondToken := bondToken c; bondAmount := bondAmount c; liveness := liveness c;
       identifier := identifier c; lpFeeRatePerSecond := lpFeeRatePerSecond c |})
    (ProtocolFeeCaptureSet newAddress newPct)).

Definition with_bond (c : HubSettings) (token : address) (amount : Z) : HubSettings :=
  {| hub_owner := hub_owner c; paused := paused c;
     protocolFeeCaptureAddress := protocolFeeCaptureAddress c;
     protocolFeeCapturePct := protocolFeeCapturePct c; bondToken := token; bondAmount := amount;
     liveness := liveness c; identifier := identifier c;
     lpFeeRatePerSecond := lpFeeRatePerSecond c |}.

Definition setBond (m : message) s (newBondToken : address) (newBondAmount : Z) : result (hub_pool W) :=
  let? _ := onlyOwner m s in
  let? _ := noActiveRequests s in
  let? _ := require (negb (newBondAmount =? 0)) (revert "bond equal to final fee") in
  let? whitelist := getImplementationAddress (world s) "CollateralWhitelist" in
  let? _ := require (isOnWhitelist (world s) whitelist newBondToken) (revert "Not on whitelist") in
  let s := set_settings s (with_bond (settings s) newBondToken (bondAmount (settings s))) in
  let? finalFee := _getBondTokenFinalFee s in
  let? _bondAmount := uadd newBondAmount finalFee in
  Ok (emit (set_settings s (with_bond (settings s) newBondToken _bondAmount))
        (BondSet newBondToken _bondAmount)).

Definition setLiveness (m : message) s (newLiveness : Z) : result (hub_pool W) :=
  let? _ := onlyOwner m s in
  let? _ := require (600 <? newLiveness) (revert "Liveness too short") in
  let c := settings s in
  Ok (emit (set_settings s
    {| hub_owner := hub_owner c; paused := paused c;
       protocolFeeCaptureAddress := protocolFeeCaptureAddress c;
       protocolFeeCapturePct := protocolFeeCapturePct c; bondToken := bondToken c;
       bondAmount := bondAmount c; liveness := newLiveness; identifier := identifier c;
       lpFeeRatePerSecond := lpFeeRatePerSecond c |}) (LivenessSet newLiveness)).

Definition setIdentifier (m : message) s (newIdentifier : bytes) : result (hub_pool W) :=
  let? _ := onlyOwner m s in
  let? _ := noActiveRequests s in
  let? whitelist := getImplementationAddress (world s) "IdentifierWhitelist" in
  let? _ := require (isIdentifierSupported (world s) whitelist newIdentifier)
              (revert "Identifier not supported") in
  let c := settings s in
  Ok (emit (set_settings s
    {| hub_owner := hub_owner c; paused := paused c;
       protocolFeeCaptureAddress := protocolFeeCaptureAddress c;
       protocolFeeCapturePct := protocolFeeCapturePct c; bondToken := bondToken c;
       bondAmount := bondAmount c; liveness := liveness c; identifier := newIdentifier;
       lpFeeRatePerSecond := lpFeeRatePerSecond c |}) (IdentifierSet newIdentifier)).

Definition setCrossChainContracts (m : message) s (l2ChainId : Z) (adapter_ spokePool_ : address)
  : result (hub_pool W) :=
  let? _ := onlyOwner m s in
  Ok (emit (set_contracts s l2ChainId {| adapter := adapter_; spokePool := spokePool_ |})
        (CrossChainContractsSet l2ChainId adapter_ spokePool_)).

Definition setPoolRebalanceRoute (m : message) s (destinationChainId : Z)
    (l1Token destinationToken : address) : result (hub_pool W) :=
  let? _ := onlyOwner m s in
  Ok (emit (set_route s (l1Token, destinationChainId) destinationToken)
        (SetPoolRebalanceRouteEvent destinationChainId l1Token destinationToken)).

Definition setDepositRoute (m : message) s (originChainId destinationChainId : Z)
    (originToken : address) (depositsEnabled : bool) : result (hub_pool W) :=
  let? _ := onlyOwner m s in
  let? s := _relaySpokePoolAdminFunction s originChainId
              (SetEnableRoute originToken destinationChainId depositsEnabled) in
  Ok (emit s (SetEnableDepositRoute originChainId destinationChainId originToken depositsEnabled)).

Definition enableL1TokenForLiquidityProvision (m : message) s (l1Token : address)
  : result (hub_pool W) :=
  let? _ := onlyOwner m s in
  let? s :=
    if bool_decide (lpToken (pooled s l1Token) = zero_address)
    then let? r := createLpToken (world s) l1Token this in
         let s := set_world s r.2 in
         let p := pooled s l1Token in
         Ok (set_token s l1Token
           {| lpToken := r.1; isEnabled := isEnabled p; lastLpFeeUpdate := uint32 (block_time m);
              utilizedReserves := utilizedReserves p; liquidReserves := liquidReserves p;
              undistributedLpFees := undistributedLpFees p |})
    else Ok s in
  let s := set_token s l1Token (with_enabled (pooled s l1Token) true) in
  Ok (emit s (L1TokenEnabledForLiquidityProvision l1Token (lpToken (pooled s l1Token)))).

Definition disableL1TokenForLiquidityProvision (m : message) s (l1Token : address)
  : result (hub_pool W) :=
  let? _ := onlyOwner m s in
  let s := set_token s l1Token (with_enabled (pooled s l1Token) false) in
  Ok (emit s (L2TokenDisabledForLiquidityProvision l1Token (lpToken (pooled s l1Token)))).

Definition haircutReserves (m : message) s (l1Token : address) (haircutAmount : Z)
  : result (hub_pool W) :=
  let? _ := onlyOwner m s in
  let p := pooled s l1Token in
  let? utilized := isub (utilizedReserves p) haircutAmount in
  Ok (set_token s l1Token (with_reserves p utilized (liquidReserves p))).

(** *** Liquidity providers *)

Definition addLiquidity (m : message) s (l1Token : address) (l1TokenAmount : Z) : result (hub_pool W) :=
  let? _ := unpaused s in
  let? _ := require (isEnabled (pooled s l1Token)) (revert "Token not enabled") in
  let? _ := require ((bool_decide (weth = l1Token) && (msg_value m =? l1TokenAmount)) ||
                     (msg_value m =? 0)) (revert "Bad msg.value") in
  let? scaled := umul l1TokenAmount (10 ^ 18) in
  let? r := _exchangeRateCurrent m s l1Token in
  let s := r.2 in
  let? lpTokensToMint := udiv scaled r.1 in
  let p := pooled s l1Token in
  let? liquid := uadd (liquidReserves p) l1TokenAmount in
  let s := set_token s l1Token (with_reserves p (utilizedReserves p) liquid) in
  let? s := external s (lp_mint (world s) (lpToken (pooled s l1Token)) this (msg_sender m) lpTokensToMint) in
  let? s :=
    if bool_decide (weth = l1Token) && (0 <? msg_value m)
    then external s (weth_deposit (world s) weth this (msg_value m))
    else external s (safeTransferFrom (world s) l1Token this (msg_sender m) this l1TokenAmount) in
  Ok (emit s (LiquidityAdded l1Token l1TokenAmount lpTokensToMint (msg_sender m))).

Definition removeLiquidity (m : message) s (l1Token : address) (lpTokenAmount : Z) (sendEth : bool)
  : result (hub_pool W) :=
  let? _ := unpaused s in
  let? _ := require (bool_decide (weth = l1Token) || negb sendEth) (revert "Cant send eth") in
  let? r := _exchangeRateCurrent m s l1Token in
  let s := r.2 in
  let? scaled := umul lpTokenAmount r.1 in
  let? l1TokensToReturn := udiv scaled (10 ^ 18) in
  let? s := external s (lp_burnFrom (world s) (lpToken (pooled s l1Token)) this (msg_sender m) lpTokenAmount) in
  let p := pooled s l1Token in
  let? liquid := usub (liquidReserves p) l1TokensToReturn in
  let s := set_token s l1Token (with_reserves p (utilizedReserves p) liquid) in
  let? s :=
    if sendEth
    then let? s := external s (weth_withdraw (world s) weth this l1TokensToReturn) in
         external s (sendValue (world s) this (msg_sender m) l1TokensToReturn)
    else external s (safeTransfer (world s) l1Token this (msg_sender m) l1TokensToReturn) in
  Ok (emit s (LiquidityRemoved l1Token l1TokensToReturn lpTokenAmount (msg_sender m))).

Definition exchangeRateCurrent (m : message) s (l1Token : address) : result (Z * hub_pool W) :=
  _exchangeRateCurrent m s l1Token.
Definition liquidityUtilizationCurrent s (l1Token : address) : result (Z * hub_pool W) :=
  _liquidityUtilizationPostRelay s l1Token 0.
Definition liquidityUtilizationPostRelay s (l1Token : address) (relayedAmount : Z)
  : result (Z * hub_pool W) :=
  _liquidityUtilizationPostRelay s l1Token relayedAmount.
Definition sync s (l1Token : address) : result (hub_pool W) := _sync s l1Token.

(** *** Data workers *)

Definition proposeRootBundle (m : message) s (bundleEvaluationBlockNumbers : list Z)
    (poolRebalanceLeafCount : Z) (rebalanceRoot refundRoot slowRoot : bytes) : result (hub_pool W) :=
  let? _ := noActiveRequests s in
  let? _ := unpaused s in
  let? _ := require (0 <? poolRebalanceLeafCount) (revert "Bundle must have at least 1 leaf") in
  let? deadline := checked_uint 32 (uint32 (block_time m) + liveness (settings s)) in
  let s := set_proposal s
    {| poolRebalanceRoot := rebalanceRoot; relayerRefundRoot := refundRoot; slowRelayRoot := slowRoot;
       claimedBitMap := 0; proposer := msg_sender m;
       unclaimedPoolRebalanceLeafCount := poolRebalanceLeafCount;
       challengePeriodEndTimestamp := deadline |} in
  let? s := external s (safeTransferFrom (world s) (bondToken (settings s)) this (msg_sender m) this
                          (bondAmount (settings s))) in
  Ok (emit s (ProposeRootBundle deadline poolRebalanceLeafCount bundleEvaluationBlockNumbers
                rebalanceRoot refundRoot slowRoot (msg_sender m))).

Definition executeRootBundle (m : message) s (leaf : PoolRebalanceLeaf) (proof : list bytes)
  : result (hub_pool W) :=
  let? _ := unpaused s in
  let b := rootBundleProposal s in
  let? _ := require (challengePeriodEndTimestamp b <? block_time m) (revert "Not passed liveness") in
  let? _ := require (negb (isClaimed1D (claimedBitMap b) (leafId leaf))) (revert "Already claimed") in
  let? _ := require (verifyPoolRebalance (poolRebalanceRoot b) leaf proof) (revert "Bad Proof") in
  let? c := _getInitializedCrossChainContracts s (chainId leaf) in
  let? unclaimed := checked_uint 8 (unclaimedPoolRebalanceLeafCount b - 1) in
  let s := set_proposal s (with_claims b (setClaimed1D (claimedBitMap b) (leafId leaf)) unclaimed) in
  let? s := _sendTokensToChainAndUpdatePooledTokenTrackers c.1 c.2 (chainId leaf) (l1Tokens leaf)
              (netSendAmounts leaf) (bundleLpFees leaf) s in
  let b := rootBundleProposal s in
  let? s :=
    if groupIndex leaf =? 0
    then let msg := RelayRootBundle (relayerRefundRoot b) (slowRelayRoot b) in
         delegatecall s (relayMessage (world s) c.1 this c.2 msg) (MessageRelayed c.2 msg)
    else Ok s in
  let? s :=
    if unclaimedPoolRebalanceLeafCount b =? 0
    then external s (safeTransfer (world s) (bondToken (settings s)) this (proposer b)
                       (bondAmount (settings s)))
    else Ok s in
  Ok (emit s (RootBundleExecuted leaf (msg_sender m))).

(** The body of [disputeRootBundle]. *)
Definition dispute_body (m : message) s : result (hub_pool W) :=
  let currentTime := uint32 (block_time m) in
  let c := settings s in
  let? _ := require (currentTime <=? challengePeriodEndTimestamp (rootBundleProposal s))
              (revert "Request passed liveness") in
  let? finalFee := _getBondTokenFinalFee s in
  if bondAmount c <=? finalFee then _cancelBundle m s
  else
    let? oracle := _getOptimisticOracle s in
    let? s := external s (safeIncreaseAllowance (world s) (bondToken c) this oracle (bondAmount c)) in
    let? bond := usub (bondAmount c) finalFee in
    match requestAndProposePriceFor (world s) oracle this (identifier c) currentTime [] (bondToken c) 0
            bond (liveness c) (proposer (rootBundleProposal s)) (10 ^ 18) with
    | Err _ => _cancelBundle m s
    | Ok (_, w) =>
        let s := set_world s w in
        let? s := external s (safeApprove (world s) (bondToken c) this oracle 0) in
        let? expiration := checked_uint 32 (currentTime + liveness c) in
        let ooPriceRequest :=
          {| rq_proposer := proposer (rootBundleProposal s); rq_disputer := zero_address;
             rq_currency := bondToken c; rq_settled := false; rq_proposedPrice := 10 ^ 18;
             rq_resolvedPrice := 0; rq_expirationTime := expiration; rq_reward := 0;
             rq_finalFee := finalFee; rq_bond := bond; rq_customLiveness := liveness c |} in
        let s := set_proposal s no_bundle in
        let? s := external s (safeTransferFrom (world s) (bondToken c) this (msg_sender m) this (bondAmount c)) in
        let? s := external s (safeIncreaseAllowance (world s) (bondToken c) this oracle (bondAmount c)) in
        let? s := external s (disputePriceFor (world s) oracle this (identifier c) currentTime []
                                ooPriceRequest (msg_sender m) this) in
        Ok (emit s (RootBundleDisputed (msg_sender m) currentTime))
    end.

(** [zeroOptimisticOracleApproval] runs after the body, early returns too. *)
Definition disputeRootBundle (m : message) s : result (hub_pool W) :=
  let? s := dispute_body m s in
  let? oracle := _getOptimisticOracle s in
  external s (safeApprove (world s) (bondToken (settings s)) this oracle 0).

Definition claimProtocolFeesCaptured s (l1Token : address) : result (hub_pool W) :=
  let fees := unclaimed_fees s l1Token in
  let s := set_unclaimed s l1Token 0 in
  let? s := external s (safeTransfer (world s) l1Token this (protocolFeeCaptureAddress (settings s)) fees) in
  Ok (emit s (ProtocolFeesCapturedClaimed l1Token fees)).

(** ** Calls *)

Inductive pool_call :=
| SetPaused (pause : bool)
| EmergencyDeleteProposal
| RelayAdminFunction (chain : Z) (functionData : spoke_call)
| SetProtocolFeeCapture (newAddress : address) (newPct : Z)
| SetBond (newBondToken : address) (newBondAmount : Z)
| SetLiveness (newLiveness : Z)
| SetIdentifier (newIdentifier : bytes)
| SetCrossChainContracts (l2ChainId : Z) (adapter spokePool : address)
| SetRebalanceRoute (destinationChainId : Z) (l1Token destinationToken : address)
| SetRoute (originChainId destinationChainId : Z) (originToken : address) (depositsEnabled : bool)
| EnableL1Token (l1Token : address)
| DisableL1Token (l1Token : address)
| HaircutReserves (l1Token : address) (haircutAmount : Z)
| AddLiquidity (l1Token : address) (l1TokenAmount : Z)
| RemoveLiquidity (l1Token : address) (lpTokenAmount : Z) (sendEth : bool)
| ExchangeRateCurrent (l1Token : address)
| LiquidityUtilization (l1Token : address) (relayedAmount : Z)
| Sync (l1Token : address)
| Propose (blocks : list Z) (leafCount : Z) (rebalanceRoot refundRoot slowRoot : bytes)
| Execute (leaf : PoolRebalanceLeaf) (proof : list bytes)
| Dispute
| ClaimProtocolFees (l1Token : address)
| LoadEthForL2Calls.

Definition drop_value {A} (r : result (A * hub_pool W)) : result (hub_pool W) :=
  let? r := r in Ok r.2.

(** A transaction that calls the hub pool. *)
Definition pool_exec (m : message) s (c : pool_call) : result (hub_pool W) :=
  match c with
  | SetPaused pause => setPaused m s pause
  | EmergencyDeleteProposal => emergencyDeleteProposal m s
  | RelayAdminFunction chain data => relaySpokePoolAdminFunction m s chain data
  | SetProtocolFeeCapture who pct => setProtocolFeeCapture m s who pct
  | SetBond token amount => setBond m s token amount
  | SetLiveness v => setLiveness m s v
  | SetIdentifier v => setIdentifier m s v
  | SetCrossChainContracts chain a p => setCrossChainContracts m s chain a p
  | SetRebalanceRoute chain l1Token token => setPoolRebalanceRoute m s chain l1Token token
  | SetRoute from to token enabled => setDepositRoute m s from to token enabled
  | EnableL1Token t => enableL1TokenForLiquidityProvision m s t
  | DisableL1Token t => disableL1TokenForLiquidityProvision m s t
  | HaircutReserves t amount => haircutReserves m s t amount
  | AddLiquidity t amount => addLiquidity m s t amount
  | RemoveLiquidity t amount eth => removeLiquidity m s t amount eth
  | ExchangeRateCurrent t => drop_value (exchangeRateCurrent m s t)
  | LiquidityUtilization t amount => drop_value (liquidityUtilizationPostRelay s t amount)
  | Sync t => sync s t
  | Propose blocks n r1 r2 r3 => proposeRootBundle m s blocks n r1 r2 r3
  | Execute leaf proof => executeRootBundle m s leaf proof
  | Dispute => disputeRootBundle m s
  | ClaimProtocolFees t => claimProtocolFeesCaptured s t
  | LoadEthForL2Calls => Ok s
  end.

(** The ABI decoder refuses arguments outside their types. *)
Definition u256 (z : Z) : Prop := 0 ≤ z < 2 ^ 256.
Definition i256 (z : Z) : Prop := - 2 ^ 255 ≤ z < 2 ^ 255.
Definition call_typed (c : pool_call) : Prop :=
  match c with
  | SetProtocolFeeCapture _ pct => u256 pct
  | SetBond _ amount => u256 amount
  | SetLiveness v => 0 ≤ v < 2 ^ 32
  | HaircutReserves _ amount => i256 amount
  | AddLiquidity _ amount | RemoveLiquidity _ amount _ | LiquidityUtilization _ amount => u256 amount
  | Propose _ n _ _ _ => 0 ≤ n < 2 ^ 8
  | Execute leaf _ => 0 ≤ leafId leaf < 2 ^ 8 ∧ Forall u256 (bundleLpFees leaf) ∧
                      Forall i256 (netSendAmounts leaf)
  | _ => True
  end.

(** What happens to the contract at a time [now]: a call by an account other
    than the contract itself, at a block no earlier and within the contract's
    lifetime (timestamps of 32 bits, until 2106), or anything outside it that
    does not spend its tokens (a bridge dropping tokens on it, other users'
    transfers).  A reverted call changes nothing and is no step. *)
Inductive pool_step : Z → hub_pool W → option (message * pool_call) → Z → hub_pool W → Prop :=
| Step_call now m c s s' :
    msg_sender m ≠ this → 0 ≤ msg_value m → now ≤ block_time m < 2 ^ 32 → call_typed c →
    pool_exec m s c = Ok s' → pool_step now s (Some (m, c)) (block_time m) s'
| Step_world now s w' :
    (∀ t, balanceOf (world s) t this ≤ balanceOf w' t this) →
    pool_step now s None now (set_world s w').

(** A history: each entry is a step with the states around it. *)
Inductive pool_steps : Z → hub_pool W → list (hub_pool W * option (message * pool_call) * hub_pool W) →
    Z → hub_pool W → Prop :=
| Steps_nil now s : pool_steps now s [] now s
| Steps_snoc t1 s1 tr t2 s2 l t3 s3 :
    pool_steps t1 s1 tr t2 s2 → pool_step t2 s2 l t3 s3 → pool_steps t1 s1 (tr ++ [(s2, l, s3)]) t3 s3.

(** The storage right after the constructor, with the owner as the fee
    capture address and the initial values of the declarations. *)
Definition deployed (owner : address) (w : W) : hub_pool W :=
  {| settings := {| hub_owner := owner; paused := false; protocolFeeCaptureAddress := owner;
       protocolFeeCapturePct := 0; bondToken := zero_address; bondAmount := 0; liveness := 7200;
       identifier := utf8_encode "ACROSS-V2" ++ replicate 23 x00;
       lpFeeRatePerSecond := 1500000000000 |};
     rootBundleProposal := no_bundle; pooledTokens := ∅; poolRebalanceRoutes := ∅;
     crossChainContracts := ∅; unclaimedAccumulatedProtocolFees := ∅; events := []; world := w |}.
End Contract.
