(* ===== verification/HubPoolLiquidity.v ===== *)
(** * The hub pool's books

    What every call of [HubPool.sol] does to the liquidity accounting and to
    the contract's balance: the assets of the liquidity providers are exactly
    what was deposited, earned, withdrawn and written off, whenever bridge
    transfers happen to arrive, and the reserves the contract counts as liquid,
    with a bond it holds, are covered by its balance and the protocol fees it
    already paid out. *)

From stdpp Require Import base gmap strings list.
From Stdlib Require Import ZArith Lia Strings.Byte.
From S2P Require Import Prelude Bytes JsText Interfaces HubPoolAdmin SvmSpoke Solidity HubWorld HubPool.

Fixpoint total {A} (f : A → Z) (l : list A) : Z :=
  match l with [] => 0 | x :: l' => f x + total f l' end.

Lemma flow_app {A} (f : A → Z) l1 l2 : total f (l1 ++ l2) = total f l1 + total f l2.
Proof. induction l1 as [|x l1 IH]; cbn; [done|]. rewrite IH. lia. Qed.

Lemma flow_nonneg {A} (f : A → Z) l : (∀ x, 0 ≤ f x) → 0 ≤ total f l.
Proof. intros Hf. induction l as [|x l IH]; cbn; [lia|]. specialize (Hf x). lia. Qed.

(** The share of a fee that goes to the liquidity providers. *)
Definition lp_share (c : HubSettings) (fees : Z) : Z := fees - fees * protocolFeeCapturePct c / 10 ^ 18.

Create Rewrite HintDb hub.

Section Books.
Context {W : Type} `{!Keccak} `{Ht : !Tokens W} `{Hu : !Uma W} `{Ha : !Adapters W}.
Context (this weth : address).
Implicit Types s : hub_pool W.

(** ** The quantities *)

Definition lp_assets s (T : address) : Z := liquidReserves (pooled s T) + utilizedReserves (pooled s T).
Definition hub_balance s (T : address) : Z := balanceOf (world s) T this.

(** The bond of an active proposal, when it is in this token. *)
Definition bond_held s (T : address) : Z :=
  if bool_decide (T = bondToken (settings s)) && _activeRequest s then bondAmount (settings s) else 0.

Definition claimed_in (T : address) (e : hub_event) : Z :=
  match e with
  | ProtocolFeesCapturedClaimed t a => if decide (t = T) then a else 0
  | _ => 0
  end.
(** The protocol fees paid out so far. *)
Definition claimed_fees s (T : address) : Z := total (claimed_in T) (events s).

Definition withdrawn_in (T : address) (e : hub_event) : Z :=
  match e with
  | LiquidityRemoved t a _ _ => if decide (t = T) then a else 0
  | _ => 0
  end.

(** The fees a leaf allocates to the providers of [T]. *)
Definition fees_from (c : HubSettings) (T : address) (tokens : list address) (fees : list Z) : Z :=
  total (λ tf, if decide (tf.1 = T) then lp_share c tf.2 else 0) (combine tokens fees).
Definition leaf_fees (c : HubSettings) (T : address) (leaf : PoolRebalanceLeaf) : Z :=
  fees_from c T (l1Tokens leaf) (bundleLpFees leaf).

Definition fees_of (T : address) (x : hub_pool W * option (message * pool_call) * hub_pool W) : Z :=
  match x with
  | (s, Some (_, Execute leaf _), _) => leaf_fees (settings s) T leaf
  | _ => 0
  end.

(** What a step adds to the providers' assets. *)
Definition lp_flow (T : address) (x : hub_pool W * option (message * pool_call) * hub_pool W) : Z :=
  match x with
  | (s, Some (_, AddLiquidity t a), _) => if decide (t = T) then a else 0
  | (s, Some (_, RemoveLiquidity t _ _), s') =>
      - total (withdrawn_in T) (drop (length (events s)) (events s'))
  | (s, Some (_, HaircutReserves t a), _) => if decide (t = T) then - a else 0
  | _ => fees_of T x
  end.

(** The sizes the contract's casts to [int256] take for granted. *)
Definition sized (T : address) (x : hub_pool W * option (message * pool_call) * hub_pool W) : Prop :=
  hub_balance x.1.1 T < 2 ^ 255 ∧
  match x.1.2 with Some (_, Execute leaf _) => Forall (λ f, f < 2 ^ 255) (bundleLpFees leaf) | _ => True end.

(** ** The invariant *)

Definition uncovered s (T : address) : Z :=
  liquidReserves (pooled s T) + bond_held s T - hub_balance s T - claimed_fees s T.

Record sound s : Prop := {
  sound_liquid : ∀ T, 0 ≤ liquidReserves (pooled s T);
  sound_undistributed : ∀ T, 0 ≤ undistributedLpFees (pooled s T);
  sound_unclaimed : ∀ T, 0 ≤ unclaimed_fees s T;
  sound_claimed : ∀ T, 0 ≤ claimed_fees s T;
  sound_covered : ∀ T, uncovered s T ≤ 0;
  sound_bond : 0 ≤ bondAmount (settings s);
  sound_pct : 0 ≤ protocolFeeCapturePct (settings s) ≤ 10 ^ 18;
  sound_proposer : _activeRequest s = true → proposer (rootBundleProposal s) ≠ this;
  sound_liveness : 600 < liveness (settings s);
  sound_count : 0 ≤ unclaimedPoolRebalanceLeafCount (rootBundleProposal s)
}.

(** A call that keeps the invariant, adds [flow] to the providers' assets and
    at most [fees] to the fees not yet distributed. *)
Definition books s s' (flow fees : address → Z) : Prop :=
  sound s' ∧ (∀ T, lp_assets s' T = lp_assets s T + flow T) ∧
  (∀ T, undistributedLpFees (pooled s' T) ≤ undistributedLpFees (pooled s T) + fees T).
Definition quiet s s' : Prop := books s s' (λ _, 0) (λ _, 0).

(** ** Reads after writes *)

Lemma pooled_set_token s t p T :
  pooled (set_token s t p) T = if decide (T = t) then p else pooled s T.
Proof.
  unfold pooled, set_token. cbn. destruct (decide (T = t)) as [->|Hne].
  - by rewrite lookup_insert_eq.
  - by rewrite lookup_insert_ne by done.
Qed.

Lemma unclaimed_set s t v T :
  unclaimed_fees (set_unclaimed s t v) T = if decide (T = t) then v else unclaimed_fees s T.
Proof.
  unfold unclaimed_fees, set_unclaimed. cbn. destruct (decide (T = t)) as [->|Hne].
  - by rewrite lookup_insert_eq.
  - by rewrite lookup_insert_ne by done.
Qed.

Lemma pooled_emit s e T : pooled (emit s e) T = pooled s T.
Proof. done. Qed.
Lemma pooled_set_world s w T : pooled (set_world s w) T = pooled s T.
Proof. done. Qed.
Lemma pooled_set_unclaimed s t v T : pooled (set_unclaimed s t v) T = pooled s T.
Proof. done. Qed.
Lemma pooled_set_proposal s b T : pooled (set_proposal s b) T = pooled s T.
Proof. done. Qed.
Lemma pooled_set_settings s c T : pooled (set_settings s c) T = pooled s T.
Proof. done. Qed.
Lemma pooled_set_route s k v T : pooled (set_route s k v) T = pooled s T.
Proof. done. Qed.
Lemma pooled_set_contracts s k v T : pooled (set_contracts s k v) T = pooled s T.
Proof. done. Qed.
Lemma claimed_set_world s w T : claimed_fees (set_world s w) T = claimed_fees s T.
Proof. done. Qed.
Lemma claimed_set_token s t p T : claimed_fees (set_token s t p) T = claimed_fees s T.
Proof. done. Qed.
Lemma claimed_set_unclaimed s t v T : claimed_fees (set_unclaimed s t v) T = claimed_fees s T.
Proof. done. Qed.
Lemma claimed_set_proposal s b T : claimed_fees (set_proposal s b) T = claimed_fees s T.
Proof. done. Qed.
Lemma claimed_set_settings s c T : claimed_fees (set_settings s c) T = claimed_fees s T.
Proof. done. Qed.
Lemma balance_set_world s w T : hub_balance (set_world s w) T = balanceOf w T this.
Proof. done. Qed.
Lemma balance_emit s e T : hub_balance (emit s e) T = hub_balance s T.
Proof. done. Qed.
Lemma balance_set_token s t p T : hub_balance (set_token s t p) T = hub_balance s T.
Proof. done. Qed.
Lemma balance_set_unclaimed s t v T : hub_balance (set_unclaimed s t v) T = hub_balance s T.
Proof. done. Qed.

Lemma claimed_emit s e T : claimed_fees (emit s e) T = claimed_fees s T + claimed_in T e.
Proof. unfold claimed_fees, emit. cbn. rewrite flow_app. cbn. lia. Qed.

Lemma balance_set_proposal s b T : hub_balance (set_proposal s b) T = hub_balance s T.
Proof. done. Qed.
Lemma unclaimed_emit s e T : unclaimed_fees (emit s e) T = unclaimed_fees s T.
Proof. done. Qed.
Lemma unclaimed_set_world s w T : unclaimed_fees (set_world s w) T = unclaimed_fees s T.
Proof. done. Qed.
Lemma unclaimed_set_proposal s b T : unclaimed_fees (set_proposal s b) T = unclaimed_fees s T.
Proof. done. Qed.
Lemma balance_set_route s k v T : hub_balance (set_route s k v) T = hub_balance s T.
Proof. done. Qed.
Lemma balance_set_contracts s k v T : hub_balance (set_contracts s k v) T = hub_balance s T.
Proof. done. Qed.
Lemma balance_set_settings s c T : hub_balance (set_settings s c) T = hub_balance s T.
Proof. done. Qed.
Lemma claimed_set_route s k v T : claimed_fees (set_route s k v) T = claimed_fees s T.
Proof. done. Qed.
Lemma claimed_set_contracts s k v T : claimed_fees (set_contracts s k v) T = claimed_fees s T.
Proof. done. Qed.
#[local] Hint Rewrite balance_set_route balance_set_contracts balance_set_settings claimed_set_route
  claimed_set_contracts : hub.
#[local] Hint Rewrite pooled_set_route pooled_set_contracts balance_set_proposal unclaimed_emit
  unclaimed_set_world unclaimed_set_proposal : hub.
#[local] Hint Rewrite pooled_emit pooled_set_world pooled_set_unclaimed pooled_set_proposal
  pooled_set_settings pooled_set_token claimed_emit claimed_set_world claimed_set_token
  claimed_set_unclaimed claimed_set_proposal claimed_set_settings balance_set_world balance_emit
  balance_set_token balance_set_unclaimed : hub.

(** Everything but the pool of one token is unchanged. *)
Definition frame s :=
  (settings s, rootBundleProposal s, poolRebalanceRoutes s, crossChainContracts s,
   unclaimedAccumulatedProtocolFees s, events s, world s).
Definition token_update s (T : address) s' : Prop :=
  frame s' = frame s ∧ ∀ T', T' ≠ T → pooled s' T' = pooled s T'.

Lemma token_update_refl s T : token_update s T s.
Proof. done. Qed.

Lemma token_update_trans s1 T s2 s3 : token_update s1 T s2 → token_update s2 T s3 → token_update s1 T s3.
Proof. intros [H1 H2] [H3 H4]. split; [congruence|]. intros T' Hne. by rewrite H4, H2. Qed.

Lemma set_token_update s T p : token_update s T (set_token s T p).
Proof. split; [done|]. intros T' Hne. by rewrite pooled_set_token, decide_False. Qed.

(** ** Successful external calls *)

Lemma external_ok s r s' : external s r = Ok s' → ∃ w, r = Ok w ∧ s' = set_world s w.
Proof. unfold external. destruct r as [w|]; [|done]. cbn. intros [= <-]. eauto. Qed.

Lemma delegatecall_ok s r e s' : delegatecall s r e = Ok s' →
  ∃ w, r = Ok w ∧ s' = emit (set_world s w) e.
Proof. unfold delegatecall. destruct r as [w|]; [|done]. intros [= <-]. eauto. Qed.

Lemma contracts_ok s chain c : _getInitializedCrossChainContracts s chain = Ok c →
  c.2 ≠ zero_address ∧ isContract (world s) c.1 = true.
Proof.
  unfold _getInitializedCrossChainContracts. cbn zeta. intros Hx. passes Hx. injection Hx as <-. cbn.
  split; [|done]. intros Hz. by rewrite bool_decide_eq_true_2 in Heqb.
Qed.

Lemma relay_admin_ok s chain data s' : _relaySpokePoolAdminFunction this s chain data = Ok s' →
  ∃ target w, (∀ T, hub_balance s T ≤ balanceOf w T this) ∧
    s' = emit (emit (set_world s w) (MessageRelayed target (AdminCall data)))
           (SpokePoolAdminFunctionTriggered chain data).
Proof.
  unfold _relaySpokePoolAdminFunction. intros Hx. passes Hx. injection Hx as <-.
  apply delegatecall_ok in Heqr0 as (w & Hw & ->). exists a.2, w.
  split; [|done]. intros T. by apply relayMessage_spec with (t := T) in Hw.
Qed.

(** ** Synchronisation and the exchange rate *)

(** What [_sync] and [_exchangeRateCurrent] may do to the pool of [T]: free
    fees for distribution, and count tokens that arrived as liquid. *)
Record accrued s (T : address) s' : Prop := {
  acc_frame : token_update s T s';
  acc_assets : lp_assets s' T = lp_assets s T;
  acc_fees : undistributedLpFees (pooled s' T) ≤ undistributedLpFees (pooled s T);
  acc_fees_nonneg : 0 ≤ undistributedLpFees (pooled s T) → 0 ≤ undistributedLpFees (pooled s' T);
  acc_liquid : liquidReserves (pooled s T) ≤ liquidReserves (pooled s' T);
  acc_covered : liquidReserves (pooled s' T) = liquidReserves (pooled s T) ∨
                liquidReserves (pooled s' T) = hub_balance s T - bond_held s T;
  acc_lpToken : lpToken (pooled s' T) = lpToken (pooled s T);
  acc_enabled : isEnabled (pooled s' T) = isEnabled (pooled s T)
}.

Lemma accrued_refl s T : accrued s T s.
Proof. by split; try lia. Qed.

Lemma frame_world s s' : frame s' = frame s →
  settings s' = settings s ∧ rootBundleProposal s' = rootBundleProposal s ∧ world s' = world s ∧
  events s' = events s ∧ (∀ T, unclaimed_fees s' T = unclaimed_fees s T) ∧
  (∀ T, hub_balance s' T = hub_balance s T) ∧ (∀ T, bond_held s' T = bond_held s T) ∧
  (∀ T, claimed_fees s' T = claimed_fees s T).
Proof.
  unfold frame, hub_balance, bond_held, claimed_fees, unclaimed_fees, _activeRequest.
  intros [= H1 H2 H3 H4 H5 H6 H7]. by rewrite H1, H2, H5, H6, H7.
Qed.

Lemma sync_effect s T s' : _sync this s T = Ok s' → hub_balance s T < 2 ^ 255 →
  0 ≤ liquidReserves (pooled s T) → 0 ≤ bond_held s T → accrued s T s'.
Proof.
  unfold _sync. intros Hx Hsize Hliq Hbond. cbn zeta in Hx. passes Hx.
  assert (Ha' : a = hub_balance s T - bond_held s T).
  { revert Heqr. unfold bond_held, hub_balance.
    destruct (bool_decide _ && _); intros Hr; [by apply usub_ok in Hr as [-> _]|]. injection Hr as <-. lia. }
  clear Heqr. destruct (_ <? a) eqn:Hlt; [apply Z.ltb_lt in Hlt|apply Z.ltb_ge in Hlt].
  - passes Hx. injection Hx as <-. solidity_ok. autorewrite with across.
    split; [apply set_token_update|..]; unfold lp_assets;
      rewrite ?pooled_set_token, ?decide_True by done; cbn; by try lia.
  - injection Hx as <-. apply accrued_refl.
Qed.

Lemma accumulate_effect m s T s' : _updateAccumulatedLpFees m s T = Ok s' →
  0 ≤ undistributedLpFees (pooled s T) → accrued s T s'.
Proof.
  unfold _updateAccumulatedLpFees, _getAccumulatedFees. intros Hx Hu0. cbn zeta in Hx. passes Hx.
  injection Hx as <-. passes Heqr. injection Heqr as <-. solidity_ok.
  match goal with |- context [?x / 10 ^ 18] =>
    assert (0 ≤ x / 10 ^ 18) by (apply Z.div_pos; lia) end.
  split; [apply set_token_update|..]; unfold lp_assets;
    rewrite ?pooled_set_token, ?decide_True by done; cbn; try done; case_match; lia.
Qed.

Lemma rate_effect m s T rate s' : _exchangeRateCurrent this m s T = Ok (rate, s') → hub_balance s T < 2 ^ 255 →
  0 ≤ liquidReserves (pooled s T) → 0 ≤ bond_held s T → 0 ≤ undistributedLpFees (pooled s T) →
  accrued s T s'.
Proof.
  unfold _exchangeRateCurrent. intros Hx Hsize Hliq Hbond Hu0.
  destruct (_ =? 0). { injection Hx as <- <-. apply accrued_refl. }
  passes Hx. injection Hx as <- <-.
  apply accumulate_effect in Heqr as H1; [|done]. destruct H1 as [[F1 F2] ? ? ? ? Hcov ? ?].
  destruct (frame_world _ _ F1) as (_ & _ & _ & _ & _ & Hbal & Hb & _).
  apply sync_effect in Heqr0 as H2; rewrite ?Hbal, ?Hb; [|done|lia|done].
  destruct H2 as [H2 ? ? ? ? Hcov' ? ?]. rewrite Hbal, Hb in Hcov'.
  split; [by eapply token_update_trans|congruence|lia|auto|lia| |congruence..].
  destruct Hcov as [<-|Hcov]; [done|]. destruct Hcov' as [->|]; auto.
Qed.

(** ** Preservation of the invariant, call by call *)

Lemma bond_held_nonneg s T : sound s → 0 ≤ bond_held s T.
Proof. intros Hs. unfold bond_held. case_match; [by apply Hs|lia]. Qed.

(** Calls that leave the settings and the proposal alone. *)
Lemma sound_frame s s' : sound s →
  settings s' = settings s → rootBundleProposal s' = rootBundleProposal s →
  (∀ T, 0 ≤ liquidReserves (pooled s' T)) → (∀ T, 0 ≤ undistributedLpFees (pooled s' T)) →
  (∀ T, 0 ≤ unclaimed_fees s' T) → (∀ T, 0 ≤ claimed_fees s' T) →
  (∀ T, liquidReserves (pooled s' T) + bond_held s T ≤ hub_balance s' T + claimed_fees s' T) →
  sound s'.
Proof.
  intros Hs Hset Hprop ? ? ? ? Hcov.
  split; try done; unfold _activeRequest; rewrite ?Hset, ?Hprop; try apply Hs.
  intros T. specialize (Hcov T). unfold uncovered.
  enough (bond_held s' T = bond_held s T) by lia.
  unfold bond_held, _activeRequest. by rewrite Hset, Hprop.
Qed.

Lemma accrued_sound s T s' : sound s → accrued s T s' → sound s'.
Proof.
  intros Hs [[F1 F2] Ha1 Ha2 Ha3 Ha4 Ha5 _ _].
  destruct (frame_world _ _ F1) as (F3 & F4 & F5 & F6 & F7 & F8 & F9 & F10).
  apply (sound_frame s); try done.
  - intros T'. destruct (decide (T' = T)) as [->|Hne]; [|rewrite F2 by done; apply Hs].
    pose proof (sound_liquid s Hs T). lia.
  - intros T'. destruct (decide (T' = T)) as [->|Hne]; [|rewrite F2 by done; apply Hs].
    apply Ha3, Hs.
  - intros T'. rewrite F7. apply Hs.
  - intros T'. rewrite F10. apply Hs.
  - intros T'. rewrite F8, F10. pose proof (sound_covered s Hs T') as Hc. unfold uncovered in Hc.
    destruct (decide (T' = T)) as [->|Hne]; [|rewrite F2 by done; lia].
    pose proof (sound_claimed s Hs T). lia.
Qed.

Lemma rate_accrued m s T rate s' : _exchangeRateCurrent this m s T = Ok (rate, s') → sound s →
  hub_balance s T < 2 ^ 255 → accrued s T s'.
Proof. intros Hx Hs Hsize. by eapply rate_effect; [..|apply bond_held_nonneg|]; try apply Hs. Qed.

Lemma sync_accrued s T s' : _sync this s T = Ok s' → sound s → hub_balance s T < 2 ^ 255 → accrued s T s'.
Proof. intros Hx Hs Hsize. by eapply sync_effect; [..|apply bond_held_nonneg]; try apply Hs. Qed.

(** The tokens of a deposit reach the contract, as ether or as tokens. *)
Lemma deposit_received m s t a s' : msg_sender m ≠ this →
  bool_decide (weth = t) && (msg_value m =? a) || (msg_value m =? 0) = true →
  (if bool_decide (weth = t) && (0 <? msg_value m)
   then external s (weth_deposit (world s) weth this (msg_value m))
   else external s (safeTransferFrom (world s) t this (msg_sender m) this a)) = Ok s' →
  ∃ w, s' = set_world s w ∧
    ∀ T, balanceOf w T this = hub_balance s T + if decide (T = t) then a else 0.
Proof.
  intros Hm Hv Hx. destruct (_ && (0 <? _)) eqn:Hb; apply external_ok in Hx as (w & Hw & ->);
    exists w; (split; [done|]); intros T.
  - apply andb_prop in Hb as [Hb1 Hb2]. rewrite Hb1 in Hv. cbn in Hv. apply bool_decide_eq_true in Hb1 as ->.
    assert (msg_value m = a) as <- by (apply orb_prop in Hv as [Hv|Hv]; lia).
    apply weth_deposit_spec in Hw as [Hw _]. rewrite Hw. unfold hub_balance.
    destruct (decide (T = t)) as [->|]; [by rewrite decide_True|by rewrite decide_False by (by intros [??])].
  - apply safeTransferFrom_spec in Hw as [Hw _]. by apply (pays_to _ _ _ _ _ _ T Hw).
Qed.

(** Fees freed and bridged tokens counted: nobody's share changes. *)
Lemma accrued_quiet s T s' : sound s → accrued s T s' → quiet s s'.
Proof.
  intros Hs Hacc. split; [by eapply accrued_sound|]. destruct Hacc as [[_ F2] A1 A2 _ _ _ _ _].
  split; intros T'; (destruct (decide (T' = T)) as [->|Hne]; [lia|]); unfold lp_assets; rewrite F2 by done; lia.
Qed.

Lemma addLiquidity_effect m s t a s' : addLiquidity this weth m s t a = Ok s' →
  sound s → msg_sender m ≠ this → 0 ≤ a → hub_balance s t < 2 ^ 255 →
  books s s' (λ T, if decide (t = T) then a else 0) (λ _, 0).
Proof.
  unfold addLiquidity. intros Hx Hs Hm Hamt Hsize. passes Hx. cbn zeta in Hx. passes Hx.
  destruct a2 as [rate s1]. cbn [snd fst] in *. injection Hx as <-.
  apply rate_accrued in Heqr1 as Hacc; [|done..].
  pose proof (accrued_sound _ _ _ Hs Hacc) as Hs1.
  destruct Hacc as [[F1 F2] A1 A2 _ _ _ _ _].
  apply external_ok in Heqr4 as (w1 & Hmint & ->). apply lp_mint_spec in Hmint as [Hmint _].
  apply deposit_received in Heqr5 as (w2 & -> & Hbal); [|done..]. solidity_ok.
  assert (Hbal' : ∀ T, balanceOf w2 T this = hub_balance s1 T + if decide (T = t) then a else 0).
  { intros T. rewrite Hbal, balance_set_world, Hmint, decide_False by (intros [_ ?]; congruence).
    unfold hub_balance. cbn. lia. }
  split; [|split].
  - apply (sound_frame s1); try done; intros T; try apply Hs1; autorewrite with hub.
    + destruct (decide (T = t)); cbn; [lia|apply Hs1].
    + destruct (decide (T = t)); cbn; apply Hs1.
    + pose proof (sound_claimed s1 Hs1 T). cbn. lia.
    + rewrite Hbal'. pose proof (sound_covered s1 Hs1 T) as Hc. unfold uncovered in Hc.
      destruct (decide (T = t)) as [->|]; cbn; lia.
  - intros T. unfold lp_assets in *. autorewrite with hub.
    destruct (decide (T = t)) as [->|Hne]; [rewrite decide_True by done; cbn; lia|].
    rewrite decide_False, F2 by done. lia.
  - intros T. autorewrite with hub. destruct (decide (T = t)) as [->|Hne]; cbn; [lia|].
    rewrite F2 by done. lia.
Qed.

(** A withdrawal costs the contract the tokens, paid as ether or as tokens. *)
Lemma withdrawal_paid m s t (sendEth : bool) a s' : 0 ≤ a → bool_decide (weth = t) || negb sendEth = true →
  (if sendEth
   then let? s := external s (weth_withdraw (world s) weth this a) in
        external s (sendValue (world s) this (msg_sender m) a)
   else external s (safeTransfer (world s) t this (msg_sender m) a)) = Ok s' →
  ∃ w, s' = set_world s w ∧
    ∀ T, hub_balance s T - (if decide (T = t) then a else 0) ≤ balanceOf w T this.
Proof.
  intros Hamt Heth Hx. destruct sendEth.
  - passes Hx. apply external_ok in Heqr as (w1 & Hw1 & ->). apply external_ok in Hx as (w2 & Hw2 & ->).
    exists w2. split; [done|]. intros T. apply orb_prop in Heth as [Heth|]; [|done].
    apply bool_decide_eq_true in Heth as ->. apply sendValue_spec with (t := T) in Hw2. rewrite Hw2.
    apply weth_withdraw_spec in Hw1. specialize (Hw1 T). cbn. unfold hub_balance. lia.
  - apply external_ok in Hx as (w & Hw & ->). exists w. split; [done|]. intros T.
    apply safeTransfer_spec in Hw as [Hw _]. by apply (pays_from _ _ _ _ _ _ T Hw).
Qed.

Lemma removeLiquidity_effect m s t lp sendEth s' : removeLiquidity this weth m s t lp sendEth = Ok s' →
  sound s → msg_sender m ≠ this → hub_balance s t < 2 ^ 255 →
  books s s' (λ T, - total (withdrawn_in T) (drop (length (events s)) (events s'))) (λ _, 0).
Proof.
  unfold removeLiquidity. intros Hx Hs Hm Hsize. passes Hx. cbn zeta in Hx. passes Hx.
  destruct a0 as [rate s1]. cbn [snd fst] in *. injection Hx as <-.
  apply rate_accrued in Heqr0 as Hacc; [|done..].
  pose proof (accrued_sound _ _ _ Hs Hacc) as Hs1.
  destruct Hacc as [[F1 F2] A1 A2 _ _ _ _ _].
  apply frame_world in F1 as (_ & _ & _ & F6 & _).
  apply external_ok in Heqr3 as (w1 & Hburn & ->). apply lp_burnFrom_spec in Hburn as (_ & Hburn & _).
  solidity_ok. set (out := lp * rate / 10 ^ 18) in *.
  assert (0 ≤ out) by (apply Z.div_pos; lia).
  apply withdrawal_paid in Heqr5 as (w2 & -> & Hbal); [|done..].
  assert (Hbal' : ∀ T, hub_balance s1 T - (if decide (T = t) then out else 0) ≤ balanceOf w2 T this).
  { intros T. rewrite <- Hbal, balance_set_token, balance_set_world, Hburn.
    rewrite (decide_False (P := _ ∧ _)) by (intros [_ ?]; congruence). unfold hub_balance. lia. }
  rewrite pooled_set_world in *.
  split; [|split].
  - apply (sound_frame s1); try done; intros T; try apply Hs1; autorewrite with hub.
    + destruct (decide (T = t)); cbn; [lia|apply Hs1].
    + destruct (decide (T = t)); cbn; apply Hs1.
    + pose proof (sound_claimed s1 Hs1 T). cbn. lia.
    + specialize (Hbal' T). pose proof (sound_covered s1 Hs1 T) as Hc. unfold uncovered in Hc.
      destruct (decide (T = t)) as [->|]; cbn; lia.
  - intros T. cbn [events emit set_world set_token]. rewrite F6, drop_app_length. cbn [total withdrawn_in].
    unfold lp_assets in *. autorewrite with hub.
    destruct (decide (T = t)) as [->|Hne]; [rewrite decide_True by done; cbn; lia|].
    rewrite decide_False, F2 by done. lia.
  - intros T. autorewrite with hub. destruct (decide (T = t)) as [->|Hne]; cbn; [lia|].
    rewrite F2 by done. lia.
Qed.

(** ** The token loop of a leaf *)

(** Part of a leaf's execution: tokens sent are paid out of the liquid
    reserves and owed back, and each token's providers earn [fees]. *)
Record sends s s' (fees : address → Z) : Prop := {
  sends_settings : settings s' = settings s;
  sends_proposal : rootBundleProposal s' = rootBundleProposal s;
  sends_assets : ∀ T, lp_assets s' T = lp_assets s T + fees T;
  sends_fees : ∀ T, undistributedLpFees (pooled s' T) ≤ undistributedLpFees (pooled s T) + fees T;
  sends_fees_nonneg : ∀ T, 0 ≤ undistributedLpFees (pooled s T) → 0 ≤ undistributedLpFees (pooled s' T);
  sends_liquid : ∀ T, 0 ≤ liquidReserves (pooled s T) → 0 ≤ liquidReserves (pooled s' T);
  sends_unclaimed : ∀ T, 0 ≤ unclaimed_fees s T → 0 ≤ unclaimed_fees s' T;
  sends_claimed : ∀ T, claimed_fees s' T = claimed_fees s T;
  sends_covered : ∀ T, liquidReserves (pooled s' T) - hub_balance s' T ≤
                       liquidReserves (pooled s T) - hub_balance s T
}.

Lemma sends_refl s : sends s s (λ _, 0).
Proof. split; try done; intros T; lia. Qed.

Lemma sends_trans s1 s2 s3 f g : sends s1 s2 f → sends s2 s3 g → sends s1 s3 (λ T, f T + g T).
Proof.
  intros [] []. split; try congruence; intros T;
    repeat match goal with H : ∀ _ : address, _ |- _ => specialize (H T) end; try lia; auto.
Qed.

Lemma sends_ext s s' f g : (∀ T, f T = g T) → sends s s' f → sends s s' g.
Proof.
  intros Hfg []. split; try done; intros T; rewrite <- ?Hfg;
    repeat match goal with H : ∀ _ : address, _ |- _ => specialize (H T) end; lia.
Qed.

Lemma lp_share_bounds c f : 0 ≤ protocolFeeCapturePct c ≤ 10 ^ 18 → 0 ≤ f → 0 ≤ lp_share c f ≤ f.
Proof.
  intros Hp Hf. unfold lp_share.
  assert (0 ≤ f * protocolFeeCapturePct c / 10 ^ 18) by (apply Z.div_pos; nia).
  assert (f * protocolFeeCapturePct c / 10 ^ 18 ≤ f) by (apply Z.div_le_upper_bound; nia).
  lia.
Qed.

Lemma allocate_effect s t f s' : _allocateLpAndProtocolFees s t f = Ok s' →
  0 ≤ protocolFeeCapturePct (settings s) ≤ 10 ^ 18 → 0 ≤ f < 2 ^ 255 →
  sends s s' (λ T, if decide (t = T) then lp_share (settings s) f else 0).
Proof.
  unfold _allocateLpAndProtocolFees. intros Hx Hpct Hf. passes Hx. solidity_ok.
  pose proof (lp_share_bounds (settings s) f Hpct ltac:(lia)) as Hlp.
  fold (lp_share (settings s) f) in *. set (lp := lp_share (settings s) f) in *.
  set (fee := f * protocolFeeCapturePct (settings s) / 10 ^ 18) in *.
  assert (Hone : sends s a2 (λ T, if decide (t = T) then lp else 0)).
  { destruct (0 <? lp) eqn:Hpos; [apply Z.ltb_lt in Hpos|apply Z.ltb_ge in Hpos].
    - passes Heqr2. injection Heqr2 as <-. solidity_ok. autorewrite with across.
      split; try done; intros T; unfold lp_assets; autorewrite with hub;
        (destruct (decide (T = t)) as [->|]; [rewrite ?decide_True by done|rewrite ?decide_False by done]);
        cbn; lia || done.
    - injection Heqr2 as <-. eapply sends_ext, sends_refl. intros T. case_decide; lia. }
  destruct (0 <? fee) eqn:Hpos; [apply Z.ltb_lt in Hpos|].
  - passes Hx. injection Hx as <-. solidity_ok. eapply sends_ext; [|apply (sends_trans _ _ _ _ (λ _, 0) Hone)].
    2: { split; try done; intros T; unfold lp_assets; autorewrite with hub; try done; try lia.
         intros Hun. rewrite unclaimed_set. case_decide; [lia|done]. }
    intros T. cbn. lia.
  - by injection Hx as <-.
Qed.

Lemma send_one_effect a p chain nets fees i t s s' : send_one this a p chain nets fees i t s = Ok s' →
  0 ≤ protocolFeeCapturePct (settings s) ≤ 10 ^ 18 →
  Forall i256 nets → Forall (λ f, 0 ≤ f < 2 ^ 255) fees →
  ∃ f, fees !! i = Some f ∧ sends s s' (λ T, if decide (t = T) then lp_share (settings s) f else 0).
Proof.
  unfold send_one. cbn zeta. intros Hx Hpct Hnets Hfees. passes Hx.
  apply array_get_ok in Heqr, Heqr1. eexists; split; [done|].
  assert (Hone : sends s a1 (λ _, 0)).
  { destruct (0 <? a0) eqn:Hpos; [apply Z.ltb_lt in Hpos|by injection Heqr0 as <-; apply sends_refl].
    pose proof (Forall_lookup_1 _ _ _ _ Hnets Heqr) as Hn. unfold i256 in Hn.
    passes Heqr0. injection Heqr0 as <-. apply delegatecall_ok in Heqr2 as (w & Hw & ->).
    apply relayTokens_spec in Hw. rewrite uint256_small in * by lia. solidity_ok.
    rewrite pooled_emit, pooled_set_world in *.
    split; try done; intros T; unfold lp_assets; autorewrite with hub; rewrite ?Hw;
      destruct (decide (T = t)) as [->|]; unfold hub_balance; cbn; lia || done. }
  pose proof (sends_settings _ _ _ Hone) as Hset.
  apply allocate_effect in Hx; rewrite ?Hset in *; [|done|by apply (Forall_lookup_1 _ _ _ _ Hfees Heqr1)].
  eapply sends_ext; [|by eapply sends_trans]. intros T. cbn. lia.
Qed.

Lemma send_from_effect a p chain nets fees i ts s s' :
  send_from this a p chain nets fees i ts s = Ok s' →
  0 ≤ protocolFeeCapturePct (settings s) ≤ 10 ^ 18 →
  Forall i256 nets → Forall (λ f, 0 ≤ f < 2 ^ 255) fees →
  sends s s' (λ T, fees_from (settings s) T ts (drop i fees)).
Proof.
  intros Hx Hpct Hnets Hfees. revert i s Hx Hpct. induction ts as [|t ts IH]; intros i s Hx Hpct.
  - injection Hx as <-. apply sends_refl.
  - cbn [send_from] in Hx. passes Hx.
    apply send_one_effect in Heqr as (f & Hf & Hone); [|done..].
    pose proof (sends_settings _ _ _ Hone) as Hset.
    apply IH in Hx; rewrite ?Hset in *; [|done].
    eapply sends_ext; [|exact (sends_trans _ _ _ _ _ Hone Hx)].
    intros T. unfold fees_from. cbn. by rewrite (drop_S _ _ _ Hf).
Qed.

(** Relaying the roots costs no tokens. *)
Lemma relay_roots_effect (b : bool) s adapter target msg s' :
  (if b then delegatecall s (relayMessage (world s) adapter this target msg) (MessageRelayed target msg)
   else Ok s) = Ok s' → sends s s' (λ _, 0).
Proof.
  destruct b; [|intros [= <-]; apply sends_refl].
  intros (w & Hw & ->)%delegatecall_ok. split; try done; intros T; unfold lp_assets; autorewrite with hub;
    try (cbn; lia).
  apply relayMessage_spec with (t := T) in Hw. unfold hub_balance. lia.
Qed.

Lemma execute_effect m s leaf proof s' : executeRootBundle this m s leaf proof = Ok s' →
  sound s → Forall i256 (netSendAmounts leaf) → Forall (λ f, 0 ≤ f < 2 ^ 255) (bundleLpFees leaf) →
  books s s' (λ T, leaf_fees (settings s) T leaf) (λ T, leaf_fees (settings s) T leaf).
Proof.
  unfold executeRootBundle. intros Hx Hs Hnets Hfees. passes Hx. cbn zeta in Hx. passes Hx.
  injection Hx as <-. apply checked_uint_ok in Heqr1 as [-> Hcount].
  unfold _sendTokensToChainAndUpdatePooledTokenTrackers in Heqr2.
  apply send_from_effect in Heqr2; [|apply Hs|done..]. rewrite drop_0 in Heqr2.
  apply relay_roots_effect in Heqr3.
  pose proof (sends_trans _ _ _ _ _ Heqr2 Heqr3) as Hsend.
  pose proof (sends_proposal _ _ _ Heqr2) as Hprop. rewrite Hprop in *. clear Heqr2 Heqr3 Hprop.
  cbn [settings set_proposal rootBundleProposal with_claims unclaimedPoolRebalanceLeafCount proposer] in *.
  destruct Hsend as [S1 S2 S3 S4 S5 S6 S7 S8 S9]. cbn in S1, S2.
  assert (Hact : _activeRequest s = true).
  { unfold _activeRequest. apply negb_true_iff, Z.eqb_neq. lia. }
  assert (Hpaid : ∃ w, a4 = set_world a3 w ∧ ∀ T, hub_balance a3 T -
    (if bool_decide (T = bondToken (settings s)) &&
        (unclaimedPoolRebalanceLeafCount (rootBundleProposal s) - 1 =? 0)
     then bondAmount (settings s) else 0) ≤ balanceOf w T this).
  { rewrite S1 in Heqr4. destruct (_ - 1 =? 0).
    - apply external_ok in Heqr4 as (w & Hw & ->). exists w. split; [done|]. intros T.
      apply safeTransfer_spec in Hw as [Hw _].
      pose proof (pays_from _ _ _ _ _ _ T Hw (sound_bond s Hs)) as Hp. revert Hp.
      rewrite andb_true_r. unfold hub_balance.
      destruct (decide (T = bondToken (settings s))) as [He|He];
        [rewrite (bool_decide_eq_true_2 _ He)|rewrite (bool_decide_eq_false_2 _ He)]; lia.
    - injection Heqr4 as <-. exists (world a3). split; [by destruct a3|]. intros T.
      rewrite andb_false_r. unfold hub_balance. lia. }
  destruct Hpaid as (w & -> & Hpaid). clear Heqr4. unfold books, lp_assets in *.
  split; [|split; intros T; specialize (S3 T); specialize (S4 T); autorewrite with hub in *;
           unfold leaf_fees; lia].
  split; intros; autorewrite with hub in *;
    try (cbn in *; rewrite ?S1; apply Hs); try (by apply S5, Hs); try (by apply S6, Hs); try (by apply S7, Hs).
  - rewrite S8, Z.add_0_r. apply Hs.
  - pose proof (sound_covered s Hs T) as Hc. revert Hc. specialize (S9 T). specialize (S8 T).
    specialize (Hpaid T). unfold uncovered, bond_held. rewrite Hact, andb_true_r. autorewrite with hub.
    autorewrite with hub in S8, S9. unfold _activeRequest. cbn. rewrite S1, S2, S8. cbn.
    revert Hpaid S9. change (hub_balance (set_proposal _ _) T) with (hub_balance s T).
    pose proof (sound_bond s Hs).
    destruct (bool_decide _), (_ - 1 =? 0); cbn; lia.
  - cbn. rewrite S2. by apply Hs.
  - cbn. rewrite S2. cbn. lia.
Qed.

(** ** The proposal's calls *)

(** No bond is owed on a proposal that is not active, and it can no longer be
    disputed. *)
Definition finished (now : Z) s : Prop :=
  _activeRequest s = false → challengePeriodEndTimestamp (rootBundleProposal s) < now.

(** A call that only trades the bond: the settings and the pools stay, and
    the balance covers the change of the bond held. *)
Lemma bond_trade s s' : sound s → settings s' = settings s → pooledTokens s' = pooledTokens s →
  unclaimedAccumulatedProtocolFees s' = unclaimedAccumulatedProtocolFees s →
  (∀ T, claimed_fees s' T = claimed_fees s T) →
  (_activeRequest s' = true → proposer (rootBundleProposal s') ≠ this) →
  0 ≤ unclaimedPoolRebalanceLeafCount (rootBundleProposal s') →
  (∀ T, hub_balance s T - bond_held s T ≤ hub_balance s' T - bond_held s' T) →
  quiet s s'.
Proof.
  intros Hs H1 H2 H3 H4 H5 H7 H6. unfold quiet, books, lp_assets, pooled. rewrite H2.
  split; [|split; intros; lia].
  split; intros; unfold pooled, unclaimed_fees; rewrite ?H1, ?H2, ?H3, ?H4; try done; try apply Hs; [|by apply H5].
  pose proof (sound_covered s Hs T) as Hc. specialize (H6 T). unfold uncovered, pooled in *.
  rewrite H2, H4. lia.
Qed.

Lemma bond_held_inactive s T : _activeRequest s = false → bond_held s T = 0.
Proof. unfold bond_held. intros ->. by rewrite andb_false_r. Qed.

Lemma bond_held_active s T : _activeRequest s = true →
  bond_held s T = if decide (T = bondToken (settings s)) then bondAmount (settings s) else 0.
Proof.
  unfold bond_held. intros ->. rewrite andb_true_r.
  destruct (decide _) as [He|He]; [by rewrite (bool_decide_eq_true_2 _ He)|by rewrite (bool_decide_eq_false_2 _ He)].
Qed.

Lemma propose_effect m s blocks n r1 r2 r3 s' : proposeRootBundle this m s blocks n r1 r2 r3 = Ok s' →
  sound s → msg_sender m ≠ this →
  quiet s s'.
Proof.
  unfold proposeRootBundle. intros Hx Hs Hm. passes Hx. cbn zeta in Hx. passes Hx. injection Hx as <-.
  apply external_ok in Heqr2 as (w & Hw & ->). apply safeTransferFrom_spec in Hw as [Hw _].
  apply (bond_trade s); try done; try (cbn; bool_to_prop; lia).
  - intros T. autorewrite with hub. cbn. lia.
  - intros T. autorewrite with hub. rewrite (pays_to _ _ _ _ _ _ T Hw Hm). cbn [settings set_proposal].
    unfold noActiveRequests in Heqr. destruct (_activeRequest s) eqn:Hact; [done|].
    rewrite (bond_held_inactive s) by done. rewrite bond_held_active.
    + cbn. unfold hub_balance. lia.
    + unfold _activeRequest. cbn. apply negb_true_iff, Z.eqb_neq. bool_to_prop. lia.
Qed.

Lemma cancel_effect m s s' : _cancelBundle this m s = Ok s' →
  sound s → _activeRequest s = true →
  settings s' = settings s ∧ quiet s s'.
Proof.
  unfold _cancelBundle. intros Hx Hs Hact. passes Hx. injection Hx as <-. destruct a as [ok w].
  apply transfer_spec in Heqr. split; [done|]. apply (bond_trade s); try done; try (cbn; bool_to_prop; lia).
  - intros T. autorewrite with hub. cbn. lia.
  - intros T. autorewrite with hub. cbn [snd]. rewrite (bond_held_inactive (emit _ _)) by done.
    rewrite bond_held_active by done. pose proof (sound_bond s Hs).
    destruct ok; [|subst w; unfold hub_balance; case_decide; lia].
    pose proof (pays_from _ _ _ _ _ _ T Heqr ltac:(done)). unfold hub_balance. lia.
Qed.

(** A change of the world that leaves the contract's balances alone. *)
Lemma sound_world s w : sound s → (∀ T, hub_balance s T ≤ balanceOf w T this) →
  quiet s (set_world s w).
Proof.
  intros Hs Hw. apply (bond_trade s); try done; [apply Hs|apply Hs|]. intros T. specialize (Hw T).
  change (bond_held (set_world s w) T) with (bond_held s T). autorewrite with hub. lia.
Qed.
(** Requesting the price costs the hub pool the bond it holds. *)
Lemma request_cost s w1 oracle ts store x w2 : let c := settings s in let fee := computeFinalFee (world s) store (bondToken c) in
  getImplementationAddress (world s) "Store" = Ok store → fee < bondAmount c →
  safeIncreaseAllowance (world s) (bondToken c) this oracle (bondAmount c) = Ok w1 →
  requestAndProposePriceFor w1 oracle this (identifier c) ts [] (bondToken c) 0 (bondAmount c - fee)
    (liveness c) (proposer (rootBundleProposal s)) (10 ^ 18) = Ok (x, w2) →
  ∀ T, balanceOf w2 T this = hub_balance s T - if decide (T = bondToken c) then bondAmount c else 0.
Proof.
  cbn zeta. intros Hstore Hfee Hw1 Hreq T.
  destruct (allowance_keeps_fees _ _ _ _ _ _ store (bondToken (settings s)) Hw1) as [K1 K2].
  pose proof (safeIncreaseAllowance_spec _ _ _ _ _ _ Hw1 T this) as Hb1.
  apply requestAndProposePriceFor_spec with (store := store) in Hreq; [|congruence|lia].
  rewrite (Hreq T), Hb1, K2. unfold hub_balance. case_decide; lia.
Qed.

(** Disputing it costs the bond the disputer brings. *)
Lemma dispute_cost s who oracle id ts rq w1 w2 w3 : let c := settings s in who ≠ this →
  rq_currency rq = bondToken c → rq_bond rq + rq_finalFee rq = bondAmount c →
  safeTransferFrom (world s) (bondToken c) this who this (bondAmount c) = Ok w1 →
  safeIncreaseAllowance w1 (bondToken c) this oracle (bondAmount c) = Ok w2 →
  disputePriceFor w2 oracle this id ts [] rq who this = Ok w3 →
  ∀ T, balanceOf w3 T this = hub_balance s T.
Proof.
  cbn zeta. intros Hm Hcur Hsum Hw1 Hw2 Hw3 T.
  apply safeTransferFrom_spec in Hw1 as [Hw1 _]. apply disputePriceFor_spec in Hw3.
  rewrite (Hw3 T), Hcur, Hsum, (safeIncreaseAllowance_spec _ _ _ _ _ _ Hw2 T this).
  rewrite (pays_to _ _ _ _ _ _ T Hw1 Hm). unfold hub_balance. lia.
Qed.

Lemma dispute_body_effect m s s' : dispute_body this m s = Ok s' →
  sound s → _activeRequest s = true → msg_sender m ≠ this →
  quiet s s'.
Proof.
  unfold dispute_body. intros Hx Hs Hact Hm. cbn zeta in Hx. passes Hx.
  destruct (bondAmount (settings s) <=? a) eqn:Hfee; [by apply cancel_effect in Hx as (_ & ?)|].
  apply Z.leb_gt in Hfee. passes Hx.
  unfold _getBondTokenFinalFee in Heqr. passes Heqr. injection Heqr as <-.
  apply external_ok in Heqr1 as (w1 & Hw1 & ->). apply usub_ok in Heqr2 as [-> Hbond].
  pose proof (safeIncreaseAllowance_spec _ _ _ _ _ _ Hw1) as Hb1.
  match type of Hx with (match ?r with _ => _ end) = _ => destruct r as [[x w2]|] eqn:Hreq end.
  2: { apply cancel_effect in Hx as (_ & Hx); [done|apply sound_world; [done|]|done].
       intros T. by rewrite Hb1. }
  passes Hx. injection Hx as <-.
  apply external_ok in Heqr as (w3 & Hw3 & ->). apply external_ok in Heqr2 as (w4 & Hw4 & ->).
  apply external_ok in Heqr4 as (w5 & Hw5 & ->). apply external_ok in Heqr5 as (w6 & Hw6 & ->).
  cbn [world set_world] in *.
  pose proof (request_cost s w1 _ _ _ _ _ Heqr3 Hfee Hw1 Hreq) as Hcost.
  assert (Hback : ∀ T, balanceOf w6 T this = hub_balance (set_world s w3) T).
  { eapply dispute_cost; [exact Hm| | |exact Hw4|exact Hw5|exact Hw6]; cbn; [done|lia]. }
  apply (bond_trade s); try done; try (cbn; lia); intros T.
  - autorewrite with hub. cbn. lia.
  - autorewrite with hub. rewrite (bond_held_inactive (emit _ _)) by done. rewrite Hback.
    rewrite balance_set_world, (safeApprove_spec _ _ _ _ _ _ Hw3), Hcost.
    rewrite bond_held_active by done. lia.
Qed.

Lemma dispute_effect m s s' : disputeRootBundle this m s = Ok s' →
  sound s → _activeRequest s = true → msg_sender m ≠ this →
  quiet s s'.
Proof.
  unfold disputeRootBundle. intros Hx Hs Hact Hm. passes Hx.
  apply dispute_body_effect in Heqr as (B1 & B2 & B3); [|done..].
  apply external_ok in Hx as (w & Hw & ->).
  destruct (sound_world a w B1) as (C1 & C2 & C3).
  { intros T. by rewrite (safeApprove_spec _ _ _ _ _ _ Hw). }
  split; [done|]. split; intros T; [by rewrite C2, B2, Z.add_0_r|].
  specialize (B3 T). specialize (C3 T). lia.
Qed.

Lemma emergency_effect m s s' : emergencyDeleteProposal this m s = Ok s' → sound s →
  0 ≤ unclaimedPoolRebalanceLeafCount (rootBundleProposal s) →
  quiet s s'.
Proof.
  unfold emergencyDeleteProposal. intros Hx Hs Hcount. cbn zeta in Hx. passes Hx. injection Hx as <-.
  set (b := rootBundleProposal s) in *.
  destruct (0 <? unclaimedPoolRebalanceLeafCount b) eqn:Hpos.
  - apply Z.ltb_lt in Hpos. apply external_ok in Heqr0 as (w & Hw & ->). cbn in Hw.
    apply safeTransfer_spec in Hw as [Hw _].
    apply (bond_trade s); try done; try (cbn; lia); intros T; autorewrite with hub; [cbn; lia|].
    rewrite (bond_held_inactive (emit _ _)) by done. rewrite bond_held_active.
    + pose proof (pays_from _ _ _ _ _ _ T Hw (sound_bond s Hs)). unfold hub_balance. lia.
    + apply negb_true_iff, Z.eqb_neq. fold b. lia.
  - apply Z.ltb_ge in Hpos. injection Heqr0 as <-.
    apply (bond_trade s); try done; try (cbn; lia); intros T; autorewrite with hub; [cbn; lia|].
    rewrite !bond_held_inactive; [lia|done|]. apply negb_false_iff, Z.eqb_eq. fold b. lia.
Qed.

Lemma claim_effect s t s' : claimProtocolFeesCaptured this s t = Ok s' → sound s →
  quiet s s'.
Proof.
  unfold claimProtocolFeesCaptured. intros Hx Hs. cbn zeta in Hx. passes Hx. injection Hx as <-.
  apply external_ok in Heqr as (w & Hw & ->). cbn in Hw. apply safeTransfer_spec in Hw as [Hw _].
  pose proof (sound_unclaimed s Hs t) as Hfee. split;
    [|split; intros T; unfold lp_assets; autorewrite with hub; lia].
  apply (sound_frame s); try done; intros T; try apply Hs; autorewrite with hub.
  - rewrite unclaimed_set. case_decide; [lia|apply Hs].
  - pose proof (sound_claimed s Hs T). cbn. case_decide; lia.
  - pose proof (sound_covered s Hs T) as Hc. unfold uncovered in Hc.
    pose proof (pays_from _ _ _ _ _ _ T Hw Hfee) as Hp. unfold hub_balance in *. cbn.
    destruct (decide (T = t)) as [->|Hne]; [rewrite (decide_True (P := t = t)) by done|
      rewrite (decide_False (P := t = T)) by congruence]; lia.
Qed.
(** ** The owner's calls *)

(** Calls that change neither the pools nor the bond. *)
Lemma settings_quiet s s' : sound s → pooledTokens s' = pooledTokens s →
  rootBundleProposal s' = rootBundleProposal s →
  unclaimedAccumulatedProtocolFees s' = unclaimedAccumulatedProtocolFees s →
  (∀ T, claimed_fees s' T = claimed_fees s T) → (∀ T, hub_balance s T ≤ hub_balance s' T) →
  (∀ T, bond_held s' T = bond_held s T) → 0 ≤ bondAmount (settings s') →
  0 ≤ protocolFeeCapturePct (settings s') ≤ 10 ^ 18 → 600 < liveness (settings s') → quiet s s'.
Proof.
  intros Hs H1 H2 H3 H4 H5 H6 H7 H8 H9. unfold quiet, books, lp_assets, pooled. rewrite H1.
  split; [|split; intros; lia].
  split; intros; unfold pooled, unclaimed_fees, _activeRequest; rewrite ?H1, ?H2, ?H3, ?H4;
    try done; try apply Hs.
  - pose proof (sound_covered s Hs T) as Hc. specialize (H5 T). unfold uncovered, pooled in *.
    rewrite H1, H4, H6. lia.
  - unfold _activeRequest in *. by rewrite <- H2.
Qed.

(** Calls that keep the reserves of every pool but what is lent out. *)
Lemma pools_books s s' flow : sound s → settings s' = settings s →
  rootBundleProposal s' = rootBundleProposal s →
  unclaimedAccumulatedProtocolFees s' = unclaimedAccumulatedProtocolFees s →
  (∀ T, claimed_fees s' T = claimed_fees s T) → (∀ T, hub_balance s T ≤ hub_balance s' T) →
  (∀ T, liquidReserves (pooled s' T) = liquidReserves (pooled s T) ∧
        undistributedLpFees (pooled s' T) = undistributedLpFees (pooled s T) ∧
        utilizedReserves (pooled s' T) = utilizedReserves (pooled s T) + flow T) →
  books s s' flow (λ _, 0).
Proof.
  intros Hs H1 H2 H3 H4 H5 H6. split; [|split; intros T; unfold lp_assets; destruct (H6 T) as (? & ? & ?); lia].
  apply (sound_frame s); try done; intros T; destruct (H6 T) as (H7 & H8 & H9);
    rewrite ?H7, ?H8, ?H4; try apply Hs; unfold unclaimed_fees; rewrite ?H3; try apply Hs.
  pose proof (sound_covered s Hs T) as Hc. specialize (H5 T). unfold uncovered in Hc. lia.
Qed.

Ltac quiet_settings s :=
  apply (settings_quiet s); try done; try (by apply (sound_bond s)); try (by apply (sound_pct s));
    try (by apply (sound_liveness s));
    try (cbn; lia);
    try (intros ?T; autorewrite with hub; cbn; try lia).

Definition proposal_call (c : pool_call) : bool :=
  match c with
  | EmergencyDeleteProposal | Propose _ _ _ _ _ | Execute _ _ | Dispute => true
  | _ => false
  end.

Definition pool_owner_call (c : pool_call) : bool :=
  match c with
  | SetPaused _ | RelayAdminFunction _ _ | SetProtocolFeeCapture _ _ | SetBond _ _ | SetLiveness _
  | SetIdentifier _ | SetCrossChainContracts _ _ _ | SetRebalanceRoute _ _ _ | SetRoute _ _ _ _ => true
  | _ => false
  end.

Lemma owner_call_quiet m s c s' : pool_owner_call c = true → pool_exec this weth m s c = Ok s' →
  call_typed c → sound s → quiet s s'.
Proof.
  destruct c; try done; intros _ Hx Hc Hs; cbn [pool_exec call_typed] in *.
  - unfold setPaused in Hx. passes Hx. injection Hx as <-. quiet_settings s.
  - unfold relaySpokePoolAdminFunction in Hx. passes Hx.
    apply relay_admin_ok in Hx as (target & w & Hw & ->). quiet_settings s; try apply Hw.
  - unfold setProtocolFeeCapture in Hx. passes Hx. injection Hx as <-. quiet_settings s.
    bool_to_prop. destruct Hc. cbn. lia.
  - unfold setBond in Hx. passes Hx. cbn zeta in Hx. passes Hx. injection Hx as <-. solidity_ok.
    unfold noActiveRequests in Heqr0. destruct (_activeRequest s) eqn:Hact; [done|].
    quiet_settings s. by rewrite !bond_held_inactive.
  - unfold setLiveness in Hx. passes Hx. injection Hx as <-. bool_to_prop. quiet_settings s.
  - unfold setIdentifier in Hx. passes Hx. injection Hx as <-. quiet_settings s.
  - unfold setCrossChainContracts in Hx. passes Hx. injection Hx as <-. quiet_settings s.
  - unfold setPoolRebalanceRoute in Hx. passes Hx. injection Hx as <-. quiet_settings s.
  - unfold setDepositRoute in Hx. passes Hx. injection Hx as <-.
    apply relay_admin_ok in Heqr0 as (target & w & Hw & ->). quiet_settings s; try apply Hw.
Qed.

Lemma enable_quiet m s t s' : enableL1TokenForLiquidityProvision this m s t = Ok s' → sound s → quiet s s'.
Proof.
  unfold enableL1TokenForLiquidityProvision. intros Hx Hs. cbn zeta in Hx. passes Hx. injection Hx as <-.
  set (p := pooled s t) in *.
  assert (Ha' : ∃ w p', (∀ T, hub_balance s T ≤ balanceOf w T this) ∧
    liquidReserves p' = liquidReserves p ∧ undistributedLpFees p' = undistributedLpFees p ∧
    utilizedReserves p' = utilizedReserves p ∧ a0 = set_token (set_world s w) t p' ∨ a0 = s).
  { case_bool_decide; [|by injection Heqr0 as <-; exists (world s), p; right].
    passes Heqr0. injection Heqr0 as <-. destruct a1 as [lp w]. apply createLpToken_spec in Heqr1 as [_ Hw].
    eexists w, {| lpToken := _; utilizedReserves := _; liquidReserves := _ |}. left.
    split; [intros T; apply Hw|]. do 3 (split; [cbn; reflexivity|]). reflexivity. }
  destruct Ha' as (w & p' & [(Hw & H1 & H2 & H3 & ->)| ->]);
    apply (pools_books s); try done; intros T; autorewrite with hub;
    try (cbn; lia); try apply Hw; destruct (decide (T = t)) as [->|]; cbn; try lia;
    autorewrite with hub; rewrite ?decide_True by done; repeat split; try done; fold p; lia.
Qed.

(** The books after any call but those on the proposal. *)
Lemma pool_call_books m s c s' : proposal_call c = false → pool_exec this weth m s c = Ok s' →
  msg_sender m ≠ this → call_typed c → sound s → (∀ T, sized T (s, Some (m, c), s')) →
  books s s' (λ T, lp_flow T (s, Some (m, c), s')) (λ _, 0).
Proof.
  intros Hk Hx Hm Hc Hs Hsize. destruct (pool_owner_call c) eqn:Ho.
  { destruct (owner_call_quiet _ _ _ _ Ho Hx Hc Hs) as (B1 & B2 & B3). split; [done|]. split; [|done].
    intros T. rewrite B2. by destruct c. }
  destruct c as [ | | | | | | | | | |t|t|t a|t a|t lp eth|t|t a|t| | | |t| ]; try done;
    cbn [pool_exec call_typed lp_flow fees_of] in *.
  - by apply enable_quiet in Hx.
  - unfold disableL1TokenForLiquidityProvision in Hx. passes Hx. injection Hx as <-.
    apply (pools_books s); try done; intros T; autorewrite with hub; [cbn; lia..|].
    destruct (decide (T = t)) as [->|]; cbn; repeat split; lia.
  - unfold haircutReserves in Hx. cbn zeta in Hx. passes Hx. injection Hx as <-. solidity_ok.
    apply (pools_books s); try done; intros T; autorewrite with hub; [cbn; lia..|].
    destruct (decide (T = t)) as [->|]; [rewrite decide_True by done|rewrite decide_False by done];
      cbn; repeat split; lia.
  - destruct Hc. eapply addLiquidity_effect; try done. by apply Hsize.
  - eapply removeLiquidity_effect; try done. by apply Hsize.
  - unfold drop_value, exchangeRateCurrent in Hx. passes Hx. injection Hx as <-. destruct a as [rate s1].
    eapply accrued_quiet, rate_accrued; try done. by apply Hsize.
  - unfold drop_value, liquidityUtilizationPostRelay, _liquidityUtilizationPostRelay in Hx. passes Hx.
    injection Hx as <-. cbn zeta in Heqr. passes Heqr.
    destruct (a3 =? 0); [|passes Heqr]; injection Heqr as <-;
      (eapply accrued_quiet, sync_accrued; try done; by apply Hsize).
  - eapply accrued_quiet, sync_accrued; try done. by apply Hsize.
  - by eapply claim_effect.
  - injection Hx as <-. by eapply accrued_quiet, (accrued_refl _ zero_address).
Qed.

(** ** The proposal between its calls *)

Lemma sync_frame s T s' : _sync this s T = Ok s' → frame s' = frame s.
Proof.
  unfold _sync. intros Hx. cbn zeta in Hx. passes Hx.
  destruct (_ <? a); [passes Hx|]; by injection Hx as <-.
Qed.

Lemma sync_pool s T s' : _sync this s T = Ok s' → ∃ u l, pooled s' T = with_reserves (pooled s T) u l.
Proof.
  unfold _sync. intros Hx. cbn zeta in Hx. passes Hx.
  destruct (_ <? a); [passes Hx|]; injection Hx as <-.
  - rewrite pooled_set_token, decide_True by done. by eexists _, _.
  - exists (utilizedReserves (pooled s T)), (liquidReserves (pooled s T)). by destruct (pooled s T).
Qed.

Lemma accumulate_pool m s T s' : _updateAccumulatedLpFees m s T = Ok s' →
  ∃ acc, _getAccumulatedFees m s (undistributedLpFees (pooled s T)) (lastLpFeeUpdate (pooled s T)) = Ok acc ∧
    s' = set_token s T (with_fees (pooled s T) (undistributedLpFees (pooled s T) - acc) (uint32 (block_time m))).
Proof.
  unfold _updateAccumulatedLpFees. intros Hx. cbn zeta in Hx. passes Hx. injection Hx as <-.
  solidity_ok. by eexists.
Qed.

Lemma rate_frame m s T rate s' : _exchangeRateCurrent this m s T = Ok (rate, s') → frame s' = frame s.
Proof.
  unfold _exchangeRateCurrent. intros Hx. destruct (_ =? 0); [by injection Hx as _ <-|]. passes Hx.
  injection Hx as _ <-. apply sync_frame in Heqr0 as ->. unfold _updateAccumulatedLpFees in Heqr.
  cbn zeta in Heqr. passes Heqr. by injection Heqr as <-.
Qed.

Lemma frame_proposal s s' : frame s' = frame s →
  settings s' = settings s ∧ rootBundleProposal s' = rootBundleProposal s ∧ events s' = events s.
Proof. by intros [= ? ? _ _ _ ? _]. Qed.

(** Events of the calls on the proposal. *)
Definition bundle_event (e : hub_event) : bool :=
  match e with
  | ProposeRootBundle _ _ _ _ _ _ _ | RootBundleExecuted _ _ | RootBundleDisputed _ _
  | RootBundleCanceled _ _ | EmergencyRootBundleDeleted _ _ _ _ => true
  | _ => false
  end.

(** The history of the proposal, as the events tell it. *)
Definition bundle_events s : list hub_event := filter (λ e, bundle_event e = true) (events s).

(** The liveness a proposal would get is more than ten minutes. *)
Definition enough_liveness s : Prop := 600 < liveness (settings s).

Definition keeps_bundle s s' : Prop :=
  rootBundleProposal s' = rootBundleProposal s ∧ bundle_events s' = bundle_events s ∧
  (enough_liveness s → enough_liveness s').

Lemma emit_keeps s s' e : keeps_bundle s s' → bundle_event e = false → keeps_bundle s (emit s' e).
Proof.
  intros (H1 & H2 & H3) He. split; [done|]. split; [|done].
  unfold bundle_events in *. cbn. rewrite filter_app, H2. rewrite filter_cons_False by (by rewrite He). by rewrite app_nil_r.
Qed.

Lemma frame_keeps s s' : frame s' = frame s → keeps_bundle s s'.
Proof.
  intros (Hset & ? & He)%frame_proposal. split; [done|]. unfold bundle_events, enough_liveness.
  by rewrite He, Hset.
Qed.

Lemma relay_keeps s chain data s' : _relaySpokePoolAdminFunction this s chain data = Ok s' → keeps_bundle s s'.
Proof. intros (target & w & _ & ->)%relay_admin_ok. by apply emit_keeps; [apply emit_keeps|]. Qed.

Lemma owner_call_keeps m s c s' : pool_owner_call c = true → pool_exec this weth m s c = Ok s' →
  keeps_bundle s s'.
Proof.
  destruct c; try done; intros _ Hx; cbn [pool_exec] in Hx.
  - unfold setPaused in Hx. passes Hx. injection Hx as <-. by apply emit_keeps.
  - unfold relaySpokePoolAdminFunction in Hx. passes Hx. by eapply relay_keeps.
  - unfold setProtocolFeeCapture in Hx. passes Hx. injection Hx as <-. by apply emit_keeps.
  - unfold setBond in Hx. passes Hx. cbn zeta in Hx. passes Hx. injection Hx as <-. by apply emit_keeps.
  - unfold setLiveness in Hx. passes Hx. injection Hx as <-. apply Z.ltb_lt in Heqb. by apply emit_keeps.
  - unfold setIdentifier in Hx. passes Hx. injection Hx as <-. by apply emit_keeps.
  - unfold setCrossChainContracts in Hx. passes Hx. injection Hx as <-. by apply emit_keeps.
  - unfold setPoolRebalanceRoute in Hx. passes Hx. injection Hx as <-. by apply emit_keeps.
  - unfold setDepositRoute in Hx. passes Hx. injection Hx as <-.
    apply emit_keeps; [by eapply relay_keeps|done].
Qed.

Lemma call_keeps_bundle m s c s' : proposal_call c = false → pool_exec this weth m s c = Ok s' →
  keeps_bundle s s'.
Proof.
  intros Hk Hx. destruct (pool_owner_call c) eqn:Ho; [by eapply owner_call_keeps|].
  destruct c; try done; cbn [pool_exec] in Hx; clear Hk Ho.
  - unfold enableL1TokenForLiquidityProvision in Hx. passes Hx. cbn zeta in Hx. injection Hx as <-.
    apply emit_keeps; [|done]. case_bool_decide; [|by injection Heqr0 as <-].
    passes Heqr0. by injection Heqr0 as <-.
  - unfold disableL1TokenForLiquidityProvision in Hx. passes Hx. injection Hx as <-. by apply emit_keeps.
  - unfold haircutReserves in Hx. cbn zeta in Hx. passes Hx. by injection Hx as <-.
  - unfold addLiquidity in Hx. passes Hx. cbn zeta in Hx. passes Hx. destruct a1 as [rate s1].
    injection Hx as <-. apply emit_keeps; [|done].
    apply rate_frame, frame_keeps in Heqr1. apply external_ok in Heqr4 as (w1 & _ & ->).
    cbn [snd] in *. destruct (_ && (0 <? _)); by apply external_ok in Heqr5 as (w2 & _ & ->).
  - unfold removeLiquidity in Hx. passes Hx. cbn zeta in Hx. passes Hx. destruct a0 as [rate s1].
    injection Hx as <-. apply emit_keeps; [|done].
    apply rate_frame, frame_keeps in Heqr0. apply external_ok in Heqr3 as (w1 & _ & ->). cbn [snd] in *.
    destruct sendEth; [passes Heqr5; apply external_ok in Heqr3 as (w3 & _ & ->)|];
      by apply external_ok in Heqr5 as (w2 & _ & ->).
  - unfold drop_value, exchangeRateCurrent in Hx. passes Hx. injection Hx as <-. destruct a as [rate s1].
    by eapply frame_keeps, rate_frame.
  - unfold drop_value, liquidityUtilizationPostRelay, _liquidityUtilizationPostRelay in Hx. passes Hx.
    injection Hx as <-. cbn zeta in Heqr. passes Heqr. apply frame_keeps.
    destruct (_ =? 0); [|passes Heqr]; injection Heqr as <-; by eapply sync_frame.
  - by eapply frame_keeps, sync_frame.
  - unfold claimProtocolFeesCaptured in Hx. cbn zeta in Hx. passes Hx. injection Hx as <-.
    apply emit_keeps; [|done]. by apply external_ok in Heqr as (w2 & _ & ->).
  - by injection Hx as <-.
Qed.
End Books.
