(* ===== verification/HubPoolBundles.v ===== *)
(** * Root bundles: the life cycle of a proposal

    The abstract specification of a root bundle (proposed, executed leaf by
    leaf after its liveness, disputed before, or deleted by the owner), the
    proof that [HubPool.sol] implements it, and what the whole history of the
    contract then keeps: its books and the cover of what it holds. *)

From stdpp Require Import base gmap strings list.
From Stdlib Require Import ZArith Lia Strings.Byte.
From S2P Require Import Prelude Bytes JsText Interfaces HubPoolAdmin SvmSpoke Solidity HubWorld HubPool HubPoolLiquidity.

(** ** The specification *)

(** A proposal: how many leaves it announced, those executed so far, when it
    can no longer be disputed, who posted its bond, and its three roots. *)
Record bundle := {
  b_count : Z;
  b_executed : list Z;
  b_deadline : Z;
  b_proposer : address;
  b_roots : bytes * bytes * bytes
}.

(** Leaves are left to execute, so the bond is held. *)
Definition b_open (b : option bundle) : bool :=
  match b with Some x => Z.of_nat (length (b_executed x)) <? b_count x | None => false end.

Definition with_leaf (x : bundle) (leaf_id : Z) : bundle :=
  {| b_count := b_count x; b_executed := b_executed x ++ [leaf_id]; b_deadline := b_deadline x;
     b_proposer := b_proposer x; b_roots := b_roots x |}.

(** What a proposal may go through at a time [t], with the event that tells. *)
Inductive bundle_step `{!Keccak} (t : Z) : option bundle → option hub_event → option bundle → Prop :=
| Bundle_propose b deadline n blocks r1 r2 r3 who :
    b_open b = false → 0 < n → t + 600 < deadline →
    bundle_step t b (Some (ProposeRootBundle deadline n blocks r1 r2 r3 who))
      (Some {| b_count := n; b_executed := []; b_deadline := deadline; b_proposer := who;
               b_roots := (r1, r2, r3) |})
| Bundle_execute x leaf proof caller :
    b_open (Some x) = true → b_deadline x < t → leafId leaf ∉ b_executed x →
    verifyPoolRebalance (b_roots x).1.1 leaf proof = true →
    bundle_step t (Some x) (Some (RootBundleExecuted leaf caller)) (Some (with_leaf x (leafId leaf)))
| Bundle_dispute x who :
    b_open (Some x) = true → t ≤ b_deadline x →
    bundle_step t (Some x) (Some (RootBundleDisputed who t)) None
| Bundle_cancel x who :
    b_open (Some x) = true → t ≤ b_deadline x →
    bundle_step t (Some x) (Some (RootBundleCanceled who t)) None
| Bundle_delete b r1 r2 r3 who :
    bundle_step t b (Some (EmergencyRootBundleDeleted r1 r2 r3 who)) None
| Bundle_keep b : bundle_step t b None b.

(** A run, with the times of its events. *)
Inductive bundle_run `{!Keccak} : Z → list (Z * hub_event) → option bundle → Prop :=
| Run_nil t : bundle_run t [] None
| Run_step t log b t' e b' :
    bundle_run t log b → t ≤ t' → bundle_step t' b e b' →
    bundle_run t' (log ++ option_list ((t',.) <$> e)) b'.

(** What the events say of the current proposal: the leaves it announced, and
    the ids executed since. *)
Definition replay (b : option (Z * list Z)) (e : hub_event) : option (Z * list Z) :=
  match e with
  | ProposeRootBundle _ n _ _ _ _ _ => Some (n, [])
  | RootBundleExecuted leaf _ => (λ x, (x.1, x.2 ++ [leafId leaf])) <$> b
  | _ => None
  end.
Definition current_bundle (es : list hub_event) : option (Z * list Z) := foldl replay None es.

Definition progress_of (b : option bundle) : option (Z * list Z) :=
  (λ x, (b_count x, b_executed x)) <$> b.

Lemma bundle_run_replay `{!Keccak} t log b : bundle_run t log b →
  current_bundle (map snd log) = progress_of b ∧
  (∀ x, b = Some x → NoDup (b_executed x) ∧ Z.of_nat (length (b_executed x)) ≤ b_count x).
Proof.
  unfold current_bundle. induction 1 as [t|t log b t' e b' _ [IH1 IH2] _ Hstep]; [done|].
  rewrite map_app, foldl_app, IH1.
  destruct Hstep as [b d n ? ? ? ? ? Ho Hn|x leaf ? ? Ho _ Hin| | | |]; cbn; (split; [done|]);
    intros y; intros [= <-] || (intros Hy; done) || idtac.
  - cbn. split; [constructor|lia].
  - cbn in *. apply Z.ltb_lt in Ho. rewrite length_app. cbn. destruct (IH2 x eq_refl) as [Hnd _].
    split; [|lia]. apply NoDup_app. split; [done|]. split; [|apply NoDup_singleton].
    intros i Hi ->%list_elem_of_singleton. done.
  - by apply IH2.
Qed.

(** ** The claimed bitmap *)

Lemma isClaimed1D_testbit bm i : 0 ≤ i → isClaimed1D bm i = Z.testbit bm i.
Proof. apply land_bit_eqb. Qed.

Lemma setClaimed1D_spec bm i j : 0 ≤ i → 0 ≤ j →
  isClaimed1D (setClaimed1D bm i) j = (i =? j) || isClaimed1D bm j.
Proof.
  intros Hi Hj. rewrite !isClaimed1D_testbit by done. unfold setClaimed1D.
  rewrite Z.lor_spec, Z.shiftl_1_l, Z.pow2_bits_eqb by done. apply orb_comm.
Qed.

Section Bundles.
Context {W : Type} `{!Keccak} `{Ht : !Tokens W} `{Hu : !Uma W} `{Ha : !Adapters W}.
Context (this weth : address).
Implicit Types s : hub_pool W.

(** ** The calls on the proposal, as far as it sees them *)

Lemma emit_bundle s e : bundle_event e = true → bundle_events (emit s e) = bundle_events s ++ [e].
Proof.
  intros He. unfold bundle_events. cbn. rewrite filter_app. by rewrite filter_cons_True.
Qed.

Lemma propose_shape m s blocks n r1 r2 r3 s' : proposeRootBundle this m s blocks n r1 r2 r3 = Ok s' →
  ∃ deadline, _activeRequest s = false ∧ 0 < n ∧ deadline = uint32 (block_time m) + liveness (settings s) ∧
    rootBundleProposal s' =
      {| poolRebalanceRoot := r1; relayerRefundRoot := r2; slowRelayRoot := r3; claimedBitMap := 0;
         proposer := msg_sender m; unclaimedPoolRebalanceLeafCount := n;
         challengePeriodEndTimestamp := deadline |} ∧
    bundle_events s' = bundle_events s ++ [ProposeRootBundle deadline n blocks r1 r2 r3 (msg_sender m)] ∧
    (enough_liveness s → enough_liveness s').
Proof.
  unfold proposeRootBundle. intros Hx. passes Hx. cbn zeta in Hx. passes Hx. injection Hx as <-.
  apply external_ok in Heqr2 as (w & _ & ->). apply checked_uint_ok in Heqr1 as [-> _].
  unfold noActiveRequests in Heqr. destruct (_activeRequest s); [done|]. apply Z.ltb_lt in Heqb.
  eexists. do 4 (split; [done|]). by rewrite emit_bundle.
Qed.

Lemma send_one_keeps a p chain nets fees i t s s' :
  send_one this a p chain nets fees i t s = Ok s' → keeps_bundle s s'.
Proof.
  unfold send_one. cbn zeta. intros Hx. passes Hx.
  assert (Hk : keeps_bundle s a1).
  { destruct (0 <? a0); [|by injection Heqr0 as <-]. passes Heqr0. injection Heqr0 as <-.
    apply delegatecall_ok in Heqr2 as (w & _ & ->). by apply (emit_keeps s (set_world s w)). }
  unfold _allocateLpAndProtocolFees in Hx. passes Hx.
  assert (Hk' : keeps_bundle s a6).
  { destruct (0 <? a5); [|by injection Heqr5 as <-]. passes Heqr5. by injection Heqr5 as <-. }
  destruct (0 <? a4); [|by injection Hx as <-]. passes Hx. by injection Hx as <-.
Qed.

Lemma keeps_trans s1 s2 s3 : keeps_bundle s1 s2 → keeps_bundle s2 s3 → keeps_bundle s1 s3.
Proof. intros (? & ? & ?) (? & ? & ?). split; [congruence|]. split; [congruence|auto]. Qed.

Lemma send_from_keeps a p chain nets fees i ts s s' :
  send_from this a p chain nets fees i ts s = Ok s' → keeps_bundle s s'.
Proof.
  revert i s. induction ts as [|t ts IH]; intros i s Hx; cbn [send_from] in Hx; [by injection Hx as <-|].
  passes Hx. apply send_one_keeps in Heqr. apply IH in Hx. by eapply keeps_trans.
Qed.

Lemma execute_shape m s leaf proof s' : executeRootBundle this m s leaf proof = Ok s' →
  let b := rootBundleProposal s in
  challengePeriodEndTimestamp b < block_time m ∧ isClaimed1D (claimedBitMap b) (leafId leaf) = false ∧
  verifyPoolRebalance (poolRebalanceRoot b) leaf proof = true ∧
  0 < unclaimedPoolRebalanceLeafCount b ∧
  rootBundleProposal s' = with_claims b (setClaimed1D (claimedBitMap b) (leafId leaf))
                            (unclaimedPoolRebalanceLeafCount b - 1) ∧
  bundle_events s' = bundle_events s ++ [RootBundleExecuted leaf (msg_sender m)] ∧
  (enough_liveness s → enough_liveness s').
Proof.
  unfold executeRootBundle. intros Hx. passes Hx. cbn zeta in *. passes Hx. injection Hx as <-.
  apply checked_uint_ok in Heqr1 as [-> Hcount]. apply send_from_keeps in Heqr2 as (K1 & K2 & K5).
  assert (Hk : keeps_bundle a2 a4).
  { eapply keeps_trans with a3.
    - destruct (groupIndex leaf =? 0); [|by injection Heqr3 as <-].
      apply delegatecall_ok in Heqr3 as (w & _ & ->). by apply (emit_keeps a2 (set_world a2 w)).
    - destruct (unclaimedPoolRebalanceLeafCount (rootBundleProposal a2) =? 0);
        [by apply external_ok in Heqr4 as (w & _ & ->)|by injection Heqr4 as <-]. }
  destruct Hk as (K3 & K4 & K6). apply Z.ltb_lt in Heqb. apply negb_true_iff in Heqb0.
  do 3 (split; [done|]). split; [lia|]. rewrite emit_bundle by done.
  change (rootBundleProposal (emit a4 _)) with (rootBundleProposal a4). 
  rewrite K3, K4, K1, K2. split; [done|]. split; [done|]. intros Hl. by apply K6, K5.
Qed.

Lemma cancel_shape m s s' : _cancelBundle this m s = Ok s' →
  rootBundleProposal s' = no_bundle ∧
  bundle_events s' = bundle_events s ++ [RootBundleCanceled (msg_sender m) (block_time m)] ∧
  (enough_liveness s → enough_liveness s').
Proof.
  unfold _cancelBundle. intros Hx. passes Hx. injection Hx as <-. split; [done|]. by rewrite emit_bundle.
Qed.

Lemma dispute_shape m s s' : disputeRootBundle this m s = Ok s' →
  uint32 (block_time m) ≤ challengePeriodEndTimestamp (rootBundleProposal s) ∧
  rootBundleProposal s' = no_bundle ∧
  (enough_liveness s → enough_liveness s') ∧
  ∃ e, bundle_events s' = bundle_events s ++ [e] ∧
    (e = RootBundleCanceled (msg_sender m) (block_time m) ∨
     e = RootBundleDisputed (msg_sender m) (uint32 (block_time m))).
Proof.
  unfold disputeRootBundle, dispute_body. intros Hx. cbn zeta in Hx. passes Hx.
  apply external_ok in Hx as (w & _ & ->). passes Heqr. apply Z.leb_le in Heqb. split; [done|].
  change (rootBundleProposal (set_world a w)) with (rootBundleProposal a).
  change (bundle_events (set_world a w)) with (bundle_events a).
  change (enough_liveness (set_world a w)) with (enough_liveness a).
  destruct (bondAmount (settings s) <=? a1); [apply cancel_shape in Heqr as (-> & -> & ?); eauto 7|]. passes Heqr.
  repeat match goal with Hw : external _ _ = Ok _ |- _ => apply external_ok in Hw as (? & _ & ->) end.
  match type of Heqr with (match ?r with _ => _ end) = _ => destruct r as [[price w2]|] end;
    [|apply cancel_shape in Heqr as (-> & -> & ?); eauto 7].
  passes Heqr. injection Heqr as <-.
  repeat match goal with Hw : external _ _ = Ok _ |- _ => apply external_ok in Hw as (? & _ & ->) end.
  split; [done|]. split; [done|]. rewrite emit_bundle by done. eauto.
Qed.

Lemma emergency_shape m s s' : emergencyDeleteProposal this m s = Ok s' →
  let b := rootBundleProposal s in
  rootBundleProposal s' = no_bundle ∧
  bundle_events s' = bundle_events s ++
    [EmergencyRootBundleDeleted (poolRebalanceRoot b) (relayerRefundRoot b) (slowRelayRoot b) (proposer b)] ∧
  (enough_liveness s → enough_liveness s').
Proof.
  unfold emergencyDeleteProposal. intros Hx. passes Hx. cbn zeta in *. passes Hx. injection Hx as <-.
  rewrite emit_bundle by done. change (rootBundleProposal (emit a0 _)) with (rootBundleProposal a0).
  destruct (0 <? unclaimedPoolRebalanceLeafCount (rootBundleProposal s));
    [by apply external_ok in Heqr0 as (w & _ & ->)|by injection Heqr0 as <-].
Qed.

(** ** Refinement *)

(** The storage of a proposal represents the specification's. *)
Definition represents (p : RootBundle) (x : bundle) : Prop :=
  (poolRebalanceRoot p, relayerRefundRoot p, slowRelayRoot p) = b_roots x ∧
  proposer p = b_proposer x ∧ challengePeriodEndTimestamp p = b_deadline x ∧
  unclaimedPoolRebalanceLeafCount p = b_count x - Z.of_nat (length (b_executed x)) ∧
  Z.of_nat (length (b_executed x)) ≤ b_count x ∧
  (∀ i, 0 ≤ i → isClaimed1D (claimedBitMap p) i = bool_decide (i ∈ b_executed x)).

Definition simulates (now : Z) s (b : option bundle) : Prop :=
  match b with
  | Some x => represents (rootBundleProposal s) x ∧ (b_open b = false → b_deadline x < now)
  | None => rootBundleProposal s = no_bundle
  end.

Lemma simulates_active now s b : simulates now s b → _activeRequest s = b_open b.
Proof.
  destruct b as [x|]; cbn; [intros [(_ & _ & _ & Hc & Hle & _) _]|intros Hp]; unfold _activeRequest;
    [rewrite Hc|by rewrite Hp].
  destruct (Z.ltb_spec (Z.of_nat (length (b_executed x))) (b_count x)).
  - apply negb_true_iff, Z.eqb_neq. lia.
  - apply negb_false_iff, Z.eqb_eq. lia.
Qed.

Lemma simulates_finished now s b : 0 < now → simulates now s b → finished now s.
Proof.
  intros Hnow Hsim Hact. rewrite (simulates_active _ _ _ Hsim) in Hact. destruct b as [x|]; cbn in Hsim.
  - destruct Hsim as [(_ & _ & -> & _) Hd]. by apply Hd.
  - by rewrite Hsim.
Qed.

Lemma simulates_later now now' s s' b : now ≤ now' → rootBundleProposal s' = rootBundleProposal s →
  simulates now s b → simulates now' s' b.
Proof.
  intros Hle Hp. destruct b as [x|]; cbn; rewrite Hp; [|done]. intros [Hr Hd]. split; [done|].
  intros Ho. specialize (Hd Ho). lia.
Qed.

(** One step of the contract is at most one step of the specification, the
    one its event tells. *)
Definition refines s b now' s' : Prop :=
  enough_liveness s' ∧ ∃ e b', bundle_step now' b e b' ∧ simulates now' s' b' ∧
    bundle_events s' = bundle_events s ++ option_list e.

Lemma keep_refines now s b now' s' : now ≤ now' → keeps_bundle s s' → enough_liveness s → simulates now s b →
  refines s b now' s'.
Proof.
  intros Hle (Hp & He & Hl) Hlive Hsim. split; [by apply Hl|]. exists None, b. split; [constructor|]. split; [by eapply simulates_later|].
  by rewrite He, app_nil_r.
Qed.

Lemma propose_refines now s b m blocks n r1 r2 r3 s' : proposeRootBundle this m s blocks n r1 r2 r3 = Ok s' →
  0 ≤ block_time m < 2 ^ 32 → enough_liveness s → simulates now s b → refines s b (block_time m) s'.
Proof.
  intros (d & Hact & Hn & Hd & Hp & He & Hl')%propose_shape Htime Hl Hsim. split; [by apply Hl'|].
  unfold enough_liveness in Hl. rewrite uint32_small in Hd by done.
  exists (Some (ProposeRootBundle d n blocks r1 r2 r3 (msg_sender m))), (Some {| b_count := n;
    b_executed := []; b_deadline := d; b_proposer := msg_sender m; b_roots := (r1, r2, r3) |}).
  split; [|split; [|done]].
  - constructor; [by rewrite <- (simulates_active _ _ _ Hsim)|done|lia].
  - cbn. rewrite Hp. cbn. split; [|intros Ho%Z.ltb_ge; cbn in Ho; lia]. do 3 (split; [done|]). cbn. split; [lia|]. split; [lia|].
    intros i Hi. rewrite isClaimed1D_testbit, Z.bits_0 by done. done.
Qed.

Lemma execute_refines now s b m leaf proof s' : executeRootBundle this m s leaf proof = Ok s' →
  0 ≤ leafId leaf → enough_liveness s → simulates now s b → refines s b (block_time m) s'.
Proof.
  intros (Hd & Hc & Hv & Hn & Hp & He & Hl')%execute_shape Hid Hl Hsim.
  split; [by apply Hl'|]. destruct b as [x|]; cbn in Hsim.
  2: { rewrite Hsim in Hn. cbn in Hn. lia. }
  destruct Hsim as [(R1 & R2 & R3 & R4 & R5 & R6) _].
  rewrite R6 in Hc by done. apply bool_decide_eq_false in Hc.
  exists (Some (RootBundleExecuted leaf (msg_sender m))), (Some (with_leaf x (leafId leaf))).
  split; [|split; [|done]].
  - apply Bundle_execute with proof; [cbn; apply Z.ltb_lt; lia|lia|done|]. by rewrite <- R1.
  - cbn. rewrite Hp. split; [|cbn; lia]. do 3 (split; [done|]). cbn. rewrite length_app. cbn.
    split; [lia|]. split; [lia|]. intros i Hi. rewrite setClaimed1D_spec, R6 by done.
    destruct (Z.eqb_spec (leafId leaf) i) as [<-|Hne]; cbn.
    + symmetry. apply bool_decide_eq_true. apply elem_of_app. right. by left.
    + apply bool_decide_ext. rewrite elem_of_app, list_elem_of_singleton. split; [by left|].
      intros [?|?]; [done|congruence].
Qed.

Lemma dispute_refines now s b m s' : disputeRootBundle this m s = Ok s' →
  now ≤ block_time m < 2 ^ 32 → 0 < now → enough_liveness s → simulates now s b → refines s b (block_time m) s'.
Proof.
  intros (Hd & Hp & Hl' & e & He & Hcase)%dispute_shape Htime Hnow Hl Hsim. split; [by apply Hl'|]. rewrite uint32_small in * by lia.
  assert (Hact : b_open b = true).
  { rewrite <- (simulates_active _ _ _ Hsim). destruct (_activeRequest s) eqn:Ha'; [done|].
    apply (simulates_finished _ _ _ Hnow Hsim) in Ha'. lia. }
  destruct b as [x|]; [|done]. destruct Hsim as [(_ & _ & R3 & _) _]. rewrite R3 in Hd.
  exists (Some e), None. split; [|split; [done|by rewrite He]].
  destruct Hcase as [-> | ->]; by constructor.
Qed.

Lemma emergency_refines s (b : option bundle) m s' : emergencyDeleteProposal this m s = Ok s' →
  enough_liveness s → refines s b (block_time m) s'.
Proof.
  intros (Hp & He & Hl')%emergency_shape Hl. split; [by apply Hl'|]. eexists (Some _), None. split; [constructor|]. by split.
Qed.

Lemma step_refines now s l now' s' b : pool_step this weth now s l now' s' → 0 < now →
  enough_liveness s → simulates now s b → refines s b now' s'.
Proof.
  intros Hstep Hnow Hl Hsim. destruct Hstep as [now m c s s' Hm Hv Htime Hc Hx|now s w Hw];
    [|by apply (keep_refines now)].
  destruct (proposal_call c) eqn:Hk.
  - destruct c; try done; cbn [pool_exec call_typed] in *.
    + by eapply emergency_refines.
    + eapply propose_refines; try done. lia.
    + eapply execute_refines; try done. by apply Hc.
    + by eapply dispute_refines.
  - eapply (keep_refines now); [lia| |done..]. by eapply call_keeps_bundle.
Qed.

(** ** Histories *)

Lemma steps_simulate owner w t0 tr now s : pool_steps this weth t0 (deployed owner w) tr now s → 0 < t0 →
  0 < now ∧ enough_liveness s ∧
  ∃ log b, bundle_run now log b ∧ bundle_events s = map snd log ∧ simulates now s b.
Proof.
  remember (deployed owner w) as s0 eqn:Hs0. intros Hsteps H0.
  induction Hsteps as [now s|t1 s1 tr t2 s2 l t3 s3 _ IH Hstep].
  - subst s. split; [done|]. split; [by unfold enough_liveness|]. exists [], None. by repeat constructor.
  - destruct (IH Hs0 H0) as (Hpos & Hl & log & b & Hrun & Hev & Hsim). clear IH.
    assert (Hle : t2 ≤ t3) by (destruct Hstep; lia).
    destruct (step_refines _ _ _ _ _ b Hstep Hpos Hl Hsim) as (Hl' & e & b' & Hb & Hsim' & Hev').
    split; [lia|]. split; [done|]. exists (log ++ option_list ((t3,.) <$> e)), b'.
    split; [by econstructor|]. split; [|done]. rewrite map_app, Hev', Hev. by destruct e.
Qed.

(** C3. The hub pool implements the specification of root bundles: along
    every history from deployment, the proposal events it has emitted are a
    run of the specification, and its storage represents the state that run
    ends in. *)
Theorem hub_refines_bundle_spec owner w t0 tr now s :
  pool_steps this weth t0 (deployed owner w) tr now s → 0 < t0 →
  ∃ log b, bundle_run now log b ∧ bundle_events s = map snd log ∧ simulates now s b.
Proof. intros Hsteps H0. by eapply steps_simulate. Qed.

(** C9. In every reachable state, the leaves executed since the last proposal
    have distinct ids, are no more than it announced, and are exactly what the
    unclaimed count is short of it (no count is left without a proposal); and
    a leaf is only executed when its id is new, its proof is valid, some
    announced leaf is left and the challenge period is over. *)
Theorem bundle_leaves_executed_once owner w t0 tr now s m leaf proof s' :
  pool_steps this weth t0 (deployed owner w) tr now s → 0 < t0 → 0 ≤ leafId leaf →
  match current_bundle (bundle_events s) with
  | Some (n, ids) => NoDup ids ∧ Z.of_nat (length ids) ≤ n ∧
      unclaimedPoolRebalanceLeafCount (rootBundleProposal s) = n - Z.of_nat (length ids)
  | None => unclaimedPoolRebalanceLeafCount (rootBundleProposal s) = 0
  end ∧
  (executeRootBundle this m s leaf proof = Ok s' →
   ∃ n ids, current_bundle (bundle_events s) = Some (n, ids) ∧ (leafId leaf ∉ ids) ∧
     Z.of_nat (length ids) < n ∧
     verifyPoolRebalance (poolRebalanceRoot (rootBundleProposal s)) leaf proof = true ∧
     challengePeriodEndTimestamp (rootBundleProposal s) < block_time m ∧
     current_bundle (bundle_events s') = Some (n, ids ++ [leafId leaf])).
Proof.
  intros Hsteps H0 Hid.
  destruct (steps_simulate _ _ _ _ _ _ Hsteps H0) as (_ & _ & log & b & Hrun & Hev & Hsim).
  apply bundle_run_replay in Hrun as [Hcur Hnd]. rewrite Hev, Hcur.
  destruct b as [x|]; cbn in *.
  - destruct Hsim as [(_ & _ & _ & R4 & R5 & R6) _]. destruct (Hnd x eq_refl) as [Hnd' Hle].
    split; [done|]. intros (Hd & Hc & Hv & Hn & _ & He & _)%execute_shape.
    rewrite R6 in Hc by done. apply bool_decide_eq_false in Hc.
    exists (b_count x), (b_executed x). do 2 (split; [done|]). split; [lia|]. do 2 (split; [done|]).
    rewrite He, Hev. unfold current_bundle in *. by rewrite foldl_app, Hcur.
  - rewrite Hsim. split; [done|]. intros (_ & _ & _ & Hn & _)%execute_shape. rewrite Hsim in Hn. cbn in Hn. lia.
Qed.
End Bundles.
