(* ===== verification/HubPoolHistory.v ===== *)
(** * The hub pool's books over its whole history

    Along every history of [HubPool.sol] from its deployment: the providers'
    assets are accounted for to the unit, what is held is covered, fees never
    exceed the assets unless the owner wrote reserves off, and what a provider
    gets back right after a deposit is bounded by it. *)

From stdpp Require Import base gmap strings list.
From Stdlib Require Import ZArith Lia Strings.Byte.
From S2P Require Import Prelude Bytes JsText Interfaces HubPoolAdmin SvmSpoke Solidity HubWorld HubPool HubPoolLiquidity HubPoolBundles.

Section History.
Context {W : Type} `{!Keccak} `{Ht : !Tokens W} `{Hu : !Uma W} `{Ha : !Adapters W}.
Context (this weth : address).
Implicit Types s : hub_pool W.

Lemma deployed_sound owner w : sound this (deployed owner w).
Proof.
  assert (Hp : ∀ T, pooled (deployed owner w) T = no_token) by done.
  split; try (intros T; rewrite ?Hp; done); try done.
  intros T. pose proof (balance_nonneg w T this).
  unfold uncovered, hub_balance. rewrite bond_held_inactive, Hp by done. cbn. lia.
Qed.

Lemma proposal_call_books now m s c s' b : proposal_call c = true → pool_exec this weth m s c = Ok s' →
  msg_sender m ≠ this → now ≤ block_time m < 2 ^ 32 → call_typed c → sound this s →
  0 < now → simulates now s b → (∀ T, sized this T (s, Some (m, c), s')) →
  books this s s' (λ T, lp_flow T (s, Some (m, c), s')) (λ T, fees_of T (s, Some (m, c), s')).
Proof.
  intros Hk Hx Hm Htime Hc Hs Hnow Hsim Hsize. destruct c; try done; cbn [pool_exec call_typed] in *.
  - eapply emergency_effect; try done. apply Hs.
  - by eapply propose_effect.
  - destruct Hc as (_ & Hf & Hn). destruct (Hsize zero_address) as [_ Hf']. cbn in Hf'.
    eapply execute_effect; try done. apply Forall_and; split; [|done].
    eapply Forall_impl; [exact Hf|]. intros f [? _]. done.
  - eapply dispute_effect; try done.
    apply dispute_shape in Hx as [Hd _]. rewrite uint32_small in Hd by lia.
    destruct (_activeRequest s) eqn:Hact; [done|].
    apply (simulates_finished _ _ _ Hnow Hsim) in Hact. lia.
Qed.

(** One step on the books. *)
Lemma step_books now s l now' s' b : pool_step this weth now s l now' s' → sound this s → 0 < now →
  simulates now s b → (∀ T, sized this T (s, l, s')) →
  books this s s' (λ T, lp_flow T (s, l, s')) (λ T, fees_of T (s, l, s')).
Proof.
  intros Hstep Hs Hnow Hsim Hsize.
  destruct Hstep as [now m c s s' Hm Hv Htime Hc Hx|now s w Hw]; [|by apply sound_world].
  destruct (proposal_call c) eqn:Hk; [by eapply proposal_call_books|].
  assert (Hf : ∀ T, fees_of T (s, Some (m, c), s') = 0) by (intros T; by destruct c).
  destruct (pool_call_books this weth _ _ _ _ Hk Hx Hm Hc Hs Hsize) as (B1 & B2 & B3).
  split; [done|]. split; [done|]. intros T. by rewrite Hf.
Qed.

Lemma steps_books owner w t0 tr now s : pool_steps this weth t0 (deployed owner w) tr now s → 0 < t0 →
  Forall (λ x, ∀ T, sized this T x) tr →
  sound this s ∧ (∀ T, lp_assets s T = total (lp_flow T) tr) ∧
  (∀ T, undistributedLpFees (pooled s T) ≤ total (fees_of T) tr).
Proof.
  remember (deployed owner w) as s0 eqn:Hs0. intros Hsteps H0.
  induction Hsteps as [now s|t1 s1 tr t2 s2 l t3 s3 Hsteps IH Hstep]; intros Hsize.
  - subst s. split; [apply deployed_sound|]. done.
  - apply Forall_app in Hsize as [Hsize [Hl _]%Forall_cons].
    destruct (IH Hs0 H0 Hsize) as (Hs & Hassets & Hfees). clear IH. subst s1.
    destruct (steps_simulate _ _ _ _ _ _ _ _ Hsteps H0) as (Hpos & _ & log & b & _ & _ & Hsim).
    destruct (step_books _ _ _ _ _ _ Hstep Hs Hpos Hsim Hl) as (B1 & B2 & B3).
    split; [done|]. split; intros T; rewrite flow_app; cbn [total].
    + rewrite B2, Hassets. lia.
    + specialize (B3 T). specialize (Hfees T). lia.
Qed.

(** C6. The accounting of liquidity: along every history from deployment, for
    every token, liquid plus lent out reserves are exactly the deposits plus
    the liquidity providers' share of the fees of executed leaves, less the
    withdrawals and the owner's haircuts, in whatever order bridged tokens
    arrived and were synchronised; and the fees still to be distributed are
    between zero and the fees allocated. *)
Theorem lp_assets_accounted owner w t0 tr now s (T : address) :
  pool_steps this weth t0 (deployed owner w) tr now s → 0 < t0 →
  Forall (λ x, ∀ T, sized this T x) tr →
  liquidReserves (pooled s T) + utilizedReserves (pooled s T) = total (lp_flow T) tr ∧
  0 ≤ undistributedLpFees (pooled s T) ≤ total (fees_of T) tr.
Proof.
  intros Hsteps H0 Hsize. destruct (steps_books _ _ _ _ _ _ Hsteps H0 Hsize) as (Hs & H1 & H2).
  split; [apply H1|]. split; [apply Hs|apply H2].
Qed.

(** C10. What the contract counts as liquid, with the bond of an active proposal
    when it is in the same token, never exceeds its balance plus the protocol
    fees it paid out; no bond is owed to the contract itself. *)
Theorem reserves_and_bond_covered owner w t0 tr now s (T : address) :
  pool_steps this weth t0 (deployed owner w) tr now s → 0 < t0 →
  Forall (λ x, ∀ T, sized this T x) tr →
  0 ≤ liquidReserves (pooled s T) ∧
  liquidReserves (pooled s T) +
    (if bool_decide (T = bondToken (settings s)) && _activeRequest s then bondAmount (settings s) else 0)
    ≤ balanceOf (world s) T this + claimed_fees s T ∧
  (_activeRequest s = true → proposer (rootBundleProposal s) ≠ this).
Proof.
  intros Hsteps H0 Hsize. destruct (steps_books _ _ _ _ _ _ Hsteps H0 Hsize) as (Hs & _).
  split; [apply Hs|]. split; [|apply Hs]. pose proof (sound_covered _ s Hs T) as Hc.
  unfold uncovered, bond_held, hub_balance in Hc. lia.
Qed.

(** ** The exchange rate *)

Definition lp_supply s (T : address) : Z := totalSupply (world s) (lpToken (pooled s T)).

(** What the providers could take out now: their assets less the fees still
    to be distributed. *)
Definition redeemable s (T : address) : Z := lp_assets s T - undistributedLpFees (pooled s T).

(** The three [int256] steps of the numerator, on the casts. *)
Lemma numerator_cast l u f x y : iadd (int256 l) u = Ok x → isub x (int256 f) = Ok y →
  uint256 y = (l + u - f) mod 2 ^ 256.
Proof.
  intros Hx Hy. solidity_ok. unfold uint256, to_uint.
  rewrite Zminus_mod, (Zplus_mod (int256 l)), !int256_mod, <- Zplus_mod, <- Zminus_mod. done.
Qed.

Lemma rate_value m s T rate s' : _exchangeRateCurrent this m s T = Ok (rate, s') →
  sound this s → hub_balance this s T < 2 ^ 255 → lp_supply s T ≠ 0 →
  rate = (redeemable s' T mod 2 ^ 256) * 10 ^ 18 / lp_supply s T.
Proof.
  unfold _exchangeRateCurrent. intros Hx Hs Hsize Hsup. fold (lp_supply s T) in Hx.
  rewrite (proj2 (Z.eqb_neq _ _) Hsup) in Hx. passes Hx. injection Hx as <- <-.
  pose proof (numerator_cast _ _ _ _ _ Heqr1 Heqr2) as Hnum. clear Heqr1 Heqr2. solidity_ok.
  rewrite Hnum. done.
Qed.

(** C19. The rate quoted is the redeemable amount per LP token, rounded down; the
    call fails rather than quote one when the redeemable amount is negative
    (after a haircut), and at no supply the rate is one. *)
Theorem exchange_rate_exact m s T rate s' : exchangeRateCurrent this m s T = Ok (rate, s') →
  sound this s → hub_balance this s T < 2 ^ 255 →
  liquidReserves (pooled s' T) < 2 ^ 255 → undistributedLpFees (pooled s' T) < 2 ^ 255 →
  lp_assets s' T = lp_assets s T ∧
  undistributedLpFees (pooled s' T) ≤ undistributedLpFees (pooled s T) ∧
  (lp_supply s T = 0 → rate = 10 ^ 18 ∧ s' = s) ∧
  (lp_supply s T ≠ 0 → 0 ≤ redeemable s' T ∧ rate = redeemable s' T * 10 ^ 18 / lp_supply s T).
Proof.
  unfold exchangeRateCurrent. intros Hx Hs Hsize Hl Hf.
  pose proof (rate_accrued _ _ _ _ _ _ Hx Hs Hsize) as Hacc.
  pose proof (accrued_sound _ _ _ _ Hs Hacc) as Hs'.
  split; [apply Hacc|]. split; [apply Hacc|].
  pose proof (rate_value _ _ _ _ _ Hx Hs Hsize) as Hrate.
  unfold _exchangeRateCurrent in Hx. fold (lp_supply s T) in Hx.
  destruct (lp_supply s T =? 0) eqn:Hz; [apply Z.eqb_eq in Hz|apply Z.eqb_neq in Hz].
  { injection Hx as <- <-. done. }
  split; [done|]. intros _. rewrite Hrate by done. passes Hx. injection Hx as _ <-.
  rewrite !int256_small in * by (split; [apply Hs'|lia]). solidity_ok.
  destruct (decide (0 ≤ redeemable a0 T)) as [Hr|Hr].
  - split; [done|]. unfold redeemable, lp_assets in *. rewrite Z.mod_small by lia. done.
  - exfalso. unfold redeemable, lp_assets in Hr.
    assert (Hw : ∀ z, - 2 ^ 255 ≤ z < 0 → 2 ^ 255 ≤ uint256 z).
    { intros z Hz'. unfold uint256, to_uint. rewrite <- (Z_mod_plus_full z 1), Z.mod_small by lia. lia. }
    match goal with H : 0 ≤ uint256 ?z * _ < _ |- _ => specialize (Hw z ltac:(lia)); lia end.
Qed.

(** ** Withdrawals *)

Lemma remove_exact m s t lp eth s' : removeLiquidity this weth m s t lp eth = Ok s' →
  ∃ rate s1, _exchangeRateCurrent this m s t = Ok (rate, s1) ∧ 0 ≤ lp ≤ lp_supply s1 t ∧
    (∀ T, redeemable s' T = redeemable s1 T - if decide (T = t) then lp * rate / 10 ^ 18 else 0) ∧
    events s' = events s ++ [LiquidityRemoved t (lp * rate / 10 ^ 18) lp (msg_sender m)].
Proof.
  unfold removeLiquidity. intros Hx. passes Hx. cbn zeta in Hx. passes Hx.
  destruct a0 as [rate s1]. cbn [fst snd] in *. injection Hx as <-. exists rate, s1. split; [done|].
  apply rate_frame, frame_proposal in Heqr0 as (_ & _ & Hev).
  apply external_ok in Heqr3 as (w1 & Hburn & ->). apply lp_burnFrom_spec in Hburn as (Hlp & _ & _).
  split; [done|]. solidity_ok.
  assert (Hw : ∃ w, a5 = set_world (set_token (set_world s1 w1) t
    (with_reserves (pooled (set_world s1 w1) t) (utilizedReserves (pooled (set_world s1 w1) t))
       (liquidReserves (pooled (set_world s1 w1) t) - lp * rate / 10 ^ 18))) w).
  { destruct eth; [passes Heqr5|];
      repeat match goal with Hw : external _ _ = Ok _ |- _ => apply external_ok in Hw as (? & _ & ->) end;
      by eexists. }
  destruct Hw as [w ->]. split; [|cbn; by rewrite Hev].
  intros T. unfold redeemable, lp_assets. rewrite pooled_emit, !pooled_set_world, pooled_set_token, !pooled_set_world.
  destruct (decide (T = t)) as [->|]; cbn; lia.
Qed.

(** A share of the redeemable amount, rounded down twice. *)
Lemma share_bound r e n lp q : 0 ≤ n → 0 < e → 0 ≤ lp ≤ q → 0 < q → r ≤ n * e / q → lp * r / e ≤ n.
Proof.
  intros Hn He Hlp Hq Hr. apply Z.div_le_upper_bound; [done|].
  assert (q * (n * e / q) ≤ n * e) by (apply Z.mul_div_le; lia).
  assert (0 ≤ n * e / q) by (apply Z.div_pos; nia). generalize dependent (n * e / q). intros x Hr Hx Hx0.
  transitivity (lp * x); [apply Z.mul_le_mono_nonneg_l; lia|].
  transitivity (q * x); [apply Z.mul_le_mono_nonneg_r; lia|lia].
Qed.

Lemma remove_solvent m s t lp eth s' : removeLiquidity this weth m s t lp eth = Ok s' →
  sound this s → hub_balance this s t < 2 ^ 255 → (∀ T, 0 ≤ redeemable s T) → ∀ T, 0 ≤ redeemable s' T.
Proof.
  intros Hx Hs Hsize Hsolv T. apply remove_exact in Hx as (rate & s1 & Hrate & Hlp & Hred & _).
  pose proof (rate_accrued _ _ _ _ _ _ Hrate Hs Hsize) as [[F1 F2] A1 A2 _ _ _ A3 _].
  assert (Hs1 : ∀ T', 0 ≤ redeemable s1 T').
  { intros T'. specialize (Hsolv T'). unfold redeemable, lp_assets in *.
    destruct (decide (T' = t)) as [->|Hne]; [lia|by rewrite F2]. }
  rewrite Hred. specialize (Hs1 T). destruct (decide (T = t)) as [->|]; [|lia].
  assert (Hsup : lp_supply s1 t = lp_supply s t).
  { unfold lp_supply. rewrite A3. by destruct (frame_world this _ _ F1) as (_ & _ & -> & _). }
  rewrite Hsup in Hlp. destruct (decide (lp_supply s t = 0)) as [Hz|Hz].
  { assert (lp = 0) as -> by lia. rewrite Z.mul_0_l, Z.div_0_l by done. lia. }
  pose proof (rate_value _ _ _ _ _ Hrate Hs Hsize Hz) as Hv.
  assert (0 ≤ lp_supply s t) by apply supply_nonneg.
  enough (lp * rate / 10 ^ 18 ≤ redeemable s1 t) by lia.
  eapply share_bound; [done|done|exact Hlp|lia|]. rewrite Hv.
  apply Z.div_le_mono; [lia|]. apply Z.mul_le_mono_nonneg_r; [lia|]. apply Z.mod_le; lia.
Qed.

Definition is_haircut (x : hub_pool W * option (message * pool_call) * hub_pool W) : bool :=
  match x.1.2 with Some (_, HaircutReserves _ _) => true | _ => false end.

(** C40. The claim that justifies the contract's cast of the exchange rate's
    numerator: as long as the owner made no haircut, the liquid plus lent out
    reserves of every token are at least its undistributed fees, in every
    reachable state. *)
Theorem undistributed_within_assets owner w t0 tr now s (T : address) :
  pool_steps this weth t0 (deployed owner w) tr now s → 0 < t0 →
  Forall (λ x, (∀ T, sized this T x) ∧ is_haircut x = false) tr →
  undistributedLpFees (pooled s T) ≤ liquidReserves (pooled s T) + utilizedReserves (pooled s T).
Proof.
  intros Hsteps H0 Hall. enough (∀ T', 0 ≤ redeemable s T') as Hr.
  { specialize (Hr T). unfold redeemable, lp_assets in Hr. lia. }
  clear T. remember (deployed owner w) as s0 eqn:Hs0.
  induction Hsteps as [now s|t1 s1 tr t2 s2 l t3 s3 Hsteps IH Hstep]; [by subst s|].
  apply Forall_app in Hall as [Hall [[Hl Hcut] _]%Forall_cons]. specialize (IH Hs0 H0 Hall). subst s1.
  assert (Hsized : Forall (λ x, ∀ T, sized this T x) tr) by (eapply Forall_impl; [exact Hall|by intros ? []]).
  destruct (steps_books _ _ _ _ _ _ Hsteps H0 Hsized) as (Hs & _).
  destruct (steps_simulate _ _ _ _ _ _ _ _ Hsteps H0) as (Hpos & _ & log & b & _ & _ & Hsim).
  destruct (step_books _ _ _ _ _ _ Hstep Hs Hpos Hsim Hl) as (_ & B2 & B3).
  assert (Hgo : (∀ T, fees_of T (s2, l, s3) ≤ lp_flow T (s2, l, s3)) → ∀ T', 0 ≤ redeemable s3 T').
  { intros Hle T. specialize (B2 T). specialize (B3 T). specialize (IH T). specialize (Hle T).
    unfold redeemable in *. lia. }
  destruct Hstep as [now m c s s' Hm Hv Htime Hc Hx|now s w' Hw]; [|apply Hgo; cbn; lia].
  destruct c; try done; try (apply Hgo; intros T; cbn; lia).
  - apply Hgo. intros T. destruct Hc. cbn. case_decide; lia.
  - eapply remove_solvent; [exact Hx|done|by apply Hl|done].
Qed.

(** ** A deposit followed by a withdrawal *)

Lemma deposit_supply m s t a s' lp : lp ≠ weth →
  (if bool_decide (weth = t) && (0 <? msg_value m)
   then external s (weth_deposit (world s) weth this (msg_value m))
   else external s (safeTransferFrom (world s) t this (msg_sender m) this a)) = Ok s' →
  ∃ w, s' = set_world s w ∧ totalSupply w lp = totalSupply (world s) lp.
Proof.
  intros Hlp. destruct (_ && (0 <? _)); intros (w & Hw & ->)%external_ok; exists w; (split; [done|]).
  - by apply weth_deposit_spec in Hw as [_ ->].
  - by apply safeTransferFrom_spec in Hw as [_ ->].
Qed.

Lemma add_exact m s t a s' : addLiquidity this weth m s t a = Ok s' →
  sound this s → hub_balance this s t < 2 ^ 255 → lpToken (pooled s t) ≠ weth →
  ∃ rate s1, _exchangeRateCurrent this m s t = Ok (rate, s1) ∧ rate ≠ 0 ∧
    redeemable s' t = redeemable s1 t + a ∧ lp_supply s' t = lp_supply s t + a * 10 ^ 18 / rate ∧
    lastLpFeeUpdate (pooled s' t) = lastLpFeeUpdate (pooled s1 t) ∧
    events s' = events s ++ [LiquidityAdded t a (a * 10 ^ 18 / rate) (msg_sender m)].
Proof.
  unfold addLiquidity. intros Hx Hs Hsize Hlp. passes Hx. cbn zeta in Hx. passes Hx.
  destruct a2 as [rate s1]. cbn [snd fst] in *. injection Hx as <-. exists rate, s1. split; [done|].
  pose proof (rate_accrued _ _ _ _ _ _ Heqr1 Hs Hsize) as [[F1 _] _ _ _ _ _ A3 _].
  destruct (frame_world this _ _ F1) as (_ & _ & Hw & Hev & _).
  apply external_ok in Heqr4 as (w1 & Hmint & ->). apply lp_mint_spec in Hmint as [_ Hmint].
  apply (deposit_supply _ _ _ _ _ (lpToken (pooled s t)) Hlp) in Heqr5 as (w2 & -> & Hsup). solidity_ok.
  split; [done|]. unfold redeemable, lp_assets, lp_supply.
  rewrite !pooled_emit, !pooled_set_world, !pooled_set_token, !decide_True in * by done.
  cbn [lpToken with_reserves liquidReserves utilizedReserves undistributedLpFees lastLpFeeUpdate] in *.
  split; [lia|]. rewrite A3 in *. split; [|split; [done|by cbn; rewrite Hev]].
  cbn in Hsup, Hmint |- *. rewrite Hsup, Hmint, decide_True, Hw by done. done.
Qed.

Lemma rate_stamped m s T rate s' : _exchangeRateCurrent this m s T = Ok (rate, s') → lp_supply s T ≠ 0 →
  lastLpFeeUpdate (pooled s' T) = uint32 (block_time m).
Proof.
  unfold _exchangeRateCurrent. intros Hx Hsup. fold (lp_supply s T) in Hx.
  rewrite (proj2 (Z.eqb_neq _ _) Hsup) in Hx. passes Hx. injection Hx as _ <-.
  apply sync_pool in Heqr0 as (u & l & ->). apply accumulate_pool in Heqr as (acc & _ & ->).
  by rewrite pooled_set_token, decide_True.
Qed.

(** No fees are freed twice at the same time. *)
Lemma rate_again m s T rate s' : _exchangeRateCurrent this m s T = Ok (rate, s') → sound this s →
  hub_balance this s T < 2 ^ 255 → lastLpFeeUpdate (pooled s T) = block_time m →
  redeemable s' T = redeemable s T.
Proof.
  intros Hx Hs Hsize Hlast. pose proof (rate_accrued _ _ _ _ _ _ Hx Hs Hsize) as [_ A1 _ _ _ _ _ _].
  unfold redeemable. rewrite A1. clear A1. enough (undistributedLpFees (pooled s' T) =
    undistributedLpFees (pooled s T)) by lia.
  unfold _exchangeRateCurrent in Hx. destruct (_ =? 0); [by injection Hx as _ <-|].
  passes Hx. injection Hx as _ <-. apply sync_pool in Heqr0 as (u & l & ->).
  apply accumulate_pool in Heqr as (acc & Hacc & ->). rewrite pooled_set_token, decide_True by done.
  cbn [undistributedLpFees with_fees with_reserves].
  unfold _getAccumulatedFees in Hacc. passes Hacc. injection Hacc as <-. solidity_ok.
  rewrite Hlast, Z.sub_diag, Z.mul_0_r. change (0 / 10 ^ 18) with 0.
  pose proof (sound_undistributed _ s Hs T).
  destruct (0 <? _) eqn:Hlt; [lia|]. apply Z.ltb_ge in Hlt. lia.
Qed.

Lemma round_trip_arith e n q a r m r' : 0 < e → 0 ≤ n → 0 < q → 0 ≤ a → 0 < r → r = n * e / q →
  m = a * e / r → r' ≤ (n + a) * e / (q + m) → m * r' / e ≤ a + m / e.
Proof.
  intros He Hn Hq Ha' Hr Hr1 Hm Hr'.
  assert (Hm0 : 0 ≤ m) by (subst m; apply Z.div_pos; nia).
  assert (H1 : n * e < q * (r + 1)) by (subst r; pose proof (Z.mul_succ_div_gt (n * e) q Hq); lia).
  assert (H2 : r * m ≤ a * e) by (subst m; apply Z.mul_div_le; lia).
  assert (H3 : (q + m) * r' ≤ (n + a) * e).
  { pose proof (Z.mul_div_le ((n + a) * e) (q + m) ltac:(lia)). nia. }
  assert (H4 : e * (m * r' / e) ≤ m * r') by (apply Z.mul_div_le; lia).
  set (out := m * r' / e) in *. clearbody out. clear Hr1 Hm Hr'.
  enough (H5 : (out - a) * e ≤ m) by (pose proof (Z.div_le_lower_bound m e (out - a) He ltac:(lia)); lia).
  destruct (decide (out ≤ a)); [nia|].
  enough ((out - a) * e * (q + m) ≤ m * q) by nia.
  assert (out * (q + m) * e ≤ m * (n + a) * e) by nia.
  nia.
Qed.

Lemma mod_add_le x a p : 0 < p → 0 ≤ a → (x + a) mod p ≤ x mod p + a.
Proof.
  intros Hp Ha'. rewrite <- Zplus_mod_idemp_l. apply Z.mod_le; [|done].
  pose proof (Z.mod_pos_bound x p Hp). lia.
Qed.

(** C20. A provider who deposits and takes the minted LP tokens out again in the
    same block, in a pool that already has providers, gets back at most the
    deposit and one unit for every whole LP token minted (the rounding of the
    exchange rate): nothing is gained at the other providers' expense. *)
Theorem deposit_withdraw_no_gain m m' s t a minted s1 eth returned s2 :
  sound this s → hub_balance this s t < 2 ^ 255 → hub_balance this s1 t < 2 ^ 255 →
  lp_supply s t ≠ 0 → lpToken (pooled s t) ≠ weth →
  msg_sender m ≠ this → u256 a → 0 ≤ block_time m < 2 ^ 32 → block_time m' = block_time m →
  addLiquidity this weth m s t a = Ok s1 →
  events s1 = events s ++ [LiquidityAdded t a minted (msg_sender m)] →
  removeLiquidity this weth m' s1 t minted eth = Ok s2 →
  events s2 = events s1 ++ [LiquidityRemoved t returned minted (msg_sender m')] →
  returned ≤ a + minted / 10 ^ 18.
Proof.
  intros Hs Hb Hb1 Hsup Hlp Hm [Ha0 _] Htime Hsame Hadd Hev1 Hrem Hev2.
  destruct (addLiquidity_effect _ _ _ _ _ _ _ Hadd Hs Hm Ha0 Hb) as [Hs1 _].
  destruct (add_exact _ _ _ _ _ Hadd Hs Hb Hlp) as (r & sa & Hr & Hr0 & Hred & Hsup1 & Hlast & Hev).
  rewrite Hev in Hev1. apply app_inv_head in Hev1 as [= Hminted].
  apply remove_exact in Hrem as (r' & sb & Hr' & _ & _ & Hev').
  rewrite Hev' in Hev2. apply app_inv_head in Hev2 as [= Hret].
  assert (Hq : 0 < lp_supply s t) by (pose proof (supply_nonneg (world s) (lpToken (pooled s t))); unfold lp_supply in *; lia).
  pose proof (rate_value _ _ _ _ _ Hr Hs Hb Hsup) as Hv.
  set (n := redeemable sa t mod 2 ^ 256) in *.
  assert (Hn : 0 ≤ n) by (apply Z.mod_pos_bound; lia).
  assert (0 ≤ n * 10 ^ 18 / lp_supply s t) by (apply Z.div_pos; lia).
  assert (Hm0 : 0 ≤ minted) by (subst minted; apply Z.div_pos; lia).
  rewrite Hminted in Hsup1.
  assert (Hagain : redeemable sb t = redeemable s1 t).
  { eapply rate_again; [exact Hr'|done..|]. rewrite Hlast, (rate_stamped _ _ _ _ _ Hr Hsup).
    rewrite Hsame. by apply uint32_small. }
  pose proof (rate_value _ _ _ _ _ Hr' Hs1 Hb1 ltac:(lia)) as Hv'.
  rewrite Hagain, Hred, Hsup1 in Hv'. subst returned.
  eapply (round_trip_arith _ n (lp_supply s t) a r); try done; try lia.
  - rewrite Hv'. apply Z.div_le_mono; [lia|]. apply Z.mul_le_mono_nonneg_r; [lia|].
    by apply mod_add_le.
Qed.
End History.
