(* ===== verification/HubPoolSample.v ===== *)
(** * A history of the hub pool, executed

    A runner that turns a list of transactions into a history, and one sample
    history on the concrete world of [HubWorld]: the owner sets the pool up,
    a provider deposits, a bundle is proposed, executed and its bond returned,
    fees are claimed and liquidity withdrawn; at which the theorems of
    [HubPoolBundles] and [HubPoolHistory] are evaluated. *)

From stdpp Require Import base gmap strings list.
From Stdlib Require Import ZArith Lia Strings.Byte.
From S2P Require Import Prelude Bytes JsText Interfaces HubPoolAdmin SvmSpoke Solidity HubWorld HubPool HubPoolLiquidity HubPoolBundles HubPoolHistory.

#[export] Instance call_typed_dec c : Decision (call_typed c).
Proof. destruct c; unfold call_typed, u256, i256; apply _. Defined.

Section Runner.
Context {W : Type} `{!Keccak} `{Ht : !Tokens W} `{Hu : !Uma W} `{Ha : !Adapters W}.
Context (this weth : address).

Abbreviation history := (list (hub_pool W * option (message * pool_call) * hub_pool W)) (only parsing).

(** A transaction, when its sender, value and time are possible and it does
    not revert. *)
Definition run_call (now : Z) (s : hub_pool W) (m : message) (c : pool_call) : option (hub_pool W) :=
  if bool_decide (msg_sender m ≠ this ∧ 0 ≤ msg_value m ∧ (now ≤ block_time m ∧ block_time m < 2 ^ 32) ∧
                  call_typed c)
  then match pool_exec this weth m s c with Ok s' => Some s' | Err _ => None end
  else None.

Fixpoint run_calls (now : Z) (s : hub_pool W) (tr : history) (l : list (message * pool_call))
  : option (Z * hub_pool W * history) :=
  match l with
  | [] => Some (now, s, tr)
  | (m, c) :: l' =>
      match run_call now s m c with
      | Some s' => run_calls (block_time m) s' (tr ++ [(s, Some (m, c), s')]) l'
      | None => None
      end
  end.

Lemma run_calls_steps t0 s0 now s tr l r : run_calls now s tr l = Some r →
  pool_steps this weth t0 s0 tr now s → pool_steps this weth t0 s0 r.2 r.1.1 r.1.2.
Proof.
  revert now s tr. induction l as [|[m c] l IH]; intros now s tr Hr Hs; cbn in Hr; [by injection Hr as <-|].
  unfold run_call in Hr. case_bool_decide as Hc; [|done]. destruct Hc as (H1 & H2 & H3 & H4).
  destruct (pool_exec this weth m s c) as [s'|] eqn:Hx; [|done].
  eapply IH; [exact Hr|]. econstructor; [exact Hs|]. by constructor.
Qed.

End Runner.

(** [sized] on the toy world, decided on the finite map of balances. *)
Definition toy_sized (x : hub_pool toy_world * option (message * pool_call) * hub_pool toy_world) : bool :=
  bool_decide (map_Forall (λ _ v, (v < 2 ^ 255)%N) (tw_balances (world x.1.1))) &&
  match x.1.2 with
  | Some (_, Execute leaf _) => forallb (λ f, f <? 2 ^ 255) (bundleLpFees leaf)
  | _ => true
  end.

Lemma toy_sized_sound this tr : forallb toy_sized tr = true → Forall (λ x, ∀ T, sized this T x) tr.
Proof.
  intros Hall. apply Forall_forall. intros x Hin T. rewrite forallb_forall in Hall.
  specialize (Hall x (proj1 (list_elem_of_In _ _) Hin)). unfold toy_sized in Hall.
  apply andb_prop in Hall as [Hb Hf]. apply bool_decide_eq_true in Hb. split.
  - unfold hub_balance. cbn. unfold tw_balance.
    destruct (tw_balances (world x.1.1) !! (T, this)) as [v|] eqn:Hl; cbn; [|done].
    apply Hb in Hl. apply N2Z.inj_lt in Hl. by rewrite N2Z.inj_pow in Hl.
  - destruct x as [[s [[m c]|]] s']; [|done]. destruct c; try done. cbn in *.
    apply Forall_forall. intros f Hf'. rewrite forallb_forall in Hf.
    apply Z.ltb_lt, Hf. by apply list_elem_of_In.
Qed.

(** ** The sample *)
Module Sample.

Definition hub : address := "0xc186fa914353c44b2e33ebe05f21846f1048beda".
Definition weth : address := "0xc02aaa39b223fe8d0a0e5c4f27ead9083c756cc2".
Definition dai : address := "0x6b175474e89094c44da98b954eedeac495271d0f".
Definition bond : address := "0x04fa0d235c4abf4bcf4787af4cf447de572ef828".
Definition owner : address := "0xb524735356985d2f267fa010d681f061dff03715".
Definition provider : address := "0x9a8f92a830a5cb89a3816e3d267cb7791c16b04d".
Definition worker : address := "0xf7bac63fc7ceacf0589f25454ecf5c2ce904997c".

Definition world : toy_world :=
  {| tw_balances := {[ (dai, provider) := 5000%N; (bond, worker) := 900%N; (bond, provider) := 900%N ]};
     tw_supplies := ∅; tw_finalFee := 50%N |}.

(** One leaf: 300 DAI to chain 10, with 40 of fees. *)
Definition leaf : PoolRebalanceLeaf :=
  {| chainId := 10; bundleLpFees := [40]; netSendAmounts := [300]; runningBalances := [0];
     groupIndex := 0; leafId := 3; l1Tokens := [dai] |}.
Definition root : bytes := keccak (abi_encode_leaf leaf).
Definition refunds : bytes := replicate 32 x01.
Definition slow : bytes := replicate 32 x02.

Definition by_ (who : address) (t : Z) : message := {| msg_sender := who; msg_value := 0; block_time := t |}.

Definition setup : list (message * pool_call) :=
  [ (by_ owner 100, EnableL1Token dai);
    (by_ owner 100, SetProtocolFeeCapture owner (10 ^ 17));
    (by_ owner 100, SetBond bond 450);
    (by_ owner 100, SetCrossChainContracts 10 "0xadapter" "0xspoke");
    (by_ owner 100, SetRebalanceRoute 10 dai "0xl2dai");
    (by_ provider 200, AddLiquidity dai 1000);
    (by_ worker 300, Propose [1; 2] 1 root refunds slow) ].

Definition calls : list (message * pool_call) :=
  setup ++
  [ (by_ worker 7501, Execute leaf []);
    (by_ worker 7600, ClaimProtocolFees dai);
    (by_ provider 7700, RemoveLiquidity dai 100 false) ].

Definition start : hub_pool toy_world := deployed owner world.
Definition run (l : list (message * pool_call)) := run_calls hub weth 100 start [] l.

Lemma run_steps l r : run l = Some r → pool_steps hub weth 100 start r.2 r.1.1 r.1.2.
Proof. intros Hr. eapply run_calls_steps; [exact Hr|]. constructor. Qed.

Definition state_of (r : option (Z * hub_pool toy_world *
    list (hub_pool toy_world * option (message * pool_call) * hub_pool toy_world))) : hub_pool toy_world :=
  match r with Some r => r.1.2 | None => start end.
Definition time_of {A} (r : option (Z * hub_pool toy_world * A)) : Z :=
  match r with Some r => r.1.1 | None => 0 end.
Definition trace_of (r : option (Z * hub_pool toy_world *
    list (hub_pool toy_world * option (message * pool_call) * hub_pool toy_world))) :=
  match r with Some r => r.2 | None => [] end.

Lemma sample_steps l : bool_decide (is_Some (run l)) = true →
  pool_steps hub weth 100 start (trace_of (run l)) (time_of (run l)) (state_of (run l)).
Proof.
  intros [r Hr]%bool_decide_eq_true. rewrite Hr. by apply run_steps in Hr.
Qed.

Lemma sample_sound l : bool_decide (is_Some (run l)) = true → forallb toy_sized (trace_of (run l)) = true →
  sound hub (state_of (run l)).
Proof.
  intros Hr Hz. eapply (steps_books hub weth owner world 100); [by apply sample_steps|done|].
  by apply toy_sized_sound.
Qed.

Lemma calls_run : bool_decide (is_Some (run calls)) = true.
Proof. vm_compute. reflexivity. Qed.
Lemma sample_setup_run : bool_decide (is_Some (run setup)) = true.
Proof. vm_compute. reflexivity. Qed.
Lemma calls_sized : forallb toy_sized (trace_of (run calls)) = true.
Proof. vm_compute. reflexivity. Qed.
Lemma setup_sized : forallb toy_sized (trace_of (run setup)) = true.
Proof. vm_compute. reflexivity. Qed.

End Sample.
Import Sample.

Lemma positive_start : 0 < 100.
Proof. reflexivity. Qed.

Lemma hub_refines_bundle_spec_witness : ∃ log b,
  bundle_run (time_of (run calls)) log b ∧
  map snd log = [ProposeRootBundle 7500 1 [1; 2] root refunds slow worker; RootBundleExecuted leaf worker] ∧
  simulates (time_of (run calls)) (state_of (run calls)) b.
Proof.
  assert (He : bundle_events (state_of (run calls)) =
    [ProposeRootBundle 7500 1 [1; 2] root refunds slow worker; RootBundleExecuted leaf worker])
    by (vm_compute; reflexivity).
  pose proof (hub_refines_bundle_spec hub weth owner world 100 _ _ _ (sample_steps calls calls_run)
    positive_start) as H.
  destruct H as (log & b & H1 & H2 & H3). exists log, b. split; [exact H1|]. split; [|exact H3].
  rewrite <- H2. exact He.
Defined.

Lemma bundle_leaves_executed_once_witness :
  let s := state_of (run setup) in
  current_bundle (bundle_events s) = Some (1, []) ∧
  is_ok (executeRootBundle hub (by_ worker 7501) s leaf []) = true ∧
  unclaimedPoolRebalanceLeafCount (rootBundleProposal s) = 1 - Z.of_nat 0 ∧
  ∃ n ids, current_bundle (bundle_events s) = Some (n, ids) ∧ (leafId leaf ∉ ids).
Proof.
  assert (Hok : is_ok (executeRootBundle hub (by_ worker 7501) (state_of (run setup)) leaf []) = true)
    by (vm_compute; reflexivity).
  assert (Hc : current_bundle (bundle_events (state_of (run setup))) = Some (1, []))
    by (vm_compute; reflexivity).
  assert (Hid : 0 ≤ leafId leaf) by (vm_compute; discriminate).
  cbn zeta. split; [exact Hc|]. split; [exact Hok|].
  destruct (executeRootBundle hub (by_ worker 7501) (state_of (run setup)) leaf []) as [s'|] eqn:Hx;
    [|discriminate Hok].
  pose proof (bundle_leaves_executed_once hub weth owner world 100 _ _ _ (by_ worker 7501) leaf [] s'
    (sample_steps setup sample_setup_run) positive_start Hid) as H.
  rewrite Hc in H. destruct H as [(_ & _ & H1) H2]. split; [exact H1|].
  destruct (H2 Hx) as (n & ids & H3 & H4 & _). exists n, ids. rewrite Hc. split; [exact H3|exact H4].
Defined.

Lemma lp_assets_accounted_witness :
  let p := pooled (state_of (run calls)) dai in
  liquidReserves p + utilizedReserves p = 1000 + 36 - 100 ∧
  0 ≤ undistributedLpFees p ≤ 36.
Proof.
  pose proof (lp_assets_accounted hub weth owner world 100 _ _ _ dai (sample_steps calls calls_run)
    positive_start (toy_sized_sound hub _ calls_sized)) as H.
  assert (H1 : total (lp_flow dai) (trace_of (run calls)) = 1000 + 36 - 100) by (vm_compute; reflexivity).
  assert (H2 : total (fees_of dai) (trace_of (run calls)) = 36) by (vm_compute; reflexivity).
  rewrite H1, H2 in H. exact H.
Defined.

Lemma reserves_and_bond_covered_witness :
  let s := state_of (run setup) in
  _activeRequest s = true ∧ bondAmount (settings s) = 500 ∧
  liquidReserves (pooled s bond) + 500 ≤ balanceOf (HubPool.world s) bond hub + claimed_fees s bond.
Proof.
  assert (H1 : bool_decide (bond = bondToken (settings (state_of (run setup)))) &&
    _activeRequest (state_of (run setup)) = true) by (vm_compute; reflexivity).
  assert (H2 : bondAmount (settings (state_of (run setup))) = 500) by (vm_compute; reflexivity).
  pose proof (reserves_and_bond_covered hub weth owner world 100 _ _ _ bond (sample_steps setup sample_setup_run)
    positive_start (toy_sized_sound hub _ setup_sized)) as H.
  rewrite H1, H2 in H. destruct H as (_ & H & _). cbn zeta. split; [|split; [exact H2|exact H]].
  apply andb_prop in H1 as [_ H1]. exact H1.
Defined.

Lemma undistributed_within_assets_witness :
  undistributedLpFees (pooled (state_of (run calls)) dai) = 36 ∧
  undistributedLpFees (pooled (state_of (run calls)) dai) ≤
    liquidReserves (pooled (state_of (run calls)) dai) + utilizedReserves (pooled (state_of (run calls)) dai).
Proof.
  split; [vm_compute; reflexivity|].
  assert (He : existsb is_haircut (trace_of (run calls)) = false) by (vm_compute; reflexivity).
  pose proof (undistributed_within_assets hub weth owner world 100 _ _ _ dai (sample_steps calls calls_run)
    positive_start) as H. apply H.
  apply Forall_and. split; [exact (toy_sized_sound hub _ calls_sized)|].
  apply Forall_forall. intros x Hx. destruct (is_haircut x) eqn:Hc; [|reflexivity]. exfalso.
  rewrite (proj2 (existsb_exists _ _) (ex_intro _ x (conj (proj1 (list_elem_of_In _ _) Hx) Hc))) in He.
  discriminate He.
Defined.

Lemma exchange_rate_exact_witness : ∃ rate s',
  exchangeRateCurrent hub (by_ provider 9000) (state_of (run calls)) dai = Ok (rate, s') ∧
  rate = redeemable s' dai * 10 ^ 18 / 900.
Proof.
  assert (Hok : match exchangeRateCurrent hub (by_ provider 9000) (state_of (run calls)) dai with
    | Ok (_, s') => (liquidReserves (pooled s' dai) <? 2 ^ 255) && (undistributedLpFees (pooled s' dai) <? 2 ^ 255)
    | Err _ => false end = true) by (vm_compute; reflexivity).
  assert (Hs : lp_supply (state_of (run calls)) dai = 900) by (vm_compute; reflexivity).
  assert (Hb : hub_balance hub (state_of (run calls)) dai < 2 ^ 255) by (vm_compute; reflexivity).
  destruct (exchangeRateCurrent hub (by_ provider 9000) (state_of (run calls)) dai) as [[rate s']|] eqn:Hx;
    [|discriminate Hok].
  apply andb_prop in Hok as [Hl%Z.ltb_lt Hf%Z.ltb_lt]. exists rate, s'. split; [reflexivity|].
  pose proof (exchange_rate_exact hub (by_ provider 9000) _ dai rate s' Hx
    (sample_sound calls calls_run calls_sized) Hb Hl Hf) as H.
  rewrite Hs in H. apply H. discriminate.
Defined.

(** The events of a deposit of 777 and of the withdrawal of what it minted. *)
Definition deposited : result (hub_pool toy_world) :=
  addLiquidity hub weth (by_ provider 9000) (state_of (run calls)) dai 777.
Definition minted : Z :=
  match deposited with
  | Ok s => match last (events s) with Some (LiquidityAdded _ _ v _) => v | _ => 0 end
  | Err _ => 0
  end.
Definition withdrawn : result (hub_pool toy_world) :=
  let? s := deposited in removeLiquidity hub weth (by_ provider 9000) s dai minted false.
Definition returned : Z :=
  match withdrawn with
  | Ok s => match last (events s) with Some (LiquidityRemoved _ v _ _) => v | _ => 0 end
  | Err _ => 0
  end.

Definition state_or (s : hub_pool toy_world) (r : result (hub_pool toy_world)) : hub_pool toy_world :=
  result_default s r.

Lemma ok_state s r : is_ok r = true → r = Ok (state_or s r).
Proof. by destruct r. Qed.

Lemma deposit_withdraw_no_gain_witness :
  deposited = Ok (state_or start deposited) ∧ withdrawn = Ok (state_or start withdrawn) ∧
  minted = 777 ∧ returned ≤ 777 + minted / 10 ^ 18.
Proof.
  assert (H1 : deposited = Ok (state_or start deposited)) by (apply ok_state; vm_compute; reflexivity).
  assert (H2 : withdrawn = Ok (state_or start withdrawn)) by (apply ok_state; vm_compute; reflexivity).
  split; [exact H1|]. split; [exact H2|]. split; [vm_compute; reflexivity|].
  assert (He1 : events (state_or start deposited) =
    events (state_of (run calls)) ++ [LiquidityAdded dai 777 minted provider]) by (vm_compute; reflexivity).
  assert (He2 : events (state_or start withdrawn) =
    events (state_or start deposited) ++ [LiquidityRemoved dai returned minted provider])
    by (vm_compute; reflexivity).
  assert (Hb : hub_balance hub (state_of (run calls)) dai < 2 ^ 255) by (vm_compute; reflexivity).
  assert (Hb1 : hub_balance hub (state_or start deposited) dai < 2 ^ 255) by (vm_compute; reflexivity).
  assert (Hs : lp_supply (state_of (run calls)) dai ≠ 0) by (vm_compute; discriminate).
  assert (Hl : bool_decide (lpToken (pooled (state_of (run calls)) dai) = weth) = false)
    by (vm_compute; reflexivity).
  assert (Hw : removeLiquidity hub weth (by_ provider 9000) (state_or start deposited) dai minted false =
    Ok (state_or start withdrawn)) by (rewrite <- H2; unfold withdrawn; rewrite H1 at 2; reflexivity).
  apply (deposit_withdraw_no_gain hub weth (by_ provider 9000) (by_ provider 9000)
    (state_of (run calls)) dai 777 minted (state_or start deposited) false returned (state_or start withdrawn));
    [exact (sample_sound calls calls_run calls_sized)|exact Hb|exact Hb1|exact Hs|
     exact (proj1 (bool_decide_eq_false _) Hl)|discriminate|split; [discriminate|reflexivity]|
     split; [discriminate|reflexivity]|reflexivity|exact H1|exact He1|exact Hw|exact He2].
Defined.

(** A haircut beyond the providers' assets: no rate is quoted any more. *)
Example haircut_blocks_the_rate :
  let s := state_or start (haircutReserves (by_ owner 9000) (state_of (run calls)) dai 2000) in
  lp_assets s dai = 936 - 2000 ∧
  exchangeRateCurrent hub (by_ provider 9001) s dai = Err arithmetic_panic.
Proof. vm_compute. split; reflexivity. Qed.
