(* ===== verification/HubPoolViews.v ===== *)
(** * The two views of the hub pool agree

    [HubPoolAdmin] keeps only what the calldata of the token task touches;
    here the full model of [HubPool] is proved to implement it: seen through
    [admin_view], a call that succeeds on the full storage is the same call on
    the small one, and what the small one refuses the full one refuses. *)

From stdpp Require Import base gmap strings list.
From Stdlib Require Import ZArith Lia Strings.Byte.
From S2P Require Import Prelude Bytes JsText Interfaces HubPoolAdmin SvmSpoke Solidity HubWorld HubPool HubPoolLiquidity HubPoolSample.

Section Views.
Context {W : Type} `{!Keccak} `{Ht : !Tokens W} `{Hu : !Uma W} `{Ha : !Adapters W}.
Context (this weth : address).
Implicit Types s : hub_pool W.

Definition token_view (p : PooledToken) : HubPoolAdmin.PooledToken :=
  {| HubPoolAdmin.lpToken := lpToken p; HubPoolAdmin.isEnabled := isEnabled p;
     HubPoolAdmin.lastLpFeeUpdate := lastLpFeeUpdate p |}.

(** The messages handed to the adapters by the owner's calls. *)
Definition relayed_of (e : hub_event) : option (Z * spoke_call) :=
  match e with SpokePoolAdminFunctionTriggered chain data => Some (chain, data) | _ => None end.

Definition admin_view s : HubPoolAdmin.hub_state :=
  {| HubPoolAdmin.owner := hub_owner (settings s);
     HubPoolAdmin.pooledTokens := token_view <$> pooledTokens s;
     HubPoolAdmin.crossChainContracts := crossChainContracts s;
     HubPoolAdmin.poolRebalanceRoutes := poolRebalanceRoutes s;
     HubPoolAdmin.relayed := omap relayed_of (events s) |}.

Definition full_call (c : hub_call) : pool_call :=
  match c with
  | EnableL1TokenForLiquidityProvision t => EnableL1Token t
  | SetDepositRoute from to token enabled => SetRoute from to token enabled
  | SetPoolRebalanceRoute chain t token => SetRebalanceRoute chain t token
  | RelaySpokePoolAdminFunction chain data => RelayAdminFunction chain data
  end.

(** The environment of the small model, read off the world. *)
Definition lp_token_of (w : W) (t : address) : address :=
  match createLpToken w t this with Ok r => r.1 | Err _ => zero_address end.
Definition relays_ok (w : W) (a target : address) (c : spoke_call) : bool :=
  is_ok (relayMessage w a this target (AdminCall c)).

Lemma view_pooled s t : default {| HubPoolAdmin.lpToken := zero_address; HubPoolAdmin.isEnabled := false;
    HubPoolAdmin.lastLpFeeUpdate := 0 |} (HubPoolAdmin.pooledTokens (admin_view s) !! t) =
  token_view (pooled s t).
Proof. unfold pooled, admin_view. cbn. rewrite lookup_fmap. by destruct (pooledTokens s !! t). Qed.

Lemma view_relay s chain data s' : _relaySpokePoolAdminFunction this s chain data = Ok s' →
  HubPoolAdmin._relaySpokePoolAdminFunction (isContract (world s)) (relays_ok (world s))
    (admin_view s) chain data = Ok (admin_view s').
Proof.
  unfold _relaySpokePoolAdminFunction, HubPoolAdmin._relaySpokePoolAdminFunction. intros Hx. passes Hx.
  injection Hx as <-. apply delegatecall_ok in Heqr0 as (w & Hw & ->).
  unfold _getInitializedCrossChainContracts in Heqr. cbn zeta in Heqr. passes Heqr. injection Heqr as <-.
  unfold HubPoolAdmin._getInitializedCrossChainContracts. cbn [HubPoolAdmin.crossChainContracts admin_view].
  cbn zeta. apply negb_true_iff in Heqb. rewrite Heqb, Heqb0. cbn in *. unfold relays_ok. rewrite Hw.
  unfold with_relayed, admin_view. cbn. by rewrite !omap_app, app_nil_r.
Qed.

Lemma view_owner m s k a : onlyOwner m s = Ok a → only_owner (msg_sender m) (admin_view s) k = k :> result HubPoolAdmin.hub_state.
Proof. unfold onlyOwner, only_owner. cbn. by case_bool_decide. Qed.

Lemma view_enable m s t s' : enableL1TokenForLiquidityProvision this m s t = Ok s' →
  HubPoolAdmin.enableL1TokenForLiquidityProvision (lp_token_of (world s)) (block_time m) (admin_view s) t =
    admin_view s'.
Proof.
  unfold enableL1TokenForLiquidityProvision. intros Hx. passes Hx. cbn zeta in Hx. injection Hx as <-.
  unfold HubPoolAdmin.enableL1TokenForLiquidityProvision. cbv zeta. rewrite view_pooled.
  unfold admin_view at 1 2 3 4 5. cbn [HubPoolAdmin.owner HubPoolAdmin.crossChainContracts
    HubPoolAdmin.poolRebalanceRoutes HubPoolAdmin.relayed HubPoolAdmin.lpToken token_view].
  case_bool_decide.
  - passes Heqr0. injection Heqr0 as <-. unfold lp_token_of. rewrite Heqr1.
    unfold admin_view. cbn. rewrite pooled_set_token, decide_True by done. cbn.
    rewrite !fmap_insert, insert_insert_eq, omap_app, app_nil_r. done.
  - injection Heqr0 as <-. unfold admin_view. cbn. rewrite !fmap_insert, omap_app, app_nil_r. done.
Qed.

(** C27. The full contract implements the small model of its owner's calls: a
    call that succeeds takes the view of the storage where the small model
    says, with the same LP token, routes, contracts and relayed messages. *)
Theorem hub_admin_refines m s c s' : pool_exec this weth m s (full_call c) = Ok s' →
  hub_exec (lp_token_of (world s)) (block_time m) (isContract (world s)) (relays_ok (world s))
    (msg_sender m) (admin_view s) c = Ok (admin_view s').
Proof.
  intros Hx. unfold hub_exec.
  destruct c as [t|from to token enabled|chain t token|chain data]; cbn [full_call pool_exec] in Hx.
  - pose proof Hx as Hx'. unfold enableL1TokenForLiquidityProvision in Hx'. passes Hx'.
    rewrite (view_owner _ _ _ _ Heqr).
    by rewrite (view_enable _ _ _ _ Hx).
  - unfold setDepositRoute in Hx. passes Hx. injection Hx as <-. rewrite (view_owner _ _ _ _ Heqr).
    rewrite (view_relay _ _ _ _ Heqr0). unfold admin_view. cbn. by rewrite omap_app, app_nil_r.
  - unfold setPoolRebalanceRoute in Hx. passes Hx. injection Hx as <-. rewrite (view_owner _ _ _ _ Heqr).
    unfold HubPoolAdmin.setPoolRebalanceRoute, admin_view. cbn. by rewrite omap_app, app_nil_r.
  - unfold relaySpokePoolAdminFunction in Hx. passes Hx. rewrite (view_owner _ _ _ _ Heqr).
    by apply view_relay.
Qed.
End Views.

(** ** At the sample *)
Import Sample.

Lemma hub_admin_refines_witness :
  let s := state_of (run setup) in
  let s' := result_default s (pool_exec hub weth (by_ owner 9000) s (EnableL1Token weth)) in
  is_ok (pool_exec hub weth (by_ owner 9000) s (EnableL1Token weth)) = true ∧
  hub_exec (lp_token_of hub (HubPool.world s)) 9000 (isContract (HubPool.world s))
    (relays_ok hub (HubPool.world s)) owner (admin_view s) (EnableL1TokenForLiquidityProvision weth) =
    Ok (admin_view s').
Proof.
  cbn zeta.
  assert (Hok : is_ok (pool_exec hub weth (by_ owner 9000) (state_of (run setup)) (EnableL1Token weth)) = true)
    by (vm_compute; reflexivity).
  split; [exact Hok|].
  pose proof (hub_admin_refines hub weth (by_ owner 9000) (state_of (run setup))
    (EnableL1TokenForLiquidityProvision weth)) as H.
  cbn [full_call] in H.
  destruct (pool_exec hub weth (by_ owner 9000) (state_of (run setup)) (EnableL1Token weth)) as [s'|];
    [|discriminate Hok].
  exact (H s' eq_refl).
Defined.
