(* ===== verification/OtherScripts.v ===== *)
(** * Small scripts and ABI literals

    [scripts/upgradeTo.ts], [scripts/arbitrumRescueAdapter.ts] and
    [scripts/byteCodeCalculator.ts], which print calldata, a message and a
    size: what they print is stated against the contracts that receive it (the
    hub pool of [HubPool], [contracts/chain-adapters/Arbitrum_RescueAdapter.sol])
    and against the bytecode.  And the ABI literals of [utils/abis.ts] and
    [tasks/utils.ts], against the Solidity declarations they stand for. *)

From stdpp Require Import base gmap strings list.
From Stdlib Require Import ZArith Ascii Strings.Byte Lia.
From S2P Require Import Prelude Bytes JsText Interfaces Utils HubPoolAdmin SvmSpoke Solidity HubWorld HubPool HubPoolLiquidity HubPoolSample.

(** ** The scripts *)

(** A line printed, by what it shows. *)
Inductive printed :=
| Usage (text : string)
| UpgradeToBytes (c : spoke_call)
| RelayParams (c : spoke_call)
| RescueMessage (message : bytes)
| NoArtifacts (contractName : string)
| BytecodeSize (text : string).

(** The environment, the signers and factories of [utils/utils.ts], the file
    system and the console. *)
Inductive scriptE : Type → Type :=
| EnvVar (name : string) : scriptE (option string)
| GetSigners : scriptE unit
| GetFactory (name : string) : scriptE unit
| ExistsSync (path : string) : scriptE bool
| DeployedBytecode (path : string) : scriptE (option string)
| Log (line : printed) : scriptE unit.

Section Scripts.
(** [ethers.utils.getAddress] and [path.join(__dirname, ...)]. *)
Context `{EthersNumbers} (getAddress : string → result string) (path_join : string → string).

Definition given (v : option string) : option string :=
  match v with Some a => if bool_decide (a = ""%string) then None else Some a | None => None end.

Definition upgradeTo : prog scriptE unit :=
  let! v := call (EnvVar "NEW_SPOKE_POOL") in
  match given v with
  | None => call (Log (Usage "Usage: NEW_SPOKE_POOL=<NEW_SPOKE_POOL_ADDRESS> yarn hardhat run scripts/upgradeTo.ts"))
  | Some v =>
      let! newSpokePoolAddress := lift (getAddress v) in
      call GetSigners ;;
      call (GetFactory "Arbitrum_SpokePool") ;;
      let upgradeTo := UpgradeTo newSpokePoolAddress in
      call (Log (UpgradeToBytes upgradeTo)) ;;
      call (Log (RelayParams upgradeTo))
  end.

Definition arbitrumRescueAdapter : prog scriptE unit :=
  let! amountOfEth := lift (toWei "2.9") in
  let message := abi_word amountOfEth in
  call (Log (RescueMessage message)).

(** [(n / 1024).toFixed(2)] for [n = halves / 2]: the nearest hundredth, the
    larger one of two. *)
Definition two_digits (n : Z) : string :=
  if n <? 10 then "0" +:+ decimal n else decimal n.
Definition kilobytes (halves : Z) : string :=
  if halves <? 0 then "-0.00"
  else let hundredths := (halves * 100 + 1024) / 2048 in
       decimal (hundredths / 100) +:+ "." +:+ two_digits (hundredths mod 100).

(** A number of bytes that may end in a half. *)
Definition halves_text (halves : Z) : string :=
  if halves <? 0 then (if halves =? -2 then "-1" else "-0.5")
  else if halves mod 2 =? 0 then decimal (halves / 2) else decimal (halves / 2) +:+ ".5".

Definition size_text (contractName : string) (deployedBytecode : string) : string :=
  let halves := Z.of_nat (String.length deployedBytecode) - 2 in
  "Bytecode size of " +:+ contractName +:+ ": " +:+ kilobytes halves +:+ "KB (" +:+
  halves_text halves +:+ " bytes)".

Definition byteCodeCalculator : prog scriptE unit :=
  let! v := call (EnvVar "CONTRACT_NAME") in
  match given v with
  | None => call (Log (Usage "Usage: CONTRACT_NAME=<CONTRACT_NAME> yarn hardhat run scripts/byteCodeCalculator.ts"))
  | Some contractName =>
      let artifactsPath := path_join ("../artifacts/contracts/" +:+ contractName +:+ ".sol/" +:+
                                      contractName +:+ ".json") in
      let! there := call (ExistsSync artifactsPath) in
      if negb there then call (Log (NoArtifacts contractName))
      else
        let! artifact := call (DeployedBytecode artifactsPath) in
        match artifact with
        | None => Throw TypeError
        | Some deployedBytecode => call (Log (BytecodeSize (size_text contractName deployedBytecode)))
        end
  end.
End Scripts.

(** ** Arbitrum_RescueAdapter.sol *)

Record retryable_ticket := {
  destAddr : address;
  l2CallValue : Z;
  maxSubmissionCost : Z;
  excessFeeRefundAddress : address;
  callValueRefundAddress : address;
  maxGas : Z;
  gasPriceBid : Z;
  ticket_data : bytes
}.

Definition l2MaxSubmissionCost : Z := 10000000000000000.
Definition l2GasPrice : Z := 5000000000.
Definition l2GasLimit : Z := 2000000.

Definition getL1CallValue : result Z :=
  let? gas := umul l2GasPrice l2GasLimit in uadd l2MaxSubmissionCost gas.

(** [abi.decode(message, (uint256))] *)
Definition decode_uint256 (message : bytes) : result Z :=
  if (32 <=? length message)%nat then Ok (be_val (take 32 message)) else Err (JsError "abi.decode").

(** [relayMessage]: the ticket created in the inbox and the ether sent with
    it, given the ether the hub pool holds. *)
Definition rescue_relayMessage (l2RefundL2Address : address) (etherHeld : Z) (message : bytes)
  : result (retryable_ticket * Z) :=
  let? valueToReturn := decode_uint256 message in
  let? requiredL1CallValue := getL1CallValue in
  let? _ := require (requiredL1CallValue <=? etherHeld) (revert "Insufficient ETH balance") in
  Ok ({| destAddr := l2RefundL2Address; l2CallValue := valueToReturn;
         maxSubmissionCost := l2MaxSubmissionCost; excessFeeRefundAddress := l2RefundL2Address;
         callValueRefundAddress := l2RefundL2Address; maxGas := l2GasLimit; gasPriceBid := l2GasPrice;
         ticket_data := [] |}, requiredL1CallValue).

(** ** ABI literals *)

Record abi_item := {
  item_name : string;
  item_inputs : list (string * string);    (* name, type *)
  item_outputs : list (string * string);
  item_mutability : string
}.

Definition CCTPTokenMessengerInterface : list abi_item :=
  [ {| item_name := "depositForBurn";
       item_inputs := [("amount", "uint256"); ("destinationDomain", "uint32"); ("mintRecipient", "bytes32");
                       ("burnToken", "address")];
       item_outputs := [("_nonce", "uint64")]; item_mutability := "nonpayable" |};
    {| item_name := "localMinter"; item_inputs := [];
       item_outputs := [("", "address")]; item_mutability := "view" |} ]%string.

Definition CCTPTokenMinterInterface : list abi_item :=
  [ {| item_name := "burnLimitsPerMessage"; item_inputs := [("", "address")];
       item_outputs := [("", "uint256")]; item_mutability := "view" |} ]%string.

Definition minimalSpokePoolInterface : list abi_item :=
  [ {| item_name := "whitelistToken"; item_inputs := [("l2Token", "address"); ("l1Token", "address")];
       item_outputs := []; item_mutability := "nonpayable" |};
    {| item_name := "setTokenBridge"; item_inputs := [("l2Token", "address"); ("tokenBridge", "address")];
       item_outputs := []; item_mutability := "nonpayable" |} ]%string.

(** A function as Solidity declares it; [TContract] is an interface type. *)
Inductive sol_type := TUint (bits : Z) | TBytes32 | TAddress | TContract (name : string).
Record sol_function := {
  sol_name : string;
  sol_params : list (string * sol_type);
  sol_returns : list (string * sol_type);
  sol_view : bool
}.

Definition ITokenMessenger : list sol_function :=
  [ {| sol_name := "depositForBurn";
       sol_params := [("amount", TUint 256); ("destinationDomain", TUint 32); ("mintRecipient", TBytes32);
                      ("burnToken", TAddress)];
       sol_returns := [("_nonce", TUint 64)]; sol_view := false |};
    {| sol_name := "localMinter"; sol_params := []; sol_returns := [("minter", TContract "ITokenMinter")];
       sol_view := true |} ]%string.
Definition ITokenMinter : list sol_function :=
  [ {| sol_name := "burnLimitsPerMessage"; sol_params := [("token", TAddress)];
       sol_returns := [("", TUint 256)]; sol_view := true |} ]%string.
Definition spoke_whitelistToken : sol_function :=
  {| sol_name := "whitelistToken"; sol_params := [("l2Token", TAddress); ("l1Token", TAddress)];
     sol_returns := []; sol_view := false |}.
Definition spoke_setTokenBridge : sol_function :=
  {| sol_name := "setTokenBridge"; sol_params := [("l2Token", TAddress); ("tokenBridge", TAddress)];
     sol_returns := []; sol_view := false |}.

(** Types and mutability as the ABI writes them, and what a caller relies on:
    the name and types that make the selector, the outputs, the mutability. *)
Definition abi_type_name (t : sol_type) : string :=
  match t with
  | TUint bits => "uint" +:+ decimal bits
  | TBytes32 => "bytes32"
  | TAddress | TContract _ => "address"
  end.
Definition signature_of_item (i : abi_item) : string * list string * list string * string :=
  (item_name i, map snd (item_inputs i), map snd (item_outputs i), item_mutability i).
Definition signature_of_sol (f : sol_function) : string * list string * list string * string :=
  (sol_name f, map (λ p, abi_type_name p.2) (sol_params f), map (λ p, abi_type_name p.2) (sol_returns f),
   if sol_view f then "view" else "nonpayable")%string.

(** ** Theorems *)

(** Every ABI literal declares the functions of the contracts it is used
    with: same selector, same outputs, same mutability, and the same argument
    order for the calls the token task encodes. *)
Theorem abi_literals_conform :
  map signature_of_item CCTPTokenMessengerInterface = map signature_of_sol ITokenMessenger ∧
  map signature_of_item CCTPTokenMinterInterface = map signature_of_sol ITokenMinter ∧
  map signature_of_item minimalSpokePoolInterface =
    map signature_of_sol [spoke_whitelistToken; spoke_setTokenBridge] ∧
  map (λ i, map fst (item_inputs i)) minimalSpokePoolInterface =
    map (λ f, map fst (sol_params f)) [spoke_whitelistToken; spoke_setTokenBridge].
Proof. repeat split; vm_compute; reflexivity. Qed.

(** What a script prints, given the environment variables and the artifacts
    (the [deployedBytecode] member of each file that exists). *)
Definition script_env (vars : string → option string) (files : string → option (option string))
  : env scriptE := λ _ X c,
  match c in scriptE X return result X with
  | EnvVar name => Ok (vars name)
  | GetSigners => Ok tt
  | GetFactory _ => Ok tt
  | ExistsSync path => Ok (bool_decide (is_Some (files path)))
  | DeployedBytecode path => match files path with Some b => Ok b | None => Err (JsError "ENOENT") end
  | Log _ => Ok tt
  end.
Definition printed_line (e : event scriptE) : option printed :=
  match e with @Event _ _ c => match c with Log line => Some line | _ => None end end.
Definition prints vars files (p : prog scriptE unit) : list printed :=
  omap printed_line (trace (script_env vars files) p).

(** The rescue message: a word that the rescue adapter decodes to 2.9 ETH,
    which its ticket returns to the refund address, for 0.02 ETH of the hub
    pool's ether. *)
Theorem rescue_message_returns `{EthersNumbers} vars files (refund : address) (held : Z) :
  parseUnits "2.9" 18 = Ok 2900000000000000000 → 20000000000000000 ≤ held →
  ∃ message ticket,
    prints vars files arbitrumRescueAdapter = [RescueMessage message] ∧
    rescue_relayMessage refund held message = Ok (ticket, 20000000000000000) ∧
    l2CallValue ticket = 2900000000000000000 ∧ destAddr ticket = refund ∧
    callValueRefundAddress ticket = refund.
Proof.
  intros Hp Hheld. unfold prints, trace, arbitrumRescueAdapter, toWei. rewrite Hp.
  eexists _, _. split; [reflexivity|].
  unfold rescue_relayMessage. change (getL1CallValue) with (Ok 20000000000000000).
  change (decode_uint256 (abi_word 2900000000000000000)) with (Ok 2900000000000000000).
  cbn [result_bind]. rewrite (proj2 (Z.leb_le _ _) Hheld). by split.
Qed.

Section Upgrade.
Context {W : Type} `{!Keccak} `{Ht : !Tokens W} `{Hu : !Uma W} `{Ha : !Adapters W}.
Context (this weth : address) (getAddress : string → result string).

(** The upgrade script prints the two lines about the given address, a usage
    line without one, and nothing for an invalid one (it throws); and a hub
    pool call with what it prints succeeds for the owner only, relays exactly
    that upgrade to the spoke pool of the chain, and leaves the rest of the
    storage as it was. *)
Theorem upgrade_script_upgrades vars files m (s s' : hub_pool W) chain p :
  prints vars files (upgradeTo getAddress) =
    match given (vars "NEW_SPOKE_POOL"%string) with
    | None => [Usage "Usage: NEW_SPOKE_POOL=<NEW_SPOKE_POOL_ADDRESS> yarn hardhat run scripts/upgradeTo.ts"]
    | Some v => match getAddress v with
                | Ok a => [UpgradeToBytes (UpgradeTo a); RelayParams (UpgradeTo a)]
                | Err _ => []
                end
    end ∧
  (pool_exec this weth m s (RelayAdminFunction chain (UpgradeTo p)) = Ok s' →
   msg_sender m = hub_owner (settings s) ∧
   ∃ c w, _getInitializedCrossChainContracts s chain = Ok c ∧
     relayMessage (world s) c.1 this c.2 (AdminCall (UpgradeTo p)) = Ok w ∧
     s' = emit (emit (set_world s w) (MessageRelayed c.2 (AdminCall (UpgradeTo p))))
            (SpokePoolAdminFunctionTriggered chain (UpgradeTo p))).
Proof.
  split.
  - unfold prints, trace, upgradeTo. cbn. destruct (given _) as [v|]; [|reflexivity].
    destruct (getAddress v); reflexivity.
  - cbn [pool_exec]. unfold relaySpokePoolAdminFunction, onlyOwner. intros Hx. passes Hx.
    split; [by apply bool_decide_eq_true in Heqb|].
    unfold _relaySpokePoolAdminFunction in Hx. passes Hx. injection Hx as <-.
    apply delegatecall_ok in Heqr0 as (w & Hw & ->). eauto.
Qed.
End Upgrade.

Lemma string_assoc (a b c : string) : (a +:+ b) +:+ c = a +:+ (b +:+ c).
Proof. induction a as [|x a IH]; [done|]. exact (f_equal (String x) IH). Qed.

Lemma string_length_chars s : String.length s = length (chars s).
Proof. induction s as [|a s IH]; [done|]. exact (f_equal S IH). Qed.

(** For the artifact of a compiled contract the size script prints the number
    of bytes of its deployed code, and that number in units of 1024 bytes to
    the nearest hundredth. *)
Theorem bytecode_size_exact `{EthersNumbers} (path_join : string → string) vars files name bs :
  given (vars "CONTRACT_NAME"%string) = Some name →
  files (path_join ("../artifacts/contracts/" +:+ name +:+ ".sol/" +:+ name +:+ ".json")%string) =
    Some (Some ("0x" +:+ to_hex bs)%string) →
  let n := Z.of_nat (length bs) in
  ∃ hundredths,
    prints vars files (byteCodeCalculator path_join) =
      [BytecodeSize ("Bytecode size of " +:+ name +:+ ": " +:+ decimal (hundredths / 100) +:+ "." +:+
                     two_digits (hundredths mod 100) +:+ "KB (" +:+ decimal n +:+ " bytes)")] ∧
    Z.abs (hundredths * 1024 - 100 * n) ≤ 512.
Proof.
  intros Hv Hf n. exists ((2 * n * 100 + 1024) / 2048). split.
  2: { pose proof (Z.div_mod (2 * n * 100 + 1024) 2048). pose proof (Z.mod_pos_bound (2 * n * 100 + 1024) 2048). lia. }
  assert (Hlen : Z.of_nat (String.length ("0x" +:+ to_hex bs)) - 2 = 2 * n).
  { rewrite string_length_chars, chars_app, length_app, length_to_hex. cbn [length]. change (length (chars "0x")) with 2%nat. lia. }
  assert (Hs : size_text name ("0x" +:+ to_hex bs) =
    ("Bytecode size of " +:+ name +:+ ": " +:+ decimal ((2 * n * 100 + 1024) / 2048 / 100) +:+ "." +:+
     two_digits ((2 * n * 100 + 1024) / 2048 mod 100) +:+ "KB (" +:+ decimal n +:+ " bytes)")%string).
  { unfold size_text, kilobytes, halves_text. cbv zeta. rewrite Hlen.
    replace (2 * n <? 0) with false by (symmetry; apply Z.ltb_ge; lia).
    replace ((2 * n) mod 2) with 0 by (rewrite Z.mul_comm, Z.mod_mul; lia).
    replace (2 * n / 2) with n by (rewrite Z.mul_comm, Z.div_mul; lia).
    cbn [Z.eqb]. by rewrite !string_assoc. }
  rewrite <- Hs. unfold prints, trace, byteCodeCalculator. cbn -[String.append size_text].
  rewrite Hv. cbn -[String.append size_text]. rewrite Hf. cbn -[String.append size_text].
  rewrite Hf. reflexivity.
Qed.

(** ** At sample inputs *)
Import Sample.

Definition sample_vars (name : string) : option string :=
  if bool_decide (name = "NEW_SPOKE_POOL"%string) then Some worker
  else if bool_decide (name = "CONTRACT_NAME"%string) then Some "HubPool"%string else None.
Definition sample_files (path : string) : option (option string) :=
  if bool_decide (path = "../artifacts/contracts/HubPool.sol/HubPool.json"%string)
  then Some (Some ("0x" +:+ to_hex [x60; x80; x40])%string) else None.

Lemma rescue_message_returns_witness : ∃ message ticket,
  prints sample_vars sample_files arbitrumRescueAdapter = [RescueMessage message] ∧
  rescue_relayMessage worker (10 ^ 18) message = Ok (ticket, 20000000000000000) ∧
  l2CallValue ticket = 2900000000000000000.
Proof.
  assert (Hp : parseUnits "2.9" 18 = Ok 2900000000000000000) by (vm_compute; reflexivity).
  destruct (rescue_message_returns sample_vars sample_files worker (10 ^ 18) Hp) as (msg & t & H1 & H2 & H3 & _);
    [vm_compute; discriminate|].
  exists msg, t. auto.
Defined.

Lemma upgrade_script_upgrades_witness :
  let s := state_of (run setup) in
  let s' := result_default s (pool_exec hub weth (by_ owner 9000) s (RelayAdminFunction 10 (UpgradeTo worker))) in
  prints sample_vars sample_files (upgradeTo Ok) =
    [UpgradeToBytes (UpgradeTo worker); RelayParams (UpgradeTo worker)] ∧
  ∃ c w, _getInitializedCrossChainContracts s 10 = Ok c ∧
    s' = emit (emit (set_world s w) (MessageRelayed c.2 (AdminCall (UpgradeTo worker))))
           (SpokePoolAdminFunctionTriggered 10 (UpgradeTo worker)).
Proof.
  cbn zeta.
  assert (Hok : is_ok (pool_exec hub weth (by_ owner 9000) (state_of (run setup))
    (RelayAdminFunction 10 (UpgradeTo worker))) = true) by (vm_compute; reflexivity).
  pose proof (upgrade_script_upgrades hub weth Ok sample_vars sample_files (by_ owner 9000) (state_of (run setup))
    (result_default (state_of (run setup)) (pool_exec hub weth (by_ owner 9000) (state_of (run setup))
      (RelayAdminFunction 10 (UpgradeTo worker)))) 10 worker) as [H1 H2].
  split; [exact H1|].
  assert (Hx : pool_exec hub weth (by_ owner 9000) (state_of (run setup)) (RelayAdminFunction 10 (UpgradeTo worker)) =
    Ok (result_default (state_of (run setup)) (pool_exec hub weth (by_ owner 9000) (state_of (run setup))
      (RelayAdminFunction 10 (UpgradeTo worker))))) by (apply ok_state; exact Hok).
  destruct (H2 Hx) as (_ & c & w & H3 & _ & H4). exists c, w. split; [exact H3|exact H4].
Defined.

Lemma bytecode_size_exact_witness : ∃ hundredths,
  prints sample_vars sample_files (byteCodeCalculator id) =
    [BytecodeSize ("Bytecode size of HubPool: " +:+ decimal (hundredths / 100) +:+ "." +:+
                   two_digits (hundredths mod 100) +:+ "KB (3 bytes)")] ∧
  Z.abs (hundredths * 1024 - 100 * 3) ≤ 512.
Proof.
  apply (bytecode_size_exact id sample_vars sample_files "HubPool"%string [x60; x80; x40]);
    vm_compute; reflexivity.
Defined.
