(* ===== verification/SpokePool.v ===== *)
(** * SpokePool.sol: the state machine of a spoke pool

    The whole contract [contracts/SpokePool.sol] of this repository, with
    [MultiCallerUpgradeable.sol] and the claims of [MerkleLib.sol]: every public
    function with the modifiers it has here, and the internal functions they
    call, in the order of the source.

    Not every function is [nonReentrant] ([fillV3Relay] is not), so re-entrance
    is modelled: at every external call the other contracts may, besides what
    the call itself does, call the pool again, any number of times and on
    behalf of anyone ([adversary]).  The depth of the call stack, which the EVM
    bounds by 1024, is the fuel of [exec]. *)

From stdpp Require Import base gmap strings list.
From Stdlib Require Import ZArith Lia Strings.Byte.
From S2P Require Import Prelude Bytes JsText Interfaces HubPoolAdmin SvmSpoke Solidity HubWorld.

(** ** The contracts it calls *)

(** What the contracts derived from [SpokePool] override, and the storage
    they add, which is part of the world. *)
Class SpokeChild (W : Type) `{Tokens W} := {
  chainId : Z;
  adminSender : W → address → address → address → bool;      (* crossDomainAdmin, owner, msg.sender *)
  preExecuteLeafHook : W → address → address → result W;      (* this, l2TokenAddress *)
  bridgeTokensToHubPool : W → address → address → Z → address → result W;
                                   (* this, withdrawalRecipient, amountToReturn, l2TokenAddress *)
  preExecuteLeafHook_spec : ∀ w pool token w', preExecuteLeafHook w pool token = Ok w' →
    ∀ t, balanceOf w t pool ≤ balanceOf w' t pool;
  bridgeTokensToHubPool_spec : ∀ w pool to a token w', bridgeTokensToHubPool w pool to a token = Ok w' →
    0 ≤ a → ∀ t, balanceOf w t pool - (if decide (t = token) then a else 0) ≤ balanceOf w' t pool
}.

(** [Ethereum_SpokePool.sol]: the admin is the owner, nothing happens before a
    leaf, and returning tokens to the hub pool is a transfer. *)
Definition Ethereum_SpokePool {W} `{Tokens W} (chain : Z) : SpokeChild W.
Proof.
  refine {| chainId := chain; adminSender _ _ owner sender := bool_decide (sender = owner);
            preExecuteLeafHook w _ _ := Ok w;
            bridgeTokensToHubPool w pool to a token := safeTransfer w token pool to a |}.
  - intros w pool token w' Hw t. injection Hw as ->. apply Z.le_refl.
  - intros w pool to a token w' Hw Ha t. apply safeTransfer_spec in Hw as [Hpays _]. by eapply pays_from.
Defined.

(** Recipients' contracts and signatures ([SignatureChecker],
    [ECDSAUpgradeable.toTypedDataHash] of OpenZeppelin). *)
Class SpokePeers (W : Type) `{Tokens W} := {
  has_code : W → address → bool;
  handleV3AcrossMessage : W → address → address → address → Z → address → bytes → result W;
                                   (* this, recipient, token, amount, relayer, message *)
  isValidSignatureNow : W → address → bytes → bytes → bool;
  toTypedDataHash : bytes → bytes → bytes;
  handleV3AcrossMessage_spec : ∀ w pool to token a relayer msg w',
    handleV3AcrossMessage w pool to token a relayer msg = Ok w' →
    ∀ t, balanceOf w t pool ≤ balanceOf w' t pool
}.

(** ** Data *)

Inductive FillStatus := Unfilled | RequestedSlowFill | Filled.
Inductive FillType := FastFill | ReplacedSlowFill | SlowFill.

#[export] Instance FillStatus_eq_dec : EqDecision FillStatus.
Proof. solve_decision. Defined.
#[export] Instance FillType_eq_dec : EqDecision FillType.
Proof. solve_decision. Defined.

Record V3RelayData := {
  depositor : address;
  recipient : address;
  exclusiveRelayer : address;
  inputToken : address;
  outputToken : address;
  inputAmount : Z;
  outputAmount : Z;
  originChainId : Z;
  depositId : Z;
  fillDeadline : Z;
  exclusivityDeadline : Z;
  relay_message : bytes
}.

#[export] Instance V3RelayData_eq_dec : EqDecision V3RelayData.
Proof. solve_decision. Defined.

Record V3SlowFill := { relayData : V3RelayData; leaf_chainId : Z; leaf_updatedOutputAmount : Z }.

Record V3RelayExecutionParams := {
  relay : V3RelayData;
  relayHash : bytes;
  updatedOutputAmount : Z;
  updatedRecipient : address;
  updatedMessage : bytes;
  repaymentChainId : Z
}.

Record RelayerRefundLeaf := {
  amountToReturn : Z;
  refund_chainId : Z;
  refundAmounts : list Z;
  leafId : Z;
  l2TokenAddress : address;
  refundAddresses : list address
}.

Record RootBundle := {
  slowRelayRoot : bytes;
  relayerRefundRoot : bytes;
  claimedBitmap : gmap Z Z
}.

(** The parameters of the V3 deposit functions. *)
Record DepositV3 := {
  d_depositor : address;
  d_recipient : address;
  d_inputToken : address;
  d_outputToken : address;
  d_inputAmount : Z;
  d_outputAmount : Z;
  d_destinationChainId : Z;
  d_exclusiveRelayer : address;
  d_quoteTimestamp : Z;
  d_fillDeadline : Z;
  d_exclusivityParameter : Z;
  d_message : bytes
}.

(** The parameters of the legacy deposit functions. *)
Record DepositV2 := {
  v2_recipient : address;
  v2_originToken : address;
  v2_amount : Z;
  v2_destinationChainId : Z;
  v2_relayerFeePct : Z;
  v2_quoteTimestamp : Z;
  v2_message : bytes
}.

Inductive spoke_event :=
| SetXDomainAdmin (newAdmin : address)
| SetWithdrawalRecipient (newWithdrawalRecipient : address)
| EnabledDepositRoute (originToken : address) (destinationChainId : Z) (enabled : bool)
| RelayedRootBundle (rootBundleId : Z) (refundRoot slowRoot : bytes)
| ExecutedRelayerRefundRoot (rootBundleId : Z) (leaf : RelayerRefundLeaf) (caller : address)
| TokensBridged (amount chain leaf_id : Z) (token caller : address)
| EmergencyDeleteRootBundle (rootBundleId : Z)
| PausedDeposits (isPaused : bool)
| PausedFills (isPaused : bool)
| V3FundsDeposited (id : Z) (deadline : Z) (d : DepositV3)   (* [deadline]: the exclusivity deadline *)
| RequestedSpeedUpV3Deposit (amount id : Z) (depositor recipient : address) (msg signature : bytes)
| FilledV3Relay (r : V3RelayData) (repayment : Z) (relayer recipient : address) (msg : bytes) (amount : Z)
    (fillType : FillType)
| RequestedV3SlowFill (r : V3RelayData)
| OwnershipTransferred (newOwner : address).

Record spoke_pool (W : Type) := {
  owner : address;
  crossDomainAdmin : address;
  withdrawalRecipient : address;
  numberOfDeposits : Z;
  pausedFills : bool;
  pausedDeposits : bool;
  rootBundles : list RootBundle;
  enabledDepositRoutes : gmap (address * Z) bool;
  fillStatuses : gmap bytes FillStatus;
  entered : bool;                              (* the lock of [nonReentrant] *)
  events : list (Z * spoke_event);             (* with the time of their block *)
  removed : list (address * Z);                (* what [adminRemoveFunds] took, which emits nothing *)
  world : W
}.
Arguments owner {W} _.
Arguments crossDomainAdmin {W} _.
Arguments withdrawalRecipient {W} _.
Arguments numberOfDeposits {W} _.
Arguments pausedFills {W} _.
Arguments pausedDeposits {W} _.
Arguments rootBundles {W} _.
Arguments enabledDepositRoutes {W} _.
Arguments fillStatuses {W} _.
Arguments entered {W} _.
Arguments events {W} _.
Arguments removed {W} _.
Arguments world {W} _.

(** ** Assignments *)
Section Storage.
Context {W : Type}.
Implicit Types s : spoke_pool W.

(** The administration: owner, admin, recipient, pauses and routes. *)
Definition set_admin s own admin to fills deposits routes : spoke_pool W :=
  {| owner := own; crossDomainAdmin := admin; withdrawalRecipient := to;
     numberOfDeposits := numberOfDeposits s; pausedFills := fills; pausedDeposits := deposits;
     rootBundles := rootBundles s; enabledDepositRoutes := routes; fillStatuses := fillStatuses s;
     entered := entered s; events := events s; removed := removed s; world := world s |}.
Definition set_numberOfDeposits s n : spoke_pool W :=
  {| owner := owner s; crossDomainAdmin := crossDomainAdmin s; withdrawalRecipient := withdrawalRecipient s;
     numberOfDeposits := n; pausedFills := pausedFills s; pausedDeposits := pausedDeposits s;
     rootBundles := rootBundles s; enabledDepositRoutes := enabledDepositRoutes s;
     fillStatuses := fillStatuses s; entered := entered s; events := events s; removed := removed s;
     world := world s |}.
Definition set_rootBundles s bundles : spoke_pool W :=
  {| owner := owner s; crossDomainAdmin := crossDomainAdmin s; withdrawalRecipient := withdrawalRecipient s;
     numberOfDeposits := numberOfDeposits s; pausedFills := pausedFills s; pausedDeposits := pausedDeposits s;
     rootBundles := bundles; enabledDepositRoutes := enabledDepositRoutes s;
     fillStatuses := fillStatuses s; entered := entered s; events := events s; removed := removed s;
     world := world s |}.
Definition set_fillStatus s h st : spoke_pool W :=
  {| owner := owner s; crossDomainAdmin := crossDomainAdmin s; withdrawalRecipient := withdrawalRecipient s;
     numberOfDeposits := numberOfDeposits s; pausedFills := pausedFills s; pausedDeposits := pausedDeposits s;
     rootBundles := rootBundles s; enabledDepositRoutes := enabledDepositRoutes s;
     fillStatuses := <[h := st]> (fillStatuses s); entered := entered s; events := events s;
     removed := removed s; world := world s |}.
Definition set_entered s b : spoke_pool W :=
  {| owner := owner s; crossDomainAdmin := crossDomainAdmin s; withdrawalRecipient := withdrawalRecipient s;
     numberOfDeposits := numberOfDeposits s; pausedFills := pausedFills s; pausedDeposits := pausedDeposits s;
     rootBundles := rootBundles s; enabledDepositRoutes := enabledDepositRoutes s;
     fillStatuses := fillStatuses s; entered := b; events := events s; removed := removed s;
     world := world s |}.
Definition emit s (t : Z) (e : spoke_event) : spoke_pool W :=
  {| owner := owner s; crossDomainAdmin := crossDomainAdmin s; withdrawalRecipient := withdrawalRecipient s;
     numberOfDeposits := numberOfDeposits s; pausedFills := pausedFills s; pausedDeposits := pausedDeposits s;
     rootBundles := rootBundles s; enabledDepositRoutes := enabledDepositRoutes s;
     fillStatuses := fillStatuses s; entered := entered s; events := events s ++ [(t, e)];
     removed := removed s; world := world s |}.
Definition set_removed s l : spoke_pool W :=
  {| owner := owner s; crossDomainAdmin := crossDomainAdmin s; withdrawalRecipient := withdrawalRecipient s;
     numberOfDeposits := numberOfDeposits s; pausedFills := pausedFills s; pausedDeposits := pausedDeposits s;
     rootBundles := rootBundles s; enabledDepositRoutes := enabledDepositRoutes s;
     fillStatuses := fillStatuses s; entered := entered s; events := events s; removed := l;
     world := world s |}.
Definition set_world s w : spoke_pool W :=
  {| owner := owner s; crossDomainAdmin := crossDomainAdmin s; withdrawalRecipient := withdrawalRecipient s;
     numberOfDeposits := numberOfDeposits s; pausedFills := pausedFills s; pausedDeposits := pausedDeposits s;
     rootBundles := rootBundles s; enabledDepositRoutes := enabledDepositRoutes s;
     fillStatuses := fillStatuses s; entered := entered s; events := events s; removed := removed s;
     world := w |}.

Definition fillStatus s (h : bytes) : FillStatus := default Unfilled (fillStatuses s !! h).
Definition route_enabled s (token : address) (chain : Z) : bool :=
  default false (enabledDepositRoutes s !! (token, chain)).
End Storage.

(** ** Encodings *)

(** A relay as [abi.encode] writes the struct: twelve words, the last one the
    offset of the message, then the message. *)
Definition abi_relay (r : V3RelayData) : bytes :=
  address_word (depositor r) ++ address_word (recipient r) ++ address_word (exclusiveRelayer r) ++
  address_word (inputToken r) ++ address_word (outputToken r) ++ abi_word (inputAmount r) ++
  abi_word (outputAmount r) ++ abi_word (originChainId r) ++ abi_word (depositId r) ++
  abi_word (fillDeadline r) ++ abi_word (exclusivityDeadline r) ++ abi_word 384 ++
  abi_bytes (relay_message r).

Definition abi_slow_fill (l : V3SlowFill) : bytes :=
  abi_word 32 ++ abi_word 96 ++ abi_word (leaf_chainId l) ++ abi_word (leaf_updatedOutputAmount l) ++
  abi_relay (relayData l).

Definition abi_refund_leaf (l : RelayerRefundLeaf) : bytes :=
  let amounts := abi_array abi_word (refundAmounts l) in
  abi_word 32 ++ abi_word (amountToReturn l) ++ abi_word (refund_chainId l) ++ abi_word 192 ++
  abi_word (leafId l) ++ address_word (l2TokenAddress l) ++ abi_word (192 + Z.of_nat (length amounts)) ++
  amounts ++ abi_array address_word (refundAddresses l).

(** The [i]th word of [calldata], and the relay and repayment chain that the
    decoder of [fillV3Relay] reads from its arguments. *)
Definition calldata_word (args : bytes) (at_ : Z) : result Z :=
  if (0 <=? at_) && (at_ + 32 <=? Z.of_nat (length args))
  then Ok (be_val (take 32 (drop (Z.to_nat at_) args))) else Err (JsError "calldata").
Definition calldata_uint (w : Z) (args : bytes) (at_ : Z) : result Z :=
  let? v := calldata_word args at_ in
  if v <? 2 ^ w then Ok v else Err (JsError "calldata").
Definition calldata_address (args : bytes) (at_ : Z) : result address :=
  let? v := calldata_uint 160 args at_ in Ok ("0x" +:+ to_hex (be_bytes 20 v)).

Definition decode_fill (args : bytes) : result (V3RelayData * Z) :=
  let? at_ := calldata_word args 0 in
  let? repayment := calldata_word args 32 in
  let field (i : Z) := at_ + 32 * i in
  let? d := calldata_address args (field 0) in
  let? r := calldata_address args (field 1) in
  let? x := calldata_address args (field 2) in
  let? ti := calldata_address args (field 3) in
  let? to := calldata_address args (field 4) in
  let? ai := calldata_word args (field 5) in
  let? ao := calldata_word args (field 6) in
  let? chain := calldata_word args (field 7) in
  let? id := calldata_word args (field 8) in
  let? fd := calldata_uint 32 args (field 9) in
  let? xd := calldata_uint 32 args (field 10) in
  let? offset := calldata_word args (field 11) in
  let? size := calldata_word args (at_ + offset) in
  if at_ + offset + 32 + size <=? Z.of_nat (length args)
  then Ok ({| depositor := d; recipient := r; exclusiveRelayer := x; inputToken := ti; outputToken := to;
              inputAmount := ai; outputAmount := ao; originChainId := chain; depositId := id;
              fillDeadline := fd; exclusivityDeadline := xd;
              relay_message := take (Z.to_nat size) (drop (Z.to_nat (at_ + offset + 32)) args) |}, repayment)
  else Err (JsError "calldata").

(** ** MerkleLib.sol, on the mapping of words *)
Definition isClaimed (claimedBitMap : gmap Z Z) (index : Z) : bool :=
  let claimedWord := default 0 (claimedBitMap !! (index / 256)) in
  let mask := Z.shiftl 1 (index mod 256) in
  Z.land claimedWord mask =? mask.
Definition setClaimed (claimedBitMap : gmap Z Z) (index : Z) : gmap Z Z :=
  <[index / 256 := Z.lor (default 0 (claimedBitMap !! (index / 256))) (Z.shiftl 1 (index mod 256))]>
    claimedBitMap.

Definition verifyRelayerRefund `{Keccak} (root : bytes) (refund : RelayerRefundLeaf) (proof : list bytes) : bool :=
  bool_decide (process_proof proof (keccak (abi_refund_leaf refund)) = root).
Definition verifyV3SlowRelayFulfillment `{Keccak} (root : bytes) (l : V3SlowFill) (proof : list bytes) : bool :=
  bool_decide (process_proof proof (keccak (abi_slow_fill l)) = root).

(** ** Calls *)

Inductive call :=
| C_pauseDeposits (pause : bool)
| C_pauseFills (pause : bool)
| C_setCrossDomainAdmin (newCrossDomainAdmin : address)
| C_setWithdrawalRecipient (newWithdrawalRecipient : address)
| C_setEnableRoute (originToken : address) (destinationChainId : Z) (enabled : bool)
| C_relayRootBundle (refundRoot slowRoot : bytes)
| C_emergencyDeleteRootBundle (rootBundleId : Z)
| C_adminRemoveFunds (amount : Z) (token recipient : address)
| C_deposit (p : DepositV2)
| C_depositFor (depositor : address) (p : DepositV2)
| C_depositV3 (p : DepositV3)
| C_unsafeDepositV3 (p : DepositV3) (depositNonce : Z)
| C_depositV3Now (p : DepositV3)          (* the quote time is ignored, the deadline an offset *)
| C_depositExclusive (p : DepositV3)
| C_speedUpV3Deposit (depositor : address) (depositId updatedOutputAmount : Z) (updatedRecipient : address)
    (updatedMessage depositorSignature : bytes)
| C_fillV3Relay (r : V3RelayData) (repayment : Z)
| C_fillV3RelayWithUpdatedDeposit (r : V3RelayData) (repayment updatedOutputAmount : Z)
    (updatedRecipient : address) (updatedMessage depositorSignature : bytes)
| C_requestV3SlowFill (r : V3RelayData)
| C_fill (orderId originData fillerData : bytes)
| C_executeV3SlowRelayLeaf (leaf : V3SlowFill) (rootBundleId : Z) (proof : list bytes)
| C_executeRelayerRefundLeaf (rootBundleId : Z) (leaf : RelayerRefundLeaf) (proof : list bytes)
| C_transferOwnership (newOwner : address)
| C_renounceOwnership
| C_multicall (data : list call)
| C_tryMulticall (data : list call).

(** The functions that accept ether. *)
Definition payable (c : call) : bool :=
  match c with
  | C_deposit _ | C_depositFor _ _ | C_depositV3 _ | C_unsafeDepositV3 _ _ | C_depositV3Now _
  | C_depositExclusive _ | C_executeRelayerRefundLeaf _ _ _ => true
  | _ => false
  end.

(** The ABI decoder refuses arguments outside their types. *)
Definition relay_fits (r : V3RelayData) : bool :=
  uint_fits 256 (inputAmount r) && uint_fits 256 (outputAmount r) && uint_fits 256 (originChainId r) &&
  uint_fits 256 (depositId r) && uint_fits 32 (fillDeadline r) && uint_fits 32 (exclusivityDeadline r).
Definition deposit_fits (p : DepositV3) : bool :=
  uint_fits 256 (d_inputAmount p) && uint_fits 256 (d_outputAmount p) &&
  uint_fits 256 (d_destinationChainId p) && uint_fits 32 (d_quoteTimestamp p) &&
  uint_fits 32 (d_fillDeadline p) && uint_fits 32 (d_exclusivityParameter p).
Definition legacy_fits (p : DepositV2) : bool :=
  uint_fits 256 (v2_amount p) && uint_fits 256 (v2_destinationChainId p) &&
  int_fits 64 (v2_relayerFeePct p) && uint_fits 32 (v2_quoteTimestamp p).
Definition decodes (c : call) : bool :=
  match c with
  | C_emergencyDeleteRootBundle id => uint_fits 256 id
  | C_setEnableRoute _ chain _ => uint_fits 256 chain
  | C_adminRemoveFunds amount _ _ => uint_fits 256 amount
  | C_deposit p | C_depositFor _ p => legacy_fits p
  | C_depositV3 p | C_depositV3Now p | C_depositExclusive p => deposit_fits p
  | C_unsafeDepositV3 p nonce => deposit_fits p && uint_fits 256 nonce
  | C_speedUpV3Deposit _ id amount _ _ _ => uint_fits 256 id && uint_fits 256 amount
  | C_fillV3Relay r repayment => relay_fits r && uint_fits 256 repayment
  | C_fillV3RelayWithUpdatedDeposit r repayment amount _ _ _ =>
      relay_fits r && uint_fits 256 repayment && uint_fits 256 amount
  | C_requestV3SlowFill r => relay_fits r
  | C_executeV3SlowRelayLeaf l id _ =>
      relay_fits (relayData l) && uint_fits 256 (leaf_chainId l) && uint_fits 256 (leaf_updatedOutputAmount l) &&
      uint_fits 32 id
  | C_executeRelayerRefundLeaf id l _ =>
      uint_fits 32 id && uint_fits 256 (amountToReturn l) && uint_fits 256 (refund_chainId l) &&
      forallb (uint_fits 256) (refundAmounts l) && uint_fits 32 (leafId l)
  | _ => true
  end.

(** What other contracts do during an external call of the pool: call it
    again, or change the world. *)
Inductive action (W : Type) :=
| Reenter (sender : address) (value : Z) (c : call)
| Change (f : W → W).
Arguments Reenter {W} _ _ _.
Arguments Change {W} _.

(** The external calls of the pool. *)
Inductive external_call :=
| Pull (token from to : address) (amount : Z)
| Send (token to : address) (amount : Z)
| Wrap (amount : Z)
| Unwrap (amount : Z)
| SendNative (to : address) (amount : Z)
| Hook (token : address)
| Bridge (token : address) (amount : Z)
| Notify (to token : address) (amount : Z) (relayer : address) (msg : bytes).

(** ** The contract *)

Section Contract.
Context {W : Type} `{!Keccak} `{Ht : !Tokens W} `{Hc : !SpokeChild W} `{Hp : !SpokePeers W}.
(** [address(this)], the immutable variables, and the variables only the
    initializer writes. *)
Context (this wrappedNativeToken : address) (depositQuoteTimeBuffer fillDeadlineBuffer : Z)
  (_HASHED_NAME _HASHED_VERSION : bytes).
Implicit Types s : spoke_pool W.

Definition MAX_TRANSFER_SIZE : Z := 10 ^ 36.
Definition EMPTY_REPAYMENT_CHAIN_ID : Z := 0.
Definition EMPTY_RELAYER : address := zero_address.
Definition INFINITE_FILL_DEADLINE : Z := 2 ^ 32 - 1.
Definition MAX_EXCLUSIVITY_PERIOD_SECONDS : Z := 31536000.
Definition UPDATE_V3_DEPOSIT_DETAILS_HASH : bytes :=
  keccak (utf8_encode "UpdateDepositDetails(uint256 depositId,uint256 originChainId,uint256 updatedOutputAmount,address updatedRecipient,bytes updatedMessage)").

(** One call of the pool, given what other contracts do during its external
    calls ([interact]) and what its [delegatecall]s to itself do ([recurse]). *)
Section Body.
Context (interact : external_call → spoke_pool W → result (spoke_pool W)).

Definition external s (e : external_call) (r : result W) : result (spoke_pool W) :=
  let? w := r in interact e (set_world s w).

(** *** Modifiers *)

Definition nonReentrant s (body : spoke_pool W → result (spoke_pool W)) : result (spoke_pool W) :=
  let? _ := require (negb (entered s)) (revert "ReentrancyGuard: reentrant call") in
  let? s := body (set_entered s true) in Ok (set_entered s false).
Definition onlyAdmin (m : message) s : result unit :=
  require (adminSender (world s) (crossDomainAdmin s) (owner s) (msg_sender m)) (revert "onlyAdmin").
Definition onlyOwner (m : message) s : result unit :=
  require (bool_decide (msg_sender m = owner s)) (revert "Ownable: caller is not the owner").
Definition unpausedDeposits s : result unit :=
  require (negb (pausedDeposits s)) (revert "DepositsArePaused").
Definition unpausedFills s : result unit :=
  require (negb (pausedFills s)) (revert "FillsArePaused").

(** *** Internal functions *)

Definition _getV3RelayHash (r : V3RelayData) : bytes :=
  keccak (abi_word 64 ++ abi_word chainId ++ abi_relay r).

Definition _fillIsExclusive (deadline currentTime : Z) : bool := currentTime <=? deadline.

Definition _setCrossDomainAdmin (m : message) s (a : address) : result (spoke_pool W) :=
  let? _ := require (negb (bool_decide (a = zero_address))) (revert "InvalidCrossDomainAdmin") in
  Ok (emit (set_admin s (owner s) a (withdrawalRecipient s) (pausedFills s) (pausedDeposits s)
              (enabledDepositRoutes s)) (block_time m) (SetXDomainAdmin a)).
Definition _setWithdrawalRecipient (m : message) s (a : address) : result (spoke_pool W) :=
  let? _ := require (negb (bool_decide (a = zero_address))) (revert "InvalidWithdrawalRecipient") in
  Ok (emit (set_admin s (owner s) (crossDomainAdmin s) a (pausedFills s) (pausedDeposits s)
              (enabledDepositRoutes s)) (block_time m) (SetWithdrawalRecipient a)).

(** How a deposit's tokens come in. *)
Definition wrap_or_pull (m : message) s (token : address) (amount : Z) : result (spoke_pool W) :=
  if bool_decide (token = wrappedNativeToken) && (0 <? msg_value m)
  then let? _ := require (msg_value m =? amount) (revert "MsgValueDoesNotMatchInputAmount") in
       external s (Wrap (msg_value m)) (weth_deposit (world s) wrappedNativeToken this (msg_value m))
  else external s (Pull token (msg_sender m) this amount)
         (safeTransferFrom (world s) token this (msg_sender m) this amount).

Definition _depositV3 (m : message) s (p : DepositV3) (id : Z) : result (spoke_pool W) :=
  let? _ := require (route_enabled s (d_inputToken p) (d_destinationChainId p)) (revert "DisabledRoute") in
  let currentTime := block_time m in
  let? age := usub currentTime (d_quoteTimestamp p) in
  let? _ := require (age <=? depositQuoteTimeBuffer) (revert "InvalidQuoteTimestamp") in
  let? _ := require (currentTime <=? d_fillDeadline p) (revert "InvalidFillDeadline") in
  let? latest := uadd currentTime fillDeadlineBuffer in
  let? _ := require (d_fillDeadline p <=? latest) (revert "InvalidFillDeadline") in
  let parameter := d_exclusivityParameter p in
  let? deadline :=
    if 0 <? parameter
    then let? deadline :=
           if parameter <=? MAX_EXCLUSIVITY_PERIOD_SECONDS
           then checked_uint 32 (parameter + uint32 currentTime) else Ok parameter in
         let? _ := require (negb (bool_decide (d_exclusiveRelayer p = zero_address)))
                     (revert "InvalidExclusiveRelayer") in
         Ok deadline
    else Ok parameter in
  let? _ := require ((bool_decide (d_inputToken p = wrappedNativeToken) && (0 <? msg_value m)) ||
                     (msg_value m =? 0)) (revert "MsgValueDoesNotMatchInputAmount") in
  let? s := wrap_or_pull m s (d_inputToken p) (d_inputAmount p) in
  Ok (emit s (block_time m) (V3FundsDeposited id deadline p)).

Definition _computeAmountPostFees (amount feesPct : Z) : result Z :=
  let? kept := isub (10 ^ 18) feesPct in
  let? scaled := umul amount (uint256 kept) in
  udiv scaled (10 ^ 18).

(** The legacy deposit, as the V3 deposit its event describes. *)
Definition _deposit (m : message) s (who : address) (p : DepositV2) : result (spoke_pool W) :=
  let? _ := require (route_enabled s (v2_originToken p) (v2_destinationChainId p)) (revert "DisabledRoute") in
  let? _ := require (Z.abs (v2_relayerFeePct p) <? 5 * 10 ^ 17) (revert "InvalidRelayerFeePct") in
  let? _ := require (v2_amount p <=? MAX_TRANSFER_SIZE) (revert "MaxTransferSizeExceeded") in
  let? age := usub (block_time m) (v2_quoteTimestamp p) in
  let? _ := require (age <=? depositQuoteTimeBuffer) (revert "InvalidQuoteTimestamp") in
  let newDepositId := numberOfDeposits s in
  let? next := checked_uint 32 (newDepositId + 1) in
  let s := set_numberOfDeposits s next in
  let? s := wrap_or_pull m s (v2_originToken p) (v2_amount p) in
  let? amount := _computeAmountPostFees (v2_amount p) (v2_relayerFeePct p) in
  Ok (emit s (block_time m) (V3FundsDeposited newDepositId 0
    {| d_depositor := who; d_recipient := v2_recipient p; d_inputToken := v2_originToken p;
       d_outputToken := zero_address; d_inputAmount := v2_amount p; d_outputAmount := amount;
       d_destinationChainId := v2_destinationChainId p; d_exclusiveRelayer := zero_address;
       d_quoteTimestamp := v2_quoteTimestamp p; d_fillDeadline := INFINITE_FILL_DEADLINE;
       d_exclusivityParameter := 0; d_message := v2_message p |})).

Definition getUnsafeDepositId (sender who : address) (depositNonce : Z) : Z :=
  let packed (a : address) := drop 12 (address_word a) in
  be_val (keccak (packed sender ++ packed who ++ abi_word depositNonce)).

(** [for (uint256 i = 0; i < length; ++i)] over the two arrays. *)
Fixpoint pay_refunds s (token : address) (refunds : list (Z * address)) : result (spoke_pool W) :=
  match refunds with
  | [] => Ok s
  | (amount, to) :: refunds' =>
      let? s := if 0 <? amount
                then external s (Send token to amount) (safeTransfer (world s) token this to amount)
                else Ok s in
      pay_refunds s token refunds'
  end.

Definition _distributeRelayerRefunds (m : message) s (l : RelayerRefundLeaf) : result (spoke_pool W) :=
  let? _ := require (length (refundAddresses l) =? length (refundAmounts l))%nat (revert "InvalidMerkleLeaf") in
  let? s := pay_refunds s (l2TokenAddress l) (zip (refundAmounts l) (refundAddresses l)) in
  if 0 <? amountToReturn l
  then let? s := external s (Bridge (l2TokenAddress l) (amountToReturn l))
                   (bridgeTokensToHubPool (world s) this (withdrawalRecipient s) (amountToReturn l)
                      (l2TokenAddress l)) in
       Ok (emit s (block_time m) (TokensBridged (amountToReturn l) (refund_chainId l) (leafId l)
                                    (l2TokenAddress l) (msg_sender m)))
  else Ok s.

Definition _setClaimedLeaf s (rootBundleId : nat) (id : Z) : result (spoke_pool W) :=
  let? b := array_get (rootBundles s) rootBundleId in
  let? _ := require (negb (isClaimed (claimedBitmap b) id)) (revert "ClaimedMerkleLeaf") in
  Ok (set_rootBundles s (<[rootBundleId :=
        {| slowRelayRoot := slowRelayRoot b; relayerRefundRoot := relayerRefundRoot b;
           claimedBitmap := setClaimed (claimedBitmap b) id |}]> (rootBundles s))).

Definition _domainSeparatorV4 (chain : Z) : bytes :=
  keccak (keccak (utf8_encode "EIP712Domain(string name,string version,uint256 chainId)") ++
          _HASHED_NAME ++ _HASHED_VERSION ++ abi_word chain).

Definition _verifyUpdateV3DepositMessage s (who : address) (id chain amount : Z) (to : address)
    (msg signature : bytes) : result unit :=
  let structHash := keccak (UPDATE_V3_DEPOSIT_DETAILS_HASH ++ abi_word id ++ abi_word chain ++
                            abi_word amount ++ address_word to ++ keccak msg) in
  let expected := toTypedDataHash (_domainSeparatorV4 chain) structHash in
  require (isValidSignatureNow (world s) who expected signature) (revert "InvalidDepositorSignature").

Definition _verifyV3SlowFill s (x : V3RelayExecutionParams) (rootBundleId : Z) (proof : list bytes)
  : result unit :=
  let? b := array_get (rootBundles s) (Z.to_nat rootBundleId) in
  require (verifyV3SlowRelayFulfillment (slowRelayRoot b)
             {| relayData := relay x; leaf_chainId := chainId; leaf_updatedOutputAmount := updatedOutputAmount x |}
             proof) (revert "InvalidMerkleProof").

Definition _unwrapwrappedNativeTokenTo s (to : address) (amount : Z) : result (spoke_pool W) :=
  if has_code (world s) to
  then external s (Send wrappedNativeToken to amount) (safeTransfer (world s) wrappedNativeToken this to amount)
  else let? s := external s (Unwrap amount) (weth_withdraw (world s) wrappedNativeToken this amount) in
       external s (SendNative to amount) (sendValue (world s) this to amount).

(** The payment of a fill, to [to]. *)
Definition pay_fill (m : message) s (token to : address) (amount : Z) (isSlowFill : bool) : result (spoke_pool W) :=
  if bool_decide (token = wrappedNativeToken)
  then let? s := if isSlowFill then Ok s
                 else external s (Pull token (msg_sender m) this amount)
                        (safeTransferFrom (world s) token this (msg_sender m) this amount) in
       _unwrapwrappedNativeTokenTo s to amount
  else if isSlowFill
  then external s (Send token to amount) (safeTransfer (world s) token this to amount)
  else external s (Pull token (msg_sender m) to amount)
         (safeTransferFrom (world s) token this (msg_sender m) to amount).

Definition _fillRelayV3 (m : message) s (x : V3RelayExecutionParams) (relayer : address) (isSlowFill : bool)
  : result (spoke_pool W) :=
  let r := relay x in
  let? _ := require (block_time m <=? fillDeadline r) (revert "ExpiredFillDeadline") in
  let fillType := if isSlowFill then SlowFill
                  else if bool_decide (fillStatus s (relayHash x) = RequestedSlowFill)
                  then ReplacedSlowFill else FastFill in
  let? _ := require (negb (bool_decide (fillStatus s (relayHash x) = Filled))) (revert "RelayFilled") in
  let s := set_fillStatus s (relayHash x) Filled in
  let to := updatedRecipient x in
  let s := emit s (block_time m) (FilledV3Relay r (repaymentChainId x) relayer to (updatedMessage x)
                                    (updatedOutputAmount x) fillType) in
  if bool_decide (msg_sender m = to) && negb isSlowFill then Ok s
  else
    let? s := pay_fill m s (outputToken r) to (updatedOutputAmount x) isSlowFill in
    if negb (bool_decide (updatedMessage x = [])) && has_code (world s) to
    then external s (Notify to (outputToken r) (updatedOutputAmount x) (msg_sender m) (updatedMessage x))
           (handleV3AcrossMessage (world s) this to (outputToken r) (updatedOutputAmount x) (msg_sender m)
              (updatedMessage x))
    else Ok s.

(** *** Administration *)

Definition pauseDeposits (m : message) s (pause : bool) : result (spoke_pool W) :=
  let? _ := onlyAdmin m s in
  nonReentrant s (λ s, Ok (emit (set_admin s (owner s) (crossDomainAdmin s) (withdrawalRecipient s)
    (pausedFills s) pause (enabledDepositRoutes s)) (block_time m) (PausedDeposits pause))).
Definition pauseFills (m : message) s (pause : bool) : result (spoke_pool W) :=
  let? _ := onlyAdmin m s in
  nonReentrant s (λ s, Ok (emit (set_admin s (owner s) (crossDomainAdmin s) (withdrawalRecipient s)
    pause (pausedDeposits s) (enabledDepositRoutes s)) (block_time m) (PausedFills pause))).
Definition setCrossDomainAdmin (m : message) s (a : address) : result (spoke_pool W) :=
  let? _ := onlyAdmin m s in nonReentrant s (λ s, _setCrossDomainAdmin m s a).
Definition setWithdrawalRecipient (m : message) s (a : address) : result (spoke_pool W) :=
  let? _ := onlyAdmin m s in nonReentrant s (λ s, _setWithdrawalRecipient m s a).

(** [onlyOwner], not [onlyAdmin]. *)
Definition setEnableRoute (m : message) s (token : address) (chain : Z) (enabled : bool) : result (spoke_pool W) :=
  let? _ := onlyOwner m s in
  nonReentrant s (λ s, Ok (emit (set_admin s (owner s) (crossDomainAdmin s) (withdrawalRecipient s)
    (pausedFills s) (pausedDeposits s) (<[(token, chain) := enabled]> (enabledDepositRoutes s)))
    (block_time m) (EnabledDepositRoute token chain enabled))).

Definition relayRootBundle (m : message) s (refundRoot slowRoot : bytes) : result (spoke_pool W) :=
  let? _ := onlyAdmin m s in
  nonReentrant s (λ s,
    let rootBundleId := uint32 (Z.of_nat (length (rootBundles s))) in
    let s := set_rootBundles s (rootBundles s ++
               [{| slowRelayRoot := slowRoot; relayerRefundRoot := refundRoot; claimedBitmap := ∅ |}]) in
    Ok (emit s (block_time m) (RelayedRootBundle rootBundleId refundRoot slowRoot))).

(** [delete rootBundles[rootBundleId]] clears the roots, not the mapping. *)
Definition emergencyDeleteRootBundle (m : message) s (rootBundleId : Z) : result (spoke_pool W) :=
  let? _ := onlyAdmin m s in
  nonReentrant s (λ s,
    let? b := array_get (rootBundles s) (Z.to_nat rootBundleId) in
    let s := set_rootBundles s (<[Z.to_nat rootBundleId :=
               {| slowRelayRoot := zero_bytes32; relayerRefundRoot := zero_bytes32;
                  claimedBitmap := claimedBitmap b |}]> (rootBundles s)) in
    Ok (emit s (block_time m) (EmergencyDeleteRootBundle rootBundleId))).

Definition adminRemoveFunds (m : message) s (amount : Z) (token to : address) : result (spoke_pool W) :=
  let? _ := onlyOwner m s in
  let s := set_removed s (removed s ++ [(token, amount)]) in
  let? s := external s (Send token to amount) (safeTransfer (world s) token this to amount) in
  if bool_decide (token = zero_address)
  then external s (SendNative to amount) (sendValue (world s) this to amount)
  else Ok s.

(** Of OpenZeppelin's [Ownable]. *)
Definition transferOwnership (m : message) s (newOwner : address) : result (spoke_pool W) :=
  let? _ := onlyOwner m s in
  let? _ := require (negb (bool_decide (newOwner = zero_address))) (revert "Ownable: new owner is the zero address") in
  Ok (emit (set_admin s newOwner (crossDomainAdmin s) (withdrawalRecipient s) (pausedFills s) (pausedDeposits s)
              (enabledDepositRoutes s)) (block_time m) (OwnershipTransferred newOwner)).
Definition renounceOwnership (m : message) s : result (spoke_pool W) :=
  let? _ := onlyOwner m s in
  Ok (emit (set_admin s zero_address (crossDomainAdmin s) (withdrawalRecipient s) (pausedFills s)
              (pausedDeposits s) (enabledDepositRoutes s)) (block_time m) (OwnershipTransferred zero_address)).

(** *** Depositors *)

Definition deposit (m : message) s (p : DepositV2) : result (spoke_pool W) :=
  nonReentrant s (λ s, let? _ := unpausedDeposits s in _deposit m s (msg_sender m) p).
Definition depositFor (m : message) s (who : address) (p : DepositV2) : result (spoke_pool W) :=
  nonReentrant s (λ s, let? _ := unpausedDeposits s in _deposit m s who p).

(** [numberOfDeposits++] is an argument: it is evaluated before the checks. *)
Definition depositV3 (m : message) s (p : DepositV3) : result (spoke_pool W) :=
  nonReentrant s (λ s,
    let? _ := unpausedDeposits s in
    let id := numberOfDeposits s in
    let? next := checked_uint 32 (id + 1) in
    _depositV3 m (set_numberOfDeposits s next) p id).
Definition unsafeDepositV3 (m : message) s (p : DepositV3) (depositNonce : Z) : result (spoke_pool W) :=
  nonReentrant s (λ s,
    let? _ := unpausedDeposits s in
    _depositV3 m s p (getUnsafeDepositId (msg_sender m) (d_depositor p) depositNonce)).
Definition depositV3Now (m : message) s (p : DepositV3) : result (spoke_pool W) :=
  let? deadline := checked_uint 32 (uint32 (block_time m) + d_fillDeadline p) in
  depositV3 m s
    {| d_depositor := d_depositor p; d_recipient := d_recipient p; d_inputToken := d_inputToken p;
       d_outputToken := d_outputToken p; d_inputAmount := d_inputAmount p; d_outputAmount := d_outputAmount p;
       d_destinationChainId := d_destinationChainId p; d_exclusiveRelayer := d_exclusiveRelayer p;
       d_quoteTimestamp := uint32 (block_time m); d_fillDeadline := deadline;
       d_exclusivityParameter := d_exclusivityParameter p; d_message := d_message p |}.
Definition depositExclusive (m : message) s (p : DepositV3) : result (spoke_pool W) := depositV3 m s p.

Definition speedUpV3Deposit (m : message) s (who : address) (id amount : Z) (to : address)
    (msg signature : bytes) : result (spoke_pool W) :=
  nonReentrant s (λ s,
    let? _ := _verifyUpdateV3DepositMessage s who id chainId amount to msg signature in
    Ok (emit s (block_time m) (RequestedSpeedUpV3Deposit amount id who to msg signature))).

(** *** Relayers *)

Definition only_exclusive (m : message) (r : V3RelayData) : result unit :=
  require (negb (_fillIsExclusive (exclusivityDeadline r) (uint32 (block_time m)) &&
                 negb (bool_decide (exclusiveRelayer r = msg_sender m)))) (revert "NotExclusiveRelayer").

(** Neither [nonReentrant] nor [unpausedFills]: both are commented out. *)
Definition fillV3Relay (m : message) s (r : V3RelayData) (repayment : Z) : result (spoke_pool W) :=
  let? _ := only_exclusive m r in
  _fillRelayV3 m s {| relay := r; relayHash := _getV3RelayHash r; updatedOutputAmount := outputAmount r;
                      updatedRecipient := recipient r; updatedMessage := relay_message r;
                      repaymentChainId := repayment |} (msg_sender m) false.

Definition fillV3RelayWithUpdatedDeposit (m : message) s (r : V3RelayData) (repayment amount : Z) (to : address)
    (msg signature : bytes) : result (spoke_pool W) :=
  nonReentrant s (λ s,
    let? _ := unpausedFills s in
    let? _ := only_exclusive m r in
    let? _ := _verifyUpdateV3DepositMessage s (depositor r) (depositId r) (originChainId r) amount to msg
                signature in
    _fillRelayV3 m s {| relay := r; relayHash := _getV3RelayHash r; updatedOutputAmount := amount;
                        updatedRecipient := to; updatedMessage := msg; repaymentChainId := repayment |}
      (msg_sender m) false).

Definition requestV3SlowFill (m : message) s (r : V3RelayData) : result (spoke_pool W) :=
  nonReentrant s (λ s,
    let? _ := unpausedFills s in
    let currentTime := uint32 (block_time m) in
    let? _ := require (negb (_fillIsExclusive (exclusivityDeadline r) currentTime))
                (revert "NoSlowFillsInExclusivityWindow") in
    let? _ := require (currentTime <=? fillDeadline r) (revert "ExpiredFillDeadline") in
    let h := _getV3RelayHash r in
    let? _ := require (bool_decide (fillStatus s h = Unfilled)) (revert "InvalidSlowFillRequest") in
    Ok (emit (set_fillStatus s h RequestedSlowFill) (block_time m) (RequestedV3SlowFill r))).

(** *** Data workers *)

Definition hook s (token : address) : result (spoke_pool W) :=
  external s (Hook token) (preExecuteLeafHook (world s) this token).

Definition executeV3SlowRelayLeaf (m : message) s (l : V3SlowFill) (rootBundleId : Z) (proof : list bytes)
  : result (spoke_pool W) :=
  nonReentrant s (λ s,
    let r := relayData l in
    let? s := hook s (outputToken r) in
    let x := {| relay := r; relayHash := _getV3RelayHash r; updatedOutputAmount := leaf_updatedOutputAmount l;
                updatedRecipient := recipient r; updatedMessage := relay_message r;
                repaymentChainId := EMPTY_REPAYMENT_CHAIN_ID |} in
    let? _ := _verifyV3SlowFill s x rootBundleId proof in
    _fillRelayV3 m s x EMPTY_RELAYER true).

Definition executeRelayerRefundLeaf (m : message) s (rootBundleId : Z) (l : RelayerRefundLeaf) (proof : list bytes)
  : result (spoke_pool W) :=
  nonReentrant s (λ s,
    let? s := hook s (l2TokenAddress l) in
    let? _ := require (refund_chainId l =? chainId) (revert "InvalidChainId") in
    let? b := array_get (rootBundles s) (Z.to_nat rootBundleId) in
    let? _ := require (verifyRelayerRefund (relayerRefundRoot b) l proof) (revert "InvalidMerkleProof") in
    let? s := _setClaimedLeaf s (Z.to_nat rootBundleId) (leafId l) in
    let? s := _distributeRelayerRefunds m s l in
    Ok (emit s (block_time m) (ExecutedRelayerRefundRoot rootBundleId l (msg_sender m)))).

(** *** delegatecalls to the pool itself *)
Context (recurse : call → spoke_pool W → result (spoke_pool W)).

(** [abi.encodeWithSelector(this.fillV3Relay.selector, abi.encodePacked(originData, fillerData))]
    without the selector: the data as one argument of type [bytes]. *)
Definition fill_calldata (originData fillerData : bytes) : bytes :=
  abi_word 32 ++ abi_bytes (originData ++ fillerData).

Definition fill s (orderId originData fillerData : bytes) : result (spoke_pool W) :=
  let? _ := require (bool_decide (keccak originData = orderId)) (revert "WrongERC7683OrderId") in
  match (let? args := decode_fill (fill_calldata originData fillerData) in
         recurse (C_fillV3Relay args.1 args.2) s) with
  | Ok s => Ok s
  | Err _ => Err (revert "LowLevelCallFailed")
  end.

Fixpoint multicall s (data : list call) : result (spoke_pool W) :=
  match data with
  | [] => Ok s
  | c :: data' => let? s := recurse c s in multicall s data'
  end.
Fixpoint tryMulticall s (data : list call) : result (spoke_pool W) :=
  match data with
  | [] => Ok s
  | c :: data' => tryMulticall (result_default s (recurse c s)) data'
  end.

Definition body (m : message) (c : call) s : result (spoke_pool W) :=
  match c with
  | C_pauseDeposits b => pauseDeposits m s b
  | C_pauseFills b => pauseFills m s b
  | C_setCrossDomainAdmin a => setCrossDomainAdmin m s a
  | C_setWithdrawalRecipient a => setWithdrawalRecipient m s a
  | C_setEnableRoute token chain b => setEnableRoute m s token chain b
  | C_relayRootBundle r1 r2 => relayRootBundle m s r1 r2
  | C_emergencyDeleteRootBundle id => emergencyDeleteRootBundle m s id
  | C_adminRemoveFunds amount token to => adminRemoveFunds m s amount token to
  | C_deposit p => deposit m s p
  | C_depositFor who p => depositFor m s who p
  | C_depositV3 p => depositV3 m s p
  | C_unsafeDepositV3 p nonce => unsafeDepositV3 m s p nonce
  | C_depositV3Now p => depositV3Now m s p
  | C_depositExclusive p => depositExclusive m s p
  | C_speedUpV3Deposit who id amount to msg sig => speedUpV3Deposit m s who id amount to msg sig
  | C_fillV3Relay r repayment => fillV3Relay m s r repayment
  | C_fillV3RelayWithUpdatedDeposit r repayment amount to msg sig =>
      fillV3RelayWithUpdatedDeposit m s r repayment amount to msg sig
  | C_requestV3SlowFill r => requestV3SlowFill m s r
  | C_fill orderId originData fillerData => fill s orderId originData fillerData
  | C_executeV3SlowRelayLeaf l id proof => executeV3SlowRelayLeaf m s l id proof
  | C_executeRelayerRefundLeaf id l proof => executeRelayerRefundLeaf m s id l proof
  | C_transferOwnership a => transferOwnership m s a
  | C_renounceOwnership => renounceOwnership m s
  | C_multicall data => multicall s data
  | C_tryMulticall data => tryMulticall s data
  end.
End Body.

(** ** Transactions *)

(** What the other contracts do at each external call, given the pool as it is
    then; [None] when the call fails. *)
Context (adversary : spoke_pool W → external_call → option (list (action W))).

Definition possible (sender : address) (value : Z) : bool :=
  negb (bool_decide (sender = this)) && negb (bool_decide (sender = zero_address)) && (0 <=? value).

(** One call at most [depth] calls deep; it fails when it runs out of depth.
    A nested call that fails changes nothing. *)
Fixpoint exec (depth : nat) (m : message) (c : call) s : result (spoke_pool W) :=
  match depth with
  | O => Err (JsError "call depth")
  | S depth =>
      let perform s (a : action W) :=
        match a with
        | Reenter sender value c =>
            if possible sender value
            then result_default s (exec depth {| msg_sender := sender; msg_value := value;
                                                 block_time := block_time m |} c s)
            else s
        | Change f => set_world s (f (world s))
        end in
      let interact e s :=
        match adversary s e with
        | Some actions => Ok (foldl perform s actions)
        | None => Err (JsError "external call")
        end in
      let? _ := require (decodes c && (payable c || (msg_value m =? 0))) (JsError "calldata") in
      body interact (exec depth m) m c s
  end.

(** A transaction, or other contracts acting on their own. *)
Inductive spoke_step : Z → spoke_pool W → Z → spoke_pool W → Prop :=
| Spoke_call now depth m c s s' :
    possible (msg_sender m) (msg_value m) = true → now ≤ block_time m < 2 ^ 32 →
    exec depth m c s = Ok s' → spoke_step now s (block_time m) s'
| Spoke_world now s w' :
    (∀ t, balanceOf (world s) t this ≤ balanceOf w' t this) → spoke_step now s now (set_world s w').

Definition spoke_steps : (Z * spoke_pool W) → (Z * spoke_pool W) → Prop :=
  rtc (λ a b, spoke_step a.1 a.2 b.1 b.2).

(** The storage of a new pool: of one behind a proxy after [__SpokePool_init],
    where the constructor of [Ownable] did not run, and of one deployed
    directly, where it ran and the initializers are disabled. *)
Definition behind_proxy (initialDepositId : Z) (admin recipient_ : address) (w : W) : spoke_pool W :=
  {| owner := zero_address; crossDomainAdmin := admin; withdrawalRecipient := recipient_;
     numberOfDeposits := initialDepositId; pausedFills := false; pausedDeposits := false; rootBundles := [];
     enabledDepositRoutes := ∅; fillStatuses := ∅; entered := false; events := []; removed := []; world := w |}.
Definition deployed_directly (deployer : address) (w : W) : spoke_pool W :=
  {| owner := deployer; crossDomainAdmin := zero_address; withdrawalRecipient := zero_address;
     numberOfDeposits := 0; pausedFills := false; pausedDeposits := false; rootBundles := [];
     enabledDepositRoutes := ∅; fillStatuses := ∅; entered := false; events := []; removed := []; world := w |}.
End Contract.
