(* ===== verification/SpokePoolCalls.v ===== *)
(** * The spoke pool under re-entrance: proof principles

    What every call of [SpokePool.exec] preserves, whatever the contracts
    called in between do: a relation between pools holds around calls when it
    holds around the operations they are made of ([call_laws]). *)

From stdpp Require Import base gmap strings list relations.
From Stdlib Require Import ZArith Lia Strings.Byte.
From S2P Require Import Prelude Bytes JsText Interfaces HubPoolAdmin SvmSpoke Solidity HubWorld SpokePool.

Section Safety.
Context {W : Type} `{!Keccak} `{Ht : !Tokens W} `{Hc : !SpokeChild W} `{Hp : !SpokePeers W}.
Context (this weth : address) (quote_buffer deadline_buffer : Z) (name version : bytes).
Implicit Types s : spoke_pool W.

(** ** Shapes of calls *)

Lemma external_interacts interact s e (r : result W) s' : external interact s e r = Ok s' →
  ∃ w, r = Ok w ∧ interact e (set_world s w) = Ok s'.
Proof. unfold external. destruct r as [w|]; [|done]. eauto. Qed.

Lemma nonReentrant_ok s f s' : nonReentrant s f = Ok s' →
  entered s = false ∧ ∃ s1, f (set_entered s true) = Ok s1 ∧ s' = set_entered s1 false.
Proof.
  unfold nonReentrant. intros Hx. passes Hx. injection Hx as <-. apply negb_true_iff in Heqb. eauto.
Qed.

(** ** What every call preserves *)

Section Preserve.
Context (R : spoke_pool W → spoke_pool W → Prop) `{!PreOrder R}.
Context (adversary : spoke_pool W → external_call → option (list (action W))).

(** [R] holds around a call when it holds around the changes of the world and
    around each body, assuming it for what is called from there. *)
Lemma exec_preserves :
  (∀ s e actions f, adversary s e = Some actions → Change f ∈ actions → ∀ s1, R s1 (set_world s1 (f (world s1)))) →
  (∀ interact recurse m c s s', possible this (msg_sender m) (msg_value m) = true → decodes c = true →
     (∀ e s s', interact e s = Ok s' → R s s') → (∀ c s s', recurse c s = Ok s' → R s s') →
     body this weth quote_buffer deadline_buffer name version interact recurse m c s = Ok s' → R s s') →
  ∀ depth m c s s', possible this (msg_sender m) (msg_value m) = true →
    exec this weth quote_buffer deadline_buffer name version adversary depth m c s = Ok s' → R s s'.
Proof.
  intros Hchange Hbody depth. induction depth as [|depth IH]; intros m c s s' Hm Hx; [done|].
  cbn [exec] in Hx. passes Hx. apply andb_prop in Heqb as [Hd _].
  eapply Hbody; [exact Hm|exact Hd| | |exact Hx].
  2: { intros c' s1 s2 Hr. by eapply IH. }
  clear Hx s s' c Hd. intros e s s' Hi. cbv beta in Hi. destruct (adversary s e) as [actions|] eqn:Ha; [|done].
  injection Hi as <-. specialize (Hchange s e actions).
  assert (∀ l s0, l ⊆ actions → R s0 (foldl (λ s a, match a with
    | Reenter sender value c => if possible this sender value
        then result_default s (exec this weth quote_buffer deadline_buffer name version adversary depth
          {| msg_sender := sender; msg_value := value; block_time := block_time m |} c s) else s
    | Change f => set_world s (f (world s)) end) s0 l)) as Hall; [|by apply Hall].
  induction l as [|a l IHl]; intros s0 Hl; cbn [foldl]; [reflexivity|].
  etransitivity; [|apply IHl; intros b Hb; apply Hl; by right].
  destruct a as [sender value c|f]; [|by apply Hchange; [|apply Hl; left]].
  destruct (possible this sender value) eqn:Hp'; [|reflexivity].
  destruct (exec _ _ _ _ _ _ _ _ _ _ _) as [s1|] eqn:Hx; cbn; [|reflexivity]. by eapply IH; [|exact Hx].
Qed.
End Preserve.

(** What holds around external calls holds around the payments made of them. *)
Section Payments.
Context (R : spoke_pool W → spoke_pool W → Prop) `{!PreOrder R}.
Context (interact : external_call → spoke_pool W → result (spoke_pool W)).
Context (Hworld : ∀ s w, R s (set_world s w)) (Hinteract : ∀ e s s', interact e s = Ok s' → R s s').

Lemma external_keeps s e r s' : external interact s e r = Ok s' → R s s'.
Proof. intros (w & _ & Hx)%external_interacts. etransitivity; [apply Hworld|]. by eapply Hinteract. Qed.

Lemma wrap_or_pull_keeps m s token amount s' :
  wrap_or_pull this weth interact m s token amount = Ok s' → R s s'.
Proof. unfold wrap_or_pull. intros Hx. destruct (_ && _); passes Hx; by eapply external_keeps. Qed.

Lemma hook_keeps s token s' : hook this interact s token = Ok s' → R s s'.
Proof. apply external_keeps. Qed.

Lemma pay_refunds_keeps token l s s' : pay_refunds this interact s token l = Ok s' → R s s'.
Proof.
  revert s. induction l as [|[amount to] l IH]; intros s Hx; cbn in Hx; [by injection Hx as <-|].
  destruct (0 <? amount); cbn [result_bind] in Hx; passes Hx; [|by apply IH].
  etransitivity; [by eapply external_keeps|by apply IH].
Qed.

Lemma pay_fill_keeps m s token to amount slow s' :
  pay_fill this weth interact m s token to amount slow = Ok s' → R s s'.
Proof.
  unfold pay_fill, _unwrapwrappedNativeTokenTo. intros Hx.
  assert (Hunwrap : ∀ s, (if has_code (world s) to
    then external interact s (Send weth to amount) (safeTransfer (world s) weth this to amount)
    else let? s := external interact s (Unwrap amount) (weth_withdraw (world s) weth this amount) in
         external interact s (SendNative to amount) (sendValue (world s) this to amount)) = Ok s' → R s s').
  { clear Hx s. intros s Hx. destruct (has_code _ _); [by eapply external_keeps|]. passes Hx.
    etransitivity; eapply external_keeps; eassumption. }
  destruct (bool_decide _), slow; cbn [result_bind] in Hx; passes Hx; try (by eapply external_keeps); [by apply Hunwrap|].
  etransitivity; [by eapply external_keeps|by apply Hunwrap].
Qed.
End Payments.

(** ** What calls are made of *)

Definition exclusivity_passed (now : Z) (r : V3RelayData) (relayer : address) : Prop :=
  exclusivityDeadline r < uint32 now ∨ exclusiveRelayer r = relayer.

Definition is_settings_event (e : spoke_event) : bool :=
  match e with
  | PausedDeposits _ | PausedFills _ | SetXDomainAdmin _ | SetWithdrawalRecipient _ => true
  | _ => false
  end.
Definition is_ownership_event (e : spoke_event) : bool :=
  match e with EnabledDepositRoute _ _ _ | OwnershipTransferred _ => true | _ => false end.

(** [R] holds around the operations of the pool. *)
Record call_laws (R : spoke_pool W → spoke_pool W → Prop)
    (interact : external_call → spoke_pool W → result (spoke_pool W)) (m : message) : Prop := {
  cl_lock : ∀ s b, R s (set_entered s b);
  cl_number : ∀ s n, R s (set_numberOfDeposits s n);
  cl_admin : ∀ s own admin to fills deposits routes e,
    (own = owner s ∧ routes = enabledDepositRoutes s ∧ is_settings_event e = true) ∨
    (msg_sender m = owner s ∧ is_ownership_event e = true) →
    R s (emit (set_admin s own admin to fills deposits routes) (block_time m) e);
  cl_relay : ∀ s refundRoot slowRoot,
    R s (emit (set_rootBundles s (rootBundles s ++
          [{| slowRelayRoot := slowRoot; relayerRefundRoot := refundRoot; claimedBitmap := ∅ |}])) (block_time m)
          (RelayedRootBundle (uint32 (Z.of_nat (length (rootBundles s)))) refundRoot slowRoot));
  cl_delete : ∀ s id b, array_get (rootBundles s) (Z.to_nat id) = Ok b →
    R s (emit (set_rootBundles s (<[Z.to_nat id :=
          {| slowRelayRoot := zero_bytes32; relayerRefundRoot := zero_bytes32;
             claimedBitmap := claimedBitmap b |}]> (rootBundles s))) (block_time m) (EmergencyDeleteRootBundle id));
  cl_remove : ∀ s amount token to s', 0 ≤ amount → adminRemoveFunds this interact m s amount token to = Ok s' → R s s';
  cl_deposit : ∀ s p id s', 0 ≤ d_inputAmount p →
    _depositV3 this weth quote_buffer deadline_buffer interact m s p id = Ok s' → R s s';
  cl_legacy : ∀ s who p s', 0 ≤ v2_amount p →
    _deposit this weth quote_buffer interact m s who p = Ok s' → R s s';
  cl_speedup : ∀ s amount id who to msg sig,
    R s (emit s (block_time m) (RequestedSpeedUpV3Deposit amount id who to msg sig));
  cl_request : ∀ s r, fillStatus s (_getV3RelayHash (W := W) r) = Unfilled →
    R s (emit (set_fillStatus s (_getV3RelayHash (W := W) r) RequestedSlowFill) (block_time m) (RequestedV3SlowFill r));
  cl_fill : ∀ s x s', relayHash x = _getV3RelayHash (W := W) (relay x) → 0 ≤ updatedOutputAmount x →
    exclusivity_passed (block_time m) (relay x) (msg_sender m) →
    _fillRelayV3 this weth interact m s x (msg_sender m) false = Ok s' → R s s';
  cl_slow : ∀ s l id proof s', 0 ≤ leaf_updatedOutputAmount l →
    (let? s := hook this interact s (outputToken (relayData l)) in
     let x := {| relay := relayData l; relayHash := _getV3RelayHash (W := W) (relayData l);
                 updatedOutputAmount := leaf_updatedOutputAmount l; updatedRecipient := recipient (relayData l);
                 updatedMessage := relay_message (relayData l); repaymentChainId := EMPTY_REPAYMENT_CHAIN_ID |} in
     let? _ := _verifyV3SlowFill s x id proof in
     _fillRelayV3 this weth interact m s x EMPTY_RELAYER true) = Ok s' → R s s';
  cl_refund : ∀ s id l proof s1 b s2 s3, decodes (C_executeRelayerRefundLeaf id l proof) = true →
    hook this interact s (l2TokenAddress l) = Ok s1 → refund_chainId l = chainId →
    array_get (rootBundles s1) (Z.to_nat id) = Ok b →
    verifyRelayerRefund (relayerRefundRoot b) l proof = true →
    _setClaimedLeaf s1 (Z.to_nat id) (leafId l) = Ok s2 →
    _distributeRelayerRefunds this interact m s2 l = Ok s3 →
    R s (emit s3 (block_time m) (ExecutedRelayerRefundRoot id l (msg_sender m)))
}.

Section Laws.
Context (R : spoke_pool W → spoke_pool W → Prop) `{!PreOrder R}.
Context (interact : external_call → spoke_pool W → result (spoke_pool W)).
Context (recurse : call → spoke_pool W → result (spoke_pool W)) (m : message).
Context (L : call_laws R interact m) (Hrecurse : ∀ c s s', recurse c s = Ok s' → R s s').

(** Around [nonReentrant]. *)
Lemma guarded_laws s f s' : nonReentrant s f = Ok s' →
  (∀ s1, f (set_entered s true) = Ok s1 → R (set_entered s true) s1) → R s s'.
Proof using PreOrder0 L.
  intros (_ & s1 & Hf & ->)%nonReentrant_ok Hbody.
  etransitivity; [apply (cl_lock _ _ _ L s true)|]. etransitivity; [by apply Hbody|apply (cl_lock _ _ _ L)].
Qed.

Lemma exclusive_ok r : only_exclusive m r = Ok tt → exclusivity_passed (block_time m) r (msg_sender m).
Proof.
  unfold only_exclusive, _fillIsExclusive. destruct (_ <=? _) eqn:Hd; [|left; bool_to_prop; lia].
  destruct (bool_decide_reflect (exclusiveRelayer r = msg_sender m)); [by right|discriminate].
Qed.

Lemma admin_laws c s s' : decodes c = true →
  match c with
  | C_pauseDeposits _ | C_pauseFills _ | C_setCrossDomainAdmin _ | C_setWithdrawalRecipient _
  | C_setEnableRoute _ _ _ | C_relayRootBundle _ _ | C_emergencyDeleteRootBundle _ | C_adminRemoveFunds _ _ _
  | C_transferOwnership _ | C_renounceOwnership => True | _ => False end →
  body this weth quote_buffer deadline_buffer name version interact recurse m c s = Ok s' → R s s'.
Proof using PreOrder0 L.
  intros Hd Hc' Hx. destruct c; try done; cbn [body] in Hx.
  - unfold pauseDeposits in Hx. passes Hx. eapply guarded_laws; [exact Hx|]. intros s1 [= <-].
    apply (cl_admin _ _ _ L). by left.
  - unfold pauseFills in Hx. passes Hx. eapply guarded_laws; [exact Hx|]. intros s1 [= <-].
    apply (cl_admin _ _ _ L). by left.
  - unfold setCrossDomainAdmin, _setCrossDomainAdmin in Hx. passes Hx. eapply guarded_laws; [exact Hx|].
    intros s1 Hy. cbv beta in Hy. passes Hy. injection Hy as <-. apply (cl_admin _ _ _ L). by left.
  - unfold setWithdrawalRecipient, _setWithdrawalRecipient in Hx. passes Hx. eapply guarded_laws; [exact Hx|].
    intros s1 Hy. cbv beta in Hy. passes Hy. injection Hy as <-. apply (cl_admin _ _ _ L). by left.
  - unfold setEnableRoute, onlyOwner in Hx. passes Hx. eapply guarded_laws; [exact Hx|]. intros s1 [= <-].
    apply (cl_admin _ _ _ L). right. by apply bool_decide_eq_true in Heqb.
  - unfold relayRootBundle in Hx. passes Hx. eapply guarded_laws; [exact Hx|]. intros s1 [= <-].
    apply (cl_relay _ _ _ L (set_entered s true)).
  - unfold emergencyDeleteRootBundle in Hx. passes Hx. eapply guarded_laws; [exact Hx|].
    intros s1 Hy. cbv beta zeta in Hy. passes Hy. injection Hy as <-. by apply (cl_delete _ _ _ L (set_entered s true)).
  - eapply (cl_remove _ _ _ L); [|exact Hx]. cbn in Hd. unfold uint_fits in Hd. bool_to_prop. lia.
  - unfold transferOwnership, onlyOwner in Hx. passes Hx. injection Hx as <-.
    apply (cl_admin _ _ _ L). right. by apply bool_decide_eq_true in Heqb.
  - unfold renounceOwnership, onlyOwner in Hx. passes Hx. injection Hx as <-.
    apply (cl_admin _ _ _ L). right. by apply bool_decide_eq_true in Heqb.
Qed.

Lemma depositV3_laws s p s' : 0 ≤ d_inputAmount p →
  depositV3 this weth quote_buffer deadline_buffer interact m s p = Ok s' → R s s'.
Proof using PreOrder0 L.
  unfold depositV3. intros Ha Hx. eapply guarded_laws; [exact Hx|]. intros s1 Hy. cbv beta zeta in Hy. passes Hy.
  etransitivity; [|by eapply (cl_deposit _ _ _ L)]. apply (cl_number _ _ _ L).
Qed.

Lemma deposit_fits_amount p : deposit_fits p = true → 0 ≤ d_inputAmount p.
Proof. unfold deposit_fits, uint_fits. intros Hd. bool_to_prop. lia. Qed.
Lemma legacy_fits_amount p : legacy_fits p = true → 0 ≤ v2_amount p.
Proof. unfold legacy_fits, uint_fits. intros Hd. bool_to_prop. lia. Qed.

Lemma depositor_laws c s s' : decodes c = true →
  match c with
  | C_deposit _ | C_depositFor _ _ | C_depositV3 _ | C_unsafeDepositV3 _ _ | C_depositV3Now _
  | C_depositExclusive _ | C_speedUpV3Deposit _ _ _ _ _ _ => True | _ => False end →
  body this weth quote_buffer deadline_buffer name version interact recurse m c s = Ok s' → R s s'.
Proof using PreOrder0 L.
  intros Hd Hc' Hx. destruct c; try done; cbn [body] in Hx; cbn [decodes] in Hd.
  1,2: eapply guarded_laws; [exact Hx|]; intros s1 Hy; cbv beta in Hy; passes Hy;
    exact (cl_legacy _ _ _ L _ _ _ _ (legacy_fits_amount _ Hd) Hy).
  - exact (depositV3_laws _ _ _ (deposit_fits_amount _ Hd) Hx).
  - apply andb_prop in Hd as [Hd _]. eapply guarded_laws; [exact Hx|]. intros s1 Hy. cbv beta in Hy. passes Hy.
    exact (cl_deposit _ _ _ L _ _ _ _ (deposit_fits_amount _ Hd) Hy).
  - unfold depositV3Now in Hx. passes Hx. eapply depositV3_laws; [|exact Hx]. exact (deposit_fits_amount _ Hd).
  - exact (depositV3_laws _ _ _ (deposit_fits_amount _ Hd) Hx).
  - eapply guarded_laws; [exact Hx|]. intros s1 Hy. cbv beta in Hy. passes Hy. injection Hy as <-.
    apply (cl_speedup _ _ _ L).
Qed.

Lemma relayer_laws c s s' : decodes c = true →
  match c with
  | C_fillV3Relay _ _ | C_fillV3RelayWithUpdatedDeposit _ _ _ _ _ _ | C_requestV3SlowFill _
  | C_executeV3SlowRelayLeaf _ _ _ | C_executeRelayerRefundLeaf _ _ _ => True | _ => False end →
  body this weth quote_buffer deadline_buffer name version interact recurse m c s = Ok s' → R s s'.
Proof using PreOrder0 L.
  intros Hd Hc' Hx. pose proof Hd as Hd0.
  destruct c; try done; cbn [body] in Hx; cbn [decodes] in Hd; unfold relay_fits, uint_fits in Hd.
  - unfold fillV3Relay in Hx. passes Hx. destruct a.
    eapply (cl_fill _ _ _ L); [| | |exact Hx]; [done| |by apply exclusive_ok]. cbn. bool_to_prop. lia.
  - eapply guarded_laws; [exact Hx|]. intros s1 Hy. cbv beta in Hy. passes Hy. destruct a0.
    eapply (cl_fill _ _ _ L); [| | |exact Hy]; [done| |by apply exclusive_ok]. cbn. bool_to_prop. lia.
  - eapply guarded_laws; [exact Hx|]. intros s1 Hy. cbv beta zeta in Hy. passes Hy. injection Hy as <-.
    apply (cl_request _ _ _ L). by apply bool_decide_eq_true in Heqb1.
  - eapply guarded_laws; [exact Hx|]. intros s1 Hy. eapply (cl_slow _ _ _ L); [|exact Hy]. bool_to_prop. lia.
  - eapply guarded_laws; [exact Hx|]. intros s1 Hy. cbv beta in Hy. passes Hy. injection Hy as <-. bool_to_prop.
    eapply (cl_refund _ _ _ L); eassumption.
Qed.

(** [delegatecall]s to the pool itself. *)
Lemma multicall_laws data s s' : multicall recurse s data = Ok s' → R s s'.
Proof using PreOrder0 Hrecurse.
  revert s. induction data as [|c data IH]; intros s Hx; cbn in Hx; [by injection Hx as <-|]. passes Hx.
  etransitivity; [by eapply Hrecurse|by apply IH].
Qed.

Lemma tryMulticall_laws data s s' : tryMulticall recurse s data = Ok s' → R s s'.
Proof using PreOrder0 Hrecurse.
  revert s. induction data as [|c data IH]; intros s Hx; cbn in Hx; [by injection Hx as <-|].
  etransitivity; [|by apply IH]. destruct (recurse c s) eqn:Hr; cbn; [by eapply Hrecurse|done].
Qed.

Lemma fill_recursed s order origin filler s' : fill recurse s order origin filler = Ok s' →
  ∃ c, recurse c s = Ok s'.
Proof.
  unfold fill. intros Hx. passes Hx. destruct (decode_fill _) as [args|]; [|discriminate]. cbn in Hx.
  destruct (recurse _ _) eqn:Hr; [|discriminate]. injection Hx as <-. eauto.
Qed.

Lemma body_laws c s s' : decodes c = true →
  body this weth quote_buffer deadline_buffer name version interact recurse m c s = Ok s' → R s s'.
Proof using PreOrder0 L Hrecurse.
  intros Hd Hx. destruct c;
    try (by eapply admin_laws; [exact Hd| |exact Hx]); try (by eapply depositor_laws; [exact Hd| |exact Hx]);
    try (by eapply relayer_laws; [exact Hd| |exact Hx]); cbn [body] in Hx.
  - apply fill_recursed in Hx as [c Hr]. by eapply Hrecurse.
  - by eapply multicall_laws.
  - by eapply tryMulticall_laws.
Qed.
End Laws.

(** ** What transactions preserve *)
Section Steps.
Context (R : spoke_pool W → spoke_pool W → Prop) `{!PreOrder R}.
Context (adversary : spoke_pool W → external_call → option (list (action W))).
Context (Hchange : ∀ s e actions f, adversary s e = Some actions → Change f ∈ actions →
  ∀ s1, R s1 (set_world s1 (f (world s1)))).
Context (Hlaws : ∀ interact m, possible this (msg_sender m) (msg_value m) = true →
  (∀ e s s', interact e s = Ok s' → R s s') → call_laws R interact m).

Lemma exec_laws depth m c s s' : possible this (msg_sender m) (msg_value m) = true →
  exec this weth quote_buffer deadline_buffer name version adversary depth m c s = Ok s' → R s s'.
Proof using PreOrder0 Hchange Hlaws.
  revert depth m c s s'. apply (exec_preserves R adversary Hchange).
  intros interact recurse m c s s' Hm Hd Hi Hr Hx.
  by apply (body_laws R interact recurse m (Hlaws interact m Hm Hi) Hr c).
Qed.

Lemma steps_laws a b :
  (∀ s w', (∀ t, balanceOf (world s) t this ≤ balanceOf w' t this) → R s (set_world s w')) →
  spoke_steps this weth quote_buffer deadline_buffer name version adversary a b → R a.2 b.2.
Proof using PreOrder0 Hchange Hlaws.
  intros Hworld. induction 1 as [a|a b c Hstep _ IH]; [reflexivity|]. etransitivity; [|exact IH].
  destruct Hstep; [by eapply exec_laws|by apply Hworld].
Qed.
End Steps.
End Safety.
