(* ===== verification/SpokePoolSafety.v ===== *)
(** * The spoke pool's fills

    A relay is filled at most once, in time, by whom it is reserved for, and
    slow fills and refunds only under published roots, whatever the contracts
    called in between do. *)

From stdpp Require Import base gmap strings list relations.
From Stdlib Require Import ZArith Lia Strings.Byte.
From S2P Require Import Prelude Bytes JsText Interfaces HubPoolAdmin SvmSpoke Solidity HubWorld SpokePool SpokePoolCalls.

Section Safety.
Context {W : Type} `{!Keccak} `{Ht : !Tokens W} `{Hc : !SpokeChild W} `{Hp : !SpokePeers W}.
Context (this weth : address) (quote_buffer deadline_buffer : Z) (name version : bytes).
Implicit Types s : spoke_pool W.

(** ** Fills *)

Definition hash_of (r : V3RelayData) : bytes := _getV3RelayHash (W := W) r.

Definition is_fill_of (h : bytes) (e : Z * spoke_event) : bool :=
  match e.2 with FilledV3Relay r _ _ _ _ _ _ => bool_decide (hash_of r = h) | _ => false end.
Definition fills (es : list (Z * spoke_event)) (h : bytes) : nat :=
  length (filter (λ e, is_fill_of h e = true) es).
Definition is_fill (e : spoke_event) : bool :=
  match e with FilledV3Relay _ _ _ _ _ _ _ => true | _ => false end.

(** How far a relay has come. *)
Definition rank (st : FillStatus) : nat :=
  match st with Unfilled => 0 | RequestedSlowFill => 1 | Filled => 2 end.
Definition filled s (h : bytes) : nat := if bool_decide (fillStatus s h = Filled) then 1 else 0.

(** A fill in time, by the relayer it was reserved for, or without one when
    slow. *)
Definition fair_fill (e : Z * spoke_event) : Prop :=
  match e.2 with
  | FilledV3Relay r _ relayer _ _ _ SlowFill => e.1 ≤ fillDeadline r ∧ relayer = EMPTY_RELAYER
  | FilledV3Relay r _ relayer _ _ _ _ =>
      e.1 ≤ fillDeadline r ∧ (exclusivityDeadline r < uint32 e.1 ∨ exclusiveRelayer r = relayer)
  | _ => True
  end.

(** The roots the pool was sent, and the zero root of a deleted bundle. *)
Definition published (es : list (Z * spoke_event)) (refund slow : bytes) : Prop :=
  (refund = zero_bytes32 ∧ slow = zero_bytes32) ∨ ∃ t id, (t, RelayedRootBundle id refund slow) ∈ es.

(** A slow fill or a refund with a proof from a published root. *)
Definition proven (es : list (Z * spoke_event)) (e : spoke_event) : Prop :=
  match e with
  | FilledV3Relay r _ _ to msg amount SlowFill =>
      to = recipient r ∧ msg = relay_message r ∧
      ∃ refund slow proof, published es refund slow ∧ verifyV3SlowRelayFulfillment slow
        {| relayData := r; leaf_chainId := chainId; leaf_updatedOutputAmount := amount |} proof = true
  | ExecutedRelayerRefundRoot _ l _ =>
      refund_chainId l = chainId ∧
      ∃ refund slow proof, published es refund slow ∧ verifyRelayerRefund refund l proof = true
  | _ => True
  end.

(** What every call keeps of the fills and of the roots. *)
Record fill_order s s' : Prop := {
  fo_count : ∀ h, (fills (events s') h + filled s h = fills (events s) h + filled s' h)%nat;
  fo_rank : ∀ h, (rank (fillStatus s h) ≤ rank (fillStatus s' h))%nat;
  fo_events : ∃ l, events s' = events s ++ l ∧ Forall fair_fill l;
  fo_roots : (∀ b, b ∈ rootBundles s → published (events s) (relayerRefundRoot b) (slowRelayRoot b)) →
             (∀ b, b ∈ rootBundles s' → published (events s') (relayerRefundRoot b) (slowRelayRoot b));
  fo_proven : (∀ b, b ∈ rootBundles s → published (events s) (relayerRefundRoot b) (slowRelayRoot b)) →
              Forall (λ e, proven (events s) e.2) (events s) → Forall (λ e, proven (events s') e.2) (events s')
}.

Lemma fills_app es es' h : fills (es ++ es') h = (fills es h + fills es' h)%nat.
Proof. unfold fills. by rewrite filter_app, length_app. Qed.

Lemma published_grow es l refund slow : published es refund slow → published (es ++ l) refund slow.
Proof. intros [?|(t & id & Hin)]; [by left|]. right. exists t, id. apply elem_of_app. by left. Qed.

Lemma proven_grow es l e : proven es e → proven (es ++ l) e.
Proof.
  destruct e as [| | | | | | | | | | |r re rel to msg a ty| |]; try done; cbn.
  - intros (Hchain & x & y & z & Hpub & Hv). split; [done|]. exists x, y, z. split; [by apply published_grow|done].
  - destruct ty; try done. intros (Hto & Hmsg & x & y & z & Hpub & Hv). split; [done|]. split; [done|].
    exists x, y, z. split; [by apply published_grow|done].
Qed.

#[local] Instance fill_order_preorder : PreOrder fill_order.
Proof.
  split.
  - intros s. split; try done. exists []. by rewrite app_nil_r.
  - intros s1 s2 s3 [A1 A2 (l & A3 & A4) A5 A6] [B1 B2 (k & B3 & B4) B5 B6]. split.
    + intros h. specialize (A1 h). specialize (B1 h). lia.
    + intros h. specialize (A2 h). specialize (B2 h). lia.
    + exists (l ++ k). rewrite B3, A3, <- app_assoc. split; [done|]. by apply Forall_app.
    + auto.
    + intros Hr Hall. apply B6; [by apply A5|by apply A6].
Qed.

(** A change that is no fill. *)
Lemma plain_order s s' l : fillStatuses s' = fillStatuses s → events s' = events s ++ l →
  Forall (λ e, is_fill e.2 = false) l →
  (∀ b, b ∈ rootBundles s' → b ∈ rootBundles s ∨ published l (relayerRefundRoot b) (slowRelayRoot b) ∨
     ∃ b', b' ∈ rootBundles s ∧ relayerRefundRoot b' = relayerRefundRoot b ∧ slowRelayRoot b' = slowRelayRoot b) →
  ((∀ b, b ∈ rootBundles s → published (events s) (relayerRefundRoot b) (slowRelayRoot b)) →
     Forall (λ e, proven (events s ++ l) e.2) l) →
  fill_order s s'.
Proof.
  intros Hst He Hl Hroots Hproven. split.
  - intros h. rewrite He, fills_app. unfold filled, fillStatus. rewrite Hst.
    enough (fills l h = 0%nat) as -> by lia. unfold fills. clear -Hl.
    induction Hl as [|[t e] l Hx Hl IH]; [done|]. rewrite filter_cons_False; [done|]. cbn in *. by destruct e.
  - intros h. unfold fillStatus. by rewrite Hst.
  - exists l. split; [done|]. eapply Forall_impl; [exact Hl|]. intros [t e]. unfold fair_fill. by destruct e.
  - intros Hr b Hb. rewrite He. destruct (Hroots b Hb) as [Hin|[Hnew|(b' & Hb' & <- & <-)]].
    + by apply published_grow, Hr.
    + destruct Hnew as [?|(t & id & Hin)]; [by left|]. right. exists t, id. apply elem_of_app. by right.
    + by apply published_grow, Hr.
  - intros Hr Hall. rewrite He. apply Forall_app. split; [|by apply Hproven].
    eapply Forall_impl; [exact Hall|]. intros [t e]. apply proven_grow.
Qed.

(** Nothing of it is touched. *)
Lemma same_order s s' : fillStatuses s' = fillStatuses s → events s' = events s →
  rootBundles s' = rootBundles s → fill_order s s'.
Proof.
  intros H1 H2 H3. apply (plain_order _ _ []); [done|by rewrite app_nil_r|done| |done].
  rewrite H3. by left.
Qed.

(** One event that is neither a fill nor an executed leaf. *)
Definition plain_event (e : spoke_event) : bool :=
  match e with FilledV3Relay _ _ _ _ _ _ _ | ExecutedRelayerRefundRoot _ _ _ => false | _ => true end.

Lemma event_order s s' t e : fillStatuses s' = fillStatuses s → events s' = events s ++ [(t, e)] →
  rootBundles s' = rootBundles s → plain_event e = true → fill_order s s'.
Proof.
  intros H1 H2 H3 He. apply (plain_order _ _ [(t, e)]); [done|done|..].
  - constructor; [|done]. by destruct e.
  - rewrite H3. by left.
  - intros _. constructor; [|done]. by destruct e.
Qed.

Definition roots_published s : Prop :=
  ∀ b, b ∈ rootBundles s → published (events s) (relayerRefundRoot b) (slowRelayRoot b).

Lemma fills_one t e h : fills [(t, e)] h = if is_fill_of h (t, e) then 1%nat else 0%nat.
Proof.
  unfold fills. destruct (is_fill_of h (t, e)) eqn:He;
    [by rewrite filter_cons_True|by rewrite filter_cons_False by congruence].
Qed.

Lemma fillStatus_set s h st h' : fillStatus (set_fillStatus s h st) h' = if decide (h' = h) then st else fillStatus s h'.
Proof.
  unfold fillStatus. cbn. destruct (decide (h' = h)) as [->|Hne]; [by rewrite lookup_insert_eq|].
  by rewrite lookup_insert_ne.
Qed.

Lemma mark_order s t r re relayer to msg amount ty :
  fillStatus s (hash_of r) ≠ Filled → fair_fill (t, FilledV3Relay r re relayer to msg amount ty) →
  (roots_published s → proven (events s) (FilledV3Relay r re relayer to msg amount ty)) →
  fill_order s (emit (set_fillStatus s (hash_of r) Filled) t (FilledV3Relay r re relayer to msg amount ty)).
Proof.
  intros Hst Hfair Hproven. split; cbn [events emit rootBundles set_fillStatus].
  - intros h. rewrite fills_app, fills_one. unfold is_fill_of, filled.
    change (fillStatus (emit ?s _ _)) with (fillStatus s). rewrite fillStatus_set. cbn [snd].
    destruct (decide (h = hash_of r)) as [->|Hne].
    + rewrite (bool_decide_eq_true_2 (hash_of r = _)), (bool_decide_eq_true_2 (Filled = _)) by done.
      rewrite bool_decide_eq_false_2 by done. lia.
    + rewrite (bool_decide_eq_false_2 (hash_of r = h)) by done. lia.
  - intros h. change (fillStatus (emit ?s _ _)) with (fillStatus s). rewrite fillStatus_set.
    destruct (decide _) as [->|]; [|done]. destruct (fillStatus s (hash_of r)); cbn; lia.
  - eexists. split; [reflexivity|]. by constructor.
  - intros Hr b Hb. by apply published_grow, Hr.
  - intros Hr Hall. apply Forall_app. split; [|constructor; [|done]; by apply proven_grow, Hproven].
    eapply Forall_impl; [exact Hall|]. intros e. apply proven_grow.
Qed.

Lemma request_order s t r : fillStatus s (hash_of r) = Unfilled →
  fill_order s (emit (set_fillStatus s (hash_of r) RequestedSlowFill) t (RequestedV3SlowFill r)).
Proof.
  intros Hst. split; cbn [events emit rootBundles set_fillStatus].
  - intros h. rewrite fills_app, fills_one. unfold is_fill_of, filled.
    change (fillStatus (emit ?s _ _)) with (fillStatus s). rewrite fillStatus_set. cbn [snd].
    destruct (decide (h = hash_of r)) as [->|Hne]; [|lia].
    rewrite Hst, (bool_decide_eq_false_2 (RequestedSlowFill = _)), (bool_decide_eq_false_2 (Unfilled = _)) by done.
    lia.
  - intros h. change (fillStatus (emit ?s _ _)) with (fillStatus s). rewrite fillStatus_set.
    destruct (decide _) as [->|]; [|done]. rewrite Hst. cbn. lia.
  - eexists. split; [reflexivity|]. by constructor.
  - intros Hr b Hb. by apply published_grow, Hr.
  - intros Hr Hall. apply Forall_app. split; [|by constructor].
    eapply Forall_impl; [exact Hall|]. intros e. apply proven_grow.
Qed.

Lemma lock_order s b : fill_order s (set_entered s b).
Proof. by apply same_order. Qed.
Lemma world_order s w : fill_order s (set_world s w).
Proof. by apply same_order. Qed.

Section Bodies.
Context (interact : external_call → spoke_pool W → result (spoke_pool W)).
Context (Hinteract : ∀ e s s', interact e s = Ok s' → fill_order s s').

Lemma fillRelay_order m s x relayer slow s' :
  _fillRelayV3 this weth interact m s x relayer slow = Ok s' → relayHash x = hash_of (relay x) →
  (if slow then relayer = EMPTY_RELAYER
   else exclusivityDeadline (relay x) < uint32 (block_time m) ∨ exclusiveRelayer (relay x) = relayer) →
  (slow = true → roots_published s → proven (events s) (FilledV3Relay (relay x) (repaymentChainId x) relayer
     (updatedRecipient x) (updatedMessage x) (updatedOutputAmount x) SlowFill)) →
  fill_order s s'.
Proof.
  unfold _fillRelayV3. cbv zeta. intros Hx Hh Hwho Hslow. passes Hx. bool_to_prop.
  apply negb_true_iff, bool_decide_eq_false in Heqb0. rewrite Hh in *.
  set (ty := if slow then SlowFill
             else if bool_decide (fillStatus s (hash_of (relay x)) = RequestedSlowFill) then ReplacedSlowFill
             else FastFill) in Hx.
  assert (slow = true ∧ ty = SlowFill ∨ slow = false ∧ ty ≠ SlowFill) as Hty
    by (subst ty; destruct slow; [by left|right]; split;
        [done|by destruct (bool_decide (fillStatus s (hash_of (relay x)) = _))]).
  clearbody ty. etransitivity; [apply (mark_order s (block_time m) (relay x) (repaymentChainId x) relayer
    (updatedRecipient x) (updatedMessage x) (updatedOutputAmount x) ty Heqb0)|].
  - unfold fair_fill. cbn. destruct Hty as [[-> ->]|[-> Hty]]; [by split; [lia|]|]. destruct ty; [by split; [lia|]..|done].
  - intros Hr. destruct Hty as [[-> ->]|[_ Hty]]; [by apply Hslow|]. by destruct ty.
  - destruct (_ && _); [by injection Hx as <-|]. passes Hx.
    etransitivity; [by eapply (pay_fill_keeps this weth fill_order interact world_order Hinteract)|].
    destruct (_ && _); [|by injection Hx as <-].
    by eapply (external_keeps fill_order interact world_order Hinteract).
Qed.

Lemma deposit_order m s p id s' :
  _depositV3 this weth quote_buffer deadline_buffer interact m s p id = Ok s' → fill_order s s'.
Proof.
  unfold _depositV3. cbv zeta. intros Hx. passes Hx. injection Hx as <-.
  etransitivity; [by eapply (wrap_or_pull_keeps this weth fill_order interact world_order Hinteract)|].
  by eapply event_order.
Qed.

Lemma legacy_order m s who p s' :
  _deposit this weth quote_buffer interact m s who p = Ok s' → fill_order s s'.
Proof.
  unfold _deposit. cbv zeta. intros Hx. passes Hx. injection Hx as <-.
  etransitivity; [by apply (same_order s (set_numberOfDeposits s a0))|].
  etransitivity; [by eapply (wrap_or_pull_keeps this weth fill_order interact world_order Hinteract)|].
  by eapply event_order.
Qed.

Lemma distribute_order m s l s' :
  _distributeRelayerRefunds this interact m s l = Ok s' → fill_order s s'.
Proof.
  unfold _distributeRelayerRefunds. intros Hx. passes Hx.
  etransitivity; [by eapply (pay_refunds_keeps this fill_order interact world_order Hinteract)|].
  destruct (0 <? _); [|by injection Hx as <-]. passes Hx. injection Hx as <-.
  etransitivity; [by eapply (external_keeps fill_order interact world_order Hinteract)|].
  by eapply event_order.
Qed.

Lemma claim_order s i id s' : _setClaimedLeaf s i id = Ok s' → fill_order s s'.
Proof.
  unfold _setClaimedLeaf. intros Hx. passes Hx. injection Hx as <-. apply array_get_ok in Heqr.
  apply (plain_order _ _ []); [done|by rewrite app_nil_r|done| |done]. cbn. intros b [j Hj]%list_elem_of_lookup.
  apply list_lookup_insert_Some in Hj as [(-> & <- & _)|(_ & Hj)]; [|left; by eapply list_elem_of_lookup_2].
  right. right. exists a. split; [by eapply list_elem_of_lookup_2|done].
Qed.

(** An event after it whose proof was checked before. *)
Lemma late_event_order s s1 t e : fill_order s s1 → is_fill e = false →
  (roots_published s → proven (events s) e) → fill_order s (emit s1 t e).
Proof.
  intros [A1 A2 (l & A3 & A4) A5 A6] He Hproven. split; cbn [events emit rootBundles].
  - intros h. rewrite fills_app, fills_one. replace (is_fill_of h (t, e)) with false by (by destruct e).
    specialize (A1 h). unfold filled, fillStatus in *. cbn. lia.
  - apply A2.
  - exists (l ++ [(t, e)]). rewrite A3, <- app_assoc. split; [done|]. apply Forall_app. split; [done|].
    constructor; [|done]. unfold fair_fill. by destruct e.
  - intros Hr b Hb. by apply published_grow, (A5 Hr).
  - intros Hr Hall. apply Forall_app. split; [|constructor; [|done]].
    + eapply Forall_impl; [by apply A6|]. intros e'. apply proven_grow.
    + rewrite A3. by apply proven_grow, proven_grow, Hproven.
Qed.

Lemma root_published s i b : array_get (rootBundles s) i = Ok b → roots_published s →
  published (events s) (relayerRefundRoot b) (slowRelayRoot b).
Proof. intros Hg%array_get_ok Hr. apply Hr. by eapply list_elem_of_lookup_2. Qed.

Lemma slow_leaf_order m s l id proof s' :
  (let? s := hook this interact s (outputToken (relayData l)) in
   let x := {| relay := relayData l; relayHash := hash_of (relayData l);
               updatedOutputAmount := leaf_updatedOutputAmount l; updatedRecipient := recipient (relayData l);
               updatedMessage := relay_message (relayData l); repaymentChainId := EMPTY_REPAYMENT_CHAIN_ID |} in
   let? _ := _verifyV3SlowFill s x id proof in
   _fillRelayV3 this weth interact m s x EMPTY_RELAYER true) = Ok s' → fill_order s s'.
Proof.
  intros Hx. cbv zeta in Hx. passes Hx.
  etransitivity; [by eapply (hook_keeps this fill_order interact world_order Hinteract)|].
  unfold _verifyV3SlowFill in Heqr0. passes Heqr0.
  destruct (verifyV3SlowRelayFulfillment _ _ _) eqn:Hv; [|discriminate Heqr0].
  eapply fillRelay_order; [exact Hx|done|done|]. intros _ Hr. cbn in *.
  split; [done|]. split; [done|]. exists (relayerRefundRoot a1), (slowRelayRoot a1), proof.
  split; [by eapply root_published|done].
Qed.

Lemma fill_order_laws m : call_laws this weth quote_buffer deadline_buffer fill_order interact m.
Proof.
  split.
  - apply lock_order.
  - intros s n. by apply same_order.
  - intros s own admin to fs ds routes e He. eapply event_order; [done|done|done|]. by destruct e, He as [(_ & _ & ?)|[_ ?]].
  - intros s r1 r2. eapply plain_order; [done|done|by constructor| |by constructor]. cbn.
    intros b [Hb|Hb%list_elem_of_singleton]%elem_of_app; [by left|]. subst b. right. left. right.
    do 2 eexists. by apply list_elem_of_singleton.
  - intros s id b Hb. eapply plain_order; [done|done|by constructor| |by constructor]. cbn.
    intros b' [j Hj]%list_elem_of_lookup.
    apply list_lookup_insert_Some in Hj as [(_ & <- & _)|(_ & Hj)]; [|left; by eapply list_elem_of_lookup_2].
    right. left. by left.
  - unfold adminRemoveFunds. intros s amount token to s' _ Hx. passes Hx.
    etransitivity; [by apply (same_order s (set_removed s (removed s ++ [(token, amount)])))|].
    etransitivity; [by eapply (external_keeps fill_order interact world_order Hinteract)|].
    destruct (bool_decide (token = _)); [|by injection Hx as <-].
    by eapply (external_keeps fill_order interact world_order Hinteract).
  - intros s p id s' _. apply deposit_order.
  - intros s who p s' _. apply legacy_order.
  - intros. by eapply event_order.
  - intros s r. apply request_order.
  - intros s x s' Hh _ Hwho Hx. by eapply fillRelay_order.
  - intros s l id proof s' _. apply slow_leaf_order.
  - intros s id l proof s1 b s2 s3 _ Hhook Hchain Hb Hv Hclaim Hdist.
    etransitivity; [by eapply (hook_keeps this fill_order interact world_order Hinteract)|].
    apply late_event_order; [|done|].
    + etransitivity; [by eapply claim_order|by eapply distribute_order].
    + intros Hr. cbn. split; [done|]. exists (relayerRefundRoot b), (slowRelayRoot b), proof.
      split; [by eapply root_published|done].
Qed.
End Bodies.

(** ** Transactions *)

(** The storage of a pool before its first transaction. *)
Inductive new_pool : spoke_pool W → Prop :=
| New_proxy id admin to w : new_pool (behind_proxy id admin to w)
| New_direct deployer w : new_pool (deployed_directly deployer w).

Section Adversary.
Context (adversary : spoke_pool W → external_call → option (list (action W))).

Lemma steps_order a b : spoke_steps this weth quote_buffer deadline_buffer name version adversary a b →
  fill_order a.2 b.2.
Proof.
  apply (steps_laws this weth quote_buffer deadline_buffer name version fill_order adversary).
  - intros. apply world_order.
  - intros interact m _ Hi. by apply fill_order_laws.
  - intros. apply world_order.
Qed.

(** C2. In every state that transactions lead to, whatever the contracts they
    reach do in between - calling back into [fillV3Relay], which is not
    [nonReentrant], and everything else - each relay hash has been filled at
    most once, and exactly once if its status is [Filled]; every fill was in
    time and respected exclusivity, with the empty relayer for slow fills;
    slow fills and executed refund leaves have a proof from a published root
    (or from the zero root of a deleted bundle) and pay what the leaf says on
    this chain; and no status ever goes back. *)
Theorem evm_relay_filled_once t0 s0 t s : new_pool s0 →
  spoke_steps this weth quote_buffer deadline_buffer name version adversary (t0, s0) (t, s) →
  (∀ h, fills (events s) h = if bool_decide (fillStatus s h = Filled) then 1%nat else 0%nat) ∧
  Forall fair_fill (events s) ∧ Forall (λ e, proven (events s) e.2) (events s) ∧
  (∀ t' s', spoke_steps this weth quote_buffer deadline_buffer name version adversary (t, s) (t', s') →
     ∀ h, (rank (fillStatus s h) ≤ rank (fillStatus s' h))%nat).
Proof.
  intros Hnew Hsteps. apply steps_order in Hsteps as [A1 _ (l & A3 & A4) _ A6]. cbn [snd] in *.
  assert (events s0 = [] ∧ rootBundles s0 = [] ∧ fillStatuses s0 = ∅) as (H1 & H2 & H3) by by destruct Hnew.
  rewrite H1 in *. split_and!.
  - intros h. specialize (A1 h). unfold filled, fillStatus in *. rewrite H3, lookup_empty in A1.
    rewrite (bool_decide_eq_false_2 (default Unfilled None = Filled)) in A1 by done. cbn in A1.
    destruct (bool_decide _); lia.
  - by rewrite A3.
  - apply A6; [|done]. rewrite H2. by intros b ?%elem_of_nil.
  - intros t' s' Hsteps. apply steps_order in Hsteps as [_ B2 _ _ _]. exact B2.
Qed.
End Adversary.
End Safety.
