(* ===== verification/SpokePoolLeaves.v ===== *)
(** * The spoke pool's refund leaves

    A refund leaf of a root bundle is executed at most once, whatever the
    contracts called in between do. *)

From stdpp Require Import base gmap strings list relations.
From Stdlib Require Import ZArith Lia Strings.Byte.
From S2P Require Import Prelude Bytes JsText Interfaces HubPoolAdmin SvmSpoke Solidity HubWorld SpokePool SpokePoolCalls SpokePoolSafety.

(** ** MerkleLib.sol *)

Lemma isClaimed_testbit bm i : isClaimed bm i = Z.testbit (default 0 (bm !! (i / 256))) (i mod 256).
Proof. unfold isClaimed. apply land_bit_eqb. by apply Z.mod_pos_bound. Qed.

Lemma isClaimed_set bm i j : isClaimed (setClaimed bm i) j = bool_decide (j = i) || isClaimed bm j.
Proof.
  rewrite !isClaimed_testbit. unfold setClaimed.
  pose proof (Z.mod_pos_bound i 256 ltac:(lia)). pose proof (Z.mod_pos_bound j 256 ltac:(lia)).
  destruct (decide (i / 256 = j / 256)) as [He|Hne].
  - rewrite He, lookup_insert_eq. cbn. rewrite Z.lor_spec, orb_comm. f_equal.
    rewrite Z.shiftl_spec by lia. destruct (bool_decide_reflect (j = i)) as [->|Hne].
    + by rewrite Z.sub_diag.
    + assert (j mod 256 ≠ i mod 256).
      { intros Hm. apply Hne. rewrite (Z.div_mod j 256), (Z.div_mod i 256) by done. by rewrite He, Hm. }
      destruct (Z.lt_ge_cases (j mod 256) (i mod 256)); [by rewrite Z.testbit_neg_r by lia|].
      apply (Z.bits_above_log2 1); cbn; lia.
  - rewrite lookup_insert_ne by done. rewrite bool_decide_eq_false_2; [done|]. by intros ->.
Qed.

Section Leaves.
Context {W : Type} `{!Keccak} `{Ht : !Tokens W} `{Hc : !SpokeChild W} `{Hp : !SpokePeers W}.
Context (this weth : address) (quote_buffer deadline_buffer : Z) (name version : bytes).
Implicit Types s : spoke_pool W.

(** ** Executions *)

Definition is_execution_of (id n : Z) (e : spoke_event) : bool :=
  match e with ExecutedRelayerRefundRoot id' l _ => (id' =? id) && (leafId l =? n) | _ => false end.
(** How often leaf [n] of bundle [id] was executed. *)
Definition executions (es : list (Z * spoke_event)) (id n : Z) : nat :=
  length (filter (λ e, is_execution_of id n e.2 = true) es).
Definition claimed s (id n : Z) : nat :=
  match rootBundles s !! Z.to_nat id with
  | Some b => if isClaimed (claimedBitmap b) n then 1 else 0
  | None => 0
  end.

Record leaf_order s s' : Prop := {
  lo_count : ∀ id n, 0 ≤ id → (executions (events s') id n + claimed s id n
                               = executions (events s) id n + claimed s' id n)%nat;
  lo_claimed : ∀ id n, (claimed s id n ≤ claimed s' id n)%nat
}.

#[local] Instance leaf_order_preorder : PreOrder leaf_order.
Proof.
  split; [by split|]. intros s1 s2 s3 [A1 A2] [B1 B2]. split.
  - intros id n Hid. specialize (A1 id n Hid). specialize (B1 id n Hid). lia.
  - intros id n. specialize (A2 id n). specialize (B2 id n). lia.
Qed.

Lemma executions_app es es' id n : executions (es ++ es') id n = (executions es id n + executions es' id n)%nat.
Proof. unfold executions. by rewrite filter_app, length_app. Qed.
Lemma executions_one t e id n : executions [(t, e)] id n = if is_execution_of id n e then 1%nat else 0%nat.
Proof.
  unfold executions. destruct (is_execution_of id n e) eqn:He;
    [by rewrite filter_cons_True|by rewrite filter_cons_False by (cbn; congruence)].
Qed.

(** The bitmaps of the bundles, which is all that [claimed] reads. *)
Definition bitmaps s : list (gmap Z Z) := claimedBitmap <$> rootBundles s.
Lemma claimed_bitmaps s id n : claimed s id n =
  match bitmaps s !! Z.to_nat id with Some bm => if isClaimed bm n then 1%nat else 0%nat | None => 0%nat end.
Proof. unfold claimed, bitmaps. rewrite list_lookup_fmap. by destruct (rootBundles s !! _). Qed.

Definition is_execution (e : spoke_event) : bool :=
  match e with ExecutedRelayerRefundRoot _ _ _ => true | _ => false end.

Lemma quiet_order s s' : (∀ id n, claimed s' id n = claimed s id n) →
  (∃ l, events s' = events s ++ l ∧ Forall (λ e, is_execution e.2 = false) l) → leaf_order s s'.
Proof.
  intros Hc' (l & He & Hl). split; [|intros; by rewrite Hc']. intros id n _. rewrite He, executions_app, Hc'.
  enough (executions l id n = 0%nat) by lia. clear He.
  induction Hl as [|[t e] l Hx Hl IH]; [done|]. unfold executions in *. rewrite filter_cons_False; [done|].
  cbn in *. by destruct e.
Qed.

Lemma event_leaf_order s s' t e : rootBundles s' = rootBundles s → events s' = events s ++ [(t, e)] →
  is_execution e = false → leaf_order s s'.
Proof. intros Hb He Hx. apply quiet_order; [intros; unfold claimed; by rewrite Hb|]. exists [(t, e)]. auto. Qed.
Lemma same_leaf_order s s' : rootBundles s' = rootBundles s → events s' = events s → leaf_order s s'.
Proof. intros Hb He. apply quiet_order; [intros; unfold claimed; by rewrite Hb|]. exists []. by rewrite app_nil_r. Qed.
Lemma world_leaf_order s w : leaf_order s (set_world s w).
Proof. by apply same_leaf_order. Qed.

Section Bodies.
Context (interact : external_call → spoke_pool W → result (spoke_pool W)).
Context (Hinteract : ∀ e s s', interact e s = Ok s' → leaf_order s s').

Lemma fillRelay_leaf_order m s x relayer slow s' :
  _fillRelayV3 this weth interact m s x relayer slow = Ok s' → leaf_order s s'.
Proof.
  unfold _fillRelayV3. cbv zeta. intros Hx. passes Hx.
  match type of Hx with context [emit ?s0 ?t ?e] =>
    assert (leaf_order s (emit s0 t e)) as Hmark by (by eapply event_leaf_order) end.
  etransitivity; [exact Hmark|]. destruct (_ && _); [by injection Hx as <-|]. passes Hx.
  etransitivity; [by eapply (pay_fill_keeps this weth leaf_order interact world_leaf_order Hinteract)|].
  destruct (_ && _); [|by injection Hx as <-].
  by eapply (external_keeps leaf_order interact world_leaf_order Hinteract).
Qed.

Lemma distribute_leaf_order m s l s' : _distributeRelayerRefunds this interact m s l = Ok s' → leaf_order s s'.
Proof.
  unfold _distributeRelayerRefunds. intros Hx. passes Hx.
  etransitivity; [by eapply (pay_refunds_keeps this leaf_order interact world_leaf_order Hinteract)|].
  destruct (0 <? _); [|by injection Hx as <-]. passes Hx. injection Hx as <-.
  etransitivity; [by eapply (external_keeps leaf_order interact world_leaf_order Hinteract)|].
  by eapply event_leaf_order.
Qed.

(** Claiming a leaf counts one more, the event one more executed. *)
Lemma claim_counts s i n s' : _setClaimedLeaf s i n = Ok s' →
  events s' = events s ∧ claimed s (Z.of_nat i) n = 0%nat ∧
  ∀ id k, 0 ≤ id → claimed s' id k = (claimed s id k + if decide (id = Z.of_nat i ∧ k = n) then 1 else 0)%nat.
Proof.
  unfold _setClaimedLeaf. intros Hx. passes Hx. injection Hx as <-. apply array_get_ok in Heqr.
  apply negb_true_iff in Heqb. split; [done|]. unfold claimed. cbn. rewrite Nat2Z.id, Heqr, Heqb. split; [done|].
  intros id k Hid. destruct (decide (id = Z.of_nat i)) as [->|Hne].
  - rewrite Nat2Z.id, list_lookup_insert_eq by (by eapply lookup_lt_Some). rewrite Heqr. cbn. rewrite isClaimed_set.
    destruct (bool_decide_reflect (k = n)) as [->|]; [rewrite Heqb, decide_True by done; done|].
    rewrite decide_False by (by intros [_ ?]). cbn. lia.
  - rewrite list_lookup_insert_ne by lia. rewrite decide_False by (by intros [? _]). lia.
Qed.

Lemma refund_leaf_order s1 s2 s3 m t id l : 0 ≤ id →
  _setClaimedLeaf s1 (Z.to_nat id) (leafId l) = Ok s2 → leaf_order s2 s3 →
  leaf_order s1 (emit s3 t (ExecutedRelayerRefundRoot id l m)).
Proof.
  intros Hid (He & _ & Hclaim)%claim_counts [A1 A2]. rewrite Z2Nat.id in Hclaim by done. split.
  - intros id' n Hid'. cbn [events emit]. rewrite executions_app, executions_one.
    change (claimed (emit s3 _ _) id' n) with (claimed s3 id' n). cbn [is_execution_of].
    specialize (A1 id' n Hid'). specialize (Hclaim id' n Hid'). rewrite He in A1.
    destruct (Z.eqb_spec id id'), (Z.eqb_spec (leafId l) n), (decide (id' = id ∧ n = leafId l)) as [[]|]; cbn;
      naive_solver lia.
  - intros id' n. change (claimed (emit s3 _ _) id' n) with (claimed s3 id' n). specialize (A2 id' n).
    destruct (Z.le_gt_cases 0 id') as [Hge|Hlt]; [specialize (Hclaim id' n Hge); lia|].
    specialize (Hclaim 0 n ltac:(lia)). etransitivity; [|exact A2].
    unfold claimed in *. replace (Z.to_nat id') with (Z.to_nat 0) by lia. lia.
Qed.

Lemma leaf_order_laws m : call_laws this weth quote_buffer deadline_buffer leaf_order interact m.
Proof.
  split.
  - intros. by apply same_leaf_order.
  - intros. by apply same_leaf_order.
  - intros s own admin to fs ds routes e He. eapply event_leaf_order; [done|done|]. by destruct e, He as [(_ & _ & ?)|[_ ?]].
  - intros s r1 r2. eapply quiet_order; [|eexists; split; [reflexivity|by constructor]].
    intros id n. rewrite !claimed_bitmaps. unfold bitmaps. cbn. rewrite fmap_app. cbn.
    destruct (decide (Z.to_nat id < length (claimedBitmap <$> rootBundles s))%nat).
    + by rewrite lookup_app_l.
    + rewrite lookup_app_r, (lookup_ge_None_2 (claimedBitmap <$> _)) by lia.
      destruct (_ - _)%nat; cbn; [|done]. by rewrite isClaimed_testbit, lookup_empty, Z.bits_0.
  - intros s id b Hb%array_get_ok. eapply quiet_order; [|eexists; split; [reflexivity|by constructor]].
    intros id' n. unfold claimed. cbn. destruct (decide (Z.to_nat id = Z.to_nat id')) as [<-|Hne].
    + rewrite Hb, list_lookup_insert_eq; [done|]. by eapply lookup_lt_Some.
    + by rewrite list_lookup_insert_ne.
  - unfold adminRemoveFunds. intros s amount token to s' _ Hx. passes Hx.
    etransitivity; [by apply (same_leaf_order s (set_removed s (removed s ++ [(token, amount)])))|].
    etransitivity; [by eapply (external_keeps leaf_order interact world_leaf_order Hinteract)|].
    destruct (bool_decide (token = _)); [|by injection Hx as <-].
    by eapply (external_keeps leaf_order interact world_leaf_order Hinteract).
  - unfold _depositV3. cbv zeta. intros s p id s' _ Hx. passes Hx. injection Hx as <-.
    etransitivity; [by eapply (wrap_or_pull_keeps this weth leaf_order interact world_leaf_order Hinteract)|].
    by eapply event_leaf_order.
  - unfold _deposit. cbv zeta. intros s who p s' _ Hx. passes Hx. injection Hx as <-.
    etransitivity; [by apply (same_leaf_order s (set_numberOfDeposits s a0))|].
    etransitivity; [by eapply (wrap_or_pull_keeps this weth leaf_order interact world_leaf_order Hinteract)|].
    by eapply event_leaf_order.
  - intros. by eapply event_leaf_order.
  - intros s r _. by eapply event_leaf_order.
  - intros s x s' _ _ _. apply fillRelay_leaf_order.
  - intros s l id proof s' _ Hx. cbv zeta in Hx. passes Hx.
    etransitivity; [by eapply (hook_keeps this leaf_order interact world_leaf_order Hinteract)|].
    by eapply fillRelay_leaf_order.
  - intros s id l proof s1 b s2 s3 Hd Hhook _ _ _ Hclaim Hdist.
    etransitivity; [by eapply (hook_keeps this leaf_order interact world_leaf_order Hinteract)|].
    eapply refund_leaf_order; [|exact Hclaim|by eapply distribute_leaf_order].
    cbn in Hd. unfold uint_fits in Hd. bool_to_prop. lia.
Qed.
End Bodies.

(** C8. Whatever the contracts reached by transactions do in between, the
    [n]th refund leaf of a root bundle has been executed - its refunds paid
    and its tokens returned - exactly once if its bit is set, and never
    otherwise; a bit once set stays set, also when the bundle is deleted and
    while further bundles are relayed. *)
Theorem refund_leaf_paid_once adversary t0 s0 t s : new_pool s0 →
  spoke_steps this weth quote_buffer deadline_buffer name version adversary (t0, s0) (t, s) →
  (∀ id n, 0 ≤ id → executions (events s) id n =
     match rootBundles s !! Z.to_nat id with
     | Some b => if isClaimed (claimedBitmap b) n then 1%nat else 0%nat | None => 0%nat end) ∧
  (∀ t' s', spoke_steps this weth quote_buffer deadline_buffer name version adversary (t, s) (t', s') →
     ∀ id n, (claimed s id n ≤ claimed s' id n)%nat).
Proof.
  assert (∀ a b, spoke_steps this weth quote_buffer deadline_buffer name version adversary a b →
    leaf_order a.2 b.2) as Horder.
  { intros a b. apply (steps_laws this weth quote_buffer deadline_buffer name version leaf_order adversary).
    - intros. apply world_leaf_order.
    - intros interact m _ Hi. by apply leaf_order_laws.
    - intros. apply world_leaf_order. }
  intros Hnew Hsteps. split; [|intros t' s' [_ Hmore]%Horder; exact Hmore].
  intros id n Hid. apply Horder in Hsteps as [Hcount _]. specialize (Hcount id n Hid). cbn [snd] in Hcount.
  fold (claimed s id n). assert (claimed s0 id n = 0 ∧ executions (events s0) id n = 0)%nat as [H1 H2]
    by by destruct Hnew. lia.
Qed.
End Leaves.
