(* ===== verification/SpokePoolFunds.v ===== *)
(** * The spoke pool's funds

    Of each token the pool holds at least what was deposited, less slow fills,
    executed refund leaves and what the owner removed, whatever the contracts
    called in between do: no call and no re-entrance takes a token out that is
    not accounted for by an event or by [adminRemoveFunds]. *)

From stdpp Require Import base gmap strings list relations.
From Stdlib Require Import ZArith Lia Strings.Byte.
From S2P Require Import Prelude Bytes JsText Interfaces HubPoolAdmin SvmSpoke Solidity HubWorld SpokePool SpokePoolCalls SpokePoolSafety.

Definition sumZ (l : list Z) : Z := foldr Z.add 0 l.

Lemma sumZ_app l l' : sumZ (l ++ l') = sumZ l + sumZ l'.
Proof. unfold sumZ. induction l as [|x l IH]; cbn; [done|]. rewrite IH. lia. Qed.

(** What an event says came in, less what it says went out. *)
Definition booked (t : address) (e : spoke_event) : Z :=
  match e with
  | V3FundsDeposited _ _ d => if decide (t = d_inputToken d) then d_inputAmount d else 0
  | FilledV3Relay r _ _ _ _ amount SlowFill => if decide (t = outputToken r) then - amount else 0
  | ExecutedRelayerRefundRoot _ l _ =>
      if decide (t = l2TokenAddress l) then - (sumZ (refundAmounts l) + amountToReturn l) else 0
  | _ => 0
  end.

Definition taken (t : address) (x : address * Z) : Z := if decide (t = x.1) then x.2 else 0.

Section Funds.
Context {W : Type} `{!Keccak} `{Ht : !Tokens W} `{Hc : !SpokeChild W} `{Hp : !SpokePeers W}.
Context (this weth : address) (quote_buffer deadline_buffer : Z) (name version : bytes).
Implicit Types s : spoke_pool W.

(** What the books say of token [t], counted from a new pool. *)
Definition books (t : address) s : Z :=
  sumZ (map (λ e, booked t e.2) (events s)) - sumZ (map (taken t) (removed s)).

(** How much more than the books say the pool holds. *)
Definition slack (t : address) s : Z := balanceOf (world s) t this - books t s.

Section Token.
Context (t : address).

Definition slack_order s s' : Prop := slack t s ≤ slack t s'.
#[export] Instance slack_order_preorder : PreOrder slack_order.
Proof. split; [intros s; unfold slack_order; lia|]. intros s1 s2 s3. unfold slack_order. lia. Qed.

Lemma slack_emit s time e : slack t (emit s time e) = slack t s - booked t e.
Proof.
  unfold slack, books. cbn [events emit removed world]. rewrite map_app, sumZ_app. cbn [map snd].
  unfold sumZ at 2. cbn [foldr]. lia.
Qed.

Section Bodies.
Context (interact : external_call → spoke_pool W → result (spoke_pool W)) (m : message).
Context (Hinteract : ∀ e s s', interact e s = Ok s' → slack_order s s').
Context (Hsender : msg_sender m ≠ this).

(** An external call of which the pool gains [k], or loses [- k]. *)
Lemma external_gain s e r s' k : external interact s e r = Ok s' →
  (∀ w, r = Ok w → balanceOf (world s) t this + k ≤ balanceOf w t this) → slack t s + k ≤ slack t s'.
Proof using Hinteract.
  intros (w & Hr & Hx)%external_interacts Hk. apply Hinteract in Hx. unfold slack_order in Hx. specialize (Hk w Hr).
  assert (slack t (set_world s w) = balanceOf w t this - books t s) by done.
  assert (slack t s = balanceOf (world s) t this - books t s) by done. lia.
Qed.

Abbreviation amount_of token a := (if decide (t = token) then a else 0).

Lemma send_gain s token to a s' : 0 ≤ a →
  external interact s (Send token to a) (safeTransfer (world s) token this to a) = Ok s' →
  slack t s - amount_of token a ≤ slack t s'.
Proof using Hinteract.
  intros Ha Hx. enough (slack t s + - amount_of token a ≤ slack t s') by lia.
  eapply external_gain; [exact Hx|]. intros w [Hpays _]%safeTransfer_spec.
  pose proof (pays_from _ _ _ _ _ _ t Hpays Ha). lia.
Qed.

Lemma pull_gain s token a s' :
  external interact s (Pull token (msg_sender m) this a)
    (safeTransferFrom (world s) token this (msg_sender m) this a) = Ok s' →
  slack t s + amount_of token a ≤ slack t s'.
Proof using Hinteract Hsender.
  intros Hx. eapply external_gain; [exact Hx|]. intros w [Hpays _]%safeTransferFrom_spec.
  rewrite (pays_to _ _ _ _ _ _ t Hpays Hsender). lia.
Qed.

Lemma pass_gain s token to a s' : 0 ≤ a →
  external interact s (Pull token (msg_sender m) to a)
    (safeTransferFrom (world s) token this (msg_sender m) to a) = Ok s' → slack t s ≤ slack t s'.
Proof using Hinteract Hsender.
  intros Ha Hx. enough (slack t s + 0 ≤ slack t s') by lia. eapply external_gain; [exact Hx|].
  intros w [Hpays _]%safeTransferFrom_spec. rewrite (Hpays t this).
  rewrite (decide_False (P := t = token ∧ this = msg_sender m)) by (by intros [_ ->]). case_decide; lia.
Qed.

Lemma wrap_or_pull_gain s token a s' : wrap_or_pull this weth interact m s token a = Ok s' →
  slack t s + amount_of token a ≤ slack t s'.
Proof using Hinteract Hsender.
  unfold wrap_or_pull. destruct (bool_decide_reflect (token = weth)) as [->|]; cbn [andb]; [|apply pull_gain].
  destruct (0 <? msg_value m); [|apply pull_gain]. intros Hx. passes Hx. apply Z.eqb_eq in Heqb.
  eapply external_gain; [exact Hx|]. intros w [Hb _]%weth_deposit_spec. rewrite Hb, Heqb.
  destruct (decide (t = weth)) as [->|]; [rewrite decide_True by done|rewrite decide_False by (by intros [??])]; lia.
Qed.

Lemma unwrap_gain s to a s' : 0 ≤ a → _unwrapwrappedNativeTokenTo this weth interact s to a = Ok s' →
  slack t s - amount_of weth a ≤ slack t s'.
Proof using Hinteract.
  unfold _unwrapwrappedNativeTokenTo. intros Ha Hx. destruct (has_code _ _); [by eapply send_gain|]. passes Hx.
  etransitivity; [|enough (slack t a0 + 0 ≤ slack t s') as Hn by exact Hn; eapply external_gain; [exact Hx|]].
  - rewrite Z.add_0_r. change (slack t s + - amount_of weth a ≤ slack t a0). eapply external_gain; [exact Heqr|].
    intros w Hspends%weth_withdraw_spec. rewrite (Hspends t). lia.
  - intros w Hs. rewrite (sendValue_spec _ _ _ _ _ Hs t). lia.
Qed.

Lemma pay_fill_gain s token to a slow s' : 0 ≤ a → pay_fill this weth interact m s token to a slow = Ok s' →
  slack t s - (if slow then amount_of token a else 0) ≤ slack t s'.
Proof using Hinteract Hsender.
  unfold pay_fill. intros Ha Hx. destruct (bool_decide_reflect (token = weth)) as [->|]; destruct slow;
    cbn [result_bind] in Hx.
  - by eapply unwrap_gain.
  - passes Hx. apply pull_gain in Heqr. apply unwrap_gain in Hx; [|done]. lia.
  - by eapply send_gain.
  - rewrite Z.sub_0_r. by eapply pass_gain.
Qed.

Lemma refunds_gain token l s s' : Forall (λ a, 0 ≤ a) l.*1 → pay_refunds this interact s token l = Ok s' →
  slack t s - amount_of token (sumZ l.*1) ≤ slack t s'.
Proof using Hinteract.
  revert s. induction l as [|[a to] l IH]; intros s Hall Hx; cbn in Hx.
  - injection Hx as <-. cbn. destruct (decide _); lia.
  - apply Forall_cons in Hall as [Ha Hall]. cbn in Ha. cbn [fmap list_fmap fst sumZ foldr]. fold (sumZ l.*1).
    destruct (0 <? a) eqn:Hpos; cbn [result_bind] in Hx; passes Hx; apply IH in Hx; try done.
    + apply send_gain in Heqr; [|done]. destruct (decide (t = token)); lia.
    + apply Z.ltb_ge in Hpos. destruct (decide (t = token)); lia.
Qed.

Lemma fillRelay_gain s x relayer slow s' : 0 ≤ updatedOutputAmount x →
  _fillRelayV3 this weth interact m s x relayer slow = Ok s' → slack_order s s'.
Proof using Hinteract Hsender.
  unfold _fillRelayV3. cbv zeta. intros Ha Hx. passes Hx.
  match type of Hx with context [emit ?s0 ?now ?e] => set (s1 := emit s0 now e) in Hx;
    assert (slack t s1 = slack t s + (if slow then amount_of (outputToken (relay x)) (updatedOutputAmount x) else 0))
      as Hmark end.
  { subst s1. rewrite slack_emit. destruct slow; cbn; [change (slack t (set_fillStatus s _ _)) with (slack t s)|].
    - destruct (decide _); lia.
    - change (slack t (set_fillStatus s _ _)) with (slack t s).
      destruct (bool_decide (fillStatus s _ = RequestedSlowFill)); cbn; lia. }
  clearbody s1. unfold slack_order.
  destruct (bool_decide (msg_sender m = _) && negb slow) eqn:Hself.
  { injection Hx as <-. apply andb_prop in Hself as [_ ->%negb_true_iff]. lia. }
  passes Hx. apply pay_fill_gain in Heqr; [|done].
  enough (slack t a ≤ slack t s') by lia.
  destruct (negb (bool_decide (updatedMessage x = [])) && _); [|injection Hx as <-; lia].
  enough (slack t a + 0 ≤ slack t s') by lia. eapply external_gain; [exact Hx|].
  intros w Hs. pose proof (handleV3AcrossMessage_spec _ _ _ _ _ _ _ _ Hs t). lia.
Qed.

Lemma hook_gain s token s' : hook this interact s token = Ok s' → slack t s ≤ slack t s'.
Proof using Hinteract.
  unfold hook. intros Hx. enough (slack t s + 0 ≤ slack t s') by lia. eapply external_gain; [exact Hx|].
  intros w Hs. pose proof (preExecuteLeafHook_spec _ _ _ _ Hs t). lia.
Qed.

Lemma distribute_gain s l s' : Forall (λ a, 0 ≤ a) (refundAmounts l) → 0 ≤ amountToReturn l →
  _distributeRelayerRefunds this interact m s l = Ok s' →
  slack t s - amount_of (l2TokenAddress l) (sumZ (refundAmounts l) + amountToReturn l) ≤ slack t s'.
Proof using Hinteract.
  unfold _distributeRelayerRefunds. intros Hall Hret Hx. passes Hx. apply Nat.eqb_eq in Heqb.
  apply refunds_gain in Heqr; rewrite fst_zip in * by lia; [|done]. destruct (0 <? amountToReturn l) eqn:Hpos.
  - passes Hx. injection Hx as <-. rewrite slack_emit. cbn [booked].
    enough (slack t a - amount_of (l2TokenAddress l) (amountToReturn l) ≤ slack t a0)
      by (destruct (decide (t = l2TokenAddress l)); lia).
    change (slack t a + - amount_of (l2TokenAddress l) (amountToReturn l) ≤ slack t a0).
    eapply external_gain; [exact Heqr0|]. intros w Hs.
    pose proof (bridgeTokensToHubPool_spec _ _ _ _ _ _ Hs Hret t). lia.
  - injection Hx as <-. apply Z.ltb_ge in Hpos. destruct (decide (t = l2TokenAddress l)); lia.
Qed.

Lemma same_slack s s' : world s' = world s → removed s' = removed s → events s' = events s → slack_order s s'.
Proof. intros H1 H2 H3. unfold slack_order, slack, books. rewrite H1, H2, H3. lia. Qed.
Lemma event_slack s s' time e : world s' = world s → removed s' = removed s → events s' = events s ++ [(time, e)] →
  booked t e = 0 → slack_order s s'.
Proof.
  intros H1 H2 H3 H4. unfold slack_order. enough (slack t s' = slack t (emit s time e)) as ->
    by (rewrite slack_emit; lia). unfold slack, books. by rewrite H1, H2, H3.
Qed.

Lemma remove_gain s amount token to s' : 0 ≤ amount →
  adminRemoveFunds this interact m s amount token to = Ok s' → slack_order s s'.
Proof using Hinteract.
  unfold adminRemoveFunds. intros Ha Hx. passes Hx. set (s1 := set_removed s _) in Heqr0.
  assert (slack t s1 = slack t s + amount_of token amount) as Hs1.
  { subst s1. unfold slack, books. cbn [events set_removed removed world]. rewrite map_app, sumZ_app.
    unfold sumZ at 3. cbn [map foldr taken fst snd]. unfold taken. cbn [fst snd]. lia. }
  clearbody s1. apply send_gain in Heqr0; [|done]. unfold slack_order.
  enough (slack t a0 ≤ slack t s') by lia.
  destruct (bool_decide (token = _)); [|injection Hx as <-; lia].
  enough (slack t a0 + 0 ≤ slack t s') by lia. eapply external_gain; [exact Hx|].
  intros w Hs. rewrite (sendValue_spec _ _ _ _ _ Hs t). lia.
Qed.

Lemma deposit_gain s p id s' : _depositV3 this weth quote_buffer deadline_buffer interact m s p id = Ok s' →
  slack_order s s'.
Proof using Hinteract Hsender.
  unfold _depositV3. cbv zeta. intros Hx. passes Hx. injection Hx as <-. unfold slack_order.
  rewrite slack_emit. cbn [booked]. match goal with Hw : wrap_or_pull _ _ _ _ _ _ _ = Ok _ |- _ =>
    apply wrap_or_pull_gain in Hw; lia end.
Qed.

Lemma legacy_gain s who p s' : _deposit this weth quote_buffer interact m s who p = Ok s' → slack_order s s'.
Proof using Hinteract Hsender.
  unfold _deposit. cbv zeta. intros Hx. passes Hx. injection Hx as <-. unfold slack_order.
  rewrite slack_emit. cbn [booked d_inputToken d_inputAmount].
  match goal with Hw : wrap_or_pull _ _ _ _ _ _ _ = Ok _ |- _ => apply wrap_or_pull_gain in Hw end.
  change (slack t (set_numberOfDeposits s _)) with (slack t s) in *. lia.
Qed.

Lemma refund_gain s id l proof s1 i s2 s3 : decodes (C_executeRelayerRefundLeaf id l proof) = true →
  hook this interact s (l2TokenAddress l) = Ok s1 → _setClaimedLeaf s1 i (leafId l) = Ok s2 →
  _distributeRelayerRefunds this interact m s2 l = Ok s3 →
  slack_order s (emit s3 (block_time m) (ExecutedRelayerRefundRoot id l (msg_sender m))).
Proof using Hinteract.
  intros Hd Hhook Hclaim Hdist. cbn [decodes] in Hd. unfold uint_fits in Hd. bool_to_prop.
  apply hook_gain in Hhook. unfold _setClaimedLeaf in Hclaim. passes Hclaim. injection Hclaim as <-.
  apply distribute_gain in Hdist; [| |lia].
  - change (slack t (set_rootBundles s1 _)) with (slack t s1) in Hdist. unfold slack_order.
    rewrite slack_emit. cbn [booked]. destruct (decide (t = l2TokenAddress l)); lia.
  - rewrite Forall_forall. intros x Hx. match goal with Hf : forallb _ _ = true |- _ =>
      rewrite forallb_forall in Hf; specialize (Hf x); rewrite <- list_elem_of_In in Hf; specialize (Hf Hx) end.
    bool_to_prop. lia.
Qed.

Lemma slack_laws : call_laws this weth quote_buffer deadline_buffer slack_order interact m.
Proof using Hinteract Hsender.
  split.
  - intros. by apply same_slack.
  - intros. by apply same_slack.
  - intros s own admin to fs ds routes e He. eapply event_slack; [done|done|done|].
    by destruct e, He as [(_ & _ & ?)|[_ ?]].
  - intros. by eapply event_slack.
  - intros. by eapply event_slack.
  - intros s amount token to s'. apply remove_gain.
  - intros s p id s' _. apply deposit_gain.
  - intros s who p s' _. apply legacy_gain.
  - intros. by eapply event_slack.
  - intros s r _. by eapply event_slack.
  - intros s x s' _ Ha _. by apply fillRelay_gain.
  - intros s l id proof s' Ha Hx. cbv zeta in Hx. passes Hx. apply hook_gain in Heqr.
    apply fillRelay_gain in Hx; [|done]. unfold slack_order in *. lia.
  - intros s id l proof s1 b s2 s3 Hd Hhook _ _ _ Hclaim Hdist. by eapply refund_gain.
Qed.
End Bodies.
End Token.

(** C4. In every state that transactions lead to, the pool holds of each token
    at least what it began with plus what was deposited, less the slow fills
    and the executed refund leaves (refunds and the return to the hub pool)
    that its events show, and less what the owner removed; so no call takes a
    token out otherwise - a fill by a relayer costs the pool nothing -
    provided the contracts called do not themselves lower the pool's
    balances, though they may call it again at every point. *)
Theorem spoke_funds_accounted adversary t0 s0 t s :
  (∀ s e actions f, adversary s e = Some actions → Change f ∈ actions →
     ∀ w token, balanceOf w token this ≤ balanceOf (f w) token this) →
  new_pool s0 → spoke_steps this weth quote_buffer deadline_buffer name version adversary (t0, s0) (t, s) →
  ∀ token, balanceOf (world s0) token this + sumZ (map (λ e, booked token e.2) (events s)) ≤
           balanceOf (world s) token this + sumZ (map (taken token) (removed s)).
Proof.
  intros Hadv Hnew Hsteps token.
  assert (slack_order token s0 s) as Horder.
  { change s with (t, s).2. change s0 with (t0, s0).2. revert Hsteps.
    apply (steps_laws this weth quote_buffer deadline_buffer name version (slack_order token) adversary).
    - intros s1 e actions f Ha Hf s2. unfold slack_order, slack. cbn. specialize (Hadv _ _ _ _ Ha Hf (world s2) token).
      change (books token (set_world s2 _)) with (books token s2). lia.
    - intros interact m Hm Hi. apply slack_laws; [done|]. unfold possible in Hm. bool_to_prop.
      by apply negb_true_iff, bool_decide_eq_false in H0.
    - intros s1 w Hw. unfold slack_order, slack. cbn. specialize (Hw token).
      change (books token (set_world s1 _)) with (books token s1). lia. }
  unfold slack_order, slack in Horder. assert (books token s0 = 0) by by destruct Hnew.
  unfold books in *. lia.
Qed.
End Funds.
