(* ===== verification/SpokePoolRoutes.v ===== *)
(** * What the spoke pool cannot do

    A pool behind a proxy has no owner, hence never enables a route and takes
    no deposit; and [fill], the ERC-7683 entry, cannot fill the orders that
    [ERC7683OrderDepositor.sol] writes. *)

From stdpp Require Import base gmap strings list relations.
From Stdlib Require Import ZArith Lia Strings.Byte.
From S2P Require Import Prelude Bytes JsText Interfaces HubPoolAdmin SvmSpoke Solidity HubWorld SpokePool SpokePoolCalls SpokePoolSafety.

Section Routes.
Context {W : Type} `{!Keccak} `{Ht : !Tokens W} `{Hc : !SpokeChild W} `{Hp : !SpokePeers W}.
Context (this weth : address) (quote_buffer deadline_buffer : Z) (name version : bytes).
Implicit Types s : spoke_pool W.

(** ** No owner, no routes *)

Definition unowned s : Prop := owner s = zero_address ∧ ∀ token chain, route_enabled s token chain = false.

(** What the owner, the routes and the depositors bring about. *)
Definition owner_event (e : spoke_event) : bool :=
  match e with
  | EnabledDepositRoute _ _ _ | OwnershipTransferred _ | V3FundsDeposited _ _ _ => true
  | _ => false
  end.

Definition needs_owner_or_route (c : call) : bool :=
  match c with
  | C_setEnableRoute _ _ _ | C_adminRemoveFunds _ _ _ | C_transferOwnership _ | C_renounceOwnership
  | C_deposit _ | C_depositFor _ _ | C_depositV3 _ | C_unsafeDepositV3 _ _ | C_depositV3Now _
  | C_depositExclusive _ => true
  | _ => false
  end.

Definition unowned_order s s' : Prop := unowned s → unowned s' ∧ removed s' = removed s ∧
  ∃ l, events s' = events s ++ l ∧ Forall (λ e, owner_event e.2 = false) l.

#[local] Instance unowned_order_preorder : PreOrder unowned_order.
Proof.
  split.
  - intros s Hs. split_and!; [done|done|]. exists []. by rewrite app_nil_r.
  - intros s1 s2 s3 H12 H23 (H2 & Hr2 & l & He2 & Hl)%H12. destruct (H23 H2) as (H3 & Hr3 & k & He3 & Hk).
    split_and!; [done|by rewrite Hr3|]. exists (l ++ k). rewrite He3, He2, <- app_assoc. split; [done|].
    by apply Forall_app.
Qed.

Lemma plain_unowned s s' l : owner s' = owner s → enabledDepositRoutes s' = enabledDepositRoutes s →
  removed s' = removed s → events s' = events s ++ l → Forall (λ e, owner_event e.2 = false) l →
  unowned_order s s'.
Proof.
  intros Ho Hr Hm He Hl [H1 H2]. split_and!; [|done|by exists l]. split; [by rewrite Ho|].
  intros token chain. unfold route_enabled. rewrite Hr. apply H2.
Qed.
Lemma event_unowned s s' t e : owner s' = owner s → enabledDepositRoutes s' = enabledDepositRoutes s →
  removed s' = removed s → events s' = events s ++ [(t, e)] → owner_event e = false → unowned_order s s'.
Proof. intros Ho Hr Hm He Hl. apply (plain_unowned _ _ [(t, e)]); try done. by constructor. Qed.
Lemma same_unowned s s' : owner s' = owner s → enabledDepositRoutes s' = enabledDepositRoutes s →
  removed s' = removed s → events s' = events s → unowned_order s s'.
Proof. intros Ho Hr Hm He. apply (plain_unowned _ _ []); try done. by rewrite app_nil_r. Qed.
Lemma world_unowned s w : unowned_order s (set_world s w).
Proof. by apply same_unowned. Qed.

(** Neither the owner's functions nor deposits succeed. *)
Lemma owner_refused m s : unowned s → msg_sender m ≠ zero_address → onlyOwner m s ≠ Ok tt.
Proof. intros [Ho _] Hm. unfold onlyOwner. by rewrite Ho, bool_decide_eq_false_2. Qed.

Lemma depositV3_refused interact m s p id s' : unowned s →
  _depositV3 this weth quote_buffer deadline_buffer interact m s p id ≠ Ok s'.
Proof. intros [_ Hr]. unfold _depositV3. by rewrite Hr. Qed.

Lemma deposit_refused interact m s who p s' : unowned s → _deposit this weth quote_buffer interact m s who p ≠ Ok s'.
Proof. intros [_ Hr]. unfold _deposit. by rewrite Hr. Qed.

Section Bodies.
Context (interact : external_call → spoke_pool W → result (spoke_pool W)) (m : message).
Context (Hinteract : ∀ e s s', interact e s = Ok s' → unowned_order s s').
Context (Hsender : msg_sender m ≠ zero_address).

Lemma fillRelay_unowned s x relayer slow s' :
  _fillRelayV3 this weth interact m s x relayer slow = Ok s' → unowned_order s s'.
Proof using Hinteract.
  unfold _fillRelayV3. cbv zeta. intros Hx. passes Hx.
  match type of Hx with context [emit ?s0 ?t ?e] =>
    assert (unowned_order s (emit s0 t e)) as Hmark by (by eapply event_unowned) end.
  etransitivity; [exact Hmark|]. destruct (_ && _); [by injection Hx as <-|]. passes Hx.
  etransitivity; [by eapply (pay_fill_keeps this weth unowned_order interact world_unowned Hinteract)|].
  destruct (_ && _); [|by injection Hx as <-].
  by eapply (external_keeps unowned_order interact world_unowned Hinteract).
Qed.

Lemma distribute_unowned s l s' : _distributeRelayerRefunds this interact m s l = Ok s' → unowned_order s s'.
Proof using Hinteract.
  unfold _distributeRelayerRefunds. intros Hx. passes Hx.
  etransitivity; [by eapply (pay_refunds_keeps this unowned_order interact world_unowned Hinteract)|].
  destruct (0 <? _); [|by injection Hx as <-]. passes Hx. injection Hx as <-.
  etransitivity; [by eapply (external_keeps unowned_order interact world_unowned Hinteract)|].
  by eapply event_unowned.
Qed.

Lemma unowned_laws : call_laws this weth quote_buffer deadline_buffer unowned_order interact m.
Proof using Hinteract Hsender.
  split.
  - intros. by apply same_unowned.
  - intros. by apply same_unowned.
  - intros s own admin to fs ds routes e [(-> & -> & He)|[Ho _]].
    + eapply event_unowned; [done..|]. by destruct e.
    + intros [Hz _]. congruence.
  - intros s r1 r2. by eapply event_unowned.
  - intros s id b _. by eapply event_unowned.
  - intros s amount token to s' _ Hx Hs. exfalso. unfold adminRemoveFunds in Hx. passes Hx. destruct a.
    by apply (owner_refused m s).
  - intros s p id s' _ Hx Hs. exfalso. by eapply depositV3_refused.
  - intros s who p s' _ Hx Hs. exfalso. by eapply deposit_refused.
  - intros. by eapply event_unowned.
  - intros s r _. by eapply event_unowned.
  - intros s x s' _ _ _. apply fillRelay_unowned.
  - intros s l id proof s' _ Hx. cbv zeta in Hx. passes Hx.
    etransitivity; [by eapply (hook_keeps this unowned_order interact world_unowned Hinteract)|].
    by eapply fillRelay_unowned.
  - intros s id l proof s1 b s2 s3 _ Hhook _ _ _ Hclaim Hdist.
    etransitivity; [by eapply (hook_keeps this unowned_order interact world_unowned Hinteract)|].
    transitivity s2; [|etransitivity; [by eapply distribute_unowned|by eapply event_unowned]].
    unfold _setClaimedLeaf in Hclaim. passes Hclaim. injection Hclaim as <-. by apply same_unowned.
Qed.
End Bodies.

(** A call that needs the owner or a route fails. *)
Lemma unowned_refuses adversary depth m c s s' : unowned s → msg_sender m ≠ zero_address →
  needs_owner_or_route c = true →
  exec this weth quote_buffer deadline_buffer name version adversary depth m c s ≠ Ok s'.
Proof.
  intros Hs Hm Hc' Hx. destruct depth as [|depth]; [done|]. cbn [exec] in Hx. passes Hx.
  assert (onlyOwner m s ≠ Ok tt) as Ho by by apply owner_refused.
  assert (unowned (set_entered s true)) as Hs1 by done.
  assert (∀ s n, unowned s → unowned (set_numberOfDeposits s n)) as Hn by done.
  assert (∀ interact p, depositV3 this weth quote_buffer deadline_buffer interact m s p ≠ Ok s') as Hdeposit.
  { intros interact p (_ & s1 & Hy & _)%nonReentrant_ok. cbv beta zeta in Hy. passes Hy.
    by eapply depositV3_refused; [|exact Hy]; apply Hn. }
  destruct c; try done; cbn [body] in Hx.
  - unfold setEnableRoute in Hx. passes Hx. by destruct a.
  - unfold adminRemoveFunds in Hx. passes Hx. by destruct a.
  - apply nonReentrant_ok in Hx as (_ & s1 & Hy & _). cbv beta in Hy. passes Hy. by eapply deposit_refused.
  - apply nonReentrant_ok in Hx as (_ & s1 & Hy & _). cbv beta in Hy. passes Hy. by eapply deposit_refused.
  - by eapply Hdeposit.
  - apply nonReentrant_ok in Hx as (_ & s1 & Hy & _). cbv beta in Hy. passes Hy. by eapply depositV3_refused.
  - unfold depositV3Now in Hx. passes Hx. by eapply Hdeposit.
  - by eapply Hdeposit.
  - unfold transferOwnership in Hx. passes Hx. by destruct a.
  - unfold renounceOwnership in Hx. passes Hx. by destruct a.
Qed.

Lemma proxy_order adversary t0 initialDepositId admin to w t s :
  spoke_steps this weth quote_buffer deadline_buffer name version adversary
    (t0, behind_proxy initialDepositId admin to w) (t, s) →
  unowned_order (behind_proxy initialDepositId admin to w) s.
Proof.
  change s with (t, s).2 at 2. change (behind_proxy _ _ _ _) with (t0, behind_proxy initialDepositId admin to w).2 at 2.
  apply (steps_laws this weth quote_buffer deadline_buffer name version unowned_order adversary).
  - intros. apply world_unowned.
  - intros interact m Hm Hi. apply unowned_laws; [done|]. unfold possible in Hm. bool_to_prop.
    by apply negb_true_iff, bool_decide_eq_false in H2.
  - intros. apply world_unowned.
Qed.

Lemma proxy_unowned adversary t0 initialDepositId admin to w t s :
  spoke_steps this weth quote_buffer deadline_buffer name version adversary
    (t0, behind_proxy initialDepositId admin to w) (t, s) → unowned s.
Proof. intros Hsteps%proxy_order. by apply Hsteps. Qed.

(** C24. Behind a proxy the constructor of [Ownable] has not run and no
    initializer sets an owner, so [setEnableRoute], which is [onlyOwner] here,
    never succeeds: in every state that transactions lead to, no route is
    enabled, nothing was deposited or removed, nobody became owner, and every
    deposit and every function of the owner reverts. *)
Theorem proxy_pool_takes_no_deposits adversary t0 initialDepositId admin to w t s :
  spoke_steps this weth quote_buffer deadline_buffer name version adversary
    (t0, behind_proxy initialDepositId admin to w) (t, s) →
  owner s = zero_address ∧ (∀ token chain, route_enabled s token chain = false) ∧ removed s = [] ∧
  Forall (λ e, owner_event e.2 = false) (events s) ∧
  (∀ depth m c s', msg_sender m ≠ zero_address → needs_owner_or_route c = true →
     exec this weth quote_buffer deadline_buffer name version adversary depth m c s ≠ Ok s').
Proof.
  intros Hsteps%proxy_order. destruct (Hsteps) as ([Ho Hr] & Hm & l & He & Hl); [done|]. split_and!; try done.
  - by rewrite He.
  - intros. by apply unowned_refuses.
Qed.
End Routes.

(** ** Ethereum_SpokePool.sol behind a proxy *)

(** The functions with [onlyAdmin]. *)
Definition needs_admin (c : call) : bool :=
  match c with
  | C_pauseDeposits _ | C_pauseFills _ | C_setCrossDomainAdmin _ | C_setWithdrawalRecipient _
  | C_relayRootBundle _ _ | C_emergencyDeleteRootBundle _ => true
  | _ => false
  end.

Section Ethereum.
Context {W : Type} `{!Keccak} `{Ht : !Tokens W}.
Context (this weth : address) (quote_buffer deadline_buffer : Z) (name version : bytes).
Context (chain : Z).
#[local] Instance ethereum : SpokeChild W := Ethereum_SpokePool chain.
Context `{Hp : !SpokePeers W}.

(** C26. The admin of [Ethereum_SpokePool] is its owner, so that one deployed
    behind a proxy, as [007_deploy_ethereum_spokepool.ts] does, obeys nobody:
    in every state transactions lead to, pausing, the setters, relaying a root
    bundle and deleting one all revert, like deposits and the owner's
    functions. *)
Theorem ethereum_proxy_unmanaged adversary t0 initialDepositId admin to w t (s : spoke_pool W) :
  spoke_steps this weth quote_buffer deadline_buffer name version adversary
    (t0, behind_proxy initialDepositId admin to w) (t, s) →
  ∀ depth m c s', msg_sender m ≠ zero_address → needs_admin c || needs_owner_or_route c = true →
    exec this weth quote_buffer deadline_buffer name version adversary depth m c s ≠ Ok s'.
Proof.
  intros Hs%proxy_unowned depth m c s' Hm Hc. destruct (needs_owner_or_route c) eqn:Hown; [by apply unowned_refuses|].
  rewrite orb_false_r in Hc. intros Hx. destruct depth as [|depth]; [done|]. cbn [exec] in Hx. passes Hx.
  assert (onlyAdmin m s ≠ Ok tt) as Hadmin.
  { unfold onlyAdmin. cbn. destruct Hs as [-> _]. by rewrite bool_decide_eq_false_2. }
  destruct c; try done; cbn [body] in Hx;
    unfold pauseDeposits, pauseFills, setCrossDomainAdmin, setWithdrawalRecipient, relayRootBundle,
      emergencyDeleteRootBundle in Hx; passes Hx; by destruct a.
Qed.
End Ethereum.

(** ** ERC-7683 orders *)

Lemma calldata_word_at p w r at_ : at_ = Z.of_nat (length p) → length w = 32%nat →
  calldata_word (p ++ w ++ r) at_ = Ok (be_val w).
Proof.
  intros -> Hw. unfold calldata_word. rewrite !length_app, Hw.
  replace (0 <=? _) with true by (symmetry; apply Z.leb_le; lia).
  replace (_ <=? _) with true by (symmetry; apply Z.leb_le; lia). cbn [andb].
  by rewrite Nat2Z.id, drop_app_length, <- Hw, take_app_length.
Qed.

Lemma length_abi_word z : length (abi_word z) = 32%nat.
Proof. apply length_be_bytes. Qed.
Lemma be_val_abi_word z : be_val (abi_word z) = uint256 z.
Proof. apply be_val_be_bytes, Z.mod_pos_bound. done. Qed.

(** The deadline that [fillV3Relay] reads from the arguments of [fill] is the
    deposit's id: the data is encoded twice, and every field moves up by one. *)
Lemma decode_fill_shifted r filler r' repayment :
  Forall (λ a, length (address_word a) = 32%nat)
    [depositor r; recipient r; exclusiveRelayer r; inputToken r; outputToken r] →
  decode_fill (fill_calldata (abi_relay r) filler) = Ok (r', repayment) →
  fillDeadline r' = uint256 (depositId r) ∧ uint256 (depositId r) < 2 ^ 32.
Proof.
  intros Hwords Hx. rewrite !Forall_cons in Hwords. destruct Hwords as (H1 & H2 & H3 & H4 & H5 & _).
  set (args := fill_calldata (abi_relay r) filler) in *.
  assert (calldata_word args 0 = Ok 32) as H0.
  { subst args. unfold fill_calldata. change (abi_word 32 ++ ?x) with ([] ++ abi_word 32 ++ x).
    rewrite calldata_word_at; [|done|apply length_abi_word]. by rewrite be_val_abi_word. }
  assert (calldata_word args 320 = Ok (uint256 (depositId r))) as H9.
  { rewrite <- be_val_abi_word. subst args. unfold fill_calldata, abi_bytes, abi_relay.
    set (len := abi_word (Z.of_nat _)).
    etransitivity; [|eapply (calldata_word_at (abi_word 32 ++ len ++ address_word (depositor r) ++ address_word (recipient r) ++
      address_word (exclusiveRelayer r) ++ address_word (inputToken r) ++ address_word (outputToken r) ++
      abi_word (inputAmount r) ++ abi_word (outputAmount r) ++ abi_word (originChainId r)) (abi_word (depositId r)) _)].
    - rewrite <- !app_assoc. reflexivity.
    - rewrite !length_app, H1, H2, H3, H4, H5, !length_abi_word. unfold len. by rewrite length_abi_word.
    - apply length_abi_word. }
  unfold decode_fill in Hx. rewrite H0 in Hx. cbn [result_bind] in Hx. passes Hx.
  destruct (_ <=? _); [|discriminate]. injection Hx as <- _. cbn.
  match goal with Hu : calldata_uint 32 args (32 + 32 * 9) = Ok _ |- _ => rename Hu into Hdeadline end.
  unfold calldata_uint in Hdeadline. change (32 + 32 * 9) with 320 in Hdeadline. rewrite H9 in Hdeadline.
  cbn [result_bind] in Hdeadline. destruct (uint256 (depositId r) <? 2 ^ 32) eqn:Hfits; [|discriminate].
  injection Hdeadline as <-. bool_to_prop. auto.
Qed.

Section Orders.
Context {W : Type} `{!Keccak} `{Ht : !Tokens W} `{Hc : !SpokeChild W} `{Hp : !SpokePeers W}.
Context (this weth : address) (quote_buffer deadline_buffer : Z) (name version : bytes).
Implicit Types s : spoke_pool W.

Lemma filled_in_time adversary depth m r repayment s s' :
  exec this weth quote_buffer deadline_buffer name version adversary depth m (C_fillV3Relay r repayment) s = Ok s' →
  block_time m ≤ fillDeadline r.
Proof.
  destruct depth as [|depth]; [done|]. cbn [exec body]. intros Hx. passes Hx.
  unfold fillV3Relay, _fillRelayV3 in Hx. passes Hx. by apply Z.leb_le in Heqb0.
Qed.

(** C25. [fill] passes [fillV3Relay] its arguments as one [bytes] value, so that
    every field is read one word late and the deadline is the deposit's id:
    for the order data that [ERC7683OrderDepositor.sol] writes, which is the
    encoding of the twelve fields, it reverts with [LowLevelCallFailed],
    whatever the filler adds, when the id is below the block's time - every
    id that counts deposits - or does not fit 32 bits - every other id but for
    a collision. *)
Theorem erc7683_fill_reverts adversary depth m r filler s :
  Forall (λ a, length (address_word a) = 32%nat)
    [depositor r; recipient r; exclusiveRelayer r; inputToken r; outputToken r] →
  uint_fits 256 (depositId r) = true → depositId r < block_time m ∨ 2 ^ 32 ≤ depositId r → msg_value m = 0 →
  exec this weth quote_buffer deadline_buffer name version adversary (S depth) m
    (C_fill (keccak (abi_relay r)) (abi_relay r) filler) s = Err (revert "LowLevelCallFailed").
Proof.
  intros Hwords Hfits Hid Hvalue. cbn [exec decodes payable body]. rewrite Hvalue. cbn [Z.eqb orb andb require result_bind].
  unfold fill. rewrite bool_decide_eq_true_2 by done. cbn [require result_bind].
  destruct (decode_fill _) as [[r' repayment]|] eqn:Hd; [|done]. cbn [result_bind fst snd].
  destruct (exec _ _ _ _ _ _ _ _ _ _ _) as [s'|] eqn:Hx; [|done]. exfalso.
  apply filled_in_time in Hx. apply decode_fill_shifted in Hd as [Hd Hlt]; [|done].
  unfold uint_fits in Hfits. bool_to_prop. unfold uint256, to_uint in *. rewrite Z.mod_small in Hd, Hlt by lia. lia.
Qed.
End Orders.
