(* ===== verification/SpokePoolSample.v ===== *)
(** * A history of a spoke pool, executed

    A runner that turns a list of transactions into a history, and one sample
    history of an [Ethereum_SpokePool] deployed directly, on the concrete world
    of [HubWorld]: a route is enabled, a deposit made, relays are filled - one
    of them by re-entrance from the recipient of another -, a slow fill is
    requested and executed and a refund leaf executed under a relayed bundle;
    at which the theorems on the pool are evaluated. *)

From stdpp Require Import base gmap strings list relations.
From Stdlib Require Import ZArith Lia Strings.Byte.
From S2P Require Import Prelude Bytes JsText Interfaces HubPoolAdmin SvmSpoke Solidity HubWorld SpokePool SpokePoolCalls SpokePoolSafety SpokePoolLeaves SpokePoolFunds SpokePoolRoutes.

Section Runner.
Context {W : Type} `{!Keccak} `{Ht : !Tokens W} `{Hc : !SpokeChild W} `{Hp : !SpokePeers W}.
Context (this weth : address) (quote_buffer deadline_buffer : Z) (name version : bytes).
Context (adversary : spoke_pool W → external_call → option (list (action W))) (depth : nat).

(** A transaction, when its sender, value and time are possible and it does
    not revert. *)
Definition run_spoke (now : Z) (s : spoke_pool W) (m : message) (c : call) : option (spoke_pool W) :=
  if possible this (msg_sender m) (msg_value m) && (now <=? block_time m) && (block_time m <? 2 ^ 32)
  then match exec this weth quote_buffer deadline_buffer name version adversary depth m c s with
       | Ok s' => Some s' | Err _ => None end
  else None.

Fixpoint run_spokes (now : Z) (s : spoke_pool W) (l : list (message * call)) : option (Z * spoke_pool W) :=
  match l with
  | [] => Some (now, s)
  | (m, c) :: l' =>
      match run_spoke now s m c with Some s' => run_spokes (block_time m) s' l' | None => None end
  end.

Lemma run_spokes_steps now s l r : run_spokes now s l = Some r →
  spoke_steps this weth quote_buffer deadline_buffer name version adversary (now, s) r.
Proof.
  revert now s. induction l as [|[m c] l IH]; intros now s Hr; cbn in Hr; [injection Hr as <-; apply rtc_refl|].
  unfold run_spoke in Hr. destruct (_ && _ && _) eqn:Hc'; [|done]. bool_to_prop.
  destruct (exec _ _ _ _ _ _ _ _ _ _ _) as [s'|] eqn:Hx; [|done].
  eapply rtc_l; [|by apply IH]. by econstructor.
Qed.
End Runner.

(** ** The sample *)
Module SpokeSample.

Definition pool : address := "0x5c7bcd6e7de5423a257d81b442095a1a6ced35c5".
Definition weth : address := "0xc02aaa39b223fe8d0a0e5c4f27ead9083c756cc2".
Definition dai : address := "0x6b175474e89094c44da98b954eedeac495271d0f".
Definition admin : address := "0xb524735356985d2f267fa010d681f061dff03715".
Definition user : address := "0x9a8f92a830a5cb89a3816e3d267cb7791c16b04d".
Definition solver : address := "0x07ae8551be970cb1cca11dd7a11f47ae82e70e67".
Definition hookee : address := "0x924a9f036260ddd5808007e1aa95f08ed08aa569".

#[export] Instance child : SpokeChild toy_world := Ethereum_SpokePool 1.

#[export] Instance peers : SpokePeers toy_world.
Proof.
  refine {| has_code _ a := bool_decide (a = hookee); handleV3AcrossMessage w _ _ _ _ _ _ := Ok w;
            isValidSignatureNow _ _ _ _ := true;
            toTypedDataHash domain h := keccak (x19 :: x01 :: domain ++ h) |}.
  intros w p to token a relayer msg w' [= ->] t. apply Z.le_refl.
Defined.

Definition world : toy_world :=
  {| tw_balances := {[ (dai, user) := 5000%N; (dai, solver) := 900%N ]}; tw_supplies := ∅; tw_finalFee := 50%N |}.

Definition relay_to (to : address) (amount id : Z) (msg : bytes) : V3RelayData :=
  {| depositor := user; recipient := to; exclusiveRelayer := zero_address; inputToken := dai; outputToken := dai;
     inputAmount := amount + 5; outputAmount := amount; originChainId := 10; depositId := id;
     fillDeadline := 5000; exclusivityDeadline := 0; relay_message := msg |}.

Definition noted : V3RelayData := relay_to hookee 100 7 [x01].
Definition other : V3RelayData := relay_to user 30 8 [].
Definition slow : V3RelayData := relay_to user 60 9 [].

Definition slow_leaf : V3SlowFill := {| relayData := slow; leaf_chainId := 1; leaf_updatedOutputAmount := 61 |}.
Definition refund_leaf : RelayerRefundLeaf :=
  {| amountToReturn := 100; refund_chainId := 1; refundAmounts := [105; 0; 35]; leafId := 300; l2TokenAddress := dai;
     refundAddresses := [solver; user; solver] |}.

(** Told of its fill, the recipient fills the same relay again, which fails,
    and another one, which does not. *)
Definition adversary (s : spoke_pool toy_world) (e : external_call) : option (list (action toy_world)) :=
  match e with
  | Notify _ _ _ _ _ => Some [Reenter solver 0 (C_fillV3Relay noted 1); Reenter solver 0 (C_fillV3Relay other 1)]
  | _ => Some []
  end.

Definition by_ (who : address) (t : Z) : message := {| msg_sender := who; msg_value := 0; block_time := t |}.

Definition deposit_ : DepositV3 :=
  {| d_depositor := user; d_recipient := user; d_inputToken := dai; d_outputToken := dai; d_inputAmount := 1000;
     d_outputAmount := 990; d_destinationChainId := 10; d_exclusiveRelayer := zero_address; d_quoteTimestamp := 900;
     d_fillDeadline := 4000; d_exclusivityParameter := 0; d_message := [] |}.

Definition calls : list (message * call) :=
  [ (by_ admin 1000, C_setEnableRoute dai 10 true);
    (by_ user 1000, C_depositV3 deposit_);
    (by_ solver 1100, C_fillV3Relay noted 1);
    (by_ user 1200, C_requestV3SlowFill slow);
    (by_ admin 1300, C_relayRootBundle (keccak (abi_refund_leaf refund_leaf)) (keccak (abi_slow_fill slow_leaf)));
    (by_ user 1400, C_executeV3SlowRelayLeaf slow_leaf 0 []);
    (by_ user 1500, C_executeRelayerRefundLeaf 0 refund_leaf []);
    (by_ admin 1600, C_adminRemoveFunds 11 dai admin) ].

Definition start : spoke_pool toy_world := deployed_directly admin world.
Definition run (s : spoke_pool toy_world) (l : list (message * call)) : option (Z * spoke_pool toy_world) :=
  run_spokes pool weth 600 21600 [] [] adversary 5 1000 s l.
Definition final : Z * spoke_pool toy_world := default (0, start) (run start calls).

Lemma spoke_sample_runs : bool_decide (is_Some (run start calls)) = true.
Proof. vm_compute. reflexivity. Qed.

Lemma spoke_sample_steps : spoke_steps pool weth 600 21600 [] [] adversary (1000, start) (final.1, final.2).
Proof.
  unfold final. pose proof spoke_sample_runs as [r Hr]%bool_decide_eq_true. rewrite Hr. destruct r.
  by eapply run_spokes_steps.
Qed.

Lemma spoke_sample_books :
  fills (events final.2) (hash_of (W := toy_world) noted) = 1%nat ∧
  fills (events final.2) (hash_of (W := toy_world) other) = 1%nat ∧
  fills (events final.2) (hash_of (W := toy_world) slow) = 1%nat ∧
  executions (events final.2) 0 300 = 1%nat ∧
  balanceOf (SpokePool.world final.2) dai pool = 1000 - 61 - 240 - 11.
Proof. vm_compute. done. Qed.

(** The same pool behind a proxy: relayers can fill, nothing else works. *)
Definition proxy : spoke_pool toy_world := behind_proxy 1000000 admin admin world.
Definition proxy_calls : list (message * call) :=
  [ (by_ solver 1100, C_fillV3Relay noted 1); (by_ user 1200, C_requestV3SlowFill slow) ].
Definition proxy_final : Z * spoke_pool toy_world := default (0, proxy) (run proxy proxy_calls).

Lemma proxy_sample_runs : bool_decide (is_Some (run proxy proxy_calls)) = true.
Proof. vm_compute. reflexivity. Qed.
Lemma proxy_sample_steps :
  spoke_steps pool weth 600 21600 [] [] adversary (1000, proxy) (proxy_final.1, proxy_final.2).
Proof.
  unfold proxy_final. pose proof proxy_sample_runs as [r Hr]%bool_decide_eq_true. rewrite Hr. destruct r.
  by eapply run_spokes_steps.
Qed.
Lemma proxy_sample_fills : length (events proxy_final.2) = 3%nat.
Proof. vm_compute. done. Qed.

Lemma adversary_keeps s e actions f : adversary s e = Some actions → Change f ∈ actions →
  ∀ w token, balanceOf w token pool ≤ balanceOf (f w) token pool.
Proof.
  intros Ha Hf. exfalso. destruct e; injection Ha as <-; try by apply elem_of_nil in Hf.
  apply elem_of_cons in Hf as [Hf|[Hf|Hf%elem_of_nil]%elem_of_cons]; done.
Qed.

End SpokeSample.

(** ** The theorems at the sample *)
Section Witnesses.
Import SpokeSample.

(** The final state stays abstract in these. *)
Lemma filled_status (s : spoke_pool toy_world) h :
  (∀ h, fills (events s) h = if bool_decide (fillStatus s h = Filled) then 1%nat else 0%nat) →
  fills (events s) h = 1%nat → fillStatus s h = Filled.
Proof. intros ->. by destruct (fillStatus s h). Qed.
Lemma executed_claimed (s : spoke_pool toy_world) id n : 0 ≤ id →
  (∀ id n, 0 ≤ id → executions (events s) id n =
     match rootBundles s !! Z.to_nat id with
     | Some b => if isClaimed (claimedBitmap b) n then 1%nat else 0%nat | None => 0%nat end) →
  executions (events s) id n = 1%nat → claimed s id n = 1%nat.
Proof. intros Hid Hcount Hone. unfold claimed. by rewrite <- (Hcount id n Hid). Qed.

Lemma evm_relay_filled_once_witness :
  fills (events final.2) (hash_of (W := toy_world) noted) = 1%nat ∧
  fillStatus final.2 (hash_of (W := toy_world) noted) = Filled ∧ Forall fair_fill (events final.2) ∧
  Forall (λ e, proven (W := toy_world) (events final.2) e.2) (events final.2).
Proof.
  pose proof (evm_relay_filled_once pool weth 600 21600 [] [] adversary 1000 start final.1 final.2
    (New_direct admin world) spoke_sample_steps) as (Hcount & Hfair & Hproven & _).
  pose proof spoke_sample_books as (Hone & _). split; [exact Hone|]. split; [|split; [exact Hfair|exact Hproven]].
  exact (filled_status final.2 (hash_of (W := toy_world) noted) Hcount Hone).
Defined.

Lemma refund_leaf_paid_once_witness :
  executions (events final.2) 0 300 = 1%nat ∧ claimed final.2 0 300 = 1%nat.
Proof.
  pose proof (refund_leaf_paid_once pool weth 600 21600 [] [] adversary 1000 start final.1 final.2
    (New_direct admin world) spoke_sample_steps) as (Hcount & _).
  pose proof spoke_sample_books as (_ & _ & _ & Hone & _). split; [exact Hone|].
  exact (executed_claimed final.2 0 300 (Z.le_refl 0) Hcount Hone).
Defined.

Lemma spoke_funds_accounted_witness :
  balanceOf (SpokePool.world final.2) dai pool = 688 ∧
  balanceOf (SpokePool.world start) dai pool + sumZ (map (λ e, booked dai e.2) (events final.2)) ≤
  balanceOf (SpokePool.world final.2) dai pool + sumZ (map (taken dai) (removed final.2)).
Proof.
  split; [exact (proj2 (proj2 (proj2 (proj2 spoke_sample_books))))|].
  exact (spoke_funds_accounted pool weth 600 21600 [] [] adversary 1000 start final.1 final.2
    adversary_keeps (New_direct admin world) spoke_sample_steps dai).
Defined.

Lemma proxy_pool_takes_no_deposits_witness :
  length (events proxy_final.2) = 3%nat ∧ owner proxy_final.2 = zero_address ∧
  ∀ s', exec pool weth 600 21600 [] [] adversary 5 (by_ user 1300) (C_depositV3 deposit_) proxy_final.2 ≠ Ok s'.
Proof.
  pose proof (proxy_pool_takes_no_deposits pool weth 600 21600 [] [] adversary 1000 1000000 admin admin world
    proxy_final.1 proxy_final.2 proxy_sample_steps) as (Howner & _ & _ & _ & Hfails).
  split; [exact proxy_sample_fills|]. split; [exact Howner|].
  intros s'. apply Hfails; [discriminate|reflexivity].
Defined.

Lemma ethereum_proxy_unmanaged_witness :
  length (events proxy_final.2) = 3%nat ∧ ∀ s',
  exec pool weth 600 21600 [] [] adversary 5 (by_ admin 1300) (C_relayRootBundle [] []) proxy_final.2 ≠ Ok s'.
Proof.
  split; [exact proxy_sample_fills|]. intros s'.
  apply (ethereum_proxy_unmanaged pool weth 600 21600 [] [] 1 adversary 1000 1000000 admin admin world
    proxy_final.1 proxy_final.2 proxy_sample_steps 5); [discriminate|reflexivity].
Defined.

Lemma erc7683_fill_reverts_witness :
  exec pool weth 600 21600 [] [] adversary 5 (by_ solver 1100)
    (C_fill (keccak (abi_relay other)) (abi_relay other) (abi_word 1)) start = Err (revert "LowLevelCallFailed").
Proof.
  refine (erc7683_fill_reverts pool weth 600 21600 [] [] adversary 4 (by_ solver 1100) other (abi_word 1) start
    _ _ _ _); [repeat (constructor; [vm_compute; reflexivity|]); constructor|reflexivity|left; reflexivity|reflexivity].
Defined.
End Witnesses.
