(* ===== verification/SpokePoolViews.v ===== *)
(** * The spoke pools implement the delivery of the small model

    [HubPoolAdmin.deliver] says what becomes of the deposit routes when the
    hub pool's messages arrive; the contracts of all chains, each executing
    the calls it is sent, do just that.  Together with [HubPoolViews] this
    carries the effect of the enable-token task through to the contracts. *)

From stdpp Require Import base gmap strings list.
From Stdlib Require Import ZArith Lia Strings.Byte.
From S2P Require Import Prelude Bytes JsText Interfaces HubPoolAdmin SvmSpoke Solidity HubWorld SpokePool SpokePoolSample.

Section Views.
Context {W : Type} `{!Keccak} `{Ht : !Tokens W} `{Hp : !SpokePeers W}.
(** The pool of each chain. *)
Context (child : Z → SpokeChild W) (this weth : Z → address) (quote_buffer deadline_buffer : Z) (name version : bytes).
Context (adversary : Z → spoke_pool W → external_call → option (list (action W))).
(** The account messages arrive from there, and when. *)
Context (message_sender : Z → address) (depth : nat) (now : Z).

Definition arriving (chain : Z) : message :=
  {| msg_sender := message_sender chain; msg_value := 0; block_time := now |}.

(** The call of the base contract that a message is; the others are of the
    contracts derived from it. *)
Definition call_of (c : spoke_call) : option call :=
  match c with SetEnableRoute token chain enabled => Some (C_setEnableRoute token chain enabled) | _ => None end.

(** A message arrives: a call that reverts changes nothing. *)
Definition receive (pools : Z → spoke_pool W) (x : Z * spoke_call) : Z → spoke_pool W :=
  match call_of x.2 with
  | Some c => λ chain, if decide (chain = x.1)
      then result_default (pools chain)
             (exec (Hc := child chain) (this chain) (weth chain) quote_buffer deadline_buffer name version
                (adversary chain) (S depth) (arriving chain) c (pools chain))
      else pools chain
  | None => pools
  end.

Definition routes_agree (r : gmap (Z * string * Z) bool) (pools : Z → spoke_pool W) : Prop :=
  ∀ chain token destination, default false (r !! (chain, token, destination)) =
    route_enabled (pools chain) token destination.

Definition message_fits (x : Z * spoke_call) : Prop :=
  match x.2 with SetEnableRoute _ destination _ => uint_fits 256 destination = true | _ => True end.

(** [setEnableRoute], as a transaction. *)
Lemma setEnableRoute_exec chain token destination enabled (s : spoke_pool W) :
  entered s = false → uint_fits 256 destination = true →
  let s' := result_default s (exec (Hc := child chain) (this chain) (weth chain) quote_buffer deadline_buffer name
              version (adversary chain) (S depth) (arriving chain) (C_setEnableRoute token destination enabled) s) in
  entered s' = false ∧ owner s' = owner s ∧
  enabledDepositRoutes s' =
    if bool_decide (message_sender chain = owner s)
    then <[(token, destination) := enabled]> (enabledDepositRoutes s) else enabledDepositRoutes s.
Proof.
  intros He Hfits. cbn [exec decodes payable arriving msg_value orb Z.eqb body]. rewrite Hfits.
  cbn [andb require result_bind]. unfold setEnableRoute, onlyOwner, nonReentrant. cbn [msg_sender].
  destruct (decide (message_sender chain = owner s)) as [Ho|Ho].
  - rewrite !bool_decide_eq_true_2 by done. cbn [require result_bind]. rewrite He. by split_and!.
  - rewrite !bool_decide_eq_false_2 by done. by split_and!.
Qed.

Lemma route_enabled_insert (s s' : spoke_pool W) token destination enabled t d :
  enabledDepositRoutes s' = <[(token, destination) := enabled]> (enabledDepositRoutes s) →
  route_enabled s' t d = if decide (t = token ∧ d = destination) then enabled else route_enabled s t d.
Proof.
  intros Hr. unfold route_enabled. rewrite Hr. destruct (decide (t = token ∧ d = destination)) as [[-> ->]|Hne].
  - by rewrite lookup_insert_eq.
  - rewrite lookup_insert_ne; [done|]. intros [= -> ->]. by apply Hne.
Qed.

Lemma receive_agrees r pools x : message_fits x → (∀ chain, entered (pools chain) = false) → routes_agree r pools →
  (∀ chain, entered (receive pools x chain) = false ∧ owner (receive pools x chain) = owner (pools chain)) ∧
  routes_agree (deliver (λ chain, owner (pools chain)) message_sender r x) (receive pools x).
Proof.
  destruct x as [chain c]. intros Hfits He Hr. destruct c as [token destination enabled| | | |]; try done.
  pose proof (setEnableRoute_exec chain token destination enabled (pools chain) (He chain) Hfits) as (H1 & H2 & H3).
  unfold receive. cbn [call_of fst snd]. split.
  - intros k. destruct (decide (k = chain)) as [->|]; [by split|]. by split.
  - intros k t d. cbn [deliver]. unfold obeys. destruct (decide (k = chain)) as [->|Hne].
    + destruct (bool_decide (message_sender chain = owner (pools chain))).
      * rewrite (route_enabled_insert _ _ _ _ _ _ _ H3). destruct (decide (t = token ∧ d = destination)) as [[-> ->]|Hn].
        -- by rewrite lookup_insert_eq.
        -- rewrite lookup_insert_ne; [apply Hr|]. intros [= -> ->]. by apply Hn.
      * unfold route_enabled. rewrite H3. apply Hr.
    + destruct (bool_decide _); [|apply Hr]. rewrite lookup_insert_ne; [apply Hr|]. congruence.
Qed.

(** C29. The contracts implement the delivery of messages in the small model:
    when the routes of the model and those stored by the pool of each chain
    agree and messages arrive in any order, each executed by the pool it is
    for, the routes agree again, a route changing exactly when the account
    the message arrives from owns the pool. *)
Theorem spoke_routes_refine r pools messages : Forall message_fits messages →
  (∀ chain, entered (pools chain) = false) → routes_agree r pools →
  routes_agree (deliver_all (λ chain, owner (pools chain)) message_sender r messages) (foldl receive pools messages).
Proof.
  unfold deliver_all. intros Hall. revert r pools. induction Hall as [|x l Hx Hall IH]; intros r pools He Hr; [done|].
  cbn [foldl]. destruct (receive_agrees r pools x Hx He Hr) as [Hk Hr'].
  assert (∀ l r, foldl (deliver (λ chain, owner (pools chain)) message_sender) r l =
                 foldl (deliver (λ chain, owner (receive pools x chain)) message_sender) r l) as ->.
  { clear -Hk. intros l. induction l as [|[k c] l IH]; intros r; [done|]. cbn [foldl]. rewrite IH. f_equal.
    destruct c; try done. cbn. unfold obeys. by rewrite (proj2 (Hk k)). }
  apply IH; [intros chain; apply Hk|exact Hr'].
Qed.
End Views.

(** ** At the sample *)
Section Witness.
Import SpokeSample.

Definition sample_pools (chain : Z) : spoke_pool toy_world := deployed_directly admin world.
Definition sample_messages : list (Z * spoke_call) :=
  [(1, SetEnableRoute dai 10 true); (10, SetEnableRoute dai 1 true); (1, SetEnableRoute dai 10 false);
   (1, SetEnableRoute weth 10 true)]%string.
(** The messages come from the owner on chain 1 only. *)
Definition sample_sender (chain : Z) : address := if chain =? 1 then admin else user.

Lemma spoke_routes_refine_witness :
  route_enabled (foldl (receive (λ _, child) (λ _, pool) (λ _, weth) 600 21600 [] [] (λ _, adversary) sample_sender 3 1000)
    sample_pools sample_messages 1) weth 10 = true ∧
  routes_agree (deliver_all (λ chain, owner (sample_pools chain)) sample_sender ∅ sample_messages)
    (foldl (receive (λ _, child) (λ _, pool) (λ _, weth) 600 21600 [] [] (λ _, adversary) sample_sender 3 1000)
       sample_pools sample_messages).
Proof.
  split; [vm_compute; reflexivity|].
  apply (spoke_routes_refine (λ _, child) (λ _, pool) (λ _, weth) 600 21600 [] [] (λ _, adversary) sample_sender 3 1000
    ∅ sample_pools sample_messages).
  - repeat (constructor; [vm_compute; reflexivity|]). constructor.
  - intros chain. reflexivity.
  - intros chain token destination. unfold route_enabled. cbn. by rewrite !lookup_empty.
Defined.
End Witness.
